(* ===== verification/_CoqProject ===== *)
-Q . S2P
Prelude.v
Order.v
Text.v
Models.v
Store.v
Registry.v
Crypto.v
Execution.v
Ownership.v
Claims.v
Jobs.v
Databases.v
Utilization.v
Instances.v
Members.v
Templates.v
Assignments.v
Workspaces.v
Listings.v
Config.v
Runtime.v
Schemas.v
Metrics.v
Program.v
Monitor.v
Replace.v
Json.v
Redaction.v
Ddl.v
InitialSchema.v
SchemaRows.v
SchemaEquivalence.v
Migrations.v
Auth.v
Coder.v
Diagnostics.v
Worker.v
TemplateSource.v
TemplateSourceProperties.v
Postgres.v
ArgoCd.v
ArgoCdClient.v
CoderClient.v
CoderClientProperties.v
Raises.v
Http.v
Routes.v
CoderService.v
CoderServiceProperties.v
InstanceTasks.v
WorkspaceTasks.v
TemplateTasks.v
InstanceTaskFacts.v
RemoteTaskFacts.v
System.v
Frames.v
Concrete.v
ReferentialActions.v
InstanceRemoval.v
MetricsProperties.v
AuthProperties.v
Logins.v
RouteProperties.v
Router.v
Handover.v
SystemProperties.v
Credentials.v
Fencing.v
ClaimProperties.v
Requests.v
RetryProperties.v
StepProperties.v
CryptoProperties.v
InstanceProperties.v
PublicUrls.v
ArgoCdPayloads.v
ArgoCdProperties.v
Lowering.v
LoweringProperties.v
Lifecycle.v
