(* ===== verification/Prelude.v ===== *)
(** * Coder Manager: a verification development

    Coder Manager (src/src/coder_manager/) runs Coder deployments for its users. A FastAPI
    application keeps instances, members, templates and workspaces in a PostgreSQL database; each
    request that needs background work stages a durable job in the transaction that changes the
    resource. Celery workers claim jobs, talk to Argo CD, to the Coder deployments, to Git and to
    managed PostgreSQL servers, and move each job through its steps. Messages may come late or
    twice and workers may die at any moment: claims carry an attempt number, and every later
    transaction of a worker checks it (fencing).

    ** How the program is modelled

    - The database is a [Store] (Models.v): a finite map per table. A session of the source is an
      [action] on it (Store.v): atomic, and without effect when it raises or violates a
      constraint. [Integrity] collects the check constraints, unique keys and foreign keys.
    - A process is a [prog] (Program.v): a tree of sessions and of requests to its environment.
      Between two sessions, other processes commit what they like ([Exec]); a request is answered
      by anything, unless a theorem says which answers it considers ([monitored], [fails]).
    - System.v puts API requests and workers together as a step relation over one store.

    ** Files, by part of the program

    Foundations: Prelude (this file: record update, error monads, lists), Order (ORDER BY and
    pages), Text and Replace (Python's string operations), Json (documents, HTTP requests), Program
    and Monitor (processes, and automata that watch their requests), Raises (which exceptions a
    session or process ends with), Concrete (a cipher, settings and stores for the witnesses).
    - models/: Models, Store. migrations/: Ddl (a catalogue, the operations of a migration, the
      meaning of constraints in three-valued logic), InitialSchema (upgrade and downgrade),
      SchemaRows (stored rows), SchemaEquivalence, ReferentialActions (what goes with a deleted
      row, by the keys of the schema), Migrations.
    - tasks/common/: Registry (task names), Execution (claims: claim, advance, complete, defer,
      fail, heartbeat, retry preparation, dispatch), Ownership, Claims (their lemmas).
    - repositories/: Jobs, Databases, Instances with Utilization, Members, Templates, Assignments,
      Workspaces, and Listings (the paginated lists).
    - crypto.py: Crypto. config.py and utils/instance_urls.py: Config, PublicUrls. schemas/:
      Schemas. auth.py: Auth. main.py: Auth (create_app, start-up, the guard of the routes),
      Redaction (validation errors).
    - api/: Http (what routes share), Routes (the 51 handlers), Router (their decorators, the
      routers and the prefix under which main.py includes them).
    - tasks/: Worker (requests, run_claimed_step, the periodic scans), InstanceTasks,
      WorkspaceTasks, TemplateTasks (all steps), with their invariants in InstanceTaskFacts and
      RemoteTaskFacts.
    - domains/coder/: Coder (data and operations of the client), CoderClient (the client, one HTTP
      program per method), CoderService (accounts, stops, deletions, pages), Diagnostics.
      domains/argocd/: ArgoCd (settings and payloads), ArgoCdPayloads, ArgoCdClient.
      domains/template_source/: TemplateSource. domains/postgresql/: Postgres.
    - Lowering: the requests of the workers replaced by the HTTP, Git and SQL programs of the
      domains.
    - metrics.py and the signal handlers of celery_app.py: Metrics. worker_database.py,
      database.py and the schedule of celery_app.py: Runtime.

    - System, with Frames (what a relation on stores needs to be kept by every step of the system,
      from its sessions one by one; no database is overbooked) and its second use Credentials.

    Definitions keep the names of the source where Rocq allows it.

    ** What the theorems show

    - State (SystemProperties, Frames, Requests, Fencing, ClaimProperties, Handover,
      RetryProperties, StepProperties): every reachable store satisfies the constraints and binds
      each resource at work to one job; the system refines the workflow of each job, an automaton
      over its tasks and statuses (Ownership); no database is overbooked; claims are exclusive and
      numbered; a worker that has lost its claim changes nothing (and where it does); messages
      are sent after their commit; the scan recovers what was lost.
    - Life of an instance (Credentials, InstanceRemoval): a deployment is offered one password
      for its first user, whatever dies in between; the last step of a deletion is never refused
      and leaves nothing that names the instance.
    - Schema (SchemaEquivalence, ReferentialActions, Migrations): the migration creates a database
      that admits exactly the stores with [Integrity]; the deletions that Store.v writes out are
      those of its CASCADE, SET NULL and RESTRICT keys; and it is undone without remainder.
    - API (Router, RouteProperties, AuthProperties, Redaction, Schemas, Listings, Lifecycle,
      InstanceProperties): that each function is reached under its own path,
      who is let in, which payloads are accepted, what every refusal is
      answered with, that pages neither lose nor repeat rows, when requests are accepted, and
      where an instance is placed.
    - Remote systems (Logins, CoderClientProperties, CoderServiceProperties, ArgoCdProperties,
      ArgoCdPayloads, TemplateSourceProperties, Diagnostics): what is sent to which system after
      which answers, that payloads are read back, that archives are confined, and that secrets are
      not shown.
    - Composition (LoweringProperties): what holds of the workers against the contract of the
      domains holds of what is sent; tokens go to the deployment that issued them only.
    - Secrets (CryptoProperties) and observation (MetricsProperties, Runtime).

    ** Bounds and fuel

    The [while] loops of domains/coder/service.py and of the template publication end by what a
    deployment answers or by the clock. A loop may make [rounds] rounds and then raises
    [OutOfFuel]; [rounds] is universally quantified, so every finite execution of the source is an
    execution of the model for some [rounds], and [all_workspaces_complete] shows that the
    pagination of a list of [n] workspaces needs no more than [n / 100 + 1] of them. The drawing
    of unused slugs raises [STILL_DRAWING] when the supplied draws are used up. All other
    recursion is structural.

    ** What is assumed

    - Sessions are atomic, as the row locks of the source make them; a commit refuses a store
      that violates a constraint. SQL compares strings by bytes and enums by declaration.
    - Fresh identifiers, nonces, slugs and the clock are requests or arguments. The clock, poll
      intervals and durations are integers.
    - Case and white space are those of ASCII. JSON objects have distinct keys. Sets are iterated
      in the order of insertion.
    - Parameters stand for code of other parties: AES-GCM (laws [AESGCMLaws]), Pydantic's options
      ([PydanticLaws]), Starlette's choice of a
      route and Pydantic's reading of an identifier ([RoutingLaws]), PyJWT and httpx's URLs, [urllib]'s check of a network location
      ([netloc_ok]), the tar format, the quotation of SQL identifiers, SQLAlchemy's URLs. An HTTP
      transport raises [HTTPError] only; Git and the file system answer or fail as Python
      documents.
    - A client of Coder makes its anonymous requests first and logs in at most once, as every
      caller does, so that the tokens of a task are known by the URL of the instance.

    ** Not modelled

    The lengths of VARCHAR and the range of INTEGER columns, and the audit columns ([stamp] stands
    for them in SchemaRows); truncation of identifiers. Pydantic's parsing of JSON, SQLAlchemy,
    Celery, the exposition of Prometheus and the dependency injection of FastAPI are libraries, and
    with them go the parts of the source that only call them: the creation of clients and their
    closing, repository constructors, the [enum_values] of the models, migrations/env.py and the
    rest of [create_app]. Package exports are lists of names, and the exception classes are the
    constructors of [Exn]. The messages of the small functions that build an [HTTPException] are
    written where they are used. Generated OpenAPI texts, logging, the development server and the
    documentation are left out. *)
From stdpp Require Export base tactics option list sorting strings gmap fin_maps.
From Stdlib Require Export ZArith Lia.

(** ** Record update

    [r <| p := v |>] is the record [r] with the field of projection [p] replaced, as the
    attribute assignment [r.p = v] of the source does it. *)
Class Eta (R : Type) := eta_record : R -> R.
Class Setter {R T : Type} (p : R -> T) := set : (T -> T) -> R -> R.
Arguments set {R T} p {_} f r.

Ltac derive_setter p :=
  lazymatch type of p with
  | ?R -> _ =>
      let inst := constr:(_ : Eta R) in
      let body := eval hnf in inst in
      lazymatch eval pattern p in body with
      | ?context_of _ => exact (fun f => context_of (fun r => f (p r)))
      end
  end.

#[export] Hint Extern 0 (Setter ?p) => derive_setter p : typeclass_instances.

Declare Scope record_scope.
Delimit Scope record_scope with record.
Notation "r <| p := v |>" := (set p (fun _ => v) r)
  (at level 1, p at level 11, left associativity, only parsing) : record_scope.
Open Scope record_scope.

(** ** Equality tests of the source as booleans *)
Declare Scope py_scope.
Delimit Scope py_scope with py.
Notation "x == y" := (bool_decide (x = y)) (at level 70, no associativity) : py_scope.
Notation "x != y" := (negb (bool_decide (x = y))) (at level 70, no associativity) : py_scope.
Open Scope py_scope.

(** [is_none]/[is_some]: the tests [x is None] and [x is not None]. *)
Definition is_some {A} (o : option A) : bool := match o with Some _ => true | None => false end.
Definition is_none {A} (o : option A) : bool := negb (is_some o).

(** [member x l]: [x in {a, b, ...}] for a literal set. *)
Definition member `{EqDecision A} (x : A) (l : list A) : bool := bool_decide (x ∈ l).

(** ** State and error monad

    An [action S E A] is a computation over a store [S] that fails with an [E] or returns an [A]
    and the new store. The store of a failed computation is lost. *)
Definition action (S E A : Type) : Type := S -> E + (A * S).

#[export] Instance action_ret {S E} : MRet (action S E) := fun A a s => inr (a, s).
#[export] Instance action_bind {S E} : MBind (action S E) :=
  fun A B k m s => match m s with inl e => inl e | inr (a, s') => k a s' end.

Definition throw {S E A} (e : E) : action S E A := fun _ => inl e.
Definition gets {S E A} (f : S -> A) : action S E A := fun s => inr (f s, s).
Definition modify {S E} (f : S -> S) : action S E unit := fun s => inr (tt, f s).
(** [require b e]: the early exit [if not b: raise e]. *)
Definition require {S E} (b : bool) (e : E) : action S E unit :=
  fun s => if b then inr (tt, s) else inl e.
(** [found o e]: the value of [o], or the early exit [if o is None: raise e]. *)
Definition found {S E A} (o : option A) (e : E) : action S E A :=
  fun s => match o with Some a => inr (a, s) | None => inl e end.

Section ActionInversion.
Context {S E : Type}.
Implicit Types (s : S).

Lemma bind_inr {A B} (m : action S E A) (k : A -> action S E B) s b s' :
  (m ≫= k) s = inr (b, s') <-> exists a s1, m s = inr (a, s1) /\ k a s1 = inr (b, s').
Proof.
  unfold mbind, action_bind. destruct (m s) as [e | [a s1]].
  - split; [discriminate | intros (a & s1 & H & _); discriminate].
  - split; [intros H; eauto | intros (a' & s1' & H & H'); congruence].
Qed.

Lemma bind_inl {A B} (m : action S E A) (k : A -> action S E B) s e :
  (m ≫= k) s = inl e <->
  m s = inl e \/ exists a s1, m s = inr (a, s1) /\ k a s1 = inl e.
Proof.
  unfold mbind, action_bind. destruct (m s) as [e' | [a s1]].
  - split; [intros [= ->]; auto | intros [[= ->] | (a & s1 & H & _)]; [done | discriminate]].
  - split; [intros H; right; eauto | intros [H | (a' & s1' & H & H')]; congruence].
Qed.

Lemma require_inr b (e : E) s u s' :
  require b e s = inr (u, s') <-> b = true /\ s' = s.
Proof. unfold require. destruct b, u; split; [by intros [= ->] | by intros [_ ->] | done | by intros [? _]]. Qed.

Lemma require_inl b (e e' : E) s : require b e s = inl e' <-> b = false /\ e' = e.
Proof. unfold require. destruct b; split; [done | by intros [? _] | by intros [= ->] | by intros [_ ->]]. Qed.

Lemma found_inr {A} (o : option A) (e : E) s a s' :
  found o e s = inr (a, s') <-> o = Some a /\ s' = s.
Proof. unfold found. destruct o; split; [by intros [= -> ->] | by intros [[= ->] ->] | done | by intros [? _]]. Qed.

Lemma found_inl {A} (o : option A) (e e' : E) s :
  found o e s = inl e' <-> o = None /\ e' = e.
Proof. unfold found. destruct o; split; [done | by intros [? _] | by intros [= ->] | by intros [_ ->]]. Qed.

Lemma gets_inr {A} (f : S -> A) s a s' :
  @gets S E A f s = inr (a, s') <-> a = f s /\ s' = s.
Proof. unfold gets. split; [by intros [= -> ->] | by intros [-> ->]]. Qed.

Lemma modify_inr (f : S -> S) s u s' :
  @modify S E f s = inr (u, s') <-> s' = f s.
Proof. unfold modify. destruct u. split; [by intros [= ->] | by intros ->]. Qed.

Lemma ret_inr {A} (a b : A) s s' :
  @mret (action S E) _ A a s = inr (b, s') <-> b = a /\ s' = s.
Proof. unfold mret, action_ret. split; [by intros [= -> ->] | by intros [-> ->]]. Qed.

Lemma throw_inr {A} (e : E) s (a : A) s' : throw e s = inr (a, s') <-> False.
Proof. unfold throw. split; done. Qed.
End ActionInversion.

(** [action_inv H] takes a hypothesis [m s = inr (a, s')] apart along the binds of [m], leaving
    the guards passed and the values read. *)
Ltac action_inv_step :=
  match goal with
  | H : (_ ≫= _) _ = inr _ |- _ =>
      apply bind_inr in H; destruct H as (? & ? & ? & ?)
  | H : require _ _ _ = inr _ |- _ => apply require_inr in H; destruct H as [? ->]
  | H : found _ _ _ = inr _ |- _ => apply found_inr in H; destruct H as [? ->]
  | H : gets _ _ = inr _ |- _ => apply gets_inr in H; destruct H as [-> ->]
  | H : modify _ _ = inr (_, ?s) |- _ => apply modify_inr in H; try subst s
  | H : mret _ _ = inr _ |- _ => apply ret_inr in H; destruct H as [-> ->]
  | H : throw _ _ = inr _ |- _ => apply throw_inr in H; destruct H
  end.
Ltac action_inv := repeat action_inv_step.

(** ** Exceptions that propagate *)
#[export] Instance except_bind {E} : MBind (sum E) :=
  fun A B k m => match m with inl e => inl e | inr a => k a end.
#[export] Instance except_ret {E} : MRet (sum E) := @inr E.

Lemma except_bind_inr {E A B} (m : E + A) (k : A -> E + B) b :
  m ≫= k = inr b -> exists a, m = inr a /\ k a = inr b.
Proof. destruct m as [e | a]; cbn; [done | eauto]. Qed.
Lemma except_bind_inl {E A B} (m : E + A) (k : A -> E + B) e :
  m ≫= k = inl e -> m = inl e \/ exists a, m = inr a /\ k a = inl e.
Proof. destruct m as [e' | a]; cbn; [intros [= ->]; by left | eauto]. Qed.
(** [except_inv H] takes [H : m = inr a] apart along the binds of [m]. *)
Ltac except_inv H :=
  repeat match type of H with
  | _ ≫= _ = inr _ => apply except_bind_inr in H as (? & ? & H)
  end.

(** ** Booleans as propositions *)
Lemma member_true `{EqDecision A} (x : A) l : member x l = true <-> x ∈ l.
Proof. apply bool_decide_eq_true. Qed.
Lemma member_false `{EqDecision A} (x : A) l : member x l = false <-> x ∉ l.
Proof. apply bool_decide_eq_false. Qed.
Lemma is_some_true {A} (o : option A) : is_some o = true <-> exists a, o = Some a.
Proof. destruct o; cbn; split; [eauto | done | done | by intros [? ?]]. Qed.
Lemma is_some_false {A} (o : option A) : is_some o = false <-> o = None.
Proof. by destruct o. Qed.
Lemma is_none_true {A} (o : option A) : is_none o = true <-> o = None.
Proof. by destruct o. Qed.
Lemma is_none_false {A} (o : option A) : is_none o = false <-> exists a, o = Some a.
Proof. destruct o; cbn; split; [eauto | done | done | by intros [? ?]]. Qed.

(** [bool_hyps] turns boolean hypotheses into the propositions they test. *)
Ltac bool_hyp_step :=
  match goal with
  | H : negb _ = true |- _ => apply negb_true_iff in H
  | H : negb _ = false |- _ => apply negb_false_iff in H
  | H : _ && _ = true |- _ => apply andb_true_iff in H; destruct H
  | H : _ || _ = false |- _ => apply orb_false_iff in H; destruct H
  | H : _ && _ = false |- _ => apply andb_false_iff in H
  | H : _ || _ = true |- _ => apply orb_true_iff in H
  | H : bool_decide _ = true |- _ => apply bool_decide_eq_true in H
  | H : bool_decide _ = false |- _ => apply bool_decide_eq_false in H
  | H : member _ _ = true |- _ => apply member_true in H
  | H : member _ _ = false |- _ => apply member_false in H
  | H : is_none _ = true |- _ => apply is_none_true in H
  | H : is_some _ = false |- _ => apply is_some_false in H
  | H : Z.leb _ _ = true |- _ => apply Z.leb_le in H
  | H : Z.leb _ _ = false |- _ => apply Z.leb_gt in H
  | H : Z.ltb _ _ = true |- _ => apply Z.ltb_lt in H
  | H : Z.ltb _ _ = false |- _ => apply Z.ltb_ge in H
  end.
Ltac bool_hyps := repeat bool_hyp_step.

(** ** Sorting by a boolean order, as [order_by] and [sorted] do *)
Definition sort_by {A} (leb : A -> A -> bool) (l : list A) : list A :=
  @merge_sort A (fun a b => leb a b = true) (fun a b => decide (leb a b = true)) l.

Lemma sort_by_permutation {A} (leb : A -> A -> bool) l : sort_by leb l ≡ₚ l.
Proof. apply merge_sort_Permutation. Qed.

Lemma elem_of_sort_by {A} (leb : A -> A -> bool) l a : a ∈ sort_by leb l <-> a ∈ l.
Proof. by rewrite sort_by_permutation. Qed.

Lemma sort_by_sorted {A} (leb : A -> A -> bool) l :
  (forall a b c, leb a b = true -> leb b c = true -> leb a c = true) ->
  (forall a b, leb a b = true \/ leb b a = true) ->
  StronglySorted (fun a b => leb a b = true) (sort_by leb l).
Proof.
  intros Ht Hc.
  assert (Transitive (fun a b => leb a b = true)) by (intros a b c; apply Ht).
  assert (Total (fun a b => leb a b = true)) by (intros a b; apply Hc).
  unfold sort_by. by apply (StronglySorted_merge_sort (fun a b => leb a b = true)).
Qed.

(** The function of an application. *)
Ltac head_of t := lazymatch t with ?f _ => head_of f | _ => t end.
