(* ===== verification/Order.v ===== *)
(** * Order: [ORDER BY], [OFFSET] and [LIMIT]

    A sort key is a comparison; a list of keys is compared lexicographically. A listing that ends
    on the primary key has one order only, and its pages cut it into consecutive pieces. *)
From S2P Require Import Prelude.
From Stdlib Require Import Ascii String.

(** ** Comparisons *)
Class Ordering {A} (cmp : A -> A -> comparison) : Prop := {
  cmp_opp : forall a b, cmp b a = CompOpp (cmp a b);
  cmp_eq : forall a b c, cmp a b = Eq -> cmp a c = cmp b c;
  cmp_lt : forall a b c, cmp a b = Lt -> cmp b c = Lt -> cmp a c = Lt
}.

(** A column, and a further column for the rows that the first does not tell apart. *)
Definition by_key {A K} (cmp : K -> K -> comparison) (f : A -> K) : A -> A -> comparison :=
  fun a b => cmp (f a) (f b).
Definition then_by {A} (c1 c2 : A -> A -> comparison) : A -> A -> comparison :=
  fun a b => match c1 a b with Eq => c2 a b | c => c end.
Definition leb_of {A} (cmp : A -> A -> comparison) (a b : A) : bool :=
  match cmp a b with Gt => false | _ => true end.

#[export] Instance by_key_ordering {A K} cmp (f : A -> K) : Ordering cmp -> Ordering (by_key cmp f).
Proof.
  intros Hc. unfold by_key. split; intros.
  - apply cmp_opp.
  - by apply cmp_eq.
  - by eapply cmp_lt.
Qed.

Lemma cmp_eq_r {A} cmp `{Ordering A cmp} a b c : cmp b c = Eq -> cmp a b = cmp a c.
Proof. intros E. rewrite (cmp_opp b a), (cmp_opp c a). by rewrite (cmp_eq b c a). Qed.

#[export] Instance then_by_ordering {A} (c1 c2 : A -> A -> comparison) :
  Ordering c1 -> Ordering c2 -> Ordering (then_by c1 c2).
Proof.
  intros H1 H2. unfold then_by. split.
  - intros a b. rewrite (cmp_opp (cmp := c1) a b). destruct (c1 a b); cbn; [apply cmp_opp | done..].
  - intros a b c. destruct (c1 a b) eqn:E; [| done..]. intros E2.
    rewrite (cmp_eq a b c E). by rewrite (cmp_eq a b c E2).
  - intros a b c. destruct (c1 a b) eqn:E1; [| | done].
    + rewrite (cmp_eq a b c E1). destruct (c1 b c); [apply cmp_lt | done..].
    + intros _. destruct (c1 b c) eqn:E2; [| | done].
      * by rewrite <- (cmp_eq_r c1 a b c E2), E1.
      * by rewrite (cmp_lt a b c E1 E2).
Qed.

#[export] Instance N_ordering : Ordering N.compare.
Proof.
  split.
  - intros a b. apply N.compare_antisym.
  - intros a b c H. apply N.compare_eq_iff in H as ->. done.
  - intros a b c H H'. apply N.compare_lt_iff in H, H'. apply N.compare_lt_iff. by etrans.
Qed.

Lemma string_compare_refl s : String.compare s s = Eq.
Proof. pose proof (String.compare_antisym s s) as H. by destruct (String.compare s s). Qed.

#[export] Instance string_ordering : Ordering String.compare.
Proof.
  split.
  - intros a b. apply String.compare_antisym.
  - intros a b c H. apply String.compare_eq_iff in H as ->. done.
  - intros a. induction a as [|x a IH]; intros [|y b] [|z c]; cbn; try done.
    unfold Ascii.compare.
    destruct (N.compare_spec (N_of_ascii x) (N_of_ascii y)) as [E | E | E]; [| | done];
      destruct (N.compare_spec (N_of_ascii y) (N_of_ascii z)) as [E' | E' | E']; try done.
    + rewrite (proj2 (N.compare_eq_iff _ _)) by congruence. apply IH.
    + rewrite (proj2 (N.compare_lt_iff _ _)) by congruence. done.
    + rewrite (proj2 (N.compare_lt_iff _ _)) by congruence. done.
    + rewrite (proj2 (N.compare_lt_iff _ _)) by lia. done.
Qed.

Lemma leb_of_total {A} cmp `{Ordering A cmp} a b : leb_of cmp a b = true \/ leb_of cmp b a = true.
Proof. unfold leb_of. rewrite (cmp_opp a b). destruct (cmp a b); cbn; auto. Qed.

Lemma leb_of_trans {A} cmp `{Ordering A cmp} a b c :
  leb_of cmp a b = true -> leb_of cmp b c = true -> leb_of cmp a c = true.
Proof.
  unfold leb_of. destruct (cmp a b) eqn:E1; [| | done].
  - by rewrite (cmp_eq a b c E1).
  - destruct (cmp b c) eqn:E2; [| | done].
    + by rewrite <- (cmp_eq_r cmp a b c E2), E1.
    + by rewrite (cmp_lt a b c E1 E2).
Qed.

(** [order_by]: the rows in ascending order of the keys. *)
Definition order_by {A} (cmp : A -> A -> comparison) (rows : list A) : list A :=
  sort_by (leb_of cmp) rows.

Lemma order_by_permutation {A} (cmp : A -> A -> comparison) l : order_by cmp l ≡ₚ l.
Proof. apply sort_by_permutation. Qed.

Lemma order_by_sorted {A} cmp `{Ordering A cmp} l :
  StronglySorted (fun a b => leb_of cmp a b = true) (order_by cmp l).
Proof. apply sort_by_sorted; [apply leb_of_trans, _ | apply leb_of_total, _]. Qed.

Lemma sorted_unique {A} cmp `{Ordering A cmp} (k k' : list A) :
  StronglySorted (fun a b => leb_of cmp a b = true) k ->
  StronglySorted (fun a b => leb_of cmp a b = true) k' ->
  (forall a b, a ∈ k -> b ∈ k -> cmp a b = Eq -> a = b) -> k ≡ₚ k' -> k = k'.
Proof.
  revert k'. induction k as [|a k IH]; intros [|b k'] Hs Hs' Hkey Hkk'; try done.
  - by apply Permutation_nil_cons in Hkk'.
  - symmetry in Hkk'. by apply Permutation_nil_cons in Hkk'.
  - apply StronglySorted_inv in Hs as [Hs Ha], Hs' as [Hs' Hb].
    rewrite Forall_forall in Ha, Hb.
    assert (Hain : a ∈ b :: k') by (rewrite <- Hkk'; left).
    assert (Hbin : b ∈ a :: k) by (rewrite Hkk'; left).
    assert (a = b) as <-.
    { apply elem_of_cons in Hain as [-> | Hain]; [done |].
      apply elem_of_cons in Hbin as [-> | Hbin]; [done |].
      apply Hkey; [left | by right |].
      specialize (Ha b Hbin). specialize (Hb a Hain). unfold leb_of in *.
      rewrite (cmp_opp a b) in Hb. by destruct (cmp a b). }
    f_equal. apply IH; [done | done | | by eapply Permutation_cons_inv].
    intros x y Hx Hy. apply Hkey; by right.
Qed.

(** Keys that tell all rows apart leave one order only, whatever order the rows come in. *)
Lemma order_by_unique {A} cmp `{Ordering A cmp} l l' :
  (forall a b, a ∈ l -> b ∈ l -> cmp a b = Eq -> a = b) ->
  l ≡ₚ l' -> order_by cmp l = order_by cmp l'.
Proof.
  intros Hk Hp. apply (sorted_unique cmp); [apply order_by_sorted, _ | apply order_by_sorted, _ | |].
  - intros a b. rewrite !order_by_permutation. apply Hk.
  - by rewrite !order_by_permutation.
Qed.

(** ** Pages *)
Record Page (A : Type) := mkListed {
  listed_items : list A;
  listed_page : nat;
  listed_page_size : nat;
  listed_total : nat;
  listed_pages : nat
}.
Arguments mkListed {A}.
Arguments listed_items {A}.
Arguments listed_page {A}.
Arguments listed_page_size {A}.
Arguments listed_total {A}.
Arguments listed_pages {A}.

(** [.offset((page - 1) * page_size).limit(page_size)], and [(total + page_size - 1) // page_size]. *)
Definition slice {A} (page page_size : nat) (rows : list A) : list A :=
  take page_size (drop ((page - 1) * page_size) rows).
Definition pages_of (total page_size : nat) : nat := (total + page_size - 1) / page_size.

Lemma pages_of_0 n : n <> 0 -> pages_of 0 n = 0.
Proof. intros Hn. unfold pages_of. apply Nat.div_small. lia. Qed.

(** One more full page. *)
Lemma pages_of_more t n : n <> 0 -> n < t -> pages_of t n = S (pages_of (t - n) n).
Proof.
  intros Hn Ht. unfold pages_of.
  replace (t + n - 1) with (t - n + n - 1 + 1 * n) by lia. rewrite Nat.div_add by done. lia.
Qed.

Lemma pages_of_last t n : t <> 0 -> t <= n -> pages_of t n = 1.
Proof.
  intros Ht Hn. unfold pages_of. symmetry. apply (Nat.div_unique _ _ 1 (t - 1)); lia.
Qed.

(** The pages cut a listing into consecutive pieces. *)
Lemma slices_concat {A} n (rows : list A) :
  n <> 0 ->
  List.concat (map (fun p => slice p n rows) (seq 1 (pages_of (List.length rows) n))) = rows.
Proof.
  intros Hn. remember (List.length rows) as t eqn:Et. revert rows Et.
  induction t as [t IH] using lt_wf_ind; intros rows Et.
  destruct (decide (t = 0)) as [-> | Ht].
  { rewrite pages_of_0 by done. by destruct rows. }
  destruct (decide (t <= n)) as [Hle | Hgt].
  { rewrite pages_of_last by done. cbn. rewrite app_nil_r. unfold slice. cbn.
    rewrite drop_0, take_ge; [done | lia]. }
  rewrite pages_of_more by lia. cbn [seq map List.concat].
  transitivity (take n rows ++ drop n rows); [| apply take_drop].
  f_equal.
  rewrite <- (IH (t - n) ltac:(lia) (drop n rows)) by (rewrite length_drop; lia).
  f_equal. rewrite <- seq_shift, map_map. apply map_ext_in. intros p Hp%in_seq.
  unfold slice. rewrite drop_drop. do 2 f_equal. nia.
Qed.

(** A page beyond the last one is empty. *)
Lemma slice_beyond {A} p n (rows : list A) :
  n <> 0 -> pages_of (List.length rows) n < p -> slice p n rows = [].
Proof.
  intros Hn Hp. unfold slice. rewrite drop_ge; [by rewrite take_nil |].
  unfold pages_of in Hp.
  pose proof (Nat.div_mod (List.length rows + n - 1) n Hn) as E.
  pose proof (Nat.mod_upper_bound (List.length rows + n - 1) n Hn). nia.
Qed.

Lemma then_by_eq {A} (c1 c2 : A -> A -> comparison) a b :
  then_by c1 c2 a b = Eq <-> c1 a b = Eq /\ c2 a b = Eq.
Proof. unfold then_by. destruct (c1 a b); naive_solver. Qed.

(** Distinct rows that the keys tell apart are listed in strictly ascending order. *)
Lemma order_by_strict {A} cmp `{Ordering A cmp} l :
  NoDup l -> (forall a b, a ∈ l -> b ∈ l -> cmp a b = Eq -> a = b) ->
  StronglySorted (fun a b => cmp a b = Lt) (order_by cmp l).
Proof.
  intros Hn Hk.
  assert (Hn' : NoDup (order_by cmp l)) by by rewrite order_by_permutation.
  assert (Hk' : forall a b, a ∈ order_by cmp l -> b ∈ order_by cmp l -> cmp a b = Eq -> a = b)
    by (intros a b; rewrite !order_by_permutation; apply Hk).
  pose proof (order_by_sorted cmp l) as Hs. revert Hn' Hk' Hs.
  induction (order_by cmp l) as [|a k IH]; intros Hn' Hk' Hs; constructor.
  - apply NoDup_cons in Hn' as [_ Hn']. apply StronglySorted_inv in Hs as [Hs _].
    apply IH; [done | | done]. intros x y Hx Hy. apply Hk'; by right.
  - apply NoDup_cons in Hn' as [Ha _]. apply StronglySorted_inv in Hs as [_ Hs].
    rewrite Forall_forall in Hs |- *. intros b Hb. specialize (Hs b Hb). unfold leb_of in Hs.
    destruct (cmp a b) eqn:E; [| done | done]. apply Hk' in E; [by subst | left | by right].
Qed.
