(* ===== verification/Text.v ===== *)
(** * Text: the string operations of Python and of SQL that the program uses

    A Python [str] is represented by the [string] of its UTF-8 bytes. [py_len] counts code points.
    Case conversion and whitespace are those of ASCII characters: bytes of non-ASCII characters
    are left alone, so the development says nothing of non-ASCII letters and blanks. The order of
    UTF-8 byte strings is the order of code points, which is Python's string order. *)
From S2P Require Import Prelude.
From Stdlib Require Import Ascii String.
Open Scope string_scope.

Abbreviation chars := list_ascii_of_string.
Abbreviation unchars := string_of_list_ascii.

Definition in_range (lo hi : N) (c : ascii) : bool :=
  (N.leb lo (N_of_ascii c) && N.leb (N_of_ascii c) hi)%bool.

(** [len(s)]: code points are the bytes that are not UTF-8 continuation bytes. *)
Definition py_len (s : string) : nat :=
  List.length (List.filter (fun c => negb (in_range 128 191 c)) (chars s)).

Definition char_lower (c : ascii) : ascii :=
  if in_range 65 90 c then ascii_of_N (N_of_ascii c + 32) else c.
Definition char_upper (c : ascii) : ascii :=
  if in_range 97 122 c then ascii_of_N (N_of_ascii c - 32) else c.

Definition str_lower (s : string) : string := unchars (map char_lower (chars s)).
Definition str_upper (s : string) : string := unchars (map char_upper (chars s)).

(** ASCII characters that [str.isspace] accepts. *)
Definition is_space (c : ascii) : bool := (in_range 9 13 c || in_range 28 32 c)%bool.

Fixpoint drop_while {A} (p : A -> bool) (l : list A) : list A :=
  match l with
  | [] => []
  | x :: l' => if p x then drop_while p l' else l
  end.
Definition strip_by {A} (p : A -> bool) (l : list A) : list A :=
  reverse (drop_while p (reverse (drop_while p l))).

(** [str.strip()], and SQL's [trim], which removes the space character only. *)
Definition str_strip (s : string) : string := unchars (strip_by is_space (chars s)).
Definition sql_trim (s : string) : string := unchars (strip_by (in_range 32 32) (chars s)).

(** [s.startswith(p)], [s.endswith(p)] and [p in s] *)
Definition starts_with (p s : string) : bool := String.prefix p s.
Definition ends_with (p s : string) : bool :=
  bool_decide (reverse (take (String.length p) (reverse (chars s))) = chars p).
Fixpoint includes (p : string) (s : string) : bool :=
  (String.prefix p s || match s with EmptyString => false | String _ s' => includes p s' end)%bool.

(** [text.rstrip("/")] *)
Definition rstrip_slash (s : string) : string :=
  unchars (reverse (drop_while (Ascii.eqb "/") (reverse (chars s)))).

(** [uuid.hex]: 32 lowercase hexadecimal digits, most significant first. *)
Definition hex_digit (n : N) : ascii :=
  if N.ltb n 10 then ascii_of_N (48 + n) else ascii_of_N (87 + n).
Fixpoint hex_digits (k : nat) (n : N) (acc : string) : string :=
  match k with
  | O => acc
  | S k' => hex_digits k' (N.div n 16) (String (hex_digit (N.modulo n 16)) acc)
  end.
Definition uuid_hex (u : N) : string := hex_digits 32 u "".

(** [str(uuid)]: the digits in groups of 8, 4, 4, 4 and 12. *)
Definition uuid_str (u : N) : string :=
  let h := uuid_hex u in
  substring 0 8 h ++ "-" ++ substring 8 4 h ++ "-" ++ substring 12 4 h ++ "-"
  ++ substring 16 4 h ++ "-" ++ substring 20 12 h.

(** ** Facts *)
Lemma chars_unchars l : chars (unchars l) = l.
Proof. apply list_ascii_of_string_of_list_ascii. Qed.

Lemma chars_app s t : chars (s ++ t) = (chars s ++ chars t)%list.
Proof. induction s as [|c s IH]; [done |]. exact (f_equal (cons c) IH). Qed.

Lemma py_len_app s t : py_len (s ++ t) = py_len s + py_len t.
Proof. unfold py_len. rewrite chars_app, List.filter_app, length_app. done. Qed.

Lemma unchars_inj l l' : unchars l = unchars l' -> l = l'.
Proof. intros H. by rewrite <- (chars_unchars l), H, chars_unchars. Qed.

Lemma hex_digit_inj n m :
  (n < 16)%N -> (m < 16)%N -> hex_digit n = hex_digit m -> n = m.
Proof.
  intros Hn Hm H.
  assert (Hall : forall a b, (a < 16)%nat -> (b < 16)%nat ->
    hex_digit (N.of_nat a) = hex_digit (N.of_nat b) -> a = b).
  { do 16 (destruct a as [|a]; [do 16 (destruct b as [|b]; [done|]); lia|]). lia. }
  specialize (Hall (N.to_nat n) (N.to_nat m)). rewrite !N2Nat.id in Hall.
  apply N2Nat.inj, Hall; [lia | lia | done].
Qed.

Lemma hex_digits_inj k n m acc acc' :
  (n < 16 ^ N.of_nat k)%N -> (m < 16 ^ N.of_nat k)%N ->
  hex_digits k n acc = hex_digits k m acc' ->
  String.length acc = String.length acc' -> n = m /\ acc = acc'.
Proof.
  revert n m acc acc'. induction k as [|k IH]; intros n m acc acc' Hn Hm H Hlen.
  { cbn in *. split; [lia | done]. }
  rewrite Nat2N.inj_succ, N.pow_succ_r' in Hn, Hm. cbn [hex_digits] in H.
  apply IH in H as [Hq [= Hr Hacc]].
  - split; [| done].
    apply hex_digit_inj in Hr; [| apply N.mod_lt; lia..].
    rewrite (N.div_mod n 16), (N.div_mod m 16) by lia. congruence.
  - apply N.Div0.div_lt_upper_bound; lia.
  - apply N.Div0.div_lt_upper_bound; lia.
  - cbn. congruence.
Qed.

(** Distinct 128-bit identifiers have distinct hexadecimal texts. *)
Lemma uuid_hex_inj u v :
  (u < 2 ^ 128)%N -> (v < 2 ^ 128)%N -> uuid_hex u = uuid_hex v -> u = v.
Proof.
  intros Hu Hv H.
  eapply hex_digits_inj in H as [H _]; [done | | | done];
    change (16 ^ N.of_nat 32)%N with (2 ^ 128)%N; done.
Qed.

(** ** Stripping *)
Lemma drop_while_map {A} (p : A -> bool) (f : A -> A) l :
  (forall c, p (f c) = p c) -> drop_while p (map f l) = map f (drop_while p l).
Proof. intros Hp. induction l as [|c l IH]; cbn; [done |]. rewrite Hp. by destruct (p c). Qed.

Lemma strip_by_map {A} (p : A -> bool) (f : A -> A) l :
  (forall c, p (f c) = p c) -> strip_by p (map f l) = map f (strip_by p l).
Proof.
  intros Hp. unfold strip_by. rewrite drop_while_map by done. rewrite <- fmap_reverse.
  rewrite drop_while_map by done. by rewrite <- fmap_reverse.
Qed.

Lemma drop_while_suffix {A} (p : A -> bool) l : exists k, l = (k ++ drop_while p l)%list.
Proof.
  induction l as [|c l [k IH]]; cbn; [by exists [] |]. destruct (p c); [| by exists []].
  exists (c :: k). cbn. by rewrite <- IH.
Qed.

Lemma drop_while_head {A} (p : A -> bool) l c k : drop_while p l = c :: k -> p c = false.
Proof.
  induction l as [|a l IH]; cbn; [done |]. destruct (p a) eqn:E; [done |]. by intros [= <- _].
Qed.

Lemma drop_while_stop {A} (p q : A -> bool) l :
  (forall c, p c = true -> q c = true) ->
  (forall c k, l = c :: k -> q c = false) -> drop_while p l = l.
Proof.
  intros Hpq Hl. destruct l as [|c l]; [done |]. cbn. destruct (p c) eqn:E; [| done].
  apply Hpq in E. by rewrite (Hl c l) in E.
Qed.

(** What has been stripped of more is not changed by stripping less. *)
Lemma strip_by_stop {A} (p q : A -> bool) l :
  (forall c, p c = true -> q c = true) -> strip_by p (strip_by q l) = strip_by q l.
Proof.
  intros Hpq. unfold strip_by at 1.
  assert (Hhead : forall c k, strip_by q l = c :: k -> q c = false).
  { unfold strip_by. intros c k E.
    destruct (drop_while_suffix q (reverse (drop_while q l))) as [pre Hpre].
    apply (f_equal reverse) in Hpre. rewrite reverse_involutive, reverse_app, E in Hpre.
    by apply drop_while_head in Hpre. }
  rewrite (drop_while_stop p q (strip_by q l)) by done.
  rewrite (drop_while_stop p q); [apply reverse_involutive | done |].
  intros c k E. unfold strip_by in E. rewrite reverse_involutive in E.
  by apply drop_while_head in E.
Qed.

Lemma sql_trim_strip s : sql_trim (str_strip s) = str_strip s.
Proof.
  unfold sql_trim, str_strip. rewrite chars_unchars, strip_by_stop; [done |].
  intros c H. unfold is_space. apply orb_true_iff. right. unfold in_range in *.
  apply andb_true_iff in H as [H1 H2]. apply andb_true_iff. rewrite !N.leb_le in *. lia.
Qed.

(** Every ASCII character satisfies what a finite check says. *)
Lemma ascii_all (p : ascii -> bool) :
  forallb p (map ascii_of_nat (seq 0 256)) = true -> forall c, p c = true.
Proof.
  intros H c. rewrite forallb_forall in H. apply H. rewrite in_map_iff.
  exists (nat_of_ascii c). split; [apply ascii_nat_embedding |].
  apply in_seq. pose proof (nat_ascii_bounded c). lia.
Qed.

Lemma space_lower c : in_range 32 32 (char_lower c) = in_range 32 32 c.
Proof.
  apply eqb_prop. revert c. apply ascii_all. by vm_compute.
Qed.
Lemma space_upper c : in_range 32 32 (char_upper c) = in_range 32 32 c.
Proof. apply eqb_prop. revert c. apply ascii_all. by vm_compute. Qed.
Lemma char_lower_lower c : char_lower (char_lower c) = char_lower c.
Proof. apply Ascii.eqb_eq. revert c. apply ascii_all. by vm_compute. Qed.
Lemma char_upper_upper c : char_upper (char_upper c) = char_upper c.
Proof. apply Ascii.eqb_eq. revert c. apply ascii_all. by vm_compute. Qed.

Lemma unchars_chars s : unchars (chars s) = s.
Proof. apply string_of_list_ascii_of_string. Qed.
Lemma str_lower_lower s : str_lower (str_lower s) = str_lower s.
Proof.
  unfold str_lower. rewrite chars_unchars, map_map. f_equal. apply map_ext, char_lower_lower.
Qed.
Lemma str_upper_upper s : str_upper (str_upper s) = str_upper s.
Proof.
  unfold str_upper. rewrite chars_unchars, map_map. f_equal. apply map_ext, char_upper_upper.
Qed.
Lemma sql_trim_lower s : sql_trim (str_lower s) = str_lower (sql_trim s).
Proof.
  unfold sql_trim, str_lower. rewrite !chars_unchars. f_equal. apply strip_by_map, space_lower.
Qed.
Lemma sql_trim_upper s : sql_trim (str_upper s) = str_upper (sql_trim s).
Proof.
  unfold sql_trim, str_upper. rewrite !chars_unchars. f_equal. apply strip_by_map, space_upper.
Qed.
Lemma str_lower_empty s : str_lower s = "" <-> s = "".
Proof. by destruct s. Qed.
Lemma str_upper_empty s : str_upper s = "" <-> s = "".
Proof. by destruct s. Qed.
Lemma py_len_pos s : 1 <= py_len s -> s <> "".
Proof. intros H ->. cbn in H. lia. Qed.
