(* ===== verification/Models.v ===== *)
(** * Models: the rows of the database and the schema's constraints

    One record per mapped class of src/src/coder_manager/models/. A table is a finite map from
    primary keys to rows, so the key is not repeated in the row. The audit columns [created_at]
    and [updated_at], which no operation reads, are left out; [JobExecution.created_at] is kept,
    as the retry scan orders by it. The four-valued status enums of the models
    (InstanceStatus, MemberStatus, WorkspaceStatus, TemplateSyncStatus, TemplateAssignmentStatus,
    TemplateDeploymentStatus, JobStatus) have the same members and are one type here. *)
From S2P Require Import Prelude Text.

Abbreviation uuid := N (only parsing).
Abbreviation bytes := (list Byte.byte) (only parsing).
(** Instants, in seconds. *)
Abbreviation time := Z (only parsing).

#[export] Instance byte_eq_dec : EqDecision Byte.byte := Byte.byte_eq_dec.

(** ** Enums *)
Inductive Status := PENDING | RUNNING | SUCCESS | ERROR.
#[export] Instance status_eq_dec : EqDecision Status.
Proof. solve_decision. Defined.

Inductive InstanceState := STARTED | STOPPED.
#[export] Instance instance_state_eq_dec : EqDecision InstanceState.
Proof. solve_decision. Defined.

Inductive MemberRole := USER | ADMIN.
#[export] Instance member_role_eq_dec : EqDecision MemberRole.
Proof. solve_decision. Defined.

Inductive TemplateParameterType := TYPE_USER | TYPE_SYSTEM.
#[export] Instance parameter_type_eq_dec : EqDecision TemplateParameterType.
Proof. solve_decision. Defined.

(** ** Rows *)
Record JobExecution := mkJob {
  job_name : string;
  job_task_name : string;
  job_resource_type : option string;
  job_resource_id : option uuid;
  job_step : string;
  job_status : Status;
  job_attempt : Z;
  job_claimed_at : option time;
  job_created_at : time
}.
#[export] Instance eta_job : Eta JobExecution := fun r =>
  mkJob (job_name r) (job_task_name r) (job_resource_type r) (job_resource_id r) (job_step r)
    (job_status r) (job_attempt r) (job_claimed_at r) (job_created_at r).

Record CoderInstance := mkInstance {
  inst_application : string;
  inst_slug : string;
  inst_action : string;
  inst_status : Status;
  inst_state : InstanceState;
  inst_password_enc : option bytes;
  inst_password_candidate_enc : option bytes;
  inst_argocd_application_name : option string;
  inst_job_id : option uuid;
  inst_step : option string
}.
#[export] Instance eta_instance : Eta CoderInstance := fun r =>
  mkInstance (inst_application r) (inst_slug r) (inst_action r) (inst_status r) (inst_state r)
    (inst_password_enc r) (inst_password_candidate_enc r) (inst_argocd_application_name r)
    (inst_job_id r) (inst_step r).

Record Member := mkMember {
  mem_instance_id : uuid;
  mem_username : string;
  mem_role : MemberRole;
  mem_action : string;
  mem_status : Status
}.
#[export] Instance eta_member : Eta Member := fun r =>
  mkMember (mem_instance_id r) (mem_username r) (mem_role r) (mem_action r) (mem_status r).

Record Database := mkDatabase {
  base_name : string;
  base_instance_max : Z;
  base_host : string;
  base_port : Z;
  base_database_name : string;
  base_username : string;
  base_password_enc : bytes
}.
#[export] Instance eta_database : Eta Database := fun r =>
  mkDatabase (base_name r) (base_instance_max r) (base_host r) (base_port r)
    (base_database_name r) (base_username r) (base_password_enc r).

Record DatabaseAllocation := mkAllocation {
  alloc_database_id : uuid;
  alloc_instance_id : uuid;
  alloc_schema_name : string
}.
#[export] Instance eta_allocation : Eta DatabaseAllocation := fun r =>
  mkAllocation (alloc_database_id r) (alloc_instance_id r) (alloc_schema_name r).

(** Keyed by [instance_id], its primary key. *)
Record InstanceKubernetes := mkKubernetes { kube_kubeconfig_enc : bytes }.

Record Template := mkTemplate {
  tpl_display_name : string;
  tpl_name : string;
  tpl_git_url : string;
  tpl_source_path : string;
  tpl_branch : string;
  tpl_modules : list string;
  tpl_system_parameter_revision : Z;
  tpl_action : string;
  tpl_sync_status : Status;
  tpl_job_id : option uuid;
  tpl_step : option string
}.
#[export] Instance eta_template : Eta Template := fun r =>
  mkTemplate (tpl_display_name r) (tpl_name r) (tpl_git_url r) (tpl_source_path r) (tpl_branch r)
    (tpl_modules r) (tpl_system_parameter_revision r) (tpl_action r) (tpl_sync_status r)
    (tpl_job_id r) (tpl_step r).

Record TemplateImage := mkImage {
  img_template_id : uuid;
  img_registry_name : string;
  img_name : string;
  img_version : string
}.
#[export] Instance eta_image : Eta TemplateImage := fun r =>
  mkImage (img_template_id r) (img_registry_name r) (img_name r) (img_version r).

(** [par_system_value] is the one-to-one row of [template_parameter_system_values]. *)
Record TemplateParameter := mkParameter {
  par_template_id : uuid;
  par_type : TemplateParameterType;
  par_name : string;
  par_display_name : string;
  par_description : string;
  par_required : option bool;
  par_mutable : option bool;
  par_default_value : option string;
  par_system_value : option bytes
}.
#[export] Instance eta_parameter : Eta TemplateParameter := fun r =>
  mkParameter (par_template_id r) (par_type r) (par_name r) (par_display_name r)
    (par_description r) (par_required r) (par_mutable r) (par_default_value r)
    (par_system_value r).

Record TemplateAssignment := mkAssignment {
  asg_template_id : uuid;
  asg_instance_id : uuid;
  asg_action : string;
  asg_status : Status;
  asg_job_id : option uuid;
  asg_step : option string
}.
#[export] Instance eta_assignment : Eta TemplateAssignment := fun r =>
  mkAssignment (asg_template_id r) (asg_instance_id r) (asg_action r) (asg_status r)
    (asg_job_id r) (asg_step r).

Record TemplateDeployment := mkDeployment {
  dep_assignment_id : uuid;
  dep_coder_organization_id : option uuid;
  dep_coder_template_id : option uuid;
  dep_coder_template_version_id : option uuid;
  dep_target_commit : option string;
  dep_applied_commit : option string;
  dep_target_system_parameter_revision : option Z;
  dep_applied_system_parameter_revision : option Z;
  dep_status : Status
}.
#[export] Instance eta_deployment : Eta TemplateDeployment := fun r =>
  mkDeployment (dep_assignment_id r) (dep_coder_organization_id r) (dep_coder_template_id r)
    (dep_coder_template_version_id r) (dep_target_commit r) (dep_applied_commit r)
    (dep_target_system_parameter_revision r) (dep_applied_system_parameter_revision r)
    (dep_status r).

Record Workspace := mkWorkspace {
  ws_name : string;
  ws_instance_id : uuid;
  ws_template_id : uuid;
  ws_member_id : uuid;
  ws_image_id : uuid;
  ws_modules : list string;
  ws_parameters : gmap string string;
  ws_parameters_revision : Z;
  ws_applied_parameters_revision : option Z;
  ws_coder_workspace_id : option uuid;
  ws_coder_workspace_build_id : option uuid;
  ws_action : string;
  ws_status : Status;
  ws_job_id : option uuid;
  ws_step : option string
}.
#[export] Instance eta_workspace : Eta Workspace := fun r =>
  mkWorkspace (ws_name r) (ws_instance_id r) (ws_template_id r) (ws_member_id r) (ws_image_id r)
    (ws_modules r) (ws_parameters r) (ws_parameters_revision r)
    (ws_applied_parameters_revision r) (ws_coder_workspace_id r) (ws_coder_workspace_build_id r)
    (ws_action r) (ws_status r) (ws_job_id r) (ws_step r).

(** ** The store: one finite map per table *)
Record Store := mkStore {
  jobs : gmap uuid JobExecution;
  instances : gmap uuid CoderInstance;
  members : gmap uuid Member;
  databases : gmap uuid Database;
  allocations : gmap uuid DatabaseAllocation;
  kubernetes : gmap uuid InstanceKubernetes;
  templates : gmap uuid Template;
  images : gmap uuid TemplateImage;
  parameters : gmap uuid TemplateParameter;
  assignments : gmap uuid TemplateAssignment;
  deployments : gmap uuid TemplateDeployment;
  workspaces : gmap uuid Workspace
}.
#[export] Instance eta_store : Eta Store := fun d =>
  mkStore (jobs d) (instances d) (members d) (databases d) (allocations d) (kubernetes d)
    (templates d) (images d) (parameters d) (assignments d) (deployments d) (workspaces d).

Definition empty_store : Store := mkStore ∅ ∅ ∅ ∅ ∅ ∅ ∅ ∅ ∅ ∅ ∅ ∅.

(** ** Constraints

    Row checks ([CheckConstraint]), unique keys ([UniqueConstraint], unique [Index], [unique=True])
    and foreign keys of the schema. SQL's NULLs never clash in a unique key. *)
Definition not_blank (s : string) : bool := negb (bool_decide (sql_trim s = "")).

Definition Unique `{EqDecision K} {R} (key : R -> option K) (m : gmap uuid R) : Prop :=
  map_Forall (fun i r => map_Forall (fun j r' => key r = key r' -> key r <> None -> i = j) m) m.
#[export] Instance unique_dec `{EqDecision K} {R} (key : R -> option K) m :
  Decision (Unique key m).
Proof. apply map_Forall_dec; intros; apply map_Forall_dec; intros; apply _. Defined.

(** Every non-null reference [col r] is the key of a row of [target]. *)
Definition References {R T} (col : R -> option uuid) (target : gmap uuid T) (m : gmap uuid R)
    : Prop :=
  map_Forall (fun _ r => match col r with Some i => is_Some (target !! i) | None => True end) m.
#[export] Instance references_dec {R T} (col : R -> option uuid) (target : gmap uuid T) m :
  Decision (References col target m).
Proof.
  apply map_Forall_dec; intros i r. destruct (col r); apply _.
Defined.

Definition Checked {R} (check : R -> bool) (m : gmap uuid R) : Prop :=
  map_Forall (fun _ r => check r = true) m.
#[export] Instance checked_dec {R} (check : R -> bool) m : Decision (Checked check m).
Proof. apply map_Forall_dec; intros; apply _. Defined.

Definition job_checks (r : JobExecution) : bool :=
  not_blank (job_name r) && not_blank (job_task_name r) && not_blank (job_step r)
  && Z.leb 0 (job_attempt r).

Definition instance_checks (r : CoderInstance) : bool :=
  not_blank (inst_action r) && not_blank (inst_application r)
  && (inst_application r == str_upper (sql_trim (inst_application r))).

Definition member_checks (r : Member) : bool :=
  not_blank (mem_username r) && (mem_username r == str_lower (sql_trim (mem_username r)))
  && not_blank (mem_action r).

Definition database_checks (r : Database) : bool :=
  not_blank (base_name r) && Z.ltb 0 (base_instance_max r) && not_blank (base_host r)
  && (Z.leb 1 (base_port r) && Z.leb (base_port r) 65535)
  && not_blank (base_database_name r) && not_blank (base_username r).

Definition allocation_checks (r : DatabaseAllocation) : bool := not_blank (alloc_schema_name r).

Definition template_checks (r : Template) : bool :=
  not_blank (tpl_display_name r) && not_blank (tpl_name r)
  && (tpl_name r == str_lower (sql_trim (tpl_name r)))
  && not_blank (tpl_git_url r) && not_blank (tpl_source_path r) && not_blank (tpl_branch r)
  && not_blank (tpl_action r) && Z.leb 0 (tpl_system_parameter_revision r).

Definition image_checks (r : TemplateImage) : bool :=
  not_blank (img_registry_name r)
  && (img_registry_name r == str_lower (sql_trim (img_registry_name r)))
  && not_blank (img_name r) && (img_name r == str_lower (sql_trim (img_name r)))
  && not_blank (img_version r).

Definition parameter_checks (r : TemplateParameter) : bool :=
  not_blank (par_name r) && (par_name r == str_lower (sql_trim (par_name r)))
  && not_blank (par_display_name r)
  && match par_type r with
     | TYPE_USER => is_some (par_required r) && is_some (par_mutable r)
     | TYPE_SYSTEM =>
         is_none (par_required r) && is_none (par_mutable r) && is_none (par_default_value r)
     end.

Definition assignment_checks (r : TemplateAssignment) : bool :=
  member (asg_action r) ["creating"; "created"; "deleting"].

Definition is_commit_sha (c : option string) : bool :=
  match c with Some s => Nat.eqb (py_len s) 40 | None => true end.
Definition non_negative (z : option Z) : bool :=
  match z with Some n => Z.leb 0 n | None => true end.
Definition deployment_checks (r : TemplateDeployment) : bool :=
  is_commit_sha (dep_target_commit r) && is_commit_sha (dep_applied_commit r)
  && non_negative (dep_target_system_parameter_revision r)
  && non_negative (dep_applied_system_parameter_revision r).

Definition workspace_checks (r : Workspace) : bool :=
  not_blank (ws_name r) && Nat.leb (py_len (ws_name r)) 32 && not_blank (ws_action r)
  && Z.leb 0 (ws_parameters_revision r) && non_negative (ws_applied_parameters_revision r).

Definition RowsChecked (d : Store) : Prop :=
  Checked job_checks (jobs d) /\ Checked instance_checks (instances d) /\
  Checked member_checks (members d) /\ Checked database_checks (databases d) /\
  Checked allocation_checks (allocations d) /\ Checked template_checks (templates d) /\
  Checked image_checks (images d) /\ Checked parameter_checks (parameters d) /\
  Checked assignment_checks (assignments d) /\ Checked deployment_checks (deployments d) /\
  Checked workspace_checks (workspaces d).

Definition KeysUnique (d : Store) : Prop :=
  Unique (fun r => Some (inst_application r)) (instances d) /\
  Unique (fun r => Some (inst_slug r)) (instances d) /\
  Unique inst_argocd_application_name (instances d) /\
  Unique (fun r => Some (mem_instance_id r, mem_username r)) (members d) /\
  Unique (fun r => Some (str_lower (base_name r))) (databases d) /\
  Unique (fun r => Some (alloc_instance_id r)) (allocations d) /\
  Unique (fun r => Some (alloc_database_id r, alloc_schema_name r)) (allocations d) /\
  Unique (fun r => Some (str_lower (tpl_name r))) (templates d) /\
  Unique (fun r => Some (img_template_id r, img_registry_name r, img_name r, img_version r))
    (images d) /\
  Unique (fun r => Some (par_template_id r, par_name r)) (parameters d) /\
  Unique (fun r => Some (asg_template_id r, asg_instance_id r)) (assignments d) /\
  Unique (fun r => Some (dep_assignment_id r)) (deployments d) /\
  Unique (fun r => Some (ws_instance_id r, str_lower (ws_name r))) (workspaces d).

Definition ReferencesHold (d : Store) : Prop :=
  References inst_job_id (jobs d) (instances d) /\
  References (fun r => Some (mem_instance_id r)) (instances d) (members d) /\
  References (fun r => Some (alloc_database_id r)) (databases d) (allocations d) /\
  References (fun r => Some (alloc_instance_id r)) (instances d) (allocations d) /\
  map_Forall (fun i _ => is_Some (instances d !! i)) (kubernetes d) /\
  References tpl_job_id (jobs d) (templates d) /\
  References (fun r => Some (img_template_id r)) (templates d) (images d) /\
  References (fun r => Some (par_template_id r)) (templates d) (parameters d) /\
  References (fun r => Some (asg_template_id r)) (templates d) (assignments d) /\
  References (fun r => Some (asg_instance_id r)) (instances d) (assignments d) /\
  References asg_job_id (jobs d) (assignments d) /\
  References (fun r => Some (dep_assignment_id r)) (assignments d) (deployments d) /\
  References (fun r => Some (ws_instance_id r)) (instances d) (workspaces d) /\
  References (fun r => Some (ws_template_id r)) (templates d) (workspaces d) /\
  References (fun r => Some (ws_member_id r)) (members d) (workspaces d) /\
  References (fun r => Some (ws_image_id r)) (images d) (workspaces d) /\
  References ws_job_id (jobs d) (workspaces d).

(** What the database management system enforces on every committed store. *)
Definition Integrity (d : Store) : Prop := RowsChecked d /\ KeysUnique d /\ ReferencesHold d.
#[export] Instance integrity_dec d : Decision (Integrity d).
Proof. unfold Integrity, RowsChecked, KeysUnique, ReferencesHold. apply _. Defined.

Lemma integrity_empty : Integrity empty_store.
Proof.
  unfold Integrity, RowsChecked, KeysUnique, ReferencesHold, Checked, Unique, References.
  repeat split; apply map_Forall_empty.
Qed.

Lemma unique_lookup `{EqDecision K} {R} (key : R -> option K) m i j r r' :
  Unique key m -> m !! i = Some r -> m !! j = Some r' -> key r = key r' -> key r <> None ->
  i = j.
Proof. intros Hu Hi Hj He Hn. exact (Hu i r Hi j r' Hj He Hn). Qed.
