(* ===== verification/Store.v ===== *)
(** * Store: database sessions

    A session of the source ([async with session], [with session_factory() as session]) reads and
    writes rows, and either commits or is rolled back. It is an [action] over the store: an
    exception, or a [rollback], loses every write. Row locks ([with_for_update]) make the sessions
    of concurrent processes serializable on the rows they decide on, so a session is one atomic
    step of the system; what a process does between two sessions interleaves freely. *)
From S2P Require Import Prelude Text Models.

(** The exception classes of the source that cross a function boundary. *)
Inductive Exn :=
| IntegrityError
| RuntimeError (msg : string)
| TypeError (msg : string)
| ValueError (msg : string)
| ArgoCdConfigurationError (msg : string)
| InstanceAlreadyExistsError
| InstanceNotFoundError
| InstanceActionConflictError
| InstanceDatabaseUnavailableError
| InvalidInstanceActionError
| InstanceKubernetesNotFoundError
| InstanceKubernetesAlreadyConfiguredError
| MemberAlreadyExistsError
| MemberInstanceNotFoundError
| MemberNotFoundError
| MemberInstanceBusyError
| MemberActionConflictError
| MemberHasWorkspacesError
| MemberProtectedAdministratorError
| InvalidMemberActionError
| DatabaseAlreadyExistsError
| DatabaseNotFoundError
| DatabaseInUseError
| DatabaseCapacityConflictError
| TemplateAlreadyExistsError
| TemplateNotFoundError
| TemplateHasAssignmentsError
| TemplateWorkspaceCompatibilityError
| TemplateSyncInProgressError
| TemplateAssignmentsInProgressError
| TemplateWorkspacesInProgressError
| TemplateImageAlreadyExistsError
| TemplateImageNotFoundError
| TemplateImageTemplateNotFoundError
| TemplateImageInUseError
| TemplateParameterTemplateNotFoundError
| TemplateParameterNotFoundError
| TemplateParameterAlreadyExistsError
| TemplateParameterImmutableFieldError
| TemplateParameterSyncInProgressError
| TemplateParameterDecryptionError
| TemplateAssignmentInstanceNotFoundError
| TemplateAssignmentTemplateNotFoundError
| TemplateAssignmentInstanceUnavailableError
| TemplateAssignmentActionConflictError
| TemplateAssignmentJobConflictError
| TemplateAssignmentSyncInProgressError
| TemplateAssignmentWorkspacesBusyError
| WorkspaceAlreadyExistsError
| WorkspaceNotFoundError
| WorkspaceInstanceNotFoundError
| WorkspaceInstanceBusyError
| WorkspaceTemplateNotFoundError
| WorkspaceMemberNotFoundError
| WorkspaceMemberUnavailableError
| WorkspaceImageNotFoundError
| WorkspaceImageUnavailableError
| WorkspaceConfigurationError
| WorkspaceParameterImmutableError
| WorkspaceTemplateNotDeployedError
| WorkspaceBusyError
| WorkspaceActionConflictError
| InvalidWorkspaceActionError
| CryptoConfigurationError
| PasswordDecryptionError
| KubeconfigDecryptionError
| InstancePasswordDecryptionError
| CoderRequestError (msg : string)
| CoderFirstUserConflictError (msg : string)
| HTTPError (msg : string)
| WorkspaceRemoteError (msg : string)
| TemplateTargetSyncError (msg : string)
| TemplateTargetClaimLostError (msg : string)
| TemplateSourceError (msg : string)
| ArgoCdRequestError (msg : string)
| ArgoCdApplicationOwnershipError (msg : string)
| ArgoCdApplicationNotFoundError (msg : string)
| PostgresError
| OSError
| TimeoutError
(** [fastapi.HTTPException]; the only headers that the program adds are its [NO_STORE_HEADERS]. *)
| HTTPException (status_code : Z) (detail : string) (no_store : bool)
(** Any other exception of a library. *)
| RemoteError (msg : string)
(** A loop of the model that ran for as many rounds as its bound allows. *)
| OutOfFuel.
#[export] Instance exn_eq_dec : EqDecision Exn.
Proof. solve_decision. Defined.

Abbreviation session := (action Store Exn) (only parsing).

(** [session.commit()]: the database rejects a store that breaks a constraint. *)
Definition commit : session unit :=
  fun d => if decide (Integrity d) then inr (tt, d) else inl IntegrityError.
(** [try: commit() except IntegrityError: rollback(); raise e]. *)
Definition commit_or (e : Exn) : session unit :=
  fun d => if decide (Integrity d) then inr (tt, d) else inl e.

(** The outcome of a whole session and the store it leaves committed. *)
Definition run_session {A} (m : session A) (d : Store) : (Exn + A) * Store :=
  match m d with inl e => (inl e, d) | inr (a, d') => (inr a, d') end.

(** ** Queries over a table *)
Section Queries.
Context {R : Type}.
Implicit Types (p : uuid -> R -> bool) (m : gmap uuid R).

Definition rows_where p m : list (uuid * R) :=
  List.filter (fun kr => p kr.1 kr.2) (map_to_list m).
(** [scalar(select(id).where(...).limit(1)) is not None]. *)
Definition exists_where p m : bool := existsb (fun kr => p kr.1 kr.2) (map_to_list m).
(** [scalar(select(...).where(...))]: the first matching row. *)
Definition first_where p m : option (uuid * R) := head (rows_where p m).
(** [select(func.count()).where(...)]. *)
Definition count_where p m : Z := Z.of_nat (List.length (rows_where p m)).
(** [delete(...).where(...)]. *)
Definition delete_where p m : gmap uuid R :=
  map_imap (fun k r => if p k r then None else Some r) m.
(** [for row in select(...).where(...): row.field = ...]. *)
Definition update_where p (f : R -> R) m : gmap uuid R :=
  map_imap (fun k r => Some (if p k r then f r else r)) m.

Lemma elem_of_rows_where p m k r :
  (k, r) ∈ rows_where p m <-> m !! k = Some r /\ p k r = true.
Proof.
  unfold rows_where. rewrite list_elem_of_In, filter_In, <- list_elem_of_In.
  by rewrite elem_of_map_to_list.
Qed.

Lemma exists_where_true p m :
  exists_where p m = true <-> exists k r, m !! k = Some r /\ p k r = true.
Proof.
  unfold exists_where. rewrite existsb_exists. split.
  - intros ([k r] & Hin & Hp). exists k, r. rewrite <- elem_of_map_to_list, list_elem_of_In.
    done.
  - intros (k & r & Hk & Hp). exists (k, r). split; [| done].
    by rewrite <- list_elem_of_In, elem_of_map_to_list.
Qed.

Lemma exists_where_false p m :
  exists_where p m = false <-> forall k r, m !! k = Some r -> p k r = false.
Proof.
  rewrite <- not_true_iff_false, exists_where_true. split.
  - intros H k r Hk. destruct (p k r) eqn:E; [| done]. exfalso. eauto.
  - intros H (k & r & Hk & Hp). rewrite (H k r Hk) in Hp. done.
Qed.

Lemma first_where_some p m k r :
  first_where p m = Some (k, r) -> m !! k = Some r /\ p k r = true.
Proof.
  unfold first_where. intros H. apply elem_of_rows_where.
  destruct (rows_where p m); [done |]. injection H as ->. apply list_elem_of_here.
Qed.

Lemma first_where_none p m :
  first_where p m = None -> forall k r, m !! k = Some r -> p k r = false.
Proof.
  unfold first_where. intros H k r Hk. destruct (p k r) eqn:E; [| done].
  assert (Hin : (k, r) ∈ rows_where p m) by by apply elem_of_rows_where.
  destruct (rows_where p m); [by apply not_elem_of_nil in Hin | done].
Qed.

Lemma lookup_delete_where p m k :
  delete_where p m !! k = m !! k ≫= fun r => if p k r then None else Some r.
Proof. apply map_lookup_imap. Qed.

Lemma lookup_delete_where_some p m k r :
  delete_where p m !! k = Some r <-> m !! k = Some r /\ p k r = false.
Proof.
  rewrite lookup_delete_where. destruct (m !! k) as [r'|]; cbn.
  - destruct (p k r') eqn:E; split; [done | by intros [[= ->] ?]; congruence | |].
    + by intros [= ->].
    + by intros [[= ->] _].
  - split; [done | by intros [? _]].
Qed.

Lemma lookup_update_where p f m k :
  update_where p f m !! k = (fun r => if p k r then f r else r) <$> m !! k.
Proof. unfold update_where. rewrite map_lookup_imap. by destruct (m !! k). Qed.
End Queries.

(** ** Counting rows *)
#[export] Instance filter_permutation {A} (p : A -> bool) :
  Proper (Permutation ==> Permutation) (List.filter p).
Proof.
  intros l l' H. induction H as [| x l l' _ IH | x y l |]; cbn.
  - done.
  - destruct (p x); by rewrite IH.
  - destruct (p x), (p y); try done. apply Permutation_swap.
  - by etrans.
Qed.

Lemma count_where_pos {R} (p : uuid -> R -> bool) m : (0 <= count_where p m)%Z.
Proof. unfold count_where. lia. Qed.

Lemma count_where_zero {R} (p : uuid -> R -> bool) m :
  exists_where p m = false -> count_where p m = 0%Z.
Proof.
  intros H. unfold count_where, rows_where.
  unfold exists_where in H. induction (map_to_list m) as [|[k r] l IH]; [done |].
  cbn in *. apply orb_false_iff in H as [-> H]. auto.
Qed.

(** Counting over a map, one row at a time. *)
Lemma count_where_insert {R} (p : uuid -> R -> bool) m i r :
  m !! i = None ->
  count_where p (<[i := r]> m) = (count_where p m + (if p i r then 1 else 0))%Z.
Proof.
  intros Hi. unfold count_where, rows_where.
  assert (HP : List.filter (fun kr => p kr.1 kr.2) (map_to_list (<[i:=r]> m))
               ≡ₚ List.filter (fun kr => p kr.1 kr.2) ((i, r) :: map_to_list m)).
  { by rewrite (map_to_list_insert m i r Hi). }
  rewrite HP. cbn [List.filter fst snd]. destruct (p i r); cbn [List.length]; lia.
Qed.

Lemma count_where_split {R} (p : uuid -> R -> bool) m i r :
  m !! i = Some r ->
  count_where p m = (count_where p (delete i m) + (if p i r then 1 else 0))%Z.
Proof.
  intros Hi. rewrite <- (insert_delete_id m i r Hi) at 1.
  apply count_where_insert, lookup_delete_eq.
Qed.

Lemma count_where_delete {R} (p : uuid -> R -> bool) m i :
  (count_where p (delete i m) <= count_where p m)%Z.
Proof.
  destruct (m !! i) as [r|] eqn:E.
  - rewrite (count_where_split p m i r E). destruct (p i r); lia.
  - rewrite delete_id by done. lia.
Qed.

Lemma count_where_delete_where {R} (p q : uuid -> R -> bool) m :
  (count_where p (delete_where q m) <= count_where p m)%Z.
Proof.
  induction m as [|i r m Hi IH] using map_ind.
  { unfold delete_where. by rewrite map_imap_empty. }
  assert (Hn : delete_where q m !! i = None) by by rewrite lookup_delete_where, Hi.
  rewrite (count_where_insert p m) by done.
  assert (E : delete_where q (<[i := r]> m)
              = if q i r then delete_where q m else <[i := r]> (delete_where q m)).
  { apply map_eq. intros j. rewrite lookup_delete_where.
    destruct (decide (i = j)) as [<- | Hne].
    - rewrite lookup_insert_eq. cbn. destruct (q i r); by rewrite ?lookup_insert_eq.
    - rewrite lookup_insert_ne by done.
      destruct (q i r); rewrite ?lookup_insert_ne by done; by rewrite lookup_delete_where. }
  rewrite E. destruct (q i r); [| rewrite count_where_insert by done]; destruct (p i r); lia.
Qed.

Lemma count_where_ext {R} (p q : uuid -> R -> bool) m :
  (forall k r, m !! k = Some r -> p k r = q k r) -> count_where p m = count_where q m.
Proof.
  intros H. unfold count_where, rows_where. do 2 f_equal.
  apply filter_ext_in. intros [k r] Hin. cbn. apply H.
  by apply elem_of_map_to_list, list_elem_of_In.
Qed.

(** ** Deletion of a row, with the [ondelete] actions of the foreign keys

    RESTRICT needs no action here: the commit that follows fails when a reference dangles. *)
Definition delete_member_row (i : uuid) (d : Store) : Store :=
  d <| members := delete i (members d) |>
    <| workspaces := delete_where (fun _ w => ws_member_id w == i) (workspaces d) |>.

(** [delete(Member).where(...)]. *)
Definition delete_members_where (p : Member -> bool) (d : Store) : Store :=
  d <| members := delete_where (fun _ m => p m) (members d) |>
    <| workspaces := delete_where (fun _ w =>
         match members d !! ws_member_id w with Some m => p m | None => false end) (workspaces d) |>.

Definition delete_assignment_row (i : uuid) (d : Store) : Store :=
  d <| assignments := delete i (assignments d) |>
    <| deployments := delete_where (fun _ p => dep_assignment_id p == i) (deployments d) |>.

Definition delete_instance_row (i : uuid) (d : Store) : Store :=
  d <| instances := delete i (instances d) |>
    <| members := delete_where (fun _ m => mem_instance_id m == i) (members d) |>
    <| workspaces := delete_where (fun _ w =>
         (ws_instance_id w == i)
         || match members d !! ws_member_id w with
            | Some m => mem_instance_id m == i
            | None => false
            end) (workspaces d) |>
    <| deployments := delete_where (fun _ p =>
         match assignments d !! dep_assignment_id p with
         | Some a => asg_instance_id a == i
         | None => false
         end) (deployments d) |>
    <| assignments := delete_where (fun _ a => asg_instance_id a == i) (assignments d) |>
    <| kubernetes := delete i (kubernetes d) |>.

Definition delete_template_row (i : uuid) (d : Store) : Store :=
  d <| templates := delete i (templates d) |>
    <| images := delete_where (fun _ m => img_template_id m == i) (images d) |>
    <| parameters := delete_where (fun _ p => par_template_id p == i) (parameters d) |>.

Definition delete_job_row (i : uuid) (d : Store) : Store :=
  d <| jobs := delete i (jobs d) |>
    <| instances := update_where (fun _ r => inst_job_id r == Some i)
         (fun r => r <| inst_job_id := None |>) (instances d) |>
    <| templates := update_where (fun _ r => tpl_job_id r == Some i)
         (fun r => r <| tpl_job_id := None |>) (templates d) |>
    <| assignments := update_where (fun _ r => asg_job_id r == Some i)
         (fun r => r <| asg_job_id := None |>) (assignments d) |>
    <| workspaces := update_where (fun _ r => ws_job_id r == Some i)
         (fun r => r <| ws_job_id := None |>) (workspaces d) |>.

(** ** Inversion of commits *)
Lemma commit_inr d u d' : commit d = inr (u, d') <-> d' = d /\ Integrity d.
Proof.
  unfold commit. destruct u. case_decide; split; [by intros [= ->] | by intros [-> _] | done |].
  by intros [_ ?].
Qed.

Lemma commit_or_inr e d u d' : commit_or e d = inr (u, d') <-> d' = d /\ Integrity d.
Proof.
  unfold commit_or. destruct u.
  case_decide; split; [by intros [= ->] | by intros [-> _] | done |]. by intros [_ ?].
Qed.

Lemma commit_success d : Integrity d -> commit d = inr (tt, d).
Proof. intros H. by apply commit_inr. Qed.

Lemma commit_or_success e d : Integrity d -> commit_or e d = inr (tt, d).
Proof. intros H. by apply commit_or_inr. Qed.

Ltac session_inv_step :=
  match goal with
  | H : commit _ = inr _ |- _ => apply commit_inr in H; destruct H as [-> ?]
  | H : commit_or _ _ = inr _ |- _ => apply commit_or_inr in H; destruct H as [-> ?]
  | _ => action_inv_step
  end.
(** [session_inv] takes every hypothesis [m d = inr (a, d')] on a session apart. *)
Ltac session_inv := repeat session_inv_step.

(** Two assignments to the same row. *)
Lemma alter_alter {R} (f g : R -> R) (i : uuid) (m : gmap uuid R) :
  alter g i (alter f i m) = alter (fun r => g (f r)) i m.
Proof.
  apply map_eq. intros j. destruct (decide (i = j)) as [-> |].
  - rewrite !lookup_alter_eq. by destruct (m !! j).
  - by rewrite !lookup_alter_ne.
Qed.
