(* ===== verification/Registry.v ===== *)
(** * Registry: the allowlisted task and step names (tasks/common/registry.py)

    Every durable job names its current Celery task and step with these constants, and only the
    tasks of [REGISTERED_STEP_NAMES] are ever sent to the broker. *)
From S2P Require Import Prelude Text Models.

Definition INSTANCE_CREATE_STEP_01 : string := "step_01_create_schema".
Definition INSTANCE_CREATE_STEP_02 : string := "step_02_create_instance".
Definition INSTANCE_CREATE_STEP_03 : string := "step_03_bootstrap_admin".
Definition INSTANCE_UPDATE_STEP_01 : string := "step_01_update_instance".
Definition INSTANCE_UPDATE_STEP_02 : string := "step_02_cleanup_users".
Definition INSTANCE_START_STEP_01 : string := "step_01_start_instance".
Definition INSTANCE_STOP_STEP_01 : string := "step_01_stop_workspaces".
Definition INSTANCE_STOP_STEP_02 : string := "step_02_stop_instance".
Definition INSTANCE_DELETE_STEP_01 : string := "step_01_remove_workspaces".
Definition INSTANCE_DELETE_STEP_02 : string := "step_02_remove_instance".
Definition INSTANCE_DELETE_STEP_03 : string := "step_03_remove_schema".
Definition INSTANCE_DELETE_STEP_04 : string := "step_04_remove_local_configuration".
Definition WORKSPACE_CREATE_STEP_01 : string := "step_01_create_workspace".
Definition WORKSPACE_UPDATE_STEP_01 : string := "step_01_update_workspace".
Definition WORKSPACE_DELETE_STEP_01 : string := "step_01_delete_workspace".
Definition DATABASE_SYNC_STEP_01 : string := "step_01_sync_database".
Definition TEMPLATE_SYNC_STEP_01 : string := "step_01_sync_template".
Definition TEMPLATE_ASSIGNMENT_CREATE_STEP_01 : string := "step_01_create_template".
Definition TEMPLATE_ASSIGNMENT_DELETE_STEP_01 : string := "step_01_delete_template".
Definition INSTANCE_CREATE_STEP_01_TASK : string := "coder_manager.instance.create.step_01_create_schema".
Definition INSTANCE_CREATE_STEP_02_TASK : string := "coder_manager.instance.create.step_02_create_instance".
Definition INSTANCE_CREATE_STEP_03_TASK : string := "coder_manager.instance.create.step_03_bootstrap_admin".
Definition INSTANCE_UPDATE_STEP_01_TASK : string := "coder_manager.instance.update.step_01_update_instance".
Definition INSTANCE_UPDATE_STEP_02_TASK : string := "coder_manager.instance.update.step_02_cleanup_users".
Definition INSTANCE_START_STEP_01_TASK : string := "coder_manager.instance.start.step_01_start_instance".
Definition INSTANCE_STOP_STEP_01_TASK : string := "coder_manager.instance.stop.step_01_stop_workspaces".
Definition INSTANCE_STOP_STEP_02_TASK : string := "coder_manager.instance.stop.step_02_stop_instance".
Definition INSTANCE_DELETE_STEP_01_TASK : string := "coder_manager.instance.delete.step_01_remove_workspaces".
Definition INSTANCE_DELETE_STEP_02_TASK : string := "coder_manager.instance.delete.step_02_remove_instance".
Definition INSTANCE_DELETE_STEP_03_TASK : string := "coder_manager.instance.delete.step_03_remove_schema".
Definition INSTANCE_DELETE_STEP_04_TASK : string := "coder_manager.instance.delete.step_04_remove_local_configuration".
Definition WORKSPACE_CREATE_STEP_01_TASK : string := "coder_manager.workspace.create.step_01_create_workspace".
Definition WORKSPACE_UPDATE_STEP_01_TASK : string := "coder_manager.workspace.update.step_01_update_workspace".
Definition WORKSPACE_DELETE_STEP_01_TASK : string := "coder_manager.workspace.delete.step_01_delete_workspace".
Definition DATABASE_SYNC_STEP_01_TASK : string := "coder_manager.database.sync.step_01_sync_database".
Definition TEMPLATE_SYNC_STEP_01_TASK : string := "coder_manager.template.sync.step_01_sync_template".
Definition TEMPLATE_ASSIGNMENT_CREATE_STEP_01_TASK : string := "coder_manager.template.create.step_01_create_template".
Definition TEMPLATE_ASSIGNMENT_DELETE_STEP_01_TASK : string := "coder_manager.template.delete.step_01_delete_template".

Definition REGISTERED_STEP_NAMES : list string :=
  [INSTANCE_CREATE_STEP_01_TASK;
   INSTANCE_CREATE_STEP_02_TASK;
   INSTANCE_CREATE_STEP_03_TASK;
   INSTANCE_UPDATE_STEP_01_TASK;
   INSTANCE_UPDATE_STEP_02_TASK;
   INSTANCE_START_STEP_01_TASK;
   INSTANCE_STOP_STEP_01_TASK;
   INSTANCE_STOP_STEP_02_TASK;
   INSTANCE_DELETE_STEP_01_TASK;
   INSTANCE_DELETE_STEP_02_TASK;
   INSTANCE_DELETE_STEP_03_TASK;
   INSTANCE_DELETE_STEP_04_TASK;
   WORKSPACE_CREATE_STEP_01_TASK;
   WORKSPACE_UPDATE_STEP_01_TASK;
   WORKSPACE_DELETE_STEP_01_TASK;
   DATABASE_SYNC_STEP_01_TASK;
   TEMPLATE_SYNC_STEP_01_TASK;
   TEMPLATE_ASSIGNMENT_CREATE_STEP_01_TASK;
   TEMPLATE_ASSIGNMENT_DELETE_STEP_01_TASK].

(** [dispatch_registered_step]: [task_is_loaded] is Celery's task table and [delay] tells whether
    the broker takes the message; an exception of [delay] is caught and is [false] here. *)
Definition dispatch_registered_step (task_is_loaded : string -> bool)
    (delay : string -> uuid -> bool) (task_name : string) (job_id : uuid) : bool :=
  if negb (member task_name REGISTERED_STEP_NAMES) then false
  else if negb (task_is_loaded task_name) then false
  else delay task_name job_id.

Lemma dispatch_only_registered loaded delay task job_id :
  dispatch_registered_step loaded delay task job_id = true ->
  task ∈ REGISTERED_STEP_NAMES /\ loaded task = true /\ delay task job_id = true.
Proof.
  unfold dispatch_registered_step, member. case_bool_decide; [| done].
  destruct (loaded task); [| done]. done.
Qed.
