(* ===== verification/Crypto.v ===== *)
(** * Crypto: authenticated encryption of stored credentials (crypto.py)

    AES-GCM itself is the [cryptography] package's; it is the parameter [AESGCM] of this file, with
    the laws that the program relies on stated apart in [AESGCMLaws]. The envelope (version byte,
    nonce, ciphertext), the binding of an envelope to the row that owns it, the base64 key and all
    error paths are the program's. *)
From S2P Require Import Prelude Text Models Store.
From Stdlib Require Import Ascii String.
Open Scope string_scope.

(** ** Bytes of strings and identifiers *)
Definition byte_of_N (n : N) : Byte.byte := Ascii.byte_of_ascii (ascii_of_N n).
Definition N_of_byte (b : Byte.byte) : N := Byte.to_N b.

(** [s.encode()]: a string is represented by its UTF-8 bytes already. *)
Definition str_encode (s : string) : bytes := list_byte_of_string s.

(** Well-formed UTF-8 (RFC 3629), as [bytes.decode] demands. [need] is the number of
    continuation bytes still due; [lo] and [hi] bound the next one. *)
Fixpoint utf8_from (need : nat) (lo hi : N) (l : bytes) : bool :=
  match l with
  | [] => Nat.eqb need 0
  | b :: l' =>
      let n := N_of_byte b in
      match need with
      | S need' => (N.leb lo n && N.leb n hi)%bool && utf8_from need' 128 191 l'
      | O =>
          if N.ltb n 128 then utf8_from 0 128 191 l'
          else if (N.leb 194 n && N.leb n 223)%bool then utf8_from 1 128 191 l'
          else if N.eqb n 224 then utf8_from 2 160 191 l'
          else if N.eqb n 237 then utf8_from 2 128 159 l'
          else if (N.leb 225 n && N.leb n 239)%bool then utf8_from 2 128 191 l'
          else if N.eqb n 240 then utf8_from 3 144 191 l'
          else if (N.leb 241 n && N.leb n 243)%bool then utf8_from 3 128 191 l'
          else if N.eqb n 244 then utf8_from 3 128 143 l'
          else false
      end
  end.
Definition valid_utf8 (l : bytes) : bool := utf8_from 0 128 191 l.
(** [b.decode()]: [None] is [UnicodeDecodeError]. *)
Definition bytes_decode (l : bytes) : option string :=
  if valid_utf8 l then Some (string_of_list_byte l) else None.

(** [uuid.bytes]: 16 bytes, most significant first. *)
Fixpoint be_bytes (k : nat) (n : N) (acc : bytes) : bytes :=
  match k with
  | O => acc
  | S k' => be_bytes k' (N.div n 256) (byte_of_N (N.modulo n 256) :: acc)
  end.
Definition uuid_bytes (u : N) : bytes := be_bytes 16 u [].

(** ** [b64decode(s, validate=True)]: full quads, the last one padded or not *)
Definition b64_value (c : ascii) : option N :=
  let n := N_of_ascii c in
  if in_range 65 90 c then Some (n - 65)%N
  else if in_range 97 122 c then Some (n - 71)%N
  else if in_range 48 57 c then Some (n + 4)%N
  else if Ascii.eqb c "+" then Some 62%N
  else if Ascii.eqb c "/" then Some 63%N
  else None.

Definition b64_byte1 (a b : N) : Byte.byte := byte_of_N (a * 4 + N.div b 16).
Definition b64_byte2 (b c : N) : Byte.byte := byte_of_N (N.modulo b 16 * 16 + N.div c 4).
Definition b64_byte3 (c d : N) : Byte.byte := byte_of_N (N.modulo c 4 * 64 + d).

Fixpoint b64_quads (l : list ascii) : option bytes :=
  match l with
  | [] => Some []
  | [a; b; "="%char; "="%char] =>
      va ← b64_value a; vb ← b64_value b; Some [b64_byte1 va vb]
  | [a; b; c; "="%char] =>
      va ← b64_value a; vb ← b64_value b; vc ← b64_value c;
      Some [b64_byte1 va vb; b64_byte2 vb vc]
  | a :: b :: c :: d :: l' =>
      va ← b64_value a; vb ← b64_value b; vc ← b64_value c; vd ← b64_value d;
      rest ← b64_quads l';
      Some (b64_byte1 va vb :: b64_byte2 vb vc :: b64_byte3 vc vd :: rest)
  | _ => None
  end.
Definition b64decode (s : string) : option bytes := b64_quads (chars s).

(** ** The third-party cipher *)
Class AESGCM := {
  aes_encrypt : forall key nonce plaintext associated_data : bytes, bytes;
  (** [None] is [InvalidTag] or [ValueError]. *)
  aes_decrypt : forall key nonce ciphertext associated_data : bytes, option bytes
}.

(** AES-GCM decrypts what it encrypted, appends a 16-byte tag, and (ideally, forgery being
    infeasible) rejects a ciphertext made under other associated data. *)
Class AESGCMLaws `{AESGCM} := {
  aes_roundtrip key nonce p aad : aes_decrypt key nonce (aes_encrypt key nonce p aad) aad = Some p;
  aes_tagged key nonce p aad : (16 <= List.length (aes_encrypt key nonce p aad))%nat;
  aes_authentic key nonce p p' aad aad' :
    aes_decrypt key nonce (aes_encrypt key nonce p aad) aad' = Some p' -> aad' = aad
}.

Definition ENVELOPE_VERSION : Byte.byte := Byte.x01.
Definition NONCE_LENGTH : nat := 12.
Definition KEY_LENGTH : nat := 32.

(** A constructed cipher is its key. The [__init__] of the four classes is the same code. *)
Definition cipher := bytes.
Definition init_cipher (encoded_key : option string) : Exn + cipher :=
  match encoded_key with
  | None => inl CryptoConfigurationError
  | Some s =>
      match b64decode s with
      | None => inl CryptoConfigurationError
      | Some key =>
          if Nat.eqb (List.length key) KEY_LENGTH then inr key else inl CryptoConfigurationError
      end
  end.

Section Envelopes.
Context `{AESGCM}.

(** The common body of the four [encrypt] methods; [nonce] is what [urandom] returned. *)
Definition seal (key nonce plaintext associated_data : bytes) : bytes :=
  [ENVELOPE_VERSION] ++ nonce ++ aes_encrypt key nonce plaintext associated_data.

(** The common body of the four [decrypt] methods, up to the decoding. *)
Definition unseal (e : Exn) (key envelope associated_data : bytes) : Exn + bytes :=
  if Nat.leb (List.length envelope) (1 + NONCE_LENGTH)
     || negb (bool_decide (head envelope = Some ENVELOPE_VERSION))
  then inl e
  else
    let nonce := firstn NONCE_LENGTH (skipn 1 envelope) in
    let ciphertext := skipn (1 + NONCE_LENGTH) envelope in
    match aes_decrypt key nonce ciphertext associated_data with
    | None => inl e
    | Some plaintext => inr plaintext
    end.

Definition decode_or (e : Exn) (r : Exn + bytes) : Exn + string :=
  match r with
  | inl e' => inl e'
  | inr plaintext =>
      match bytes_decode plaintext with None => inl e | Some s => inr s end
  end.

(** *** The four ciphers *)
Definition password_associated_data (database_id : uuid) : bytes :=
  str_encode "coder-manager:database-password:" ++ uuid_bytes database_id.
Definition PasswordCipher_encrypt (self : cipher) (nonce : bytes) (password : string)
    (database_id : uuid) : bytes :=
  seal self nonce (str_encode password) (password_associated_data database_id).
Definition PasswordCipher_decrypt (self : cipher) (envelope : bytes) (database_id : uuid)
    : Exn + string :=
  decode_or PasswordDecryptionError
    (unseal PasswordDecryptionError self envelope (password_associated_data database_id)).

Definition kubeconfig_associated_data (instance_id : uuid) : bytes :=
  str_encode "coder-manager:kubeconfig:" ++ uuid_bytes instance_id.
Definition KubeconfigCipher_encrypt (self : cipher) (nonce kubeconfig : bytes)
    (instance_id : uuid) : bytes :=
  seal self nonce kubeconfig (kubeconfig_associated_data instance_id).
Definition KubeconfigCipher_decrypt (self : cipher) (envelope : bytes) (instance_id : uuid)
    : Exn + bytes :=
  unseal KubeconfigDecryptionError self envelope (kubeconfig_associated_data instance_id).

Definition instance_password_associated_data (instance_id : uuid) : bytes :=
  str_encode "coder-manager:instance-password:" ++ uuid_bytes instance_id.
Definition InstancePasswordCipher_encrypt (self : cipher) (nonce : bytes) (password : string)
    (instance_id : uuid) : bytes :=
  seal self nonce (str_encode password) (instance_password_associated_data instance_id).
Definition InstancePasswordCipher_decrypt (self : cipher) (envelope : bytes)
    (instance_id : uuid) : Exn + string :=
  decode_or InstancePasswordDecryptionError
    (unseal InstancePasswordDecryptionError self envelope
       (instance_password_associated_data instance_id)).

Definition parameter_associated_data (parameter_id : uuid) : bytes :=
  str_encode "coder-manager:template-parameter:" ++ uuid_bytes parameter_id.
Definition TemplateParameterCipher_encrypt (self : cipher) (nonce : bytes) (value : string)
    (parameter_id : uuid) : bytes :=
  seal self nonce (str_encode value) (parameter_associated_data parameter_id).
Definition TemplateParameterCipher_decrypt (self : cipher) (envelope : bytes)
    (parameter_id : uuid) : Exn + string :=
  decode_or TemplateParameterDecryptionError
    (unseal TemplateParameterDecryptionError self envelope
       (parameter_associated_data parameter_id)).
End Envelopes.

(** ** Facts *)
Lemma byte_of_N_inj n m : (n < 256)%N -> (m < 256)%N -> byte_of_N n = byte_of_N m -> n = m.
Proof.
  intros Hn Hm H. unfold byte_of_N in H.
  apply (f_equal ascii_of_byte) in H. rewrite !ascii_of_byte_of_ascii in H.
  apply (f_equal N_of_ascii) in H. by rewrite !N_ascii_embedding in H.
Qed.

Lemma be_bytes_inj k n m acc acc' :
  (n < 256 ^ N.of_nat k)%N -> (m < 256 ^ N.of_nat k)%N ->
  be_bytes k n acc = be_bytes k m acc' -> List.length acc = List.length acc' ->
  n = m /\ acc = acc'.
Proof.
  revert n m acc acc'. induction k as [|k IH]; intros n m acc acc' Hn Hm H Hl.
  { cbn in *. split; [lia | done]. }
  rewrite Nat2N.inj_succ, N.pow_succ_r' in Hn, Hm. cbn [be_bytes] in H.
  apply IH in H as [Hq [= Hr Hacc]].
  - split; [| done].
    apply byte_of_N_inj in Hr; [| apply N.mod_lt; lia..].
    rewrite (N.div_mod n 256), (N.div_mod m 256) by lia. congruence.
  - apply N.Div0.div_lt_upper_bound; lia.
  - apply N.Div0.div_lt_upper_bound; lia.
  - cbn. by rewrite Hl.
Qed.

Lemma uuid_bytes_inj u v : (u < 2 ^ 128)%N -> (v < 2 ^ 128)%N -> uuid_bytes u = uuid_bytes v -> u = v.
Proof. intros Hu Hv H. by apply (be_bytes_inj 16 u v [] []) in H as [-> _]. Qed.

Lemma bytes_decode_encode s : valid_utf8 (str_encode s) = true -> bytes_decode (str_encode s) = Some s.
Proof. intros H. unfold bytes_decode. rewrite H. f_equal. apply string_of_list_byte_of_string. Qed.

Section Facts.
Context `{AESGCMLaws}.

Lemma unseal_seal e key nonce p aad :
  List.length nonce = NONCE_LENGTH -> unseal e key (seal key nonce p aad) aad = inr p.
Proof.
  intros Hn. unfold unseal, seal.
  pose proof (aes_tagged key nonce p aad) as Ht. unfold NONCE_LENGTH in *.
  rewrite !length_app, Hn. cbn [List.length app head].
  rewrite bool_decide_eq_true_2 by done. rewrite (proj2 (Nat.leb_gt _ _)) by (cbn; lia).
  cbn [orb negb skipn Nat.add app]. rewrite drop_0, (take_app_length' nonce), (drop_app_length' nonce) by done.
  by rewrite aes_roundtrip.
Qed.

Lemma unseal_other e key nonce p aad aad' :
  List.length nonce = NONCE_LENGTH -> aad' <> aad ->
  unseal e key (seal key nonce p aad) aad' = inl e.
Proof.
  intros Hn Hne. unfold unseal, seal.
  pose proof (aes_tagged key nonce p aad) as Ht. unfold NONCE_LENGTH in *.
  rewrite !length_app, Hn. cbn [List.length app head].
  rewrite bool_decide_eq_true_2 by done. rewrite (proj2 (Nat.leb_gt _ _)) by (cbn; lia).
  cbn [orb negb skipn Nat.add app]. rewrite drop_0, (take_app_length' nonce), (drop_app_length' nonce) by done.
  destruct (aes_decrypt _ _ _ _) eqn:E; [| done]. by apply aes_authentic in E.
Qed.
End Facts.

(** The four prefixes tell the ciphers apart whatever the identifiers, as none is a prefix of
    another, and the 16 bytes of an identifier tell the owners apart. *)
Inductive Owned := OwnedPassword | OwnedKubeconfig | OwnedInstancePassword | OwnedParameter.
Definition associated_data (o : Owned) (id : uuid) : bytes :=
  match o with
  | OwnedPassword => password_associated_data id
  | OwnedKubeconfig => kubeconfig_associated_data id
  | OwnedInstancePassword => instance_password_associated_data id
  | OwnedParameter => parameter_associated_data id
  end.

Lemma associated_data_inj o o' id id' :
  (id < 2 ^ 128)%N -> (id' < 2 ^ 128)%N ->
  associated_data o id = associated_data o' id' -> o = o' /\ id = id'.
Proof.
  intros Hi Hi'. destruct o, o'; cbn [associated_data];
    unfold password_associated_data, kubeconfig_associated_data,
      instance_password_associated_data, parameter_associated_data; intros H;
    try (cbn in H; discriminate H); (split; [done |]);
    apply app_inv_head in H; by apply uuid_bytes_inj.
Qed.
