(* ===== verification/Execution.v ===== *)
(** * Execution: claims on durable jobs (tasks/common/execution.py)

    A job names its current task and step, and the resource it works for (an instance, a template,
    a template assignment or a workspace) names the job back. A worker acts on a job through an
    [ExecutionClaim] that carries the number of its attempt; every later session of the worker
    checks with [owned_execution] that the claim still holds. *)
From S2P Require Import Prelude Text Models Store Registry.

(** [d.get(key)] on a literal dictionary. *)
Fixpoint dict_get {A} (key : string) (dict : list (string * A)) : option A :=
  match dict with
  | [] => None
  | (k, a) :: rest => if k == key then Some a else dict_get key rest
  end.

(** ** The resource of a job *)
Definition RESOURCE_ACTIONS : list (string * string) :=
  [("instance.create", "creating"); ("instance.update", "updating");
   ("instance.start", "starting"); ("instance.stop", "stopping");
   ("instance.delete", "deleting"); ("template.sync", "syncing");
   ("template_assignment.create", "creating"); ("template_assignment.delete", "deleting");
   ("workspace.create", "creating"); ("workspace.update", "updating");
   ("workspace.delete", "deleting")].
Arguments RESOURCE_ACTIONS : simpl never.
Arguments dict_get {_} _ _ : simpl never.

Inductive Kind := KInstance | KTemplate | KAssignment | KWorkspace.
#[export] Instance kind_eq_dec : EqDecision Kind.
Proof. solve_decision. Defined.

Definition kind_of (resource_type : string) : option Kind :=
  dict_get resource_type
    [("instance", KInstance); ("template", KTemplate); ("template_assignment", KAssignment);
     ("workspace", KWorkspace)].
Definition kind_name (k : Kind) : string :=
  match k with
  | KInstance => "instance" | KTemplate => "template"
  | KAssignment => "template_assignment" | KWorkspace => "workspace"
  end.

(** [Instance | Template | TemplateAssignment | Workspace]. *)
Inductive Resource :=
| RInstance (r : CoderInstance)
| RTemplate (r : Template)
| RAssignment (r : TemplateAssignment)
| RWorkspace (r : Workspace).

(** A resource is identified by its model and primary key. *)
Abbreviation ref := (Kind * N)%type (only parsing).

Definition load_resource (x : ref) (d : Store) : option Resource :=
  match x.1 with
  | KInstance => RInstance <$> instances d !! x.2
  | KTemplate => RTemplate <$> templates d !! x.2
  | KAssignment => RAssignment <$> assignments d !! x.2
  | KWorkspace => RWorkspace <$> workspaces d !! x.2
  end.

(** The four attributes through which a job and its resource agree. A template's status is its
    [sync_status]. *)
Record Owner := mkOwner {
  own_job_id : option uuid;
  own_action : string;
  own_step : option string;
  own_status : Status
}.
#[export] Instance eta_owner : Eta Owner := fun r =>
  mkOwner (own_job_id r) (own_action r) (own_step r) (own_status r).

Definition owner_of (r : Resource) : Owner :=
  match r with
  | RInstance r => mkOwner (inst_job_id r) (inst_action r) (inst_step r) (inst_status r)
  | RTemplate r => mkOwner (tpl_job_id r) (tpl_action r) (tpl_step r) (tpl_sync_status r)
  | RAssignment r => mkOwner (asg_job_id r) (asg_action r) (asg_step r) (asg_status r)
  | RWorkspace r => mkOwner (ws_job_id r) (ws_action r) (ws_step r) (ws_status r)
  end.

(** [owner d x]: those attributes of the resource [x] of the store, if it exists. *)
Definition owner (d : Store) (x : ref) : option Owner := owner_of <$> load_resource x d.

(** [resource.status = s], by the class of the resource. *)
Definition set_status (s : Status) (x : ref) (d : Store) : Store :=
  match x.1 with
  | KInstance => d <| instances := alter (fun r => r <| inst_status := s |>) x.2 (instances d) |>
  | KTemplate =>
      d <| templates := alter (fun r => r <| tpl_sync_status := s |>) x.2 (templates d) |>
  | KAssignment =>
      d <| assignments := alter (fun r => r <| asg_status := s |>) x.2 (assignments d) |>
  | KWorkspace =>
      d <| workspaces := alter (fun r => r <| ws_status := s |>) x.2 (workspaces d) |>
  end.
(** [resource.step = s]. *)
Definition set_step (s : option string) (x : ref) (d : Store) : Store :=
  match x.1 with
  | KInstance => d <| instances := alter (fun r => r <| inst_step := s |>) x.2 (instances d) |>
  | KTemplate => d <| templates := alter (fun r => r <| tpl_step := s |>) x.2 (templates d) |>
  | KAssignment =>
      d <| assignments := alter (fun r => r <| asg_step := s |>) x.2 (assignments d) |>
  | KWorkspace => d <| workspaces := alter (fun r => r <| ws_step := s |>) x.2 (workspaces d) |>
  end.
(** [session.delete(resource)]. *)
Definition delete_row (x : ref) (d : Store) : Store :=
  match x.1 with
  | KInstance => delete_instance_row x.2 d
  | KTemplate => delete_template_row x.2 d
  | KAssignment => delete_assignment_row x.2 d
  | KWorkspace => d <| workspaces := delete x.2 (workspaces d) |>
  end.
Definition set_job (f : JobExecution -> JobExecution) (i : uuid) (d : Store) : Store :=
  d <| jobs := alter f i (jobs d) |>.

(** ** Claims *)
Record ExecutionClaim := mkClaim {
  claim_job_id : uuid;
  claim_task_name : string;
  claim_step : string;
  claim_attempt : Z;
  claim_resource_type : option string;
  claim_resource_id : option uuid
}.

(** The identity that [_resource_for_job] looks up: none when either half is missing or the type
    is unknown. *)
Definition job_ref (job : JobExecution) : option ref :=
  match job_resource_type job, job_resource_id job with
  | Some t, Some i => k ← kind_of t; Some (k, i)
  | _, _ => None
  end.

Definition _resource_for_job (d : Store) (job : JobExecution) : option Resource :=
  x ← job_ref job; load_resource x d.

Definition _resource_matches (job_id : uuid) (job : JobExecution) (resource : option Resource)
    : bool :=
  match job_resource_type job with
  | None => true
  | Some _ =>
      match resource with
      | None => false
      | Some r =>
          match dict_get (job_name job) RESOURCE_ACTIONS with
          | None => false
          | Some expected_action =>
              (own_job_id (owner_of r) == Some job_id)
              && (own_action (owner_of r) == expected_action)
              && (own_step (owner_of r) == Some (job_step job))
          end
      end
  end.

(** Assign to the job's resource, if it has one. *)
Definition on_resource (f : ref -> Store -> Store) (job : JobExecution) (d : Store) : Store :=
  match job_ref job with Some x => f x d | None => d end.

Definition claim_execution (now : time) (job_id : uuid) (task_name : string)
    : session (option ExecutionClaim) :=
  d ← gets (fun d => d);
  match jobs d !! job_id with
  | None => mret None
  | Some job =>
      if (job_task_name job != task_name) || negb (member (job_status job) [PENDING; ERROR])
      then mret None
      else if negb (_resource_matches job_id job (_resource_for_job d job)) then mret None
      else
        modify (set_job (fun j => j <| job_status := RUNNING |>
                                    <| job_attempt := (job_attempt j + 1)%Z |>
                                    <| job_claimed_at := Some now |>) job_id);;
        modify (on_resource (set_status RUNNING) job);;
        commit;;
        mret (Some (mkClaim job_id (job_task_name job) (job_step job) (job_attempt job + 1)
                      (job_resource_type job) (job_resource_id job)))
  end.

(** [owned_execution]: the job while the claim still owns it; its resource is the row at the
    job's [job_ref]. *)
Definition owned (claim : ExecutionClaim) (d : Store) : option JobExecution :=
  job ← jobs d !! claim_job_id claim;
  if (job_task_name job != claim_task_name claim) || (job_step job != claim_step claim)
     || (job_attempt job != claim_attempt claim) || (job_status job != RUNNING)
  then None
  else if negb (_resource_matches (claim_job_id claim) job (_resource_for_job d job)) then None
  else Some job.

Definition owned_execution (claim : ExecutionClaim) : session (option JobExecution) :=
  gets (owned claim).

(** A callback [mutate(session, resource)] gets the identity of the resource. *)
Definition mutation := option ref -> session unit.
Definition no_mutation : mutation := fun _ => mret tt.

(** The dispatch that follows a successful [advance_execution] is a request of the worker, see
    Program.v. *)
Definition advance_execution (claim : ExecutionClaim) (next_task_name next_step : string)
    (mutate : mutation) : session bool :=
  o ← owned_execution claim;
  match o with
  | None => mret false
  | Some job =>
      mutate (job_ref job);;
      modify (set_job (fun j => j <| job_task_name := next_task_name |>
                                  <| job_step := next_step |>
                                  <| job_status := PENDING |>
                                  <| job_claimed_at := None |>) (claim_job_id claim));;
      modify (on_resource (set_step (Some next_step)) job);;
      modify (on_resource (set_status PENDING) job);;
      commit;;
      mret true
  end.

Definition complete_execution (claim : ExecutionClaim) (mutate : mutation)
    (delete_resource : bool) : session bool :=
  o ← owned_execution claim;
  match o with
  | None => mret false
  | Some job =>
      mutate (job_ref job);;
      modify (set_job (fun j => j <| job_status := SUCCESS |> <| job_claimed_at := None |>)
                (claim_job_id claim));;
      (if delete_resource then modify (on_resource delete_row job)
       else
         modify (on_resource (set_status SUCCESS) job);;
         modify (on_resource (set_step None) job));;
      commit;;
      mret true
  end.

Definition defer_execution (claim : ExecutionClaim) (mutate : mutation) : session bool :=
  o ← owned_execution claim;
  match o with
  | None => mret false
  | Some job =>
      mutate (job_ref job);;
      modify (set_job (fun j => j <| job_status := PENDING |> <| job_claimed_at := None |>)
                (claim_job_id claim));;
      modify (on_resource (set_status PENDING) job);;
      commit;;
      mret true
  end.

(** Here the callback takes the session only. *)
Definition fail_execution (claim : ExecutionClaim) (mutate : session unit) : session unit :=
  o ← owned_execution claim;
  match o with
  | None => mret tt
  | Some job =>
      mutate;;
      modify (set_job (fun j => j <| job_status := ERROR |> <| job_claimed_at := None |>)
                (claim_job_id claim));;
      modify (on_resource (set_status ERROR) job);;
      commit
  end.

Definition prepare_execution_retry (stale_before : time) (job_id : uuid)
    : session (option string) :=
  d ← gets (fun d => d);
  match jobs d !! job_id with
  | None => mret None
  | Some job =>
      if job_status job == SUCCESS then mret None
      else if negb (_resource_matches job_id job (_resource_for_job d job)) then mret None
      else if job_status job == RUNNING then
        match job_claimed_at job with
        | None => mret None
        | Some claimed_at =>
            if Z.ltb stale_before claimed_at then mret None
            else
              modify (set_job (fun j => j <| job_status := PENDING |>
                                          <| job_claimed_at := None |>) job_id);;
              modify (on_resource (set_status PENDING) job);;
              commit;;
              mret (Some (job_task_name job))
        end
      else mret (Some (job_task_name job))
  end.

Definition required_resource_id (claim : ExecutionClaim) : Exn + uuid :=
  match claim_resource_id claim with
  | None => inl (RuntimeError "Job resource is missing")
  | Some i => inr i
  end.

Definition heartbeat_execution (now : time) (claim : ExecutionClaim) : session bool :=
  o ← owned_execution claim;
  match o with
  | None => mret false
  | Some _ =>
      modify (set_job (fun j => j <| job_claimed_at := Some now |>) (claim_job_id claim));;
      commit;;
      mret true
  end.
