(* ===== verification/Ownership.v ===== *)
(** * Ownership: how jobs and resources stay in step

    The lemmas on claims that every component uses: what each session of Execution.v does to the
    job and to its resource, and the invariant [InSync] that binds a resource which is not at rest
    to exactly one job. *)
From S2P Require Import Prelude Text Models Store Registry Execution.

(** ** Readings of the assignments *)
Lemma kind_of_inj t t' k : kind_of t = Some k -> kind_of t' = Some k -> t = t'.
Proof.
  unfold kind_of, dict_get.
  repeat case_bool_decide; intros; simplify_eq; done.
Qed.

Lemma kind_of_name k : kind_of (kind_name k) = Some k.
Proof. by destruct k. Qed.

Lemma owner_set_status s x y d :
  owner (set_status s x d) y =
  (fun o => if decide (x = y) then o <| own_status := s |> else o) <$> owner d y.
Proof.
  destruct x as [k i], y as [k' i']. unfold owner, load_resource, set_status.
  destruct k, k'; cbn -[alter lookup]; try (rewrite lookup_alter);
    repeat case_decide; simplify_eq; try (destruct (_ !! _); done).
Qed.

Lemma owner_set_step s x y d :
  owner (set_step s x d) y =
  (fun o => if decide (x = y) then o <| own_step := s |> else o) <$> owner d y.
Proof.
  destruct x as [k i], y as [k' i']. unfold owner, load_resource, set_step.
  destruct k, k'; cbn -[alter lookup]; try (rewrite lookup_alter);
    repeat case_decide; simplify_eq; try (destruct (_ !! _); done).
Qed.

Lemma owner_set_job f i y d : owner (set_job f i d) y = owner d y.
Proof. destruct y as [[] i']; done. Qed.

Lemma jobs_set_status s x d : jobs (set_status s x d) = jobs d.
Proof. by destruct x as [[] i]. Qed.
Lemma jobs_set_step s x d : jobs (set_step s x d) = jobs d.
Proof. by destruct x as [[] i]. Qed.
Lemma jobs_set_job f i d : jobs (set_job f i d) = alter f i (jobs d).
Proof. done. Qed.
Lemma jobs_delete_row x d : jobs (delete_row x d) = jobs d.
Proof. by destruct x as [[] i]. Qed.

(** Deleting a row and what cascades from it takes resources away and changes none. *)
Lemma owner_delete_row x y d :
  owner (delete_row x d) y = None \/ owner (delete_row x d) y = owner d y.
Proof.
  destruct x as [k i], y as [k' i']. unfold owner, load_resource, delete_row.
  destruct k, k'; cbn -[delete lookup delete_where]; auto;
    rewrite ?lookup_delete_where, ?lookup_delete; try case_decide; auto;
    destruct (_ !! _); cbn; auto; case_match; auto.
Qed.

Lemma owner_delete_row_self x d : owner (delete_row x d) x = None.
Proof.
  destruct x as [k i]. unfold owner, load_resource, delete_row.
  destruct k; cbn -[delete lookup delete_where]; by rewrite lookup_delete_eq.
Qed.

(** Assignments that leave the four attributes of the resource alone. *)
Lemma owner_alter_instance (f : CoderInstance -> CoderInstance) i d y :
  (forall r, owner_of (RInstance (f r)) = owner_of (RInstance r)) ->
  owner (d <| instances := alter f i (instances d) |>) y = owner d y.
Proof.
  intros Hf. destruct y as [[] k]; try done. unfold owner, load_resource; cbn -[alter lookup].
  rewrite lookup_alter. destruct (decide (i = k)) as [-> |]; [| done].
  destruct (_ !! _) as [r|]; [| done]. exact (f_equal Some (Hf r)).
Qed.

Lemma owner_alter_template (f : Template -> Template) i d y :
  (forall r, owner_of (RTemplate (f r)) = owner_of (RTemplate r)) ->
  owner (d <| templates := alter f i (templates d) |>) y = owner d y.
Proof.
  intros Hf. destruct y as [[] k]; try done. unfold owner, load_resource; cbn -[alter lookup].
  rewrite lookup_alter. destruct (decide (i = k)) as [-> |]; [| done].
  destruct (_ !! _) as [r|]; [| done]. exact (f_equal Some (Hf r)).
Qed.

Create Rewrite HintDb owner.
#[export] Hint Rewrite owner_set_status owner_set_step owner_set_job jobs_set_status
  jobs_set_step jobs_set_job jobs_delete_row : owner.

(** ** The invariant *)

(** Whatever job a resource names is the resource's own. A resource at rest is [SUCCESS] and has
    no step; any other is at the same step as its job, with the action of the job's name and the
    job's status. *)
Definition Bound (d : Store) (x : ref) (o : Owner) : Prop :=
  (forall j, own_job_id o = Some j ->
     exists job, jobs d !! j = Some job /\ job_ref job = Some x) /\
  if decide (own_status o = SUCCESS) then own_step o = None
  else exists j job,
    own_job_id o = Some j /\ jobs d !! j = Some job /\
    dict_get (job_name job) RESOURCE_ACTIONS = Some (own_action o) /\
    own_step o = Some (job_step job) /\ job_status job = own_status o.

Definition InSync (d : Store) : Prop := forall x o, owner d x = Some o -> Bound d x o.

(** [Spares ox d d']: between [d] and [d'] every resource but [ox] is as it was, or is gone. *)
Definition Spares (ox : option ref) (d d' : Store) : Prop :=
  forall y, Some y <> ox -> owner d' y = None \/ owner d' y = owner d y.
(** [JobsSpared ox d d']: the jobs of every resource but [ox] are as they were. *)
Definition JobsSpared (ox : option ref) (d d' : Store) : Prop :=
  forall j job, jobs d !! j = Some job -> job_ref job <> ox -> jobs d' !! j = Some job.

Lemma spares_refl ox d : Spares ox d d.
Proof. intros y _. auto. Qed.

Lemma spares_trans ox d1 d2 d3 : Spares ox d1 d2 -> Spares ox d2 d3 -> Spares ox d1 d3.
Proof.
  intros H1 H2 y Hy. destruct (H1 y Hy), (H2 y Hy); [auto | left | auto | right]; congruence.
Qed.

Lemma spares_of_eq ox d d' : (forall y, owner d' y = owner d y) -> Spares ox d d'.
Proof. intros H y _. by right. Qed.

Lemma spares_weaken ox d d' : Spares None d d' -> Spares ox d d'.
Proof. intros H y _. by apply H. Qed.

Lemma spares_delete_row x ox d : Spares ox d (delete_row x d).
Proof. intros y _. apply owner_delete_row. Qed.

Lemma spares_set_status s x d : Spares (Some x) d (set_status s x d).
Proof.
  intros y Hy. right. rewrite owner_set_status.
  destruct (owner d y); cbn; [by rewrite decide_False by congruence | done].
Qed.

Lemma spares_set_step s x d : Spares (Some x) d (set_step s x d).
Proof.
  intros y Hy. right. rewrite owner_set_step.
  destruct (owner d y); cbn; [by rewrite decide_False by congruence | done].
Qed.

Lemma spares_set_job ox f i d : Spares ox d (set_job f i d).
Proof. intros y _. right. apply owner_set_job. Qed.

Lemma spares_on_resource f job d :
  (forall x d, Spares (Some x) d (f x d)) -> Spares (job_ref job) d (on_resource f job d).
Proof. intros Hf. unfold on_resource. destruct (job_ref job); [apply Hf | apply spares_refl]. Qed.

Create HintDb owner.
#[export] Hint Resolve spares_refl spares_delete_row spares_set_status spares_set_step
  spares_set_job spares_on_resource : owner.

(** The one way in which the program works on resources and jobs: everything that belongs to
    other resources than [ox] stays, or a resource disappears. *)
Lemma insync_transition ox d d' :
  InSync d -> JobsSpared ox d d' -> Spares ox d d' ->
  (forall x o, ox = Some x -> owner d' x = Some o -> Bound d' x o) ->
  InSync d'.
Proof.
  intros Hd Hj Hs Hx y o Hy.
  destruct (decide (Some y = ox)) as [<- | Hne]; [by eapply Hx |].
  destruct (Hs y Hne) as [HN | HS]; [congruence |]. rewrite Hy in HS. symmetry in HS.
  destruct (Hd y o HS) as [Hb Hr]. split.
  - intros j Ho. destruct (Hb j Ho) as (job & Hlk & Href). exists job. split; [| done].
    apply Hj; congruence.
  - case_decide; [done |]. destruct Hr as (j & job & Ho & Hlk & Hr). exists j, job.
    split; [done |]. split; [| done]. destruct (Hb j Ho) as (job' & Hlk' & Href).
    apply Hj; congruence.
Qed.

(** Removing resources breaks nothing. *)
Lemma insync_spares d d' : InSync d -> jobs d' = jobs d -> Spares None d d' -> InSync d'.
Proof.
  intros Hd Hj Hs. apply (insync_transition None d); [done | | done | done].
  intros j job H _. by rewrite Hj.
Qed.

Lemma jobs_spared_eq ox d d' : jobs d' = jobs d -> JobsSpared ox d d'.
Proof. intros E j job H _. by rewrite E. Qed.

Lemma jobs_spared_alter f i job d d' :
  jobs d !! i = Some job -> jobs d' = alter f i (jobs d) -> JobsSpared (job_ref job) d d'.
Proof.
  intros Hi E j job' Hj Hne. rewrite E, lookup_alter_ne; [done |]. congruence.
Qed.

Lemma jobs_spared_fresh ox j job d d' :
  jobs d !! j = None -> jobs d' = <[j := job]> (jobs d) -> JobsSpared ox d d'.
Proof.
  intros Hj E i job' Hi Hne. rewrite E, lookup_insert_ne; [done |]. congruence.
Qed.

(** ** Jobs over time *)

(** The steps that a job of each name goes through, with the type of its resource: the names and
    tasks that the repositories and the step functions write. *)
Definition WORKFLOW_STEPS : list (string * option string * string * string) :=
  [("instance.create", Some "instance", INSTANCE_CREATE_STEP_01_TASK, INSTANCE_CREATE_STEP_01);
   ("instance.create", Some "instance", INSTANCE_CREATE_STEP_02_TASK, INSTANCE_CREATE_STEP_02);
   ("instance.create", Some "instance", INSTANCE_CREATE_STEP_03_TASK, INSTANCE_CREATE_STEP_03);
   ("instance.update", Some "instance", INSTANCE_UPDATE_STEP_01_TASK, INSTANCE_UPDATE_STEP_01);
   ("instance.update", Some "instance", INSTANCE_UPDATE_STEP_02_TASK, INSTANCE_UPDATE_STEP_02);
   ("instance.start", Some "instance", INSTANCE_START_STEP_01_TASK, INSTANCE_START_STEP_01);
   ("instance.start", Some "instance", INSTANCE_UPDATE_STEP_02_TASK, INSTANCE_UPDATE_STEP_02);
   ("instance.stop", Some "instance", INSTANCE_STOP_STEP_01_TASK, INSTANCE_STOP_STEP_01);
   ("instance.stop", Some "instance", INSTANCE_STOP_STEP_02_TASK, INSTANCE_STOP_STEP_02);
   ("instance.delete", Some "instance", INSTANCE_DELETE_STEP_01_TASK, INSTANCE_DELETE_STEP_01);
   ("instance.delete", Some "instance", INSTANCE_DELETE_STEP_02_TASK, INSTANCE_DELETE_STEP_02);
   ("instance.delete", Some "instance", INSTANCE_DELETE_STEP_03_TASK, INSTANCE_DELETE_STEP_03);
   ("instance.delete", Some "instance", INSTANCE_DELETE_STEP_04_TASK, INSTANCE_DELETE_STEP_04);
   ("workspace.create", Some "workspace", WORKSPACE_CREATE_STEP_01_TASK,
    WORKSPACE_CREATE_STEP_01);
   ("workspace.update", Some "workspace", WORKSPACE_UPDATE_STEP_01_TASK,
    WORKSPACE_UPDATE_STEP_01);
   ("workspace.delete", Some "workspace", WORKSPACE_DELETE_STEP_01_TASK,
    WORKSPACE_DELETE_STEP_01);
   ("database.sync", None, DATABASE_SYNC_STEP_01_TASK, DATABASE_SYNC_STEP_01);
   ("template.sync", Some "template", TEMPLATE_SYNC_STEP_01_TASK, TEMPLATE_SYNC_STEP_01);
   ("template_assignment.create", Some "template_assignment",
    TEMPLATE_ASSIGNMENT_CREATE_STEP_01_TASK, TEMPLATE_ASSIGNMENT_CREATE_STEP_01);
   ("template_assignment.delete", Some "template_assignment",
    TEMPLATE_ASSIGNMENT_DELETE_STEP_01_TASK, TEMPLATE_ASSIGNMENT_DELETE_STEP_01)].

(** The steps that new jobs start at: the deletion of an instance without a password leaves
    out the removal of its workspaces. *)
Definition FIRST_STEPS : list (string * option string * string * string) :=
  [("instance.create", Some "instance", INSTANCE_CREATE_STEP_01_TASK, INSTANCE_CREATE_STEP_01);
   ("instance.update", Some "instance", INSTANCE_UPDATE_STEP_01_TASK, INSTANCE_UPDATE_STEP_01);
   ("instance.start", Some "instance", INSTANCE_START_STEP_01_TASK, INSTANCE_START_STEP_01);
   ("instance.stop", Some "instance", INSTANCE_STOP_STEP_01_TASK, INSTANCE_STOP_STEP_01);
   ("instance.delete", Some "instance", INSTANCE_DELETE_STEP_01_TASK, INSTANCE_DELETE_STEP_01);
   ("instance.delete", Some "instance", INSTANCE_DELETE_STEP_02_TASK, INSTANCE_DELETE_STEP_02);
   ("workspace.create", Some "workspace", WORKSPACE_CREATE_STEP_01_TASK,
    WORKSPACE_CREATE_STEP_01);
   ("workspace.update", Some "workspace", WORKSPACE_UPDATE_STEP_01_TASK,
    WORKSPACE_UPDATE_STEP_01);
   ("workspace.delete", Some "workspace", WORKSPACE_DELETE_STEP_01_TASK,
    WORKSPACE_DELETE_STEP_01);
   ("database.sync", None, DATABASE_SYNC_STEP_01_TASK, DATABASE_SYNC_STEP_01);
   ("template.sync", Some "template", TEMPLATE_SYNC_STEP_01_TASK, TEMPLATE_SYNC_STEP_01);
   ("template_assignment.create", Some "template_assignment",
    TEMPLATE_ASSIGNMENT_CREATE_STEP_01_TASK, TEMPLATE_ASSIGNMENT_CREATE_STEP_01);
   ("template_assignment.delete", Some "template_assignment",
    TEMPLATE_ASSIGNMENT_DELETE_STEP_01_TASK, TEMPLATE_ASSIGNMENT_DELETE_STEP_01)].

(** The task that follows a task, with its step. *)
Definition NEXT_STEPS : list (string * (string * string)) :=
  [(INSTANCE_CREATE_STEP_01_TASK, (INSTANCE_CREATE_STEP_02_TASK, INSTANCE_CREATE_STEP_02));
   (INSTANCE_CREATE_STEP_02_TASK, (INSTANCE_CREATE_STEP_03_TASK, INSTANCE_CREATE_STEP_03));
   (INSTANCE_UPDATE_STEP_01_TASK, (INSTANCE_UPDATE_STEP_02_TASK, INSTANCE_UPDATE_STEP_02));
   (INSTANCE_START_STEP_01_TASK, (INSTANCE_UPDATE_STEP_02_TASK, INSTANCE_UPDATE_STEP_02));
   (INSTANCE_STOP_STEP_01_TASK, (INSTANCE_STOP_STEP_02_TASK, INSTANCE_STOP_STEP_02));
   (INSTANCE_DELETE_STEP_01_TASK, (INSTANCE_DELETE_STEP_02_TASK, INSTANCE_DELETE_STEP_02));
   (INSTANCE_DELETE_STEP_02_TASK, (INSTANCE_DELETE_STEP_03_TASK, INSTANCE_DELETE_STEP_03));
   (INSTANCE_DELETE_STEP_03_TASK, (INSTANCE_DELETE_STEP_04_TASK, INSTANCE_DELETE_STEP_04))].

(** The tasks at which a job can end. *)
Definition LAST_TASKS : list string :=
  [INSTANCE_CREATE_STEP_03_TASK; INSTANCE_UPDATE_STEP_02_TASK; INSTANCE_STOP_STEP_02_TASK;
   INSTANCE_DELETE_STEP_04_TASK; WORKSPACE_CREATE_STEP_01_TASK; WORKSPACE_UPDATE_STEP_01_TASK;
   WORKSPACE_DELETE_STEP_01_TASK; DATABASE_SYNC_STEP_01_TASK; TEMPLATE_SYNC_STEP_01_TASK;
   TEMPLATE_ASSIGNMENT_CREATE_STEP_01_TASK; TEMPLATE_ASSIGNMENT_DELETE_STEP_01_TASK].

Definition job_known (job : JobExecution) : bool :=
  bool_decide ((job_name job, job_resource_type job, job_task_name job, job_step job)
               ∈ WORKFLOW_STEPS)
  && Bool.eqb (is_some (job_resource_type job)) (is_some (job_resource_id job))
  && Z.leb 0 (job_attempt job)
  && Bool.eqb (job_status job == RUNNING) (is_some (job_claimed_at job)).

Definition JobsKnown (d : Store) : Prop := map_Forall (fun _ job => job_known job = true) (jobs d).

(** [Succeeds job job']: what never changes in a job, and what only grows. *)
Definition Succeeds (job job' : JobExecution) : Prop :=
  job_name job' = job_name job /\ job_resource_type job' = job_resource_type job /\
  job_resource_id job' = job_resource_id job /\ job_created_at job' = job_created_at job /\
  (job_attempt job <= job_attempt job')%Z /\
  (job_status job' = RUNNING ->
     job_status job = RUNNING \/ (job_attempt job < job_attempt job')%Z) /\
  (job_status job = SUCCESS -> job' = job).

#[export] Instance succeeds_preorder : PreOrder Succeeds.
Proof.
  split.
  - intros job. unfold Succeeds. split_and!; auto; done.
  - intros a b c (?&?&?&?&?&Hr&H) (?&?&?&?&?&Hr'&H'). unfold Succeeds.
    split_and!; try congruence; [lia | |].
    + intros Hc. destruct (Hr' Hc) as [Hb |]; [destruct (Hr Hb); [by left |] |]; right; lia.
    + intros E. rewrite H' by (by rewrite H). by apply H.
Qed.

(** [JobStep job job']: what a session may make of a job. *)
Inductive JobStep (job : JobExecution) : JobExecution -> Prop :=
| job_claims now :
    job_status job = PENDING \/ job_status job = ERROR ->
    JobStep job (job <| job_status := RUNNING |> <| job_attempt := (job_attempt job + 1)%Z |>
                     <| job_claimed_at := Some now |>)
| job_beats now :
    job_status job = RUNNING -> JobStep job (job <| job_claimed_at := Some now |>)
| job_advances task step :
    job_status job = RUNNING -> (job_task_name job, (task, step)) ∈ NEXT_STEPS ->
    JobStep job (job <| job_task_name := task |> <| job_step := step |>
                     <| job_status := PENDING |> <| job_claimed_at := None |>)
| job_completes :
    job_status job = RUNNING -> job_task_name job ∈ LAST_TASKS ->
    JobStep job (job <| job_status := SUCCESS |> <| job_claimed_at := None |>)
| job_releases s :
    job_status job = RUNNING -> s = PENDING \/ s = ERROR ->
    JobStep job (job <| job_status := s |> <| job_claimed_at := None |>).

(** A new job. *)
Definition JobStarts (job : JobExecution) : Prop :=
  (job_name job, job_resource_type job, job_task_name job, job_step job) ∈ FIRST_STEPS /\
  job_status job = PENDING /\ job_attempt job = 0%Z /\ job_claimed_at job = None.

(** What a session may make of the row of a job. *)
Definition JobMove (o o' : option JobExecution) : Prop :=
  match o, o' with
  | None, Some job => JobStarts job
  | Some job, Some job' => job' = job \/ JobStep job job'
  | _, None => True
  end.

Lemma job_step_succeeds job job' : JobStep job job' -> Succeeds job job'.
Proof.
  destruct 1 as [now Hs | now Hs | task step Hs _ | Hs _ | s Hs Ht]; unfold Succeeds; cbn;
    split_and!; try done; try lia; try (by left); try (right; lia); try congruence;
    try (destruct Hs; congruence); destruct Ht; by left.
Qed.

(** [Evolves d d']: every job starts, makes a step of its workflow, stays or goes. *)
Definition Evolves (d d' : Store) : Prop := forall j, JobMove (jobs d !! j) (jobs d' !! j).

Lemma evolves_succeeds d d' j job job' :
  Evolves d d' -> jobs d !! j = Some job -> jobs d' !! j = Some job' -> Succeeds job job'.
Proof.
  intros He Hj Hj'. specialize (He j). rewrite Hj, Hj' in He.
  destruct He as [-> | He]; [reflexivity | by apply job_step_succeeds].
Qed.

Lemma move_refl o : JobMove o o.
Proof. destruct o; [by left | exact I]. Qed.
Lemma move_gone o : JobMove o None.
Proof. by destruct o. Qed.

Lemma evolves_eq d d' : jobs d' = jobs d -> Evolves d d'.
Proof. intros E j. rewrite E. apply move_refl. Qed.

Lemma evolves_alter f i d d' :
  jobs d' = alter f i (jobs d) ->
  (forall job, jobs d !! i = Some job -> JobStep job (f job)) -> Evolves d d'.
Proof.
  intros E Hf j. rewrite E, lookup_alter. case_decide as Hij; [subst j | apply move_refl].
  destruct (jobs d !! i) as [job |]; [right; auto | exact I].
Qed.

(** Jobs that stay as they are or go, and a new one. *)
Lemma evolves_subset d d' :
  (forall j job, jobs d' !! j = Some job -> jobs d !! j = Some job) -> Evolves d d'.
Proof.
  intros H j. destruct (jobs d' !! j) as [job |] eqn:E; [| apply move_gone].
  rewrite (H j job E). by left.
Qed.

Lemma evolves_subset_fresh j job d d1 d' :
  (forall j job, jobs d1 !! j = Some job -> jobs d !! j = Some job) -> jobs d !! j = None ->
  jobs d' = <[j := job]> (jobs d1) -> JobStarts job -> Evolves d d'.
Proof.
  intros H Hj E Hs i. rewrite E, lookup_insert. case_decide as Hij; [subst i; by rewrite Hj |].
  apply (evolves_subset d d1 H).
Qed.

Lemma evolves_fresh j job d d' :
  jobs d !! j = None -> jobs d' = <[j := job]> (jobs d) -> JobStarts job -> Evolves d d'.
Proof. intros Hj E Hs. by eapply (evolves_subset_fresh j job d d). Qed.

Lemma first_step_known step : step ∈ FIRST_STEPS -> step ∈ WORKFLOW_STEPS.
Proof.
  assert (H : forallb (fun s => bool_decide (s ∈ WORKFLOW_STEPS)) FIRST_STEPS = true)
    by (vm_compute; reflexivity).
  rewrite forallb_forall in H. intros Hin. apply list_elem_of_In, H in Hin. by bool_hyps.
Qed.

Lemma jobs_known_alter f i d d' :
  JobsKnown d -> jobs d' = alter f i (jobs d) ->
  (forall job, jobs d !! i = Some job -> job_known job = true -> job_known (f job) = true) ->
  JobsKnown d'.
Proof.
  intros Hd E Hf j job H. rewrite E, lookup_alter in H. case_decide as Hij.
  - subst j. destruct (jobs d !! i) as [job0|] eqn:Hi; [| done]. injection H as <-.
    eapply Hf, Hd; done.
  - by apply (Hd j).
Qed.

Lemma jobs_known_insert j job d d' :
  JobsKnown d -> jobs d' = <[j := job]> (jobs d) -> job_known job = true -> JobsKnown d'.
Proof. intros Hd E Hj. unfold JobsKnown. rewrite E. by apply map_Forall_insert_2. Qed.

(** ** Sound stores and the sessions that keep them so *)
Record Sound (d : Store) : Prop := {
  sound_integrity : Integrity d;
  sound_sync : InSync d;
  sound_jobs : JobsKnown d
}.

(** [Keeps m]: the session [m] leaves a sound store sound and moves jobs within their
    workflows. *)
Definition Keeps {A} (m : session A) : Prop :=
  forall d a d', Sound d -> m d = inr (a, d') -> Sound d' /\ Evolves d d'.

(** A session that reads only. *)
Definition ReadOnly {A} (m : session A) : Prop := forall d a d', m d = inr (a, d') -> d' = d.

Lemma keeps_read_only {A} (m : session A) : ReadOnly m -> Keeps m.
Proof. intros H d a d' Hd E. rewrite (H _ _ _ E). split; [done | by apply evolves_eq]. Qed.
