(* ===== verification/Claims.v ===== *)
(** * Claims: what the sessions of Execution.v guarantee

    Functional behaviour of claims, the conditions under which each session keeps a store sound,
    and fencing: a stale claim changes nothing; and at the end, that the sessions of a claim never
    violate a constraint. *)
From S2P Require Import Prelude Text Models Store Registry Execution Ownership.

(** ** Matching *)
Lemma load_owner d x o : owner d x = Some o <-> exists r, load_resource x d = Some r /\ owner_of r = o.
Proof.
  unfold owner. destruct (load_resource x d); cbn; split.
  - intros [= <-]. eauto.
  - by intros (r' & [= <-] & <-).
  - done.
  - by intros (r' & ? & _).
Qed.

Lemma resource_matches_spec d j job :
  _resource_matches j job (_resource_for_job d job) = true ->
  job_resource_type job = None \/
  exists x o, job_ref job = Some x /\ owner d x = Some o /\ own_job_id o = Some j /\
    dict_get (job_name job) RESOURCE_ACTIONS = Some (own_action o) /\
    own_step o = Some (job_step job).
Proof.
  unfold _resource_matches, _resource_for_job. destruct (job_resource_type job) as [t|] eqn:Et; [| auto].
  destruct (job_ref job) as [x|] eqn:Ex; cbn [mbind option_bind]; [| done].
  destruct (load_resource x d) as [r|] eqn:Er; [| done].
  destruct (dict_get _ _) as [a|] eqn:Ea; [| done].
  rewrite !andb_true_iff, !bool_decide_eq_true. intros [[H1 H2] H3].
  right. exists x, (owner_of r). rewrite load_owner. subst a. eauto 10.
Qed.

Lemma job_ref_none job : job_resource_type job = None -> job_ref job = None.
Proof. unfold job_ref. by intros ->. Qed.

(** A job that matches its resource shares the resource's status. *)
Lemma matched_status d j job x o :
  InSync d -> jobs d !! j = Some job -> job_ref job = Some x -> owner d x = Some o ->
  own_job_id o = Some j -> own_step o = Some (job_step job) ->
  own_status o = job_status job /\ job_status job <> SUCCESS.
Proof.
  intros Hd Hj Hx Ho Hid Hst. destruct (Hd x o Ho) as [_ Hb].
  case_decide as E; [congruence |]. destruct Hb as (j' & job' & Hid' & Hj' & _ & _ & Hs).
  assert (j' = j) as -> by congruence. assert (job' = job) as -> by congruence.
  split; congruence.
Qed.

Lemma owned_spec c d job :
  owned c d = Some job <->
  jobs d !! claim_job_id c = Some job /\ job_task_name job = claim_task_name c /\
  job_step job = claim_step c /\ job_attempt job = claim_attempt c /\ job_status job = RUNNING /\
  _resource_matches (claim_job_id c) job (_resource_for_job d job) = true.
Proof.
  unfold owned. destruct (jobs d !! claim_job_id c) as [job'|] eqn:E; cbn.
  2: { split; [done | by intros [? _]]. }
  repeat case_bool_decide; cbn;
    try (split; [done |]; intros (E' & ? & ? & ? & ? & ?); congruence).
  destruct (_resource_matches _ _ _) eqn:Em; cbn.
  - split; [intros [= ->] | intros ([= ->] & _)]; done.
  - split; [done |]. intros ([= ->] & ? & ? & ? & ? & ?). congruence.
Qed.

(** Two claims that both hold are the same attempt at the same step. *)
Lemma owned_agree c c' d job job' :
  owned c d = Some job -> owned c' d = Some job' -> claim_job_id c = claim_job_id c' ->
  job = job' /\ claim_attempt c = claim_attempt c' /\ claim_task_name c = claim_task_name c' /\
  claim_step c = claim_step c'.
Proof.
  rewrite !owned_spec. intros (H & ? & ? & ? & _) (H' & ? & ? & ? & _) E.
  rewrite E in H. assert (job' = job) as -> by congruence. split_and!; congruence.
Qed.

(** ** Transitions of a job with its resource *)

(** [Touches ox P d d']: the jobs and every resource but [ox] are as they were, and [ox] changed
    within [P] if it is still there. *)
Definition Touches (ox : option ref) (P : Owner -> Owner -> Prop) (d d' : Store) : Prop :=
  jobs d' = jobs d /\ Spares ox d d' /\
  forall x o', ox = Some x -> owner d' x = Some o' -> exists o, owner d x = Some o /\ P o o'.

Definition SameJob (o o' : Owner) : Prop := own_job_id o' = own_job_id o.
Definition SameDuty (o o' : Owner) : Prop :=
  own_job_id o' = own_job_id o /\ own_action o' = own_action o /\ own_step o' = own_step o.

(** A callback of [complete_execution] may give the resource a new action; the callback of the
    others may not. *)
Definition MutatesWithin (P : Owner -> Owner -> Prop) (mutate : mutation) : Prop :=
  forall ox d u d', Sound d -> mutate ox d = inr (u, d') -> Touches ox P d d'.

Lemma touches_refl ox (P : Owner -> Owner -> Prop) d : (forall o, P o o) -> Touches ox P d d.
Proof. intros HP. split_and!; [done | apply spares_refl |]. eauto. Qed.

Lemma touches_weaken ox (P Q : Owner -> Owner -> Prop) d d' :
  (forall o o', P o o' -> Q o o') -> Touches ox P d d' -> Touches ox Q d d'.
Proof. intros HPQ (Hj & Hs & Ho). split_and!; [done | done |]. intros x o' Hx Hl.
  destruct (Ho x o' Hx Hl) as (o & ? & ?). eauto. Qed.

(** Rows other than jobs and resources, and removal of resources, touch nothing. *)
Lemma touches_removal ox (P : Owner -> Owner -> Prop) d d' :
  (forall o, P o o) -> jobs d' = jobs d ->
  (forall y, owner d' y = None \/ owner d' y = owner d y) -> Touches ox P d d'.
Proof.
  intros HP Hj H. split_and!; [done | by intros y _ |]. intros x o' -> Ho'.
  destruct (H x) as [E | E]; [congruence |]. exists o'. rewrite <- E. eauto.
Qed.

Lemma no_mutation_within (P : Owner -> Owner -> Prop) :
  (forall o, P o o) -> MutatesWithin P no_mutation.
Proof. intros HP ox d u d' _ H. apply ret_inr in H as [_ ->]. by apply touches_refl. Qed.

Section Transition.
Variables (d d1 d' : Store) (j : uuid) (job : JobExecution) (f : JobExecution -> JobExecution).
Hypothesis (Hsync : InSync d) (Hjob : jobs d !! j = Some job).
Hypothesis (Hmatch : _resource_matches j job (_resource_for_job d job) = true).
Hypothesis (Hjobs : jobs d' = alter f j (jobs d1)).
Hypothesis (Hspares : Spares (job_ref job) d1 d').

Lemma transition_insync (P : Owner -> Owner -> Prop) :
  Touches (job_ref job) P d d1 ->
  (forall o o1, P o o1 -> own_job_id o1 = own_job_id o) ->
  job_ref (f job) = job_ref job ->
  (forall x o o1 o', job_ref job = Some x -> owner d x = Some o -> owner d1 x = Some o1 ->
     P o o1 -> owner d' x = Some o' ->
     dict_get (job_name job) RESOURCE_ACTIONS = Some (own_action o) ->
     own_step o = Some (job_step job) ->
     own_job_id o' = own_job_id o1 /\
     (own_status o' = SUCCESS /\ own_step o' = None \/
      own_status o' <> SUCCESS /\ job_status (f job) = own_status o' /\
      own_step o' = Some (job_step (f job)) /\
      dict_get (job_name (f job)) RESOURCE_ACTIONS = Some (own_action o'))) ->
  (forall x, job_ref job = Some x -> owner d1 x = None -> owner d' x = None) ->
  InSync d'.
Proof.
  intros (Hj1 & Hs1 & Ho1) HP Hf Hx Hgone. rewrite Hj1 in Hjobs.
  apply (insync_transition (job_ref job) d); [done | | by eapply spares_trans |].
  { by apply (jobs_spared_alter f j). }
  intros x o' Hr Ho'. destruct (owner d1 x) as [o1|] eqn:E1; [| by rewrite Hgone in Ho'].
  destruct (Ho1 x o1 Hr E1) as (o & Ho & HPo).
  apply resource_matches_spec in Hmatch as [HN | (x' & o2 & Hx' & Ho2 & Hid & Hact & Hstep)].
  { rewrite job_ref_none in Hr; done. }
  assert (x' = x) as -> by congruence. assert (o2 = o) as -> by congruence.
  destruct (Hx x o o1 o') as [Hid' Hcase]; try done.
  rewrite (HP o o1 HPo), Hid in Hid'.
  assert (Hlk : jobs d' !! j = Some (f job)) by by rewrite Hjobs, lookup_alter_eq, Hjob.
  split.
  - intros j' Hj'. exists (f job). rewrite Hf. split; [congruence | done].
  - destruct Hcase as [[Es Et] | (Es & Hst & Ht & Ha)].
    + by rewrite decide_True.
    + rewrite decide_False by done. exists j, (f job). eauto 10.
Qed.
End Transition.

(** What a session assigns to the resource. *)
Lemma owner_on_resource_status s job d x :
  job_ref job = Some x ->
  owner (on_resource (set_status s) job d) x = (fun o => o <| own_status := s |>) <$> owner d x.
Proof.
  intros Hx. unfold on_resource. rewrite Hx, owner_set_status.
  destruct (owner d x); cbn; [by rewrite decide_True | done].
Qed.

Lemma owner_on_resource_step s job d x :
  job_ref job = Some x ->
  owner (on_resource (set_step s) job d) x = (fun o => o <| own_step := s |>) <$> owner d x.
Proof.
  intros Hx. unfold on_resource. rewrite Hx, owner_set_step.
  destruct (owner d x); cbn; [by rewrite decide_True | done].
Qed.

Lemma jobs_on_resource f job d :
  (forall x d, jobs (f x d) = jobs d) -> jobs (on_resource f job d) = jobs d.
Proof. intros H. unfold on_resource. by destruct (job_ref job). Qed.

Ltac owner_simpl :=
  repeat first
    [ erewrite owner_on_resource_status in * by eassumption
    | erewrite owner_on_resource_step in * by eassumption
    | rewrite owner_set_job in * ].

Lemma jobs_assigned f job d :
  jobs (on_resource (set_status f) job d) = jobs d.
Proof. apply jobs_on_resource, jobs_set_status. Qed.
Lemma jobs_stepped f job d :
  jobs (on_resource (set_step f) job d) = jobs d.
Proof. apply jobs_on_resource, jobs_set_step. Qed.
Lemma jobs_removed job d : jobs (on_resource delete_row job d) = jobs d.
Proof. apply jobs_on_resource, jobs_delete_row. Qed.

Create Rewrite HintDb jobs.
#[export] Hint Rewrite jobs_assigned jobs_stepped jobs_removed jobs_set_job : jobs.

Lemma spares_then_status s job d d1 :
  Spares (job_ref job) d d1 -> Spares (job_ref job) d (on_resource (set_status s) job d1).
Proof. intros H. eapply spares_trans; [done |]. apply spares_on_resource. auto with owner. Qed.
Lemma spares_then_step s job d d1 :
  Spares (job_ref job) d d1 -> Spares (job_ref job) d (on_resource (set_step s) job d1).
Proof. intros H. eapply spares_trans; [done |]. apply spares_on_resource. auto with owner. Qed.
Lemma spares_then_removed job d d1 :
  Spares (job_ref job) d d1 -> Spares (job_ref job) d (on_resource delete_row job d1).
Proof. intros H. eapply spares_trans; [done |]. apply spares_on_resource. auto with owner. Qed.
#[export] Hint Resolve spares_then_status spares_then_step spares_then_removed : owner.

(** The three shapes of transition. *)
Section Shapes.
Variables (d d1 : Store) (j : uuid) (job : JobExecution) (f : JobExecution -> JobExecution).
Hypothesis (Hsync : InSync d) (Hjob : jobs d !! j = Some job).
Hypothesis (Hmatch : _resource_matches j job (_resource_for_job d job) = true).
Hypothesis (Hname : job_name (f job) = job_name job) (Href : job_ref (f job) = job_ref job).

(** Same step, new status: claims, failures, deferrals, reclaims. *)
Lemma insync_status s :
  Touches (job_ref job) SameDuty d d1 ->
  job_status (f job) = s -> s <> SUCCESS -> job_step (f job) = job_step job ->
  InSync (on_resource (set_status s) job (set_job f j d1)).
Proof.
  intros Ht Hs Hne Hst.
  eapply (transition_insync d d1 _ j job f) with (P := SameDuty); try done.
  - by autorewrite with jobs.
  - auto with owner.
  - by intros o o1 (? & _).
  - intros x o o1 o' Hx Ho Ho1 (? & Ha & Hp) Ho' Hd Hstep. owner_simpl.
    rewrite Ho1 in Ho'. injection Ho' as <-. cbn.
    split; [done |]. right. split_and!; congruence.
  - intros x Hx Hn. owner_simpl. by rewrite Hn.
Qed.

(** New step. *)
Lemma insync_advance step :
  Touches (job_ref job) SameDuty d d1 ->
  job_status (f job) = PENDING -> job_step (f job) = step ->
  InSync (on_resource (set_status PENDING) job
            (on_resource (set_step (Some step)) job (set_job f j d1))).
Proof.
  intros Ht Hs Hst.
  eapply (transition_insync d d1 _ j job f) with (P := SameDuty); try done.
  - by autorewrite with jobs.
  - auto with owner.
  - by intros o o1 (? & _).
  - intros x o o1 o' Hx Ho Ho1 (? & Ha & Hp) Ho' Hd Hstep. owner_simpl.
    rewrite Ho1 in Ho'. injection Ho' as <-. cbn.
    split; [done |]. right. split_and!; congruence.
  - intros x Hx Hn. owner_simpl. by rewrite Hn.
Qed.

(** Completion. *)
Lemma insync_complete :
  Touches (job_ref job) SameJob d d1 ->
  InSync (on_resource (set_step None) job
            (on_resource (set_status SUCCESS) job (set_job f j d1))).
Proof.
  intros Ht.
  eapply (transition_insync d d1 _ j job f) with (P := SameJob); try done.
  - by autorewrite with jobs.
  - auto with owner.
  - intros x o o1 o' Hx Ho Ho1 Hp Ho' Hd Hstep. owner_simpl.
    rewrite Ho1 in Ho'. injection Ho' as <-. cbn.
    split; [done |]. left. done.
  - intros x Hx Hn. owner_simpl. by rewrite Hn.
Qed.

(** Completion that removes the resource. *)
Lemma insync_remove :
  Touches (job_ref job) SameJob d d1 ->
  InSync (on_resource delete_row job (set_job f j d1)).
Proof.
  intros Ht.
  assert (Hgone : forall x, job_ref job = Some x ->
            owner (on_resource delete_row job (set_job f j d1)) x = None).
  { intros x Hx. unfold on_resource. rewrite Hx. apply owner_delete_row_self. }
  eapply (transition_insync d d1 _ j job f) with (P := SameJob); try done.
  - by autorewrite with jobs.
  - auto with owner.
  - intros x o o1 o' Hx Ho Ho1 Hp Ho'. by rewrite Hgone in Ho'.
  - auto.
Qed.
End Shapes.

(** ** The sessions keep a store sound *)
Ltac session_cases :=
  repeat first
    [ session_inv_step
    | match goal with
      | H : (match ?x with _ => _ end) _ = inr _ |- _ => destruct x eqn:?
      | H : (if ?b then _ else _) _ = inr _ |- _ => destruct b eqn:?
      end ].

Lemma job_known_status job job' :
  job_known job = true ->
  job_name job' = job_name job -> job_resource_type job' = job_resource_type job ->
  job_resource_id job' = job_resource_id job ->
  (job_name job', job_resource_type job', job_task_name job', job_step job') ∈ WORKFLOW_STEPS ->
  (0 <= job_attempt job')%Z ->
  (job_status job' == RUNNING) = is_some (job_claimed_at job') ->
  job_known job' = true.
Proof.
  unfold job_known. rewrite !andb_true_iff. intros [[[_ H] _] _] En Et Ei Hin Ha Hc.
  rewrite bool_decide_eq_true, Z.leb_le, Hc. rewrite <- Et, <- Ei in H.
  split_and!; [done | done | done | apply eqb_reflx].
Qed.

Lemma job_known_facts job :
  job_known job = true ->
  (job_name job, job_resource_type job, job_task_name job, job_step job) ∈ WORKFLOW_STEPS /\
  is_some (job_resource_type job) = is_some (job_resource_id job) /\
  (0 <= job_attempt job)%Z /\ (job_status job == RUNNING) = is_some (job_claimed_at job).
Proof.
  unfold job_known. rewrite !andb_true_iff, !eqb_true_iff, bool_decide_eq_true, Z.leb_le.
  naive_solver.
Qed.

(** Every session either finds nothing to do and changes nothing, or makes one transition. *)
Lemma claim_execution_inv now j task d a d' :
  claim_execution now j task d = inr (a, d') ->
  (a = None /\ d' = d) \/
  exists job, jobs d !! j = Some job /\ job_task_name job = task /\
    (job_status job = PENDING \/ job_status job = ERROR) /\
    _resource_matches j job (_resource_for_job d job) = true /\ Integrity d' /\
    d' = on_resource (set_status RUNNING) job
           (set_job (fun j => j <| job_status := RUNNING |>
                                <| job_attempt := (job_attempt j + 1)%Z |>
                                <| job_claimed_at := Some now |>) j d) /\
    a = Some (mkClaim j task (job_step job) (job_attempt job + 1)
                (job_resource_type job) (job_resource_id job)).
Proof.
  intros H. unfold claim_execution in H. session_cases; auto. right. bool_hyps.
  exists j0. split_and!; try done; [set_solver | congruence].
Qed.

Definition advanced (claim : ExecutionClaim) (task step : string) (job : JobExecution) (d : Store)
    : Store :=
  on_resource (set_status PENDING) job
    (on_resource (set_step (Some step)) job
       (set_job (fun j => j <| job_task_name := task |> <| job_step := step |>
                            <| job_status := PENDING |> <| job_claimed_at := None |>)
          (claim_job_id claim) d)).
Definition completed (claim : ExecutionClaim) (delete_resource : bool) (job : JobExecution)
    (d : Store) : Store :=
  let d1 := set_job (fun j => j <| job_status := SUCCESS |> <| job_claimed_at := None |>)
              (claim_job_id claim) d in
  if delete_resource then on_resource delete_row job d1
  else on_resource (set_step None) job (on_resource (set_status SUCCESS) job d1).
(** [defer_execution], [fail_execution] and the reclaim of [prepare_execution_retry]. *)
Definition released (s : Status) (job_id : uuid) (job : JobExecution) (d : Store) : Store :=
  on_resource (set_status s) job
    (set_job (fun j => j <| job_status := s |> <| job_claimed_at := None |>) job_id d).

Lemma advance_execution_inv c task step mutate d b d' :
  advance_execution c task step mutate d = inr (b, d') ->
  (b = false /\ d' = d /\ owned c d = None) \/
  exists job d1, b = true /\ owned c d = Some job /\ mutate (job_ref job) d = inr (tt, d1) /\
    Integrity d' /\ d' = advanced c task step job d1.
Proof.
  intros H. unfold advance_execution, owned_execution in H. session_cases; auto. right.
  destruct x. by do 2 eexists.
Qed.

Lemma complete_execution_inv c mutate del d b d' :
  complete_execution c mutate del d = inr (b, d') ->
  (b = false /\ d' = d /\ owned c d = None) \/
  exists job d1, b = true /\ owned c d = Some job /\ mutate (job_ref job) d = inr (tt, d1) /\
    Integrity d' /\ d' = completed c del job d1.
Proof.
  intros H. unfold complete_execution, owned_execution in H. session_cases; auto; right;
    destruct x; by do 2 eexists.
Qed.

Lemma defer_execution_inv c mutate d b d' :
  defer_execution c mutate d = inr (b, d') ->
  (b = false /\ d' = d /\ owned c d = None) \/
  exists job d1, b = true /\ owned c d = Some job /\ mutate (job_ref job) d = inr (tt, d1) /\
    Integrity d' /\ d' = released PENDING (claim_job_id c) job d1.
Proof.
  intros H. unfold defer_execution, owned_execution in H. session_cases; auto. right.
  destruct x. by do 2 eexists.
Qed.

Lemma fail_execution_inv c mutate d u d' :
  fail_execution c mutate d = inr (u, d') ->
  (d' = d /\ owned c d = None) \/
  exists job d1, owned c d = Some job /\ mutate d = inr (tt, d1) /\
    Integrity d' /\ d' = released ERROR (claim_job_id c) job d1.
Proof.
  intros H. unfold fail_execution, owned_execution in H. session_cases; auto. right.
  destruct x. by do 2 eexists.
Qed.

Lemma prepare_execution_retry_inv stale_before j d o d' :
  prepare_execution_retry stale_before j d = inr (o, d') ->
  d' = d \/
  exists job, jobs d !! j = Some job /\ job_status job = RUNNING /\
    _resource_matches j job (_resource_for_job d job) = true /\ Integrity d' /\
    d' = released PENDING j job d /\ o = Some (job_task_name job).
Proof.
  intros H. unfold prepare_execution_retry in H. session_cases; auto. right. bool_hyps.
  by eexists.
Qed.

Lemma heartbeat_execution_inv now c d b d' :
  heartbeat_execution now c d = inr (b, d') ->
  (b = false /\ d' = d /\ owned c d = None) \/
  exists job, b = true /\ owned c d = Some job /\ Integrity d' /\
    d' = set_job (fun j => j <| job_claimed_at := Some now |>) (claim_job_id c) d.
Proof.
  intros H. unfold heartbeat_execution, owned_execution in H. session_cases; auto. right.
  by eexists.
Qed.

(** [lia]-style closing of the side conditions on jobs. *)
Ltac known_job Hd Hj :=
  let Hk := fresh "Hk" in
  pose proof (sound_jobs _ Hd _ _ Hj) as Hk; cbn in Hk;
  eapply (job_known_status _ _ Hk); try done;
  apply job_known_facts in Hk as (?&?&?&?); cbn; try done; try lia.

Section Kept.
Variables (d d1 : Store) (j : uuid) (job : JobExecution) (f : JobExecution -> JobExecution).
Hypothesis (Hd : Sound d) (Hjob : jobs d !! j = Some job) (Hjobs1 : jobs d1 = jobs d).
Hypothesis (Hf : JobStep job (f job)) (Hknown : job_known (f job) = true).

Lemma kept d' :
  jobs d' = alter f j (jobs d1) -> Integrity d' -> InSync d' -> Sound d' /\ Evolves d d'.
Proof.
  rewrite Hjobs1. intros E Hi Hs. split; [split; [done | done |] |].
  - eapply jobs_known_alter; [apply Hd | exact E |]. congruence.
  - eapply evolves_alter; [exact E |]. congruence.
Qed.
End Kept.

Lemma claim_execution_keeps now j task : Keeps (claim_execution now j task).
Proof.
  intros d a d' Hd H. apply claim_execution_inv in H as
    [[_ ->] | (job & Hj & _ & Hst & Hm & Hi & -> & _)].
  { split; [done | by apply evolves_eq]. }
  eapply kept; [exact Hd | exact Hj | reflexivity | | | | exact Hi |].
  4: eapply insync_status; try done; [apply Hd | by apply touches_refl].
  3: by autorewrite with jobs.
  - by apply job_claims.
  - known_job Hd Hj.
Qed.

(** [follows task next]: a job at [task] may go on with the task and step [next]. *)
Definition follows (task next_task next_step : string) : bool :=
  bool_decide ((task, (next_task, next_step)) ∈ NEXT_STEPS).

Lemma next_steps_known :
  forallb (fun '(task, (next_task, next_step)) =>
    forallb (fun '(name, rt, t, _) =>
      (t != task) || bool_decide ((name, rt, next_task, next_step) ∈ WORKFLOW_STEPS))
      WORKFLOW_STEPS) NEXT_STEPS = true.
Proof. vm_compute. reflexivity. Qed.
Lemma follows_known task next_task next_step name rt step :
  follows task next_task next_step = true -> (name, rt, task, step) ∈ WORKFLOW_STEPS ->
  (name, rt, next_task, next_step) ∈ WORKFLOW_STEPS.
Proof.
  unfold follows. pose proof next_steps_known as H. rewrite forallb_forall in H.
  intros Hf%bool_decide_eq_true Hin. apply list_elem_of_In, H in Hf.
  rewrite forallb_forall in Hf. apply list_elem_of_In, Hf in Hin.
  bool_hyps. destruct Hin as [E | E]; by bool_hyps.
Qed.

(** [ends task]: a job may be complete after [task]. *)
Definition ends (task : string) : bool := member task LAST_TASKS.

Lemma advance_execution_keeps c task step mutate :
  MutatesWithin SameDuty mutate -> follows (claim_task_name c) task step = true ->
  Keeps (advance_execution c task step mutate).
Proof.
  intros Hmut Hnext d b d' Hd H. apply advance_execution_inv in H as
    [(_ & -> & _) | (job & d1 & _ & Ho & Hm & Hi & ->)].
  { split; [done | by apply evolves_eq]. }
  apply owned_spec in Ho as (Hj & Ht & Hs & Ha & Hst & Hmatch).
  apply Hmut in Hm; [| done].
  eapply kept; [exact Hd | exact Hj | apply Hm | | | | exact Hi |].
  4: eapply insync_advance; try done; apply Hd.
  3: unfold advanced; by autorewrite with jobs.
  - rewrite <- Ht in Hnext. apply job_advances; [done | by apply bool_decide_eq_true in Hnext].
  - known_job Hd Hj. rewrite Ht in *. by eapply follows_known.
Qed.

Lemma complete_execution_keeps c mutate del :
  MutatesWithin SameJob mutate -> ends (claim_task_name c) = true ->
  Keeps (complete_execution c mutate del).
Proof.
  intros Hmut Hend d b d' Hd H. apply complete_execution_inv in H as
    [(_ & -> & _) | (job & d1 & _ & Ho & Hm & Hi & ->)].
  { split; [done | by apply evolves_eq]. }
  apply owned_spec in Ho as (Hj & Ht & Hs & Ha & Hst & Hmatch).
  apply Hmut in Hm; [| done].
  eapply kept; [exact Hd | exact Hj | apply Hm | | | | exact Hi |].
  4: destruct del; [eapply insync_remove | eapply insync_complete]; try done; apply Hd.
  3: unfold completed; destruct del; by autorewrite with jobs.
  - rewrite <- Ht in Hend. apply job_completes; [done | by apply bool_decide_eq_true in Hend].
  - known_job Hd Hj.
Qed.

Lemma released_keeps s j job d d1 :
  Sound d -> jobs d !! j = Some job -> job_status job = RUNNING ->
  _resource_matches j job (_resource_for_job d job) = true ->
  Touches (job_ref job) SameDuty d d1 -> s = PENDING \/ s = ERROR ->
  Integrity (released s j job d1) ->
  Sound (released s j job d1) /\ Evolves d (released s j job d1).
Proof.
  intros Hd Hj Hst Hmatch Hm Hs Hi.
  eapply kept; [exact Hd | exact Hj | apply Hm | | | | exact Hi |].
  4: eapply insync_status; try done; [apply Hd | by destruct Hs as [-> | ->]].
  3: unfold released; by autorewrite with jobs.
  - by apply job_releases.
  - known_job Hd Hj. by destruct Hs as [-> | ->].
Qed.

Lemma defer_execution_keeps c mutate :
  MutatesWithin SameDuty mutate -> Keeps (defer_execution c mutate).
Proof.
  intros Hmut d b d' Hd H. apply defer_execution_inv in H as
    [(_ & -> & _) | (job & d1 & _ & Ho & Hm & Hi & ->)].
  { split; [done | by apply evolves_eq]. }
  apply owned_spec in Ho as (Hj & _ & _ & _ & Hst & Hmatch).
  apply Hmut in Hm; [| done]. apply released_keeps; auto.
Qed.

Lemma fail_execution_keeps c mutate :
  (forall d u d', Sound d -> mutate d = inr (u, d') -> forall ox, Touches ox SameDuty d d') ->
  Keeps (fail_execution c mutate).
Proof.
  intros Hmut d u d' Hd H. apply fail_execution_inv in H as
    [(-> & _) | (job & d1 & Ho & Hm & Hi & ->)].
  { split; [done | by apply evolves_eq]. }
  apply owned_spec in Ho as (Hj & _ & _ & _ & Hst & Hmatch).
  apply released_keeps; eauto.
Qed.

Lemma prepare_execution_retry_keeps stale_before j :
  Keeps (prepare_execution_retry stale_before j).
Proof.
  intros d o d' Hd H. apply prepare_execution_retry_inv in H as
    [-> | (job & Hj & Hst & Hmatch & Hi & -> & _)].
  { split; [done | by apply evolves_eq]. }
  apply released_keeps; auto. by apply touches_refl.
Qed.

(** A change of a job that no resource can see. *)
Lemma insync_alter f j d :
  InSync d ->
  (forall job, job_name (f job) = job_name job) -> (forall job, job_ref (f job) = job_ref job) ->
  (forall job, job_step (f job) = job_step job) ->
  (forall job, job_status (f job) = job_status job) ->
  InSync (set_job f j d).
Proof.
  intros Hd Hn Hr Hs Ht x o Ho. rewrite owner_set_job in Ho. destruct (Hd x o Ho) as [Hb Hc].
  assert (Hlk : forall i job, jobs d !! i = Some job -> exists job', jobs (set_job f j d) !! i = Some job' /\
    job_name job' = job_name job /\ job_ref job' = job_ref job /\ job_step job' = job_step job /\
    job_status job' = job_status job).
  { intros i job Hi. rewrite jobs_set_job. destruct (decide (j = i)) as [-> |].
    - exists (f job). rewrite lookup_alter_eq, Hi. auto.
    - exists job. rewrite lookup_alter_ne; auto. }
  split.
  - intros i Hi. destruct (Hb i Hi) as (job & H & Href). destruct (Hlk i job H) as (job' & ? & ? & ? & _).
    exists job'. split; congruence.
  - case_decide; [done |]. destruct Hc as (i & job & Hi & Hjob & ? & ? & ?).
    destruct (Hlk i job Hjob) as (job' & ? & ? & ? & ? & ?). exists i, job'. split_and!; congruence.
Qed.

Lemma heartbeat_execution_keeps now c : Keeps (heartbeat_execution now c).
Proof.
  intros d b d' Hd H. apply heartbeat_execution_inv in H as
    [(_ & -> & _) | (job & _ & Ho & Hi & ->)].
  { split; [done | by apply evolves_eq]. }
  apply owned_spec in Ho as (Hj & _ & _ & _ & Hst & Hmatch).
  eapply kept; [exact Hd | exact Hj | reflexivity | | | by autorewrite with jobs | exact Hi |].
  - by apply job_beats.
  - known_job Hd Hj. by rewrite Hst.
  - eapply insync_alter; [apply Hd | done..].
Qed.

(** ** Commits

    What a worker assigns to its job and to the resource's status and step is outside the unique
    keys and the foreign keys, and within the checks: in a store with integrity these sessions
    commit. *)
Lemma checked_alter {R} (check : R -> bool) f i (m : gmap uuid R) :
  Checked check m -> (forall r, m !! i = Some r -> check (f r) = true) -> Checked check (alter f i m).
Proof.
  intros Hm Hf k r. rewrite lookup_alter. destruct (decide (i = k)) as [<- |]; [| by apply Hm].
  destruct (m !! i) as [r0|] eqn:E; [| done]. intros [= <-]. by apply Hf.
Qed.

Lemma unique_alter `{EqDecision K} {R} (key : R -> option K) f i (m : gmap uuid R) :
  Unique key m -> (forall r, key (f r) = key r) -> Unique key (alter f i m).
Proof.
  intros Hm Hf.
  assert (Hk : forall k r, alter f i m !! k = Some r ->
            exists r0, m !! k = Some r0 /\ key r = key r0).
  { intros k r. rewrite lookup_alter. destruct (decide (i = k)) as [<- |]; [| by eauto].
    destruct (m !! i) as [r0|]; [| done]. intros [= <-]. exists r0. auto. }
  intros k r Hr k' r' Hr' He Hn.
  destruct (Hk k r Hr) as (r0 & H0 & E0), (Hk k' r' Hr') as (r1 & H1 & E1).
  apply (unique_lookup key m k k' r0 r1 Hm H0 H1); congruence.
Qed.

Lemma references_alter {R T} (col : R -> option uuid) (target : gmap uuid T) f i m :
  References col target m -> (forall r, col (f r) = col r) -> References col target (alter f i m).
Proof.
  intros Hm Hf k r. rewrite lookup_alter. destruct (decide (i = k)) as [<- |]; [| by apply Hm].
  destruct (m !! i) as [r0|] eqn:E; [| done]. intros [= <-]. rewrite Hf. by apply (Hm i).
Qed.

Lemma references_target {R T} (col : R -> option uuid) (target : gmap uuid T) f i m :
  References col target m -> References col (alter f i target) m.
Proof.
  intros Hm k r Hr. specialize (Hm k r Hr). cbn in *. destruct (col r) as [t|]; [| done].
  by rewrite lookup_alter_is_Some.
Qed.

Lemma kubernetes_target {T} (target : gmap uuid T) f i (m : gmap uuid InstanceKubernetes) :
  map_Forall (fun k _ => is_Some (target !! k)) m ->
  map_Forall (fun k _ => is_Some (alter f i target !! k)) m.
Proof. intros Hm k r Hr. rewrite lookup_alter_is_Some. by eapply Hm. Qed.

Ltac integrity_parts H :=
  destruct H as ((?&?&?&?&?&?&?&?&?&?&?) & (?&?&?&?&?&?&?&?&?&?&?&?&?) &
                 (?&?&?&?&?&?&?&?&?&?&?&?&?&?&?&?&?)).
Ltac integrity_tac :=
  split_and!; cbn -[alter];
  repeat first [ assumption | apply references_target | apply kubernetes_target
               | apply unique_alter; [| done] | apply references_alter; [| done] ].

Lemma integrity_set_job f j d :
  Integrity d -> (forall job, jobs d !! j = Some job -> job_checks (f job) = true) ->
  Integrity (set_job f j d).
Proof.
  intros Hd Hf. unfold set_job. integrity_parts Hd. unfold Integrity, RowsChecked, KeysUnique, ReferencesHold.
  integrity_tac. by apply checked_alter.
Qed.

Lemma integrity_set_status s x d : Integrity d -> Integrity (set_status s x d).
Proof.
  intros Hd. unfold set_status. integrity_parts Hd.
  unfold Integrity, RowsChecked, KeysUnique, ReferencesHold.
  destruct x as [[] i]; cbn [fst snd]; integrity_tac;
    (apply checked_alter; [assumption |]; intros r Hr; match goal with
     H : Checked _ ?m, Hr : ?m !! i = Some r |- _ => exact (H i r Hr) end).
Qed.

Lemma integrity_set_step s x d : Integrity d -> Integrity (set_step s x d).
Proof.
  intros Hd. unfold set_step. integrity_parts Hd.
  unfold Integrity, RowsChecked, KeysUnique, ReferencesHold.
  destruct x as [[] i]; cbn [fst snd]; integrity_tac;
    (apply checked_alter; [assumption |]; intros r Hr; match goal with
     H : Checked _ ?m, Hr : ?m !! i = Some r |- _ => exact (H i r Hr) end).
Qed.

Lemma integrity_on_resource f job d :
  (forall x d, Integrity d -> Integrity (f x d)) -> Integrity d -> Integrity (on_resource f job d).
Proof. intros Hf Hd. unfold on_resource. destruct (job_ref job); auto. Qed.
