(* ===== verification/Jobs.v ===== *)
(** * Jobs: creation of durable jobs (repositories/job_executions.py)

    Every request of the API that needs background work stages one pending job in the session that
    also gives the resource its new action. [request_keeps] is the lemma that all of them share. *)
From S2P Require Import Prelude Text Models Store Registry Execution Ownership Claims.

(** [uuid4()] and the server's clock are arguments. A key that is taken fails the flush, which
    surfaces as [clash] where the source handles [IntegrityError]. *)
Definition new_job (now : time) (name task_name : string) (resource_type : option string)
    (resource_id : option uuid) (step : string) : JobExecution :=
  mkJob name task_name resource_type resource_id step PENDING 0 None now.

Definition add_job_execution (clash : Exn) (now : time) (id : uuid) (name task_name : string)
    (resource_type : option string) (resource_id : option uuid) (step : string) : session unit :=
  d ← gets (fun d => d);
  require (is_none (jobs d !! id)) clash;;
  modify (fun d =>
    d <| jobs := <[id := new_job now name task_name resource_type resource_id step]> (jobs d) |>).

(** [JobExecutionRepository.get] and [create_system_job]. *)
Definition job_get (job_id : uuid) : session (option JobExecution) := gets (fun d => jobs d !! job_id).
Definition create_system_job (now : time) (id : uuid) (name task_name step : string)
    : session (uuid * JobExecution) :=
  add_job_execution IntegrityError now id name task_name None None step;;
  commit;;
  mret (id, new_job now name task_name None None step).

Lemma add_job_execution_inr clash now id name task rt rid step d u d' :
  add_job_execution clash now id name task rt rid step d = inr (u, d') ->
  jobs d !! id = None /\ d' = d <| jobs := <[id := new_job now name task rt rid step]> (jobs d) |>.
Proof.
  intros H. unfold add_job_execution in H. session_inv. bool_hyps. done.
Qed.

Ltac session_inv_step ::=
  match goal with
  | H : commit _ = inr _ |- _ => apply commit_inr in H; destruct H as [-> ?]
  | H : commit_or _ _ = inr _ |- _ => apply commit_or_inr in H; destruct H as [-> ?]
  | H : add_job_execution _ _ _ _ _ _ _ _ _ = inr _ |- _ =>
      apply add_job_execution_inr in H; destruct H as [? ->]
  | _ => action_inv_step
  end.

Lemma new_job_known now name task rt rid step :
  (name, rt, task, step) ∈ FIRST_STEPS -> is_some rt = is_some rid ->
  job_known (new_job now name task rt rid step) = true.
Proof.
  intros Hin%first_step_known Hr. unfold job_known; cbn. rewrite Hr, eqb_reflx.
  by rewrite bool_decide_eq_true_2 by done.
Qed.

Lemma new_job_starts now name task rt rid step :
  (name, rt, task, step) ∈ FIRST_STEPS -> JobStarts (new_job now name task rt rid step).
Proof. done. Qed.
#[export] Hint Resolve new_job_starts : owner.

(** A session that gives the resource [x] to the new job [j]. *)
Lemma request_keeps now name task k i step action j d d' :
  InSync d -> JobsKnown d -> Integrity d' -> jobs d !! j = None ->
  jobs d' = <[j := new_job now name task (Some (kind_name k)) (Some i) step]> (jobs d) ->
  (name, Some (kind_name k), task, step) ∈ FIRST_STEPS ->
  dict_get name RESOURCE_ACTIONS = Some action ->
  Spares (Some (k, i)) d d' ->
  owner d' (k, i) = Some (mkOwner (Some j) action (Some step) PENDING) ->
  Sound d' /\ Evolves d d'.
Proof.
  intros Hd Hk Hi Hj Hjobs Hw Ha Hs Ho. split; [split; [done | |] |].
  - apply (insync_transition (Some (k, i)) d); [exact Hd | by eapply jobs_spared_fresh | done |].
    intros x o [= <-] Hx. rewrite Ho in Hx. injection Hx as <-.
    assert (Hlk : jobs d' !! j = Some (new_job now name task (Some (kind_name k)) (Some i) step))
      by by rewrite Hjobs, lookup_insert_eq.
    split.
    + intros j' [= <-]. eexists. split; [done |]. unfold job_ref; cbn. by rewrite kind_of_name.
    + rewrite decide_False by done. eexists _, _. eauto.
  - eapply jobs_known_insert; [exact Hk | exact Hjobs |]. by apply new_job_known.
  - eapply evolves_fresh; eauto with owner.
Qed.

(** A session that changes no job and no resource, but may remove some. *)
Lemma removal_keeps d d' :
  Sound d -> Integrity d' -> jobs d' = jobs d -> Spares None d d' -> Sound d' /\ Evolves d d'.
Proof.
  intros Hd Hi Hj Hs. split; [split; [done | |] |].
  - eapply insync_spares; [apply Hd | done | done].
  - unfold JobsKnown. rewrite Hj. apply Hd.
  - by apply evolves_eq.
Qed.

Lemma create_system_job_keeps now id name task step :
  (name, None, task, step) ∈ FIRST_STEPS -> Keeps (create_system_job now id name task step).
Proof.
  intros Hw d a d' Hd H. unfold create_system_job in H. session_inv.
  split; [split; [done | |] |].
  - eapply (insync_transition None d); [apply Hd | by eapply jobs_spared_fresh | | done].
    intros [[] ?] _; by right.
  - eapply jobs_known_insert; [apply Hd | reflexivity |]. by apply new_job_known.
  - eapply evolves_fresh; eauto with owner.
Qed.

(** [known_step] finds a step of a workflow in the table. *)
Ltac known_step :=
  cbn; repeat case_match; apply (bool_decide_eq_true_1 _); vm_compute; reflexivity.

(** [solve_spares] proves [Spares] when every assigned row is the resource's own, or of another
    table, or is deleted. *)
Ltac solve_spares :=
  intros [[] ?] ?; unfold owner, load_resource; cbn -[alter insert delete lookup delete_where];
  rewrite ?lookup_alter_ne, ?lookup_insert_ne by congruence;
  try (rewrite lookup_delete_where); auto;
  try (destruct (_ !! _); cbn; auto; case_match; by auto).
