(* ===== verification/Databases.v ===== *)
(** * Databases: the managed PostgreSQL pool (repositories/managed_databases.py)

    Capacity is not stored: it is the number of allocation rows against [instance_max]. *)
From S2P Require Import Prelude Text Models Store Registry Crypto Execution Ownership Claims Jobs.

Record DatabaseUsage := mkUsage {
  usage_database : uuid * Database;
  allocated_instances : Z
}.

(** [DatabaseCreate] and [DatabaseUpdate], the second with an optional password. *)
Record DatabaseFields := mkDatabaseFields {
  field_name : string;
  field_instance_max : Z;
  field_host : string;
  field_port : Z;
  field_database_name : string;
  field_username : string
}.

(** The grouped count of [_usage_statement]. *)
Definition allocation_count (d : Store) (database_id : uuid) : Z :=
  count_where (fun _ a => alloc_database_id a == database_id) (allocations d).

Definition get_usage (database_id : uuid) : session (option DatabaseUsage) :=
  gets (fun d =>
    database ← databases d !! database_id;
    Some (mkUsage (database_id, database) (allocation_count d database_id))).

Section Repository.
Context `{AESGCM}.

Definition database_create (database_id : uuid) (nonce : bytes) (payload : DatabaseFields)
    (password : string) (self_cipher : cipher) : session DatabaseUsage :=
  let database :=
    mkDatabase (field_name payload) (field_instance_max payload) (field_host payload)
      (field_port payload) (field_database_name payload) (field_username payload)
      (PasswordCipher_encrypt self_cipher nonce password database_id) in
  d ← gets (fun d => d);
  require (is_none (databases d !! database_id)) DatabaseAlreadyExistsError;;
  modify (fun d => d <| databases := <[database_id := database]> (databases d) |>);;
  commit_or DatabaseAlreadyExistsError;;
  mret (mkUsage (database_id, database) 0).

Definition database_update (database_id : uuid) (nonce : bytes) (payload : DatabaseFields)
    (password : option string) (self_cipher : cipher) : session DatabaseUsage :=
  d ← gets (fun d => d);
  database ← found (databases d !! database_id) DatabaseNotFoundError;
  let allocated := allocation_count d database_id in
  require (negb (Z.ltb (field_instance_max payload) allocated)) DatabaseCapacityConflictError;;
  let updated :=
    mkDatabase (field_name payload) (field_instance_max payload) (field_host payload)
      (field_port payload) (field_database_name payload) (field_username payload)
      (match password with
       | Some p => PasswordCipher_encrypt self_cipher nonce p database_id
       | None => base_password_enc database
       end) in
  modify (fun d => d <| databases := <[database_id := updated]> (databases d) |>);;
  commit_or DatabaseAlreadyExistsError;;
  mret (mkUsage (database_id, updated) allocated).
End Repository.

Definition database_delete (database_id : uuid) : session unit :=
  d ← gets (fun d => d);
  _ ← found (databases d !! database_id) DatabaseNotFoundError;
  require (negb (exists_where (fun _ a => alloc_database_id a == database_id) (allocations d)))
    DatabaseInUseError;;
  modify (fun d => d <| databases := delete database_id (databases d) |>);;
  commit.

(** ** The capacity invariant *)
Definition CapacityRespected (d : Store) : Prop :=
  forall i b, databases d !! i = Some b -> (allocation_count d i <= base_instance_max b)%Z.
#[export] Instance capacity_dec d : Decision (CapacityRespected d).
Proof.
  refine (cast_if (decide (map_Forall (fun i b => allocation_count d i <= base_instance_max b)%Z
                             (databases d)))); done.
Defined.


Lemma capacity_frame d d' :
  CapacityRespected d ->
  (forall i, (allocation_count d' i <= allocation_count d i)%Z) ->
  (forall i b', databases d' !! i = Some b' ->
     exists b, databases d !! i = Some b /\ (base_instance_max b <= base_instance_max b')%Z) ->
  CapacityRespected d'.
Proof.
  intros Hd Ha Hb i b' Hi. destruct (Hb i b' Hi) as (b & Hlk & Hle).
  specialize (Hd i b Hlk). specialize (Ha i). lia.
Qed.

Lemma capacity_same d d' :
  allocations d' = allocations d -> databases d' = databases d ->
  CapacityRespected d -> CapacityRespected d'.
Proof. intros Ha Hb Hd i b. unfold allocation_count. rewrite Ha, Hb. apply Hd. Qed.

(** Allocations of a database that has no row: none, by the foreign key. *)
Lemma allocation_count_missing d i :
  Integrity d -> databases d !! i = None -> allocation_count d i = 0%Z.
Proof.
  intros Hd Hi. apply count_where_zero, exists_where_false. intros k a Hk.
  apply bool_decide_eq_false. intros <-.
  destruct Hd as (_ & _ & _ & _ & Href & _). apply Href in Hk. cbn in Hk.
  destruct Hk as [b Hb]. congruence.
Qed.

Lemma database_max_positive d i b :
  Integrity d -> databases d !! i = Some b -> (0 < base_instance_max b)%Z.
Proof.
  intros Hd Hb. destruct Hd as ((_ & _ & _ & Hc & _) & _). apply Hc in Hb.
  unfold database_checks in Hb. bool_hyps. lia.
Qed.

Section RepositoryFacts.
Context `{AESGCM}.

Lemma database_create_capacity i nonce payload password c d u d' :
  Integrity d -> CapacityRespected d ->
  database_create i nonce payload password c d = inr (u, d') -> CapacityRespected d'.
Proof.
  intros Hi Hc Hm. unfold database_create in Hm. session_inv. bool_hyps.
  match goal with H : Integrity _ |- _ =>
    pose proof (fun b => database_max_positive _ i b H) as Hp end.
  intros k b Hk. cbn in Hk, Hp. unfold allocation_count; cbn.
  destruct (decide (k = i)) as [-> | Hne].
  - fold (allocation_count d i). rewrite allocation_count_missing by done.
    specialize (Hp b Hk). lia.
  - rewrite lookup_insert_ne in Hk by done. by apply Hc.
Qed.

Lemma database_update_capacity i nonce payload password c d u d' :
  CapacityRespected d ->
  database_update i nonce payload password c d = inr (u, d') -> CapacityRespected d'.
Proof.
  intros Hc Hm. unfold database_update in Hm. session_inv. bool_hyps.
  intros k b Hk. cbn in Hk. unfold allocation_count in *; cbn.
  destruct (decide (k = i)) as [-> | Hne].
  - rewrite lookup_insert_eq in Hk. injection Hk as <-. cbn. lia.
  - rewrite lookup_insert_ne in Hk by done. by apply Hc.
Qed.

Lemma database_create_keeps i nonce payload password c :
  Keeps (database_create i nonce payload password c).
Proof.
  intros d a d' Hd Hm. unfold database_create in Hm. session_inv.
  apply removal_keeps; [done | done | done | solve_spares].
Qed.

Lemma database_update_keeps i nonce payload password c :
  Keeps (database_update i nonce payload password c).
Proof.
  intros d a d' Hd Hm. unfold database_update in Hm. session_inv.
  apply removal_keeps; [done | done | done | solve_spares].
Qed.
End RepositoryFacts.

Lemma database_delete_capacity i d u d' :
  CapacityRespected d -> database_delete i d = inr (u, d') -> CapacityRespected d'.
Proof.
  intros Hc Hm. unfold database_delete in Hm. session_inv.
  eapply capacity_frame; [done | by intros k |]. intros k b Hk. cbn in Hk.
  apply lookup_delete_Some in Hk as [_ Hk]. eauto with lia.
Qed.

Lemma database_delete_keeps i : Keeps (database_delete i).
Proof.
  intros d a d' Hd Hm. unfold database_delete in Hm. session_inv.
  apply removal_keeps; [done | done | done | solve_spares].
Qed.
