(* ===== verification/Utilization.v ===== *)
(** * Utilization: Python's tuple keys over floats, strings and identifiers

    [InstanceRepository.create] orders databases by a tuple whose first component is a float. The
    lemmas here show that this comparison is a strict order on whatever floats come up, so that
    [min] returns a candidate that no other one beats. *)
From S2P Require Import Prelude Text.
From Stdlib Require Import Ascii String SpecFloat.

(** Python's [a / b] on integers of at most 53 bits: the binary64 quotient of the operands. *)
Definition float_of_Z (z : Z) : spec_float := binary_normalize 53 1024 z 0 false.
Definition true_division (a b : Z) : spec_float := SFdiv 53 1024 (float_of_Z a) (float_of_Z b).

(** A key: utilization, casefolded name, identifier; identifiers compare as their strings do,
    digit by digit. *)
Definition key : Type := spec_float * string * N.
Definition key_ltb (a b : key) : bool :=
  let '(ra, na, ia) := a in
  let '(rb, nb, ib) := b in
  if SFeqb ra rb then
    if na == nb then N.ltb ia ib else String.ltb na nb
  else SFltb ra rb.

(** [min(candidates, key=...)]: the first candidate that no other one beats. *)
Fixpoint min_by {A} (lt : A -> A -> bool) (best : A) (l : list A) : A :=
  match l with
  | [] => best
  | a :: l' => min_by lt (if lt a best then a else best) l'
  end.

(** ** Floats by rank *)
Definition sf_rank (f : spec_float) : option (Z * Z * Z) :=
  match f with
  | S754_nan => None
  | S754_infinity s => Some (if s then -2 else 2, 0, 0)%Z
  | S754_zero _ => Some (0, 0, 0)%Z
  | S754_finite true m e => Some (-1, - e, - Zpos m)%Z
  | S754_finite false m e => Some (1, e, Zpos m)%Z
  end.
Definition rank_lt (a b : Z * Z * Z) : Prop :=
  let '(a1, a2, a3) := a in
  let '(b1, b2, b3) := b in
  (a1 < b1 \/ a1 = b1 /\ (a2 < b2 \/ a2 = b2 /\ a3 < b3))%Z.

Lemma SFcompare_rank f g :
  match SFcompare f g with
  | None => sf_rank f = None \/ sf_rank g = None
  | Some c => exists a b, sf_rank f = Some a /\ sf_rank g = Some b /\
      match c with Lt => rank_lt a b | Eq => a = b | Gt => rank_lt b a end
  end.
Proof.
  destruct f as [[]|[]| |[] m e], g as [[]|[]| |[] m' e']; cbn; auto;
    try (eexists _, _; split_and!; [done | done | first [reflexivity | cbn; lia]]);
    destruct (Z.compare_spec e e'); subst; eexists _, _; (split_and!; [done | done |]);
    try (cbn; lia); change (Pos.compare_cont Eq m m') with (Pos.compare m m');
    destruct (Pos.compare_spec m m'); subst; cbn; first [reflexivity | lia].
Qed.

Lemma SFeqb_rank f g :
  SFeqb f g = true <-> exists a, sf_rank f = Some a /\ sf_rank g = Some a.
Proof.
  pose proof (SFcompare_rank f g) as H. unfold SFeqb. destruct (SFcompare f g) as [[]|].
  - destruct H as (a & b & -> & -> & ->). split; eauto.
  - destruct H as (a & b & -> & -> & H). split; [done |]. intros (c & [= ->] & [= ->]).
    destruct c as [[]]; cbn in H; lia.
  - destruct H as (a & b & -> & -> & H). split; [done |]. intros (c & [= ->] & [= ->]).
    destruct c as [[]]; cbn in H; lia.
  - split; [done |]. intros (c & Hf & Hg). destruct H; congruence.
Qed.

Lemma SFltb_rank f g :
  SFltb f g = true <-> exists a b, sf_rank f = Some a /\ sf_rank g = Some b /\ rank_lt a b.
Proof.
  pose proof (SFcompare_rank f g) as H. unfold SFltb. destruct (SFcompare f g) as [[]|].
  - destruct H as (a & b & -> & -> & ->). split; [done |]. intros (c & d & [= ->] & [= ->] & H).
    destruct d as [[]]; cbn in H; lia.
  - destruct H as (a & b & -> & -> & H). split; eauto.
  - destruct H as (a & b & -> & -> & H). split; [done |]. intros (c & d & [= ->] & [= ->] & H').
    destruct c as [[]], d as [[]]; cbn in H, H'; lia.
  - split; [done |]. intros (c & d & Hf & Hg & _). destruct H; congruence.
Qed.

Lemma rank_lt_trans a b c : rank_lt a b -> rank_lt b c -> rank_lt a c.
Proof. destruct a as [[]], b as [[]], c as [[]]. cbn. lia. Qed.
Lemma rank_lt_irrefl a : ~ rank_lt a a.
Proof. destruct a as [[]]. cbn. lia. Qed.

(** ** Strings *)
Lemma string_ltb_cons a s b t :
  String.ltb (String a s) (String b t) =
  match Ascii.compare a b with Lt => true | Gt => false | Eq => String.ltb s t end.
Proof. unfold String.ltb. cbn. by destruct (Ascii.compare a b). Qed.

Lemma string_ltb_trans s t u : String.ltb s t = true -> String.ltb t u = true -> String.ltb s u = true.
Proof.
  revert t u. induction s as [|a s IH]; intros [|b t] [|c u]; try done.
  rewrite !string_ltb_cons. unfold Ascii.compare.
  destruct (N.compare_spec (N_of_ascii a) (N_of_ascii b)) as [E | E | E]; [| | done];
    destruct (N.compare_spec (N_of_ascii b) (N_of_ascii c)) as [E' | E' | E']; try done; intros H H'.
  - rewrite (proj2 (N.compare_eq_iff _ _)) by congruence. by eapply IH.
  - rewrite (proj2 (N.compare_lt_iff _ _)) by congruence. done.
  - rewrite (proj2 (N.compare_lt_iff _ _)) by congruence. done.
  - rewrite (proj2 (N.compare_lt_iff _ _)) by lia. done.
Qed.

Lemma string_ltb_irrefl s : String.ltb s s = false.
Proof.
  induction s as [|a s IH]; [done |]. rewrite string_ltb_cons. unfold Ascii.compare.
  by rewrite N.compare_refl.
Qed.

(** ** Keys *)
Lemma key_ltb_irrefl a : key_ltb a a = false.
Proof.
  destruct a as [[r n] i]. unfold key_ltb. destruct (SFeqb r r) eqn:E.
  - rewrite bool_decide_eq_true_2 by done. apply N.ltb_irrefl.
  - apply not_true_iff_false. intros H. apply SFltb_rank in H as (x & y & Hx & Hy & H).
    rewrite Hx in Hy. injection Hy as <-. by apply rank_lt_irrefl in H.
Qed.

Lemma key_ltb_trans a b c : key_ltb a b = true -> key_ltb b c = true -> key_ltb a c = true.
Proof.
  destruct a as [[r n] i], b as [[r' n'] i'], c as [[r'' n''] i'']. unfold key_ltb.
  intros Hab Hbc.
  destruct (SFeqb r r') eqn:E1.
  - apply SFeqb_rank in E1 as (x & Hx & Hx'). destruct (SFeqb r' r'') eqn:E2.
    + apply SFeqb_rank in E2 as (y & Hy & Hy'). assert (y = x) as -> by congruence.
      rewrite (proj2 (SFeqb_rank r r'')) by eauto.
      repeat case_bool_decide; subst; try done; try (by eapply string_ltb_trans).
      * rewrite N.ltb_lt in *. lia.
      * pose proof (string_ltb_trans _ _ _ Hab Hbc) as H'. by rewrite string_ltb_irrefl in H'.
    + apply SFltb_rank in Hbc as (y & z & Hy & Hz & H). assert (y = x) as -> by congruence.
      destruct (SFeqb r r'') eqn:E3; [| apply SFltb_rank; eauto].
      apply SFeqb_rank in E3 as (w & Hw & Hw'). exfalso. apply (rank_lt_irrefl z). congruence.
  - apply SFltb_rank in Hab as (x & y & Hx & Hy & H).
    assert (Hlt : exists z, sf_rank r'' = Some z /\ rank_lt x z).
    { destruct (SFeqb r' r'') eqn:E2.
      - apply SFeqb_rank in E2 as (w & Hw & Hw'). exists w. split; congruence.
      - apply SFltb_rank in Hbc as (w & z & Hw & Hz & H').
        exists z. split; [done |]. assert (w = y) as -> by congruence. by eapply rank_lt_trans. }
    destruct Hlt as (z & Hz & Hlt).
    destruct (SFeqb r r'') eqn:E3; [| apply SFltb_rank; eauto].
    apply SFeqb_rank in E3 as (w & Hw & Hw'). exfalso. apply (rank_lt_irrefl x). congruence.
Qed.

(** ** [min] *)
Section MinBy.
Context {A : Type} (lt : A -> A -> bool).
Hypothesis lt_irrefl : forall a, lt a a = false.
Hypothesis lt_trans : forall a b c, lt a b = true -> lt b c = true -> lt a c = true.

Lemma min_by_in best l : min_by lt best l = best \/ min_by lt best l ∈ l.
Proof.
  revert best. induction l as [|a l IH]; intros best; cbn; [auto |].
  destruct (IH (if lt a best then a else best)) as [-> | H].
  - destruct (lt a best); [right; apply list_elem_of_here | auto].
  - right. by apply list_elem_of_further.
Qed.

Lemma min_by_beats best l : min_by lt best l = best \/ lt (min_by lt best l) best = true.
Proof.
  revert best. induction l as [|a l IH]; intros best; cbn; [auto |].
  destruct (lt a best) eqn:E; [| apply IH].
  right. destruct (IH a) as [-> | H]; [done |]. by eapply lt_trans.
Qed.

Lemma min_by_least best l a : a = best \/ a ∈ l -> lt a (min_by lt best l) = false.
Proof.
  revert best a. induction l as [|x l IH]; intros best a Ha; cbn.
  { destruct Ha as [-> | Ha]; [apply lt_irrefl | by apply not_elem_of_nil in Ha]. }
  set (m := min_by lt (if lt x best then x else best) l).
  assert (Hpick : lt best m = false /\ lt x m = false).
  { subst m. destruct (lt x best) eqn:E.
    - split; [| by apply IH; left]. apply not_true_iff_false. intros Hb.
      pose proof (IH x x (or_introl eq_refl)) as Hx.
      by rewrite (lt_trans x best) in Hx by done.
    - split; [by apply IH; left |].
      destruct (min_by_beats best l) as [-> | H]; [done |].
      apply not_true_iff_false. intros Hx. by rewrite (lt_trans x _ best Hx H) in E. }
  destruct Ha as [-> | Ha]; [apply Hpick |].
  apply elem_of_cons in Ha as [-> | Ha]; [apply Hpick |]. apply IH. by right.
Qed.
End MinBy.
