(* ===== verification/Instances.v ===== *)
(** * Instances: the lifecycle requests of Coder instances (repositories/instances.py,
    repositories/instance_kubernetes.py) *)
From S2P Require Import Prelude Text Models Store Registry Crypto Execution Ownership Claims.
From S2P Require Import Jobs Databases Utilization.
From Stdlib Require Import Ascii String.
Open Scope string_scope.

(** ** Slugs *)
Definition INSTANCE_SLUG_LENGTH : nat := 12.
Definition INSTANCE_SLUG_ALPHABET : list ascii :=
  chars "abcdefghijklmnopqrstuvwxyz0123456789".
(** [secrets.choice] picks the index [pick i] of the i-th character. *)
Definition generate_instance_slug (pick : nat -> nat) : string :=
  unchars (map (fun i => nth (pick i mod List.length INSTANCE_SLUG_ALPHABET)
                           INSTANCE_SLUG_ALPHABET "a"%char)
             (seq 0 INSTANCE_SLUG_LENGTH)).

(** [while ...: slug = generate_instance_slug()]: the first of the slugs drawn that no instance
    has, among [fuel] of them. *)
Fixpoint unused_slug (fuel : nat) (draw : nat -> string) (n : nat) (d : Store) : option string :=
  match fuel with
  | O => None
  | S fuel' =>
      if exists_where (fun _ r => inst_slug r == draw n) (instances d)
      then unused_slug fuel' draw (S n) d
      else Some (draw n)
  end.

(** ** Choice of a database *)

(** The key of [min]. *)
Definition database_key (d : Store) (candidate : uuid * Database) : key :=
  (true_division (allocation_count d candidate.1) (base_instance_max candidate.2),
   str_lower (base_name candidate.2), candidate.1).

Definition available_databases (d : Store) : list (uuid * Database) :=
  List.filter (fun b => Z.ltb (allocation_count d b.1) (base_instance_max b.2))
    (map_to_list (databases d)).

Definition choose_database (d : Store) : option (uuid * Database) :=
  match available_databases d with
  | [] => None
  | b :: l => Some (min_by (fun a b => key_ltb (database_key d a) (database_key d b)) b l)
  end.

(** ** The repository *)
Definition MAX_ACTION_LENGTH : nat := 255.

Definition _creation_is_incomplete (instance : CoderInstance) : bool :=
  (inst_action instance == "creating") && (inst_status instance != SUCCESS).

(** The statuses of work that is pending, running, or waits to be retried. *)
Definition retryable (s : Status) : bool := member s [PENDING; RUNNING; ERROR].

Definition _has_active_template_assignment (d : Store) (instance_id : uuid) : bool :=
  exists_where (fun _ a =>
    (asg_instance_id a == instance_id) &&
    match templates d !! asg_template_id a with
    | None => false
    | Some t => retryable (asg_status a) || retryable (tpl_sync_status t)
    end) (assignments d).

Definition set_instance (f : CoderInstance -> CoderInstance) (i : uuid) : session unit :=
  modify (fun d => d <| instances := alter f i (instances d) |>).

Definition instance_get (instance_id : uuid) : session (option CoderInstance) :=
  gets (fun d => instances d !! instance_id).

(** The read after the commit. *)
Definition stored_instance (instance_id : uuid) : session CoderInstance :=
  d ← gets (fun d => d);
  found (instances d !! instance_id) InstanceNotFoundError.

Definition instance_create (now : time) (instance_id job_id allocation_id : uuid) (fuel : nat)
    (draw : nat -> string) (application : string) : session CoderInstance :=
  d ← gets (fun d => d);
  database ← found (choose_database d) InstanceDatabaseUnavailableError;
  slug ← found (unused_slug fuel draw 0 d) (RuntimeError "still drawing slugs");
  add_job_execution InstanceAlreadyExistsError now job_id "instance.create"
    INSTANCE_CREATE_STEP_01_TASK (Some "instance") (Some instance_id) INSTANCE_CREATE_STEP_01;;
  require (is_none (instances d !! instance_id)) InstanceAlreadyExistsError;;
  require (is_none (allocations d !! allocation_id)) InstanceAlreadyExistsError;;
  modify (fun d => d <| instances := <[instance_id :=
    mkInstance application slug "creating" PENDING STOPPED None None None (Some job_id)
      (Some INSTANCE_CREATE_STEP_01)]> (instances d) |>);;
  modify (fun d => d <| allocations := <[allocation_id :=
    mkAllocation database.1 instance_id ("coder_" ++ uuid_hex instance_id)]> (allocations d) |>);;
  commit_or InstanceAlreadyExistsError;;
  stored_instance instance_id.

(** Give the instance a new action under a new pending job, and commit. *)
Definition stage_instance_job (now : time) (job_id instance_id : uuid)
    (action job_name task_name step : string) : session unit :=
  set_instance (fun r => r <| inst_action := action |> <| inst_status := PENDING |>) instance_id;;
  add_job_execution IntegrityError now job_id job_name task_name (Some "instance")
    (Some instance_id) step;;
  set_instance (fun r => r <| inst_job_id := Some job_id |> <| inst_step := Some step |>)
    instance_id.

Definition instance_request_deletion (now : time) (job_id instance_id : uuid)
    : session CoderInstance :=
  d ← gets (fun d => d);
  instance ← found (instances d !! instance_id) InstanceNotFoundError;
  require (negb (_has_active_template_assignment d instance_id)) InstanceActionConflictError;;
  let failed_creation :=
    (inst_action instance == "creating") && (inst_status instance == ERROR) in
  let successfully_reconciled :=
    member (inst_action instance) ["creating"; "updating"; "starting"; "stopping"]
    && (inst_status instance == SUCCESS) in
  require (successfully_reconciled || failed_creation) InstanceActionConflictError;;
  let skip_workspace_cleanup := failed_creation && is_none (inst_password_enc instance) in
  let task_name :=
    if skip_workspace_cleanup then INSTANCE_DELETE_STEP_02_TASK
    else INSTANCE_DELETE_STEP_01_TASK in
  let step :=
    if skip_workspace_cleanup then INSTANCE_DELETE_STEP_02 else INSTANCE_DELETE_STEP_01 in
  stage_instance_job now job_id instance_id "deleting" "instance.delete" task_name step;;
  commit;;
  stored_instance instance_id.

(** The guard of [request_sync], [request_start] and [request_stop]. *)
Definition instance_is_busy (d : Store) (instance_id : uuid) (instance : CoderInstance) : bool :=
  _creation_is_incomplete instance
  || (inst_action instance == "deleting")
  || member (inst_status instance) [PENDING; RUNNING]
  || _has_active_template_assignment d instance_id.

Definition instance_request_sync (now : time) (job_id instance_id : uuid)
    : session CoderInstance :=
  d ← gets (fun d => d);
  instance ← found (instances d !! instance_id) InstanceNotFoundError;
  require (negb (instance_is_busy d instance_id instance)) InstanceActionConflictError;;
  modify (fun d => d <| members :=
    update_where (fun _ m => (mem_instance_id m == instance_id) && (mem_status m == ERROR))
      (fun m => m <| mem_status := PENDING |>) (members d) |>);;
  stage_instance_job now job_id instance_id "updating" "instance.update"
    INSTANCE_UPDATE_STEP_01_TASK INSTANCE_UPDATE_STEP_01;;
  commit;;
  stored_instance instance_id.

Definition _request_power_action (now : time) (job_id instance_id : uuid)
    (action job_name task_name step : string) : session CoderInstance :=
  d ← gets (fun d => d);
  instance ← found (instances d !! instance_id) InstanceNotFoundError;
  require (negb (instance_is_busy d instance_id instance)) InstanceActionConflictError;;
  stage_instance_job now job_id instance_id action job_name task_name step;;
  commit;;
  stored_instance instance_id.

Definition instance_request_start (now : time) (job_id instance_id : uuid)
    : session CoderInstance :=
  _request_power_action now job_id instance_id "starting" "instance.start"
    INSTANCE_START_STEP_01_TASK INSTANCE_START_STEP_01.

Definition instance_request_stop (now : time) (job_id instance_id : uuid)
    : session CoderInstance :=
  _request_power_action now job_id instance_id "stopping" "instance.stop"
    INSTANCE_STOP_STEP_01_TASK INSTANCE_STOP_STEP_01.

(** No route and no task calls it. *)
Definition instance_update_action (instance_id : uuid) (expected_action action : string)
    (status : Status) : session CoderInstance :=
  let normalized_action := str_strip action in
  require (negb ((normalized_action == "")
                 || Nat.ltb MAX_ACTION_LENGTH (py_len normalized_action)))
    InvalidInstanceActionError;;
  d ← gets (fun d => d);
  instance ← found (instances d !! instance_id) InstanceNotFoundError;
  require (inst_action instance == expected_action) InstanceActionConflictError;;
  set_instance (fun r => r <| inst_action := normalized_action |> <| inst_status := status |>)
    instance_id;;
  commit;;
  stored_instance instance_id.

(** ** Kubernetes provider configurations *)
Definition _lock_idle_instance (instance_id : uuid) : session CoderInstance :=
  d ← gets (fun d => d);
  instance ← found (instances d !! instance_id) InstanceNotFoundError;
  require (inst_status instance == SUCCESS) InstanceActionConflictError;;
  mret instance.

Definition kubernetes_get (instance_id : uuid) : session InstanceKubernetes :=
  d ← gets (fun d => d);
  match kubernetes d !! instance_id with
  | Some provider => mret provider
  | None =>
      _ ← found (instances d !! instance_id) InstanceNotFoundError;
      throw InstanceKubernetesNotFoundError
  end.

Definition create_and_request_update `{AESGCM} (now : time) (job_id : uuid) (nonce : bytes)
    (self_cipher : cipher) (instance_id : uuid) (kubeconfig : bytes)
    : session InstanceKubernetes :=
  _ ← _lock_idle_instance instance_id;
  d ← gets (fun d => d);
  require (is_none (kubernetes d !! instance_id)) InstanceKubernetesAlreadyConfiguredError;;
  let provider := mkKubernetes (KubeconfigCipher_encrypt self_cipher nonce kubeconfig instance_id) in
  modify (fun d => d <| kubernetes := <[instance_id := provider]> (kubernetes d) |>);;
  stage_instance_job now job_id instance_id "updating" "instance.update"
    INSTANCE_UPDATE_STEP_01_TASK INSTANCE_UPDATE_STEP_01;;
  commit;;
  mret provider.

(** ** Staging an instance job *)

(** What [stage_instance_job] leaves in the store. *)
Definition staged (now : time) (job_id i : uuid) (action job_name task_name step : string)
    (d : Store) : Store :=
  d <| jobs := <[job_id := new_job now job_name task_name (Some "instance") (Some i) step]> (jobs d) |>
    <| instances := alter (fun r => r <| inst_action := action |> <| inst_status := PENDING |>
                                      <| inst_job_id := Some job_id |> <| inst_step := Some step |>)
                      i (instances d) |>.

Lemma stage_instance_job_inr now job_id i action name task step d u d' :
  stage_instance_job now job_id i action name task step d = inr (u, d') ->
  jobs d !! job_id = None /\ d' = staged now job_id i action name task step d.
Proof.
  intros H. unfold stage_instance_job, set_instance in H. session_inv.
  split; [done |]. unfold staged; cbn. rewrite alter_alter. reflexivity.
Qed.

Ltac session_inv_step ::=
  match goal with
  | H : commit _ = inr _ |- _ => apply commit_inr in H; destruct H as [-> ?]
  | H : commit_or _ _ = inr _ |- _ => apply commit_or_inr in H; destruct H as [-> ?]
  | H : add_job_execution _ _ _ _ _ _ _ _ _ = inr _ |- _ =>
      apply add_job_execution_inr in H; destruct H as [? ->]
  | H : stage_instance_job _ _ _ _ _ _ _ _ = inr _ |- _ =>
      apply stage_instance_job_inr in H; destruct H as [? ->]
  | _ => action_inv_step
  end.

Lemma stored_instance_inr i d r d' :
  stored_instance i d = inr (r, d') <-> d' = d /\ instances d !! i = Some r.
Proof.
  unfold stored_instance. split.
  - intros H. session_inv. done.
  - intros [-> H]. unfold mbind, action_bind, gets, found. by rewrite H.
Qed.

Lemma owner_staged now job_id i action name task step d r :
  instances d !! i = Some r ->
  owner (staged now job_id i action name task step d) (KInstance, i)
  = Some (mkOwner (Some job_id) action (Some step) PENDING).
Proof. intros Hi. unfold owner, load_resource; cbn -[alter lookup]. by rewrite lookup_alter_eq, Hi. Qed.

Lemma staged_keeps now job_id i action name task step d0 d r :
  Sound d0 -> jobs d = jobs d0 -> Spares (Some (KInstance, i)) d0 d ->
  Integrity (staged now job_id i action name task step d) ->
  jobs d !! job_id = None -> instances d !! i = Some r ->
  (name, Some "instance", task, step) ∈ FIRST_STEPS ->
  dict_get name RESOURCE_ACTIONS = Some action ->
  Sound (staged now job_id i action name task step d) /\
  Evolves d0 (staged now job_id i action name task step d).
Proof.
  intros Hd Hj Hs Hi Hf Hr Hw Ha.
  eapply (request_keeps now name task KInstance i step action job_id); try done;
    try apply Hd.
  - congruence.
  - cbn. by rewrite Hj.
  - eapply spares_trans; [exact Hs |]. solve_spares.
  - by eapply owner_staged.
Qed.

Lemma instance_request_deletion_keeps now job_id i :
  Keeps (instance_request_deletion now job_id i).
Proof.
  intros d a d' Hd H. unfold instance_request_deletion, stored_instance in H. session_inv.
  eapply staged_keeps; try done; [solve_spares | known_step].
Qed.

Lemma instance_request_sync_keeps now job_id i :
  Keeps (instance_request_sync now job_id i).
Proof.
  intros d a d' Hd H. unfold instance_request_sync, stored_instance in H. session_inv.
  eapply staged_keeps; try done; [solve_spares | known_step].
Qed.

Lemma power_action_keeps now job_id i action name task step :
  (name, Some "instance", task, step) ∈ FIRST_STEPS ->
  dict_get name RESOURCE_ACTIONS = Some action ->
  Keeps (_request_power_action now job_id i action name task step).
Proof.
  intros Hw Ha d a d' Hd H. unfold _request_power_action, stored_instance in H. session_inv.
  eapply staged_keeps; try done. solve_spares.
Qed.

Lemma instance_request_start_keeps now job_id i :
  Keeps (instance_request_start now job_id i).
Proof. unfold instance_request_start. apply power_action_keeps; [known_step | reflexivity]. Qed.

Lemma instance_request_stop_keeps now job_id i :
  Keeps (instance_request_stop now job_id i).
Proof. unfold instance_request_stop. apply power_action_keeps; [known_step | reflexivity]. Qed.

Lemma create_and_request_update_keeps `{AESGCM} now job_id nonce c i kubeconfig :
  Keeps (create_and_request_update now job_id nonce c i kubeconfig).
Proof.
  intros d a d' Hd Hm. unfold create_and_request_update, _lock_idle_instance in Hm. session_inv.
  eapply staged_keeps; try done; [solve_spares | known_step].
Qed.

Lemma instance_create_keeps now i job_id alloc fuel draw application :
  Keeps (instance_create now i job_id alloc fuel draw application).
Proof.
  intros d a d' Hd H. unfold instance_create, stored_instance in H. session_inv.
  eapply (request_keeps now _ _ KInstance i _ _ job_id); [apply Hd | apply Hd | eassumption.. | | | | | ].
  - reflexivity.
  - known_step.
  - done.
  - solve_spares.
  - unfold owner, load_resource; cbn -[insert lookup]. by rewrite lookup_insert_eq.
Qed.

(** ** Slugs *)
Lemma unused_slug_unused fuel draw n d slug :
  unused_slug fuel draw n d = Some slug ->
  forall i r, instances d !! i = Some r -> inst_slug r <> slug.
Proof.
  revert n. induction fuel as [|fuel IH]; intros n H; cbn in H; [done |].
  destruct (exists_where _ _) eqn:E; [by eapply IH |]. injection H as <-.
  intros i r Hi. rewrite exists_where_false in E. by apply E, bool_decide_eq_false in Hi.
Qed.

(** ** Capacity *)
Lemma choose_database_spec d i b :
  choose_database d = Some (i, b) ->
  databases d !! i = Some b /\ (allocation_count d i < base_instance_max b)%Z /\
  forall j c, databases d !! j = Some c -> (allocation_count d j < base_instance_max c)%Z ->
    key_ltb (database_key d (j, c)) (database_key d (i, b)) = false.
Proof.
  unfold choose_database. intros H.
  assert (Hav : forall j c, (j, c) ∈ available_databases d <->
            databases d !! j = Some c /\ (allocation_count d j < base_instance_max c)%Z).
  { intros j c. unfold available_databases.
    rewrite list_elem_of_In, filter_In, <- list_elem_of_In, elem_of_map_to_list, Z.ltb_lt. done. }
  destruct (available_databases d) as [|x l] eqn:El; [done |]. injection H as H.
  assert (Hin : (i, b) ∈ x :: l).
  { rewrite <- H. rewrite elem_of_cons. apply min_by_in. }
  apply Hav in Hin as [Hi Hc]. split_and!; [done | done |].
  intros j c Hj Hlt. rewrite <- H.
  apply (min_by_least (fun a b => key_ltb (database_key d a) (database_key d b))).
  - intros a. apply key_ltb_irrefl.
  - intros a a' a''. apply key_ltb_trans.
  - apply elem_of_cons. by apply Hav.
Qed.

Lemma choose_database_none d :
  choose_database d = None <->
  forall i b, databases d !! i = Some b -> (base_instance_max b <= allocation_count d i)%Z.
Proof.
  unfold choose_database. destruct (available_databases d) as [|[j c] l] eqn:E; split; try done.
  - intros _ i b Hi. apply Z.nlt_ge. intros Hlt.
    assert (Hin : (i, b) ∈ available_databases d).
    { unfold available_databases.
      rewrite list_elem_of_In, filter_In, <- list_elem_of_In, elem_of_map_to_list, Z.ltb_lt. done. }
    rewrite E in Hin. by apply not_elem_of_nil in Hin.
  - intros H. assert (Hin : (j, c) ∈ available_databases d) by (rewrite E; apply list_elem_of_here).
    unfold available_databases in Hin.
    rewrite list_elem_of_In, filter_In, <- list_elem_of_In, elem_of_map_to_list, Z.ltb_lt in Hin.
    destruct Hin as [Hj Hlt]. specialize (H j c Hj). cbn in *. lia.
Qed.

Lemma instance_create_capacity now i job_id alloc fuel draw application d r d' :
  CapacityRespected d ->
  instance_create now i job_id alloc fuel draw application d = inr (r, d') ->
  CapacityRespected d'.
Proof.
  intros Hc H. unfold instance_create, stored_instance in H. session_inv. bool_hyps.
  match goal with H : choose_database d = Some ?p |- _ =>
    destruct p as [db b]; apply choose_database_spec in H as (Hb & Hlt & _) end.
  intros k c Hk. unfold allocation_count; cbn.
  rewrite count_where_insert by done. cbn. specialize (Hc k c Hk). unfold allocation_count in *.
  case_bool_decide as E; [subst k | lia]. assert (c = b) as -> by (cbn in Hk; congruence). lia.
Qed.
