(* ===== verification/Members.v ===== *)
(** * Members: the users of an instance (repositories/members.py, schemas/member.py)

    A member mutation is applied to Coder by the update job of the instance. While the first step
    of such a job is pending or running, further mutations join it instead of starting another. *)
From S2P Require Import Prelude Text Models Store Registry Execution Ownership Claims Jobs.
From S2P Require Import Databases Instances.
From Stdlib Require Import Ascii String.
Open Scope string_scope.

(** ** Usernames (schemas/member.py) *)
Definition MAX_USERNAME_LENGTH : nat := 255.
Definition contains (c : ascii) (s : string) : bool := existsb (Ascii.eqb c) (chars s).
Definition CR : ascii := ascii_of_N 13.
Definition LF : ascii := ascii_of_N 10.

Definition normalize_username (username : string) : option string :=
  let normalized := str_lower (str_strip username) in
  if (normalized == "") || Nat.ltb MAX_USERNAME_LENGTH (py_len normalized) then None
  else if contains ","%char normalized then None
  else if contains CR normalized || contains LF normalized then None
  else Some normalized.

(** ** The repository *)
Definition member_get (instance_id member_id : uuid) : session (option Member) :=
  gets (fun d => m ← members d !! member_id;
                 if mem_instance_id m == instance_id then Some m else None).

Definition _lock_available_instance (instance_id : uuid) : session CoderInstance :=
  d ← gets (fun d => d);
  instance ← found (instances d !! instance_id) MemberInstanceNotFoundError;
  require (negb (_has_active_template_assignment d instance_id)) MemberInstanceBusyError;;
  let update_in_progress :=
    (inst_action instance == "updating")
    && (inst_step instance == Some INSTANCE_UPDATE_STEP_01)
    && member (inst_status instance) [PENDING; RUNNING] in
  require (update_in_progress || (inst_status instance == SUCCESS)) MemberInstanceBusyError;;
  mret instance.

Definition _lock_member (instance_id member_id : uuid) : session Member :=
  o ← member_get instance_id member_id;
  found o MemberNotFoundError.

(** [_request_instance_update] and [_stage_instance_update_job]: the result is the job to
    dispatch after the commit, if any. *)
Definition request_instance_update (now : time) (job_id instance_id : uuid)
    (instance : CoderInstance) : session (option uuid) :=
  if (inst_action instance == "updating") && member (inst_status instance) [PENDING; RUNNING]
  then mret None
  else
    stage_instance_job now job_id instance_id "updating" "instance.update"
      INSTANCE_UPDATE_STEP_01_TASK INSTANCE_UPDATE_STEP_01;;
    mret (Some job_id).

Definition member_create (now : time) (job_id member_id instance_id : uuid) (username : string)
    (role : MemberRole) : session (Member * option uuid) :=
  instance ← _lock_available_instance instance_id;
  let m := mkMember instance_id username role "creating" PENDING in
  enqueue ← request_instance_update now job_id instance_id instance;
  d ← gets (fun d => d);
  require (is_none (members d !! member_id)) MemberAlreadyExistsError;;
  modify (fun d => d <| members := <[member_id := m]> (members d) |>);;
  commit_or MemberAlreadyExistsError;;
  mret (m, enqueue).

Definition member_update_role (now : time) (job_id instance_id member_id : uuid)
    (role : MemberRole) : session (Member * bool * option uuid) :=
  instance ← _lock_available_instance instance_id;
  m ← _lock_member instance_id member_id;
  require (mem_status m == SUCCESS) MemberActionConflictError;;
  if mem_role m == role then commit;; mret (m, false, None)
  else
    let m' := m <| mem_role := role |> <| mem_action := "updating" |>
                <| mem_status := PENDING |> in
    modify (fun d => d <| members := <[member_id := m']> (members d) |>);;
    enqueue ← request_instance_update now job_id instance_id instance;
    commit;;
    mret (m', true, enqueue).

Definition member_request_deletion (now : time) (job_id instance_id member_id : uuid)
    (protected_usernames : list string) : session (Member * option uuid) :=
  instance ← _lock_available_instance instance_id;
  m ← _lock_member instance_id member_id;
  require (negb (member (mem_username m) protected_usernames)) MemberProtectedAdministratorError;;
  require (mem_status m == SUCCESS) MemberActionConflictError;;
  d ← gets (fun d => d);
  require (negb (exists_where (fun _ w => ws_member_id w == member_id) (workspaces d)))
    MemberHasWorkspacesError;;
  let m' := m <| mem_action := "deleting" |> <| mem_status := PENDING |> in
  modify (fun d => d <| members := <[member_id := m']> (members d) |>);;
  enqueue ← request_instance_update now job_id instance_id instance;
  commit;;
  mret (m', enqueue).

(** No route and no task calls it. *)
Definition member_update_action (member_id : uuid) (expected_action action : string)
    (status : Status) : session Member :=
  let normalized_action := str_strip action in
  require (negb ((normalized_action == "")
                 || Nat.ltb MAX_ACTION_LENGTH (py_len normalized_action)))
    InvalidMemberActionError;;
  d ← gets (fun d => d);
  m ← found (members d !! member_id) MemberNotFoundError;
  require (mem_action m == expected_action) MemberActionConflictError;;
  let m' := m <| mem_action := normalized_action |> <| mem_status := status |> in
  modify (fun d => d <| members := <[member_id := m']> (members d) |>);;
  commit;;
  mret m'.

(** ** Facts *)
Lemma lock_available_instance_inr i d r d' :
  _lock_available_instance i d = inr (r, d') ->
  d' = d /\ instances d !! i = Some r /\ _has_active_template_assignment d i = false /\
  (inst_status r = SUCCESS \/
   inst_action r = "updating" /\ inst_step r = Some INSTANCE_UPDATE_STEP_01 /\
   (inst_status r = PENDING \/ inst_status r = RUNNING)).
Proof.
  intros H. unfold _lock_available_instance in H. session_inv. bool_hyps.
  split_and!; [done | done | done |].
  match goal with H : _ \/ _ |- _ => destruct H; bool_hyps; [right | by left] end.
  split_and!; try done. set_solver.
Qed.

Lemma lock_member_inr i k d m d' :
  _lock_member i k d = inr (m, d') ->
  d' = d /\ members d !! k = Some m /\ mem_instance_id m = i.
Proof.
  intros H. unfold _lock_member, member_get in H. session_inv.
  match goal with H : _ ≫= _ = Some _ |- _ => rename H into Hm end.
  destruct (members d !! k) as [m'|] eqn:E; cbn in Hm; [| done].
  case_bool_decide; [| done]. injection Hm as ->. done.
Qed.

(** A member mutation leaves the instance to its running update or gives it a new one. *)
Lemma request_instance_update_inr now job_id i r d o d' :
  request_instance_update now job_id i r d = inr (o, d') ->
  (o = None /\ d' = d /\ inst_action r = "updating" /\
   (inst_status r = PENDING \/ inst_status r = RUNNING)) \/
  (o = Some job_id /\ jobs d !! job_id = None /\
   d' = staged now job_id i "updating" "instance.update" INSTANCE_UPDATE_STEP_01_TASK
          INSTANCE_UPDATE_STEP_01 d).
Proof.
  intros H. unfold request_instance_update in H. session_cases.
  - left. bool_hyps. split_and!; try done. set_solver.
  - right. done.
Qed.

Ltac session_inv_step ::=
  match goal with
  | H : commit _ = inr _ |- _ => apply commit_inr in H; destruct H as [-> ?]
  | H : commit_or _ _ = inr _ |- _ => apply commit_or_inr in H; destruct H as [-> ?]
  | H : add_job_execution _ _ _ _ _ _ _ _ _ = inr _ |- _ =>
      apply add_job_execution_inr in H; destruct H as [? ->]
  | H : stage_instance_job _ _ _ _ _ _ _ _ = inr _ |- _ =>
      apply stage_instance_job_inr in H; destruct H as [? ->]
  | H : _lock_available_instance _ _ = inr _ |- _ =>
      apply lock_available_instance_inr in H; destruct H as (-> & ? & ? & ?)
  | H : _lock_member _ _ _ = inr _ |- _ =>
      apply lock_member_inr in H; destruct H as (-> & ? & ?)
  | _ => action_inv_step
  end.

(** All three mutations change the member table only, and maybe stage a job. *)
Lemma member_mutation_keeps now job_id i r d0 d d1 d' o :
  Sound d0 -> instances d0 !! i = Some r ->
  jobs d = jobs d0 -> (forall y, owner d y = owner d0 y) -> instances d = instances d0 ->
  request_instance_update now job_id i r d = inr (o, d1) ->
  jobs d' = jobs d1 -> (forall y, owner d' y = owner d1 y) -> Integrity d' ->
  Sound d' /\ Evolves d0 d'.
Proof.
  intros Hd Hr Hj Ho Hin H Hj' Ho' Hi.
  apply request_instance_update_inr in H as [(-> & -> & _) | (-> & Hf & ->)].
  - apply removal_keeps; [done | done | congruence |]. intros y _. right. by rewrite Ho', Ho.
  - eapply (request_keeps now _ _ KInstance i _ _ job_id); [apply Hd | apply Hd | exact Hi | ..].
    + by rewrite <- Hj.
    + rewrite Hj'. cbn. by rewrite Hj.
    + known_step.
    + done.
    + eapply spares_trans; [by apply spares_of_eq |].
      eapply spares_trans; [| by apply spares_of_eq]. solve_spares.
    + rewrite Ho'. apply (owner_staged _ _ _ _ _ _ _ _ r). congruence.
Qed.

Ltac owner_same := by intros [[] ?].

Lemma member_create_keeps now job_id k i username role :
  Keeps (member_create now job_id k i username role).
Proof.
  intros d a d' Hd H. unfold member_create in H. session_inv.
  eapply (member_mutation_keeps now job_id i _ d d); try done; owner_same.
Qed.

Lemma member_update_role_keeps now job_id i k role :
  Keeps (member_update_role now job_id i k role).
Proof.
  intros d a d' Hd H. unfold member_update_role in H. session_cases.
  - split; [done | by apply evolves_eq].
  - eapply (member_mutation_keeps now job_id i); [exact Hd | eassumption | | | | eassumption | ..];
      try done; owner_same.
Qed.

Lemma member_request_deletion_keeps now job_id i k protected :
  Keeps (member_request_deletion now job_id i k protected).
Proof.
  intros d a d' Hd H. unfold member_request_deletion in H. session_inv.
  eapply (member_mutation_keeps now job_id i); [exact Hd | eassumption | | | | eassumption | ..];
    try done; owner_same.
Qed.
