(* ===== verification/Templates.v ===== *)
(** * Templates: the template catalog (repositories/templates.py, template_images.py and
    template_parameters.py)

    A template's definition, images and parameters may change only while neither a synchronization
    of the template nor an assignment transition is due, so that what a synchronization deploys
    does not change under it. *)
From S2P Require Import Prelude Text Models Store Registry Crypto Execution Ownership Claims.
From S2P Require Import Jobs Databases Instances.

(** [set(xs).issubset(set(ys))]. *)
Definition issubset (xs ys : list string) : bool := forallb (fun x => member x ys) xs.

(** [TemplateCreate]; [TemplateUpdate] has no name. *)
Record TemplateFields := mkTemplateFields {
  payload_display_name : string;
  payload_git_url : string;
  payload_source_path : string;
  payload_branch : string;
  payload_modules : list string
}.

Definition template_get (template_id : uuid) : session (option Template) :=
  gets (fun d => templates d !! template_id).

Definition set_template (f : Template -> Template) (i : uuid) : session unit :=
  modify (fun d => d <| templates := alter f i (templates d) |>).

(** Drop the job of an earlier synchronization. *)
Definition _discard_current_job (template_id : uuid) : session unit :=
  d ← gets (fun d => d);
  match templates d !! template_id ≫= tpl_job_id with
  | None => mret tt
  | Some job_id =>
      set_template (fun r => r <| tpl_job_id := None |>) template_id;;
      match jobs d !! job_id with
      | None => mret tt
      | Some _ => modify (delete_job_row job_id)
      end
  end.

Definition _ensure_no_active_assignments (template_id : uuid) (e : Exn) : session unit :=
  d ← gets (fun d => d);
  require (negb (exists_where (fun _ a =>
    (asg_template_id a == template_id) && retryable (asg_status a)) (assignments d))) e.

Definition _ensure_no_active_workspaces (template_id : uuid) : session unit :=
  d ← gets (fun d => d);
  require (negb (exists_where (fun _ w =>
    (ws_template_id w == template_id) && retryable (ws_status w)) (workspaces d)))
    TemplateWorkspacesInProgressError.

Definition template_create (template_id : uuid) (name : string) (payload : TemplateFields)
    : session Template :=
  let template :=
    mkTemplate (payload_display_name payload) name (payload_git_url payload)
      (payload_source_path payload) (payload_branch payload) (payload_modules payload)
      0 "created" SUCCESS None None in
  d ← gets (fun d => d);
  require (is_none (templates d !! template_id)) TemplateAlreadyExistsError;;
  modify (fun d => d <| templates := <[template_id := template]> (templates d) |>);;
  commit_or TemplateAlreadyExistsError;;
  mret template.

Definition template_changed (template : Template) (payload : TemplateFields) : bool :=
  (tpl_display_name template != payload_display_name payload)
  || (tpl_git_url template != payload_git_url payload)
  || (tpl_source_path template != payload_source_path payload)
  || (tpl_branch template != payload_branch payload)
  || (tpl_modules template != payload_modules payload).

Definition stored_template (template_id : uuid) : session Template :=
  d ← gets (fun d => d);
  found (templates d !! template_id) TemplateNotFoundError.

Definition template_update (template_id : uuid) (payload : TemplateFields) : session Template :=
  d ← gets (fun d => d);
  template ← found (templates d !! template_id) TemplateNotFoundError;
  require (negb (retryable (tpl_sync_status template))) TemplateSyncInProgressError;;
  _ensure_no_active_assignments template_id TemplateAssignmentsInProgressError;;
  _ensure_no_active_workspaces template_id;;
  if negb (template_changed template payload) then commit;; mret template
  else
    require (negb (exists_where (fun _ w =>
      (ws_template_id w == template_id)
      && negb (issubset (ws_modules w) (payload_modules payload))) (workspaces d)))
      TemplateWorkspaceCompatibilityError;;
    set_template (fun r =>
      r <| tpl_display_name := payload_display_name payload |>
        <| tpl_git_url := payload_git_url payload |>
        <| tpl_source_path := payload_source_path payload |>
        <| tpl_branch := payload_branch payload |>
        <| tpl_modules := payload_modules payload |>) template_id;;
    _discard_current_job template_id;;
    set_template (fun r =>
      r <| tpl_action := "updated" |> <| tpl_sync_status := SUCCESS |> <| tpl_step := None |>)
      template_id;;
    commit;;
    stored_template template_id.

Definition template_delete (template_id : uuid) : session unit :=
  d ← gets (fun d => d);
  template ← found (templates d !! template_id) TemplateNotFoundError;
  require (negb (retryable (tpl_sync_status template))) TemplateSyncInProgressError;;
  require (negb (exists_where (fun _ a => asg_template_id a == template_id) (assignments d)))
    TemplateHasAssignmentsError;;
  _discard_current_job template_id;;
  modify (delete_template_row template_id);;
  commit.

(** The old job is deleted in the flush that inserts the new one, after it: the new identifier
    must differ from the old one too. *)
Definition template_request_sync (now : time) (job_id template_id : uuid) : session uuid :=
  d ← gets (fun d => d);
  template ← found (templates d !! template_id) TemplateNotFoundError;
  require (negb (retryable (tpl_sync_status template))) TemplateSyncInProgressError;;
  _ensure_no_active_assignments template_id TemplateAssignmentsInProgressError;;
  _ensure_no_active_workspaces template_id;;
  require (is_none (jobs d !! job_id)) IntegrityError;;
  _discard_current_job template_id;;
  add_job_execution IntegrityError now job_id "template.sync" TEMPLATE_SYNC_STEP_01_TASK
    (Some "template") (Some template_id) TEMPLATE_SYNC_STEP_01;;
  set_template (fun r =>
    r <| tpl_action := "syncing" |> <| tpl_sync_status := PENDING |>
      <| tpl_job_id := Some job_id |> <| tpl_step := Some TEMPLATE_SYNC_STEP_01 |>) template_id;;
  commit;;
  mret job_id.

(** ** Images *)
Definition image_get (template_id image_id : uuid) : session (option TemplateImage) :=
  gets (fun d => m ← images d !! image_id;
                 if img_template_id m == template_id then Some m else None).

Definition image_create (image_id template_id : uuid) (registry name version : string)
    : session TemplateImage :=
  d ← gets (fun d => d);
  _ ← found (templates d !! template_id) TemplateImageTemplateNotFoundError;
  let image := mkImage template_id registry name version in
  require (is_none (images d !! image_id)) TemplateImageAlreadyExistsError;;
  modify (fun d => d <| images := <[image_id := image]> (images d) |>);;
  commit_or TemplateImageAlreadyExistsError;;
  mret image.

Definition image_delete (template_id image_id : uuid) : session unit :=
  d ← gets (fun d => d);
  _ ← found (templates d !! template_id) TemplateImageTemplateNotFoundError;
  o ← image_get template_id image_id;
  _ ← found o TemplateImageNotFoundError;
  require (negb (exists_where (fun _ w => ws_image_id w == image_id) (workspaces d)))
    TemplateImageInUseError;;
  modify (fun d => d <| images := delete image_id (images d) |>);;
  commit.

(** ** Parameters *)
Record ParameterFields := mkParameterFields {
  par_payload_display_name : string;
  par_payload_description : string
}.
(** The two variants of [TemplateParameterCreate] and of [TemplateParameterUpdate]. *)
Inductive ParameterCreate :=
| UserTemplateParameterCreate (name : string) (fields : ParameterFields)
    (required mutable : bool) (default_value : option string)
| SystemTemplateParameterCreate (name : string) (fields : ParameterFields) (value : string).
Inductive ParameterUpdate :=
| UserTemplateParameterUpdate (fields : ParameterFields) (required mutable : bool)
    (default_value : option string)
| SystemTemplateParameterUpdate (fields : ParameterFields) (value : option string).

Definition ENCRYPTION_REQUIRED : Exn := RuntimeError "Template parameter encryption is required".

Definition parameter_get (template_id parameter_id : uuid) : session (option TemplateParameter) :=
  gets (fun d => p ← parameters d !! parameter_id;
                 if par_template_id p == template_id then Some p else None).

Definition _lock_template (template_id : uuid) : session Template :=
  d ← gets (fun d => d);
  template ← found (templates d !! template_id) TemplateParameterTemplateNotFoundError;
  require (negb (retryable (tpl_sync_status template))) TemplateParameterSyncInProgressError;;
  _ensure_no_active_assignments template_id TemplateParameterSyncInProgressError;;
  mret template.

Definition _locked_parameter (template_id parameter_id : uuid) : session TemplateParameter :=
  o ← parameter_get template_id parameter_id;
  found o TemplateParameterNotFoundError.

(** [if b: template.system_parameter_revision += 1]. *)
Definition bump_revision_if (b : bool) (template_id : uuid) : session unit :=
  if b then
    set_template (fun r =>
      r <| tpl_system_parameter_revision := (tpl_system_parameter_revision r + 1)%Z |>) template_id
  else mret tt.

Section Parameters.
Context `{AESGCM}.

(** The new row, and whether the template's revision advances. *)
Definition _new_parameter (template_id parameter_id : uuid) (nonce : bytes)
    (payload : ParameterCreate) (self_cipher : option cipher) : Exn + TemplateParameter * bool :=
  match payload with
  | UserTemplateParameterCreate name fields required mutable default_value =>
      inr (mkParameter template_id TYPE_USER name (par_payload_display_name fields)
             (par_payload_description fields) (Some required) (Some mutable) default_value None,
           false)
  | SystemTemplateParameterCreate name fields value =>
      match self_cipher with
      | None => inl ENCRYPTION_REQUIRED
      | Some c =>
          inr (mkParameter template_id TYPE_SYSTEM name (par_payload_display_name fields)
                 (par_payload_description fields) None None None
                 (Some (TemplateParameterCipher_encrypt c nonce value parameter_id)), true)
      end
  end.

Definition raise {A} (r : Exn + A) : session A :=
  match r with inl e => throw e | inr a => mret a end.

Definition parameter_create (template_id parameter_id : uuid) (nonce : bytes)
    (payload : ParameterCreate) (self_cipher : option cipher) : session TemplateParameter :=
  _lock_template template_id;;
  pb ← raise (_new_parameter template_id parameter_id nonce payload self_cipher);
  bump_revision_if (snd pb) template_id;;
  d ← gets (fun d => d);
  require (is_none (parameters d !! parameter_id)) TemplateParameterAlreadyExistsError;;
  modify (fun d => d <| parameters := <[parameter_id := fst pb]> (parameters d) |>);;
  commit_or TemplateParameterAlreadyExistsError;;
  _locked_parameter template_id parameter_id.

(** The updated row, and whether the template's revision advances. *)
Definition _apply_update (parameter_id : uuid) (nonce : bytes) (parameter : TemplateParameter)
    (payload : ParameterUpdate) (self_cipher : option cipher) : Exn + TemplateParameter * bool :=
  match payload with
  | UserTemplateParameterUpdate fields required mutable default_value =>
      if par_type parameter != TYPE_USER then inl TemplateParameterImmutableFieldError
      else
        let p := parameter <| par_display_name := par_payload_display_name fields |>
                           <| par_description := par_payload_description fields |>
                           <| par_required := Some required |>
                           <| par_mutable := Some mutable |>
                           <| par_default_value := default_value |> in
        inr (p, false)
  | SystemTemplateParameterUpdate fields value =>
      if par_type parameter != TYPE_SYSTEM then inl TemplateParameterImmutableFieldError
      else
        let p := parameter <| par_display_name := par_payload_display_name fields |>
                           <| par_description := par_payload_description fields |> in
        match value with
        | None => inr (p, false)
        | Some v =>
            match self_cipher with
            | None => inl ENCRYPTION_REQUIRED
            | Some c =>
                let sealed := Some (TemplateParameterCipher_encrypt c nonce v parameter_id) in
                match par_system_value parameter with
                | None => inr (p <| par_system_value := sealed |>, true)
                | Some stored =>
                    match TemplateParameterCipher_decrypt c stored parameter_id with
                    | inl e => inl e
                    | inr current =>
                        if current != v then inr (p <| par_system_value := sealed |>, true)
                        else inr (p, false)
                    end
                end
            end
        end
  end.

Definition parameter_update (template_id parameter_id : uuid) (nonce : bytes)
    (payload : ParameterUpdate) (self_cipher : option cipher) : session TemplateParameter :=
  _lock_template template_id;;
  parameter ← _locked_parameter template_id parameter_id;
  pb ← raise (_apply_update parameter_id nonce parameter payload self_cipher);
  bump_revision_if (snd pb) template_id;;
  modify (fun d => d <| parameters := <[parameter_id := fst pb]> (parameters d) |>);;
  commit;;
  _locked_parameter template_id parameter_id.
End Parameters.

Definition parameter_delete (template_id parameter_id : uuid) : session unit :=
  _lock_template template_id;;
  parameter ← _locked_parameter template_id parameter_id;
  bump_revision_if (par_type parameter == TYPE_SYSTEM) template_id;;
  modify (fun d => d <| parameters := delete parameter_id (parameters d) |>);;
  commit.

(** ** Discarding a finished job *)
Lemma update_where_id {R} (p : uuid -> R -> bool) (f : R -> R) m :
  (forall k r, m !! k = Some r -> p k r = true -> f r = r) -> update_where p f m = m.
Proof.
  intros H. apply map_eq. intros k. rewrite lookup_update_where.
  destruct (m !! k) as [r|] eqn:E; cbn; [| done]. f_equal.
  destruct (p k r) eqn:Ep; [by apply (H k) | done].
Qed.

(** The job of a resource is no other resource's job. *)
Lemma job_of_other d j x y o o' :
  InSync d -> owner d x = Some o -> owner d y = Some o' ->
  own_job_id o = Some j -> own_job_id o' = Some j -> x = y.
Proof.
  intros Hd Hx Hy Hj Hj'. destruct (Hd x o Hx) as [Hb _], (Hd y o' Hy) as [Hb' _].
  destruct (Hb j Hj) as (job & H1 & H2), (Hb' j Hj') as (job' & H3 & H4). congruence.
Qed.

(** [Discarded i d d']: what dropping the template's job does. *)
Definition Discarded (i : uuid) (d d' : Store) : Prop :=
  exists js, d' = d <| templates := alter (fun r => r <| tpl_job_id := None |>) i (templates d) |>
                    <| jobs := js |> /\
    (js = jobs d \/
     exists j job, jobs d !! j = Some job /\ job_ref job = Some (KTemplate, i) /\
                   js = delete j (jobs d)).

Lemma discard_current_job_inr i d u d' :
  InSync d -> _discard_current_job i d = inr (u, d') -> Discarded i d d'.
Proof.
  intros Hd H. unfold _discard_current_job, set_template in H. session_inv.
  destruct (templates d !! i) as [t|] eqn:Et; cbn in H0.
  2: { session_inv. exists (jobs d). split; [| auto].
       rewrite alter_id; [by destruct d |]. intros r Hr. congruence. }
  destruct (tpl_job_id t) as [j|] eqn:Ej; session_cases.
  - exists (delete j (jobs d)).
    assert (Ho : owner d (KTemplate, i) = Some (owner_of (RTemplate t)))
      by by unfold owner, load_resource; cbn; rewrite Et.
    destruct (Hd _ _ Ho) as [Hb _]. destruct (Hb j Ej) as (job & Hj & Href).
    split; [| right; eauto].
    assert (Hother : forall y o, owner d y = Some o -> own_job_id o = Some j -> y = (KTemplate, i)).
    { intros y o Hy Hoj. symmetry. eapply job_of_other; done. }
    assert (Hload : forall y r, load_resource y d = Some r ->
              own_job_id (owner_of r) = Some j -> y = (KTemplate, i)).
    { intros y r Hy. apply Hother. unfold owner. by rewrite Hy. }
    unfold delete_job_row. cbn -[alter]. rewrite !update_where_id; [reflexivity | ..];
      intros k r Hk Hp; bool_hyps.
    + pose proof (Hload (KInstance, k) (RInstance r)) as Hl. cbn in Hl. rewrite Hk in Hl.
      by specialize (Hl eq_refl Hp).
    + destruct (decide (k = i)) as [-> |].
      { rewrite lookup_alter_eq, Et in Hk. by injection Hk as <-. }
      rewrite lookup_alter_ne in Hk by done.
      pose proof (Hload (KTemplate, k) (RTemplate r)) as Hl. cbn in Hl. rewrite Hk in Hl.
      specialize (Hl eq_refl Hp). congruence.
    + pose proof (Hload (KAssignment, k) (RAssignment r)) as Hl. cbn in Hl. rewrite Hk in Hl.
      by specialize (Hl eq_refl Hp).
    + pose proof (Hload (KWorkspace, k) (RWorkspace r)) as Hl. cbn in Hl. rewrite Hk in Hl.
      by specialize (Hl eq_refl Hp).
  - exists (jobs d). split; [| auto]. by destruct d.
  - exists (jobs d). split; [| auto]. rewrite alter_id; [by destruct d |].
    intros r Hr. assert (r = t) as -> by congruence. destruct t; cbn in *. by subst.
Qed.

Lemma discarded_template i d d' :
  Discarded i d d' ->
  templates d' = alter (fun r => r <| tpl_job_id := None |>) i (templates d).
Proof. by intros (js & -> & _). Qed.

(** A template at rest loses its job: the store stays in step. *)
Lemma discarded_insync i d d' :
  InSync d -> JobsKnown d -> Discarded i d d' ->
  (forall t, templates d !! i = Some t -> tpl_sync_status t = SUCCESS) ->
  InSync d' /\ JobsKnown d' /\ Spares (Some (KTemplate, i)) d d' /\
  forall j job, jobs d' !! j = Some job -> jobs d !! j = Some job.
Proof.
  intros Hd Hk (js & -> & Hjs) Hrest.
  assert (Hs : Spares (Some (KTemplate, i)) d
     (d <| templates := alter (fun r => r <| tpl_job_id := None |>) i (templates d) |>
        <| jobs := js |>)) by solve_spares.
  split_and!; [| | exact Hs |].
  - eapply (insync_transition (Some (KTemplate, i)) d); [done | | done |].
    + intros j job Hj Hne. cbn. destruct Hjs as [-> | (j' & job' & Hj' & Href & ->)]; [done |].
      rewrite lookup_delete_ne; [done |]. intros ->. congruence.
    + intros x o [= <-]. unfold owner, load_resource; cbn -[alter lookup].
      rewrite lookup_alter_eq. destruct (templates d !! i) as [t|] eqn:Et; [| done].
      cbn. intros [= <-]. split; [done |]. cbn. rewrite decide_True by (by apply Hrest).
      assert (Ho : owner d (KTemplate, i) = Some (owner_of (RTemplate t)))
        by by unfold owner, load_resource; cbn; rewrite Et.
      destruct (Hd _ _ Ho) as [_ Hb]. cbn in Hb. by rewrite decide_True in Hb by (by apply Hrest).
  - unfold JobsKnown; cbn. destruct Hjs as [-> | (j & job & _ & _ & ->)]; [done |].
    by apply map_Forall_delete.
  - intros j job. destruct Hjs as [-> | (j' & job' & _ & _ & ->)]; cbn; [done |].
    intros Hj. by apply lookup_delete_Some in Hj as [_ Hj].
Qed.

(** ** Soundness of the requests *)
Lemma retryable_false s : retryable s = false <-> s = SUCCESS.
Proof. by destruct s. Qed.

(** Assigning fields of a template that its job does not share. *)
Lemma insync_same_owner d d' :
  InSync d -> jobs d' = jobs d -> (forall y, owner d' y = owner d y) -> InSync d'.
Proof. intros Hd Hj Ho. eapply insync_spares; [done | done |]. intros y _. by right. Qed.

Lemma same_owner_keeps d d' :
  Sound d -> Integrity d' -> jobs d' = jobs d -> (forall y, owner d' y = owner d y) ->
  Sound d' /\ Evolves d d'.
Proof. intros. apply removal_keeps; [done..|]. intros y _. by right. Qed.

Ltac session_inv_step ::=
  match goal with
  | H : commit _ = inr _ |- _ => apply commit_inr in H; destruct H as [-> ?]
  | H : commit_or _ _ = inr _ |- _ => apply commit_or_inr in H; destruct H as [-> ?]
  | H : add_job_execution _ _ _ _ _ _ _ _ _ = inr _ |- _ =>
      apply add_job_execution_inr in H; destruct H as [? ->]
  | H : stage_instance_job _ _ _ _ _ _ _ _ = inr _ |- _ =>
      apply stage_instance_job_inr in H; destruct H as [? ->]
  | H : _ensure_no_active_assignments _ _ _ = inr _ |- _ =>
      unfold _ensure_no_active_assignments in H
  | H : _ensure_no_active_workspaces _ _ = inr _ |- _ => unfold _ensure_no_active_workspaces in H
  | H : set_template _ _ _ = inr _ |- _ => unfold set_template in H
  | _ => action_inv_step
  end.

Lemma template_create_keeps i name payload : Keeps (template_create i name payload).
Proof.
  intros d a d' Hd H. unfold template_create in H. session_inv. bool_hyps.
  split; [split; [done | |] |].
  - eapply (insync_transition (Some (KTemplate, i)) d);
      [apply Hd | by apply jobs_spared_eq | solve_spares |].
    intros x o [= <-]. unfold owner, load_resource; cbn -[insert lookup].
    rewrite lookup_insert_eq. by intros [= <-].
  - apply Hd.
  - by apply evolves_eq.
Qed.

(** The part that an update, a deletion and a synchronization request share: the template is at
    rest, so its job goes away. *)
Lemma discard_at_rest i d t d1 u d2 :
  Sound d -> jobs d1 = jobs d -> (forall y, owner d1 y = owner d y) ->
  templates d !! i = Some t -> retryable (tpl_sync_status t) = false ->
  _discard_current_job i d1 = inr (u, d2) ->
  Discarded i d1 d2 /\ InSync d2 /\ JobsKnown d2 /\ Spares (Some (KTemplate, i)) d d2 /\
  forall j job, jobs d2 !! j = Some job -> jobs d !! j = Some job.
Proof.
  intros Hd Hj Ho Ht Hr H.
  assert (Hs1 : InSync d1) by (eapply insync_same_owner; [apply Hd | done | done]).
  apply discard_current_job_inr in H; [| exact Hs1]. split; [done |].
  destruct (discarded_insync i d1 d2) as (H1 & H2 & H3 & H4); [done | | done | |].
  - unfold JobsKnown. rewrite Hj. apply Hd.
  - intros t1 Ht1. specialize (Ho (KTemplate, i)). unfold owner, load_resource in Ho. cbn in Ho.
    rewrite Ht, Ht1 in Ho. cbn in Ho. apply retryable_false in Hr. congruence.
  - split_and!; [done | done | |].
    + eapply spares_trans; [by apply spares_of_eq | exact H3].
    + intros j job Hl. rewrite <- Hj. by apply H4.
Qed.

Lemma template_update_keeps i payload : Keeps (template_update i payload).
Proof.
  intros d a d' Hd H. unfold template_update, stored_template in H. session_cases.
  { split; [done | by apply evolves_eq]. }
  bool_hyps.
  match goal with H : _discard_current_job i ?d1 = inr (_, ?d2) |- _ =>
    eapply (discard_at_rest i d _ d1) in H as (Hdis & Hs & Hk & Hsp & Hev);
      [| done | done | intros y; by apply owner_alter_template | eassumption | assumption] end.
  split; [split; [done | |] |].
  - eapply (insync_transition (Some (KTemplate, i))); [exact Hs | by apply jobs_spared_eq | |].
    + solve_spares.
    + intros y o [= <-]. unfold owner, load_resource; cbn -[alter lookup].
      rewrite (discarded_template _ _ _ Hdis), !lookup_alter_eq; cbn -[alter lookup].
      rewrite lookup_alter_eq. destruct (_ !! _); cbn; [| done]. by intros [= <-].
  - exact Hk.
  - by apply evolves_subset.
Qed.

Lemma template_delete_keeps i : Keeps (template_delete i).
Proof.
  intros d a d' Hd H. unfold template_delete in H. session_inv. bool_hyps.
  match goal with H : _discard_current_job i ?d1 = inr (_, ?d2) |- _ =>
    eapply (discard_at_rest i d _ d1) in H as (Hdis & Hs & Hk & Hsp & Hev);
      [| done | done | done | eassumption | assumption] end.
  split; [split; [done | |] |].
  - eapply insync_spares; [exact Hs | apply (jobs_delete_row (KTemplate, i)) |].
    apply (spares_delete_row (KTemplate, i)).
  - exact Hk.
  - by apply evolves_subset.
Qed.

Lemma template_request_sync_keeps now job_id i : Keeps (template_request_sync now job_id i).
Proof.
  intros d a d' Hd H. unfold template_request_sync in H. session_inv. bool_hyps.
  match goal with H : _discard_current_job i ?d1 = inr (_, ?d2) |- _ =>
    eapply (discard_at_rest i d _ d1) in H as (Hdis & Hs & Hk & Hsp & Hev);
      [| done | done | done | eassumption | assumption] end.
  match goal with |- Sound ?d3 /\ _ => set (d2 := d3) in * end.
  match goal with Hdis : Discarded i d ?x |- _ =>
    assert (Hgoal : Sound d2 /\ Evolves x d2) end.
  - eapply (request_keeps now _ _ KTemplate i _ _ job_id);
      [exact Hs | exact Hk | eassumption | eassumption | | | | |].
    + reflexivity.
    + known_step.
    + done.
    + solve_spares.
    + unfold owner, load_resource; cbn -[alter lookup].
      rewrite (discarded_template _ _ _ Hdis), !lookup_alter_eq.
      match goal with H : templates d !! i = _ |- _ => by rewrite H end.
  - destruct Hgoal as [Hg He]. split; [exact Hg |].
    eapply evolves_subset_fresh; [done | done | done | apply new_job_starts; known_step].
Qed.

Lemma image_create_keeps k i registry name version :
  Keeps (image_create k i registry name version).
Proof.
  intros d a d' Hd H. unfold image_create in H. session_inv. by apply same_owner_keeps; [.. | intros [[] ?]].
Qed.

Lemma image_delete_keeps i k : Keeps (image_delete i k).
Proof.
  intros d a d' Hd H. unfold image_delete, image_get in H. session_inv.
  by apply same_owner_keeps; [.. | intros [[] ?]].
Qed.

(** *** Parameters *)
Lemma lock_template_inr i d t d' :
  _lock_template i d = inr (t, d') ->
  d' = d /\ templates d !! i = Some t /\ tpl_sync_status t = SUCCESS /\
  forall k a, assignments d !! k = Some a -> asg_template_id a = i -> asg_status a = SUCCESS.
Proof.
  intros H. unfold _lock_template in H. session_inv. bool_hyps. split_and!; try done.
  - by apply retryable_false.
  - intros k a Hk Ha.
    match goal with H : exists_where _ _ = false |- _ =>
      rewrite exists_where_false in H; specialize (H k a Hk); cbn in H;
      apply andb_false_iff in H as [H | H] end.
    + by bool_hyps.
    + by apply retryable_false.
Qed.

Lemma locked_parameter_inr i k d p d' :
  _locked_parameter i k d = inr (p, d') ->
  d' = d /\ parameters d !! k = Some p /\ par_template_id p = i.
Proof.
  intros H. unfold _locked_parameter, parameter_get in H. session_inv.
  match goal with H : _ ≫= _ = Some _ |- _ => rename H into Hm end.
  destruct (parameters d !! k) as [m'|] eqn:E; cbn in Hm; [| done].
  case_bool_decide; [| done]. injection Hm as ->. done.
Qed.

(** The templates of a store with a bumped revision. *)
Definition bumped (b : bool) (i : uuid) (d : Store) : Store :=
  if b then
    d <| templates := alter (fun r =>
           r <| tpl_system_parameter_revision := (tpl_system_parameter_revision r + 1)%Z |>) i
           (templates d) |>
  else d.

Lemma bump_revision_if_inr b i d u d' :
  bump_revision_if b i d = inr (u, d') -> d' = bumped b i d.
Proof. intros H. unfold bump_revision_if, bumped in *. destruct b; session_inv; done. Qed.

Lemma raise_inr {A} (r : Exn + A) d a d' : raise r d = inr (a, d') -> r = inr a /\ d' = d.
Proof. destruct r; cbn; intros H; session_inv; done. Qed.

Ltac session_inv_step ::=
  match goal with
  | H : commit _ = inr _ |- _ => apply commit_inr in H; destruct H as [-> ?]
  | H : commit_or _ _ = inr _ |- _ => apply commit_or_inr in H; destruct H as [-> ?]
  | H : add_job_execution _ _ _ _ _ _ _ _ _ = inr _ |- _ =>
      apply add_job_execution_inr in H; destruct H as [? ->]
  | H : stage_instance_job _ _ _ _ _ _ _ _ = inr _ |- _ =>
      apply stage_instance_job_inr in H; destruct H as [? ->]
  | H : _ensure_no_active_assignments _ _ _ = inr _ |- _ =>
      unfold _ensure_no_active_assignments in H
  | H : _ensure_no_active_workspaces _ _ = inr _ |- _ => unfold _ensure_no_active_workspaces in H
  | H : set_template _ _ _ = inr _ |- _ => unfold set_template in H
  | H : _lock_template _ _ = inr _ |- _ =>
      apply lock_template_inr in H; destruct H as (-> & ? & ? & ?)
  | H : _locked_parameter _ _ _ = inr _ |- _ =>
      apply locked_parameter_inr in H; destruct H as (-> & ? & ?)
  | H : bump_revision_if _ _ _ = inr _ |- _ => apply bump_revision_if_inr in H; subst
  | H : raise _ _ = inr _ |- _ => apply raise_inr in H; destruct H as [? ->]
  | _ => action_inv_step
  end.

Lemma owner_bumped b i d y : owner (bumped b i d) y = owner d y.
Proof. destruct b; [| done]. by apply owner_alter_template. Qed.
Lemma jobs_bumped b i d : jobs (bumped b i d) = jobs d.
Proof. by destruct b. Qed.

Section ParameterFacts.
Context `{AESGCM}.

Lemma parameter_create_keeps i k nonce payload c :
  Keeps (parameter_create i k nonce payload c).
Proof.
  intros d a d' Hd Hm. unfold parameter_create in Hm. session_inv.
  apply same_owner_keeps; [done | done | apply jobs_bumped |].
  intros y. etrans; [| apply owner_bumped]. by destruct y as [[] ?].
Qed.

Lemma parameter_update_keeps i k nonce payload c :
  Keeps (parameter_update i k nonce payload c).
Proof.
  intros d a d' Hd Hm. unfold parameter_update in Hm. session_inv.
  apply same_owner_keeps; [done | done | apply jobs_bumped |].
  intros y. etrans; [| apply owner_bumped]. by destruct y as [[] ?].
Qed.
End ParameterFacts.

Lemma parameter_delete_keeps i k : Keeps (parameter_delete i k).
Proof.
  intros d a d' Hd Hm. unfold parameter_delete in Hm. session_inv.
  apply same_owner_keeps; [done | done | apply jobs_bumped |].
  intros y. etrans; [| apply owner_bumped]. by destruct y as [[] ?].
Qed.
