(* ===== verification/Assignments.v ===== *)
(** * Assignments: templates put on instances (repositories/template_assignments.py) *)
From S2P Require Import Prelude Text Models Store Registry Execution Ownership Claims Jobs.
From S2P Require Import Databases Instances.

Definition _lock_instance (instance_id : uuid) : session CoderInstance :=
  d ← gets (fun d => d);
  found (instances d !! instance_id) TemplateAssignmentInstanceNotFoundError.

Definition _lock_template (template_id : uuid) : session Template :=
  d ← gets (fun d => d);
  found (templates d !! template_id) TemplateAssignmentTemplateNotFoundError.

(** At most one row matches, by the unique key. *)
Definition _lock_assignment (instance_id template_id : uuid)
    : session (option (uuid * TemplateAssignment)) :=
  gets (fun d => first_where (fun _ a =>
    (asg_instance_id a == instance_id) && (asg_template_id a == template_id)) (assignments d)).

Definition _require_mutation_available (instance : CoderInstance) (template : Template)
    : session unit :=
  require ((inst_state instance == STARTED) && (inst_status instance == SUCCESS))
    TemplateAssignmentInstanceUnavailableError;;
  require (negb (retryable (tpl_sync_status template))) TemplateAssignmentSyncInProgressError.

Definition job_is_consistent (d : Store) (assignment_id : uuid) (assignment : TemplateAssignment)
    (job_name' task_name step : string) : bool :=
  match asg_job_id assignment ≫= fun j => jobs d !! j with
  | None => false
  | Some job =>
      (job_name job == job_name') && (job_task_name job == task_name)
      && (job_resource_type job == Some "template_assignment")
      && (job_resource_id job == Some assignment_id)
      && (job_step job == step) && (asg_step assignment == Some step)
      && (job_status job == asg_status assignment)
  end.

Definition _require_consistent_job (assignment_id : uuid) (assignment : TemplateAssignment)
    (job_name task_name step : string) : session unit :=
  d ← gets (fun d => d);
  require (job_is_consistent d assignment_id assignment job_name task_name step)
    TemplateAssignmentJobConflictError.

Definition _stored_assignment (assignment_id : uuid) : session TemplateAssignment :=
  d ← gets (fun d => d);
  found (assignments d !! assignment_id) TemplateAssignmentActionConflictError.

(** The results: the assignment, whether it is still to converge, and the job to dispatch. *)
Definition put (now : time) (job_id new_id instance_id template_id : uuid)
    : session ((uuid * TemplateAssignment) * bool * option uuid) :=
  instance ← _lock_instance instance_id;
  template ← _lock_template template_id;
  _require_mutation_available instance template;;
  o ← _lock_assignment instance_id template_id;
  match o with
  | None =>
      add_job_execution IntegrityError now job_id "template_assignment.create"
        TEMPLATE_ASSIGNMENT_CREATE_STEP_01_TASK (Some "template_assignment") (Some new_id)
        TEMPLATE_ASSIGNMENT_CREATE_STEP_01;;
      d ← gets (fun d => d);
      require (is_none (assignments d !! new_id)) IntegrityError;;
      modify (fun d => d <| assignments := <[new_id :=
        mkAssignment template_id instance_id "creating" PENDING (Some job_id)
          (Some TEMPLATE_ASSIGNMENT_CREATE_STEP_01)]> (assignments d) |>);;
      commit;;
      a ← _stored_assignment new_id;
      mret ((new_id, a), true, Some job_id)
  | Some (assignment_id, a) =>
      if (asg_action a == "created") && (asg_status a == SUCCESS)
      then commit;; mret ((assignment_id, a), false, None)
      else if (asg_action a == "creating") && retryable (asg_status a)
      then
        _require_consistent_job assignment_id a "template_assignment.create"
          TEMPLATE_ASSIGNMENT_CREATE_STEP_01_TASK TEMPLATE_ASSIGNMENT_CREATE_STEP_01;;
        commit;;
        mret ((assignment_id, a), true, None)
      else throw TemplateAssignmentActionConflictError
  end.

Definition assignment_request_deletion (now : time) (job_id instance_id template_id : uuid)
    : session (option (uuid * TemplateAssignment) * bool * option uuid) :=
  instance ← _lock_instance instance_id;
  template ← _lock_template template_id;
  o ← _lock_assignment instance_id template_id;
  match o with
  | None => commit;; mret (None, false, None)
  | Some (assignment_id, a) =>
      _require_mutation_available instance template;;
      if (asg_action a == "deleting") && retryable (asg_status a)
      then
        _require_consistent_job assignment_id a "template_assignment.delete"
          TEMPLATE_ASSIGNMENT_DELETE_STEP_01_TASK TEMPLATE_ASSIGNMENT_DELETE_STEP_01;;
        commit;;
        mret (Some (assignment_id, a), true, None)
      else
        require ((asg_action a == "created") && (asg_status a == SUCCESS))
          TemplateAssignmentActionConflictError;;
        d ← gets (fun d => d);
        require (negb (exists_where (fun _ w =>
          (ws_instance_id w == instance_id) && (ws_template_id w == template_id)
          && retryable (ws_status w)) (workspaces d))) TemplateAssignmentWorkspacesBusyError;;
        add_job_execution IntegrityError now job_id "template_assignment.delete"
          TEMPLATE_ASSIGNMENT_DELETE_STEP_01_TASK (Some "template_assignment")
          (Some assignment_id) TEMPLATE_ASSIGNMENT_DELETE_STEP_01;;
        modify (fun d => d <| assignments := alter (fun r =>
          r <| asg_action := "deleting" |> <| asg_status := PENDING |>
            <| asg_job_id := Some job_id |>
            <| asg_step := Some TEMPLATE_ASSIGNMENT_DELETE_STEP_01 |>)
          assignment_id (assignments d) |>);;
        commit;;
        a' ← _stored_assignment assignment_id;
        mret (Some (assignment_id, a'), true, Some job_id)
  end.

(** ** Facts *)
Lemma lock_assignment_some d i t k a :
  first_where (fun _ a => (asg_instance_id a == i) && (asg_template_id a == t)) (assignments d)
  = Some (k, a) ->
  assignments d !! k = Some a /\ asg_instance_id a = i /\ asg_template_id a = t.
Proof. intros H. apply first_where_some in H as [Hk Hp]. by bool_hyps. Qed.

(** In a store in step, an assignment at work is consistent with its job: the guard
    [_require_consistent_job] only passes judgement on the job's name and task. *)
Lemma assignment_job d k a :
  InSync d -> assignments d !! k = Some a -> retryable (asg_status a) = true ->
  exists j job, asg_job_id a = Some j /\ jobs d !! j = Some job /\
    job_ref job = Some (KAssignment, k) /\
    dict_get (job_name job) RESOURCE_ACTIONS = Some (asg_action a) /\
    asg_step a = Some (job_step job) /\ job_status job = asg_status a.
Proof.
  intros Hd Hk Hr.
  assert (Ho : owner d (KAssignment, k) = Some (owner_of (RAssignment a)))
    by by unfold owner, load_resource; cbn; rewrite Hk.
  destruct (Hd _ _ Ho) as [Hb Hc]. rewrite decide_False in Hc.
  2: { cbn. intros E. by rewrite E in Hr. }
  destruct Hc as (j & job & Hj & Hl & Hn & Hs & Ht). exists j, job.
  destruct (Hb j Hj) as (job' & Hl' & Href). assert (job' = job) as -> by congruence. done.
Qed.

Lemma job_ref_some job k i :
  job_ref job = Some (k, i) ->
  job_resource_type job = Some (kind_name k) /\ job_resource_id job = Some i.
Proof.
  unfold job_ref. destruct (job_resource_type job) as [t|], (job_resource_id job) as [i'|]; try done.
  cbn. destruct (kind_of t) as [k'|] eqn:E; cbn; [| done]. intros [= -> ->].
  split; [| done]. f_equal. eapply kind_of_inj; [done | apply kind_of_name].
Qed.

Lemma assignment_consistent d k a name task step :
  Sound d -> assignments d !! k = Some a -> retryable (asg_status a) = true ->
  dict_get name RESOURCE_ACTIONS = Some (asg_action a) ->
  (forall n t s, (n, Some "template_assignment", t, s) ∈ WORKFLOW_STEPS ->
     dict_get n RESOURCE_ACTIONS = dict_get name RESOURCE_ACTIONS ->
     n = name /\ t = task /\ s = step) ->
  job_is_consistent d k a name task step = true.
Proof.
  intros Hd Hk Hr Hn Hu.
  destruct (assignment_job d k a) as (j & job & Hj & Hl & Href & Ha & Hs & Ht);
    [apply Hd | done | done |].
  apply job_ref_some in Href as [Hrt Hri]. pose proof (sound_jobs _ Hd j job Hl) as Hkn.
  apply job_known_facts in Hkn as (Hw & _). rewrite Hrt in Hw.
  assert (En0 : dict_get (job_name job) RESOURCE_ACTIONS = dict_get name RESOURCE_ACTIONS)
    by (rewrite Ha; done).
  destruct (Hu _ _ _ Hw En0) as (En & Et & Es).
  unfold job_is_consistent. rewrite Hj. cbn. rewrite Hl.
  rewrite !andb_true_iff, !bool_decide_eq_true. split_and!; first [congruence | done].
Qed.

Lemma put_keeps now job_id k i t : Keeps (put now job_id k i t).
Proof.
  intros d a d' Hd H.
  unfold put, _lock_instance, _lock_template, _require_mutation_available, _lock_assignment,
    _require_consistent_job, _stored_assignment in H.
  session_cases; try (split; [done | by apply evolves_eq]).
  eapply (request_keeps now _ _ KAssignment k _ _ job_id);
    [apply Hd | apply Hd | eassumption | eassumption | ..].
  - reflexivity.
  - known_step.
  - done.
  - solve_spares.
  - unfold owner, load_resource; cbn -[insert lookup]. by rewrite lookup_insert_eq.
Qed.

Lemma assignment_request_deletion_keeps now job_id i t :
  Keeps (assignment_request_deletion now job_id i t).
Proof.
  intros d a d' Hd H.
  unfold assignment_request_deletion, _lock_instance, _lock_template, _require_mutation_available,
    _lock_assignment, _require_consistent_job, _stored_assignment in H.
  session_cases; try (split; [done | by apply evolves_eq]).
  match goal with H : first_where _ _ = Some _ |- _ =>
    apply lock_assignment_some in H as (Hk & _ & _) end.
  eapply (request_keeps now _ _ KAssignment _ _ _ job_id);
    [apply Hd | apply Hd | eassumption | eassumption | ..].
  - reflexivity.
  - known_step.
  - done.
  - solve_spares.
  - unfold owner, load_resource; cbn -[alter lookup]. by rewrite lookup_alter_eq, Hk.
Qed.
