(* ===== verification/Workspaces.v ===== *)
(** * Workspaces: requests on workspaces (repositories/workspaces.py) *)
From S2P Require Import Prelude Text Models Store Registry Execution Ownership Claims Jobs.
From S2P Require Import Databases Instances Templates.
From Stdlib Require Import Ascii String.
Open Scope string_scope.

(** A [dict[str, str]]. *)
Abbreviation values := (gmap string string) (only parsing).

(** ** User parameters *)
(** The user parameters of a template, in the order of their names. *)
Definition user_definitions (d : Store) (template_id : uuid) : list (string * TemplateParameter) :=
  sort_by (fun a b => String.leb a.1 b.1)
    (map (fun kp => (par_name kp.2, kp.2))
       (rows_where (fun _ p => (par_template_id p == template_id) && (par_type p == TYPE_USER))
          (parameters d))).

Definition is_defined (by_name : list (string * TemplateParameter)) (name : string) : bool :=
  existsb (fun np => np.1 == name) by_name.

(** A supplied value must be of a known parameter, or repeat one that is kept from before. *)
Definition supplied_is_known (by_name : list (string * TemplateParameter)) (previous : values)
    (name value : string) : bool :=
  is_defined by_name name || (previous !! name == Some value).

(** The value of one parameter: [inr None] leaves it out. *)
Definition resolve_one (supplied : values) (previous : option values) (name : string)
    (parameter : TemplateParameter) : Exn + option string :=
  let previous_values := default ∅ previous in
  let immutable := is_some previous && (par_mutable parameter == Some false) in
  let chosen :=
    match supplied !! name with
    | Some value => inr (Some value)
    | None =>
        match (if immutable then previous_values !! name else None), par_default_value parameter with
        | Some value, _ => inr (Some value)
        | None, Some value => inr (Some value)
        | None, None =>
            if par_required parameter == Some true then inl WorkspaceConfigurationError
            else inr None
        end
    end in
  match chosen with
  | inl e => inl e
  | inr None => inr None
  | inr (Some value) =>
      if immutable && is_some (previous_values !! name) && (previous_values !! name != Some value)
      then inl WorkspaceParameterImmutableError
      else inr (Some value)
  end.

Fixpoint resolve_all (supplied : values) (previous : option values)
    (by_name : list (string * TemplateParameter)) (resolved : values) : Exn + values :=
  match by_name with
  | [] => inr resolved
  | (name, parameter) :: rest =>
      match resolve_one supplied previous name parameter with
      | inl e => inl e
      | inr None => resolve_all supplied previous rest resolved
      | inr (Some value) => resolve_all supplied previous rest (<[name := value]> resolved)
      end
  end.

Definition resolve (by_name : list (string * TemplateParameter)) (supplied : values)
    (previous : option values) : Exn + values :=
  let previous_values := default ∅ previous in
  if negb (forallb (fun nv => supplied_is_known by_name previous_values nv.1 nv.2)
             (map_to_list supplied))
  then inl WorkspaceConfigurationError
  else
    resolve_all supplied previous by_name
      (filter (fun nv => is_defined by_name nv.1 = false) previous_values).

Definition _resolve_parameters (template_id : uuid) (supplied : values)
    (previous : option values) : session values :=
  d ← gets (fun d => d);
  raise (resolve (user_definitions d template_id) supplied previous).

(** ** Validation of the references *)
Definition _lock_available_instance (instance_id : uuid) : session CoderInstance :=
  d ← gets (fun d => d);
  instance ← found (instances d !! instance_id) WorkspaceInstanceNotFoundError;
  require (inst_status instance == SUCCESS) WorkspaceInstanceBusyError;;
  mret instance.

Definition _lock_template (template_id : uuid) : session Template :=
  d ← gets (fun d => d);
  found (templates d !! template_id) WorkspaceTemplateNotFoundError.

Definition _validate_owner (member_id instance_id : uuid) : session unit :=
  d ← gets (fun d => d);
  m ← found (members d !! member_id) WorkspaceMemberNotFoundError;
  require ((mem_instance_id m == instance_id) && (mem_status m == SUCCESS))
    WorkspaceMemberUnavailableError.

Definition _validate_image (image_id template_id : uuid) : session unit :=
  d ← gets (fun d => d);
  image ← found (images d !! image_id) WorkspaceImageNotFoundError;
  require (img_template_id image == template_id) WorkspaceImageUnavailableError.

Definition _lock_workspace (workspace_id : uuid) : session Workspace :=
  d ← gets (fun d => d);
  found (workspaces d !! workspace_id) WorkspaceNotFoundError.

Definition _ensure_workspace_available (workspace : Workspace) : session unit :=
  require (negb (member (ws_status workspace) [PENDING; RUNNING])) WorkspaceBusyError.

Definition _validate_modules (template : Template) (modules : list string) : session unit :=
  require (issubset modules (tpl_modules template)) WorkspaceConfigurationError.

(** Some deployment of the template on the instance is known, whatever its version. *)
Definition remote_template_known (d : Store) (template_id instance_id : uuid) : bool :=
  exists_where (fun _ p =>
    is_some (dep_coder_template_id p) &&
    match assignments d !! dep_assignment_id p with
    | None => false
    | Some a =>
        (asg_template_id a == template_id) && (asg_instance_id a == instance_id)
        && (asg_action a == "created") && (asg_status a == SUCCESS)
        && match templates d !! asg_template_id a with
           | None => false
           | Some t => tpl_sync_status t == SUCCESS
           end
    end) (deployments d).
Definition _require_remote_template (template_id instance_id : uuid) : session unit :=
  d ← gets (fun d => d);
  require (remote_template_known d template_id instance_id) WorkspaceTemplateNotDeployedError.

(** ** The repository *)
Record WorkspaceCreate := mkWorkspaceCreate {
  create_name : string;
  create_instance_id : uuid;
  create_template_id : uuid;
  create_member_id : uuid;
  create_image_id : uuid;
  create_modules : list string;
  create_parameters : values
}.
Record WorkspaceUpdate := mkWorkspaceUpdate {
  update_name : string;
  update_image_id : uuid;
  update_modules : list string;
  update_parameters : values
}.

Definition workspace_get (workspace_id : uuid) : session (option Workspace) :=
  gets (fun d => workspaces d !! workspace_id).

Definition set_workspace (f : Workspace -> Workspace) (i : uuid) : session unit :=
  modify (fun d => d <| workspaces := alter f i (workspaces d) |>).

(** The re-read after the commit: [refresh]. *)
Definition refreshed (workspace_id : uuid) : session Workspace :=
  d ← gets (fun d => d);
  found (workspaces d !! workspace_id) WorkspaceNotFoundError.

Definition workspace_create (now : time) (job_id workspace_id : uuid) (payload : WorkspaceCreate)
    : session Workspace :=
  _lock_available_instance (create_instance_id payload);;
  template ← _lock_template (create_template_id payload);
  _require_remote_template (create_template_id payload) (create_instance_id payload);;
  _validate_owner (create_member_id payload) (create_instance_id payload);;
  _validate_image (create_image_id payload) (create_template_id payload);;
  _validate_modules template (create_modules payload);;
  resolved ← _resolve_parameters (create_template_id payload) (create_parameters payload) None;
  add_job_execution WorkspaceAlreadyExistsError now job_id "workspace.create"
    WORKSPACE_CREATE_STEP_01_TASK (Some "workspace") (Some workspace_id)
    WORKSPACE_CREATE_STEP_01;;
  d ← gets (fun d => d);
  require (is_none (workspaces d !! workspace_id)) WorkspaceAlreadyExistsError;;
  modify (fun d => d <| workspaces := <[workspace_id :=
    mkWorkspace (create_name payload) (create_instance_id payload) (create_template_id payload)
      (create_member_id payload) (create_image_id payload) (create_modules payload) resolved
      0 None None None "creating" PENDING (Some job_id) (Some WORKSPACE_CREATE_STEP_01)]>
    (workspaces d) |>);;
  commit_or WorkspaceAlreadyExistsError;;
  refreshed workspace_id.

Definition workspace_update (now : time) (job_id workspace_id : uuid) (payload : WorkspaceUpdate)
    : session (Workspace * bool) :=
  workspace ← _lock_workspace workspace_id;
  _ensure_workspace_available workspace;;
  _lock_available_instance (ws_instance_id workspace);;
  template ← _lock_template (ws_template_id workspace);
  _require_remote_template (ws_template_id workspace) (ws_instance_id workspace);;
  _validate_image (update_image_id payload) (ws_template_id workspace);;
  _validate_modules template (update_modules payload);;
  resolved ← _resolve_parameters (ws_template_id workspace) (update_parameters payload)
               (Some (ws_parameters workspace));
  let changed :=
    (ws_name workspace != update_name payload)
    || (ws_image_id workspace != update_image_id payload)
    || (ws_modules workspace != update_modules payload)
    || (ws_parameters workspace != resolved) in
  if negb changed && (ws_status workspace == SUCCESS) then commit;; mret (workspace, false)
  else
    set_workspace (fun r =>
      r <| ws_name := update_name payload |>
        <| ws_image_id := update_image_id payload |>
        <| ws_modules := update_modules payload |>
        <| ws_parameters_revision :=
             if ws_parameters workspace != resolved then (ws_parameters_revision r + 1)%Z
             else ws_parameters_revision r |>
        <| ws_parameters := resolved |>
        <| ws_action := "updating" |> <| ws_status := PENDING |>) workspace_id;;
    add_job_execution WorkspaceAlreadyExistsError now job_id "workspace.update"
      WORKSPACE_UPDATE_STEP_01_TASK (Some "workspace") (Some workspace_id)
      WORKSPACE_UPDATE_STEP_01;;
    set_workspace (fun r =>
      r <| ws_job_id := Some job_id |> <| ws_step := Some WORKSPACE_UPDATE_STEP_01 |>)
      workspace_id;;
    commit_or WorkspaceAlreadyExistsError;;
    w ← refreshed workspace_id;
    mret (w, true).

Definition workspace_request_deletion (now : time) (job_id workspace_id : uuid)
    : session Workspace :=
  workspace ← _lock_workspace workspace_id;
  _ensure_workspace_available workspace;;
  _lock_available_instance (ws_instance_id workspace);;
  _lock_template (ws_template_id workspace);;
  _require_remote_template (ws_template_id workspace) (ws_instance_id workspace);;
  set_workspace (fun r => r <| ws_action := "deleting" |> <| ws_status := PENDING |>)
    workspace_id;;
  add_job_execution IntegrityError now job_id "workspace.delete"
    WORKSPACE_DELETE_STEP_01_TASK (Some "workspace") (Some workspace_id)
    WORKSPACE_DELETE_STEP_01;;
  set_workspace (fun r =>
    r <| ws_job_id := Some job_id |> <| ws_step := Some WORKSPACE_DELETE_STEP_01 |>)
    workspace_id;;
  commit;;
  refreshed workspace_id.

(** No route and no task calls it. *)
Definition workspace_update_action (workspace_id : uuid) (expected_action action : string)
    (status : Status) : session Workspace :=
  let normalized_action := str_strip action in
  require (negb ((normalized_action == "")
                 || Nat.ltb MAX_ACTION_LENGTH (py_len normalized_action)))
    InvalidWorkspaceActionError;;
  workspace ← _lock_workspace workspace_id;
  require (ws_action workspace == expected_action) WorkspaceActionConflictError;;
  set_workspace (fun r => r <| ws_action := normalized_action |> <| ws_status := status |>)
    workspace_id;;
  commit;;
  refreshed workspace_id.

(** ** Soundness of the requests *)
Ltac workspace_unfold H :=
  unfold _lock_workspace, _ensure_workspace_available, _lock_available_instance, _lock_template,
    _require_remote_template, _validate_owner, _validate_image, _validate_modules,
    _resolve_parameters, set_workspace, refreshed in H.

Lemma workspace_create_keeps now job_id k payload :
  Keeps (workspace_create now job_id k payload).
Proof.
  intros d a d' Hd H. unfold workspace_create in H. workspace_unfold H. session_inv.
  eapply (request_keeps now _ _ KWorkspace k _ _ job_id);
    [apply Hd | apply Hd | eassumption | eassumption | ..].
  - reflexivity.
  - known_step.
  - done.
  - solve_spares.
  - unfold owner, load_resource; cbn -[insert lookup]. by rewrite lookup_insert_eq.
Qed.

Lemma workspace_update_keeps now job_id k payload :
  Keeps (workspace_update now job_id k payload).
Proof.
  intros d a d' Hd H. unfold workspace_update in H. workspace_unfold H. session_cases.
  { split; [done | by apply evolves_eq]. }
  eapply (request_keeps now _ _ KWorkspace k _ _ job_id);
    [apply Hd | apply Hd | eassumption | eassumption | ..].
  - reflexivity.
  - known_step.
  - done.
  - solve_spares.
  - unfold owner, load_resource; cbn -[alter lookup]. rewrite !lookup_alter_eq.
    match goal with H : workspaces d !! k = _ |- _ => by rewrite H end.
Qed.

Lemma workspace_request_deletion_keeps now job_id k :
  Keeps (workspace_request_deletion now job_id k).
Proof.
  intros d a d' Hd H. unfold workspace_request_deletion in H. workspace_unfold H. session_inv.
  eapply (request_keeps now _ _ KWorkspace k _ _ job_id);
    [apply Hd | apply Hd | eassumption | eassumption | ..].
  - reflexivity.
  - known_step.
  - done.
  - solve_spares.
  - unfold owner, load_resource; cbn -[alter lookup]. rewrite !lookup_alter_eq.
    match goal with H : workspaces d !! k = _ |- _ => by rewrite H end.
Qed.
