(* ===== verification/Listings.v ===== *)
(** * Listings: the paginated lists of the repositories

    Each list has a condition, a count and an order that ends on the primary key. A list sorts as
    SQL does with the byte order of strings; an enum sorts in the order of its declaration. *)
From S2P Require Import Prelude Order Text Models Store Registry Crypto Execution Ownership.
From S2P Require Import Claims Jobs Databases Instances Members Templates Assignments Workspaces.
From Stdlib Require Import Ascii String.
Open Scope string_scope.

(** [column.icontains(text, autoescape=True)]: the text occurs, whatever the case. *)
Definition icontains (column text : string) : bool :=
  includes (str_lower text) (str_lower column).

(** An optional filter. *)
Definition filtered {A} (o : option A) (p : A -> bool) : bool :=
  match o with Some a => p a | None => true end.

(** What a list statement selects, how it orders it, and what the count statement counts. *)
Record Listing (R : Type) := mkListing {
  listing_rows : Store -> list R;
  listing_order : Store -> R -> R -> comparison;
  listing_count : Store -> nat
}.
Arguments mkListing {R}.
Arguments listing_rows {R}.
Arguments listing_order {R}.
Arguments listing_count {R}.

Definition list_page {R} (l : Listing R) (page page_size : nat) (d : Store) : list R * nat :=
  (slice page page_size (order_by (listing_order l d) (listing_rows l d)), listing_count l d).

(** Tables are listed as (identifier, row) pairs. *)
Definition by_id {R} : uuid * R -> uuid * R -> comparison := by_key N.compare fst.
Definition by_column {R} (f : R -> string) : uuid * R -> uuid * R -> comparison :=
  by_key String.compare (fun kr => f kr.2).
Definition by_lower {R} (f : R -> string) : uuid * R -> uuid * R -> comparison :=
  by_column (fun r => str_lower (f r)).

Definition table_listing {R} (table : Store -> gmap uuid R) (p : R -> bool)
    (cmp : uuid * R -> uuid * R -> comparison) : Listing (uuid * R) :=
  mkListing (fun d => rows_where (fun _ => p) (table d)) (fun _ => cmp)
    (fun d => List.length (rows_where (fun _ => p) (table d))).

(** ** Instances *)

(** The join with the allocations of one database repeats an instance for each allocation. *)
Definition instance_rows (application : option string) (database_id : option uuid) (d : Store)
    : list (uuid * CoderInstance) :=
  let matching := rows_where (fun _ r => filtered application (fun a => inst_application r == a))
                    (instances d) in
  match database_id with
  | None => matching
  | Some b =>
      flat_map (fun kr =>
        map (fun _ => kr)
          (rows_where (fun _ a => (alloc_instance_id a == kr.1) && (alloc_database_id a == b))
             (allocations d))) matching
  end.
Definition instance_list (application : option string) (database_id : option uuid)
    : Listing (uuid * CoderInstance) :=
  mkListing (instance_rows application database_id)
    (fun _ => then_by (by_column inst_application) by_id)
    (fun d => List.length (instance_rows application database_id d)).

(** ** Databases: rows with their allocation counts *)
Definition usage_id (u : DatabaseUsage) : uuid := (usage_database u).1.
Definition usage_name (u : DatabaseUsage) : string := base_name (usage_database u).2.
Definition usages (name : option string) (d : Store) : list DatabaseUsage :=
  map (fun b => mkUsage b (allocation_count d b.1))
    (rows_where (fun _ b => filtered name (icontains (base_name b))) (databases d)).
Definition usage_order : DatabaseUsage -> DatabaseUsage -> comparison :=
  then_by (by_key String.compare (fun u => str_lower (usage_name u)))
    (then_by (by_key String.compare usage_name) (by_key N.compare usage_id)).
Definition database_list_page (name : option string) : Listing DatabaseUsage :=
  mkListing (usages name) (fun _ => usage_order)
    (fun d => List.length
       (rows_where (fun _ b => filtered name (icontains (base_name b))) (databases d))).
Definition list_usage (d : Store) : list DatabaseUsage := order_by usage_order (usages None d).

(** ** Members *)
Definition member_listing (instance_id : uuid) : Listing (uuid * Member) :=
  table_listing members (fun m => mem_instance_id m == instance_id)
    (then_by (by_column mem_username) by_id).
Definition member_list (instance_id : uuid) (page page_size : nat)
    : session (list (uuid * Member) * nat) :=
  d ← gets (fun d => d);
  _ ← found (instances d !! instance_id) MemberInstanceNotFoundError;
  mret (list_page (member_listing instance_id) page page_size d).

(** ** Templates *)
Definition template_order : uuid * Template -> uuid * Template -> comparison :=
  then_by (by_lower tpl_display_name)
    (then_by (by_column tpl_display_name) (then_by (by_column tpl_name) by_id)).
Definition template_list (display_name : option string) : Listing (uuid * Template) :=
  table_listing templates
    (fun t => filtered display_name (icontains (tpl_display_name t))) template_order.

(** ** Images *)
Definition image_listing (template_id : uuid) : Listing (uuid * TemplateImage) :=
  table_listing images (fun m => img_template_id m == template_id)
    (then_by (by_column img_registry_name)
       (then_by (by_column img_name) (then_by (by_column img_version) by_id))).
Definition image_list (template_id : uuid) (page page_size : nat)
    : session (list (uuid * TemplateImage) * nat) :=
  d ← gets (fun d => d);
  _ ← found (templates d !! template_id) TemplateImageTemplateNotFoundError;
  mret (list_page (image_listing template_id) page page_size d).

(** ** Parameters *)
Definition type_rank (t : TemplateParameterType) : N :=
  match t with TYPE_USER => 0 | TYPE_SYSTEM => 1 end%N.
Definition parameter_listing (template_id : uuid) : Listing (uuid * TemplateParameter) :=
  table_listing parameters (fun p => par_template_id p == template_id)
    (then_by (by_key N.compare (fun kr => type_rank (par_type kr.2)))
       (then_by (by_column par_name) by_id)).
Definition parameter_list (template_id : uuid) (page page_size : nat)
    : session (list (uuid * TemplateParameter) * nat) :=
  d ← gets (fun d => d);
  _ ← found (templates d !! template_id) TemplateParameterTemplateNotFoundError;
  mret (list_page (parameter_listing template_id) page page_size d).

(** ** Assignments

    The list joins each assignment with its template, whose names order it; the count does not. *)
Abbreviation assigned := ((uuid * TemplateAssignment) * Template)%type (only parsing).
Definition assignment_order : assigned -> assigned -> comparison :=
  then_by (by_key String.compare (fun x : assigned => str_lower (tpl_display_name x.2)))
    (then_by (by_key String.compare (fun x : assigned => tpl_display_name x.2))
       (then_by (by_key String.compare (fun x : assigned => tpl_name x.2))
          (by_key N.compare (fun x : assigned => x.1.1)))).
Definition with_template (d : Store) (ka : uuid * TemplateAssignment) : option assigned :=
  t ← templates d !! asg_template_id ka.2; Some (ka, t).
Definition assignment_listing (instance_id : uuid) : Listing assigned :=
  let condition := fun (_ : uuid) a => asg_instance_id a == instance_id in
  mkListing (fun d => omap (with_template d) (rows_where condition (assignments d)))
    (fun _ => assignment_order)
    (fun d => List.length (rows_where condition (assignments d))).
Definition assignment_list (instance_id : uuid) (page page_size : nat)
    : session (list assigned * nat) :=
  d ← gets (fun d => d);
  _ ← found (instances d !! instance_id) TemplateAssignmentInstanceNotFoundError;
  mret (list_page (assignment_listing instance_id) page page_size d).

(** ** Workspaces *)
Record WorkspaceListQuery := mkWorkspaceListQuery {
  query_page : nat;
  query_page_size : nat;
  query_instance_id : option uuid;
  query_template_id : option uuid;
  query_member_id : option uuid;
  query_image_id : option uuid;
  query_status : option Status;
  query_name : option string
}.
Definition workspace_matches (query : WorkspaceListQuery) (w : Workspace) : bool :=
  filtered (query_instance_id query) (fun v => ws_instance_id w == v)
  && filtered (query_template_id query) (fun v => ws_template_id w == v)
  && filtered (query_member_id query) (fun v => ws_member_id w == v)
  && filtered (query_image_id query) (fun v => ws_image_id w == v)
  && filtered (query_status query) (fun v => ws_status w == v)
  && filtered (query_name query) (icontains (ws_name w)).
Definition workspace_list_page (query : WorkspaceListQuery) : Listing (uuid * Workspace) :=
  table_listing workspaces (workspace_matches query)
    (then_by (by_key N.compare (fun kr => ws_instance_id kr.2))
       (then_by (by_lower ws_name) (then_by (by_column ws_name) by_id))).

(** ** Facts *)
Lemma nodup_rows_where {R} (p : uuid -> R -> bool) (m : gmap uuid R) : NoDup (rows_where p m).
Proof.
  unfold rows_where. apply NoDup_ListNoDup, List.NoDup_filter, NoDup_ListNoDup, NoDup_map_to_list.
Qed.

Lemma rows_where_id {R} (p : uuid -> R -> bool) (m : gmap uuid R) kr kr' :
  kr ∈ rows_where p m -> kr' ∈ rows_where p m -> kr.1 = kr'.1 -> kr = kr'.
Proof.
  destruct kr as [k r], kr' as [k' r'].
  intros [H _]%elem_of_rows_where [H' _]%elem_of_rows_where E. cbn in E. subst. congruence.
Qed.

Lemma nodup_omap {A B} (f : A -> option B) (g : B -> A) (l : list A) :
  (forall a b, f a = Some b -> g b = a) -> NoDup l -> NoDup (omap f l).
Proof.
  intros Hg. induction l as [|a l IH]; cbn; [constructor |]. intros [Ha Hl]%NoDup_cons.
  destruct (f a) as [b|] eqn:E; [| by apply IH]. apply NoDup_cons. split; [| by apply IH].
  intros (a' & Ha' & E')%list_elem_of_omap. apply Ha. rewrite <- (Hg _ _ E). by rewrite (Hg _ _ E').
Qed.

Lemma nodup_repeat {A B} (f : A -> list B) (l : list A) :
  (forall a, List.length (f a) <= 1) -> NoDup l -> NoDup (flat_map (fun a => map (fun _ => a) (f a)) l).
Proof.
  intros Hf. induction l as [|a l IH]; cbn; [constructor |]. intros [Ha Hl]%NoDup_cons.
  apply NoDup_app. split_and!; [| | by apply IH].
  - specialize (Hf a). destruct (f a) as [|b [|]]; cbn in *; [constructor | by apply NoDup_singleton | lia].
  - intros x Hx Hin. rewrite list_elem_of_In, in_map_iff in Hx. destruct Hx as (b & -> & _).
    rewrite list_elem_of_In, in_flat_map in Hin. destruct Hin as (y & Hy & Hin).
    rewrite in_map_iff in Hin. destruct Hin as (b' & -> & _). by rewrite <- list_elem_of_In in Hy.
Qed.

Lemma at_most_one_row {R} (p : uuid -> R -> bool) (m : gmap uuid R) :
  (forall i j r r', m !! i = Some r -> m !! j = Some r' -> p i r = true -> p j r' = true -> i = j) ->
  List.length (rows_where p m) <= 1.
Proof.
  intros Hp. pose proof (nodup_rows_where p m) as Hn.
  destruct (rows_where p m) as [|a [|b l]] eqn:E; cbn; [lia | lia |]. exfalso.
  assert (Ha : a ∈ rows_where p m) by (rewrite E; left).
  assert (Hb : b ∈ rows_where p m) by (rewrite E; right; left).
  apply NoDup_cons in Hn as [Hn _]. apply Hn.
  assert (a = b) as ->; [| left]. eapply rows_where_id; [done | done |].
  destruct a as [i r], b as [j r']. apply elem_of_rows_where in Ha as [], Hb as []. by eapply Hp.
Qed.

(** The rows of a listing are distinct, its order is an order that tells them apart, and the count
    statement counts them. *)
Record WellOrdered {R} (l : Listing R) : Prop := {
  well_ordered : forall d, Ordering (listing_order l d);
  well_counted : forall d, Integrity d -> listing_count l d = List.length (listing_rows l d);
  well_distinct : forall d, Integrity d -> NoDup (listing_rows l d);
  well_separated : forall d a b, Integrity d -> a ∈ listing_rows l d -> b ∈ listing_rows l d ->
    listing_order l d a b = Eq -> a = b
}.

(** All the pages of a listing, and what they are together: the rows of the listing, each once,
    in strictly ascending order. *)
Definition all_pages {R} (l : Listing R) (n : nat) (d : Store) : list R :=
  List.concat (map (fun p => (list_page l p n d).1) (seq 1 (pages_of (listing_count l d) n))).
Definition Paged {R} (l : Listing R) : Prop :=
  forall d n, Integrity d -> n <> 0 ->
    (forall r, r ∈ all_pages l n d <-> r ∈ listing_rows l d) /\
    StronglySorted (fun a b => listing_order l d a b = Lt) (all_pages l n d) /\
    (forall p, (list_page l p n d).2 = List.length (all_pages l n d)) /\
    (forall p, pages_of (listing_count l d) n < p -> (list_page l p n d).1 = []).

Lemma well_ordered_paged {R} (l : Listing R) : WellOrdered l -> Paged l.
Proof.
  intros [Ho Hc Hn Hs] d n Hd Hz. specialize (Ho d).
  assert (Hl : List.length (order_by (listing_order l d) (listing_rows l d)) = listing_count l d)
    by (rewrite order_by_permutation; symmetry; by apply Hc).
  assert (Hall : all_pages l n d = order_by (listing_order l d) (listing_rows l d)).
  { unfold all_pages, list_page. cbn. rewrite <- Hl. by apply slices_concat. }
  rewrite Hall. split_and!.
  - intros r. by rewrite order_by_permutation.
  - apply order_by_strict; [exact Ho | by apply Hn |]. intros a b. by apply Hs.
  - intros p. cbn. by rewrite Hl.
  - intros p Hp. unfold list_page; cbn. apply slice_beyond; [done |]. by rewrite Hl.
Qed.

Lemma by_id_eq {R} (a b : uuid * R) : by_id a b = Eq -> a.1 = b.1.
Proof. unfold by_id, by_key. apply N.compare_eq_iff. Qed.

(** [order_eq H] takes the equality of two rows under an order down to their last keys. *)
Ltac order_eq H := repeat (apply then_by_eq in H; destruct H as [_ H]).

Lemma table_well_ordered {R} (table : Store -> gmap uuid R) p cmp :
  Ordering cmp -> (forall a b, cmp a b = Eq -> a.1 = b.1) ->
  WellOrdered (table_listing table p cmp).
Proof.
  intros Ho Hid. split; cbn; [done | done | intros; apply nodup_rows_where |].
  intros d a b _ Ha Hb E. eapply rows_where_id; [exact Ha | exact Hb | by apply Hid].
Qed.

Lemma instance_rows_sub application b d kr :
  kr ∈ instance_rows application b d -> instances d !! kr.1 = Some kr.2.
Proof.
  destruct kr as [k r]. unfold instance_rows. destruct b as [b|].
  - rewrite list_elem_of_In, in_flat_map. intros (x & Hx & Hin).
    apply in_map_iff in Hin as (y & -> & _). rewrite <- list_elem_of_In in Hx.
    by apply elem_of_rows_where in Hx as [Hx _].
  - by intros [Hx _]%elem_of_rows_where.
Qed.

Lemma instance_list_well_ordered application b : WellOrdered (instance_list application b).
Proof.
  split; cbn; [intros; unfold by_column, by_id; apply _ | done | |].
  - intros d (_ & (_ & _ & _ & _ & _ & Hu & _) & _). unfold instance_rows. destruct b as [b|];
      [| apply nodup_rows_where].
    apply nodup_repeat; [| apply nodup_rows_where]. intros [k r]. cbn. apply at_most_one_row.
    intros i j a a' Hi Hj Hp Hp'. bool_hyps. eapply (unique_lookup _ _ i j a a' Hu Hi Hj); [| done].
    congruence.
  - intros d [k r] [k' r'] _ Ha Hb E. order_eq E. apply by_id_eq in E. cbn in E. subst k'.
    apply instance_rows_sub in Ha, Hb. cbn in *. congruence.
Qed.

Lemma database_list_well_ordered name : WellOrdered (database_list_page name).
Proof.
  split; cbn.
  - intros; unfold usage_order; apply _.
  - intros d _. unfold usages. by rewrite length_map.
  - intros d _. unfold usages.
    match goal with |- NoDup (map ?f ?l) => change (NoDup (f <$> l)) end.
    apply NoDup_fmap_2; [| apply nodup_rows_where]. by intros x y [= E _].
  - intros d a b _ Ha Hb E. unfold usage_order in E. order_eq E.
    apply N.compare_eq_iff in E. unfold usages in *.
    rewrite list_elem_of_In, in_map_iff in Ha, Hb.
    destruct Ha as (x & <- & Hx), Hb as (y & <- & Hy). rewrite <- list_elem_of_In in Hx, Hy.
    unfold usage_id in E; cbn in E. by rewrite (rows_where_id _ _ _ _ Hx Hy E).
Qed.

Lemma with_template_some d ka x :
  with_template d ka = Some x -> x.1 = ka /\ templates d !! asg_template_id ka.2 = Some x.2.
Proof.
  unfold with_template. destruct (templates d !! asg_template_id ka.2); cbn; [| done].
  by intros [= <-].
Qed.

Lemma assignment_list_well_ordered i : WellOrdered (assignment_listing i).
Proof.
  split; cbn.
  - intros; unfold assignment_order; apply _.
  - intros d (_ & _ & Hr). assert (Ha : References (fun r => Some (asg_template_id r)) (templates d) (assignments d))
      by apply Hr.
    assert (Hall : forall l, (forall ka, ka ∈ l -> assignments d !! ka.1 = Some ka.2) ->
              List.length l = List.length (omap (with_template d) l)).
    { induction l as [|ka l IH]; intros Hl; [done |]. cbn.
      specialize (Ha ka.1 ka.2 (Hl ka ltac:(left))). cbn in Ha. destruct Ha as [t Ht].
      unfold with_template at 1. rewrite Ht. cbn. f_equal. apply IH. intros. apply Hl. by right. }
    apply Hall. intros [k a] Hin. by apply elem_of_rows_where in Hin as [? _].
  - intros d _. apply (nodup_omap _ fst); [| apply nodup_rows_where].
    intros a b H. by apply with_template_some in H as [? _].
  - intros d a b _ Ha Hb E. unfold assignment_order in E. order_eq E. apply N.compare_eq_iff in E.
    apply list_elem_of_omap in Ha as (x & Hx & Ha), Hb as (y & Hy & Hb).
    apply with_template_some in Ha as [Ha Ht], Hb as [Hb Ht']. destruct a as [a t], b as [b t'].
    cbn in *. subst. assert (x = y) as -> by (by eapply rows_where_id). congruence.
Qed.

Ltac table_listing_ordered :=
  apply table_well_ordered;
  [unfold by_lower, by_column, by_id; apply _ | intros a b E; order_eq E; by apply by_id_eq].

Lemma member_listing_well_ordered i : WellOrdered (member_listing i).
Proof. table_listing_ordered. Qed.
Lemma template_list_well_ordered name : WellOrdered (template_list name).
Proof. unfold template_list, template_order. table_listing_ordered. Qed.
Lemma image_listing_well_ordered t : WellOrdered (image_listing t).
Proof. table_listing_ordered. Qed.
Lemma parameter_listing_well_ordered t : WellOrdered (parameter_listing t).
Proof. table_listing_ordered. Qed.
Lemma workspace_list_well_ordered query : WellOrdered (workspace_list_page query).
Proof. table_listing_ordered. Qed.

(** C34: The eight paginated lists neither lose nor repeat a row: in a consistent database the
    pages 1 to ceil(total / page_size) of a list hold together exactly the rows of its condition,
    each once, in strictly ascending order of its sort keys; every page reports their number as
    the total; and later pages are empty. *)
Theorem lists_are_paged :
  (forall application b, Paged (instance_list application b)) /\
  (forall name, Paged (database_list_page name)) /\
  (forall i, Paged (member_listing i)) /\
  (forall name, Paged (template_list name)) /\
  (forall t, Paged (image_listing t)) /\
  (forall t, Paged (parameter_listing t)) /\
  (forall i, Paged (assignment_listing i)) /\
  (forall query, Paged (workspace_list_page query)).
Proof.
  split_and!; intros; apply well_ordered_paged;
    eauto using instance_list_well_ordered, database_list_well_ordered,
      member_listing_well_ordered, template_list_well_ordered, image_listing_well_ordered,
      parameter_listing_well_ordered, assignment_list_well_ordered, workspace_list_well_ordered.
Qed.
