(* ===== verification/Config.v ===== *)
(** * Config: runtime settings and public URLs (config.py, utils/instance_urls.py) *)
From S2P Require Import Prelude Text Models Store Instances Members.
From Stdlib Require Import Ascii String.
Open Scope string_scope.

(** The settings that the modelled code reads. Durations are in one unit, and integers: the
    poll intervals are floats in the source. *)
Record Settings := mkSettings {
  crypto_key : option string;
  instance_base_domain : option string;
  argocd_region : option string;
  database_schema : option string;
  default_admins : string;
  job_stale_after_seconds : Z;
  template_sync_poll_interval_seconds : Z;
  template_sync_timeout_seconds : Z;
  workspace_build_poll_interval_seconds : Z;
  workspace_build_timeout_seconds : Z;
  workspace_stop_poll_interval_seconds : Z;
  workspace_stop_timeout_seconds : Z;
  workspace_delete_poll_interval_seconds : Z;
  workspace_delete_timeout_seconds : Z;
  argocd_url : option string;
  argocd_token : option string;
  argocd_skip_ssl_verify : bool;
  argocd_application_prefix : option string;
  argocd_repository_url : option string;
  argocd_repository_path : option string;
  argocd_target_revision : option string;
  argocd_project_name : option string;
  argocd_destination_name : option string;
  argocd_additional_values : option string;
  cyberark_app_id : option string;
  cyberark_cert_name : option string;
  cyberark_key_name : option string;
  cyberark_safe : option string;
  database_url : string;
  job_retry_interval_seconds : Z;
  scheduler_timezone : string;
  allow_unauthenticated_api : bool;
  oidc_issuer_url : option string;
  oidc_client_id : option string;
  oidc_authorization_url : option string;
  oidc_token_url : option string;
  oidc_scopes : string;
  metrics_host : string;
  metrics_port : Z
}.

(** ** DNS names *)
Definition label_char (c : ascii) : bool := in_range 97 122 c || in_range 48 57 c.
Definition label_inner (c : ascii) : bool := label_char c || Ascii.eqb c "-".

(** [^[a-z0-9](?:[a-z0-9-]{0,61}[a-z0-9])?$] *)
Definition dns_label (l : list ascii) : bool :=
  match l with
  | [] => false
  | c :: l' =>
      label_char c
      && match last l' with
         | None => true
         | Some z => label_char z && forallb label_inner l' && Nat.leb (List.length l') 62
         end
  end.

(** [s.split(sep)] *)
Fixpoint split_from (sep : ascii) (current : list ascii) (l : list ascii) : list (list ascii) :=
  match l with
  | [] => [reverse current]
  | c :: l' =>
      if Ascii.eqb c sep then reverse current :: split_from sep [] l'
      else split_from sep (c :: current) l'
  end.
Definition split (sep : ascii) (s : string) : list (list ascii) := split_from sep [] (chars s).
(** The labels of a dotted name. *)
Definition labels (s : string) : list (list ascii) := split "." s.

(** Two labels at least, each followed by a dot but the last. *)
Definition dns_name (s : string) : bool :=
  forallb dns_label (labels s) && Nat.leb 2 (List.length (labels s)).

Definition MAX_DNS_NAME_LENGTH : nat := 253.
Definition MAX_INSTANCE_BASE_DOMAIN_LENGTH : nat := MAX_DNS_NAME_LENGTH - INSTANCE_SLUG_LENGTH - 1.

Definition require_instance_base_domain (settings : Settings) : Exn + string :=
  match instance_base_domain settings with
  | None => inl (ValueError "CODER_MANAGER_INSTANCE_BASE_DOMAIN is required")
  | Some raw =>
      let base_domain := str_lower (str_strip raw) in
      if base_domain == "" then inl (ValueError "CODER_MANAGER_INSTANCE_BASE_DOMAIN is required")
      else if Nat.ltb MAX_INSTANCE_BASE_DOMAIN_LENGTH (py_len base_domain)
              || negb (dns_name base_domain)
      then inl (ValueError "CODER_MANAGER_INSTANCE_BASE_DOMAIN must be a valid DNS name")
      else inr base_domain
  end.

Definition require_argocd_region (settings : Settings) : Exn + string :=
  match argocd_region settings with
  | None => inl (ValueError "CODER_MANAGER_ARGOCD_REGION is required")
  | Some raw =>
      if str_strip raw == "" then inl (ValueError "CODER_MANAGER_ARGOCD_REGION is required")
      else
        let region := str_lower (str_strip raw) in
        if dns_label (chars region) then inr region
        else inl (ValueError "CODER_MANAGER_ARGOCD_REGION must be a valid DNS label")
  end.

Definition require_database_schema (settings : Settings) : Exn + string :=
  match database_schema settings with
  | None => inl (ValueError "CODER_MANAGER_DATABASE_SCHEMA is required")
  | Some s =>
      if str_strip s == "" then inl (ValueError "CODER_MANAGER_DATABASE_SCHEMA is required")
      else inr s
  end.

(** ** Public URLs ([InstancePublicUrlConfig]) *)
Definition from_settings (settings : Settings) : Exn + string :=
  require_instance_base_domain settings.
Definition url_for (base_domain slug : string) : string :=
  "https://" ++ slug ++ "." ++ base_domain.

(** ** Default administrators (domains/argocd/config.py) *)
Definition ADMIN_USERNAME : string := "admin".

Definition parse_default_admins (raw_value : string) : Exn + list string :=
  if str_strip raw_value == "" then inr []
  else
    let raw_admins := map unchars (split "," raw_value) in
    if existsb (fun admin => str_strip admin == "") raw_admins then
      inl (ArgoCdConfigurationError "CODER_MANAGER_DEFAULT_ADMINS contains an empty username")
    else
      let admins := remove_dups (map (fun admin => str_lower (str_strip admin)) raw_admins) in
      if existsb (fun admin => contains CR admin || contains LF admin) admins then
        inl (ArgoCdConfigurationError
               "CODER_MANAGER_DEFAULT_ADMINS contains a username with line breaks")
      else if existsb (fun admin => Nat.ltb MAX_USERNAME_LENGTH (py_len admin)) admins then
        inl (ArgoCdConfigurationError
               "CODER_MANAGER_DEFAULT_ADMINS contains a username longer than 255 characters")
      else inr (sort_by String.leb admins).
