(* ===== verification/Runtime.v ===== *)
(** * Runtime: the database engine of a worker process, and the schedule of the workers
    (worker_database.py, database.py, celery_app.py)

    SQLAlchemy parses and renders URLs and creates engines; these are parameters. What is modelled
    is which engine exists when, with which settings, and which tasks are scheduled. *)
From S2P Require Import Prelude Text Models Store Config.
From Stdlib Require Import Ascii String.
Open Scope string_scope.

(** What an engine is created with. *)
Record EngineConfig := mkEngineConfig {
  engine_url : string;
  (** the options of a libpq connection, or the settings of an asyncpg server *)
  engine_connect_args : list (string * string);
  engine_pool_pre_ping : bool;
  engine_pool : option (Z * Z)
}.

Section Engines.
Context {Url : Type}.
(** [make_url(text)], or its exception; the parts of a URL that are looked at; a URL with another
    driver, rendered with its password. *)
Variables (make_url : string -> Exn + Url) (drivername get_backend_name : Url -> string).
Variable render_with_driver : Url -> string -> string.
(** Whether [create_engine] accepts a configuration. *)
Variable create_engine : EngineConfig -> option Exn.
Variable settings : Settings.

Definition _SYNC_DRIVERS : list (string * string) :=
  [("postgresql+asyncpg", "postgresql+psycopg"); ("sqlite+aiosqlite", "sqlite+pysqlite")].
Definition sync_driver (driver : string) : string :=
  default driver (snd <$> List.find (fun entry => entry.1 == driver) _SYNC_DRIVERS).
Definition derive_sync_database_url (database_url : string) : Exn + string :=
  url ← make_url database_url;
  inr (render_with_driver url (sync_driver (drivername url))).

(** The engine of the API (database.py). *)
Definition api_engine : Exn + EngineConfig :=
  schema ← require_database_schema settings;
  inr (mkEngineConfig (database_url settings) [("search_path", schema)] true None).

(** The configuration of the engine of a worker: one connection at most. *)
Definition worker_engine_config : Exn + EngineConfig :=
  url ← make_url (database_url settings);
  connect_args ← (if get_backend_name url == "postgresql"
                  then schema ← require_database_schema settings;
                       inr [("options", "-csearch_path=" ++ schema)]
                  else inr []);
  sync_url ← derive_sync_database_url (database_url settings);
  inr (mkEngineConfig sync_url connect_args true (Some (1, 0)%Z)).

(** ** The engine of a worker process *)

(** An engine is known by the number of engines created before it; a session maker, by its engine.
    [created] and [disposed] record what has happened to engines. *)
Record WorkerDatabase := mkWorkerDatabase {
  _worker_engine : option nat;
  _worker_session_maker : option nat;
  created : list EngineConfig;
  disposed : list nat
}.
Definition new_worker_database : WorkerDatabase := mkWorkerDatabase None None [] [].

Definition initialize_worker_database (w : WorkerDatabase) : Exn + WorkerDatabase :=
  match _worker_engine w with
  | Some _ => inr w
  | None =>
      config ← worker_engine_config;
      match create_engine config with
      | Some e => inl e
      | None =>
          let engine := List.length (created w) in
          inr (mkWorkerDatabase (Some engine) (Some engine) (created w ++ [config]) (disposed w))
      end
  end.
(** The session maker, with the state after the call. *)
Definition get_worker_session_maker (w : WorkerDatabase) : Exn + (nat * WorkerDatabase) :=
  w ← (if is_none (_worker_session_maker w) then initialize_worker_database w else inr w);
  match _worker_session_maker w with
  | Some maker => inr (maker, w)
  | None => inl (RuntimeError "worker database initialization did not create a session factory")
  end.
Definition shutdown_worker_database (w : WorkerDatabase) : WorkerDatabase :=
  mkWorkerDatabase None None (created w)
    match _worker_engine w with
    | Some engine => app (disposed w) [engine]
    | None => disposed w
    end.

(** ** The calls of a process: from the signals of the pool, and from every session of a task *)
Inductive DatabaseCall := Initialize | GetSessionMaker | Shutdown.
Definition call (c : DatabaseCall) (w : WorkerDatabase) : WorkerDatabase :=
  match c with
  | Initialize => match initialize_worker_database w with inr w' => w' | inl _ => w end
  | GetSessionMaker => match get_worker_session_maker w with inr (_, w') => w' | inl _ => w end
  | Shutdown => shutdown_worker_database w
  end.

(** The engines are disposed in the order of their creation, each once, all but the current one,
    to which the session maker is bound. *)
Definition database_well (w : WorkerDatabase) : Prop :=
  _worker_session_maker w = _worker_engine w /\
  Forall (fun config => worker_engine_config = inr config) (created w) /\
  match _worker_engine w with
  | Some engine => List.length (created w) = S engine /\ disposed w = seq 0 engine
  | None => disposed w = seq 0 (List.length (created w))
  end.

Lemma initialize_well w w' :
  initialize_worker_database w = inr w' -> database_well w ->
  database_well w' /\ is_Some (_worker_engine w').
Proof.
  unfold initialize_worker_database. intros Hw (Hm & Hc & He).
  destruct (_worker_engine w) as [engine |] eqn:E.
  { injection Hw as <-. rewrite E. split; [split_and!; try done; by rewrite E | by eexists]. }
  apply except_bind_inr in Hw as (config & Hconfig & Hw).
  destruct (create_engine config); [done |]. injection Hw as <-.
  split; [| by eexists]. split_and!; cbn; [done | by apply Forall_app_2; [| constructor] |].
  rewrite length_app. cbn. split; [lia | done].
Qed.
Lemma maker_well w maker w' :
  get_worker_session_maker w = inr (maker, w') -> database_well w ->
  database_well w' /\ _worker_engine w' = Some maker.
Proof.
  unfold get_worker_session_maker. intros Hw Hwell. apply except_bind_inr in Hw as (w1 & H1 & H2).
  assert (Hw1 : database_well w1).
  { destruct (is_none _); [by eapply initialize_well | by simplify_eq]. }
  destruct (_worker_session_maker w1) as [m |] eqn:E; simplify_eq. split; [done |].
  by rewrite <- (proj1 Hw1).
Qed.
Lemma call_well c w : database_well w -> database_well (call c w).
Proof.
  intros Hw. destruct c; cbn.
  - destruct (initialize_worker_database w) eqn:E; [done | by eapply initialize_well].
  - destruct (get_worker_session_maker w) as [| [maker w']] eqn:E; [done | by eapply maker_well].
  - destruct Hw as (Hm & Hc & He). split_and!; cbn; [done | done |].
    destruct (_worker_engine w) as [engine |]; [| done]. destruct He as [-> ->].
    by rewrite seq_S.
Qed.

(** A process never has more than one engine, and leaks none: after any calls, in any order and
    although some of them fail, every engine created so far but the current one has been disposed,
    exactly once; all of them were created with the settings; and a session maker that is got is
    the one of the current engine. *)
Lemma worker_engine_unique calls :
  let w := foldl (fun w c => call c w) new_worker_database calls in
  database_well w /\
  forall maker w', get_worker_session_maker w = inr (maker, w') -> _worker_engine w' = Some maker.
Proof.
  intros w. assert (Hw : database_well w).
  { subst w. assert (Hn : database_well new_worker_database) by done. revert Hn.
    generalize new_worker_database. induction calls as [| c calls IH]; intros w Hw; [done |].
    apply IH, call_well, Hw. }
  split; [done |]. intros maker w' H. by eapply maker_well.
Qed.

(** ** The schedule of Celery Beat (celery_app.py) *)
Inductive Schedule := Every (seconds : Z) | Crontab (minute hour : Z).
Record ScheduleEntry := mkEntry {
  entry_name : string;
  entry_task : string;
  entry_schedule : Schedule;
  entry_ignore_result : bool
}.
Definition beat_schedule : list ScheduleEntry :=
  [mkEntry "retry-job-executions" "coder_manager.retry_job_executions"
     (Every (job_retry_interval_seconds settings)) true;
   mkEntry "check-instance-states" "coder_manager.check_instance_states" (Every 3600) true;
   mkEntry "dispatch-daily-workspace-stops" "coder_manager.dispatch_daily_workspace_stops"
     (Crontab 0 0) true].

(** [validate_scheduler_timezone]: [ZoneInfo(value)] finds the key, or not. *)
Definition validate_scheduler_timezone (known_zone : string -> bool) (value : string) : option string :=
  if known_zone value then Some value else None.
(** [ValidateInstancePublicUrlConfig.start]: a worker starts only with a public URL configuration. *)
Definition validate_public_url_config : option Exn :=
  match from_settings settings with inl e => Some e | inr _ => None end.
End Engines.
