(* ===== verification/Metrics.v ===== *)
(** * Metrics: the Prometheus instruments of the API and of the Celery processes (metrics.py, and
    the signal handlers of celery_app.py)

    An instrument is the table of its series: counters, gauges, and the observations of a
    histogram, oldest first. The exposition format, the collectors of the process and the sockets
    are the library's; binding a listener is a parameter. Times are integers. *)
From S2P Require Import Prelude Order Text Models Store Config Schemas.
From stdpp Require Import pretty.
From Stdlib Require Import Ascii String.
Open Scope string_scope.

(** ** Instruments *)
Section Instruments.
Context {K : Type} `{Countable K}.

(** [labels(key)], which creates a series at zero. *)
Definition labels {V} (zero : V) (key : K) (m : gmap K V) : gmap K V :=
  partial_alter (fun o => Some (default zero o)) key m.
Definition inc (key : K) (m : gmap K Z) : gmap K Z :=
  partial_alter (fun o => Some (default 0%Z o + 1)%Z) key m.
Definition dec (key : K) (m : gmap K Z) : gmap K Z :=
  partial_alter (fun o => Some (default 0%Z o - 1)%Z) key m.
Definition observe (key : K) (value : Z) (m : gmap K (list Z)) : gmap K (list Z) :=
  partial_alter (fun o => Some (app (default [] o) [value])) key m.
(** What a series shows; one that does not exist counts as zero. *)
Definition value (key : K) (m : gmap K Z) : Z := default 0%Z (m !! key).
Definition observations (key : K) (m : gmap K (list Z)) : list Z := default [] (m !! key).
End Instruments.

(** ** The metrics listener *)

(** What is exposed: the registry of the process itself, or the files of all its children. *)
Inductive Exposed := OwnRegistry | MultiProcess (path : string).
Record MetricsServer := mkServer {
  server_port : Z;
  exposed : Exposed;
  serving : bool;
  listening : bool;
  _stopped : bool
}.

Section Listener.
(** The socket that a listener on a host and a port gets: the port it is bound to, or [OSError]. *)
Variable bind : string -> Z -> option Z.

Definition new_server (host : string) (port : Z) (registry : Exposed) : Exn + MetricsServer :=
  match bind host port with
  | Some bound => inr (mkServer bound registry false true false)
  | None => inl OSError
  end.
Definition start (server : MetricsServer) : MetricsServer :=
  mkServer (server_port server) (exposed server) true (listening server) (_stopped server).
Definition stop (server : MetricsServer) : MetricsServer :=
  if _stopped server then server else mkServer (server_port server) (exposed server) false false true.
(** The server is also stopped at the exit of the process. *)
Definition start_metrics_server (host : string) (port : Z) (registry : Exposed)
    : Exn + MetricsServer :=
  server ← new_server host port registry;
  inr (start server).
End Listener.

(** [do_GET] of the handler: what is answered to a request target; [None] when it is no URL. *)
Inductive Scrape := Health | Exposition | NotFound.
Definition do_GET (netloc_ok : list ascii -> bool) (target : string) : option Scrape :=
  match urlsplit netloc_ok target with
  | None => None
  | Some parts =>
      let path := unchars (url_path parts) in
      Some (if path == "/health" then Health else if path != "/metrics" then NotFound else Exposition)
  end.

(** ** The API *)
Record ApiMetrics := mkApiMetrics {
  api_up : Z;
  requests : gmap (string * string * string) Z;
  duration : gmap (string * string) (list Z);
  in_progress : gmap string Z
}.
Definition new_api_metrics : ApiMetrics := mkApiMetrics 1 ∅ ∅ ∅.

(** What the wrapped application does with a request: the messages that it sends, the path of the
    route that it leaves in the scope, and how it ends. *)
Inductive Message := ResponseStart (status : Z) | OtherMessage.
Record AppRun := mkAppRun {
  messages : list Message;
  route_path : option string;
  app_outcome : Exn + unit
}.

(** [observe_status]: the last status sent, or 500. *)
Definition observe_status (status_code : Z) (message : Message) : Z :=
  match message with ResponseStart status => status | OtherMessage => status_code end.
Definition status_of (sent : list Message) : Z := foldl observe_status 500%Z sent.
Definition route_template (run : AppRun) : string := default "unmatched" (route_path run).

(** [__call__] before the application runs and in its [finally]. *)
Definition begin_request (method : string) (m : ApiMetrics) : ApiMetrics :=
  mkApiMetrics (api_up m) (requests m) (duration m) (inc method (in_progress m)).
Definition end_request (method : string) (run : AppRun) (elapsed : Z) (m : ApiMetrics) : ApiMetrics :=
  let route := route_template run in
  mkApiMetrics (api_up m)
    (inc (method, route, pretty (status_of (messages run))) (requests m))
    (observe (method, route) elapsed (duration m))
    (dec method (in_progress m)).
Definition middleware (scope_type method : string) (run : AppRun) (elapsed : Z) (m : ApiMetrics)
    : ApiMetrics * (Exn + unit) :=
  if scope_type != "http" then (m, app_outcome run)
  else (end_request method run elapsed (begin_request method m), app_outcome run).

(** ** Celery *)
Inductive CeleryComponent := WorkerComponent | BeatComponent.
#[export] Instance celery_component_eq_dec : EqDecision CeleryComponent.
Proof. solve_decision. Defined.
Definition component_name (c : CeleryComponent) : string :=
  match c with WorkerComponent => "worker" | BeatComponent => "beat" end.
Definition _CELERY_TASK_STATES : list string := ["failure"; "retry"; "success"].

Record CeleryMetrics := mkCelery {
  multiprocess_directory : option string;
  _server : option MetricsServer;
  _component : option CeleryComponent;
  _started_tasks : gmap string Z;
  up : option (gmap string Z);
  worker_tasks : option (gmap (string * string) Z);
  worker_duration : option (gmap string (list Z));
  worker_in_progress : option (gmap string Z);
  beat_published : option (gmap string Z)
}.
#[export] Instance eta_CeleryMetrics : Eta CeleryMetrics := fun m =>
  mkCelery (multiprocess_directory m) (_server m) (_component m) (_started_tasks m) (up m)
    (worker_tasks m) (worker_duration m) (worker_in_progress m) (beat_published m).
#[export] Instance setter_server : Setter _server. Proof. derive_setter _server. Defined.
#[export] Instance setter_component : Setter _component. Proof. derive_setter _component. Defined.
#[export] Instance setter_started : Setter _started_tasks. Proof. derive_setter _started_tasks. Defined.
#[export] Instance setter_up : Setter up. Proof. derive_setter up. Defined.
#[export] Instance setter_tasks : Setter worker_tasks. Proof. derive_setter worker_tasks. Defined.
#[export] Instance setter_worker_duration : Setter worker_duration.
Proof. derive_setter worker_duration. Defined.
#[export] Instance setter_worker_in_progress : Setter worker_in_progress.
Proof. derive_setter worker_in_progress. Defined.
#[export] Instance setter_published : Setter beat_published. Proof. derive_setter beat_published. Defined.

(** A new process, with the value of [PROMETHEUS_MULTIPROC_DIR]. *)
Definition new_celery_metrics (directory : option string) : CeleryMetrics :=
  mkCelery directory None None ∅ None None None None None.

Definition _create_component_metrics (component : CeleryComponent) (m : CeleryMetrics)
    : CeleryMetrics :=
  match component with
  | WorkerComponent =>
      m <| up := Some ∅ |> <| worker_tasks := Some ∅ |> <| worker_duration := Some ∅ |>
        <| worker_in_progress := Some ∅ |>
  | BeatComponent => m <| up := Some ∅ |> <| beat_published := Some ∅ |>
  end.

(** The series of one expected task. *)
Definition expect_states (task_name : string) (tasks : gmap (string * string) Z)
    : gmap (string * string) Z :=
  foldl (fun tasks state => labels 0%Z (task_name, state) tasks) tasks _CELERY_TASK_STATES.
Definition coder_manager_tasks (task_names : list string) : list string :=
  sort_by String.leb (List.filter (starts_with "coder_manager.") task_names).

Definition initialize_component (component : CeleryComponent) (task_names : list string)
    (m : CeleryMetrics) : Exn + CeleryMetrics :=
  if bool_decide (_component m <> None /\ _component m <> Some component) then
    inl (RuntimeError ("Celery metrics already initialized for "
                       ++ match _component m with Some c => component_name c | None => "" end))
  else
    let m := if is_none (_component m) then _create_component_metrics component m else m in
    let m := m <| _component := Some component |> in
    match up m with
    | None => inl (RuntimeError "Celery availability metric is unavailable")
    | Some series =>
        let m := m <| up := Some (<[component_name component := 1%Z]> series) |> in
        match component with
        | BeatComponent => inr m
        | WorkerComponent =>
            match worker_tasks m, worker_duration m, worker_in_progress m with
            | Some tasks, Some durations, Some in_progress =>
                let names := coder_manager_tasks task_names in
                inr (m <| worker_tasks := Some (foldl (fun t name => expect_states name t) tasks names) |>
                       <| worker_duration := Some (foldl (fun d name => labels [] name d) durations names) |>
                       <| worker_in_progress :=
                            Some (foldl (fun g name => <[name := 0%Z]> g) in_progress names) |>)
            | _, _, _ => inl (RuntimeError "Celery worker metrics are unavailable")
            end
        end
    end.

Definition task_started (task_id task_name : string) (now : Z) (m : CeleryMetrics)
    : Exn + CeleryMetrics :=
  if bool_decide (_component m <> Some WorkerComponent) then inr m
  else
    match worker_in_progress m with
    | None => inl (RuntimeError "Celery worker in-progress metric is unavailable")
    | Some in_progress =>
        inr (m <| _started_tasks := <[task_id := now]> (_started_tasks m) |>
               <| worker_in_progress := Some (inc task_name in_progress) |>)
    end.

(** [(state or "unknown").lower()] *)
Definition normalized_state (state : option string) : string :=
  match state with None | Some "" => "unknown" | Some state => str_lower state end.
Definition task_finished (task_id task_name : string) (state : option string) (now : Z)
    (m : CeleryMetrics) : Exn + CeleryMetrics :=
  if bool_decide (_component m <> Some WorkerComponent) then inr m
  else
    match _started_tasks m !! task_id with
    | None => inr m
    | Some started_at =>
        let m := m <| _started_tasks := delete task_id (_started_tasks m) |> in
        match worker_tasks m, worker_duration m, worker_in_progress m with
        | Some tasks, Some durations, Some in_progress =>
            inr (m <| worker_in_progress := Some (dec task_name in_progress) |>
                   <| worker_tasks := Some (inc (task_name, normalized_state state) tasks) |>
                   <| worker_duration := Some (observe task_name (now - started_at)%Z durations) |>)
        | _, _, _ => inl (RuntimeError "Celery worker metrics are unavailable")
        end
    end.

Definition task_published (task_name : string) (m : CeleryMetrics) : CeleryMetrics :=
  match _component m, beat_published m with
  | Some BeatComponent, Some published =>
      if starts_with "coder_manager." task_name
      then m <| beat_published := Some (inc task_name published) |>
      else m
  | _, _ => m
  end.

Definition exposition_registry (m : CeleryMetrics) : Exposed :=
  match multiprocess_directory m with
  | None | Some "" => OwnRegistry
  | Some directory => MultiProcess directory
  end.
Definition start_server (bind : string -> Z -> option Z) (host : string) (port : Z)
    (m : CeleryMetrics) : Exn + CeleryMetrics :=
  match _server m with
  | Some _ => inr m
  | None =>
      server ← start_metrics_server bind host port (exposition_registry m);
      inr (m <| _server := Some server |>)
  end.
(** The metrics, and the server that was stopped. *)
Definition stop_server (m : CeleryMetrics) : CeleryMetrics * option MetricsServer :=
  let m :=
    match _component m, up m with
    | Some component, Some series =>
        m <| up := Some (<[component_name component := 0%Z]> series) |>
    | _, _ => m
    end in
  (m <| _server := None |>, stop <$> _server m).

(** ** The signal handlers of celery_app.py *)
Definition _registered_task_names (tasks : list string) : list string :=
  sort_by String.leb (List.filter (starts_with "coder_manager.") tasks).

(** A signal with the arguments that its handler looks at; the name of a task is [None] when the
    task has no string for a name. *)
Inductive Signal :=
| worker_init
| worker_ready
| worker_shutdown
| beat_init
| after_task_publish (sender : option string)
| task_prerun (task_id task_name : option string) (now : Z)
| task_postrun (task_id task_name state : option string) (now : Z).

Section Signals.
Variables (bind : string -> Z -> option Z) (settings : Settings).
(** The names of all tasks that Celery has loaded. *)
Variable tasks : list string.

Definition handle_signal (signal : Signal) (m : CeleryMetrics) : Exn + CeleryMetrics :=
  match signal with
  | worker_init => initialize_component WorkerComponent (_registered_task_names tasks) m
  | worker_ready =>
      m ← initialize_component WorkerComponent (_registered_task_names tasks) m;
      start_server bind (metrics_host settings) (metrics_port settings) m
  | worker_shutdown => inr (stop_server m).1
  | beat_init =>
      m ← initialize_component BeatComponent [] m;
      start_server bind (metrics_host settings) (metrics_port settings) m
  | after_task_publish sender =>
      inr (match sender with Some sender => task_published sender m | None => m end)
  | task_prerun task_id task_name now =>
      match task_id, task_name with
      | Some task_id, Some task_name => task_started task_id task_name now m
      | _, _ => inr m
      end
  | task_postrun task_id task_name state now =>
      match task_id, task_name with
      | Some task_id, Some task_name => task_finished task_id task_name state now m
      | _, _ => inr m
      end
  end.
End Signals.

(** ** The directory of the multiprocess mode: the names of its files *)
Definition prepare_multiprocess_directory (files : list string) : list string :=
  List.filter (fun file => negb (ends_with ".db" file)) files.
(** The processes whose live gauges are removed. *)
Definition mark_worker_process_dead (directory : option string) (pid : Z) : list (string * Z) :=
  match directory with
  | None | Some "" => []
  | Some directory => [(directory, pid)]
  end.
