(* ===== verification/Program.v ===== *)
(** * Program: workers as programs of sessions and requests

    Between two database sessions a worker talks to other systems, and other processes commit
    sessions of their own. A [prog] is the tree of what a process may do: it runs a session, or
    asks the environment (the clock, the broker, Argo CD, Coder, a managed PostgreSQL server), and
    goes on with the answer or the exception it gets. *)
From S2P Require Import Prelude Text Models Store Registry Execution Ownership Claims.

Section Programs.
(** [Q R]: the requests answered by an [R]. *)
Context {Q : Type -> Type}.

Inductive prog (A : Type) : Type :=
| Done (a : A)
| Fail (e : Exn)
| Session {B : Type} (m : session B) (k : Exn + B -> prog A)
| Ask {R : Type} (q : Q R) (k : Exn + R -> prog A).
Arguments Done {A}.
Arguments Fail {A}.
Arguments Session {A B}.
Arguments Ask {A R}.

(** [p; k]: an exception of [p] skips [k]. *)
Fixpoint bind {A B} (p : prog A) (k : A -> prog B) : prog B :=
  match p with
  | Done a => k a
  | Fail e => Fail e
  | Session m k' => Session m (fun r => bind (k' r) k)
  | Ask q k' => Ask q (fun r => bind (k' r) k)
  end.
#[export] Instance prog_ret : MRet prog := @Done.
#[export] Instance prog_bind : MBind prog := fun A B k p => bind p k.

(** [try: p except Exception as e: h e]. *)
Fixpoint catch {A} (p : prog A) (h : Exn -> prog A) : prog A :=
  match p with
  | Done a => Done a
  | Fail e => h e
  | Session m k => Session m (fun r => catch (k r) h)
  | Ask q k => Ask q (fun r => catch (k r) h)
  end.

Definition returns {A} (r : Exn + A) : prog A := match r with inl e => Fail e | inr a => Done a end.
(** [with session_factory() as session: m]. *)
Definition sess {A} (m : session A) : prog A := Session m returns.
Definition ask {R} (q : Q R) : prog R := Ask q returns.

(** ** Executions

    [Exec Env p d o d']: from the store [d], the process [p] may end with the outcome [o] in the
    store [d'], whatever the answers to its requests, when [Env] says what the other processes
    may commit at any moment. *)
Fixpoint Exec (Env : Store -> Store -> Prop) {A} (p : prog A) (d : Store) (o : Exn + A)
    (d' : Store) : Prop :=
  match p with
  | Done a => o = inr a /\ rtc Env d d'
  | Fail e => o = inl e /\ rtc Env d d'
  | Session m k => exists d1, rtc Env d d1 /\
      Exec Env (k (run_session m d1).1) (run_session m d1).2 o d'
  | Ask q k => exists r, Exec Env (k r) d o d'
  end.

(** ** A handler makes a program executable: it answers requests from the state [W] of the
    environment. *)
Section Run.
Context {W : Type} (handler : forall R, Q R -> W -> (Exn + R) * W).

Fixpoint run {A} (p : prog A) (w : W) (d : Store) : (Exn + A) * W * Store :=
  match p with
  | Done a => (inr a, w, d)
  | Fail e => (inl e, w, d)
  | Session m k => let '(r, d') := run_session m d in run (k r) w d'
  | Ask q k => let '(r, w') := handler _ q w in run (k r) w' d
  end.
End Run.

(** ** Sound programs

    Every session that the program can come to keeps the store sound; what it does after a
    session may depend on what a sound store can answer. *)
Fixpoint sound_prog {A} (p : prog A) : Prop :=
  match p with
  | Done _ | Fail _ => True
  | Session m k => Keeps m /\ forall d, Sound d -> sound_prog (k (run_session m d).1)
  | Ask q k => forall r, sound_prog (k r)
  end.

Lemma sound_bind {A B} (p : prog A) (k : A -> prog B) :
  sound_prog p -> (forall a, sound_prog (k a)) -> sound_prog (bind p k).
Proof.
  intros Hp Hk. induction p as [a | e | B' m k' IH | R q k' IH]; cbn in *; auto.
  destruct Hp as [Hm Hp]. split; auto.
Qed.

Lemma sound_catch {A} (p : prog A) h :
  sound_prog p -> (forall e, sound_prog (h e)) -> sound_prog (catch p h).
Proof.
  intros Hp Hh. induction p as [a | e | B' m k' IH | R q k' IH]; cbn in *; auto.
  destruct Hp as [Hm Hp]. split; auto.
Qed.

Lemma sound_returns {A} (r : Exn + A) : sound_prog (returns r).
Proof. by destruct r. Qed.

Lemma sound_sess {A} (m : session A) : Keeps m -> sound_prog (sess m).
Proof. intros Hm. split; [done |]. intros d _. apply sound_returns. Qed.

(** What follows a session may rely on how a sound store answered it. *)
Lemma sound_session_bind {A B} (m : session A) (k : A -> prog B) :
  Keeps m -> (forall d a d', Sound d -> m d = inr (a, d') -> sound_prog (k a)) ->
  sound_prog (bind (sess m) k).
Proof.
  intros Hm Hk. split; [done |]. intros d Hd. unfold run_session.
  destruct (m d) as [e | [a d']] eqn:E; [done |]. cbn. by eapply Hk.
Qed.

Lemma sound_ask {R} (q : Q R) : sound_prog (ask q).
Proof. intros r. apply sound_returns. Qed.

(** A sound program among others that keep the store sound: so is the store at the end. *)
Lemma rtc_sound (Env : Store -> Store -> Prop) d d' :
  (forall d1 d2, Env d1 d2 -> Sound d1 -> Sound d2) -> rtc Env d d' -> Sound d -> Sound d'.
Proof. intros HEnv H. induction H; eauto. Qed.

Lemma keeps_run_session {A} (m : session A) d :
  Keeps m -> Sound d -> Sound (run_session m d).2 /\ Evolves d (run_session m d).2.
Proof.
  intros Hm Hd. unfold run_session. destruct (m d) as [e | [a d']] eqn:E; cbn.
  - split; [done | by apply evolves_eq].
  - by eapply Hm.
Qed.

Lemma exec_sound Env {A} (p : prog A) d o d' :
  (forall d1 d2, Env d1 d2 -> Sound d1 -> Sound d2) ->
  Exec Env p d o d' -> sound_prog p -> Sound d -> Sound d'.
Proof.
  intros HEnv. revert d. induction p as [a | e | B m k IH | R q k IH]; cbn; intros d.
  - intros [_ H] _. by apply (rtc_sound Env).
  - intros [_ H] _. by apply (rtc_sound Env).
  - intros (d1 & H1 & H2) [Hm Hk] Hd. apply (rtc_sound Env) in H1; [| done | done].
    eapply IH; [exact H2 | by apply Hk |]. by apply keeps_run_session.
  - intros (r & H) Hk Hd. by eapply IH.
Qed.

Lemma run_sound {W} (handler : forall R, Q R -> W -> (Exn + R) * W) {A} (p : prog A) w d :
  sound_prog p -> Sound d -> Sound (run handler p w d).2.
Proof.
  revert w d. induction p as [a | e | B m k IH | R q k IH]; cbn; intros w d; [done | done | |].
  - intros [Hm Hk] Hd. pose proof (Hk d Hd) as Hk'.
    destruct (keeps_run_session m d Hm Hd) as [Hd' _].
    destruct (run_session m d) as [r d']. by apply IH.
  - intros Hk Hd. destruct (handler R q w) as [r w']. by apply IH.
Qed.

Lemma run_bind {W} (handler : forall R, Q R -> W -> (Exn + R) * W) {A B} (p : prog A)
    (k : A -> prog B) w d :
  run handler (bind p k) w d
  = let '(o, w', d') := run handler p w d in
    match o with inl e => (inl e, w', d') | inr a => run handler (k a) w' d' end.
Proof.
  revert w d. induction p as [a | e | C m k' IH | R q k' IH]; cbn; intros w d; [done | done | |].
  - destruct (run_session m d) as [r d']. apply IH.
  - destruct (handler R q w) as [r w']. apply IH.
Qed.

Lemma run_catch {W} (handler : forall R, Q R -> W -> (Exn + R) * W) {A} (p : prog A) h w d :
  run handler (catch p h) w d
  = let '(o, w', d') := run handler p w d in
    match o with inl e => run handler (h e) w' d' | inr a => (inr a, w', d') end.
Proof.
  revert w d. induction p as [a | e | C m k' IH | R q k' IH]; cbn; intros w d; [done | done | |].
  - destruct (run_session m d) as [r d']. apply IH.
  - destruct (handler R q w) as [r w']. apply IH.
Qed.

Lemma run_sess_inr {W} (handler : forall R, Q R -> W -> (Exn + R) * W) {A B} (m : session A)
    (k : A -> prog B) w d a d' :
  m d = inr (a, d') -> run handler (bind (sess m) k) w d = run handler (k a) w d'.
Proof. intros Hm. rewrite run_bind. cbn. unfold run_session. by rewrite Hm. Qed.
Lemma run_sess_inl {W} (handler : forall R, Q R -> W -> (Exn + R) * W) {A B} (m : session A)
    (k : A -> prog B) w d e :
  m d = inl e -> run handler (bind (sess m) k) w d = (inl e, w, d).
Proof. intros Hm. rewrite run_bind. cbn. unfold run_session. by rewrite Hm. Qed.

(** ** What a program may do

    [within K P p]: whatever it is answered, every session of [p] is in [K], and every request
    that it makes is in [P]. *)
Section Within.
Context (K : forall A, action Store Exn A -> Prop) (P : forall R, Q R -> Prop).

Fixpoint within {A} (p : prog A) : Prop :=
  match p with
  | Done _ | Fail _ => True
  | Session m k => K _ m /\ forall r, within (k r)
  | Ask q k => P _ q /\ forall r, within (k r)
  end.

Lemma within_bind {A B} (p : prog A) (k : A -> prog B) :
  within p -> (forall a, within (k a)) -> within (bind p k).
Proof.
  intros Hp Hk. induction p as [a | e | B' m k' IH | R q k' IH]; cbn in *; auto;
    destruct Hp as [Hm Hp]; split; auto.
Qed.

Lemma within_catch {A} (p : prog A) h :
  within p -> (forall e, within (h e)) -> within (catch p h).
Proof.
  intros Hp Hh. induction p as [a | e | B' m k' IH | R q k' IH]; cbn in *; auto;
    destruct Hp as [Hm Hp]; split; auto.
Qed.

Lemma within_returns {A} (r : Exn + A) : within (returns r).
Proof. by destruct r. Qed.
Lemma within_sess {A} (m : session A) : K _ m -> within (sess m).
Proof. intros Hm. split; [done |]. apply within_returns. Qed.
Lemma within_ask {R} (q : Q R) : P _ q -> within (ask q).
Proof. intros Hq. split; [done |]. apply within_returns. Qed.
End Within.

(** ** Executions of composed programs *)
Lemma exec_env Env {A} (p : prog A) d d1 o d' :
  rtc Env d d1 -> Exec Env p d1 o d' -> Exec Env p d o d'.
Proof.
  intros H. revert d d1 H. induction p as [a | e | B m k IH | R q k IH]; cbn; intros d d1 H.
  - intros [-> H']. split; [done |]. by etrans.
  - intros [-> H']. split; [done |]. by etrans.
  - intros (d2 & H2 & H3). exists d2. split; [by etrans | done].
  - intros (r & Hr). eauto.
Qed.

Lemma exec_bind Env {A B} (p : prog A) (k : A -> prog B) d o d' :
  Exec Env (bind p k) d o d' ->
  exists o1 d1, Exec Env p d o1 d1 /\
    match o1 with
    | inl e => o = inl e /\ rtc Env d1 d'
    | inr a => Exec Env (k a) d1 o d'
    end.
Proof.
  revert d. induction p as [a | e | B' m k' IH | R q k' IH]; cbn; intros d.
  - intros H. exists (inr a), d. split; [split; [done | apply rtc_refl] | done].
  - intros [-> H]. exists (inl e), d. split; [split; [done | apply rtc_refl] | done].
  - intros (d1 & H1 & H2). apply IH in H2 as (o1 & d2 & H2 & H3).
    exists o1, d2. split; [| done]. exists d1. done.
  - intros (r & H). apply IH in H as (o1 & d1 & H1 & H2). exists o1, d1. split; [| done].
    by exists r.
Qed.

Lemma exec_catch Env {A} (p : prog A) h d o d' :
  Exec Env (catch p h) d o d' ->
  exists o1 d1, Exec Env p d o1 d1 /\
    match o1 with
    | inl e => Exec Env (h e) d1 o d'
    | inr a => o = inr a /\ rtc Env d1 d'
    end.
Proof.
  revert d. induction p as [a | e | B' m k' IH | R q k' IH]; cbn; intros d.
  - intros [-> H]. exists (inr a), d. split; [split; [done | apply rtc_refl] | done].
  - intros H. exists (inl e), d. split; [split; [done | apply rtc_refl] | done].
  - intros (d1 & H1 & H2). apply IH in H2 as (o1 & d2 & H2 & H3).
    exists o1, d2. split; [| done]. exists d1. done.
  - intros (r & H). apply IH in H as (o1 & d1 & H1 & H2). exists o1, d1. split; [| done].
    by exists r.
Qed.

Lemma exec_sess Env {A} (m : session A) d o d' :
  Exec Env (sess m) d o d' ->
  exists d1, rtc Env d d1 /\ o = (run_session m d1).1 /\ rtc Env (run_session m d1).2 d'.
Proof.
  cbn. intros (d1 & H1 & H2). exists d1. split; [done |].
  destruct (run_session m d1) as [[e | a] d2]; cbn in *; destruct H2 as [-> H2]; done.
Qed.
End Programs.
Arguments prog : clear implicits.
Arguments Done {Q A}.
Arguments Fail {Q A}.
Arguments Session {Q A B}.
Arguments Ask {Q A R}.

(** The same program with its requests made of another kind. *)
Fixpoint over {Q Q' : Type -> Type} (f : forall R, Q R -> Q' R) {A} (p : prog Q A) : prog Q' A :=
  match p with
  | Done a => Done a
  | Fail e => Fail e
  | Session m k => Session m (fun r => over f (k r))
  | Ask q k => Ask (f _ q) (fun r => over f (k r))
  end.
(** The outcome of a program, exception or not, as a result. *)
Definition attempt {Q : Type -> Type} {A} (p : prog Q A) : prog Q (Exn + A) :=
  catch (bind p (fun a => Done (inr a))) (fun e => Done (inl e)).
