(* ===== verification/Monitor.v ===== *)
(** * Monitor: what a program has been answered before it asks

    A monitor is an automaton that reads the requests of a program with their answers. A program
    is [monitored] when it makes no request that the monitor refuses in its state at that time,
    and ends as its postcondition says; admissible answers only are considered. *)
From S2P Require Import Prelude Text Models Store Program.

Section Monitor.
Context {Q : Type -> Type} {S : Type}.
(** The answers to be expected, the requests that a state allows, and the state after an answer. *)
Context (admissible : forall R, Q R -> Exn + R -> Prop).
Context (allowed : S -> forall R, Q R -> Prop).
Context (next : S -> forall R, Q R -> Exn + R -> S).

Fixpoint monitored {A} (s : S) (p : prog Q A) (post : S -> Exn + A -> Prop) : Prop :=
  match p with
  | Done a => post s (inr a)
  | Fail e => post s (inl e)
  | Session m k => forall d, monitored s (k (run_session m d).1) post
  | Ask q k => allowed s _ q
               /\ forall r, admissible _ q r -> monitored (next s _ q r) (k r) post
  end.

Lemma monitored_weaken {A} s (p : prog Q A) (post post' : S -> Exn + A -> Prop) :
  (forall s o, post s o -> post' s o) -> monitored s p post -> monitored s p post'.
Proof.
  intros H. revert s. induction p as [a | e | B m k IH | R q k IH]; cbn; intros s; auto.
  intros [Hq Hk]. auto.
Qed.

(** What follows [p] is monitored from the states in which [p] can end. *)
Definition after {A B} (k : A -> prog Q B) (post : S -> Exn + B -> Prop) : S -> Exn + A -> Prop :=
  fun s o => match o with inl e => post s (inl e) | inr a => monitored s (k a) post end.

Lemma monitored_bind {A B} s (p : prog Q A) (k : A -> prog Q B) post :
  monitored s p (after k post) -> monitored s (p ≫= k) post.
Proof.
  change (p ≫= k) with (bind p k). revert s.
  induction p as [a | e | C m k' IH | R q k' IH]; cbn; intros s; auto.
  intros [Hq Hk]. auto.
Qed.

Definition handled {A} (h : Exn -> prog Q A) (post : S -> Exn + A -> Prop) : S -> Exn + A -> Prop :=
  fun s o => match o with inl e => monitored s (h e) post | inr a => post s (inr a) end.

Lemma monitored_catch {A} s (p : prog Q A) h post :
  monitored s p (handled h post) -> monitored s (catch p h) post.
Proof.
  revert s. induction p as [a | e | C m k' IH | R q k' IH]; cbn; intros s; auto.
  intros [Hq Hk]. auto.
Qed.

Lemma monitored_ask {R} s (q : Q R) post :
  allowed s R q -> (forall r, admissible R q r -> post (next s R q r) r) ->
  monitored s (ask q) post.
Proof. intros Hq Hp. split; [done |]. intros [e | a] Hr; by apply (Hp _ Hr). Qed.

(** A request and what follows it. *)
Lemma monitored_ask_bind {R B} s (q : Q R) (k : R -> prog Q B) post :
  allowed s R q ->
  (forall e, admissible R q (inl e) -> post (next s R q (inl e)) (inl e)) ->
  (forall a, admissible R q (inr a) -> monitored (next s R q (inr a)) (k a) post) ->
  monitored s (ask q ≫= k) post.
Proof. intros Hq He Hk. split; [done |]. intros [e | a] Hr; cbn; auto. Qed.

Lemma monitored_done {A} s (a : A) (post : S -> Exn + A -> Prop) :
  post s (inr a) -> monitored s (Done a) post.
Proof. done. Qed.
Lemma monitored_fail {A} s e (post : S -> Exn + A -> Prop) :
  post s (inl e) -> monitored s (Fail e) post.
Proof. done. Qed.

Lemma monitored_returns {A} s (r : Exn + A) post : post s r -> monitored s (@returns Q A r) post.
Proof. by destruct r. Qed.

Lemma monitored_sess {A} s (m : session A) post :
  (forall r, post s r) -> monitored s (sess (Q := Q) m) post.
Proof. intros H d. by apply monitored_returns. Qed.

(** Sequential composition with an intermediate assertion. *)
Lemma monitored_seq {A B} s (p : prog Q A) (k : A -> prog Q B) mid post :
  monitored s p mid ->
  (forall s e, mid s (inl e) -> post s (inl e)) ->
  (forall s a, mid s (inr a) -> monitored s (k a) post) ->
  monitored s (p ≫= k) post.
Proof.
  intros Hp He Ha. apply monitored_bind. eapply monitored_weaken; [| exact Hp].
  intros s' [e | a]; cbn; auto.
Qed.

(** What an execution with some answers ends with satisfies the postcondition. *)
Fixpoint ends {A} (s : S) (p : prog Q A) (s' : S) (o : Exn + A) : Prop :=
  match p with
  | Done a => s' = s /\ o = inr a
  | Fail e => s' = s /\ o = inl e
  | Session m k => exists d, ends s (k (run_session m d).1) s' o
  | Ask q k => exists r, admissible _ q r /\ ends (next s _ q r) (k r) s' o
  end.
Lemma monitored_ends {A} s (p : prog Q A) post s' o :
  monitored s p post -> ends s p s' o -> post s' o.
Proof.
  revert s. induction p as [a | e | B m k IH | R q k IH]; cbn; intros s.
  - by intros H [-> ->].
  - by intros H [-> ->].
  - intros H (d & Hd). eauto.
  - intros [_ H] (r & Hr & He). eauto.
Qed.
End Monitor.

Lemma monitored_over {Q Q' : Type -> Type} {S} (f : forall R, Q R -> Q' R)
    (admissible : forall R, Q' R -> Exn + R -> Prop) allowed (next : S -> forall R, Q' R -> Exn + R -> S)
    {A} s (p : prog Q A) post :
  monitored (fun R q => admissible R (f R q)) (fun s R q => allowed s R (f R q))
    (fun s R q => next s R (f R q)) s p post ->
  monitored admissible allowed next s (over f p) post.
Proof.
  revert s. induction p as [a | e | B m k IH | R q k IH]; cbn; intros s; auto.
  intros [Hq Hk]. auto.
Qed.

Lemma monitored_attempt {Q : Type -> Type} {S} admissible allowed
    (next : S -> forall R, Q R -> Exn + R -> S) {A} s (p : prog Q A) post :
  monitored admissible allowed next s p (fun s o => post s (inr o)) ->
  monitored admissible allowed next s (attempt p) post.
Proof.
  intros Hp. apply monitored_catch, monitored_bind. eapply monitored_weaken; [| exact Hp].
  by intros s' [e | a].
Qed.

(** A program that is monitored without a state is monitored with one that keeps an invariant
    under which the same requests are allowed. *)
Lemma monitored_stateless {Q : Type -> Type} {S} (admissible : forall R, Q R -> Exn + R -> Prop)
    (fine : forall R, Q R -> Prop) allowed (next : S -> forall R, Q R -> Exn + R -> S)
    (Inv : S -> Prop) {A} s (p : prog Q A) (post : Exn + A -> Prop) :
  (forall s R q, Inv s -> fine R q -> allowed s R q) ->
  (forall s R q r, Inv s -> Inv (next s R q r)) ->
  Inv s ->
  monitored admissible (fun _ : unit => fine) (fun u _ _ _ => u) tt p (fun _ o => post o) ->
  monitored admissible allowed next s p (fun s o => Inv s /\ post o).
Proof.
  intros Ha Hn. revert s. induction p as [a | e | B m k IH | R q k IH]; cbn; intros s Hs; auto.
  intros [Hq Hk]. split; [by apply Ha |]. auto.
Qed.

(** Without what a monitor knows, and two postconditions together. *)
Lemma monitored_forget {Q : Type -> Type} {S} (adm adm' : forall R, Q R -> Exn + R -> Prop) allowed
    (next : S -> forall R, Q R -> Exn + R -> S) {A} s (p : prog Q A) (post : S -> Exn + A -> Prop)
    (post' : Exn + A -> Prop) :
  (forall R q r, adm' R q r -> adm R q r) -> (forall s o, post s o -> post' o) ->
  monitored adm allowed next s p post ->
  monitored adm' (fun (_ : unit) _ _ => True) (fun u _ _ _ => u) tt p (fun _ o => post' o).
Proof.
  intros Ha Hp. revert s. induction p as [a | e | B m k IH | R q k IH]; cbn; intros s; eauto.
  intros [Hq Hk]. eauto.
Qed.
Lemma monitored_and {Q : Type -> Type} {S} adm allowed allowed'
    (next : S -> forall R, Q R -> Exn + R -> S) {A} s (p : prog Q A) post post' :
  monitored adm allowed next s p post -> monitored adm allowed' next s p post' ->
  monitored adm allowed next s p (fun s o => post s o /\ post' s o).
Proof.
  revert s. induction p as [a | e | B m k IH | R q k IH]; cbn; intros s; auto.
  intros [Hq Hk] [_ Hk']. auto.
Qed.
