(* ===== verification/Replace.v ===== *)
(** * Replace: substitution in strings, words, and parsed UUIDs

    [str.replace], [str.split] without a separator, [str.join], and the constructor [UUID(text)]
    of the standard library. *)
From S2P Require Import Prelude Text.
From Stdlib Require Import Ascii String.
Open Scope string_scope.

(** ** [text.replace(old, new)]: the occurrences of a non-empty [old], from the left. [skip]
    characters belong to an occurrence that has been replaced. *)
Fixpoint replace_from (old new : list ascii) (skip : nat) (l : list ascii) : list ascii :=
  match l with
  | [] => []
  | c :: l' =>
      match skip with
      | S k => replace_from old new k l'
      | O => if bool_decide (old `prefix_of` l)
             then (new ++ replace_from old new (List.length old - 1) l')%list
             else c :: replace_from old new 0 l'
      end
  end.
Definition str_replace (old new text : string) : string :=
  unchars (replace_from (chars old) (chars new) 0 (chars text)).

(** ** [text.split()]: the maximal runs of characters that are no whitespace *)
Fixpoint words_from (current : list ascii) (l : list ascii) : list (list ascii) :=
  match l with
  | [] => match current with [] => [] | _ => [reverse current] end
  | c :: l' =>
      if is_space c
      then match current with [] => words_from [] l' | _ => reverse current :: words_from [] l' end
      else words_from (c :: current) l'
  end.
Definition words (text : string) : list string := map unchars (words_from [] (chars text)).

(** [sep.join(parts)] *)
Definition join (sep : string) (parts : list string) : string := String.concat sep parts.

(** ** Integer literals of base 16: [int(text, 16)]

    Surrounding whitespace, a sign, the prefix [0x] and single underscores between the digits (and
    after the prefix) are allowed. The sign is a plus: [UUID] removes the hyphens before. *)
Definition hex_value (c : ascii) : option N :=
  if in_range 48 57 c then Some (N_of_ascii c - 48)%N
  else if in_range 97 102 c then Some (N_of_ascii c - 87)%N
  else if in_range 65 70 c then Some (N_of_ascii c - 55)%N
  else None.
(** [may]: an underscore may come next. *)
Fixpoint hex_number (l : list ascii) (may : bool) (n : N) : option N :=
  match l with
  | [] => if may then Some n else None
  | c :: l' =>
      if Ascii.eqb c "_" then if may then hex_number l' false n else None
      else match hex_value c with
           | Some v => hex_number l' true (16 * n + v)%N
           | None => None
           end
  end.
Definition int_16 (text : string) : option N :=
  let l := strip_by is_space (chars text) in
  let l := match l with c :: l' => if Ascii.eqb c "+" then l' else l | [] => [] end in
  match l with
  | a :: b :: l' =>
      if Ascii.eqb a "0" && member b ["x"%char; "X"%char]
      then match l' with
           | c :: l'' => if Ascii.eqb c "_" then hex_number l'' false 0 else hex_number l' false 0
           | [] => None
           end
      else hex_number l false 0
  | _ => hex_number l false 0
  end.

(** [UUID(text)], or [None] for a [ValueError]. *)
Definition UUID (text : string) : option N :=
  let hex := str_replace "uuid:" "" (str_replace "urn:" "" text) in
  let hex := unchars (strip_by (fun c => member c ["{"%char; "}"%char]) (chars hex)) in
  let hex := str_replace "-" "" hex in
  if Nat.eqb (py_len hex) 32
  then n ← int_16 hex; if N.ltb n (2 ^ 128) then Some n else None
  else None.

Example uuid_forms :
  map UUID ["00000000-0000-0000-0000-00000000000a"; "urn:uuid:0000000000000000000000000000000A";
            "{0000000000000000000000000000000a}"; "0x00000000000000000000000000000a"; "";
            "0x_000000000000000000000000000_a"; "0000000000000000000000000000000g"]
  = [Some 10%N; Some 10%N; Some 10%N; Some 10%N; None; Some 10%N; None].
Proof. vm_compute. reflexivity. Qed.

(** The replacement of one character. *)
Lemma replace_char_chars c new l :
  replace_from [c] new 0 l = List.concat (map (fun x => if Ascii.eqb x c then new else [x]) l).
Proof.
  induction l as [|x l IH]; [done |]. cbn [replace_from map concat].
  destruct (Ascii.eqb_spec x c) as [-> | Hx].
  - rewrite bool_decide_eq_true_2 by (by exists l). cbn [List.length Nat.sub]. by rewrite IH.
  - rewrite bool_decide_eq_false_2; [by rewrite IH |]. intros [k Hk]. by injection Hk.
Qed.
Lemma str_replace_char c new s :
  chars (str_replace (String c "") new s)
  = List.concat (map (fun x => if Ascii.eqb x c then chars new else [x]) (chars s)).
Proof. unfold str_replace. rewrite chars_unchars. apply replace_char_chars. Qed.

(** ** Occurrences *)
Definition occurs (s l : list ascii) : Prop := exists a b, l = (a ++ s ++ b)%list.

Lemma occurs_refl s : occurs s s.
Proof. exists [], []. by rewrite app_nil_r. Qed.
Lemma occurs_trans s l m : occurs s l -> occurs l m -> occurs s m.
Proof.
  intros (a & b & ->) (a' & b' & ->). exists (a' ++ a)%list, (b ++ b')%list. by rewrite <- !app_assoc.
Qed.

(** A text without [c] does not occur across a [c]. *)
Lemma occurs_split c s l m :
  c ∉ s -> s <> [] -> occurs s (l ++ c :: m)%list -> occurs s l \/ occurs s m.
Proof.
  intros Hc Hs (a & b & E). rewrite app_assoc in E.
  apply app_eq_app in E as (k & [(E1 & E2) | (E1 & E2)]).
  { left. exists a, k. by rewrite app_assoc. }
  destruct k as [|x k].
  { left. exists a, []. rewrite app_nil_r. by rewrite app_nil_r in E1. }
  injection E2 as <- ->. apply app_eq_app in E1 as (k' & [(-> & E3) | (-> & E3)]).
  - destruct k' as [|x k'].
    + exfalso. apply Hc. cbn in E3. rewrite <- E3. constructor.
    + injection E3 as <- ->. right. exists k', b. by rewrite <- app_assoc.
  - exfalso. apply Hc. rewrite E3. set_solver.
Qed.

(** ** What a replacement leaves: pieces of the text between the replacements *)
Fixpoint interleave (sep : list ascii) (pieces : list (list ascii)) : list ascii :=
  match pieces with
  | [] => []
  | [p] => p
  | p :: rest => (p ++ sep ++ interleave sep rest)%list
  end.

Lemma replace_skip old new skip l :
  replace_from old new skip l = replace_from old new 0 (drop skip l).
Proof. revert l. induction skip as [|n IH]; [done |]. intros [|c l]; [done | apply IH]. Qed.

Lemma replace_match old new l :
  old <> [] -> replace_from old new 0 (old ++ l) = (new ++ replace_from old new 0 l)%list.
Proof.
  intros Ho. destruct old as [|c old]; [done |]. cbn [app replace_from].
  rewrite bool_decide_eq_true_2 by (by exists l). f_equal. rewrite replace_skip.
  cbn [List.length]. rewrite Nat.sub_succ, Nat.sub_0_r. by rewrite drop_app_length.
Qed.

Lemma occurs_nil s : s <> [] -> ~ occurs s [].
Proof. intros Hs (a & b & E). symmetry in E. by apply app_nil in E as [_ [-> _]%app_nil]. Qed.
Lemma interleave_cons sep p ps :
  ps <> [] -> interleave sep (p :: ps) = (p ++ sep ++ interleave sep ps)%list.
Proof. by destruct ps. Qed.
Lemma interleave_grow sep c p ps :
  interleave sep ((c :: p) :: ps) = c :: interleave sep (p :: ps).
Proof. by destruct ps. Qed.
Lemma interleave_head sep p ps : p `prefix_of` interleave sep (p :: ps).
Proof. destruct ps; [by exists []; rewrite app_nil_r | by eexists]. Qed.

Lemma replace_pieces old new l :
  old <> [] ->
  exists pieces, replace_from old new 0 l = interleave new pieces /\ pieces <> [] /\
    l = interleave old pieces /\ Forall (fun p => ~ occurs old p) pieces.
Proof.
  intros Ho. remember (List.length l) as n eqn:Hn. revert l Hn.
  induction n as [n IH] using lt_wf_ind. intros l ->.
  destruct (decide (old `prefix_of` l)) as [[l' ->] | Hno].
  { destruct (IH (List.length l')) with (l := l') as (ps & H1 & H2 & H3 & H4); [| done |].
    { rewrite length_app. destruct old; [done | cbn; lia]. }
    exists ([] :: ps). rewrite replace_match by done. rewrite !interleave_cons by done.
    cbn [app]. split_and!; [by rewrite H1 | done | by rewrite <- H3 |].
    constructor; [by apply occurs_nil | done]. }
  destruct l as [|c l].
  { exists [[]]. split_and!; try done. constructor; [by apply occurs_nil | done]. }
  destruct (IH (List.length l)) with (l := l) as (ps & H1 & H2 & H3 & H4); [cbn; lia | done |].
  destruct ps as [|p ps]; [done |].
  exists ((c :: p) :: ps). rewrite !interleave_grow. cbn [replace_from].
  rewrite bool_decide_eq_false_2 by done. rewrite H1, <- H3. split_and!; try done.
  apply Forall_cons in H4 as [Hp H4]. constructor; [| done].
  intros (a & b & E). destruct a as [|x a].
  - apply Hno. rewrite H3, <- interleave_grow.
    trans (c :: p); [rewrite E; by exists b | apply interleave_head].
  - injection E as <- E. apply Hp. by exists a, b.
Qed.

(** A piece occurs in the text. *)
Lemma piece_occurs sep ps p : p ∈ ps -> occurs p (interleave sep ps).
Proof.
  induction ps as [|q ps IH]; [by intros ?%elem_of_nil |]. intros [-> | H]%elem_of_cons.
  - destruct (interleave_head sep q ps) as [k Hk]. exists [], k. exact Hk.
  - eapply occurs_trans; [by apply IH |]. destruct ps as [|q' ps]; [by apply not_elem_of_nil in H |].
    rewrite (interleave_cons sep q) by done. exists (q ++ sep)%list, []. rewrite app_nil_r. apply app_assoc.
Qed.

Lemma replace_absent old new l : old <> [] -> ~ occurs old l -> replace_from old new 0 l = l.
Proof.
  intros Ho Hno. destruct (replace_pieces old new l Ho) as (ps & -> & Hps & E & _).
  destruct ps as [|p [|q ps]]; [done | by rewrite E |].
  exfalso. apply Hno. rewrite E, interleave_cons by done. by eexists _, _.
Qed.

(** ** Printed UUIDs are parsed *)
Fixpoint nibbles (k : nat) (n : N) : list N :=
  match k with O => [] | S k' => (nibbles k' (N.div n 16) ++ [N.modulo n 16])%list end.

Lemma hex_digits_nibbles k n acc :
  chars (hex_digits k n acc) = (map hex_digit (nibbles k n) ++ chars acc)%list.
Proof.
  revert n acc. induction k as [|k IH]; intros n acc; [done |]. cbn [hex_digits nibbles].
  rewrite IH, map_app, <- app_assoc. done.
Qed.
Lemma nibbles_small k n : Forall (fun d => (d < 16)%N) (nibbles k n).
Proof.
  revert n. induction k as [|k IH]; intros n; [constructor |]. cbn. apply Forall_app. split; [apply IH |].
  constructor; [by apply N.mod_lt | constructor].
Qed.
Lemma nibbles_length k n : List.length (nibbles k n) = k.
Proof. revert n. induction k as [|k IH]; intros n; [done |]. cbn. rewrite length_app, IH. cbn. lia. Qed.
Lemma nibbles_value k n a :
  foldl (fun a d => (16 * a + d)%N) a (nibbles k n) = (a * 16 ^ N.of_nat k + n mod 16 ^ N.of_nat k)%N.
Proof.
  revert n. induction k as [|k IH]; intros n; [cbn; rewrite N.mod_1_r; lia |].
  cbn [nibbles]. rewrite foldl_app, IH. cbn [foldl].
  rewrite Nat2N.inj_succ, N.pow_succ_r'.
  rewrite (N.Div0.mod_mul_r n 16 (16 ^ N.of_nat k)). lia.
Qed.

Lemma hex_digit_value d : (d < 16)%N -> hex_value (hex_digit d) = Some d.
Proof.
  intros Hd. assert (Hall : forall k, k < 16 ->
    hex_value (hex_digit (N.of_nat k)) = Some (N.of_nat k)).
  { do 16 (intros [|k]; [done | revert k]). lia. }
  specialize (Hall (N.to_nat d)). rewrite N2Nat.id in Hall. apply Hall. lia.
Qed.
Definition hex_char (c : ascii) : bool := in_range 48 57 c || in_range 97 102 c.
Lemma hex_digit_char d : (d < 16)%N -> hex_char (hex_digit d) = true.
Proof.
  intros Hd. assert (Hall : forall k, k < 16 -> hex_char (hex_digit (N.of_nat k)) = true).
  { do 16 (intros [|k]; [done | revert k]). lia. }
  specialize (Hall (N.to_nat d)). rewrite N2Nat.id in Hall. apply Hall. lia.
Qed.
Lemma hex_number_digits ds may a :
  Forall (fun d => (d < 16)%N) ds -> ds <> [] ->
  hex_number (map hex_digit ds) may a = Some (foldl (fun a d => (16 * a + d)%N) a ds).
Proof.
  intros H. revert may a. induction H as [|d ds Hd H IH]; intros may a Hne; [done |].
  cbn [map hex_number foldl]. rewrite hex_digit_value by done.
  destruct (Ascii.eqb (hex_digit d) "_") eqn:E.
  { apply Ascii.eqb_eq in E. pose proof (hex_digit_char d Hd) as Hc. by rewrite E in Hc. }
  destruct ds as [|d' ds]; [done |]. by apply IH.
Qed.

(** The removal of surrounding characters that are not there, and of hyphens. *)
Lemma strip_by_none {A} (p : A -> bool) l : forallb (fun c => negb (p c)) l = true -> strip_by p l = l.
Proof.
  assert (H : forall l', forallb (fun c => negb (p c)) l' = true -> drop_while p l' = l').
  { intros [|c l']; [done |]. cbn. intros [Hc _]%andb_true_iff. apply negb_true_iff in Hc. by rewrite Hc. }
  intros Hl. unfold strip_by. rewrite (H l) by done. rewrite H; [apply reverse_involutive |].
  rewrite forallb_forall in Hl |- *. intros c Hc. apply Hl.
  apply list_elem_of_In. apply list_elem_of_In in Hc. by rewrite elem_of_reverse in Hc.
Qed.
Lemma concat_remove c l :
  List.concat (map (fun x => if Ascii.eqb x c then [] else [x]) l)
  = List.filter (fun x => negb (Ascii.eqb x c)) l.
Proof. induction l as [|x l IH]; [done |]. cbn. rewrite IH. by destruct (Ascii.eqb x c). Qed.

Lemma uuid_hex_chars u : chars (uuid_hex u) = map hex_digit (nibbles 32 u).
Proof. unfold uuid_hex. rewrite hex_digits_nibbles. apply app_nil_r. Qed.

Lemma substring_chars n m s : chars (substring n m s) = take m (drop n (chars s)).
Proof.
  revert n m. induction s as [|c s IH]; intros n m.
  - destruct n, m; done.
  - destruct n as [|n]; [| exact (IH n m)]. destruct m as [|m]; [done |].
    change (substring 0 (S m) (String c s)) with (String c (substring 0 m s)).
    change (chars (String c (substring 0 m s))) with (c :: chars (substring 0 m s)).
    by rewrite (IH 0 m).
Qed.

Definition uuid_layout (l : list ascii) : list ascii :=
  (take 8 l ++ "-"%char :: take 4 (drop 8 l) ++ "-"%char :: take 4 (drop 12 l)
   ++ "-"%char :: take 4 (drop 16 l) ++ "-"%char :: take 12 (drop 20 l))%list.
Lemma uuid_str_chars u : chars (uuid_str u) = uuid_layout (map hex_digit (nibbles 32 u)).
Proof.
  unfold uuid_str, uuid_layout. rewrite !chars_app, !substring_chars, uuid_hex_chars. done.
Qed.
Lemma forallb_slice {A} (p : A -> bool) l n m :
  forallb p l = true -> forallb p (take m (drop n l)) = true.
Proof.
  rewrite <- (take_drop n l) at 1. rewrite forallb_app. intros [_ Ha]%andb_true_iff.
  rewrite <- (take_drop m (drop n l)), forallb_app in Ha. by apply andb_true_iff in Ha as [Ha _].
Qed.
Lemma layout_forall (p : ascii -> bool) l :
  p "-"%char = true -> forallb p l = true -> forallb p (uuid_layout l) = true.
Proof.
  intros Hp Hl. unfold uuid_layout. pose proof (forallb_slice p l 0 8 Hl) as H0. rewrite drop_0 in H0.
  repeat (rewrite forallb_app; cbn [forallb]). by rewrite Hp, H0, !forallb_slice.
Qed.
Lemma layout_filter l :
  List.length l = 32 -> forallb (fun c => negb (Ascii.eqb c "-")) l = true ->
  List.filter (fun c => negb (Ascii.eqb c "-")) (uuid_layout l) = l.
Proof.
  intros Hl Hc. set (p := fun c => negb (Ascii.eqb c "-")) in *. unfold uuid_layout.
  assert (Hs : forall n m, List.filter p (take m (drop n l)) = take m (drop n l)).
  { intros n m. apply List.forallb_filter_id. by apply forallb_slice. }
  pose proof (Hs 0 8) as H0. rewrite drop_0 in H0.
  assert (Hh : forall k, List.filter p ("-"%char :: k) = List.filter p k) by done.
  rewrite !List.filter_app, Hh, List.filter_app, Hh, List.filter_app, Hh, List.filter_app, Hh.
  rewrite H0, !Hs.
  rewrite !app_assoc.
  rewrite (take_take_drop l 8 4). change (8 + 4) with 12. rewrite (take_take_drop l 12 4).
  change (12 + 4) with 16. rewrite (take_take_drop l 16 4). change (16 + 4) with 20.
  rewrite (take_take_drop l 20 12).
  apply take_ge. rewrite Hl. done.
Qed.

(** A text of 32 hexadecimal digits is its number. *)
Lemma int_16_digits ds :
  Forall (fun d => (d < 16)%N) ds -> 2 <= List.length ds ->
  int_16 (unchars (map hex_digit ds)) = Some (foldl (fun a d => (16 * a + d)%N) 0%N ds).
Proof.
  intros Hds Hlen.
  assert (Hhex : forallb hex_char (map hex_digit ds) = true).
  { apply forallb_forall. intros c. rewrite <- list_elem_of_In.
    intros (d & -> & Hd)%list_elem_of_fmap. rewrite Forall_forall in Hds. by apply hex_digit_char, Hds. }
  unfold int_16. rewrite chars_unchars, strip_by_none.
  2:{ rewrite forallb_forall in Hhex |- *. intros c Hc%Hhex. revert Hc.
      pose proof (ascii_all (fun c => negb (hex_char c) || negb (is_space c))) as Ha.
      specialize (Ha ltac:(vm_compute; reflexivity) c). cbn in Ha. intros Hc. by rewrite Hc in Ha. }
  destruct ds as [|a [|b ds]]; [cbn in Hlen; lia | cbn in Hlen; lia |].
  cbn [map] in *. cbn [forallb] in Hhex. bool_hyps.
  assert (Hplus : Ascii.eqb (hex_digit a) "+" = false).
  { apply Ascii.eqb_neq. intros E. rewrite E in *. done. }
  assert (Hx : member (hex_digit b) ["x"%char; "X"%char] = false).
  { apply member_false. intros Hin. rewrite !elem_of_cons, elem_of_nil in Hin.
    destruct Hin as [E | [E | []]]; rewrite E in *; done. }
  rewrite Hplus, Hx, andb_false_r.
  by apply (hex_number_digits (a :: b :: ds)).
Qed.

(** The text of a UUID is parsed back: [UUID(str(u)) = u]. *)
Lemma uuid_roundtrip u : (u < 2 ^ 128)%N -> UUID (uuid_str u) = Some u.
Proof.
  intros Hu. pose proof (nibbles_small 32 u) as Hds.
  set (l := map hex_digit (nibbles 32 u)).
  assert (Hlen : List.length l = 32) by (subst l; by rewrite length_map, nibbles_length).
  assert (Hhex : forallb hex_char l = true).
  { apply forallb_forall. intros c. rewrite <- list_elem_of_In.
    intros (d & -> & Hd)%list_elem_of_fmap. rewrite Forall_forall in Hds. by apply hex_digit_char, Hds. }
  assert (Hcheck : forall q : ascii -> bool,
    forallb (fun c => negb (hex_char c) || q c) (map ascii_of_nat (seq 0 256)) = true ->
    forallb q l = true).
  { intros q Hq. rewrite forallb_forall in Hhex |- *. intros c Hc%Hhex.
    pose proof (ascii_all _ Hq c) as Ha. cbn in Ha. by rewrite Hc in Ha. }
  assert (Hstr : forall q : ascii -> bool, q "-"%char = true ->
    forallb (fun c => negb (hex_char c) || q c) (map ascii_of_nat (seq 0 256)) = true ->
    forallb q (chars (uuid_str u)) = true).
  { intros q Hq Ha. rewrite uuid_str_chars. apply layout_forall; [done | by apply Hcheck]. }
  assert (Hno : forall old, "u"%char ∈ chars old ->
    str_replace old "" (uuid_str u) = uuid_str u).
  { intros old Hin. unfold str_replace. rewrite replace_absent; [apply unchars_chars | |].
    - intros E. by rewrite E in Hin; apply not_elem_of_nil in Hin.
    - intros (a & b & E). pose proof (Hstr (fun c => negb (Ascii.eqb c "u")) eq_refl
        ltac:(vm_compute; reflexivity)) as Hf.
      rewrite E, !forallb_app in Hf. apply andb_true_iff in Hf as [_ [Hf _]%andb_true_iff].
      rewrite forallb_forall in Hf. apply list_elem_of_In, Hf in Hin. discriminate Hin. }
  unfold UUID. rewrite (Hno "urn:"), (Hno "uuid:") by (apply (bool_decide_eq_true_1 _); by vm_compute).
  rewrite strip_by_none, unchars_chars.
  2:{ apply Hstr; [done | by vm_compute]. }
  assert (Eh : chars (str_replace "-" "" (uuid_str u)) = l).
  { rewrite str_replace_char. change (chars "") with (@nil ascii).
    rewrite concat_remove, uuid_str_chars. apply layout_filter; [done |]. apply Hcheck. by vm_compute. }
  rewrite <- (unchars_chars (str_replace "-" "" (uuid_str u))), Eh.
  assert (Epy : py_len (unchars l) = 32).
  { unfold py_len. rewrite chars_unchars, List.forallb_filter_id; [done |]. apply Hcheck. by vm_compute. }
  rewrite Epy. cbn [Nat.eqb]. subst l. rewrite int_16_digits by (done || (rewrite nibbles_length; lia)).
  rewrite nibbles_value. change (16 ^ N.of_nat 32)%N with (2 ^ 128)%N.
  rewrite N.mod_small, N.mul_0_l, N.add_0_l by done. cbn [mbind option_bind].
  by rewrite (proj2 (N.ltb_lt _ _)).
Qed.
