(* ===== verification/Json.v ===== *)
(** * Json: decoded JSON documents, and HTTP requests and responses

    A JSON document as [json.loads] returns it: an object is a [dict], whose keys are distinct and
    ordered, so that it is represented by the list of its items. *)
From S2P Require Import Prelude Text Models Store Replace Program.
From stdpp Require Import pretty.
From Stdlib Require Import Ascii String.
Open Scope string_scope.

#[warnings="-register-all"]
Inductive json :=
| JNull
| JBool (b : bool)
| JInt (n : Z)
| JFloat (text : string)
| JString (s : string)
| JArray (items : list json)
| JObject (fields : list (string * json)).

(** ** [dict] operations *)
Section Dict.
Context {V : Type}.
Implicit Types (d : list (string * V)).

(** [d.get(key)] *)
Fixpoint dict_get (key : string) (d : list (string * V)) : option V :=
  match d with
  | [] => None
  | (k, v) :: d' => if k == key then Some v else dict_get key d'
  end.
(** [d[key] = value] keeps the place of a key that is there. *)
Fixpoint dict_set (key : string) (value : V) (d : list (string * V)) : list (string * V) :=
  match d with
  | [] => [(key, value)]
  | (k, v) :: d' => if k == key then (key, value) :: d' else (k, v) :: dict_set key value d'
  end.
(** [d.pop(key, None)] *)
Definition dict_pop (key : string) (d : list (string * V)) : list (string * V) :=
  List.filter (fun kv => kv.1 != key) d.
(** [d.update(other)] *)
Definition dict_update (d other : list (string * V)) : list (string * V) :=
  foldl (fun d kv => dict_set kv.1 kv.2 d) d other.

Lemma dict_get_set key value key' d :
  dict_get key' (dict_set key value d) = if key == key' then Some value else dict_get key' d.
Proof.
  induction d as [|[k v] d IH]; cbn; [done |].
  destruct (bool_decide_reflect (k = key)) as [-> | E]; cbn.
  - by destruct (bool_decide_reflect (key = key')).
  - rewrite IH. repeat case_bool_decide; congruence.
Qed.

Lemma dict_get_pop key key' d :
  dict_get key' (dict_pop key d) = if key == key' then None else dict_get key' d.
Proof.
  unfold dict_pop. induction d as [|[k v] d IH]; cbn; [by case_bool_decide |].
  destruct (bool_decide_reflect (k = key)) as [-> | E]; cbn; rewrite IH;
    repeat case_bool_decide; congruence.
Qed.

Lemma dict_get_update key d other :
  NoDup (map fst other) ->
  dict_get key (dict_update d other)
  = match dict_get key other with Some v => Some v | None => dict_get key d end.
Proof.
  unfold dict_update. revert d.
  induction other as [|[k v] other IH]; cbn; intros d H; [done |].
  apply NoDup_cons in H as [Hk H]. rewrite IH by done. rewrite dict_get_set.
  case_bool_decide as E; [| done]. subst.
  destruct (dict_get key other) as [w |] eqn:G; [| done].
  exfalso. apply Hk. clear -G. induction other as [|[k' v'] o IH]; cbn in *; [done |].
  case_bool_decide; subst; set_solver.
Qed.
End Dict.

(** ** Accessors *)
Definition as_object (j : json) : option (list (string * json)) :=
  match j with JObject fields => Some fields | _ => None end.
Definition as_string (j : json) : option string :=
  match j with JString s => Some s | _ => None end.
Definition as_array (j : json) : option (list json) :=
  match j with JArray items => Some items | _ => None end.
(** [type(x) is int]: a [bool] is not. *)
Definition as_int (j : json) : option Z := match j with JInt n => Some n | _ => None end.
Definition is_true (j : json) : bool := match j with JBool true => true | _ => false end.

(** [payload.get(key)] with a test of the type, as the clients do it: an absent key reads as
    [None], which is of none of these types. *)
Definition get_object (key : string) (d : list (string * json)) : option (list (string * json)) :=
  dict_get key d ≫= as_object.
Definition get_string (key : string) (d : list (string * json)) : option string :=
  dict_get key d ≫= as_string.
Definition get_true (key : string) (d : list (string * json)) : bool :=
  match dict_get key d with Some j => is_true j | None => false end.

(** [UUID(str(value))]: the text of a number can be that of a UUID too; the texts of [None], of
    booleans, of floats (which have less than 32 characters), of lists and of dictionaries (which
    keep a bracket or a quote) cannot. *)
Definition uuid_of_json (j : json) : option N :=
  match j with
  | JString s => UUID s
  | JInt n => UUID (pretty n)
  | JNull | JBool _ | JFloat _ | JArray _ | JObject _ => None
  end.

(** ** HTTP (httpx.Client) *)
Inductive Body := NoBody | Json (payload : json) | Content (content : list Byte.byte).
Record Request := mkRequest {
  http_method : string;
  http_path : string;
  http_params : list (string * string);
  http_headers : list (string * string);
  http_body : Body
}.
(** [decoded]: the document, or [None] when [response.json()] raises a [ValueError]. *)
Record Response := mkResponse {
  status_code : Z;
  response_headers : list (string * string);
  decoded : option json
}.

(** [headers.get(name)]: names are compared without case. *)
Definition header_get (name : string) (response : Response) : option string :=
  dict_get (str_lower name) (map (fun kv => (str_lower kv.1, kv.2)) (response_headers response)).

Inductive Transport : Type -> Type :=
| Send (request : Request) : Transport Response.
Abbreviation http := (prog Transport) (only parsing).

Definition send (method path : string) (params headers : list (string * string)) (body : Body)
    : http Response :=
  ask (Send (mkRequest method path params headers body)).

(** A transport fails with an [httpx.HTTPError] only. *)
Definition transport_answers (R : Type) (q : Transport R) (r : Exn + R) : Prop :=
  match r with inl (HTTPError _) => True | inl _ => False | inr _ => True end.

(** [httpx.codes] *)
Definition OK : Z := 200.
Definition CREATED : Z := 201.
Definition NO_CONTENT : Z := 204.
Definition UNAUTHORIZED : Z := 401.
Definition FORBIDDEN : Z := 403.
Definition NOT_FOUND : Z := 404.
Definition CONFLICT : Z := 409.
