(* ===== verification/Redaction.v ===== *)
(** * Redaction: validation errors without credentials (main.py)

    A detail of a validation error is a [dict] whose values are JSON documents here, as the
    response shows them; its "loc" is the path of field names and indices to the error. *)
From S2P Require Import Prelude Text Models Store Replace Json.
From stdpp Require Import pretty.
From Stdlib Require Import Ascii String.
Open Scope string_scope.

(** [str(value)] of a part of a location *)
Definition part_str (value : json) : string :=
  match value with JString s => s | JInt n => pretty n | _ => "" end.

Definition MARKERS : list string := ["password"; "secret"; "token"].
Definition is_secret_field_name (value : json) : bool :=
  let field_name := str_lower (part_str value) in
  existsb (fun marker => includes marker field_name) MARKERS
  || member field_name ["value"; "values"].

Fixpoint input_contains_secret (value : json) : bool :=
  match value with
  | JObject fields =>
      existsb (fun kv => is_secret_field_name (JString kv.1) || input_contains_secret kv.2) fields
  | JArray items => existsb input_contains_secret items
  | _ => false
  end.

Abbreviation Detail := (list (string * json)) (only parsing).
Definition location (detail : Detail) : list json :=
  match dict_get "loc" detail with Some (JArray parts) => parts | _ => [] end.
Definition validation_error_contains_secret (detail : Detail) : bool :=
  existsb is_secret_field_name (location detail)
  || input_contains_secret (default JNull (dict_get "input" detail)).

Definition REDACTED_INPUT : json := JString "[REDACTED]".
Definition redacted_detail (detail : Detail) : Detail :=
  if validation_error_contains_secret detail
  then dict_pop "ctx" (dict_set "input" REDACTED_INPUT detail)
  else detail.
Definition redacted_validation_errors (errors : list Detail) : list Detail :=
  map redacted_detail errors.

Record ErrorResponse := mkErrorResponse {
  error_status : Z;
  error_detail : list Detail;
  error_headers : list (string * string)
}.
Definition validation_exception_handler (errors : list Detail) : ErrorResponse :=
  mkErrorResponse 422 (redacted_validation_errors errors)
    (if existsb validation_error_contains_secret errors then [("Cache-Control", "no-store")] else []).

(** ** What is inside a document *)

(** [inside name j]: some object in [j], at any depth, has a field of this name. *)
Inductive inside (name : string) : json -> Prop :=
| inside_here fields value : (name, value) ∈ fields -> inside name (JObject fields)
| inside_field key value fields :
    (key, value) ∈ fields -> inside name value -> inside name (JObject fields)
| inside_item value items : value ∈ items -> inside name value -> inside name (JArray items).

(** The induction principle with the items and fields of a document. *)
Section JsonInd.
Variable P : json -> Prop.
Hypothesis Hatom : forall j, (forall l, j <> JArray l) -> (forall l, j <> JObject l) -> P j.
Hypothesis Harray : forall items, Forall P items -> P (JArray items).
Hypothesis Hobject : forall fields, Forall (fun kv => P kv.2) fields -> P (JObject fields).
Fixpoint json_nested_ind (j : json) : P j :=
  match j with
  | JArray items =>
      Harray items ((fix go l : Forall P l :=
        match l with [] => Forall_nil_2 P | x :: l' => Forall_cons_2 P x l' (json_nested_ind x) (go l') end) items)
  | JObject fields =>
      Hobject fields ((fix go l : Forall (fun kv => P kv.2) l :=
        match l with
        | [] => Forall_nil_2 _
        | x :: l' => Forall_cons_2 (fun kv => P kv.2) x l' (json_nested_ind x.2) (go l')
        end) fields)
  | JNull => Hatom JNull ltac:(done) ltac:(done)
  | JBool b => Hatom (JBool b) ltac:(done) ltac:(done)
  | JInt n => Hatom (JInt n) ltac:(done) ltac:(done)
  | JFloat t => Hatom (JFloat t) ltac:(done) ltac:(done)
  | JString s => Hatom (JString s) ltac:(done) ltac:(done)
  end.
End JsonInd.

Lemma input_contains_secret_spec j :
  input_contains_secret j = true <->
  exists name, inside name j /\ is_secret_field_name (JString name) = true.
Proof.
  induction j as [j Ha Ho | items IH | fields IH] using json_nested_ind.
  - split.
    + destruct j; try done; [by destruct (Ha items) | by destruct (Ho fields)].
    + intros (name & Hin & _). destruct Hin; [by destruct (Ho fields) | by destruct (Ho fields) | by destruct (Ha items)].
  - cbn [input_contains_secret]. rewrite existsb_exists. rewrite Forall_forall in IH. split.
    + intros (x & Hx & H). apply list_elem_of_In in Hx. apply IH in H as (name & ? & ?); [| done].
      exists name. split; [by eapply inside_item | done].
    + intros (name & Hin & Hs). inversion Hin; subst. eexists. rewrite <- list_elem_of_In.
      split; [eassumption |]. apply IH; eauto.
  - cbn [input_contains_secret]. rewrite existsb_exists. rewrite Forall_forall in IH. split.
    + intros ([key v] & Hx & H). apply list_elem_of_In in Hx. cbn in H.
      apply orb_true_iff in H as [H | H].
      * exists key. split; [by eapply inside_here | done].
      * apply (IH (key, v) Hx) in H as (name & ? & ?). exists name.
        split; [by eapply inside_field | done].
    + intros (name & Hin & Hs). inversion Hin; subst.
      * exists (name, value). rewrite <- list_elem_of_In. cbn. by rewrite Hs.
      * exists (key, value). rewrite <- list_elem_of_In. split; [done |]. cbn.
        apply orb_true_iff. right. apply (IH (key, value)); eauto.
Qed.

(** The redacted input names no field. *)
Definition clean (detail : Detail) : Prop :=
  forall input name, dict_get "input" detail = Some input -> inside name input ->
    is_secret_field_name (JString name) = false.

(** C19: A validation response shows no credential. Every detail is answered, in order; one whose
    location names a credential, or whose input has a field so named at any depth, is answered
    with a marker in place of the input and without its context, and the response may then not be
    cached; every other field and every other detail is answered as it is; so that no input
    that is answered has a field named like a credential. *)
Theorem validation_responses_hide_secrets errors :
  let response := validation_exception_handler errors in
  error_status response = 422%Z /\
  List.length (error_detail response) = List.length errors /\
  (forall i detail shown, errors !! i = Some detail -> error_detail response !! i = Some shown ->
     clean shown /\
     if validation_error_contains_secret detail
     then dict_get "input" shown = Some REDACTED_INPUT /\ dict_get "ctx" shown = None /\
          (forall key, key <> "input" -> key <> "ctx" -> dict_get key shown = dict_get key detail) /\
          error_headers response = [("Cache-Control", "no-store")]
     else shown = detail) /\
  (Forall (fun detail => validation_error_contains_secret detail = false) errors ->
   error_headers response = []).
Proof.
  cbv zeta. unfold validation_exception_handler. cbn [error_status error_detail error_headers].
  unfold redacted_validation_errors. split_and!; [done | by rewrite length_map | |].
  - intros i detail shown Hi Hs. rewrite list_lookup_fmap, Hi in Hs. injection Hs as <-.
    unfold redacted_detail. destruct (validation_error_contains_secret detail) eqn:E.
    + split.
      * intros input name. rewrite dict_get_pop, dict_get_set. cbn.
        intros [= <-] Hin. inversion Hin.
      * split_and!.
        -- by rewrite dict_get_pop, dict_get_set.
        -- by rewrite dict_get_pop.
        -- intros key H1 H2. rewrite dict_get_pop, dict_get_set.
           by rewrite !bool_decide_eq_false_2 by done.
        -- replace (existsb validation_error_contains_secret errors) with true; [done |].
           symmetry. apply existsb_exists. exists detail. split; [| done].
           apply list_elem_of_In. by eapply list_elem_of_lookup_2.
    + split; [| done]. intros input name Hg Hin. apply not_true_iff_false. intros Hn.
      unfold validation_error_contains_secret in E. apply orb_false_iff in E as [_ E].
      rewrite Hg in E. cbn in E. apply not_true_iff_false in E. apply E.
      apply input_contains_secret_spec. eauto.
  - intros H. replace (existsb validation_error_contains_secret errors) with false; [done |].
    symmetry. apply not_true_iff_false. intros (detail & Hin & Hd)%existsb_exists.
    rewrite Forall_forall in H. apply list_elem_of_In, H in Hin. congruence.
Qed.

Example redacted_sample :
  redacted_validation_errors
    [[("loc", JArray [JString "body"; JString "port"]); ("msg", JString "too large");
      ("input", JInt 99999)];
     [("loc", JArray [JString "body"; JString "name"]); ("msg", JString "missing");
      ("input", JObject [("items", JArray [JObject [("adminPassword", JString "x")]])]);
      ("ctx", JObject [])]]
  = [[("loc", JArray [JString "body"; JString "port"]); ("msg", JString "too large");
      ("input", JInt 99999)];
     [("loc", JArray [JString "body"; JString "name"]); ("msg", JString "missing");
      ("input", JString "[REDACTED]")]].
Proof. vm_compute. reflexivity. Qed.
