(* ===== verification/Ddl.v ===== *)
(** * Ddl: schema operations and what a relational schema enforces

    The operations of a migration ([alembic.op]) as transformations of a catalogue, with the
    refusals of PostgreSQL, and the meaning of the constraints of a catalogue for stored rows, in
    the three-valued logic of SQL. The lengths of VARCHAR columns and the range of INTEGER columns
    are not judged, and identifiers are not truncated. *)
From S2P Require Import Prelude Text Models Store Json.
From Stdlib Require Import Ascii String.
Open Scope string_scope.

(** ** Schemas *)
Inductive SqlType :=
| Uuid | Varchar (length : N) | Text | Integer | Boolean | LargeBinary | JsonType | Timestamp
| EnumType (name : string) (labels : list string).
Record Column := mkColumn {
  column_name : string;
  column_type : SqlType;
  server_default : option string;
  nullable : bool
}.

Inductive Term :=
| Col (name : string) | TextLit (s : string) | IntLit (n : Z)
| Trim (t : Term) | Lower (t : Term) | Upper (t : Term) | Length (t : Term).
Inductive Cond :=
| Equal (a b : Term) | Above (a b : Term) | AtLeast (a b : Term) | AtMost (a b : Term)
| InList (t : Term) (texts : list string) | IsNull (t : Term) | IsNotNull (t : Term)
| And (a b : Cond) | Or (a b : Cond).

Inductive OnDelete := CASCADE | RESTRICT | SET_NULL.
Inductive Constraint :=
| CheckConstraint (condition : Cond) (name : string)
| ForeignKeyConstraint (column target_table target_column name : string) (ondelete : OnDelete)
| PrimaryKeyConstraint (column name : string)
| UniqueConstraint (columns : list string) (name : string).
Record Index := mkIndex { index_name : string; index_keys : list Term; index_unique : bool }.
Record Table := mkTable {
  table_columns : list Column;
  table_constraints : list Constraint;
  table_indexes : list Index
}.
(** The tables in the order of their creation, and the enum types. *)
Record Catalog := mkCatalog {
  catalog_tables : list (string * Table);
  catalog_types : list (string * list string)
}.
Definition empty_catalog : Catalog := mkCatalog [] [].

(** ** Operations *)
Inductive Ddl :=
| create_table (name : string) (columns : list Column) (constraints : list Constraint)
| create_index (name table : string) (keys : list Term) (unique : bool)
| drop_index (name table : string)
| drop_table (name : string)
| drop_enum (name : string).

(** A constraint or an index that is unique has an index of its name. *)
Definition constraint_relation (c : Constraint) : list string :=
  match c with
  | PrimaryKeyConstraint _ name | UniqueConstraint _ name => [name]
  | CheckConstraint _ _ | ForeignKeyConstraint _ _ _ _ _ => []
  end.
Definition relations (c : Catalog) : list string :=
  List.concat (map (fun nt =>
    nt.1 :: List.concat (map constraint_relation (table_constraints nt.2))
    ++ map index_name (table_indexes nt.2))%list (catalog_tables c)).

Definition constraint_name (c : Constraint) : string :=
  match c with
  | CheckConstraint _ name | ForeignKeyConstraint _ _ _ name _ | PrimaryKeyConstraint _ name
  | UniqueConstraint _ name => name
  end.

Fixpoint term_columns (t : Term) : list string :=
  match t with
  | Col name => [name]
  | TextLit _ | IntLit _ => []
  | Trim t | Lower t | Upper t | Length t => term_columns t
  end.
Fixpoint cond_columns (c : Cond) : list string :=
  match c with
  | Equal a b | Above a b | AtLeast a b | AtMost a b => term_columns a ++ term_columns b
  | InList t _ | IsNull t | IsNotNull t => term_columns t
  | And a b | Or a b => cond_columns a ++ cond_columns b
  end.
Definition constraint_columns (c : Constraint) : list string :=
  match c with
  | CheckConstraint condition _ => cond_columns condition
  | ForeignKeyConstraint column _ _ _ _ | PrimaryKeyConstraint column _ => [column]
  | UniqueConstraint columns _ => columns
  end.

Definition distinct (l : list string) : bool := bool_decide (NoDup l).
Definition included (l l' : list string) : bool := forallb (fun x => member x l') l.
Definition disjoint_from (l l' : list string) : bool := forallb (fun x => negb (member x l')) l.

Definition column_enums (columns : list Column) : list (string * list string) :=
  omap (fun c => match column_type c with
                 | EnumType name labels => Some (name, labels) | _ => None end) columns.

(** A foreign key needs a table with that key alone as primary key or unique constraint. *)
Definition is_key (column : string) (t : Table) : bool :=
  existsb (fun c => match c with
    | PrimaryKeyConstraint column' _ => column == column'
    | UniqueConstraint columns _ => columns == [column]
    | _ => false end) (table_constraints t).
Definition target_exists (c : Catalog) (constraint : Constraint) : bool :=
  match constraint with
  | ForeignKeyConstraint _ table column _ _ =>
      match dict_get table (catalog_tables c) with Some t => is_key column t | None => false end
  | _ => true
  end.
Definition refers_to (name : string) (t : Table) : bool :=
  existsb (fun c => match c with
    | ForeignKeyConstraint _ table _ _ _ => table == name | _ => false end) (table_constraints t).

Definition set_table (name : string) (t : Table) (c : Catalog) : Catalog :=
  mkCatalog (dict_set name t (catalog_tables c)) (catalog_types c).

(** [None]: PostgreSQL refuses the operation. The enum types of the columns are created with
    their table, without a look whether they exist; they stay when it is dropped. *)
Definition apply_ddl (op : Ddl) (c : Catalog) : option Catalog :=
  match op with
  | create_table name columns constraints =>
      let enums := column_enums columns in
      let new := name :: List.concat (map constraint_relation constraints) in
      if distinct new && disjoint_from new (relations c)
         && distinct (map column_name columns)
         && distinct (map constraint_name constraints)
         && included (List.concat (map constraint_columns constraints)) (map column_name columns)
         && distinct (map fst enums) && disjoint_from (map fst enums) (map fst (catalog_types c))
         && forallb (target_exists c) constraints
      then Some (mkCatalog (catalog_tables c ++ [(name, mkTable columns constraints [])])
                           (catalog_types c ++ enums))
      else None
  | create_index name table keys unique =>
      t ← dict_get table (catalog_tables c);
      if negb (member name (relations c))
         && included (List.concat (map term_columns keys)) (map column_name (table_columns t))
      then Some (set_table table (mkTable (table_columns t) (table_constraints t)
                                    (table_indexes t ++ [mkIndex name keys unique])) c)
      else None
  | drop_index name table =>
      t ← dict_get table (catalog_tables c);
      if member name (map index_name (table_indexes t))
      then Some (set_table table (mkTable (table_columns t) (table_constraints t)
                   (List.filter (fun i => index_name i != name) (table_indexes t))) c)
      else None
  | drop_table name =>
      if member name (map fst (catalog_tables c))
         && negb (existsb (fun nt => (nt.1 != name) && refers_to name nt.2) (catalog_tables c))
      then Some (mkCatalog (dict_pop name (catalog_tables c)) (catalog_types c))
      else None
  | drop_enum name =>
      if existsb (fun nt => member name (map fst (column_enums (table_columns nt.2))))
           (catalog_tables c)
      then None
      else Some (mkCatalog (catalog_tables c) (dict_pop name (catalog_types c)))
  end.

Fixpoint migrate (ops : list Ddl) (c : Catalog) : option Catalog :=
  match ops with
  | [] => Some c
  | op :: rest => c' ← apply_ddl op c; migrate rest c'
  end.

(** ** Rows *)
Inductive Value :=
| VNull | VUuid (u : uuid) | VText (s : string) | VInt (n : Z) | VBool (b : bool)
| VBytes (b : bytes) | VJson (j : json) | VTime (t : time).

(** A row names the values of its columns; one that it does not name is NULL. *)
Abbreviation Row := (list (string * Value)) (only parsing).
Fixpoint field (name : string) (row : Row) : Value :=
  match row with
  | [] => VNull
  | (column, v) :: rest => if String.eqb column name then v else field name rest
  end.

(** [length(s)]: the number of characters; no text but the empty one is without. *)
Definition sql_length (s : string) : Z :=
  Z.of_nat (Nat.max (py_len s) (if s == "" then 0 else 1)).
Definition on_text (f : string -> Value) (v : Value) : Value :=
  match v with VText s => f s | _ => VNull end.
Fixpoint eval_term (row : Row) (t : Term) : Value :=
  match t with
  | Col name => field name row
  | TextLit s => VText s
  | IntLit n => VInt n
  | Trim t => on_text (fun s => VText (sql_trim s)) (eval_term row t)
  | Lower t => on_text (fun s => VText (str_lower s)) (eval_term row t)
  | Upper t => on_text (fun s => VText (str_upper s)) (eval_term row t)
  | Length t => on_text (fun s => VInt (sql_length s)) (eval_term row t)
  end.

(** Comparisons with NULL are unknown. *)
Definition equal3 (a b : Value) : option bool :=
  match a, b with
  | VText s, VText s' => Some (s == s')
  | VInt m, VInt n => Some (Z.eqb m n)
  | _, _ => None
  end.
Definition int_test (test : Z -> Z -> bool) (a b : Value) : option bool :=
  match a, b with VInt m, VInt n => Some (test m n) | _, _ => None end.
Definition is_null (v : Value) : bool := match v with VNull => true | _ => false end.
Definition and3 (a b : option bool) : option bool :=
  match a, b with
  | Some false, _ | _, Some false => Some false
  | Some true, Some true => Some true
  | _, _ => None
  end.
Definition or3 (a b : option bool) : option bool :=
  match a, b with
  | Some true, _ | _, Some true => Some true
  | Some false, Some false => Some false
  | _, _ => None
  end.
Fixpoint eval (row : Row) (c : Cond) : option bool :=
  match c with
  | Equal a b => equal3 (eval_term row a) (eval_term row b)
  | Above a b => int_test (fun m n => Z.ltb n m) (eval_term row a) (eval_term row b)
  | AtLeast a b => int_test (fun m n => Z.leb n m) (eval_term row a) (eval_term row b)
  | AtMost a b => int_test Z.leb (eval_term row a) (eval_term row b)
  | InList t texts =>
      match eval_term row t with VText s => Some (member s texts) | _ => None end
  | IsNull t => Some (is_null (eval_term row t))
  | IsNotNull t => Some (negb (is_null (eval_term row t)))
  | And a b => and3 (eval row a) (eval row b)
  | Or a b => or3 (eval row a) (eval row b)
  end.

(** A check constraint is violated only by a condition that is false. *)
Definition satisfied (o : option bool) : bool := match o with Some false => false | _ => true end.

Definition has_type (type : SqlType) (v : Value) : bool :=
  match type, v with
  | Uuid, VUuid _ | Varchar _, VText _ | Text, VText _ | Integer, VInt _ | Boolean, VBool _
  | LargeBinary, VBytes _ | JsonType, VJson _ | Timestamp, VTime _ => true
  | EnumType _ labels, VText s => member s labels
  | _, _ => false
  end.
Definition column_holds (row : Row) (c : Column) : bool :=
  let v := field (column_name c) row in
  if is_null v then nullable c else has_type (column_type c) v.

(** ** What a table and a catalogue enforce *)
Definition checks (t : Table) : list Cond :=
  omap (fun c => match c with CheckConstraint condition _ => Some condition | _ => None end)
    (table_constraints t).
Definition row_holds (t : Table) (row : Row) : bool :=
  forallb (column_holds row) (table_columns t)
  && forallb (fun c => satisfied (eval row c)) (checks t).

(** The keys of primary keys, unique constraints and unique indexes. *)
Definition unique_keys (t : Table) : list (list Term) :=
  (omap (fun c => match c with
     | PrimaryKeyConstraint column _ => Some [Col column]
     | UniqueConstraint columns _ => Some (map Col columns)
     | _ => None end) (table_constraints t)
   ++ omap (fun i => if index_unique i then Some (index_keys i) else None) (table_indexes t))%list.
Definition key_value (key : list Term) (row : Row) : list Value := map (eval_term row) key.
Definition no_null (l : list Value) : Prop := Forall (fun v => v <> VNull) l.
Definition unique_rows (key : list Term) (rows : gmap uuid Row) : Prop :=
  map_Forall (fun i row => map_Forall (fun j row' =>
    key_value key row = key_value key row' -> no_null (key_value key row) -> i = j) rows) rows.

Definition foreign_keys (t : Table) : list (string * string * string) :=
  omap (fun c => match c with
    | ForeignKeyConstraint column table target _ _ => Some (column, table, target)
    | _ => None end) (table_constraints t).
Definition reference_holds (data : string -> gmap uuid Row) (rows : gmap uuid Row)
    (fk : string * string * string) : Prop :=
  let '(column, table, target) := fk in
  map_Forall (fun _ row => field column row = VNull \/
    exists j row', data table !! j = Some row' /\ field target row' = field column row) rows.

(** [data] gives the rows of each table, by an identity of the rows. *)
Definition table_holds (data : string -> gmap uuid Row) (name : string) (t : Table) : Prop :=
  map_Forall (fun _ row => row_holds t row = true) (data name) /\
  Forall (fun key => unique_rows key (data name)) (unique_keys t) /\
  Forall (reference_holds data (data name)) (foreign_keys t).
Definition enforced (c : Catalog) (data : string -> gmap uuid Row) : Prop :=
  Forall (fun nt => table_holds data nt.1 nt.2) (catalog_tables c).

(** ** Deletion of a row, with the [ON DELETE] actions of the foreign keys *)

(** Table, column, target table and column, and action of every foreign key. *)
Definition foreign_actions (c : Catalog) : list (string * string * string * string * OnDelete) :=
  List.concat (map (fun nt => omap (fun k => match k with
    | ForeignKeyConstraint column table target _ action => Some (nt.1, column, table, target, action)
    | _ => None end) (table_constraints nt.2)) (catalog_tables c)).

Section Deletion.
Variables (c : Catalog) (data : string -> gmap uuid Row) (table : string) (i : uuid).

(** A column of a row that names the row [k] of a target table. *)
Definition refers (target_table target column : string) (row : Row) (k : uuid) : Prop :=
  field column row <> VNull /\
  exists row', data target_table !! k = Some row' /\ field target row' = field column row.

(** The rows that are deleted with the row [i] of the table. *)
Inductive doomed : string -> uuid -> Prop :=
| doomed_root : doomed table i
| doomed_cascade s column t target j row k :
    (s, column, t, target, CASCADE) ∈ foreign_actions c -> data s !! j = Some row ->
    refers t target column row k -> doomed t k -> doomed s j.

(** A reference that is set to null. *)
Definition cleared (s column : string) (row : Row) : Prop :=
  exists t target k, (s, column, t, target, SET_NULL) ∈ foreign_actions c /\
    refers t target column row k /\ doomed t k.
(** A reference that forbids the deletion. *)
Definition restricted : Prop :=
  exists s column t target j row k, (s, column, t, target, RESTRICT) ∈ foreign_actions c /\
    data s !! j = Some row /\ refers t target column row k /\ doomed t k.

(** [data'] is what the deletion leaves. *)
Definition deleted (data' : string -> gmap uuid Row) : Prop :=
  forall s j,
    (doomed s j -> data' s !! j = None) /\
    (~ doomed s j ->
     match data s !! j with
     | None => data' s !! j = None
     | Some row => exists row', data' s !! j = Some row' /\ forall column,
         (cleared s column row -> field column row' = VNull) /\
         (~ cleared s column row -> field column row' = field column row)
     end).
End Deletion.
