(* ===== verification/InitialSchema.v ===== *)
(** * InitialSchema: the migration that creates the database (migrations/versions/e669afab6842)

    [upgrade] and [downgrade], a definition per table: its columns, its constraints, and the
    creation of the table with its indexes. *)
From S2P Require Import Prelude Text Ddl.
From Stdlib Require Import String.
Open Scope string_scope.

Definition databases_columns : list Column :=
  [mkColumn "id" Uuid None false;
   mkColumn "name" (Varchar 255) None false;
   mkColumn "instance_max" Integer None false;
   mkColumn "host" (Varchar 255) None false;
   mkColumn "port" Integer (Some "5432") false;
   mkColumn "database_name" (Varchar 255) None false;
   mkColumn "username" (Varchar 255) None false;
   mkColumn "password_enc" LargeBinary None false;
   mkColumn "created_at" Timestamp (Some "now()") false;
   mkColumn "updated_at" Timestamp (Some "now()") false].
Definition databases_constraints : list Constraint :=
  [CheckConstraint (Above (Col "instance_max") (IntLit 0)) "ck_databases_instance_max_positive";
   CheckConstraint (Above (Length (Trim (Col "database_name"))) (IntLit 0))
      "ck_databases_database_name_not_empty";
   CheckConstraint (Above (Length (Trim (Col "host"))) (IntLit 0)) "ck_databases_host_not_empty";
   CheckConstraint (Above (Length (Trim (Col "name"))) (IntLit 0)) "ck_databases_name_not_empty";
   CheckConstraint (Above (Length (Trim (Col "username"))) (IntLit 0))
      "ck_databases_username_not_empty";
   CheckConstraint (And (AtLeast (Col "port") (IntLit 1)) (AtMost (Col "port") (IntLit 65535)))
      "ck_databases_port_valid";
   PrimaryKeyConstraint "id" "pk_databases"].
Definition create_databases : list Ddl :=
  [create_table "databases" databases_columns databases_constraints;
   create_index "uq_databases_name_ci" "databases" [Lower (Col "name")] true].

Definition job_executions_columns : list Column :=
  [mkColumn "id" Uuid None false;
   mkColumn "name" (Varchar 255) None false;
   mkColumn "task_name" (Varchar 255) None false;
   mkColumn "resource_type" (Varchar 64) None true;
   mkColumn "resource_id" Uuid None true;
   mkColumn "step" (Varchar 255) None false;
   mkColumn "status" (EnumType "job_status" ["pending"; "running"; "success"; "error"])
      (Some "pending") false;
   mkColumn "attempt" Integer (Some "0") false;
   mkColumn "claimed_at" Timestamp None true;
   mkColumn "created_at" Timestamp (Some "now()") false;
   mkColumn "updated_at" Timestamp (Some "now()") false].
Definition job_executions_constraints : list Constraint :=
  [CheckConstraint (AtLeast (Col "attempt") (IntLit 0)) "ck_job_executions_attempt_non_negative";
   CheckConstraint (Above (Length (Trim (Col "name"))) (IntLit 0))
      "ck_job_executions_name_not_empty";
   CheckConstraint (Above (Length (Trim (Col "step"))) (IntLit 0))
      "ck_job_executions_step_not_empty";
   CheckConstraint (Above (Length (Trim (Col "task_name"))) (IntLit 0))
      "ck_job_executions_task_name_not_empty";
   PrimaryKeyConstraint "id" "pk_job_executions"].
Definition create_job_executions : list Ddl :=
  [create_table "job_executions" job_executions_columns job_executions_constraints;
   create_index "ix_job_executions_retry" "job_executions" [Col "status"; Col "claimed_at"] false].

Definition instances_columns : list Column :=
  [mkColumn "id" Uuid None false;
   mkColumn "application" (Varchar 255) None false;
   mkColumn "slug" (Varchar 12) None false;
   mkColumn "action" (Varchar 255) (Some "creating") false;
   mkColumn "status" (EnumType "instance_status" ["pending"; "running"; "success"; "error"])
      (Some "pending") false;
   mkColumn "state" (EnumType "instance_state" ["started"; "stopped"]) None false;
   mkColumn "password_enc" LargeBinary None true;
   mkColumn "password_candidate_enc" LargeBinary None true;
   mkColumn "argocd_application_name" (Varchar 63) None true;
   mkColumn "job_id" Uuid None true;
   mkColumn "step" (Varchar 255) None true;
   mkColumn "created_at" Timestamp (Some "now()") false;
   mkColumn "updated_at" Timestamp (Some "now()") false].
Definition instances_constraints : list Constraint :=
  [CheckConstraint (Equal (Col "application") (Upper (Trim (Col "application"))))
      "ck_instances_application_normalized";
   CheckConstraint (Above (Length (Trim (Col "action"))) (IntLit 0))
      "ck_instances_action_not_empty";
   CheckConstraint (Above (Length (Trim (Col "application"))) (IntLit 0))
      "ck_instances_application_not_empty";
   ForeignKeyConstraint "job_id" "job_executions" "id" "fk_instances_job_id_job_executions"
      SET_NULL;
   PrimaryKeyConstraint "id" "pk_instances";
   UniqueConstraint ["application"] "uq_instances_application";
   UniqueConstraint ["argocd_application_name"] "uq_instances_argocd_application_name";
   UniqueConstraint ["slug"] "uq_instances_slug"].
Definition create_instances : list Ddl :=
  [create_table "instances" instances_columns instances_constraints;
   create_index "ix_instances_application" "instances" [Col "application"] false;
   create_index "ix_instances_job_id" "instances" [Col "job_id"] false].

Definition templates_columns : list Column :=
  [mkColumn "id" Uuid None false;
   mkColumn "display_name" (Varchar 255) None false;
   mkColumn "name" (Varchar 64) None false;
   mkColumn "git_url" (Varchar 2048) None false;
   mkColumn "source_path" (Varchar 1024) None false;
   mkColumn "branch" (Varchar 255) None false;
   mkColumn "modules" JsonType None false;
   mkColumn "system_parameter_revision" Integer (Some "0") false;
   mkColumn "action" (Varchar 255) (Some "created") false;
   mkColumn "sync_status" (EnumType "template_sync_status" ["pending"; "running"; "success";
      "error"]) (Some "success") false;
   mkColumn "job_id" Uuid None true;
   mkColumn "step" (Varchar 255) None true;
   mkColumn "created_at" Timestamp (Some "now()") false;
   mkColumn "updated_at" Timestamp (Some "now()") false].
Definition templates_constraints : list Constraint :=
  [CheckConstraint (Above (Length (Trim (Col "action"))) (IntLit 0))
      "ck_templates_action_not_empty";
   CheckConstraint (Above (Length (Trim (Col "branch"))) (IntLit 0))
      "ck_templates_branch_not_empty";
   CheckConstraint (Above (Length (Trim (Col "display_name"))) (IntLit 0))
      "ck_templates_display_name_not_empty";
   CheckConstraint (Above (Length (Trim (Col "git_url"))) (IntLit 0))
      "ck_templates_git_url_not_empty";
   CheckConstraint (Above (Length (Trim (Col "name"))) (IntLit 0)) "ck_templates_name_not_empty";
   CheckConstraint (Above (Length (Trim (Col "source_path"))) (IntLit 0))
      "ck_templates_source_path_not_empty";
   CheckConstraint (Equal (Col "name") (Lower (Trim (Col "name")))) "ck_templates_name_normalized";
   CheckConstraint (AtLeast (Col "system_parameter_revision") (IntLit 0))
      "ck_templates_system_parameter_revision_non_negative";
   ForeignKeyConstraint "job_id" "job_executions" "id" "fk_templates_job_id_job_executions"
      SET_NULL;
   PrimaryKeyConstraint "id" "pk_templates"].
Definition create_templates : list Ddl :=
  [create_table "templates" templates_columns templates_constraints;
   create_index "ix_templates_job_id" "templates" [Col "job_id"] false;
   create_index "uq_templates_name_ci" "templates" [Lower (Col "name")] true].

Definition database_allocations_columns : list Column :=
  [mkColumn "id" Uuid None false;
   mkColumn "database_id" Uuid None false;
   mkColumn "instance_id" Uuid None false;
   mkColumn "schema_name" (Varchar 63) None false;
   mkColumn "created_at" Timestamp (Some "now()") false].
Definition database_allocations_constraints : list Constraint :=
  [CheckConstraint (Above (Length (Trim (Col "schema_name"))) (IntLit 0))
      "ck_database_allocations_schema_name_not_empty";
   ForeignKeyConstraint "database_id" "databases" "id"
      "fk_database_allocations_database_id_databases" RESTRICT;
   ForeignKeyConstraint "instance_id" "instances" "id"
      "fk_database_allocations_instance_id_instances" RESTRICT;
   PrimaryKeyConstraint "id" "pk_database_allocations";
   UniqueConstraint ["database_id"; "schema_name"] "uq_database_allocations_database_schema";
   UniqueConstraint ["instance_id"] "uq_database_allocations_instance_id"].
Definition create_database_allocations : list Ddl :=
  [create_table "database_allocations" database_allocations_columns
      database_allocations_constraints;
   create_index "ix_database_allocations_database_id" "database_allocations" [Col "database_id"]
      false].

Definition instance_kubernetes_columns : list Column :=
  [mkColumn "instance_id" Uuid None false;
   mkColumn "kubeconfig_enc" LargeBinary None false;
   mkColumn "created_at" Timestamp (Some "now()") false;
   mkColumn "updated_at" Timestamp (Some "now()") false].
Definition instance_kubernetes_constraints : list Constraint :=
  [ForeignKeyConstraint "instance_id" "instances" "id"
      "fk_instance_kubernetes_instance_id_instances" CASCADE;
   PrimaryKeyConstraint "instance_id" "pk_instance_kubernetes"].
Definition create_instance_kubernetes : list Ddl :=
  [create_table "instance_kubernetes" instance_kubernetes_columns instance_kubernetes_constraints].

Definition members_columns : list Column :=
  [mkColumn "id" Uuid None false;
   mkColumn "instance_id" Uuid None false;
   mkColumn "username" (Varchar 255) None false;
   mkColumn "role" (EnumType "member_role" ["user"; "admin"]) None false;
   mkColumn "action" (Varchar 255) (Some "creating") false;
   mkColumn "status" (EnumType "member_status" ["pending"; "running"; "success"; "error"])
      (Some "pending") false;
   mkColumn "created_at" Timestamp (Some "now()") false;
   mkColumn "updated_at" Timestamp (Some "now()") false].
Definition members_constraints : list Constraint :=
  [CheckConstraint (Above (Length (Trim (Col "action"))) (IntLit 0)) "ck_members_action_not_empty";
   CheckConstraint (Above (Length (Trim (Col "username"))) (IntLit 0))
      "ck_members_username_not_empty";
   CheckConstraint (Equal (Col "username") (Lower (Trim (Col "username"))))
      "ck_members_username_normalized";
   ForeignKeyConstraint "instance_id" "instances" "id" "fk_members_instance_id_instances" CASCADE;
   PrimaryKeyConstraint "id" "pk_members";
   UniqueConstraint ["instance_id"; "username"] "uq_members_instance_username"].
Definition create_members : list Ddl :=
  [create_table "members" members_columns members_constraints;
   create_index "ix_members_instance_id" "members" [Col "instance_id"] false].

Definition template_assignments_columns : list Column :=
  [mkColumn "id" Uuid None false;
   mkColumn "template_id" Uuid None false;
   mkColumn "instance_id" Uuid None false;
   mkColumn "action" (Varchar 255) (Some "creating") false;
   mkColumn "status" (EnumType "template_assignment_status" ["pending"; "running"; "success";
      "error"]) (Some "pending") false;
   mkColumn "job_id" Uuid None true;
   mkColumn "step" (Varchar 255) None true;
   mkColumn "created_at" Timestamp (Some "now()") false;
   mkColumn "updated_at" Timestamp (Some "now()") false].
Definition template_assignments_constraints : list Constraint :=
  [CheckConstraint (InList (Col "action") ["creating"; "created"; "deleting"])
      "ck_template_assignments_action_valid";
   ForeignKeyConstraint "instance_id" "instances" "id"
      "fk_template_assignments_instance_id_instances" CASCADE;
   ForeignKeyConstraint "job_id" "job_executions" "id"
      "fk_template_assignments_job_id_job_executions" SET_NULL;
   ForeignKeyConstraint "template_id" "templates" "id"
      "fk_template_assignments_template_id_templates" RESTRICT;
   PrimaryKeyConstraint "id" "pk_template_assignments";
   UniqueConstraint ["template_id"; "instance_id"] "uq_template_assignments_template_instance"].
Definition create_template_assignments : list Ddl :=
  [create_table "template_assignments" template_assignments_columns
      template_assignments_constraints;
   create_index "ix_template_assignments_instance_id" "template_assignments" [Col "instance_id"]
      false;
   create_index "ix_template_assignments_job_id" "template_assignments" [Col "job_id"] false;
   create_index "ix_template_assignments_template_id" "template_assignments" [Col "template_id"]
      false].

Definition template_images_columns : list Column :=
  [mkColumn "id" Uuid None false;
   mkColumn "template_id" Uuid None false;
   mkColumn "registry" (Varchar 255) None false;
   mkColumn "name" (Varchar 255) None false;
   mkColumn "version" (Varchar 255) None false;
   mkColumn "created_at" Timestamp (Some "now()") false].
Definition template_images_constraints : list Constraint :=
  [CheckConstraint (Above (Length (Trim (Col "name"))) (IntLit 0))
      "ck_template_images_name_not_empty";
   CheckConstraint (Above (Length (Trim (Col "registry"))) (IntLit 0))
      "ck_template_images_registry_not_empty";
   CheckConstraint (Above (Length (Trim (Col "version"))) (IntLit 0))
      "ck_template_images_version_not_empty";
   CheckConstraint (Equal (Col "name") (Lower (Trim (Col "name"))))
      "ck_template_images_name_normalized";
   CheckConstraint (Equal (Col "registry") (Lower (Trim (Col "registry"))))
      "ck_template_images_registry_normalized";
   ForeignKeyConstraint "template_id" "templates" "id" "fk_template_images_template_id_templates"
      CASCADE;
   PrimaryKeyConstraint "id" "pk_template_images";
   UniqueConstraint ["template_id"; "registry"; "name"; "version"] "uq_template_images_reference"].
Definition create_template_images : list Ddl :=
  [create_table "template_images" template_images_columns template_images_constraints;
   create_index "ix_template_images_template_id" "template_images" [Col "template_id"] false].

Definition template_parameters_columns : list Column :=
  [mkColumn "id" Uuid None false;
   mkColumn "template_id" Uuid None false;
   mkColumn "type" (EnumType "template_parameter_type" ["user"; "system"]) None false;
   mkColumn "name" (Varchar 64) None false;
   mkColumn "display_name" (Varchar 255) None false;
   mkColumn "description" Text (Some "") false;
   mkColumn "required" Boolean None true;
   mkColumn "mutable" Boolean None true;
   mkColumn "default_value" Text None true;
   mkColumn "created_at" Timestamp (Some "now()") false;
   mkColumn "updated_at" Timestamp (Some "now()") false].
Definition template_parameters_constraints : list Constraint :=
  [CheckConstraint (Or (And (And (Equal (Col "type") (TextLit "user")) (IsNotNull (Col
      "required"))) (IsNotNull (Col "mutable"))) (And (And (And (Equal (Col "type") (TextLit
      "system")) (IsNull (Col "required"))) (IsNull (Col "mutable"))) (IsNull (Col
      "default_value")))) "ck_template_parameters_type_fields_consistent";
   CheckConstraint (Above (Length (Trim (Col "display_name"))) (IntLit 0))
      "ck_template_parameters_display_name_not_empty";
   CheckConstraint (Above (Length (Trim (Col "name"))) (IntLit 0))
      "ck_template_parameters_name_not_empty";
   CheckConstraint (Equal (Col "name") (Lower (Trim (Col "name"))))
      "ck_template_parameters_name_normalized";
   ForeignKeyConstraint "template_id" "templates" "id"
      "fk_template_parameters_template_id_templates" CASCADE;
   PrimaryKeyConstraint "id" "pk_template_parameters";
   UniqueConstraint ["template_id"; "name"] "uq_template_parameters_template_name"].
Definition create_template_parameters : list Ddl :=
  [create_table "template_parameters" template_parameters_columns template_parameters_constraints;
   create_index "ix_template_parameters_template_id" "template_parameters" [Col "template_id"]
      false].

Definition template_deployments_columns : list Column :=
  [mkColumn "id" Uuid None false;
   mkColumn "assignment_id" Uuid None false;
   mkColumn "coder_organization_id" Uuid None true;
   mkColumn "coder_template_id" Uuid None true;
   mkColumn "coder_template_version_id" Uuid None true;
   mkColumn "target_commit" (Varchar 40) None true;
   mkColumn "applied_commit" (Varchar 40) None true;
   mkColumn "target_system_parameter_revision" Integer None true;
   mkColumn "applied_system_parameter_revision" Integer None true;
   mkColumn "status" (EnumType "template_deployment_status" ["pending"; "running"; "success";
      "error"]) (Some "pending") false;
   mkColumn "created_at" Timestamp (Some "now()") false;
   mkColumn "updated_at" Timestamp (Some "now()") false].
Definition template_deployments_constraints : list Constraint :=
  [CheckConstraint (Or (IsNull (Col "applied_commit")) (Equal (Length (Col "applied_commit"))
      (IntLit 40))) "ck_template_deployments_applied_commit_sha";
   CheckConstraint (Or (IsNull (Col "applied_system_parameter_revision")) (AtLeast (Col
      "applied_system_parameter_revision") (IntLit 0)))
      "ck_template_deployments_applied_system_parameter_revision_non_negative";
   CheckConstraint (Or (IsNull (Col "target_commit")) (Equal (Length (Col "target_commit")) (IntLit
      40))) "ck_template_deployments_target_commit_sha";
   CheckConstraint (Or (IsNull (Col "target_system_parameter_revision")) (AtLeast (Col
      "target_system_parameter_revision") (IntLit 0)))
      "ck_template_deployments_target_system_parameter_revision_non_negative";
   ForeignKeyConstraint "assignment_id" "template_assignments" "id"
      "fk_template_deployments_assignment_id_template_assignments" CASCADE;
   PrimaryKeyConstraint "id" "pk_template_deployments"].
Definition create_template_deployments : list Ddl :=
  [create_table "template_deployments" template_deployments_columns
      template_deployments_constraints;
   create_index "ix_template_deployments_assignment_id" "template_deployments" [Col
      "assignment_id"] true].

Definition template_parameter_system_values_columns : list Column :=
  [mkColumn "parameter_id" Uuid None false;
   mkColumn "value_enc" LargeBinary None false].
Definition template_parameter_system_values_constraints : list Constraint :=
  [ForeignKeyConstraint "parameter_id" "template_parameters" "id"
      "fk_template_parameter_system_values_parameter_id_template_parameters" CASCADE;
   PrimaryKeyConstraint "parameter_id" "pk_template_parameter_system_values"].
Definition create_template_parameter_system_values : list Ddl :=
  [create_table "template_parameter_system_values" template_parameter_system_values_columns
      template_parameter_system_values_constraints].

Definition workspaces_columns : list Column :=
  [mkColumn "id" Uuid None false;
   mkColumn "name" (Varchar 32) None false;
   mkColumn "instance_id" Uuid None false;
   mkColumn "template_id" Uuid None false;
   mkColumn "member_id" Uuid None false;
   mkColumn "image_id" Uuid None false;
   mkColumn "modules" JsonType None false;
   mkColumn "parameters" JsonType (Some "{}") false;
   mkColumn "parameters_revision" Integer (Some "0") false;
   mkColumn "applied_parameters_revision" Integer None true;
   mkColumn "coder_workspace_id" Uuid None true;
   mkColumn "coder_workspace_build_id" Uuid None true;
   mkColumn "action" (Varchar 255) (Some "creating") false;
   mkColumn "status" (EnumType "workspace_status" ["pending"; "running"; "success"; "error"])
      (Some "pending") false;
   mkColumn "job_id" Uuid None true;
   mkColumn "step" (Varchar 255) None true;
   mkColumn "created_at" Timestamp (Some "now()") false;
   mkColumn "updated_at" Timestamp (Some "now()") false].
Definition workspaces_constraints : list Constraint :=
  [CheckConstraint (Or (IsNull (Col "applied_parameters_revision")) (AtLeast (Col
      "applied_parameters_revision") (IntLit 0)))
      "ck_workspaces_applied_parameters_revision_non_negative";
   CheckConstraint (AtMost (Length (Col "name")) (IntLit 32)) "ck_workspaces_name_length";
   CheckConstraint (Above (Length (Trim (Col "action"))) (IntLit 0))
      "ck_workspaces_action_not_empty";
   CheckConstraint (Above (Length (Trim (Col "name"))) (IntLit 0)) "ck_workspaces_name_not_empty";
   CheckConstraint (AtLeast (Col "parameters_revision") (IntLit 0))
      "ck_workspaces_parameters_revision_non_negative";
   ForeignKeyConstraint "image_id" "template_images" "id" "fk_workspaces_image_id_template_images"
      RESTRICT;
   ForeignKeyConstraint "instance_id" "instances" "id" "fk_workspaces_instance_id_instances"
      CASCADE;
   ForeignKeyConstraint "job_id" "job_executions" "id" "fk_workspaces_job_id_job_executions"
      SET_NULL;
   ForeignKeyConstraint "member_id" "members" "id" "fk_workspaces_member_id_members" CASCADE;
   ForeignKeyConstraint "template_id" "templates" "id" "fk_workspaces_template_id_templates"
      RESTRICT;
   PrimaryKeyConstraint "id" "pk_workspaces"].
Definition create_workspaces : list Ddl :=
  [create_table "workspaces" workspaces_columns workspaces_constraints;
   create_index "ix_workspaces_image_id" "workspaces" [Col "image_id"] false;
   create_index "ix_workspaces_instance_id" "workspaces" [Col "instance_id"] false;
   create_index "ix_workspaces_job_id" "workspaces" [Col "job_id"] false;
   create_index "ix_workspaces_member_id" "workspaces" [Col "member_id"] false;
   create_index "ix_workspaces_template_id" "workspaces" [Col "template_id"] false;
   create_index "uq_workspaces_instance_name_ci" "workspaces" [Col "instance_id"; Lower (Col
      "name")] true].

Definition upgrade : list Ddl :=
  (create_databases ++
   create_job_executions ++
   create_instances ++
   create_templates ++
   create_database_allocations ++
   create_instance_kubernetes ++
   create_members ++
   create_template_assignments ++
   create_template_images ++
   create_template_parameters ++
   create_template_deployments ++
   create_template_parameter_system_values ++
   create_workspaces)%list.

Definition ENUM_NAMES : list string :=
  ["instance_state"; "instance_status"; "job_status"; "member_role"; "member_status";
     "template_assignment_status"; "template_deployment_status"; "template_parameter_type";
     "template_sync_status"; "workspace_status"].
Definition downgrade : list Ddl :=
  ([drop_index "uq_workspaces_instance_name_ci" "workspaces";
   drop_index "ix_workspaces_template_id" "workspaces";
   drop_index "ix_workspaces_member_id" "workspaces";
   drop_index "ix_workspaces_job_id" "workspaces";
   drop_index "ix_workspaces_instance_id" "workspaces";
   drop_index "ix_workspaces_image_id" "workspaces";
   drop_table "workspaces";
   drop_table "template_parameter_system_values";
   drop_index "ix_template_deployments_assignment_id" "template_deployments";
   drop_table "template_deployments";
   drop_index "ix_template_parameters_template_id" "template_parameters";
   drop_table "template_parameters";
   drop_index "ix_template_images_template_id" "template_images";
   drop_table "template_images";
   drop_index "ix_template_assignments_template_id" "template_assignments";
   drop_index "ix_template_assignments_job_id" "template_assignments";
   drop_index "ix_template_assignments_instance_id" "template_assignments";
   drop_table "template_assignments";
   drop_index "ix_members_instance_id" "members";
   drop_table "members";
   drop_table "instance_kubernetes";
   drop_index "ix_database_allocations_database_id" "database_allocations";
   drop_table "database_allocations";
   drop_index "uq_templates_name_ci" "templates";
   drop_index "ix_templates_job_id" "templates";
   drop_table "templates";
   drop_index "ix_instances_job_id" "instances";
   drop_index "ix_instances_application" "instances";
   drop_table "instances";
   drop_index "ix_job_executions_retry" "job_executions";
   drop_table "job_executions";
   drop_index "uq_databases_name_ci" "databases";
   drop_table "databases"] ++
   map drop_enum ENUM_NAMES)%list.
