(* ===== verification/SchemaRows.v ===== *)
(** * SchemaRows: the rows of a store as SQL rows

    What the mapped classes of models/ store in the columns of each table: the names of the
    columns, and the values of enums. [stamp] gives the audit columns, which the model leaves
    out. *)
From S2P Require Import Prelude Text Models Store Json Ddl.
From Stdlib Require Import Ascii String.
Open Scope string_scope.

(** [StrEnum] values *)
Definition status_value (s : Status) : Value :=
  VText match s with
        | PENDING => "pending" | RUNNING => "running" | SUCCESS => "success" | ERROR => "error"
        end.
Definition state_value (s : InstanceState) : Value :=
  VText match s with STARTED => "started" | STOPPED => "stopped" end.
Definition role_value (r : MemberRole) : Value :=
  VText match r with USER => "user" | ADMIN => "admin" end.
Definition parameter_type_value (t : TemplateParameterType) : Value :=
  VText match t with TYPE_USER => "user" | TYPE_SYSTEM => "system" end.
Definition or_null {A} (f : A -> Value) (o : option A) : Value :=
  match o with Some a => f a | None => VNull end.
Definition json_texts (l : list string) : Value := VJson (JArray (map JString l)).

Section Rows.
Variable stamp : string -> uuid -> string -> time.

Definition audit (table : string) (i : uuid) : Row :=
  [("created_at", VTime (stamp table i "created_at"));
   ("updated_at", VTime (stamp table i "updated_at"))].

Definition database_row (i : uuid) (r : Database) : Row := app
  [("id", VUuid i); ("name", VText (base_name r)); ("instance_max", VInt (base_instance_max r));
   ("host", VText (base_host r)); ("port", VInt (base_port r));
   ("database_name", VText (base_database_name r)); ("username", VText (base_username r));
   ("password_enc", VBytes (base_password_enc r))] (audit "databases" i).

Definition job_row (i : uuid) (r : JobExecution) : Row :=
  [("id", VUuid i); ("name", VText (job_name r)); ("task_name", VText (job_task_name r));
   ("resource_type", or_null VText (job_resource_type r));
   ("resource_id", or_null VUuid (job_resource_id r)); ("step", VText (job_step r));
   ("status", status_value (job_status r)); ("attempt", VInt (job_attempt r));
   ("claimed_at", or_null VTime (job_claimed_at r)); ("created_at", VTime (job_created_at r));
   ("updated_at", VTime (stamp "job_executions" i "updated_at"))].

Definition instance_row (i : uuid) (r : CoderInstance) : Row := app
  [("id", VUuid i); ("application", VText (inst_application r)); ("slug", VText (inst_slug r));
   ("action", VText (inst_action r)); ("status", status_value (inst_status r));
   ("state", state_value (inst_state r)); ("password_enc", or_null VBytes (inst_password_enc r));
   ("password_candidate_enc", or_null VBytes (inst_password_candidate_enc r));
   ("argocd_application_name", or_null VText (inst_argocd_application_name r));
   ("job_id", or_null VUuid (inst_job_id r)); ("step", or_null VText (inst_step r))]
  (audit "instances" i).

Definition template_row (i : uuid) (r : Template) : Row := app
  [("id", VUuid i); ("display_name", VText (tpl_display_name r)); ("name", VText (tpl_name r));
   ("git_url", VText (tpl_git_url r)); ("source_path", VText (tpl_source_path r));
   ("branch", VText (tpl_branch r)); ("modules", json_texts (tpl_modules r));
   ("system_parameter_revision", VInt (tpl_system_parameter_revision r));
   ("action", VText (tpl_action r)); ("sync_status", status_value (tpl_sync_status r));
   ("job_id", or_null VUuid (tpl_job_id r)); ("step", or_null VText (tpl_step r))]
  (audit "templates" i).

Definition allocation_row (i : uuid) (r : DatabaseAllocation) : Row :=
  [("id", VUuid i); ("database_id", VUuid (alloc_database_id r));
   ("instance_id", VUuid (alloc_instance_id r)); ("schema_name", VText (alloc_schema_name r));
   ("created_at", VTime (stamp "database_allocations" i "created_at"))].

Definition kubernetes_row (i : uuid) (r : InstanceKubernetes) : Row := app
  [("instance_id", VUuid i); ("kubeconfig_enc", VBytes (kube_kubeconfig_enc r))]
  (audit "instance_kubernetes" i).

Definition member_row (i : uuid) (r : Member) : Row := app
  [("id", VUuid i); ("instance_id", VUuid (mem_instance_id r)); ("username", VText (mem_username r));
   ("role", role_value (mem_role r)); ("action", VText (mem_action r));
   ("status", status_value (mem_status r))] (audit "members" i).

Definition assignment_row (i : uuid) (r : TemplateAssignment) : Row := app
  [("id", VUuid i); ("template_id", VUuid (asg_template_id r));
   ("instance_id", VUuid (asg_instance_id r)); ("action", VText (asg_action r));
   ("status", status_value (asg_status r)); ("job_id", or_null VUuid (asg_job_id r));
   ("step", or_null VText (asg_step r))] (audit "template_assignments" i).

Definition image_row (i : uuid) (r : TemplateImage) : Row :=
  [("id", VUuid i); ("template_id", VUuid (img_template_id r));
   ("registry", VText (img_registry_name r)); ("name", VText (img_name r));
   ("version", VText (img_version r));
   ("created_at", VTime (stamp "template_images" i "created_at"))].

Definition parameter_row (i : uuid) (r : TemplateParameter) : Row := app
  [("id", VUuid i); ("template_id", VUuid (par_template_id r));
   ("type", parameter_type_value (par_type r)); ("name", VText (par_name r));
   ("display_name", VText (par_display_name r)); ("description", VText (par_description r));
   ("required", or_null VBool (par_required r)); ("mutable", or_null VBool (par_mutable r));
   ("default_value", or_null VText (par_default_value r))] (audit "template_parameters" i).
Definition system_value_row (i : uuid) (value : bytes) : Row :=
  [("parameter_id", VUuid i); ("value_enc", VBytes value)].

Definition deployment_row (i : uuid) (r : TemplateDeployment) : Row := app
  [("id", VUuid i); ("assignment_id", VUuid (dep_assignment_id r));
   ("coder_organization_id", or_null VUuid (dep_coder_organization_id r));
   ("coder_template_id", or_null VUuid (dep_coder_template_id r));
   ("coder_template_version_id", or_null VUuid (dep_coder_template_version_id r));
   ("target_commit", or_null VText (dep_target_commit r));
   ("applied_commit", or_null VText (dep_applied_commit r));
   ("target_system_parameter_revision", or_null VInt (dep_target_system_parameter_revision r));
   ("applied_system_parameter_revision", or_null VInt (dep_applied_system_parameter_revision r));
   ("status", status_value (dep_status r))] (audit "template_deployments" i).

Definition workspace_row (i : uuid) (r : Workspace) : Row := app
  [("id", VUuid i); ("name", VText (ws_name r)); ("instance_id", VUuid (ws_instance_id r));
   ("template_id", VUuid (ws_template_id r)); ("member_id", VUuid (ws_member_id r));
   ("image_id", VUuid (ws_image_id r)); ("modules", json_texts (ws_modules r));
   ("parameters",
    VJson (JObject (map (fun kv => (kv.1, JString kv.2)) (map_to_list (ws_parameters r)))));
   ("parameters_revision", VInt (ws_parameters_revision r));
   ("applied_parameters_revision", or_null VInt (ws_applied_parameters_revision r));
   ("coder_workspace_id", or_null VUuid (ws_coder_workspace_id r));
   ("coder_workspace_build_id", or_null VUuid (ws_coder_workspace_build_id r));
   ("action", VText (ws_action r)); ("status", status_value (ws_status r));
   ("job_id", or_null VUuid (ws_job_id r)); ("step", or_null VText (ws_step r))]
  (audit "workspaces" i).

Definition rows_of {R} (f : uuid -> R -> Row) (m : gmap uuid R) : gmap uuid Row :=
  map_imap (fun i r => Some (f i r)) m.
Definition system_values (d : Store) : gmap uuid bytes := omap par_system_value (parameters d).

(** The rows of every table. *)
Definition sql_rows (d : Store) (table : string) : gmap uuid Row :=
  if String.eqb table "databases" then rows_of database_row (databases d)
  else if String.eqb table "job_executions" then rows_of job_row (jobs d)
  else if String.eqb table "instances" then rows_of instance_row (instances d)
  else if String.eqb table "templates" then rows_of template_row (templates d)
  else if String.eqb table "database_allocations" then rows_of allocation_row (allocations d)
  else if String.eqb table "instance_kubernetes" then rows_of kubernetes_row (kubernetes d)
  else if String.eqb table "members" then rows_of member_row (members d)
  else if String.eqb table "template_assignments" then rows_of assignment_row (assignments d)
  else if String.eqb table "template_images" then rows_of image_row (images d)
  else if String.eqb table "template_parameters" then rows_of parameter_row (parameters d)
  else if String.eqb table "template_deployments" then rows_of deployment_row (deployments d)
  else if String.eqb table "template_parameter_system_values"
    then rows_of system_value_row (system_values d)
  else if String.eqb table "workspaces" then rows_of workspace_row (workspaces d)
  else ∅.
End Rows.
