(* ===== verification/SchemaEquivalence.v ===== *)
(** * SchemaEquivalence: the migrated schema enforces the constraints of the models *)
From S2P Require Import Prelude Text Models Store Json Ddl InitialSchema SchemaRows.
From Stdlib Require Import Ascii String.
Open Scope string_scope.

(** ** Row conditions *)
Lemma length_trimmed s : Z.ltb 0 (sql_length (sql_trim s)) = not_blank s.
Proof.
  unfold sql_length, not_blank. case_bool_decide as E; cbn [negb].
  - by rewrite E.
  - apply Z.ltb_lt. lia.
Qed.
Lemma length_at_most s n : (0 < n)%nat -> Z.leb (sql_length s) (Z.of_nat n) = Nat.leb (py_len s) n.
Proof.
  intros Hn. apply eq_true_iff_eq. rewrite Z.leb_le, Nat.leb_le. unfold sql_length.
  case_bool_decide as E; [| lia]. subst. cbn. lia.
Qed.
Lemma length_is s n : (1 < n)%nat -> Z.eqb (sql_length s) (Z.of_nat n) = Nat.eqb (py_len s) n.
Proof.
  intros Hn. apply eq_true_iff_eq. rewrite Z.eqb_eq, Nat.eqb_eq. unfold sql_length.
  case_bool_decide as E; [| lia]. subst. cbn. lia.
Qed.
Lemma length_at_most_32 s : Z.leb (sql_length s) 32 = Nat.leb (py_len s) 32.
Proof. apply (length_at_most s 32). lia. Qed.
Lemma length_is_40 s : Z.eqb (sql_length s) 40 = Nat.eqb (py_len s) 40.
Proof. apply (length_is s 40). lia. Qed.
Lemma satisfied_some b : satisfied (Some b) = b.
Proof. by destruct b. Qed.

Ltac row_eval :=
  cbv [row_holds checks omap list_omap forallb column_holds field String.eqb Ascii.eqb Bool.eqb
       table_columns table_constraints eval eval_term on_text equal3 int_test app audit
       column_name column_type nullable
       databases_columns job_executions_columns instances_columns templates_columns
       database_allocations_columns instance_kubernetes_columns members_columns
       template_assignments_columns template_images_columns template_parameters_columns
       template_deployments_columns template_parameter_system_values_columns workspaces_columns
       databases_constraints job_executions_constraints instances_constraints
       templates_constraints database_allocations_constraints instance_kubernetes_constraints
       members_constraints template_assignments_constraints template_images_constraints
       template_parameters_constraints template_deployments_constraints
       template_parameter_system_values_constraints workspaces_constraints database_row job_row
       instance_row template_row allocation_row kubernetes_row member_row assignment_row
       image_row parameter_row system_value_row deployment_row workspace_row].
Lemma and3_some a b : and3 (Some a) (Some b) = Some (a && b).
Proof. by destruct a, b. Qed.
Lemma or3_some a b : or3 (Some a) (Some b) = Some (a || b).
Proof. by destruct a, b. Qed.

(** [columns_typed] proves that every value of a row has the type of its column. *)
Ltac columns_typed :=
  row_eval; repeat (apply andb_true_intro; split);
  first [ reflexivity
        | match goal with |- context [or_null _ ?o] => destruct o; reflexivity end
        | match goal with |- context [status_value ?s] => destruct s; reflexivity end
        | match goal with |- context [state_value ?s] => destruct s; reflexivity end
        | match goal with |- context [role_value ?s] => destruct s; reflexivity end
        | match goal with |- context [parameter_type_value ?s] => destruct s; reflexivity end ].
(** [row_checked] compares the check constraints of a row with those of the model. *)
Ltac closed_tests :=
  repeat match goal with |- context [@bool_decide (String ?a ?s = String ?b ?t) ?d] =>
    let v := eval vm_compute in (@bool_decide (String a s = String b t) d) in
    change (@bool_decide (String a s = String b t) d) with v end.
Ltac row_checked :=
  row_eval;
  cbv [or_null is_null is_commit_sha non_negative negb is_some is_none parameter_type_value String.eqb Ascii.eqb Bool.eqb];
  closed_tests;
  rewrite ?and3_some, ?or3_some, ?satisfied_some, ?length_trimmed, ?length_at_most_32, ?length_is_40;
  cbn [orb andb]; apply eq_true_iff_eq; rewrite ?andb_true_iff; first [tauto | intuition discriminate].

Section Rows.
Variables (stamp : string -> uuid -> string -> time) (i : uuid) (ix : list Index).

Lemma row_split t row (b : bool) :
  forallb (column_holds row) (table_columns t) = true ->
  forallb (fun c => satisfied (eval row c)) (checks t) = b -> row_holds t row = b.
Proof. intros H1 H2. unfold row_holds. by rewrite H1, H2. Qed.

Lemma database_row_holds r :
  row_holds (mkTable databases_columns databases_constraints ix) (database_row stamp i r)
  = database_checks r.
Proof. apply row_split; [columns_typed |]. unfold database_checks. row_checked. Qed.
Lemma job_row_holds r :
  row_holds (mkTable job_executions_columns job_executions_constraints ix) (job_row stamp i r)
  = job_checks r.
Proof. apply row_split; [columns_typed |]. unfold job_checks. row_checked. Qed.
Lemma instance_row_holds r :
  row_holds (mkTable instances_columns instances_constraints ix) (instance_row stamp i r)
  = instance_checks r.
Proof. apply row_split; [columns_typed |]. unfold instance_checks. row_checked. Qed.
Lemma template_row_holds r :
  row_holds (mkTable templates_columns templates_constraints ix) (template_row stamp i r)
  = template_checks r.
Proof. apply row_split; [columns_typed |]. unfold template_checks. row_checked. Qed.
Lemma allocation_row_holds r :
  row_holds (mkTable database_allocations_columns database_allocations_constraints ix)
    (allocation_row stamp i r) = allocation_checks r.
Proof. apply row_split; [columns_typed |]. unfold allocation_checks. row_checked. Qed.
Lemma kubernetes_row_holds r :
  row_holds (mkTable instance_kubernetes_columns instance_kubernetes_constraints ix)
    (kubernetes_row stamp i r) = true.
Proof. apply row_split; [columns_typed | done]. Qed.
Lemma member_row_holds r :
  row_holds (mkTable members_columns members_constraints ix) (member_row stamp i r)
  = member_checks r.
Proof. apply row_split; [columns_typed |]. unfold member_checks. row_checked. Qed.
Lemma assignment_row_holds r :
  row_holds (mkTable template_assignments_columns template_assignments_constraints ix)
    (assignment_row stamp i r) = assignment_checks r.
Proof. apply row_split; [columns_typed |]. unfold assignment_checks. row_checked. Qed.
Lemma image_row_holds r :
  row_holds (mkTable template_images_columns template_images_constraints ix) (image_row stamp i r)
  = image_checks r.
Proof. apply row_split; [columns_typed |]. unfold image_checks. row_checked. Qed.
Lemma parameter_row_holds r :
  row_holds (mkTable template_parameters_columns template_parameters_constraints ix)
    (parameter_row stamp i r) = parameter_checks r.
Proof.
  apply row_split; [columns_typed |]. unfold parameter_checks.
  destruct (par_type r) eqn:Et, (par_required r) eqn:Er, (par_mutable r) eqn:Em,
    (par_default_value r) eqn:Ed;
    cbv [parameter_row]; rewrite Et, Er, Em, Ed; row_checked.
Qed.
Lemma system_value_row_holds value :
  row_holds (mkTable template_parameter_system_values_columns
               template_parameter_system_values_constraints ix) (system_value_row i value) = true.
Proof. apply row_split; [columns_typed | done]. Qed.
Lemma deployment_row_holds r :
  row_holds (mkTable template_deployments_columns template_deployments_constraints ix)
    (deployment_row stamp i r) = deployment_checks r.
Proof.
  apply row_split; [columns_typed |]. unfold deployment_checks.
  destruct (dep_target_commit r) eqn:E1, (dep_applied_commit r) eqn:E2,
    (dep_target_system_parameter_revision r) eqn:E3,
    (dep_applied_system_parameter_revision r) eqn:E4;
    cbv [deployment_row]; rewrite E1, E2, E3, E4; row_checked.
Qed.
Lemma workspace_row_holds r :
  row_holds (mkTable workspaces_columns workspaces_constraints ix) (workspace_row stamp i r)
  = workspace_checks r.
Proof.
  apply row_split; [columns_typed |]. unfold workspace_checks.
  destruct (ws_applied_parameters_revision r) eqn:E; cbv [workspace_row]; rewrite E; row_checked.
Qed.
End Rows.

(** ** Keys and references over the rows of a table *)
Lemma map_Forall_iff {R} (P Q : uuid -> R -> Prop) (m : gmap uuid R) :
  (forall i r, P i r <-> Q i r) -> map_Forall P m <-> map_Forall Q m.
Proof. intros H. rewrite !map_Forall_lookup. split; intros Hm i r Hr; by apply H, Hm. Qed.
Lemma rows_of_forall {R} (f : uuid -> R -> Row) m (P : uuid -> Row -> Prop) :
  map_Forall P (rows_of f m) <-> map_Forall (fun i r => P i (f i r)) m.
Proof.
  unfold rows_of. rewrite !map_Forall_lookup. setoid_rewrite map_lookup_imap. split.
  - intros H i r Hr. apply H. by rewrite Hr.
  - intros H i row Hr. destruct (m !! i) as [r |] eqn:E; [| done]. injection Hr as <-. by apply H.
Qed.
Lemma rows_of_checked {R} (f : uuid -> R -> Row) t (check : R -> bool) m :
  (forall i r, row_holds t (f i r) = check r) ->
  map_Forall (fun _ row => row_holds t row = true) (rows_of f m) <-> Checked check m.
Proof.
  intros Hf. rewrite rows_of_forall. unfold Checked. apply map_Forall_iff.
  intros i r. by rewrite Hf.
Qed.

(** How a key of the model is stored. *)
Class KeyValues (K : Type) := {
  values : K -> list Value;
  values_inj :: Inj (=) (=) values;
  values_no_null x : no_null (values x);
  values_width x y : List.length (values x) = List.length (values y)
}.
#[export] Instance text_key : KeyValues string.
Proof.
  refine {| values := fun s => [VText s] |}.
  - by intros s t [= ->].
  - intros s. by repeat constructor.
  - done.
Defined.
#[export] Instance uuid_key : KeyValues uuid.
Proof.
  refine {| values := fun u => [VUuid u] |}.
  - by intros s t [= ->].
  - intros s. by repeat constructor.
  - done.
Defined.
#[export] Instance pair_key {K L} `{KeyValues K, KeyValues L} : KeyValues (K * L).
Proof.
  refine {| values := fun kl => (values kl.1 ++ values kl.2)%list |}.
  - intros [k l] [k' l']; cbn. intros E.
    apply app_inj_1 in E as [->%values_inj ->%values_inj]; [done | apply values_width].
  - intros kl. apply Forall_app. split; apply values_no_null.
  - intros kl kl'. rewrite !length_app. by rewrite (values_width kl.1 kl'.1), (values_width kl.2 kl'.2).
Defined.

Section Keys.
Context {R K : Type} `{!EqDecision K, !KeyValues K}.
Variables (f : uuid -> R -> Row) (key : list Term) (k : R -> option K).
Hypothesis key_values : forall i r,
  match k r with
  | Some x => key_value key (f i r) = values x
  | None => ~ no_null (key_value key (f i r))
  end.

Lemma rows_of_unique m : unique_rows key (rows_of f m) <-> Unique k m.
Proof.
  unfold unique_rows, Unique. rewrite rows_of_forall. apply map_Forall_iff. intros i r.
  rewrite rows_of_forall. apply map_Forall_iff. intros j r'.
  pose proof (key_values i r) as Hi. pose proof (key_values j r') as Hj.
  destruct (k r) as [x |], (k r') as [x' |].
  - rewrite Hi, Hj. split; intros Hu.
    + intros [= ->] _. apply Hu; [done | apply values_no_null].
    + intros ->%values_inj _. by apply Hu.
  - rewrite Hi. split; [done |]. intros _ E Hn. rewrite E in Hn. done.
  - split; [done |]. intros _ _ Hn. done.
  - split; [done |]. intros _ _ Hn. done.
Qed.
End Keys.

Lemma rows_of_primary {R} (f : uuid -> R -> Row) key m :
  (forall i r, key_value key (f i r) = [VUuid i]) -> unique_rows key (rows_of f m).
Proof.
  intros Hk. apply rows_of_forall. intros i r _. apply rows_of_forall. intros j r' _.
  rewrite !Hk. by intros [= ->].
Qed.

Lemma rows_of_references {R T} (f : uuid -> R -> Row) (g : uuid -> T -> Row) data column table
    target (col : uuid -> R -> option uuid) m m' :
  data table = rows_of g m' ->
  (forall i r, field column (f i r) = or_null VUuid (col i r)) ->
  (forall j r, field target (g j r) = VUuid j) ->
  reference_holds data (rows_of f m) (column, table, target) <->
  map_Forall (fun i r => match col i r with Some u => is_Some (m' !! u) | None => True end) m.
Proof.
  intros Hd Hf Hg. unfold reference_holds. rewrite rows_of_forall. apply map_Forall_iff.
  intros i r. rewrite Hf, Hd. destruct (col i r) as [u |]; cbn [or_null]; [| tauto]. split.
  - intros [? | (j & row & Hj & E)]; [done |]. unfold rows_of in Hj.
    rewrite map_lookup_imap in Hj. destruct (m' !! j) as [r' |] eqn:E'; [| done].
    injection Hj as <-. rewrite Hg in E. injection E as ->. eauto.
  - intros [r' Hr']. right. exists u, (g u r'). split; [| apply Hg].
    unfold rows_of. by rewrite map_lookup_imap, Hr'.
Qed.

Lemma rows_of_column_references {R T} (f : uuid -> R -> Row) (g : uuid -> T -> Row) data column
    table target (col : R -> option uuid) m m' :
  data table = rows_of g m' ->
  (forall i r, field column (f i r) = or_null VUuid (col r)) ->
  (forall j r, field target (g j r) = VUuid j) ->
  reference_holds data (rows_of f m) (column, table, target) <-> References col m' m.
Proof. intros Hd Hf Hg. by apply (rows_of_references f g data _ _ _ (fun _ => col)). Qed.

(** ** The tables *)
Definition indexes_of (ops : list Ddl) : list Index :=
  omap (fun op => match op with
    | create_index name _ keys unique => Some (mkIndex name keys unique) | _ => None end) ops.

Lemma holds_and (A B C : Prop) : A -> (B <-> C) -> (A /\ B <-> C).
Proof. tauto. Qed.
Lemma and_iff (A A' B B' : Prop) : (A <-> A') -> (B <-> B') -> (A /\ B <-> A' /\ B').
Proof. tauto. Qed.

Ltac each_key :=
  repeat first
    [ reflexivity
    | apply holds_and; [apply rows_of_primary; reflexivity |]
    | apply and_iff; [apply rows_of_unique; intros i r; reflexivity |] ].
(** [keys_by] compares the keys of a table with those of the model, and [references_by] its
    foreign keys. *)
Ltac keys_by :=
  match goal with |- context [unique_keys ?t] =>
    let v := eval vm_compute in (unique_keys t) in change (unique_keys t) with v end;
  rewrite !Forall_cons, Forall_nil;
  each_key.
Ltac references_by :=
  match goal with |- context [foreign_keys ?t] =>
    let v := eval vm_compute in (foreign_keys t) in change (foreign_keys t) with v end;
  rewrite ?Forall_cons, Forall_nil;
  repeat first
    [ reflexivity
    | apply and_iff;
      [ eapply rows_of_column_references; [reflexivity | intros i r; reflexivity ..] |] ].

Section Tables.
Variables (stamp : string -> uuid -> string -> time) (d : Store).
Abbreviation data := (sql_rows stamp d).

Lemma holds_rows {R} (f : uuid -> R -> Row) t m :
  (forall i r, row_holds t (f i r) = true) ->
  map_Forall (fun _ row => row_holds t row = true) (rows_of f m) <-> True.
Proof. intros Hf. split; [done |]. intros _. apply rows_of_forall. intros i r _. apply Hf. Qed.

Lemma databases_table :
  table_holds data "databases"
    (mkTable databases_columns databases_constraints (indexes_of create_databases)) <->
  Checked database_checks (databases d) /\
  (Unique (fun r => Some (str_lower (base_name r))) (databases d) /\
    True) /\
  True.
Proof.
  apply and_iff; [| apply and_iff].
  - apply rows_of_checked. intros. apply database_row_holds.
  - keys_by.
  - references_by.
Qed.
Lemma job_executions_table :
  table_holds data "job_executions"
    (mkTable job_executions_columns job_executions_constraints (indexes_of create_job_executions)) <->
  Checked job_checks (jobs d) /\
  True /\
  True.
Proof.
  apply and_iff; [| apply and_iff].
  - apply rows_of_checked. intros. apply job_row_holds.
  - keys_by.
  - references_by.
Qed.
Lemma instances_table :
  table_holds data "instances"
    (mkTable instances_columns instances_constraints (indexes_of create_instances)) <->
  Checked instance_checks (instances d) /\
  (Unique (fun r => Some (inst_application r)) (instances d) /\
    Unique inst_argocd_application_name (instances d) /\
    Unique (fun r => Some (inst_slug r)) (instances d) /\
    True) /\
  (References inst_job_id (jobs d) (instances d) /\
    True).
Proof.
  apply and_iff; [| apply and_iff].
  - apply rows_of_checked. intros. apply instance_row_holds.
  - keys_by. apply and_iff; [| each_key].
    apply rows_of_unique. intros i r. cbv [key_value eval_term map].
    change (field _ _) with (or_null VText (inst_argocd_application_name r)).
    destruct (inst_argocd_application_name r); [done |]. by intros [? _]%Forall_cons.
  - references_by.
Qed.
Lemma templates_table :
  table_holds data "templates"
    (mkTable templates_columns templates_constraints (indexes_of create_templates)) <->
  Checked template_checks (templates d) /\
  (Unique (fun r => Some (str_lower (tpl_name r))) (templates d) /\
    True) /\
  (References tpl_job_id (jobs d) (templates d) /\
    True).
Proof.
  apply and_iff; [| apply and_iff].
  - apply rows_of_checked. intros. apply template_row_holds.
  - keys_by.
  - references_by.
Qed.
Lemma database_allocations_table :
  table_holds data "database_allocations"
    (mkTable database_allocations_columns database_allocations_constraints (indexes_of create_database_allocations)) <->
  Checked allocation_checks (allocations d) /\
  (Unique (fun r => Some (alloc_database_id r, alloc_schema_name r)) (allocations d) /\
    Unique (fun r => Some (alloc_instance_id r)) (allocations d) /\
    True) /\
  (References (fun r => Some (alloc_database_id r)) (databases d) (allocations d) /\
    References (fun r => Some (alloc_instance_id r)) (instances d) (allocations d) /\
    True).
Proof.
  apply and_iff; [| apply and_iff].
  - apply rows_of_checked. intros. apply allocation_row_holds.
  - keys_by.
  - references_by.
Qed.
Lemma instance_kubernetes_table :
  table_holds data "instance_kubernetes"
    (mkTable instance_kubernetes_columns instance_kubernetes_constraints (indexes_of create_instance_kubernetes)) <->
  True /\
  True /\
  (map_Forall (fun i _ => is_Some (instances d !! i)) (kubernetes d) /\
    True).
Proof.
  apply and_iff; [| apply and_iff].
  - apply holds_rows. intros. apply kubernetes_row_holds.
  - keys_by.
  - references_by. apply and_iff; [| done].
    by apply (rows_of_references _ (instance_row stamp) _ _ _ _ (fun i _ => Some i)).
Qed.
Lemma members_table :
  table_holds data "members"
    (mkTable members_columns members_constraints (indexes_of create_members)) <->
  Checked member_checks (members d) /\
  (Unique (fun r => Some (mem_instance_id r, mem_username r)) (members d) /\
    True) /\
  (References (fun r => Some (mem_instance_id r)) (instances d) (members d) /\
    True).
Proof.
  apply and_iff; [| apply and_iff].
  - apply rows_of_checked. intros. apply member_row_holds.
  - keys_by.
  - references_by.
Qed.
Lemma template_assignments_table :
  table_holds data "template_assignments"
    (mkTable template_assignments_columns template_assignments_constraints (indexes_of create_template_assignments)) <->
  Checked assignment_checks (assignments d) /\
  (Unique (fun r => Some (asg_template_id r, asg_instance_id r)) (assignments d) /\
    True) /\
  (References (fun r => Some (asg_instance_id r)) (instances d) (assignments d) /\
    References asg_job_id (jobs d) (assignments d) /\
    References (fun r => Some (asg_template_id r)) (templates d) (assignments d) /\
    True).
Proof.
  apply and_iff; [| apply and_iff].
  - apply rows_of_checked. intros. apply assignment_row_holds.
  - keys_by.
  - references_by.
Qed.
Lemma template_images_table :
  table_holds data "template_images"
    (mkTable template_images_columns template_images_constraints (indexes_of create_template_images)) <->
  Checked image_checks (images d) /\
  (Unique (fun r => Some (img_template_id r, img_registry_name r, img_name r, img_version r))
      (images d) /\
    True) /\
  (References (fun r => Some (img_template_id r)) (templates d) (images d) /\
    True).
Proof.
  apply and_iff; [| apply and_iff].
  - apply rows_of_checked. intros. apply image_row_holds.
  - keys_by.
  - references_by.
Qed.
Lemma template_parameters_table :
  table_holds data "template_parameters"
    (mkTable template_parameters_columns template_parameters_constraints (indexes_of create_template_parameters)) <->
  Checked parameter_checks (parameters d) /\
  (Unique (fun r => Some (par_template_id r, par_name r)) (parameters d) /\
    True) /\
  (References (fun r => Some (par_template_id r)) (templates d) (parameters d) /\
    True).
Proof.
  apply and_iff; [| apply and_iff].
  - apply rows_of_checked. intros. apply parameter_row_holds.
  - keys_by.
  - references_by.
Qed.
Lemma template_deployments_table :
  table_holds data "template_deployments"
    (mkTable template_deployments_columns template_deployments_constraints (indexes_of create_template_deployments)) <->
  Checked deployment_checks (deployments d) /\
  (Unique (fun r => Some (dep_assignment_id r)) (deployments d) /\
    True) /\
  (References (fun r => Some (dep_assignment_id r)) (assignments d) (deployments d) /\
    True).
Proof.
  apply and_iff; [| apply and_iff].
  - apply rows_of_checked. intros. apply deployment_row_holds.
  - keys_by.
  - references_by.
Qed.
Lemma template_parameter_system_values_table :
  table_holds data "template_parameter_system_values"
    (mkTable template_parameter_system_values_columns template_parameter_system_values_constraints (indexes_of create_template_parameter_system_values)) <->
  True /\
  True /\
  (True /\
    True).
Proof.
  apply and_iff; [| apply and_iff].
  - apply holds_rows. intros. apply system_value_row_holds.
  - keys_by.
  - references_by. apply and_iff; [| done]. split; [done |]. intros _.
    apply (rows_of_references _ (parameter_row stamp) _ _ _ _ (fun i _ => Some i) _ (parameters d));
      [reflexivity .. |].
    intros i v Hi. unfold system_values in Hi. rewrite lookup_omap in Hi.
    destruct (parameters d !! i); [by eexists | done].
Qed.
Lemma workspaces_table :
  table_holds data "workspaces"
    (mkTable workspaces_columns workspaces_constraints (indexes_of create_workspaces)) <->
  Checked workspace_checks (workspaces d) /\
  (Unique (fun r => Some (ws_instance_id r, str_lower (ws_name r))) (workspaces d) /\
    True) /\
  (References (fun r => Some (ws_image_id r)) (images d) (workspaces d) /\
    References (fun r => Some (ws_instance_id r)) (instances d) (workspaces d) /\
    References ws_job_id (jobs d) (workspaces d) /\
    References (fun r => Some (ws_member_id r)) (members d) (workspaces d) /\
    References (fun r => Some (ws_template_id r)) (templates d) (workspaces d) /\
    True).
Proof.
  apply and_iff; [| apply and_iff].
  - apply rows_of_checked. intros. apply workspace_row_holds.
  - keys_by.
  - references_by.
Qed.
End Tables.

(** ** The migration *)
Definition initial_tables : list (string * Table) :=
  [("databases", mkTable databases_columns databases_constraints
      (indexes_of create_databases));
   ("job_executions", mkTable job_executions_columns job_executions_constraints
      (indexes_of create_job_executions));
   ("instances", mkTable instances_columns instances_constraints
      (indexes_of create_instances));
   ("templates", mkTable templates_columns templates_constraints
      (indexes_of create_templates));
   ("database_allocations", mkTable database_allocations_columns database_allocations_constraints
      (indexes_of create_database_allocations));
   ("instance_kubernetes", mkTable instance_kubernetes_columns instance_kubernetes_constraints
      (indexes_of create_instance_kubernetes));
   ("members", mkTable members_columns members_constraints
      (indexes_of create_members));
   ("template_assignments", mkTable template_assignments_columns template_assignments_constraints
      (indexes_of create_template_assignments));
   ("template_images", mkTable template_images_columns template_images_constraints
      (indexes_of create_template_images));
   ("template_parameters", mkTable template_parameters_columns template_parameters_constraints
      (indexes_of create_template_parameters));
   ("template_deployments", mkTable template_deployments_columns template_deployments_constraints
      (indexes_of create_template_deployments));
   ("template_parameter_system_values", mkTable template_parameter_system_values_columns template_parameter_system_values_constraints
      (indexes_of create_template_parameter_system_values));
   ("workspaces", mkTable workspaces_columns workspaces_constraints
      (indexes_of create_workspaces))].

Lemma upgrade_tables c : migrate upgrade empty_catalog = Some c -> catalog_tables c = initial_tables.
Proof.
  intros H. assert (E : catalog_tables <$> migrate upgrade empty_catalog = Some initial_tables)
    by (vm_compute; reflexivity).
  rewrite H in E. by injection E.
Qed.

Lemma upgrade_enforces c stamp d :
  migrate upgrade empty_catalog = Some c -> enforced c (sql_rows stamp d) <-> Integrity d.
Proof.
  intros Hc. unfold enforced. rewrite (upgrade_tables c Hc). unfold initial_tables.
  rewrite !Forall_cons, Forall_nil. cbn [fst snd].
  rewrite databases_table, job_executions_table, instances_table, templates_table,
    database_allocations_table, instance_kubernetes_table, members_table,
    template_assignments_table, template_images_table, template_parameters_table,
    template_deployments_table, template_parameter_system_values_table, workspaces_table.
  unfold Integrity, RowsChecked, KeysUnique, ReferencesHold. tauto.
Qed.
Lemma upgrade_succeeds : exists c, migrate upgrade empty_catalog = Some c.
Proof. eexists. vm_compute. reflexivity. Qed.

(** C3: The migrated schema and the models constrain the same stores. On an empty database the
    migration succeeds, and its catalogue (types, nullability, enum labels, check constraints in
    SQL's three-valued logic, primary keys, unique constraints and indexes, foreign keys) admits
    the rows of a store, whatever the audit columns hold, exactly when the store satisfies the
    constraints that the models declare, so that the migrated database enforces the integrity that
    the rest of the development relies on and refuses no other transaction. *)
Theorem migration_enforces_models :
  exists c, migrate upgrade empty_catalog = Some c /\
    forall stamp d, enforced c (sql_rows stamp d) <-> Integrity d.
Proof.
  destruct upgrade_succeeds as [c Hc]. exists c. split; [exact Hc |].
  intros stamp d. by apply upgrade_enforces.
Qed.
