(* ===== verification/Migrations.v ===== *)
(** * Migrations: the migration beside the other objects of a database

    An operation acts on the objects it names and leaves those of others alone; so the migration
    runs, and is undone, in a database schema that has tables of its own, such as Alembic's. *)
From S2P Require Import Prelude Text Models Store Json Ddl InitialSchema.
From Stdlib Require Import Ascii String.
Open Scope string_scope.

Definition beside (base c : Catalog) : Catalog :=
  mkCatalog (catalog_tables base ++ catalog_tables c) (catalog_types base ++ catalog_types c).

(** The relations and the types that an operation names. *)
Definition named_relations (op : Ddl) : list string :=
  match op with
  | create_table name _ constraints =>
      name :: List.concat (map constraint_relation constraints)
      ++ omap (fun c => match c with
                        | ForeignKeyConstraint _ table _ _ _ => Some table | _ => None end) constraints
  | create_index name table _ _ | drop_index name table => [name; table]
  | drop_table name => [name]
  | drop_enum _ => []
  end%list.
Definition named_types (op : Ddl) : list string :=
  match op with
  | create_table _ columns _ => map fst (column_enums columns)
  | drop_enum name => [name]
  | create_index _ _ _ _ | drop_index _ _ | drop_table _ => []
  end.

(** [base] has none of these objects and does not depend on them. *)
Definition separate (base : Catalog) (op : Ddl) : bool :=
  disjoint_from (named_relations op) (relations base)
  && disjoint_from (named_types op)
       (map fst (catalog_types base)
        ++ List.concat (map (fun nt => map fst (column_enums (table_columns nt.2)))
             (catalog_tables base)))
  && forallb (fun nt => forallb (fun name => negb (refers_to name nt.2)) (named_relations op))
       (catalog_tables base).

Lemma disjoint_from_spec l l' : disjoint_from l l' = true <-> forall x, x ∈ l -> x ∉ l'.
Proof.
  unfold disjoint_from. rewrite forallb_forall. split; intros H x Hx.
  - apply list_elem_of_In, H in Hx. apply negb_true_iff in Hx. by apply member_false.
  - apply negb_true_iff, member_false, H. by apply list_elem_of_In.
Qed.
Lemma disjoint_from_app l a b :
  disjoint_from l (a ++ b) = disjoint_from l a && disjoint_from l b.
Proof.
  apply eq_true_iff_eq. rewrite andb_true_iff, !disjoint_from_spec. set_solver.
Qed.
Lemma dict_get_app {V} key (d d' : list (string * V)) :
  key ∉ map fst d -> dict_get key (d ++ d') = dict_get key d'.
Proof.
  induction d as [|[k v] d IH]; [done |]. cbn. intros Hk.
  rewrite bool_decide_eq_false_2 by set_solver. apply IH. set_solver.
Qed.
Lemma dict_set_app {V} key (v : V) d d' :
  key ∉ map fst d -> dict_set key v (d ++ d') = (d ++ dict_set key v d')%list.
Proof.
  induction d as [|[k w] d IH]; [done |]. cbn. intros Hk.
  rewrite bool_decide_eq_false_2 by set_solver. rewrite IH by set_solver. done.
Qed.
Lemma dict_pop_app {V} key (d d' : list (string * V)) :
  key ∉ map fst d -> dict_pop key (d ++ d') = (d ++ dict_pop key d')%list.
Proof.
  unfold dict_pop. induction d as [|[k w] d IH]; [done |]. cbn. intros Hk.
  rewrite bool_decide_eq_false_2 by set_solver. cbn. rewrite IH by set_solver. done.
Qed.
Lemma relations_beside base c : relations (beside base c) = (relations base ++ relations c)%list.
Proof. unfold relations. cbn. by rewrite map_app, concat_app. Qed.
Lemma tables_are_relations c name : name ∈ map fst (catalog_tables c) -> name ∈ relations c.
Proof.
  unfold relations. induction (catalog_tables c) as [|[n t] l IH]; cbn; [done |]. set_solver.
Qed.

Section Frame.
Variables (base c : Catalog).

Lemma frame_target constraint :
  target_exists c constraint = true ->
  (forall column table target name action,
     constraint = ForeignKeyConstraint column table target name action -> table ∉ relations base) ->
  target_exists (beside base c) constraint = true.
Proof.
  destruct constraint as [| column table target name action | |]; try done. intros H Hn.
  unfold target_exists in *. cbn [beside catalog_tables]. rewrite dict_get_app; [done |].
  intros Hin%tables_are_relations. by eapply Hn.
Qed.
Lemma frame_set_table name t :
  name ∉ relations base -> set_table name t (beside base c) = beside base (set_table name t c).
Proof.
  intros Hn. unfold set_table, beside. cbn. rewrite dict_set_app; [done |].
  intros Hin%tables_are_relations. done.
Qed.

Lemma frame op c' :
  separate base op = true -> apply_ddl op c = Some c' ->
  apply_ddl op (beside base c) = Some (beside base c').
Proof.
  intros Hs H. unfold separate in Hs. bool_hyps.
  match goal with H1 : disjoint_from (named_relations _) _ = true,
    H2 : disjoint_from (named_types _) _ = true |- _ =>
    rewrite disjoint_from_spec in H1; rewrite disjoint_from_spec in H2;
    rename H1 into Hr; rename H2 into Ht end.
  match goal with H1 : forallb _ (catalog_tables base) = true |- _ => rename H1 into Hd end.
  destruct op as [name columns constraints | name table keys u | name table | name | name];
    cbn [named_relations named_types] in *.
  - unfold apply_ddl in *. rewrite relations_beside, disjoint_from_app.
    cbn [beside catalog_types]. rewrite map_app, disjoint_from_app.
    destruct (distinct _ && _ && _ && _ && _ && _ && _ && _) eqn:E in H; [| done].
    injection H as <-. bool_hyps.
    assert (E1 : disjoint_from (name :: List.concat (map constraint_relation constraints))
                   (relations base) = true).
    { apply disjoint_from_spec. intros x Hx. apply Hr. set_solver. }
    assert (E2 : disjoint_from (map fst (column_enums columns)) (map fst (catalog_types base)) = true).
    { apply disjoint_from_spec. intros x Hx Hx'. apply (Ht x Hx). set_solver. }
    assert (E3 : forallb (target_exists (beside base c)) constraints = true).
    { apply forallb_forall. intros k Hk. apply frame_target.
      - match goal with Hf : forallb _ constraints = true |- _ => rewrite forallb_forall in Hf;
          by apply Hf end.
      - intros column table target n action ->. apply Hr. apply list_elem_of_In in Hk.
        apply elem_of_cons. right. apply elem_of_app. right. apply list_elem_of_omap. by eexists. }
    rewrite E1, E2, E3.
    repeat match goal with Hx : ?b = true |- context [?b] => rewrite Hx end. cbn.
    unfold beside. cbn. by rewrite !app_assoc.
  - unfold apply_ddl in *. cbn [beside catalog_tables]. rewrite dict_get_app.
    2:{ intros Hin%tables_are_relations. apply (Hr table); [set_solver | done]. }
    destruct (dict_get table (catalog_tables c)) as [t |]; [| done]. cbn [mbind option_bind] in *.
    rewrite relations_beside.
    assert (E : member name (relations base ++ relations c) = member name (relations c)).
    { apply bool_decide_ext. rewrite elem_of_app. split; [| by right].
      intros [Hin |]; [| done]. exfalso. apply (Hr name); [set_solver | done]. }
    rewrite E. destruct (negb _ && _); [| done]. injection H as <-.
    rewrite frame_set_table; [done |]. apply Hr. set_solver.
  - unfold apply_ddl in *. cbn [beside catalog_tables]. rewrite dict_get_app.
    2:{ intros Hin%tables_are_relations. apply (Hr table); [set_solver | done]. }
    destruct (dict_get table (catalog_tables c)) as [t |]; [| done]. cbn [mbind option_bind] in *.
    destruct (member _ _); [| done]. injection H as <-.
    rewrite frame_set_table; [done |]. apply Hr. set_solver.
  - unfold apply_ddl in *. cbn [beside catalog_tables]. rewrite map_app, existsb_app.
    assert (E1 : member name (map fst (catalog_tables base) ++ map fst (catalog_tables c))
                 = member name (map fst (catalog_tables c))).
    { apply bool_decide_ext. rewrite elem_of_app. split; [| by right].
      intros [Hin%tables_are_relations |]; [| done]. exfalso. apply (Hr name); [set_solver | done]. }
    assert (E2 : existsb (fun nt => (nt.1 != name) && refers_to name nt.2) (catalog_tables base)
                 = false).
    { apply not_true_iff_false. intros (nt & Hin & Hb)%existsb_exists. bool_hyps.
      rewrite forallb_forall in Hd. apply Hd in Hin. rewrite forallb_forall in Hin.
      specialize (Hin name (or_introl eq_refl)). bool_hyps. congruence. }
    rewrite E1, E2. cbn [orb]. destruct (member _ _ && _); [| done]. injection H as <-.
    unfold beside. cbn. rewrite dict_pop_app; [done |].
    intros Hin%tables_are_relations. apply (Hr name); [set_solver | done].
  - unfold apply_ddl in *. cbn [beside catalog_tables catalog_types]. rewrite existsb_app.
    assert (E : existsb (fun nt => member name (map fst (column_enums (table_columns nt.2))))
                  (catalog_tables base) = false).
    { apply not_true_iff_false. intros (nt & Hin & Hb)%existsb_exists. bool_hyps.
      apply (Ht name); [set_solver |]. apply elem_of_app. right.
      apply list_elem_of_In, List.in_concat. eexists. split; [by apply List.in_map |].
      by apply list_elem_of_In. }
    rewrite E. cbn [orb]. destruct (existsb _ _); [done |]. injection H as <-.
    unfold beside. cbn. rewrite dict_pop_app; [done |].
    intros Hin. apply (Ht name); set_solver.
Qed.
End Frame.

Lemma migrate_frame base ops c c' :
  forallb (separate base) ops = true -> migrate ops c = Some c' ->
  migrate ops (beside base c) = Some (beside base c').
Proof.
  revert c. induction ops as [|op ops IH]; cbn; intros c Hs H; [by injection H as <- |].
  bool_hyps. destruct (apply_ddl op c) as [c1 |] eqn:E; [| done]. cbn in H.
  rewrite (frame base c op c1) by done. cbn. by apply IH.
Qed.

(** C30: The migration can be undone. In a database schema that has none of the objects that the
    migration names and does not depend on them, the upgrade succeeds: every foreign key refers to
    a key of a table that is there already, and every name is fresh; and the downgrade after it
    succeeds too, drops no table on which another still depends, and leaves the schema exactly as
    it was, without any enum type left behind. *)
Theorem migration_roundtrip base :
  forallb (separate base) (upgrade ++ downgrade) = true ->
  exists c, migrate upgrade base = Some c /\ migrate downgrade c = Some base.
Proof.
  rewrite forallb_app. intros [Hu Hd]%andb_true_iff.
  destruct (migrate upgrade empty_catalog) as [c |] eqn:E; [| by vm_compute in E].
  assert (Eb : beside base empty_catalog = base).
  { destruct base. unfold beside. cbn. by rewrite !app_nil_r. }
  exists (beside base c). split.
  - rewrite <- Eb at 1. by apply migrate_frame.
  - rewrite <- Eb at 2. apply migrate_frame; [done |].
    assert (H : (migrate upgrade empty_catalog ≫= migrate downgrade) = Some empty_catalog)
      by (vm_compute; reflexivity).
    by rewrite E in H.
Qed.

(** Alembic's own table. *)
Definition alembic_catalog : Catalog :=
  mkCatalog [("alembic_version",
    mkTable [mkColumn "version_num" (Varchar 32) None false]
      [PrimaryKeyConstraint "version_num" "alembic_version_pkc"] [])] [].

Lemma migration_roundtrip_witness :
  exists c, migrate upgrade alembic_catalog = Some c /\ migrate downgrade c = Some alembic_catalog.
Proof. apply migration_roundtrip. vm_compute. reflexivity. Defined.
