(* ===== verification/Auth.v ===== *)
(** * Auth: OpenID Connect configuration and the authorization of requests (auth.py, main.py)

    PyJWT and httpx are not the program's: parsing a URL, reading an unverified header, finding a
    signing key and verifying a token are parameters. What the program does with them, and with
    each of their failures, is modelled. *)
From S2P Require Import Prelude Text Models Store Config Program Json.
From Stdlib Require Import Ascii String.
Open Scope string_scope.

Definition OIDC_ALGORITHM : string := "RS256".
Definition OIDC_ROLES_CLAIM : string := "roles".
Definition OIDC_REQUIRED_ROLE : string := "admin".
Definition AUTHENTICATION_ERROR : string := "Invalid authentication credentials".
Definition AUTHORIZATION_ERROR : string := "Access denied".
Definition PROVIDER_ERROR : string := "OIDC provider unavailable".

(** The exceptions of auth.py and those of the libraries that it catches. *)
Inductive AuthExn :=
| OidcConfigurationError (msg : string)
| OidcProviderUnavailableError
| Refused (status_code : Z) (detail : string) (headers : list (string * string))
| InvalidTokenError
| PyJWKClientConnectionError
| PyJWKClientError
| PyJWKSetError
| HttpxError
| InvalidURL.

Definition _authentication_exception : AuthExn :=
  Refused 401 AUTHENTICATION_ERROR [("WWW-Authenticate", "Bearer")].
Definition _authorization_exception : AuthExn := Refused 403 AUTHORIZATION_ERROR [].

(** What [httpx.URL] finds in a text. *)
Record Url := mkUrl {
  url_scheme : string;
  url_host : string;
  url_query : string;
  url_fragment : string
}.

(** ** Configuration *)
Section Configuration.
(** [httpx.URL(value)], or [InvalidURL]. *)
Variable URL : string -> option Url.

Record OidcConfig := mkOidcConfig {
  issuer_url : string;
  client_id : string;
  authorization_url : string;
  token_url : string;
  scopes : list string
}.

Definition _optional_value (value : option string) : option string :=
  match value with
  | Some v => if str_strip v == "" then None else Some (str_strip v)
  | None => None
  end.
Definition _required_value (value : option string) (environment_name : string) : AuthExn + string :=
  match _optional_value value with
  | Some normalized => inr normalized
  | None => inl (OidcConfigurationError (environment_name ++ " is required when OIDC is enabled"))
  end.
Definition _require_https_url (value environment_name : string) (allow_query : bool)
    : AuthExn + string :=
  match URL value with
  | None => inl InvalidURL
  | Some url =>
      if (url_scheme url != "https") || (url_host url == "") || (url_fragment url != "")
         || ((url_query url != "") && negb allow_query)
      then inl (OidcConfigurationError (environment_name ++ " must be a valid HTTPS URL"))
      else inr value
  end.

(** [tuple(dict.fromkeys(values))]: the first occurrences, in order. *)
Definition fromkeys (values : list string) : list string :=
  foldl (fun seen v => if member v seen then seen else (seen ++ [v])%list) [] values.
Definition _parse_comma_list (raw_value environment_name : string) : AuthExn + list string :=
  let values := map unchars (split "," raw_value) in
  if existsb (fun value => str_strip value == "") values
  then inl (OidcConfigurationError (environment_name ++ " contains an empty value"))
  else inr (fromkeys (map str_strip values)).
Definition _parse_scopes (raw_value : string) : AuthExn + list string :=
  scopes ← _parse_comma_list raw_value "CODER_MANAGER_OIDC_SCOPES";
  if member "openid" scopes then inr scopes
  else inl (OidcConfigurationError "CODER_MANAGER_OIDC_SCOPES must contain openid").

Definition oidc_from_settings (settings : Settings) : AuthExn + option OidcConfig :=
  match _optional_value (oidc_issuer_url settings) with
  | None =>
      if allow_unauthenticated_api settings then inr None
      else inl (OidcConfigurationError
        "CODER_MANAGER_OIDC_ISSUER_URL is required unless CODER_MANAGER_ALLOW_UNAUTHENTICATED_API=true")
  | Some issuer =>
      issuer ← _require_https_url issuer "CODER_MANAGER_OIDC_ISSUER_URL" false;
      client ← _required_value (oidc_client_id settings) "CODER_MANAGER_OIDC_CLIENT_ID";
      authorization ← _required_value (oidc_authorization_url settings)
        "CODER_MANAGER_OIDC_AUTHORIZATION_URL";
      authorization ← _require_https_url authorization "CODER_MANAGER_OIDC_AUTHORIZATION_URL" true;
      token ← _required_value (oidc_token_url settings) "CODER_MANAGER_OIDC_TOKEN_URL";
      token ← _require_https_url token "CODER_MANAGER_OIDC_TOKEN_URL" true;
      scopes ← _parse_scopes (oidc_scopes settings);
      inr (Some (mkOidcConfig issuer client authorization token scopes))
  end.
End Configuration.

(** ** The authenticator *)
Record Jwk := mkJwk {
  key_id : option string;
  algorithm_name : string;
  public_key_use : option string
}.
(** [bool(value)] *)
Definition truthy (value : json) : bool :=
  match value with
  | JNull => false
  | JBool b => b
  | JInt n => negb (Z.eqb n 0)
  | JFloat text => negb (member text ["0.0"; "-0.0"])
  | JString s => s != ""
  | JArray items => negb (Nat.eqb (List.length items) 0)
  | JObject fields => negb (Nat.eqb (List.length fields) 0)
  end.
Definition signs (key : Jwk) : bool :=
  (algorithm_name key == OIDC_ALGORITHM) && member (public_key_use key) [None; Some "sig"].

Section Authenticator.
Context {Client : Type}.
Variable URL : string -> option Url.
(** [httpx.AsyncClient.get] at the time of the discovery, [PyJWKClient(uri)] and its
    [get_jwk_set] and [get_signing_key_from_jwt], [jwt.get_unverified_header] and [jwt.decode]
    with the algorithms, the issuer, the required claims and [verify_aud]. *)
Variable http_get : string -> AuthExn + Response.
Variable jwk_client_factory : string -> Client.
Variable get_jwk_set : Client -> AuthExn + list Jwk.
Variable get_signing_key_from_jwt : Client -> string -> AuthExn + Jwk.
Variable get_unverified_header : string -> AuthExn + list (string * json).
Variable jwt_decode : string -> Jwk -> list string -> string -> list string -> bool ->
  AuthExn + list (string * json).

Record OidcAuthenticator := mkAuthenticator {
  oidc_config : OidcConfig;
  _jwk_client : option Client
}.

(** [except] clauses: the handler of the exceptions that it names. *)
Definition handle {A} (m : AuthExn + A) (h : AuthExn -> option AuthExn) : AuthExn + A :=
  match m with
  | inl e => inl (default e (h e))
  | inr a => inr a
  end.

Definition _get_json (url : string) : AuthExn + list (string * json) :=
  response ← handle (http_get url)
    (fun e => match e with HttpxError => Some OidcProviderUnavailableError | _ => None end);
  if negb (Z.leb 200 (status_code response) && Z.ltb (status_code response) 300)
  then inl OidcProviderUnavailableError
  else
    match decoded response with
    | Some (JObject payload) => inr payload
    | _ => inl OidcProviderUnavailableError
    end.

(** [initialize]: the authenticator with its client of signing keys. *)
Definition initialize (authenticator : OidcAuthenticator) : AuthExn + OidcAuthenticator :=
  let config := oidc_config authenticator in
  metadata ← _get_json (rstrip_slash (issuer_url config) ++ "/.well-known/openid-configuration");
  if negb (bool_decide (get_string "issuer" metadata = Some (issuer_url config)))
  then inl (OidcConfigurationError
              "OIDC discovery issuer does not match CODER_MANAGER_OIDC_ISSUER_URL")
  else
    match get_string "jwks_uri" metadata with
    | None => inl (OidcConfigurationError
                     "OIDC discovery metadata does not contain a valid jwks_uri")
    | Some jwks_uri =>
        uri ← _require_https_url URL jwks_uri "OIDC discovery jwks_uri" true;
        let client := jwk_client_factory uri in
        jwk_set ← handle (get_jwk_set client) (fun e =>
          match e with
          | PyJWKClientConnectionError => Some OidcProviderUnavailableError
          | PyJWKClientError | PyJWKSetError =>
              Some (OidcConfigurationError "OIDC jwks_uri did not return a valid JWK set")
          | _ => None
          end);
        if existsb (fun key => match key_id key with None | Some "" => false | Some _ => signs key end)
             jwk_set
        then inr (mkAuthenticator config (Some client))
        else inl (OidcConfigurationError
                    "OIDC JWK set does not contain an RS256 signing key with a kid")
    end.

Definition _signing_key (authenticator : OidcAuthenticator) (token : string) : AuthExn + Jwk :=
  match _jwk_client authenticator with
  | None => inl (OidcConfigurationError "OIDC authenticator has not been initialized")
  | Some client =>
      handle (get_signing_key_from_jwt client token) (fun e =>
        match e with
        | PyJWKClientConnectionError | PyJWKSetError => Some OidcProviderUnavailableError
        | InvalidTokenError | PyJWKClientError => Some _authentication_exception
        | _ => None
        end)
  end.

Definition _decode (authenticator : OidcAuthenticator) (token : string) (signing_key : Jwk)
    : AuthExn + list (string * json) :=
  handle (jwt_decode token signing_key [OIDC_ALGORITHM] (issuer_url (oidc_config authenticator))
            ["exp"; "iss"] false)
    (fun e => match e with InvalidTokenError => Some _authentication_exception | _ => None end).

(** The roles, when they are a list of strings. *)
Definition role_names (claims : list (string * json)) : option (list string) :=
  roles ← dict_get OIDC_ROLES_CLAIM claims;
  items ← as_array roles;
  mapM as_string items.
(** [role.casefold()] *)
Definition grants_access (roles : list string) : bool :=
  existsb (fun role => str_lower role == str_lower OIDC_REQUIRED_ROLE) roles.

Definition authorize (authenticator : OidcAuthenticator) (token : option string) : AuthExn + unit :=
  match token with
  | None | Some "" => inl _authentication_exception
  | Some token =>
      header ← handle (get_unverified_header token)
        (fun e => match e with InvalidTokenError => Some _authentication_exception | _ => None end);
      if negb (bool_decide (get_string "alg" header = Some OIDC_ALGORITHM))
         || negb (truthy (default JNull (dict_get "kid" header)))
      then inl _authentication_exception
      else
        signing_key ← _signing_key authenticator token;
        if negb (signs signing_key) then inl _authentication_exception
        else
          claims ← _decode authenticator token signing_key;
          match role_names claims with
          | None => inl _authorization_exception
          | Some roles => if grants_access roles then inr tt else inl _authorization_exception
          end
  end.

(** [build_oidc_dependency] *)
Definition authorize_oidc_request (authenticator : OidcAuthenticator) (token : option string)
    : AuthExn + unit :=
  handle (authorize authenticator token)
    (fun e => match e with
              | OidcProviderUnavailableError => Some (Refused 503 PROVIDER_ERROR [])
              | _ => None end).

(** ** The application (main.py): the dependency of every route under /api/v1 *)
Record Application := mkApplication {
  application_settings : Settings;
  application_authenticator : option OidcAuthenticator
}.
Inductive StartError := InvalidSettings (e : Exn) | InvalidOidc (e : AuthExn).

Definition create_app (settings : Settings) : StartError + Application :=
  match require_instance_base_domain settings with
  | inl e => inl (InvalidSettings e)
  | inr _ =>
      match oidc_from_settings URL settings with
      | inl e => inl (InvalidOidc e)
      | inr config =>
          inr (mkApplication settings (option_map (fun c => mkAuthenticator c None) config))
      end
  end.
(** [lifespan]: requests are served after it only. *)
Definition start_up (app : Application) : AuthExn + Application :=
  match application_authenticator app with
  | None => inr app
  | Some authenticator =>
      initialized ← initialize authenticator;
      inr (mkApplication (application_settings app) (Some initialized))
  end.
(** Whether a request with this bearer token gets to its handler. *)
Definition authorize_route (app : Application) (token : option string) : AuthExn + unit :=
  match application_authenticator app with
  | None => inr tt
  | Some authenticator => authorize_oidc_request authenticator token
  end.
End Authenticator.
