(* ===== verification/Coder.v ===== *)
(** * Coder: the Coder deployments as the workers see them (domains/coder/models.py, client.py)

    The representations of remote objects, and one [ClientOp] per method of [CoderClient] that
    sends a request: its arguments, and the type of what it returns. What a method answers is up
    to the environment, which may also raise; the loop of [wait_template_version] is a program of
    CoderService.v. *)
From S2P Require Import Prelude Text Models Store.

(** constants.py; [ADMIN_USERNAME] is in Config.v. *)
Definition ADMIN_EMAIL : string := "admin@coder.local".
Definition ADMIN_NAME : string := "Coder Admin".

Record CoderTemplate := mkCoderTemplate {
  ctpl_id : uuid;
  ctpl_active_version_id : option uuid
}.

Record CoderTemplateVersion := mkCoderTemplateVersion {
  cver_id : uuid;
  cver_status : string;
  cver_archived : bool;
  cver_job_id : option uuid;
  cver_error : option string;
  cver_error_code : option string;
  cver_logs_overflowed : bool
}.

Record CoderWorkspace := mkCoderWorkspace {
  cws_id : uuid;
  cws_status : string;
  cws_latest_build_id : uuid;
  cws_latest_build_transition : string;
  cws_name : string;
  cws_template_id : option uuid
}.

Record CoderWorkspacePage := mkPage {
  page_items : list CoderWorkspace;
  page_count : Z
}.

Record CoderWorkspaceBuild := mkBuild {
  build_id : uuid;
  build_status : string;
  build_transition : string
}.

(** Rich parameters and user variables: names with values. *)
Abbreviation pairs := (list (string * string)) (only parsing).

(** ** The requests of a client *)
Inductive ClientOp : Type -> Type :=
| has_first_user : ClientOp bool
| create_first_user (password : string) : ClientOp unit
| authenticate_prepared_admin (password : string) : ClientOp unit
| delete_user (username : string) : ClientOp unit
| usernames : ClientOp (list string)
| list_workspaces (status : option string) (offset limit : Z) : ClientOp CoderWorkspacePage
| workspace (workspace_id : uuid) : ClientOp (option CoderWorkspace)
| workspace_by_owner_and_name (username name : string) : ClientOp (option CoderWorkspace)
| create_workspace (username name : string) (template_id : uuid) (parameters : pairs)
    : ClientOp CoderWorkspace
| update_workspace_name (workspace_id : uuid) (name : string) : ClientOp unit
| create_workspace_start_build (workspace_id : uuid) (parameters : pairs)
    : ClientOp CoderWorkspaceBuild
| create_workspace_stop_build (workspace_id : uuid) : ClientOp CoderWorkspaceBuild
| create_workspace_delete_build (workspace_id : uuid) : ClientOp CoderWorkspaceBuild
| workspace_build_parameters (build_id : uuid) : ClientOp pairs
| workspace_build (build_id : uuid) : ClientOp CoderWorkspaceBuild
| default_organization_id : ClientOp uuid
| template_by_name (organization_id : uuid) (name : string) : ClientOp (option CoderTemplate)
| template_by_id (template_id : uuid) : ClientOp (option CoderTemplate)
| delete_template (template_id : uuid) : ClientOp unit
| template_version_by_name (organization_id : uuid) (template_name version_name : string)
    : ClientOp (option CoderTemplateVersion)
| template_version (version_id : uuid) : ClientOp CoderTemplateVersion
| template_version_for_recovery (version_id : uuid) : ClientOp (option CoderTemplateVersion)
| upload_template_archive (content : bytes) : ClientOp uuid
| create_template_version (organization_id file_id : uuid) (version_name : string)
    (template_id : option uuid) (user_variable_values : pairs) : ClientOp CoderTemplateVersion
| create_template (organization_id : uuid) (name display_name : string) (version_id : uuid)
    : ClientOp CoderTemplate
| activate_template_version (template_id version_id : uuid) : ClientOp unit
| unarchive_template_version (version_id : uuid) : ClientOp unit
| template_version_logs (version_id : uuid) (sensitive_values : list string)
    : ClientOp (list string * bool).

Definition is_login {R} (op : ClientOp R) : bool :=
  match op with authenticate_prepared_admin _ => true | _ => false end.
(** What an anonymous client may do: see whether there is a first user, create it, and log in. *)
Definition is_public {R} (op : ClientOp R) : bool :=
  match op with
  | has_first_user | create_first_user _ | authenticate_prepared_admin _ => true
  | _ => false
  end.

(** [except CoderFirstUserConflictError], and [except (CoderRequestError, httpx.HTTPError)]: the
    first class is a subclass of the second. *)
Definition is_first_user_conflict (e : Exn) : bool :=
  match e with CoderFirstUserConflictError _ => true | _ => false end.
Definition is_request_error (e : Exn) : bool :=
  match e with
  | CoderRequestError _ | CoderFirstUserConflictError _ | HTTPError _ => true
  | _ => false
  end.

(** ** domains/coder/service.py: the statuses that its operations distinguish *)
Definition WORKSPACE_PAGE_SIZE : Z := 100.
Definition ACTIVE_WORKSPACE_STATUSES : list string := ["running"; "starting"].
Definition OBSERVED_WORKSPACE_STATUSES : list string :=
  (ACTIVE_WORKSPACE_STATUSES ++ ["stopping"])%list.
Definition TERMINAL_WORKSPACE_STOP_FAILURES : list string :=
  ["failed"; "canceled"; "canceling"; "deleting"; "deleted"].
Definition ACTIVE_WORKSPACE_BUILD_STATUSES : list string :=
  ["pending"; "starting"; "stopping"; "canceling"; "deleting"].
Definition TERMINAL_WORKSPACE_DELETE_FAILURES : list string := ["failed"; "canceled"].
