(* ===== verification/Diagnostics.v ===== *)
(** * Diagnostics: what is shown of a failed template import (domains/coder/client.py)

    Messages of Coder are shown after known secrets have been replaced, whitespace has been
    normalized and the length has been bounded. *)
From S2P Require Import Prelude Text Models Store Coder Replace.
From Stdlib Require Import Ascii String.
Open Scope string_scope.

#[warnings="-abstract-large-number"]
Definition TEMPLATE_IMPORT_ERROR_MAX_CHARS : nat := 4096.
#[warnings="-abstract-large-number"]
Definition TEMPLATE_IMPORT_LOG_MAX_CHARS : nat := 8192.
Definition TEMPLATE_IMPORT_LOG_MAX_ENTRIES : nat := 50.

(** [text[:n]]: the first [n] code points, with their continuation bytes. *)
Fixpoint take_chars (n : nat) (l : list ascii) : list ascii :=
  match l with
  | [] => []
  | c :: l' =>
      if in_range 128 191 c then c :: take_chars n l'
      else match n with O => [] | S n' => c :: take_chars n' l' end
  end.

(** [sorted(filter(None, values), key=len, reverse=True)]; a reversed sort is stable too. *)
Definition longest_first (values : list string) : list string :=
  sort_by (fun a b => Nat.leb (py_len b) (py_len a)) (List.filter (fun v => v != "") values).

Definition REDACTED : string := "<redacted>".
Definition _sanitize_diagnostic (value : string) (sensitive_values : list string) (max_chars : nat)
    : string * bool :=
  let sanitized := join " " (words value) in
  let sanitized :=
    foldl (fun text sensitive => str_replace sensitive REDACTED text) sanitized
      (longest_first sensitive_values) in
  if Nat.ltb max_chars (py_len sanitized)
  then (unchars (take_chars (max_chars - 3) (chars sanitized)) ++ "...", true)
  else (sanitized, false).

(** The message of [wait_template_version] about a failed import. *)
Definition import_failure_message (version : CoderTemplateVersion) (sensitive_values : list string)
    : string :=
  let details := app
    ["version_id=" ++ uuid_str (cver_id version); "status=" ++ cver_status version]
    (app match cver_job_id version with Some j => ["job_id=" ++ uuid_str j] | None => [] end
    (app match cver_error_code version with
         | Some code => if code == "" then [] else ["error_code=" ++ code] | None => [] end
    match cver_error version with
    | Some error =>
        if error == "" then []
        else ["reason=" ++ (_sanitize_diagnostic error sensitive_values
                              TEMPLATE_IMPORT_ERROR_MAX_CHARS).1]
    | None => [] end)) in
  "Coder template import failed: " ++ join ", " details.

(** [while sum(len(line) + 1 ...) > MAX: rendered.pop(0)] *)
Definition log_size (lines : list string) : nat :=
  foldr (fun line n => py_len line + 1 + n)%nat 0 lines.
Fixpoint drop_oldest (lines : list string) : list string * bool :=
  match lines with
  | [] => ([], false)
  | _ :: rest =>
      if Nat.ltb TEMPLATE_IMPORT_LOG_MAX_CHARS (log_size lines) then ((drop_oldest rest).1, true)
      else (lines, false)
  end.

(** An entry of the log, when its fields are strings: its level, its stage and its output. *)
Definition render_entry (sensitive_values : list string) (entry : string * string * string) : string :=
  let '(level, stage, output) := entry in
  (_sanitize_diagnostic ("[" ++ stage ++ "] [" ++ level ++ "] " ++ output) sensitive_values
     TEMPLATE_IMPORT_LOG_MAX_CHARS).1.

(** The tail of the entries that is shown; [None] is an entry with other fields. *)
Definition shown_logs (entries : list (option (string * string * string)))
    (sensitive_values : list string) : list string * bool :=
  let n := List.length entries in
  let recent := drop (n - TEMPLATE_IMPORT_LOG_MAX_ENTRIES) entries in
  let '(rendered, dropped) :=
    drop_oldest (map (render_entry sensitive_values) (omap (fun e => e) recent)) in
  (rendered, Nat.ltb TEMPLATE_IMPORT_LOG_MAX_ENTRIES n || dropped).

Example sanitized_text :
  _sanitize_diagnostic ("token  hunter2" ++ String (ascii_of_N 10) "at host") ["hunter2"; ""; "host"] 100
  = ("token <redacted> at <redacted>", false).
Proof. vm_compute. reflexivity. Qed.

(** ** Secrets that a replacement cannot bring back *)
Definition redactable (s : list ascii) : Prop :=
  s <> [] /\ ("<"%char ∉ s) /\ (">"%char ∉ s) /\ ~ occurs s (chars "redacted").

Lemma interleave_redacted s ps :
  redactable s -> Forall (fun p => ~ occurs s p) ps -> ~ occurs s (interleave (chars REDACTED) ps).
Proof.
  intros (Hs & Hl & Hg & Hr) H. induction H as [|p ps Hp H IH]; [by apply occurs_nil |].
  destruct ps as [|q ps]; [done |]. rewrite (interleave_cons _ p) by done.
  change (chars REDACTED ++ interleave (chars REDACTED) (q :: ps))%list
    with ("<"%char :: chars "redacted" ++ ">"%char :: interleave (chars REDACTED) (q :: ps))%list.
  intros [? | [? | ?]%(occurs_split _ _ _ _ Hg Hs)]%(occurs_split _ _ _ _ Hl Hs); auto.
Qed.

Lemma replace_keeps_free s old l :
  redactable s -> old <> [] -> ~ occurs s l -> ~ occurs s (replace_from old (chars REDACTED) 0 l).
Proof.
  intros Hs Ho Hl. destruct (replace_pieces old (chars REDACTED) l Ho) as (ps & -> & _ & E & _).
  apply interleave_redacted; [done |]. apply Forall_forall. intros p Hp Hsp. apply Hl.
  rewrite E. eapply occurs_trans; [exact Hsp | by apply piece_occurs].
Qed.
Lemma replace_frees s l : redactable s -> ~ occurs s (replace_from s (chars REDACTED) 0 l).
Proof.
  intros Hs. destruct (replace_pieces s (chars REDACTED) l) as (ps & -> & _ & _ & H); [apply Hs |].
  by apply interleave_redacted.
Qed.

Lemma redacted_all s values text :
  redactable (chars s) -> Forall (fun v => v <> "") values ->
  s ∈ values \/ ~ occurs (chars s) (chars text) ->
  ~ occurs (chars s) (chars (foldl (fun text v => str_replace v REDACTED text) text values)).
Proof.
  intros Hs. revert text. induction values as [|v values IH]; cbn; intros text Hv H.
  { destruct H as [?%elem_of_nil | H]; done. }
  apply Forall_cons in Hv as [Hv Hvs].
  assert (Hc : chars v <> []) by (by destruct v).
  apply IH; [done |]. unfold str_replace. rewrite chars_unchars.
  destruct H as [[-> | H]%elem_of_cons | H].
  - right. by apply replace_frees.
  - by left.
  - right. by apply replace_keeps_free.
Qed.

(** ** Bounds *)
Lemma take_chars_prefix n l : take_chars n l `prefix_of` l.
Proof.
  revert n. induction l as [|c l IH]; intros n; cbn; [done |].
  destruct (in_range 128 191 c); [by apply prefix_cons |]. destruct n as [|n]; [by eexists |].
  by apply prefix_cons.
Qed.
Lemma take_chars_len n l : py_len (unchars (take_chars n l)) <= n.
Proof.
  unfold py_len. rewrite chars_unchars. revert n. induction l as [|c l IH]; intros n; cbn; [lia |].
  destruct (in_range 128 191 c) eqn:E; [cbn; rewrite E; apply IH |].
  destruct n as [|n]; cbn; [lia |]. rewrite E. cbn. specialize (IH n). lia.
Qed.

Lemma occurs_before_dot s l :
  s <> [] -> last s <> Some "."%char -> occurs s (l ++ ["."%char]) -> occurs s l.
Proof.
  intros Hs Hl (a & b & E). destruct b as [|x b _] using rev_ind.
  - exfalso. apply Hl. rewrite app_nil_r in E. apply (f_equal last) in E.
    rewrite last_snoc in E. destruct (last s) as [z |] eqn:Ez.
    + rewrite last_app, Ez in E. done.
    + by apply last_None in Ez.
  - rewrite !app_assoc in E. apply app_inj_tail in E as [-> _]. exists a, b. by rewrite app_assoc.
Qed.

Lemma longest_first_spec s values : s <> "" -> s ∈ values -> s ∈ longest_first values.
Proof.
  intros Hs H. unfold longest_first. rewrite elem_of_sort_by. apply list_elem_of_In, List.filter_In.
  split; [by apply list_elem_of_In |]. apply negb_true_iff, bool_decide_eq_false. done.
Qed.
Lemma longest_first_nonempty values : Forall (fun v => v <> "") (longest_first values).
Proof.
  apply Forall_forall. intros v. unfold longest_first. rewrite elem_of_sort_by.
  intros [_ H]%list_elem_of_In%List.filter_In. by bool_hyps.
Qed.

(** The secrets that the redaction is sure to remove: not empty, without the brackets and not a
    part of the word of the replacement text, and not ending in a full stop, as an abridged text
    does. *)
Definition removable (s : string) : Prop := redactable (chars s) /\ last (chars s) <> Some "."%char.

Lemma sanitized_free value values max s :
  removable s -> s ∈ values ->
  ~ occurs (chars s) (chars (_sanitize_diagnostic value values max).1).
Proof.
  intros [Hs Hdot] Hin. unfold _sanitize_diagnostic.
  assert (Hne : s <> "") by (intros ->; by destruct Hs as [? _]).
  assert (H := redacted_all s (longest_first values) (join " " (words value)) Hs
    (longest_first_nonempty values) (or_introl (longest_first_spec s values Hne Hin))).
  set (text := foldl _ _ _) in *. destruct (Nat.ltb _ _); [| exact H]. cbn [fst].
  set (t := take_chars _ _). intros Ho. apply H.
  assert (E : chars (unchars t ++ "...") = (((t ++ ["."%char]) ++ ["."%char]) ++ ["."%char])%list).
  { by rewrite chars_app, chars_unchars, <- !app_assoc. }
  rewrite E in Ho. do 3 (apply occurs_before_dot in Ho; [| exact (proj1 Hs) | done]).
  eapply occurs_trans; [exact Ho |]. destruct (take_chars_prefix (max - 3) (chars text)) as [k Hk].
  exists [], k. exact Hk.
Qed.

Lemma sanitized_bounded value values max :
  3 <= max -> py_len (_sanitize_diagnostic value values max).1 <= max.
Proof.
  intros Hm. unfold _sanitize_diagnostic. set (text := foldl _ _ _).
  destruct (Nat.ltb max (py_len text)) eqn:E; cbn [fst].
  - rewrite py_len_app. change (py_len "...") with 3.
    pose proof (take_chars_len (max - 3) (chars text)). lia.
  - by apply Nat.ltb_ge in E.
Qed.

(** ** Logs *)
Lemma drop_oldest_sub lines line : line ∈ (drop_oldest lines).1 -> line ∈ lines.
Proof.
  induction lines as [|l lines IH]; [done |]. cbn [drop_oldest].
  destruct (Nat.ltb _ _); [| done]. intros H. constructor. by apply IH.
Qed.
Lemma drop_oldest_size lines : log_size (drop_oldest lines).1 <= TEMPLATE_IMPORT_LOG_MAX_CHARS.
Proof.
  induction lines as [|l lines IH]; [apply Nat.le_0_l |]. cbn [drop_oldest].
  destruct (Nat.ltb _ _) eqn:E; [exact IH | by apply Nat.ltb_ge in E].
Qed.
Lemma drop_oldest_length lines : List.length (drop_oldest lines).1 <= List.length lines.
Proof.
  induction lines as [|l lines IH]; [done |]. cbn [drop_oldest]. destruct (Nat.ltb _ _); cbn in *; lia.
Qed.
Lemma omap_id_length {A} (l : list (option A)) : List.length (omap (fun e => e) l) <= List.length l.
Proof. induction l as [|[a |] l IH]; cbn in *; lia. Qed.



(** ** Secrets that span lines *)
Lemma words_from_clean cur l :
  forallb (fun c => negb (is_space c)) cur = true ->
  Forall (fun w => forallb (fun c => negb (is_space c)) w = true) (words_from cur l).
Proof.
  assert (Hrev : forall w, forallb (fun c => negb (is_space c)) w = true ->
    forallb (fun c => negb (is_space c)) (reverse w) = true).
  { intros w. rewrite !forallb_forall. intros H c Hc. apply H.
    apply list_elem_of_In. apply list_elem_of_In in Hc. by rewrite elem_of_reverse in Hc. }
  revert cur. induction l as [|c l IH]; intros cur Hcur; cbn [words_from].
  - destruct cur; [done |]. constructor; [by apply Hrev | done].
  - destruct (is_space c) eqn:E.
    + destruct cur; [by apply IH |]. constructor; [by apply Hrev | by apply IH].
    + apply IH. cbn. by rewrite E.
Qed.

Lemma normalized_spaces value c :
  c ∈ chars (join " " (words value)) -> is_space c = true -> c = " "%char.
Proof.
  unfold words. pose proof (words_from_clean [] (chars value) eq_refl) as H.
  induction H as [|w ws Hw H IH]; [by intros ?%not_elem_of_nil |].
  assert (Hword : c ∈ chars (unchars w) -> is_space c = true -> c = " "%char).
  { rewrite chars_unchars. intros Hc Hs. rewrite forallb_forall in Hw.
    apply list_elem_of_In, Hw in Hc. by rewrite Hs in Hc. }
  destruct ws as [|w' ws]; [exact Hword |].
  change (join " " (map unchars (w :: w' :: ws)))
    with (unchars w ++ " " ++ join " " (map unchars (w' :: ws))).
  rewrite !chars_app. intros [Hc | [Hc | Hc]%elem_of_app]%elem_of_app; auto.
  by apply list_elem_of_singleton in Hc.
Qed.

(** A secret that spans lines is shown. Whitespace is normalized before the known values are
    looked for, so that a value with a line break or a tab in it, as a private key has, is never
    found: the message is that of no known values. *)
Theorem broken_secrets_are_shown value s c max :
  c ∈ chars s -> is_space c = true -> c <> " "%char ->
  _sanitize_diagnostic value [s] max = _sanitize_diagnostic value [] max.
Proof.
  intros Hc Hs Hne. assert (Hs0 : s <> "") by (intros ->; by apply not_elem_of_nil in Hc).
  unfold _sanitize_diagnostic. change (longest_first []) with (@nil string).
  assert (E : longest_first [s] = [s]).
  { unfold longest_first. cbn [List.filter]. by rewrite bool_decide_eq_false_2. }
  rewrite E. cbn [foldl].
  assert (Er : str_replace s REDACTED (join " " (words value)) = join " " (words value)).
  { unfold str_replace. rewrite replace_absent; [apply unchars_chars | by destruct s |].
    intros (a & b & Ho). apply Hne. apply (normalized_spaces value c); [| done].
    rewrite Ho. set_solver. }
  by rewrite Er.
Qed.

Lemma broken_secrets_are_shown_witness :
  let key := "BEGIN" ++ String (ascii_of_N 10) "abc" in
  _sanitize_diagnostic ("invalid key: " ++ key) [key] 100 = ("invalid key: BEGIN abc", false).
Proof.
  cbv zeta.
  rewrite (broken_secrets_are_shown _ _ (ascii_of_N 10)).
  - vm_compute. reflexivity.
  - apply (bool_decide_eq_true_1 _). vm_compute. reflexivity.
  - reflexivity.
  - discriminate.
Defined.
