(* ===== verification/Worker.v ===== *)
(** * Worker: what the Celery workers share

    The requests of a worker to its environment, the program versions of the helpers of
    tasks/common/execution.py, and the periodic tasks tasks/retry_job_executions.py and
    tasks/check_instance_states.py. A task returns the [status] of its result. *)
From S2P Require Import Prelude Text Models Store Registry Crypto Execution Ownership Claims.
From S2P Require Import Jobs Databases Instances Config Program Coder.
From Stdlib Require Import Ascii String.
Open Scope string_scope.

(** ** Requests *)

(** Connection to the schema of an instance (domains/postgresql/service.py). *)
Record SchemaTarget := mkTarget {
  target_host : string;
  target_port : Z;
  target_database_name : string;
  target_username : string;
  target_password : string;
  target_schema_name : string
}.

(** domains/argocd/models.py *)
Inductive ArgoCdMutationStatus := COMPLETED | DEFERRED.
#[export] Instance mutation_status_eq_dec : EqDecision ArgoCdMutationStatus.
Proof. solve_decision. Defined.
Record ArgoCdReconcileResult := mkReconcileResult {
  reconcile_status : ArgoCdMutationStatus;
  application_name : string
}.
Record InstanceHelmValues := mkHelmValues {
  helm_slug : string;
  helm_public_url : string;
  helm_database_username : string;
  helm_database_password : string;
  helm_database_host : string;
  helm_database_name : string;
  helm_managed_database_name : string;
  helm_database_schema : string;
  helm_kubeconfig : option bytes
}.

(** domains/template_source/service.py *)
Record TemplateArchive := mkArchive {
  archive_commit : string;
  archive_content : bytes
}.

Record ArgoCdApplicationStatus := mkApplicationStatus {
  status_application_name : string;
  sync_status : option string;
  health_status : option string;
  operation_phase : option string;
  revision : option string;
  reconciled_at : option string
}.

Inductive Query : Type -> Type :=
| Now : Query time
| NewUuid : Query uuid
(** [urandom(12)] *)
| Nonce : Query bytes
(** [token_urlsafe(32)] *)
| Token : Query string
(** Whether the task is loaded, and whether [delay] succeeds. *)
| Deliver (task_name : string) (job_id : uuid) : Query (bool * bool)
| CreateSchema (target : SchemaTarget) : Query unit
| DropSchema (target : SchemaTarget) : Query unit
| ReconcileApplication (instance_id : uuid) (slug : string) (attached_name : option string)
    (members : list (string * MemberRole)) (values : InstanceHelmValues)
    : Query ArgoCdReconcileResult
| DeleteApplication (instance_id : uuid) (slug : string) (attached_name : option string)
    : Query ArgoCdMutationStatus
| ApplicationExists (instance_id : uuid) (slug : string) (attached_name : option string)
    : Query bool
(** [argocd.read_instance_application_status] *)
| ReadApplicationStatus (instance_id : uuid) (slug : string) (attached_name : option string)
    : Query ArgoCdApplicationStatus
(** [check_managed_database_connection]: [SELECT 1] on a managed server *)
| CheckConnection (host : string) (port : Z) (database user password : string) : Query unit
(** [time.monotonic()] and [time.sleep(...)] *)
| Monotonic : Query Z
| Sleep (seconds : Z) : Query unit
(** [task.delay(str(argument))] of a task that is no job's step *)
| Delay (task_name : string) (argument : uuid) : Query unit
(** [fetch_branch_archive] *)
| FetchBranchArchive (git_url branch source_path : string) : Query TemplateArchive
(** A method of the [CoderClient] of an instance. *)
| Coder {R : Type} (instance_url : string) (op : ClientOp R) : Query R.

Abbreviation worker := (prog Query) (only parsing).

(** ** tasks/common/execution.py and registry.py as programs *)

(** An exception of [delay] is caught in [dispatch_registered_step]. *)
Definition dispatch (task_name : string) (job_id : uuid) : worker bool :=
  if negb (member task_name REGISTERED_STEP_NAMES) then Done false
  else
    Ask (Deliver task_name job_id) (fun r =>
      let '(loaded, delivered) := match r with inl _ => (true, false) | inr ld => ld end in
      Done (dispatch_registered_step (fun _ => loaded) (fun _ _ => delivered) task_name job_id)).

(** The attempt claimed, or nothing to do; on an exception of the body the attempt fails, and the
    exception goes on. *)
Definition run_claimed_step (job_id : uuid) (task_name : string)
    (operation : ExecutionClaim -> worker string) : worker string :=
  now ← ask Now;
  c ← sess (claim_execution now job_id task_name);
  match c with
  | None => Done "noop"
  | Some claim =>
      catch (operation claim) (fun e => sess (fail_execution claim (mret tt));; Fail e)
  end.

Definition advance (claim : ExecutionClaim) (next_task_name next_step : string)
    (mutate : mutation) : worker bool :=
  advanced ← sess (advance_execution claim next_task_name next_step mutate);
  if (advanced : bool) then dispatch next_task_name (claim_job_id claim);; Done true
  else Done false.

(** [{"status": s if done else "noop"}]. *)
Definition status_or_noop (s : string) (done_ : bool) : string := if done_ then s else "noop".

(** The callbacks [_heartbeat_owned]: a lost claim aborts the remote work. *)
Definition heartbeat_owned (message : string) (claim : ExecutionClaim) : worker unit :=
  now ← ask Now;
  owned ← sess (heartbeat_execution now claim);
  if (owned : bool) then Done tt else Fail (RuntimeError message).

(** ** tasks/retry_job_executions.py *)
Definition is_retryable (stale_before : time) (job : JobExecution) : bool :=
  member (job_status job) [PENDING; ERROR]
  || (job_status job == RUNNING)
     && match job_claimed_at job with Some c => Z.leb c stale_before | None => false end.

(** [order_by(JobExecution.created_at, JobExecution.id)]. *)
Definition created_before (a b : uuid * JobExecution) : bool :=
  Z.ltb (job_created_at a.2) (job_created_at b.2)
  || Z.eqb (job_created_at a.2) (job_created_at b.2) && N.leb a.1 b.1.
Definition retryable_jobs (stale_before : time) (d : Store) : list uuid :=
  map fst (sort_by created_before
             (rows_where (fun _ job => is_retryable stale_before job) (jobs d))).

Fixpoint retry_each (stale_before : time) (job_ids : list uuid) (scheduled skipped : Z)
    : worker (Z * Z) :=
  match job_ids with
  | [] => Done (scheduled, skipped)
  | job_id :: rest =>
      task ← sess (prepare_execution_retry stale_before job_id);
      sent ← match (task : option string) with
             | None => Done false
             | Some task_name => dispatch task_name job_id
             end;
      if (sent : bool) then retry_each stale_before rest (scheduled + 1) skipped
      else retry_each stale_before rest scheduled (skipped + 1)
  end.

Definition retry_job_executions (settings : Settings) : worker (Z * Z) :=
  now ← ask Now;
  let stale_before := (now - job_stale_after_seconds settings)%Z in
  job_ids ← sess (gets (retryable_jobs stale_before));
  retry_each stale_before job_ids 0 0.

(** ** tasks/check_instance_states.py *)
Record InstanceStateSnapshot := mkSnapshot {
  snap_id : uuid;
  snap_slug : string;
  snap_attached_name : option string;
  snap_job_id : option uuid;
  snap_action : string;
  snap_status : Status
}.
Definition snapshot_of (i : uuid) (r : CoderInstance) : InstanceStateSnapshot :=
  mkSnapshot i (inst_slug r) (inst_argocd_application_name r) (inst_job_id r) (inst_action r)
    (inst_status r).

Definition idle_snapshots (d : Store) : list InstanceStateSnapshot :=
  map (fun kr => snapshot_of kr.1 kr.2)
    (sort_by (fun a b => N.leb a.1 b.1)
       (rows_where (fun _ r => negb (member (inst_status r) [PENDING; RUNNING])
                               && (inst_action r != "deleting")) (instances d))).

(** The fenced write of one observation; the result tells whether the state changed. *)
Definition store_observation (snapshot : InstanceStateSnapshot) (observed : InstanceState)
    : session bool :=
  d ← gets (fun d => d);
  match instances d !! snap_id snapshot with
  | None => mret false
  | Some r =>
      if (inst_job_id r != snap_job_id snapshot) || (inst_action r != snap_action snapshot)
         || (inst_status r != snap_status snapshot)
         || member (inst_status r) [PENDING; RUNNING] || (inst_action r == "deleting")
      then mret false
      else if inst_state r == observed then commit;; mret false
      else
        set_instance (fun r => r <| inst_state := observed |>) (snap_id snapshot);;
        commit;;
        mret true
  end.

Fixpoint observe_each (snapshots : list InstanceStateSnapshot) (checked changed errors : Z)
    : worker (Z * Z * Z) :=
  match snapshots with
  | [] => Done (checked, changed, errors)
  | s :: rest =>
      Ask (ApplicationExists (snap_id s) (snap_slug s) (snap_attached_name s)) (fun r =>
        match r with
        | inl _ => observe_each rest checked changed (errors + 1)
        | inr exists_ =>
            wrote ← sess (store_observation s (if (exists_ : bool) then STARTED else STOPPED));
            observe_each rest (checked + 1) (if (wrote : bool) then changed + 1 else changed)%Z
              errors
        end)
  end.

Definition check_instance_states : worker (Z * Z * Z) :=
  snapshots ← sess (gets idle_snapshots);
  observe_each snapshots 0 0 0.

(** ** Facts *)
Lemma dispatch_sound task j : sound_prog (dispatch task j).
Proof. unfold dispatch. case_match; [done |]. intros r. by destruct r as [|[]]. Qed.

Lemma gets_keeps {A} (f : Store -> A) : Keeps (gets f).
Proof. apply keeps_read_only. intros d a d' H. by session_inv. Qed.

(** The body of a step may rely on the claim's task, which is its own. *)
Lemma run_claimed_step_sound j task operation :
  (forall claim, claim_task_name claim = task -> claim_job_id claim = j ->
     sound_prog (operation claim)) ->
  sound_prog (run_claimed_step j task operation).
Proof.
  intros Hop. apply sound_bind; [apply sound_ask |]. intros now.
  apply sound_session_bind; [apply claim_execution_keeps |]. intros d c d' Hd H.
  apply claim_execution_inv in H as [[-> _] | (job & _ & _ & _ & _ & _ & _ & ->)]; [done |].
  apply sound_catch; [by apply Hop |]. intros e. apply sound_bind; [| done].
  apply sound_sess, fail_execution_keeps. intros d1 u d2 _ H ox. session_inv.
  by apply touches_refl.
Qed.

Lemma advance_sound claim next_task next_step mutate :
  MutatesWithin SameDuty mutate -> follows (claim_task_name claim) next_task next_step = true ->
  sound_prog (advance claim next_task next_step mutate).
Proof.
  intros Hm Hf. apply sound_bind; [by apply sound_sess, advance_execution_keeps |].
  intros [|]; [| done]. apply sound_bind; [apply dispatch_sound | done].
Qed.

Lemma heartbeat_owned_sound message claim : sound_prog (heartbeat_owned message claim).
Proof.
  apply sound_bind; [apply sound_ask |]. intros now.
  apply sound_bind; [apply sound_sess, heartbeat_execution_keeps |]. by intros [|].
Qed.

Create HintDb sound.
#[export] Hint Resolve sound_returns sound_ask dispatch_sound heartbeat_owned_sound : sound.

(** [sound] proves [sound_prog p] construct by construct; the sessions it does not know are left. *)
Ltac sound_core_step :=
  match goal with
  | |- sound_prog (_ ≫= _) => apply sound_bind
  | |- sound_prog (bind _ _) => apply sound_bind
  | |- sound_prog (Done _) => exact I
  | |- sound_prog (Fail _) => exact I
  | |- forall _, _ => intros ?
  | |- sound_prog (let _ := _ in _) => cbv zeta
  | |- sound_prog (Ask _ _) => intros ?
  | |- sound_prog (let '(_, _) := ?x in _) => destruct x
  | |- sound_prog (match ?x with _ => _ end) => destruct x
  | |- sound_prog (if ?b then _ else _) => destruct b
  | |- sound_prog (sess (defer_execution _ _)) => apply sound_sess, defer_execution_keeps
  | |- sound_prog (sess (complete_execution _ _ _)) => apply sound_sess, complete_execution_keeps
  | |- MutatesWithin _ no_mutation => by apply no_mutation_within
  | |- sound_prog (advance _ _ _ _) => apply advance_sound
  | Ht : claim_task_name ?c = _ |- follows (claim_task_name ?c) _ _ = true =>
      rewrite Ht; vm_compute; reflexivity
  | Ht : claim_task_name ?c = _ |- ends (claim_task_name ?c) = true =>
      rewrite Ht; vm_compute; reflexivity
  | |- _ => solve [auto 4 with sound]
  end.
Ltac sound_step := sound_core_step.
Ltac sound := repeat sound_step.

Lemma retry_job_executions_sound settings : sound_prog (retry_job_executions settings).
Proof.
  apply sound_bind; [apply sound_ask |]. intros now.
  apply sound_bind; [apply sound_sess, gets_keeps |]. intros job_ids.
  generalize 0%Z at 1; generalize 0%Z.
  induction job_ids as [|j rest IH]; intros skipped scheduled; [done |].
  apply sound_bind; [apply sound_sess, prepare_execution_retry_keeps |].
  intros [task|]; apply sound_bind; try done; [apply dispatch_sound | |]; by intros [|].
Qed.

Lemma store_observation_keeps s observed : Keeps (store_observation s observed).
Proof.
  intros d a d' Hd H. unfold store_observation, set_instance in H. session_cases;
    try (split; [done | by apply evolves_eq]).
  apply removal_keeps; [done | done | done |]. intros y _. right. by apply owner_alter_instance.
Qed.

Lemma check_instance_states_sound : sound_prog check_instance_states.
Proof.
  apply sound_bind; [apply sound_sess, gets_keeps |]. intros snapshots.
  generalize 0%Z at 1; generalize 0%Z at 1; generalize 0%Z.
  induction snapshots as [|s rest IH]; intros errors changed checked; [done |].
  intros [e | exists_]; [apply IH |].
  apply sound_bind; [apply sound_sess, store_observation_keeps | intros wrote; apply IH].
Qed.
