(* ===== verification/TemplateSource.v ===== *)
(** * TemplateSource: the archive of a template's Git branch (domains/template_source/service.py)

    The file system, Git and the tar format are the environment's: [fetch_branch_archive] asks for
    the commands to be run and for the checked-out tree, and [write_ustar] turns the chosen entries
    into bytes. Which entries are chosen, in which order, and every refusal are the program's. *)
From S2P Require Import Prelude Order Text Models Store Program Coder Worker Replace.
From Stdlib Require Import Ascii String.
Open Scope string_scope.

(** ** A checked-out tree: files, symbolic links by what they lead to, and directories *)
Inductive Target := TargetFile | TargetDirectory | TargetMissing.
#[warnings="-register-all"]
Inductive Node :=
| RegularFile (content : bytes)
| SymbolicLink (text : string) (target : Target)
| Directory (children : list (string * Node)).
Abbreviation Path := (list string) (only parsing).
(** What the archive gets: a path below the directory, and the file, the link or the directory
    there ([archive.add] with [recursive=False] takes nothing from inside a directory). *)
Abbreviation Entry := (list string * Node)%type (only parsing).

(** [path.is_dir()] and [path.is_file()] follow links. *)
Definition is_dir (node : Node) : bool :=
  match node with Directory _ | SymbolicLink _ TargetDirectory => true | _ => false end.
Definition is_file (node : Node) : bool :=
  match node with RegularFile _ | SymbolicLink _ TargetFile => true | _ => false end.

Definition header (node : Node) : Node :=
  match node with Directory _ => Directory [] | _ => node end.

Definition hidden (part : string) : bool := starts_with "." part.
Definition as_posix (path : Path) : string := join "/" path.
Definition path_name (path : Path) : string := default "" (last path).

Definition _skip_archive_file (relative_path : Path) : bool :=
  let name := path_name relative_path in
  if existsb hidden relative_path && (name != ".terraform.lock.hcl") then true
  else if includes ".tfstate" (as_posix relative_path) then true
  else member name ["terraform.tfvars"; "terraform.tfvars.json"]
       || ends_with ".auto.tfvars" name || ends_with ".auto.tfvars.json" name.

(** [os.walk(directory, topdown=True, followlinks=False)] with [directory_names] pruned: first the
    visible directories and links to directories, by name, then the files, by name, then what is
    inside the visible directories. *)
Definition by_name {A} (l : list (string * A)) : list (string * A) :=
  sort_by (fun a b => String.leb a.1 b.1) l.
Fixpoint walk (directory : Path) (node : Node) : list Entry :=
  match node with
  | Directory children =>
      let walked := map (fun kv => (kv.1, (header kv.2, walk (directory ++ [kv.1]) kv.2))) children in
      let directories :=
        List.filter (fun e => negb (existsb hidden (directory ++ [e.1])))
          (by_name (List.filter (fun e => is_dir e.2.1) walked)) in
      let files :=
        List.filter (fun e => negb (_skip_archive_file (directory ++ [e.1])))
          (by_name (List.filter (fun e => negb (is_dir e.2.1)) walked)) in
      (map (fun e => (directory ++ [e.1], e.2.1)) directories
       ++ map (fun e => (directory ++ [e.1], e.2.1)) files
       ++ List.concat (map (fun e => e.2.2) directories))%list
  | _ => []
  end.
Definition _write_archive_entries (node : Node) : list Entry := walk [] node.

(** ** Archives *)
Definition TEMPLATE_ARCHIVE_LIMIT : N := N.shiftl 1 20.

Section Archive.
(** [tarfile] in its USTAR format, without following links; [None] is an [OSError], a [TarError]
    or a [ValueError]. *)
Variable write_ustar : list (string * Node) -> option bytes.

Definition archive_template_directory (node : Node) : Exn + bytes :=
  match node with
  | Directory children =>
      if existsb (fun child => is_file child.2
                    && (ends_with ".tf" child.1 || ends_with ".tf.json" child.1)) children
      then
        match write_ustar (map (fun e => (as_posix e.1, e.2)) (_write_archive_entries node)) with
        | None => inl (TemplateSourceError "Template archive could not be created")
        | Some content =>
            if N.ltb TEMPLATE_ARCHIVE_LIMIT (N.of_nat (List.length content))
            then inl (TemplateSourceError "Template archive exceeds the 1 MiB limit")
            else inr content
        end
      else inl (TemplateSourceError "Template source_path has no root Terraform files")
  | _ => inl (TemplateSourceError "Template source_path is not a directory")
  end.

(** ** The checkout *)
Inductive SourceQuery : Type -> Type :=
(** [shutil.which("git")] *)
| Which : SourceQuery (option string)
(** [subprocess.run] with [_git_environment()] in the new repository: its output, or [None] for an
    [OSError] or a [SubprocessError]. *)
| RunGit (executable : string) (arguments : list string) : SourceQuery (option string)
(** [repository.resolve()] and [(repository / source_path).resolve()]: absolute, without links *)
| ResolveRoot : SourceQuery Path
| Resolve (source_path : string) : SourceQuery Path
(** The tree at a resolved path; what is not there is no directory. *)
| ReadTree (path : Path) : SourceQuery Node.
Abbreviation checkout := (prog SourceQuery) (only parsing).

Definition _run_git (arguments : list string) : checkout string :=
  executable ← ask Which;
  match (executable : option string) with
  | None => Fail (TemplateSourceError "Git executable is unavailable")
  | Some executable =>
      completed ← ask (RunGit executable arguments);
      match (completed : option string) with
      | None => Fail (TemplateSourceError "Template Git operation failed")
      | Some stdout => Done (str_strip stdout)
      end
  end.

(** [re.fullmatch("[0-9a-f]{40}", commit)] *)
Definition is_commit (commit : string) : bool :=
  forallb hex_char (chars commit) && Nat.eqb (List.length (chars commit)) 40.
(** [source.is_relative_to(root)] *)
Fixpoint is_relative_to (source root : Path) : bool :=
  match root, source with
  | [], _ => true
  | part :: root', part' :: source' => (part == part') && is_relative_to source' root'
  | _ :: _, [] => false
  end.

Definition fetch_branch_archive (git_url branch source_path : string) : checkout TemplateArchive :=
  _run_git ["init"; "--quiet"];;
  _run_git ["remote"; "add"; "origin"; git_url];;
  _run_git ["fetch"; "--quiet"; "--depth=1"; "--no-tags"; "origin"; "refs/heads/" ++ branch];;
  _run_git ["checkout"; "--quiet"; "--detach"; "FETCH_HEAD"];;
  commit ← _run_git ["rev-parse"; "--verify"; "HEAD^{commit}"];
  if negb (is_commit commit)
  then Fail (TemplateSourceError "Template Git branch did not resolve to a commit")
  else
    source ← ask (Resolve source_path);
    repository_root ← ask ResolveRoot;
    if negb (is_relative_to source repository_root)
    then Fail (TemplateSourceError "Template source_path escapes the repository")
    else
      tree ← ask (ReadTree source);
      content ← returns (archive_template_directory tree);
      Done (mkArchive commit content).
End Archive.

(** A repository with a module, state, variables and hidden files. *)
Definition sample_tree : Node :=
  Directory
    [("variables.tf", RegularFile []); ("main.tf", RegularFile []);
     (".terraform.lock.hcl", RegularFile []); (".env", RegularFile []);
     ("terraform.tfvars", RegularFile []); ("prod.auto.tfvars", RegularFile []);
     ("terraform.tfstate.backup", RegularFile []);
     ("modules", Directory [("b.sh", RegularFile []); (".git", Directory []); ("a.sh", RegularFile [])]);
     ("latest", SymbolicLink "modules" TargetDirectory);
     (".git", Directory [("config", RegularFile [])])].
Example sample_entries :
  map (fun e => as_posix e.1) (_write_archive_entries sample_tree)
  = ["latest"; "modules"; ".terraform.lock.hcl"; "main.tf"; "variables.tf"; "modules/a.sh"; "modules/b.sh"].
Proof. vm_compute. reflexivity. Qed.
