(* ===== verification/TemplateSourceProperties.v ===== *)
(** * TemplateSourceProperties: what gets into the archive of a template *)
From S2P Require Import Prelude Order Text Models Store Program Monitor Coder Worker Replace.
From S2P Require Import TemplateSource.
From Stdlib Require Import Ascii String.
Open Scope string_scope.

Section NodeInd.
Variable P : Node -> Prop.
Hypothesis Hfile : forall content, P (RegularFile content).
Hypothesis Hlink : forall text target, P (SymbolicLink text target).
Hypothesis Hdirectory : forall children, Forall (fun kv => P kv.2) children -> P (Directory children).
Fixpoint node_nested_ind (n : Node) : P n :=
  match n with
  | RegularFile content => Hfile content
  | SymbolicLink text target => Hlink text target
  | Directory children =>
      Hdirectory children ((fix go l : Forall (fun kv => P kv.2) l :=
        match l with
        | [] => Forall_nil_2 _
        | x :: l' => Forall_cons_2 (fun kv => P kv.2) x l' (node_nested_ind x.2) (go l')
        end) children)
  end.
End NodeInd.

(** ** The reference: the wanted paths of the tree *)
Inductive at_path : Node -> list string -> Node -> Prop :=
| at_root node : at_path node [] node
| at_child children name child path node :
    (name, child) ∈ children -> at_path child path node ->
    at_path (Directory children) (name :: path) node.

Definition visible (path : list string) : Prop := existsb hidden path = false.
(** A path is wanted if no directory above it is hidden, and it is a directory that is not hidden
    or a file that is not skipped. *)
Definition wanted (path : list string) (node : Node) : Prop :=
  visible (removelast path) /\
  if is_dir node then hidden (path_name path) = false else _skip_archive_file path = false.

Lemma visible_app p q : visible (p ++ q) <-> visible p /\ visible q.
Proof. unfold visible. by rewrite existsb_app, orb_false_iff. Qed.
Lemma visible_one x : visible [x] <-> hidden x = false.
Proof. unfold visible. cbn. by rewrite orb_false_r. Qed.
Lemma removelast_snoc (p : list string) x : removelast (p ++ [x]) = p.
Proof. rewrite removelast_app by done. cbn. apply app_nil_r. Qed.
Lemma path_name_snoc p x : path_name (p ++ [x]) = x.
Proof. unfold path_name. by rewrite last_snoc. Qed.
Lemma wanted_child dir name node :
  wanted (dir ++ [name]) node <->
  visible dir /\ if is_dir node then hidden name = false else _skip_archive_file (dir ++ [name]) = false.
Proof. unfold wanted. by rewrite removelast_snoc, path_name_snoc. Qed.
Lemma is_dir_header node : is_dir (header node) = is_dir node.
Proof. by destruct node. Qed.

(** ** One directory *)
Section Directory.
Variables (dir : list string) (children : list (string * Node)).

Definition walked : list (string * (Node * list Entry)) :=
  map (fun kv => (kv.1, (header kv.2, walk (dir ++ [kv.1]) kv.2))) children.
Definition directories : list (string * (Node * list Entry)) :=
  List.filter (fun e => negb (existsb hidden (dir ++ [e.1])))
    (by_name (List.filter (fun e => is_dir e.2.1) walked)).
Definition files : list (string * (Node * list Entry)) :=
  List.filter (fun e => negb (_skip_archive_file (dir ++ [e.1])))
    (by_name (List.filter (fun e => negb (is_dir e.2.1)) walked)).
Definition entry (e : string * (Node * list Entry)) : Entry := ((dir ++ [e.1])%list, e.2.1).

Lemma walk_directory :
  walk dir (Directory children)
  = (map entry directories ++ map entry files ++ List.concat (map (fun e => e.2.2) directories))%list.
Proof. reflexivity. Qed.

Lemma elem_of_walked e :
  e ∈ walked <-> exists name child, (name, child) ∈ children /\
    e = (name, (header child, walk (dir ++ [name]) child)).
Proof.
  unfold walked. rewrite list_elem_of_fmap. split.
  - intros ([name child] & -> & Hin). eauto.
  - intros (name & child & Hin & ->). by exists (name, child).
Qed.
Lemma elem_of_directories e :
  e ∈ directories <-> e ∈ walked /\ is_dir e.2.1 = true /\ visible dir /\ hidden e.1 = false.
Proof.
  unfold directories, by_name. rewrite list_elem_of_In, List.filter_In, <- list_elem_of_In.
  rewrite elem_of_sort_by, list_elem_of_In, List.filter_In, <- list_elem_of_In.
  rewrite negb_true_iff. change (existsb hidden ?p = false) with (visible p).
  rewrite visible_app, visible_one. tauto.
Qed.
Lemma elem_of_files e :
  e ∈ files <-> e ∈ walked /\ is_dir e.2.1 = false /\ _skip_archive_file (dir ++ [e.1]) = false.
Proof.
  unfold files, by_name. rewrite list_elem_of_In, List.filter_In, <- list_elem_of_In.
  rewrite elem_of_sort_by, list_elem_of_In, List.filter_In, <- list_elem_of_In.
  rewrite !negb_true_iff. tauto.
Qed.
End Directory.

(** ** The walk finds the wanted paths *)
Lemma walk_found node dir e :
  visible dir -> e ∈ walk dir node ->
  exists p n, p <> [] /\ e = ((dir ++ p)%list, header n) /\ at_path node p n /\ wanted (dir ++ p) n.
Proof.
  revert dir e. induction node as [content | text target | children IH] using node_nested_ind;
    intros dir e Hv He; [by apply not_elem_of_nil in He | by apply not_elem_of_nil in He |].
  rewrite Forall_forall in IH. rewrite walk_directory in He.
  apply elem_of_app in He as [He | He]; [| apply elem_of_app in He as [He | He]].
  - apply list_elem_of_fmap in He as (d & -> & Hd). apply elem_of_directories in Hd as (Hd & Hdir & _ & Hh).
    apply elem_of_walked in Hd as (name & child & Hin & ->). cbn in *.
    exists [name], child. split_and!; [done | done | by econstructor; [| constructor] |].
    apply wanted_child. rewrite <- is_dir_header, Hdir. done.
  - apply list_elem_of_fmap in He as (d & -> & Hd). apply elem_of_files in Hd as (Hd & Hdir & Hs).
    apply elem_of_walked in Hd as (name & child & Hin & ->). cbn in *.
    exists [name], child. split_and!; [done | done | by econstructor; [| constructor] |].
    apply wanted_child. rewrite <- is_dir_header, Hdir. done.
  - apply list_elem_of_In, List.in_concat in He as (l & Hl & He).
    apply list_elem_of_In, list_elem_of_fmap in Hl as (d & -> & Hd).
    apply elem_of_directories in Hd as (Hd & _ & _ & Hh).
    apply elem_of_walked in Hd as (name & child & Hin & ->). cbn in *. apply list_elem_of_In in He.
    apply (IH (name, child) Hin) in He as (p & n & Hp & -> & Hat & Hw).
    2:{ apply visible_app. split; [done | by apply visible_one]. }
    exists (name :: p), n. rewrite <- app_assoc in Hw |- *. split_and!; try done. by econstructor.
Qed.

Lemma at_path_leaf node p n : at_path node p n -> p <> [] -> is_dir node = true.
Proof. by destruct 1. Qed.

Lemma walk_complete node dir p n :
  p <> [] -> at_path node p n -> wanted (dir ++ p) n -> ((dir ++ p)%list, header n) ∈ walk dir node.
Proof.
  revert dir p. induction node as [content | text target | children IH] using node_nested_ind;
    intros dir p Hp Hat Hw; [by inversion Hat; subst | by inversion Hat; subst |].
  rewrite Forall_forall in IH. inversion Hat as [| ? name child p' ? Hin Hat']; subst; [done |].
  rewrite walk_directory. destruct p' as [| x p'].
  - inversion Hat'; subst. apply wanted_child in Hw as [Hv Hw].
    assert (Hk : (name, (header n, walk (dir ++ [name]) n)) ∈ walked dir children)
      by (apply elem_of_walked; eauto).
    destruct (is_dir n) eqn:Hd.
    + apply elem_of_app. left. apply list_elem_of_fmap. eexists. split; [| apply elem_of_directories; split; [exact Hk |]].
      * done.
      * cbn. by rewrite is_dir_header.
    + apply elem_of_app. right. apply elem_of_app. left. apply list_elem_of_fmap.
      eexists. split; [| apply elem_of_files; split; [exact Hk |]]; [done |].
      cbn. by rewrite is_dir_header.
  - assert (Hv : visible (dir ++ [name])).
    { destruct Hw as [Hv _]. revert Hv. replace (dir ++ name :: x :: p')%list
        with ((dir ++ [name]) ++ x :: p')%list by (by rewrite <- app_assoc).
      rewrite removelast_app by done. by intros [? _]%visible_app. }
    apply visible_app in Hv as [Hv Hname]. apply visible_one in Hname.
    do 2 (apply elem_of_app; right). apply list_elem_of_In, List.in_concat.
    exists (walk (dir ++ [name]) child). split.
    + apply list_elem_of_In, list_elem_of_fmap.
      exists (name, (header child, walk (dir ++ [name]) child)). split; [done |].
      apply elem_of_directories. split; [apply elem_of_walked; eauto |]. cbn.
      split; [| done]. rewrite is_dir_header. by eapply at_path_leaf.
    + apply list_elem_of_In. replace (dir ++ name :: x :: p')%list
        with ((dir ++ [name]) ++ x :: p')%list in * by (by rewrite <- app_assoc).
      by apply (IH (name, child) Hin).
Qed.

(** ** Directories come before what is in them *)
Definition parents_first (dir : list string) (l : list Entry) : Prop :=
  forall l1 e l2, l = (l1 ++ e :: l2)%list ->
    removelast e.1 = dir \/ exists n, (removelast e.1, n) ∈ l1.

Lemma parents_first_app dir l l' :
  parents_first dir l ->
  (forall l1 e l2, l' = (l1 ++ e :: l2)%list ->
     removelast e.1 = dir \/ exists n, (removelast e.1, n) ∈ (l ++ l1)%list) ->
  parents_first dir (l ++ l').
Proof.
  intros Hl Hl' l1 e l2 E. apply app_eq_app in E as (k & [(E1 & E2) | (E1 & E2)]).
  - destruct k as [| y k].
    + cbn in E2. rewrite app_nil_r in E1. subst. destruct (Hl' [] e l2 eq_refl) as [? | [n Hn]]; [by left |].
      right. exists n. by rewrite app_nil_r in Hn.
    + injection E2 as <- ->. by apply (Hl l1 e k).
  - subst. by apply (Hl' k e l2).
Qed.

Lemma parents_first_children dir names :
  parents_first dir (map (entry dir) names).
Proof.
  intros l1 e l2 E. left. assert (Hin : e ∈ map (entry dir) names) by (rewrite E; set_solver).
  apply list_elem_of_fmap in Hin as (d & -> & _). apply removelast_snoc.
Qed.

Lemma walk_parents_first node dir : parents_first dir (walk dir node).
Proof.
  revert dir. induction node as [content | text target | children IH] using node_nested_ind;
    intros dir; [by intros [] | by intros [] |].
  rewrite Forall_forall in IH. rewrite walk_directory, app_assoc.
  apply parents_first_app.
  { apply parents_first_app; [apply parents_first_children |].
    intros l1 e l2 E. destruct (parents_first_children dir _ _ _ _ E) as [? | [n Hn]]; [by left |].
    right. exists n. set_solver. }
  assert (Hsub : forall d, d ∈ directories dir children ->
    parents_first (dir ++ [d.1]) d.2.2 /\ entry dir d ∈ map (entry dir) (directories dir children)).
  { intros d Hd. split; [| by apply list_elem_of_fmap_2].
    apply elem_of_directories in Hd as (Hd & _).
    apply elem_of_walked in Hd as (name & child & Hin & ->). by apply (IH (name, child) Hin). }
  set (before := (map (entry dir) (directories dir children) ++ map (entry dir) (files dir children))%list).
  assert (Hb : forall d, d ∈ directories dir children -> entry dir d ∈ before) by
    (intros d Hd; apply elem_of_app; left; by apply Hsub).
  clearbody before. revert before Hb. induction (directories dir children) as [| d ds IHd];
    intros before Hb l1 e l2 E; [by destruct l1 |].
  cbn [map List.concat] in E. destruct (Hsub d) as [Hd _]; [set_solver |].
  apply app_eq_app in E as (k & [(E1 & E2) | (E1 & E2)]).
  - destruct k as [| y k].
    + cbn in E2. rewrite app_nil_r in E1. subst.
      destruct (IHd ltac:(intros d' Hd'; split; [apply Hsub; set_solver | by apply list_elem_of_fmap_2])
                  (before ++ d.2.2)%list ltac:(intros d' Hd'; set_solver) [] e l2 (eq_sym E2))
        as [? | [n Hn]]; [by left |]. right. exists n. by rewrite app_nil_r in Hn.
    + injection E2 as <- E2. right. destruct (Hd l1 e k E1) as [-> | [n Hn]].
      * exists d.2.1. apply elem_of_app. left. apply Hb. constructor.
      * exists n. set_solver.
  - subst. destruct (IHd ltac:(intros d' Hd'; split; [apply Hsub; set_solver | by apply list_elem_of_fmap_2])
                  (before ++ d.2.2)%list ltac:(intros d' Hd'; set_solver) k e l2 E2)
      as [? | [n Hn]]; [by left |]. right. exists n. by rewrite app_assoc.
Qed.

(** ** The order in which the file system lists a directory does not matter *)
#[warnings="-register-all"]
Inductive same_tree : Node -> Node -> Prop :=
| same_refl node : same_tree node node
| same_directory children listed children' :
    Forall2 (fun a b => a.1 = b.1 /\ same_tree a.2 b.2) children listed -> listed ≡ₚ children' ->
    same_tree (Directory children) (Directory children').
Definition unique_names (node : Node) : Prop :=
  forall p children, at_path node p (Directory children) -> NoDup (map fst children).

Lemma by_name_unique {A} (l l' : list (string * A)) :
  NoDup (map fst l) -> l ≡ₚ l' -> by_name l = by_name l'.
Proof.
  intros Hn Hp.
  assert (Hsorted : forall k : list (string * A),
    StronglySorted (fun a b => String.leb a.1 b.1 = true) (by_name k)).
  { intros k. apply (sort_by_sorted (fun a b => String.leb a.1 b.1)).
    - intros a b c. exact (leb_of_trans String.compare a.1 b.1 c.1).
    - intros a b. exact (leb_of_total String.compare a.1 b.1). }
  apply (StronglySorted_unique_strong (fun a b => String.leb a.1 b.1 = true)); try done.
  - intros x y Hx Hy H1 H2. unfold by_name in Hx, Hy. apply elem_of_sort_by in Hx, Hy.
    rewrite <- Hp in Hy. assert (E : x.1 = y.1) by (by apply String.leb_antisym).
    destruct (list_elem_of_lookup_1 _ _ Hx) as [i Hi], (list_elem_of_lookup_1 _ _ Hy) as [j Hj].
    assert (i = j).
    { eapply NoDup_lookup; [exact Hn | |]; rewrite list_lookup_fmap.
      - by rewrite Hi.
      - by rewrite Hj, E. }
    congruence.
  - unfold by_name. by rewrite !sort_by_permutation.
Qed.
Lemma NoDup_filtered {A} (p : string * A -> bool) l :
  NoDup (map fst l) -> NoDup (map fst (List.filter p l)).
Proof.
  induction l as [| x l IH]; cbn; [done |]. intros [Hx Hn]%NoDup_cons. destruct (p x); [| auto].
  cbn. apply NoDup_cons. split; [| auto]. intros (y & E & Hy)%list_elem_of_fmap. apply Hx.
  rewrite E. apply list_elem_of_fmap_2. apply list_elem_of_In, List.filter_In in Hy as [Hy _].
  by apply list_elem_of_In.
Qed.

Lemma walk_same node node' dir :
  unique_names node -> same_tree node node' -> walk dir node = walk dir node'.
Proof.
  revert node' dir. induction node as [content | text target | children IH] using node_nested_ind;
    intros node' dir Hu Hs; [by inversion Hs; subst | by inversion Hs; subst |].
  inversion Hs as [| ? listed children' H2 Hperm]; subst; [done |]. rewrite Forall_forall in IH.
  assert (E : walked dir children = walked dir listed).
  { assert (Hc : forall kv, kv ∈ children -> forall node', same_tree kv.2 node' ->
      header kv.2 = header node' /\ walk (dir ++ [kv.1]) kv.2 = walk (dir ++ [kv.1]) node').
    { intros [name child] Hin node'' Hsame. split; [by inversion Hsame |].
      apply (IH (name, child) Hin); [| done]. intros p ch Hat. apply (Hu (name :: p)). by econstructor. }
    clear - H2 Hc. induction H2 as [| [name a] [name' b] l l' [E Hab] _ IHl]; [done |].
    cbn in E. subst name'. unfold walked in *. cbn [map]. f_equal.
    - destruct (Hc (name, a) (list_elem_of_here _ _) b Hab) as [Eh Ew]. cbn in Eh, Ew |- *. by rewrite Eh, Ew.
    - apply IHl. intros kv Hkv. apply Hc. by constructor. }
  assert (Hn : NoDup (map fst (walked dir children))).
  { unfold walked. rewrite map_map. cbn. apply (Hu [] children). constructor. }
  assert (Hw : walked dir children ≡ₚ walked dir children') by (rewrite E; by apply Permutation_map).
  rewrite !walk_directory.
  assert (Hd : directories dir children = directories dir children').
  { unfold directories. f_equal. apply by_name_unique; [by apply NoDup_filtered | by rewrite Hw]. }
  assert (Hf : files dir children = files dir children').
  { unfold files. f_equal. apply by_name_unique; [by apply NoDup_filtered | by rewrite Hw]. }
  by rewrite Hd, Hf.
Qed.

(** C29: The archive holds exactly the wanted paths. The walk yields a path with what is there exactly
    when it is below the directory, no directory above it is hidden, and it is a directory that is
    not hidden or a file that is not skipped (links are not followed); a directory comes before
    everything in it; and the entries, in their order, do not depend on the order in which the
    file system lists the directories. *)
Theorem archive_entries_are_wanted node :
  let entries := _write_archive_entries node in
  (forall path found, (path, found) ∈ entries <->
     exists there, found = header there /\ path <> [] /\ at_path node path there /\ wanted path there) /\
  parents_first [] entries /\
  (forall node', unique_names node -> same_tree node node' -> _write_archive_entries node' = entries).
Proof.
  cbv zeta. unfold _write_archive_entries. split_and!.
  - intros path found. split.
    + intros (p & n & Hp & [= -> ->] & Hat & Hw)%walk_found; [| done]. eauto.
    + intros (n & -> & Hp & Hat & Hw). by apply (walk_complete node []).
  - apply walk_parents_first.
  - intros node' Hu Hs. symmetry. by apply walk_same.
Qed.

(** ** Fetching *)
Section Fetch.
Variable write_ustar : list (string * Node) -> option bytes.

(** The commands run and the paths and the tree answered so far. *)
Record Fetched := mkFetched {
  commands : list (list string);
  root : option (list string);
  source : option (list string);
  tree : option Node
}.
Definition observe (s : Fetched) (R : Type) (q : SourceQuery R) : Exn + R -> Fetched :=
  match q in SourceQuery R return Exn + R -> Fetched with
  | RunGit _ arguments => fun _ => mkFetched (commands s ++ [arguments]) (root s) (source s) (tree s)
  | ResolveRoot => fun r =>
      mkFetched (commands s) (match r with inr p => Some p | _ => root s end) (source s) (tree s)
  | Resolve _ => fun r =>
      mkFetched (commands s) (root s) (match r with inr p => Some p | _ => source s end) (tree s)
  | ReadTree _ => fun r =>
      mkFetched (commands s) (root s) (source s) (match r with inr t => Some t | _ => tree s end)
  | Which => fun _ => s
  end.
(** Nothing is read outside the repository. *)
Definition confined (s : Fetched) (R : Type) (q : SourceQuery R) : Prop :=
  match q with
  | ReadTree path => source s = Some path /\ exists r, root s = Some r /\ r `prefix_of` path
  | _ => True
  end.
Definition answered (R : Type) (q : SourceQuery R) (r : Exn + R) : Prop :=
  match r with inl _ => False | inr _ => True end.
Abbreviation fetching := (monitored answered confined observe).

Definition fetch_commands (git_url branch : string) : list (list string) :=
  [["init"; "--quiet"]; ["remote"; "add"; "origin"; git_url];
   ["fetch"; "--quiet"; "--depth=1"; "--no-tags"; "origin"; "refs/heads/" ++ branch];
   ["checkout"; "--quiet"; "--detach"; "FETCH_HEAD"]; ["rev-parse"; "--verify"; "HEAD^{commit}"]].

Lemma relative_prefix source root : is_relative_to source root = true -> root `prefix_of` source.
Proof.
  revert source. induction root as [| part root IH]; intros source H; [by exists source |].
  destruct source as [| part' source]; [done |]. cbn in H. apply andb_true_iff in H as [E H].
  apply bool_decide_eq_true in E as ->. by apply prefix_cons, IH.
Qed.

Definition source_error (e : Exn) : Prop := exists message, e = TemplateSourceError message.

Lemma archived_inr node content :
  archive_template_directory write_ustar node = inr content ->
  write_ustar (map (fun e => (as_posix e.1, e.2)) (_write_archive_entries node)) = Some content /\
  (N.of_nat (List.length content) <= TEMPLATE_ARCHIVE_LIMIT)%N /\
  exists children name child, node = Directory children /\ (name, child) ∈ children /\
    is_file child = true /\ (ends_with ".tf" name || ends_with ".tf.json" name) = true.
Proof.
  unfold archive_template_directory. destruct node as [| | children]; try done.
  destruct (existsb _ _) eqn:E; [| done]. destruct (write_ustar _) as [c |]; [| done].
  destruct (N.ltb _ _) eqn:El; [done |]. intros [= ->]. split; [done |].
  split; [by apply N.ltb_ge |]. apply existsb_exists in E as ([name child] & Hin & [Hf Hn]%andb_true_iff).
  exists children, name, child. split_and!; try done. by apply list_elem_of_In.
Qed.
Lemma archived_inl node e : archive_template_directory write_ustar node = inl e -> source_error e.
Proof.
  unfold archive_template_directory. intros H. repeat case_match; simplify_eq; by eexists.
Qed.

Lemma run_git_fetching s arguments :
  fetching s (_run_git arguments) (fun s' o =>
    match o with
    | inl e => source_error e
    | inr _ => s' = mkFetched (commands s ++ [arguments]) (root s) (source s) (tree s)
    end).
Proof.
  unfold _run_git. apply monitored_ask_bind; [done | by intros e [] |]. intros [executable |] _.
  2:{ apply monitored_fail. by eexists. }
  apply monitored_ask_bind; [done | by intros e [] |]. intros [stdout |] _.
  - by apply monitored_done.
  - apply monitored_fail. by eexists.
Qed.

(** What a fetched archive is. *)
Definition archive_outcome (git_url branch : string) (s : Fetched) (o : Exn + TemplateArchive) : Prop :=
  match o with
  | inl e => source_error e
  | inr archive =>
      commands s = fetch_commands git_url branch /\ is_commit (archive_commit archive) = true /\
      exists r path children,
        root s = Some r /\ source s = Some path /\ r `prefix_of` path /\
        tree s = Some (Directory children) /\
        write_ustar (map (fun e => (as_posix e.1, e.2)) (_write_archive_entries (Directory children)))
          = Some (archive_content archive) /\
        (N.of_nat (List.length (archive_content archive)) <= 1048576)%N /\
        exists name child, (name, child) ∈ children /\ is_file child = true /\
          (ends_with ".tf" name || ends_with ".tf.json" name) = true
  end.

Lemma fetch_watched git_url branch source_path :
  fetching (mkFetched [] None None None)
    (fetch_branch_archive write_ustar git_url branch source_path) (archive_outcome git_url branch).
Proof.
  unfold fetch_branch_archive.
  do 5 (eapply monitored_seq; [apply run_git_fetching | done |]; intros ? ? ->;
        cbn [commands root source tree app]).
  destruct (negb (is_commit _)) eqn:Ec; [apply monitored_fail; by eexists |]. bool_hyps.
  apply monitored_ask_bind; [done | by intros e [] |]. intros path _.
  apply monitored_ask_bind; [done | by intros e [] |]. intros r _.
  destruct (negb (is_relative_to _ _)) eqn:Er; [apply monitored_fail; by eexists |]. bool_hyps.
  apply relative_prefix in Er.
  apply monitored_ask_bind; [cbn; eauto | by intros e [] |]. intros node _.
  apply monitored_bind. destruct (archive_template_directory write_ustar node) as [e | content] eqn:Ea.
  - apply monitored_fail. by apply archived_inl in Ea.
  - apply monitored_done, monitored_done. apply archived_inr in Ea as (Hw & Hl & children & name & child & -> & Hc).
    split; [done |]. split; [done |]. exists r, path, children. split_and!; try done. eauto.
Qed.

End Fetch.
