(* ===== verification/Postgres.v ===== *)
(** * Postgres: the operations on managed servers (domains/postgresql/service.py, and
    check_managed_database_connection of api/routes/databases.py)

    psycopg, asyncpg and the servers are the environment: their requests may answer anything. The
    quotation of an identifier is psycopg's, a parameter. *)
From S2P Require Import Prelude Text Models Store Program Monitor Coder Worker.
From Stdlib Require Import Ascii String.
Open Scope string_scope.

Definition CONNECTION_TIMEOUT_SECONDS : Z := 5.
Definition DATABASE_CONNECTION_TIMEOUT_SECONDS : Z := 5.

(** What a connection is opened with. *)
Record Connection := mkConnection {
  connection_host : string;
  connection_port : Z;
  connection_database : string;
  connection_user : string;
  connection_password : string;
  connection_timeout : Z
}.

Inductive PgQuery : Type -> Type :=
| Connect (connection : Connection) : PgQuery unit
| Execute (statement : string) : PgQuery unit
(** Leaving the block of a connection of psycopg: a commit, or a rollback after an exception; the
    connection is closed. *)
| Leave (failed : bool) : PgQuery unit
(** [connection.close(timeout=...)] of asyncpg *)
| Close (timeout : Z) : PgQuery unit.
Abbreviation postgres := (prog PgQuery) (only parsing).

Definition _connect (target : SchemaTarget) : Connection :=
  mkConnection (target_host target) (target_port target) (target_database_name target)
    (target_username target) (target_password target) CONNECTION_TIMEOUT_SECONDS.

(** [with psycopg.connect(...) as connection, connection.cursor() as cursor: body]; what goes wrong
    in a rollback does not replace the exception of the body. *)
Definition with_connection (connection : Connection) (body : postgres unit) : postgres unit :=
  ask (Connect connection);;
  outcome ← attempt body;
  match outcome with
  | inr _ => ask (Leave false)
  | inl e => Ask (Leave true) (fun _ => Fail e)
  end.

Section Schemas.
(** [sql.Identifier(name)] in a composed statement *)
Variable identifier : string -> string.

Definition create_schema (target : SchemaTarget) : postgres unit :=
  with_connection (_connect target)
    (ask (Execute ("CREATE SCHEMA IF NOT EXISTS " ++ identifier (target_schema_name target)))).
Definition drop_schema (target : SchemaTarget) : postgres unit :=
  with_connection (_connect target)
    (ask (Execute ("DROP SCHEMA IF EXISTS " ++ identifier (target_schema_name target) ++ " CASCADE"))).
End Schemas.

(** The connection is closed whatever the statement answers. *)
Definition check_managed_database_connection (host : string) (port : Z)
    (database user password : string) : postgres unit :=
  ask (Connect (mkConnection host port database user password DATABASE_CONNECTION_TIMEOUT_SECONDS));;
  outcome ← attempt (ask (Execute "SELECT 1"));
  ask (Close DATABASE_CONNECTION_TIMEOUT_SECONDS);;
  returns outcome.

(** ** What a server sees: the requests with whether they succeeded *)
Inductive Event :=
| Connected (connection : Connection) (succeeded : bool)
| Executed (statement : string) (succeeded : bool)
| Left (failed : bool) (succeeded : bool)
| Closed (succeeded : bool).
Definition succeeded {R} (r : Exn + R) : bool := match r with inr _ => true | inl _ => false end.
Definition record (events : list Event) (R : Type) (q : PgQuery R) (r : Exn + R) : list Event :=
  app events
    [match q with
     | Connect connection => Connected connection (succeeded r)
     | Execute statement => Executed statement (succeeded r)
     | Leave failed => Left failed (succeeded r)
     | Close _ => Closed (succeeded r)
     end].
Abbreviation recorded := (monitored (fun _ _ _ => True) (fun _ _ _ => True) record).

(** One statement, in a transaction of its own, to the server that was meant: committed when it
    succeeded, and rolled back when not; the operation succeeds only with its commit. *)
Definition one_statement (connection : Connection) (statement : string) (events : list Event)
    (o : Exn + unit) : Prop :=
  match o with
  | inr _ => events = [Connected connection true; Executed statement true; Left false true]
  | inl _ =>
      events = [Connected connection false] \/
      (exists b, events = [Connected connection true; Executed statement false; Left true b]) \/
      events = [Connected connection true; Executed statement true; Left false false]
  end.
Lemma with_connection_recorded connection statement :
  recorded [] (with_connection connection (ask (Execute statement)))
    (one_statement connection statement).
Proof.
  split; [done |]. intros [e | []] _; [by left |].
  split; [done |]. intros [e | []] _.
  - split; [done |]. intros r _. right. left. by eexists.
  - split; [done |]. intros [e | []] _; [right; by right | done].
Qed.

(** A check succeeds when the query and the closing did, and closes what it opened. *)
Lemma check_recorded host port database user password :
  let connection := mkConnection host port database user password 5 in
  recorded [] (check_managed_database_connection host port database user password)
    (fun events o =>
       (events = [Connected connection false] /\ succeeded o = false) \/
       exists queried closed,
         events = [Connected connection true; Executed "SELECT 1" queried; Closed closed] /\
         succeeded o = queried && closed).
Proof.
  split; [done |]. intros [e | []] _; [by left |].
  split; [done |]. intros [e | []] _; (split; [done |]); intros [e' | []] _; right; by eexists _, _.
Qed.
