(* ===== verification/ArgoCd.v ===== *)
(** * ArgoCd: Argo CD settings and Applications (domains/argocd/config.py, applications.py, models.py)

    The validated settings, and the Application of an instance: its name, its payload, its update
    and what is read of its status. Payloads are JSON documents, with the keys of the source in
    their order. *)
From S2P Require Import Prelude Text Models Store Crypto Instances Members Config Schemas Program.
From S2P Require Import Coder Worker Replace Json.
From Stdlib Require Import Ascii String.
Open Scope string_scope.

(** ** config.py *)
Definition MAX_APPLICATION_NAME_LENGTH : nat := 63.

(** [^[a-z0-9](?:[-a-z0-9]*[a-z0-9])?$] *)
Definition APPLICATION_NAME_PATTERN (s : string) : bool :=
  match chars s with
  | [] => false
  | c :: l =>
      label_char c
      && match last l with None => true | Some z => label_char z && forallb label_inner l end
  end.

Definition _application_prefix (raw_value setting_name : string) : Exn + string :=
  let prefix := str_lower (str_strip raw_value) in
  let maximum_prefix_length := (MAX_APPLICATION_NAME_LENGTH - INSTANCE_SLUG_LENGTH - 1)%nat in
  if negb (APPLICATION_NAME_PATTERN prefix) || Nat.ltb maximum_prefix_length (py_len prefix)
  then inl (ArgoCdConfigurationError (setting_name ++ " is not a valid DNS label prefix"))
  else inr prefix.

Definition _optional_single_line_value (value : option string) (name : string)
    : Exn + option string :=
  match value with
  | None => inr None
  | Some value =>
      if contains CR value || contains LF value
      then inl (ArgoCdConfigurationError (name ++ " cannot contain line breaks"))
      else
        let normalized := str_strip value in
        inr (if normalized == "" then None else Some normalized)
  end.

(** [_required_value]: a missing value has been refused before. *)
Definition _required_value (values : list (string * option string)) (name : string) : Exn + string :=
  match dict_get name values with
  | Some (Some value) => inr (str_strip value)
  | _ => inl (ArgoCdConfigurationError name)
  end.

Definition missing_settings (required : list (string * option string)) : list string :=
  map fst (List.filter (fun nv => match nv.2 with
                                  | None => true
                                  | Some value => str_strip value == "" end) required).

Definition require_settings (what : string) (required : list (string * option string)) : Exn + unit :=
  match missing_settings required with
  | [] => inr tt
  | missing =>
      inl (ArgoCdConfigurationError
             ("Missing required Argo CD " ++ what ++ ": "
              ++ join ", " (sort_by String.leb missing)))
  end.

Record ArgoCdClientConfig := mkClientConfig {
  cfg_url : string;
  cfg_token : string;
  cfg_skip_ssl_verify : bool;
  cfg_project : string;
  cfg_application_prefix : string
}.

Definition client_from_settings (settings : Settings) : Exn + ArgoCdClientConfig :=
  let required := [
    ("CODER_MANAGER_ARGOCD_URL", argocd_url settings);
    ("CODER_MANAGER_ARGOCD_TOKEN", argocd_token settings);
    ("CODER_MANAGER_ARGOCD_PROJECT_NAME", argocd_project_name settings);
    ("CODER_MANAGER_ARGOCD_APPLICATION_PREFIX", argocd_application_prefix settings)] in
  require_settings "client settings" required;;
  url ← _required_value required "CODER_MANAGER_ARGOCD_URL";
  token ← _required_value required "CODER_MANAGER_ARGOCD_TOKEN";
  project ← _required_value required "CODER_MANAGER_ARGOCD_PROJECT_NAME";
  raw_prefix ← _required_value required "CODER_MANAGER_ARGOCD_APPLICATION_PREFIX";
  prefix ← _application_prefix raw_prefix "CODER_MANAGER_ARGOCD_APPLICATION_PREFIX";
  mret (mkClientConfig (rstrip_slash url) token (argocd_skip_ssl_verify settings) project prefix).

Record CyberArkParameters := mkCyberArk {
  app_id : string;
  cert_name : string;
  key_name : string;
  safe : string
}.
Record ArgoCdConfig := mkArgoCdConfig {
  cfg_client : ArgoCdClientConfig;
  cfg_region : string;
  cfg_repository_url : string;
  cfg_repository_path : string;
  cfg_target_revision : string;
  cfg_destination_name : string;
  cfg_additional_values : option string;
  cfg_cyberark : CyberArkParameters;
  cfg_default_admins : list string
}.

Definition deployment_from_settings (settings : Settings) : Exn + ArgoCdConfig :=
  client ← client_from_settings settings;
  let required := [
    ("CODER_MANAGER_ARGOCD_REGION", argocd_region settings);
    ("CODER_MANAGER_ARGOCD_REPOSITORY_URL", argocd_repository_url settings);
    ("CODER_MANAGER_ARGOCD_REPOSITORY_PATH", argocd_repository_path settings);
    ("CODER_MANAGER_ARGOCD_TARGET_REVISION", argocd_target_revision settings);
    ("CODER_MANAGER_ARGOCD_DESTINATION_NAME", argocd_destination_name settings);
    ("CODER_MANAGER_CYBERARK_APP_ID", cyberark_app_id settings);
    ("CODER_MANAGER_CYBERARK_CERT_NAME", cyberark_cert_name settings);
    ("CODER_MANAGER_CYBERARK_KEY_NAME", cyberark_key_name settings);
    ("CODER_MANAGER_CYBERARK_SAFE", cyberark_safe settings)] in
  require_settings "settings" required;;
  region ← match require_argocd_region settings with
           | inl (ValueError message) => inl (ArgoCdConfigurationError message)
           | inl e => inl e
           | inr region => inr (str_upper region)
           end;
  repository_url ← _required_value required "CODER_MANAGER_ARGOCD_REPOSITORY_URL";
  repository_path ← _required_value required "CODER_MANAGER_ARGOCD_REPOSITORY_PATH";
  target_revision ← _required_value required "CODER_MANAGER_ARGOCD_TARGET_REVISION";
  destination_name ← _required_value required "CODER_MANAGER_ARGOCD_DESTINATION_NAME";
  additional_values ← _optional_single_line_value (argocd_additional_values settings)
                        "CODER_MANAGER_ARGOCD_ADDITIONAL_VALUES";
  app_id ← _required_value required "CODER_MANAGER_CYBERARK_APP_ID";
  cert_name ← _required_value required "CODER_MANAGER_CYBERARK_CERT_NAME";
  key_name ← _required_value required "CODER_MANAGER_CYBERARK_KEY_NAME";
  safe ← _required_value required "CODER_MANAGER_CYBERARK_SAFE";
  default_admins ← parse_default_admins (default_admins settings);
  mret (mkArgoCdConfig client region repository_url repository_path target_revision
          destination_name additional_values (mkCyberArk app_id cert_name key_name safe)
          default_admins).

(** ** [base64.b64encode] *)
Definition b64_char (n : N) : ascii :=
  if N.ltb n 26 then ascii_of_N (65 + n)
  else if N.ltb n 52 then ascii_of_N (71 + n)
  else if N.ltb n 62 then ascii_of_N (n - 4)
  else if N.eqb n 62 then "+" else "/".
Fixpoint b64_groups (l : bytes) : list ascii :=
  match l with
  | [] => []
  | [x] =>
      let x := Byte.to_N x in
      [b64_char (N.div x 4); b64_char (N.modulo x 4 * 16); "="%char; "="%char]
  | [x; y] =>
      let x := Byte.to_N x in
      let y := Byte.to_N y in
      [b64_char (N.div x 4); b64_char (N.modulo x 4 * 16 + N.div y 16);
       b64_char (N.modulo y 16 * 4); "="%char]
  | x :: y :: z :: l' =>
      let x := Byte.to_N x in
      let y := Byte.to_N y in
      let z := Byte.to_N z in
      b64_char (N.div x 4) :: b64_char (N.modulo x 4 * 16 + N.div y 16)
      :: b64_char (N.modulo y 16 * 4 + N.div z 64) :: b64_char (N.modulo z 64) :: b64_groups l'
  end.
Definition b64encode (l : bytes) : string := unchars (b64_groups l).

(** ** models.py: [InstanceHelmValues.base_domain]; [hostname] is in lower case *)
Definition helm_base_domain (netloc_ok : list ascii -> bool) (values : InstanceHelmValues)
    : Exn + string :=
  match urlsplit netloc_ok (helm_public_url values) with
  | None => inl (ValueError "Invalid URL")
  | Some parsed =>
      match hostname parsed with
      | Some host => inr (str_lower (unchars host))
      | None => inl (ValueError "Instance public URL does not contain a hostname")
      end
  end.

(** ** applications.py *)
Definition INSTANCE_ID_LABEL : string := "coder-manager/instance-id".
Definition REGION_LABEL : string := "region".
Definition DOMAIN_LABEL : string := "domain".
Definition TIER_LABEL : string := "tier".
Definition DOMAIN_LABEL_VALUE : string := "code-station".
Definition TIER_LABEL_VALUE : string := "standard".
Definition APPLICATION_NAMESPACE : string := "app-code-instance".
Definition ACTIVE_OPERATION_PHASES : list string := ["Running"; "Terminating"].

(** An attached name that is empty counts as none. *)
Definition name_of_application (config : ArgoCdClientConfig) (slug : string)
    (attached_name : option string) : string :=
  match attached_name with
  | Some name => if name == "" then cfg_application_prefix config ++ "-" ++ slug else name
  | None => cfg_application_prefix config ++ "-" ++ slug
  end.

Definition _member_values (default_admins : list string) (members : list (string * MemberRole))
    : list string * list string :=
  let admins := ADMIN_USERNAME :: default_admins in
  let users := (admins ++ map fst members)%list in
  let admins := (admins ++ map fst (List.filter (fun m => m.2 == ADMIN) members))%list in
  (sort_by String.leb (remove_dups users), sort_by String.leb (remove_dups admins)).

Definition escaped (value : string) : string :=
  str_replace "," "\," (str_replace "\" "\\" value).
Definition _helm_scalar_argument (name value : string) : Exn + string :=
  if contains CR value || contains LF value
  then inl (ArgoCdRequestError ("Helm argument " ++ name ++ " cannot contain line breaks"))
  else inr ("--set " ++ name ++ "=" ++ escaped value).

(** The names and the values of the arguments, in their order; one of the values can fail. *)
Definition helm_scalars (config : ArgoCdConfig) (members : list (string * MemberRole))
    (values : InstanceHelmValues) (base_domain : Exn + string) : list (string * (Exn + string)) :=
  let '(users, admins) := _member_values (cfg_default_admins config) members in
  let secret := "<secret:" ++ helm_managed_database_name values in
  app
   [("policy.config.allowedUsernames", inr (join "," users));
    ("policy.config.adminUsernames", inr (join "," admins));
    ("global.baseDomain", base_domain);
    ("global.identifier", inr (helm_slug values));
    ("server.config.postgres.username", inr (secret ++ "#username>"));
    ("server.config.postgres.password", inr (secret ++ "#password>"));
    ("server.config.postgres.host", inr (helm_database_host values));
    ("server.config.postgres.database", inr (helm_database_name values));
    ("server.config.postgres.schema", inr (helm_database_schema values))]
   match helm_kubeconfig values with
   | Some kubeconfig => [("server.config.kube", inr (b64encode kubeconfig))]
   | None => []
   end.

(** The lines of the arguments, evaluated from the first. *)
Fixpoint scalar_lines (scalars : list (string * (Exn + string))) : Exn + list string :=
  match scalars with
  | [] => mret []
  | (name, value) :: rest =>
      value ← value;
      line ← _helm_scalar_argument name value;
      lines ← scalar_lines rest;
      mret (line :: lines)
  end.
Definition helm_argument_lines (config : ArgoCdConfig) (scalars : list (string * (Exn + string)))
    : Exn + list string :=
  lines ← scalar_lines scalars;
  let lines := ("--namespace " ++ APPLICATION_NAMESPACE) :: lines in
  mret (match cfg_additional_values config with
        | Some additional => ("--values " ++ additional) :: lines
        | None => lines
        end).

Definition helm_arguments (lines : list string) : string :=
  join (String LF "") lines ++ String LF "".

Definition application_document (config : ArgoCdConfig) (name : string) (instance_id : uuid)
    (arguments : string) : list (string * json) :=
  let cyberark := cfg_cyberark config in
  [("apiVersion", JString "argoproj.io/v1alpha1");
   ("kind", JString "Application");
   ("metadata", JObject [
      ("name", JString name);
      ("labels", JObject [
         (INSTANCE_ID_LABEL, JString (uuid_str instance_id));
         (REGION_LABEL, JString (cfg_region config));
         (DOMAIN_LABEL, JString DOMAIN_LABEL_VALUE);
         (TIER_LABEL, JString TIER_LABEL_VALUE)])]);
   ("spec", JObject [
      ("project", JString (cfg_project (cfg_client config)));
      ("source", JObject [
         ("repoURL", JString (cfg_repository_url config));
         ("path", JString (cfg_repository_path config));
         ("targetRevision", JString (cfg_target_revision config));
         ("plugin", JObject [
            ("name", JString "argocd-cyberark-plugin-helm");
            ("env", JArray [JObject [
               ("name", JString "HELM_ARGS");
               ("value", JString arguments)]]);
            ("parameters", JArray [JObject [
               ("name", JString "cyberark");
               ("map", JObject [
                  ("appId", JString (app_id cyberark));
                  ("certName", JString (cert_name cyberark));
                  ("keyName", JString (key_name cyberark));
                  ("region", JString (cfg_region config));
                  ("safe", JString (safe cyberark))])]])])]);
      ("destination", JObject [
         ("name", JString (cfg_destination_name config));
         ("namespace", JString APPLICATION_NAMESPACE)]);
      ("syncPolicy", JObject [
         ("automated", JObject [
            ("prune", JBool true);
            ("selfHeal", JBool true)])])])].

Definition application_payload (netloc_ok : list ascii -> bool) (config : ArgoCdConfig)
    (name : string) (instance_id : uuid) (members : list (string * MemberRole))
    (values : InstanceHelmValues) : Exn + list (string * json) :=
  lines ← helm_argument_lines config
            (helm_scalars config members values (helm_base_domain netloc_ok values));
  mret (application_document config name instance_id (helm_arguments lines)).

(** [dict(x) if isinstance(x, Mapping) else {}] *)
Definition object_or_empty (o : option (list (string * json))) : list (string * json) := default [] o.

Definition application_update_payload (existing desired : list (string * json))
    : Exn + list (string * json) :=
  match get_object "metadata" existing with
  | None => inl (ArgoCdRequestError "Argo CD returned an Application without metadata")
  | Some metadata =>
      let merged_labels := object_or_empty (get_object "labels" metadata) in
      let merged_labels := dict_pop "environment" (dict_pop "coder-manager/managed" merged_labels) in
      match get_object "metadata" desired with
      | None => inl (ArgoCdRequestError "Invalid desired Application metadata")
      | Some desired_metadata =>
          match get_object "labels" desired_metadata with
          | None => inl (ArgoCdRequestError "Invalid desired Application labels")
          | Some desired_labels =>
              let merged_labels := dict_update merged_labels desired_labels in
              let metadata := dict_set "labels" (JObject merged_labels) metadata in
              let metadata :=
                dict_set "name" (default JNull (dict_get "name" desired_metadata)) metadata in
              let desired_value key := default JNull (dict_get key desired) in
              inr [("apiVersion", default (desired_value "apiVersion") (dict_get "apiVersion" existing));
                   ("kind", default (desired_value "kind") (dict_get "kind" existing));
                   ("metadata", JObject metadata);
                   ("spec", desired_value "spec")]
          end
      end
  end.

Fixpoint nested (path : list string) (value : option json) : option json :=
  match path with
  | [] => value
  | key :: path' =>
      match value with
      | Some (JObject fields) => nested path' (dict_get key fields)
      | _ => None
      end
  end.
Definition _nested_string (payload : list (string * json)) (path : list string) : option string :=
  nested path (Some (JObject payload)) ≫= as_string.

Definition application_status (name : string) (application : list (string * json))
    : ArgoCdApplicationStatus :=
  mkApplicationStatus name
    (_nested_string application ["status"; "sync"; "status"])
    (_nested_string application ["status"; "health"; "status"])
    (_nested_string application ["status"; "operationState"; "phase"])
    (_nested_string application ["status"; "sync"; "revision"])
    (_nested_string application ["status"; "reconciledAt"]).

Definition application_operation_is_active (application : list (string * json)) : bool :=
  match _nested_string application ["status"; "operationState"; "phase"] with
  | Some phase => member phase ACTIVE_OPERATION_PHASES
  | None => false
  end.
