(* ===== verification/ArgoCdClient.v ===== *)
(** * ArgoCdClient: the client of the Applications API (domains/argocd/client.py, service.py)

    Each method is a program of HTTP requests. *)
From S2P Require Import Prelude Text Models Store Instances Members Config Program Coder Worker.
From S2P Require Import Replace Json ArgoCd.
From stdpp Require Import pretty.
From Stdlib Require Import Ascii String.
Open Scope string_scope.

Definition success (response : Response) : bool :=
  Z.leb 200 (status_code response) && Z.ltb (status_code response) 300.

(** [_response_message] *)
Definition _response_message (response : Response) : option string :=
  match decoded response with
  | Some (JObject payload) =>
      match get_string "message" payload with
      | Some message => if str_strip message == "" then None else Some message
      | None => None
      end
  | _ => None
  end.

Definition _raise_for_response (response : Response) (method path : string) : http unit :=
  if success response then Done tt
  else
    let msg := "Argo CD " ++ method ++ " " ++ path ++ " returned HTTP "
               ++ pretty (status_code response) in
    Fail (ArgoCdRequestError
            match _response_message response with
            | Some message => msg ++ ": " ++ message
            | None => msg
            end).

Definition _json_object (response : Response) (path : string) : http (list (string * json)) :=
  match decoded response with
  | None => Fail (ArgoCdRequestError ("Argo CD GET " ++ path ++ " returned invalid JSON"))
  | Some (JObject payload) => Done payload
  | Some _ =>
      Fail (ArgoCdRequestError ("Argo CD GET " ++ path ++ " returned a non-object JSON response"))
  end.

Definition _application_deletion_is_pending (application : list (string * json)) : bool :=
  match get_object "metadata" application with
  | Some metadata =>
      match dict_get "deletionTimestamp" metadata with
      | None | Some JNull => false
      | Some _ => true
      end
  | None => false
  end.

Definition application_path (name : string) : string := "api/v1/applications/" ++ name.
Definition applications_path : string := "api/v1/applications".
Definition sync_path (name : string) : string := application_path name ++ "/sync".

(** The owner that the labels of an Application name. *)
Definition application_owner (application : list (string * json)) : option json :=
  metadata ← get_object "metadata" application;
  labels ← get_object "labels" metadata;
  dict_get "coder-manager/instance-id" labels.
(** [owner != str(instance_id)] *)
Definition is_owned (application : list (string * json)) (instance_id : uuid) : bool :=
  match application_owner application with
  | Some (JString owner) => owner == uuid_str instance_id
  | _ => false
  end.

Section Client.
Variable config : ArgoCdClientConfig.

Definition _authorization_headers : list (string * string) :=
  [("Authorization", "Bearer " ++ cfg_token config)].

Definition _get_application (name : string) : http (option (list (string * json))) :=
  let path := application_path name in
  response ← send "GET" path [("project", cfg_project config)] _authorization_headers NoBody;
  if Z.eqb (status_code response) NOT_FOUND then Done None
  else
    _raise_for_response response "GET" path;;
    payload ← _json_object response path;
    Done (Some payload).

Definition _get_owned_application (name : string) (instance_id : uuid)
    : http (option (list (string * json))) :=
  application ← _get_application name;
  match (application : option (list (string * json))) with
  | None => Done None
  | Some application =>
      if is_owned application instance_id then Done (Some application)
      else Fail (ArgoCdApplicationOwnershipError
                   ("Argo CD Application " ++ name ++ " is not owned by instance "
                    ++ uuid_str instance_id))
  end.

Definition get_application_status (instance_id : uuid) (slug : string)
    (attached_name : option string) : http ArgoCdApplicationStatus :=
  let name := name_of_application config slug attached_name in
  application ← _get_owned_application name instance_id;
  match (application : option (list (string * json))) with
  | None => Fail (ArgoCdApplicationNotFoundError name)
  | Some application => Done (application_status name application)
  end.

Definition application_exists (instance_id : uuid) (slug : string)
    (attached_name : option string) : http bool :=
  application ← _get_owned_application (name_of_application config slug attached_name) instance_id;
  Done (is_some application).

Definition delete_application (instance_id : uuid) (slug : string)
    (attached_name : option string) : http ArgoCdMutationStatus :=
  let name := name_of_application config slug attached_name in
  existing ← _get_owned_application name instance_id;
  match (existing : option (list (string * json))) with
  | None => Done COMPLETED
  | Some existing =>
      if application_operation_is_active existing || _application_deletion_is_pending existing
      then Done DEFERRED
      else
        let path := application_path name in
        response ← send "DELETE" path
          [("cascade", "true"); ("propagationPolicy", "foreground"); ("project", cfg_project config)]
          (_authorization_headers ++ [("Content-Type", "application/json")])%list NoBody;
        if Z.eqb (status_code response) NOT_FOUND then Done COMPLETED
        else
          _raise_for_response response "DELETE" path;;
          remaining ← _get_owned_application name instance_id;
          Done (if is_none remaining then COMPLETED else DEFERRED)
  end.
End Client.

(** ** [ensure_application], whose client has an [ArgoCdConfig] *)
Section Ensure.
Variables (netloc_ok : list ascii -> bool) (config : ArgoCdConfig).
Let client := cfg_client config.

Definition deferred_if_active (name : string) (application : option (list (string * json)))
    (rest : http ArgoCdReconcileResult) : http ArgoCdReconcileResult :=
  match application with
  | Some application =>
      if application_operation_is_active application
      then Done (mkReconcileResult DEFERRED name)
      else rest
  | None => rest
  end.

(** [PUT] when the Application exists, then a synchronization unless one is running. *)
Definition update_and_sync (name : string) (instance_id : uuid) (desired : list (string * json))
    (existing : option (list (string * json))) : http ArgoCdReconcileResult :=
  match existing with
  | None => Done tt
  | Some existing =>
      let path := application_path name in
      payload ← returns (application_update_payload existing desired);
      response ← send "PUT" path [("project", cfg_project client); ("validate", "true")]
        (_authorization_headers client) (Json (JObject payload));
      _raise_for_response response "PUT" path
  end;;
  current ← _get_owned_application client name instance_id;
  deferred_if_active name current
    (response ← send "POST" (sync_path name) [("project", cfg_project client)]
       (_authorization_headers client) (Json (JObject []));
     _raise_for_response response "POST" (sync_path name);;
     Done (mkReconcileResult COMPLETED name)).

Definition ensure_application (instance_id : uuid) (slug : string) (attached_name : option string)
    (members : list (string * MemberRole)) (helm_values : InstanceHelmValues)
    : http ArgoCdReconcileResult :=
  let name := name_of_application client slug attached_name in
  desired ← returns (application_payload netloc_ok config name instance_id members helm_values);
  existing ← _get_owned_application client name instance_id;
  deferred_if_active name existing
    (match (existing : option (list (string * json))) with
     | Some _ => update_and_sync name instance_id desired existing
     | None =>
         response ← send "POST" applications_path [("upsert", "false"); ("validate", "true")]
           (_authorization_headers client) (Json (JObject desired));
         if Z.eqb (status_code response) CONFLICT then
           existing ← _get_owned_application client name instance_id;
           (if is_none existing then _raise_for_response response "POST" applications_path
            else Done tt);;
           deferred_if_active name existing (update_and_sync name instance_id desired existing)
         else
           _raise_for_response response "POST" applications_path;;
           update_and_sync name instance_id desired None
     end).
End Ensure.

(** ** service.py *)
Section Service.
Variables (netloc_ok : list ascii -> bool) (settings : Settings).

Definition reconcile_instance_application (instance_id : uuid) (slug : string)
    (attached_name : option string) (members : list (string * MemberRole))
    (helm_values : InstanceHelmValues) : http ArgoCdReconcileResult :=
  config ← returns (deployment_from_settings settings);
  ensure_application netloc_ok config instance_id slug attached_name members helm_values.
Definition delete_instance_application (instance_id : uuid) (slug : string)
    (attached_name : option string) : http ArgoCdMutationStatus :=
  config ← returns (deployment_from_settings settings);
  delete_application (cfg_client config) instance_id slug attached_name.
Definition instance_application_exists (instance_id : uuid) (slug : string)
    (attached_name : option string) : http bool :=
  config ← returns (deployment_from_settings settings);
  application_exists (cfg_client config) instance_id slug attached_name.
Definition read_instance_application_status (instance_id : uuid) (slug : string)
    (attached_name : option string) : http ArgoCdApplicationStatus :=
  config ← returns (client_from_settings settings);
  get_application_status config instance_id slug attached_name.
End Service.
