(* ===== verification/CoderClient.v ===== *)
(** * CoderClient: the HTTP client of a Coder deployment (domains/coder/client.py)

    One program of HTTP requests per method of [CoderClient], with the decoding of its responses;
    [perform] runs a [ClientOp]. A client keeps a session token, which it sends with every request
    once [authenticate_prepared_admin] has got it. *)
From S2P Require Import Prelude Text Models Store Config Program Coder Diagnostics Worker Replace Json.
From stdpp Require Import pretty.
From Stdlib Require Import Ascii String.
Open Scope string_scope.

Definition BUILD_VERSION_HEADER : string := "X-Coder-Build-Version".
Definition WORKSPACE_STATUSES : list string :=
  ["pending"; "starting"; "running"; "stopping"; "stopped"; "failed"; "canceling"; "canceled";
   "deleting"; "deleted"].
Definition WORKSPACE_TRANSITIONS : list string := ["start"; "stop"; "delete"].

(** [urllib.parse.quote(text, safe="")]: of every byte that is not unreserved, [%XX]. *)
Definition unreserved (c : ascii) : bool :=
  in_range 97 122 c || in_range 65 90 c || in_range 48 57 c || member c (chars "_.-~").
Definition upper_hex (n : N) : ascii := if N.ltb n 10 then ascii_of_N (48 + n) else ascii_of_N (55 + n).
Definition quote (text : string) : string :=
  unchars (List.concat (map (fun c =>
    if unreserved c then [c]
    else ["%"%char; upper_hex (N.div (N_of_ascii c) 16); upper_hex (N.modulo (N_of_ascii c) 16)])
    (chars text))).

(** ** Decoding *)
Definition bad {A} (message : string) : http A := Fail (CoderRequestError message).

Definition _raise_for_response (response : Response) (method path : string) (expected_status : Z)
    : http unit :=
  if Z.eqb (status_code response) expected_status then Done tt
  else bad ("Coder " ++ method ++ " " ++ path ++ " returned HTTP " ++ pretty (status_code response)).

Definition _json_object (response : Response) (path : string) : http (list (string * json)) :=
  match decoded response with
  | None => bad ("Coder " ++ path ++ " returned invalid JSON")
  | Some (JObject payload) => Done payload
  | Some _ => bad ("Coder " ++ path ++ " returned non-object JSON")
  end.
Definition _json_array (response : Response) (path : string) : http (list (list (string * json))) :=
  match decoded response with
  | None => bad ("Coder " ++ path ++ " returned invalid JSON")
  | Some (JArray items) =>
      match mapM as_object items with
      | Some objects => Done objects
      | None => bad ("Coder " ++ path ++ " returned invalid array JSON")
      end
  | Some _ => bad ("Coder " ++ path ++ " returned invalid array JSON")
  end.

Definition or_bad {A} (o : option A) (message : string) : http A :=
  match o with Some a => Done a | None => bad message end.

Definition _uuid_field (payload : list (string * json)) (field path : string) : http uuid :=
  or_bad (value ← dict_get field payload; uuid_of_json value)
    ("Coder " ++ path ++ " returned an invalid " ++ field).
Definition _optional_uuid_field (payload : list (string * json)) (field path : string)
    : http (option uuid) :=
  match dict_get field payload with
  | None | Some JNull => Done None
  | Some value =>
      u ← or_bad (uuid_of_json value) ("Coder " ++ path ++ " returned an invalid " ++ field);
      Done (Some u)
  end.

Definition _template_version (response : Response) (path : string) : http CoderTemplateVersion :=
  payload ← _json_object response path;
  let job := get_object "job" payload in
  match job, job ≫= get_string "status" with
  | Some job, Some status =>
      id ← _uuid_field payload "id" path;
      job_id ← _optional_uuid_field job "id" path;
      Done (mkCoderTemplateVersion id status (get_true "archived" payload) job_id
              (get_string "error" job) (get_string "error_code" job)
              (get_true "logs_overflowed" job))
  | _, _ => bad ("Coder " ++ path ++ " returned an invalid provisioner job")
  end.

Definition _template (response : Response) (path : string) : http CoderTemplate :=
  payload ← _json_object response path;
  id ← _uuid_field payload "id" path;
  active_version_id ← _optional_uuid_field payload "active_version_id" path;
  Done (mkCoderTemplate id active_version_id).

(** A string field with one of the given values. *)
Definition known_string (key : string) (known : list string) (payload : list (string * json))
    : option string :=
  value ← get_string key payload;
  if member value known then Some value else None.

Definition _workspace_build (response : Response) (path : string) : http CoderWorkspaceBuild :=
  payload ← _json_object response path;
  status ← or_bad (known_string "status" WORKSPACE_STATUSES payload)
    ("Coder " ++ path ++ " returned an invalid workspace build status");
  transition ← or_bad (known_string "transition" WORKSPACE_TRANSITIONS payload)
    ("Coder " ++ path ++ " returned an invalid workspace build transition");
  id ← _uuid_field payload "id" path;
  Done (mkBuild id status transition).

(** The status and the transition of a latest build. *)
Definition build_state (latest_build : list (string * json)) : option (string * string) :=
  status ← known_string "status" WORKSPACE_STATUSES latest_build;
  transition ← known_string "transition" WORKSPACE_TRANSITIONS latest_build;
  Some (status, transition).

Definition nonempty_string (key : string) (payload : list (string * json)) : option string :=
  value ← get_string key payload;
  if value == "" then None else Some value.

Definition _workspace (response : Response) (path : string) : http CoderWorkspace :=
  payload ← _json_object response path;
  named ← or_bad (name ← nonempty_string "name" payload;
                  latest_build ← get_object "latest_build" payload;
                  Some (name, latest_build))
    ("Coder " ++ path ++ " returned an invalid workspace");
  let '(name, latest_build) := named in
  state ← or_bad (build_state latest_build) ("Coder " ++ path ++ " returned an invalid latest build");
  id ← _uuid_field payload "id" path;
  latest_build_id ← _uuid_field latest_build "id" path;
  template_id ← _uuid_field payload "template_id" path;
  Done (mkCoderWorkspace id state.1 latest_build_id state.2 name (Some template_id)).

(** [None] for an HTTP 404. *)
Definition unless_not_found {A} (response : Response) (rest : http A) : http (option A) :=
  if Z.eqb (status_code response) NOT_FOUND then Done None
  else a ← rest; Done (Some a).

(** ** Requests *)
Section Client.
Variable session_token : option string.

Definition default_headers : list (string * string) :=
  match session_token with Some token => [("Coder-Session-Token", token)] | None => [] end.
Definition http_get (path : string) (params : list (string * string)) : http Response :=
  send "GET" path params default_headers NoBody.
Definition http_post (path : string) (payload : list (string * json)) : http Response :=
  send "POST" path [] default_headers (Json (JObject payload)).
Definition http_patch (path : string) (payload : list (string * json)) : http Response :=
  send "PATCH" path [] default_headers (Json (JObject payload)).
Definition http_delete (path : string) : http Response := send "DELETE" path [] default_headers NoBody.

(** [GET] of a representation, whose absence is an error, or is [None]. *)
Definition read {A} (path : string) (decode : Response -> string -> http A) : http A :=
  response ← http_get path [];
  _raise_for_response response "GET" path OK;;
  decode response path.
Definition find {A} (path : string) (decode : Response -> string -> http A) : http (option A) :=
  response ← http_get path [];
  unless_not_found response
    (_raise_for_response response "GET" path OK;; decode response path).
Definition submit {A} (path : string) (payload : list (string * json)) (expected : Z)
    (decode : Response -> string -> http A) : http A :=
  response ← http_post path payload;
  _raise_for_response response "POST" path expected;;
  decode response path.

Definition run_has_first_user : http bool :=
  let path := "api/v2/users/first" in
  response ← http_get path [];
  if Z.eqb (status_code response) OK then Done true
  else if Z.eqb (status_code response) NOT_FOUND then
    match header_get BUILD_VERSION_HEADER response with
    | None | Some "" => bad "Coder GET api/v2/users/first returned an unverified HTTP 404"
    | Some _ => Done false
    end
  else _raise_for_response response "GET" path OK;; Done false.

Definition run_create_first_user (password : string) : http unit :=
  let path := "api/v2/users/first" in
  response ← http_post path
    [("email", JString ADMIN_EMAIL); ("username", JString ADMIN_USERNAME);
     ("name", JString ADMIN_NAME); ("password", JString password); ("trial", JBool false)];
  _raise_for_response response "POST" path CREATED.

(** The new session token. *)
Definition run_authenticate_prepared_admin (password : string) : http string :=
  let conflict :=
    CoderFirstUserConflictError
      "Coder already has a first user that does not match prepared credentials" in
  let login_path := "api/v2/users/login" in
  response ← http_post login_path [("email", JString ADMIN_EMAIL); ("password", JString password)];
  if Z.eqb (status_code response) UNAUTHORIZED || Z.eqb (status_code response) FORBIDDEN
  then Fail conflict
  else
    _raise_for_response response "POST" login_path CREATED;;
    payload ← _json_object response login_path;
    token ← or_bad (nonempty_string "session_token" payload)
      "Coder POST api/v2/users/login returned an invalid session token";
    let me_path := "api/v2/users/me" in
    response ← send "GET" me_path [] [("Coder-Session-Token", token)] NoBody;
    _raise_for_response response "GET" me_path OK;;
    user ← _json_object response me_path;
    if (get_string "username" user != Some ADMIN_USERNAME)
       || (get_string "email" user != Some ADMIN_EMAIL)
    then Fail conflict
    else Done token.

Definition user_path (username : string) : string := "api/v2/users/" ++ quote username.

Definition run_delete_user (username : string) : http unit :=
  let path := user_path username in
  response ← http_delete path;
  if Z.eqb (status_code response) NOT_FOUND then Done tt
  else _raise_for_response response "DELETE" path OK.

Definition run_usernames : http (list string) :=
  let path := "api/v2/users" in
  response ← http_get path [];
  _raise_for_response response "GET" path OK;;
  payload ← _json_object response path;
  match dict_get "users" payload ≫= as_array, dict_get "count" payload ≫= as_int with
  | Some users, Some count =>
      let usernames := omap (fun user => user ← as_object user; get_string "username" user) users in
      if negb (Nat.eqb (List.length usernames) (List.length users))
         || negb (Z.eqb (Z.of_nat (List.length usernames)) count)
         || existsb (fun username => username == "") usernames
         || negb (Nat.eqb (List.length (remove_dups usernames)) (List.length usernames))
      then bad "Coder GET api/v2/users returned an incomplete users page"
      else Done usernames
  | _, _ => bad "Coder GET api/v2/users returned an invalid users page"
  end.

(** One workspace of a page. *)
Definition listed_workspace (path : string) (item : json) : http CoderWorkspace :=
  item ← or_bad (as_object item) "Coder GET api/v2/workspaces returned an invalid workspace";
  let invalid := "Coder GET api/v2/workspaces returned an invalid latest build" in
  latest_build ← or_bad (get_object "latest_build" item) invalid;
  state ← or_bad (build_state latest_build) invalid;
  id ← _uuid_field item "id" path;
  latest_build_id ← _uuid_field latest_build "id" path;
  template_id ← _optional_uuid_field item "template_id" path;
  Done (mkCoderWorkspace id state.1 latest_build_id state.2
          (default "" (get_string "name" item)) template_id).
Fixpoint listed_workspaces (path : string) (items : list json) : http (list CoderWorkspace) :=
  match items with
  | [] => Done []
  | item :: rest =>
      w ← listed_workspace path item;
      ws ← listed_workspaces path rest;
      Done (w :: ws)
  end.

Definition run_workspaces (status : option string) (offset limit : Z) : http CoderWorkspacePage :=
  let path := "api/v2/workspaces" in
  let quotation := String (ascii_of_N 34) "" in
  response ← http_get path
    [("q", match status with
           | None => "" | Some status => "status:" ++ quotation ++ status ++ quotation end);
     ("offset", pretty offset); ("limit", pretty limit)];
  _raise_for_response response "GET" path OK;;
  payload ← _json_object response path;
  let invalid := "Coder GET api/v2/workspaces returned an invalid workspace page" in
  raw_workspaces ← or_bad (dict_get "workspaces" payload ≫= as_array) invalid;
  count ← or_bad (count ← dict_get "count" payload ≫= as_int;
                  if Z.ltb count 0 then None else Some count) invalid;
  workspaces ← listed_workspaces path raw_workspaces;
  let expected_items := Z.min limit (Z.max (count - offset) 0) in
  if Z.eqb (Z.of_nat (List.length workspaces)) expected_items
  then Done (mkPage workspaces count)
  else bad "Coder GET api/v2/workspaces returned an incomplete workspace page".

Definition workspace_path (workspace_id : uuid) : string :=
  "api/v2/workspaces/" ++ uuid_str workspace_id.
Definition run_workspace_by_owner_and_name (username name : string) : http (option CoderWorkspace) :=
  find (user_path username ++ "/workspace/" ++ quote name) _workspace.

Definition named_values (values : list (string * string)) : json :=
  JArray (map (fun nv => JObject [("name", JString nv.1); ("value", JString nv.2)]) values).

Definition run_create_workspace (username name : string) (template_id : uuid)
    (rich_parameter_values : list (string * string)) : http CoderWorkspace :=
  submit (user_path username ++ "/workspaces")
    [("name", JString name); ("template_id", JString (uuid_str template_id));
     ("rich_parameter_values", named_values rich_parameter_values)] CREATED _workspace.

Definition run_update_workspace_name (workspace_id : uuid) (name : string) : http unit :=
  let path := workspace_path workspace_id in
  response ← http_patch path [("name", JString name)];
  _raise_for_response response "PATCH" path NO_CONTENT.

Definition builds_path (workspace_id : uuid) : string := workspace_path workspace_id ++ "/builds".
Definition run_create_workspace_start_build (workspace_id : uuid)
    (rich_parameter_values : list (string * string)) : http CoderWorkspaceBuild :=
  submit (builds_path workspace_id)
    [("transition", JString "start");
     ("rich_parameter_values", named_values rich_parameter_values)] CREATED _workspace_build.
Definition run_create_workspace_stop_build (workspace_id : uuid) : http CoderWorkspaceBuild :=
  submit (builds_path workspace_id) [("transition", JString "stop")] CREATED _workspace_build.
Definition run_create_workspace_delete_build (workspace_id : uuid) : http CoderWorkspaceBuild :=
  submit (builds_path workspace_id) [("transition", JString "delete")] CREATED _workspace_build.

(** [sorted(values)]: of pairs, by the first component and then by the second. *)
Definition pair_leb (a b : string * string) : bool :=
  match String.compare a.1 b.1 with Lt => true | Gt => false | Eq => String.leb a.2 b.2 end.
Definition run_workspace_build_parameters (build_id : uuid) : http (list (string * string)) :=
  read ("api/v2/workspacebuilds/" ++ uuid_str build_id ++ "/parameters") (fun response path =>
    payload ← _json_array response path;
    values ← or_bad (mapM (fun item =>
        name ← nonempty_string "name" item; value ← get_string "value" item; Some (name, value))
        payload)
      ("Coder " ++ path ++ " returned invalid build parameters");
    if Nat.eqb (List.length (remove_dups (map fst values))) (List.length values)
    then Done (sort_by pair_leb values)
    else bad ("Coder " ++ path ++ " returned duplicate build parameters")).

Definition run_default_organization_id : http uuid :=
  read "api/v2/organizations" (fun response path =>
    payload ← _json_array response path;
    match List.filter (get_true "is_default") payload with
    | [organization] => _uuid_field organization "id" path
    | _ => bad "Coder did not return exactly one default organization"
    end).

Definition organization_path (organization_id : uuid) : string :=
  "api/v2/organizations/" ++ uuid_str organization_id.
Definition template_path (template_id : uuid) : string := "api/v2/templates/" ++ uuid_str template_id.
Definition version_path (version_id : uuid) : string :=
  "api/v2/templateversions/" ++ uuid_str version_id.

Definition run_delete_template (template_id : uuid) : http unit :=
  let path := template_path template_id in
  response ← http_delete path;
  if Z.eqb (status_code response) NOT_FOUND then Done tt
  else _raise_for_response response "DELETE" path OK.

Definition run_upload_template_archive (content : bytes) : http uuid :=
  let path := "api/v2/files" in
  response ← send "POST" path [] (default_headers ++ [("Content-Type", "application/x-tar")])%list
    (Content content);
  (if Z.eqb (status_code response) OK || Z.eqb (status_code response) CREATED then Done tt
   else _raise_for_response response "POST" path CREATED);;
  payload ← _json_object response path;
  _uuid_field payload "hash" path.

Definition run_create_template_version (organization_id file_id : uuid) (version_name : string)
    (template_id : option uuid) (user_variable_values : list (string * string))
    : http CoderTemplateVersion :=
  let body := app
    [("file_id", JString (uuid_str file_id)); ("message", JString "Synchronized from CoderManager");
     ("name", JString version_name); ("provisioner", JString "terraform");
     ("storage_method", JString "file"); ("tags", JObject []);
     ("user_variable_values", named_values user_variable_values)]
    match template_id with
    | Some template_id => [("template_id", JString (uuid_str template_id))]
    | None => []
    end in
  submit (organization_path organization_id ++ "/templateversions") body CREATED _template_version.

Definition run_create_template (organization_id : uuid) (name display_name : string)
    (version_id : uuid) : http CoderTemplate :=
  submit (organization_path organization_id ++ "/templates")
    [("name", JString name); ("display_name", JString display_name);
     ("template_version_id", JString (uuid_str version_id))] OK _template.

Definition run_activate_template_version (template_id version_id : uuid) : http unit :=
  let path := template_path template_id ++ "/versions" in
  response ← http_patch path [("id", JString (uuid_str version_id))];
  _raise_for_response response "PATCH" path OK.

Definition run_unarchive_template_version (version_id : uuid) : http unit :=
  let path := version_path version_id ++ "/unarchive" in
  response ← send "POST" path [] default_headers NoBody;
  _raise_for_response response "POST" path OK.

Definition log_entry (entry : list (string * json)) : option (string * string * string) :=
  level ← get_string "log_level" entry;
  stage ← get_string "stage" entry;
  output ← get_string "output" entry;
  Some (level, stage, output).
Definition run_template_version_logs (version_id : uuid) (sensitive_values : list string)
    : http (list string * bool) :=
  read (version_path version_id ++ "/logs") (fun response path =>
    payload ← _json_array response path;
    Done (shown_logs (map log_entry payload) sensitive_values)).

Definition run_workspace (workspace_id : uuid) : http (option CoderWorkspace) :=
  find (workspace_path workspace_id) _workspace.
Definition run_workspace_build (build_id : uuid) : http CoderWorkspaceBuild :=
  read ("api/v2/workspacebuilds/" ++ uuid_str build_id) _workspace_build.
Definition run_template_by_name (organization_id : uuid) (name : string) : http (option CoderTemplate) :=
  find (organization_path organization_id ++ "/templates/" ++ name) _template.
Definition run_template (template_id : uuid) : http (option CoderTemplate) :=
  find (template_path template_id) _template.
Definition run_template_version_by_name (organization_id : uuid) (template_name version_name : string)
    : http (option CoderTemplateVersion) :=
  find (organization_path organization_id ++ "/templates/" ++ template_name
        ++ "/versions/" ++ version_name) _template_version.
Definition run_template_version (version_id : uuid) : http CoderTemplateVersion :=
  read (version_path version_id) _template_version.
Definition run_template_version_for_recovery (version_id : uuid)
    : http (option CoderTemplateVersion) :=
  find (version_path version_id) _template_version.

(** ** One method of the client: its result, and the session token from then on *)
Definition keep {A} (p : http A) : http (A * option string) := a ← p; Done (a, session_token).
Definition perform {R} (op : ClientOp R) : http (R * option string) :=
  match op in ClientOp R return http (R * option string) with
  | has_first_user => keep run_has_first_user
  | create_first_user password => keep (run_create_first_user password)
  | authenticate_prepared_admin password =>
      token ← run_authenticate_prepared_admin password; Done (tt, Some token)
  | delete_user username => keep (run_delete_user username)
  | usernames => keep run_usernames
  | list_workspaces status offset limit => keep (run_workspaces status offset limit)
  | workspace workspace_id => keep (run_workspace workspace_id)
  | workspace_by_owner_and_name username name =>
      keep (run_workspace_by_owner_and_name username name)
  | create_workspace username name template_id parameters =>
      keep (run_create_workspace username name template_id parameters)
  | update_workspace_name workspace_id name => keep (run_update_workspace_name workspace_id name)
  | create_workspace_start_build workspace_id parameters =>
      keep (run_create_workspace_start_build workspace_id parameters)
  | create_workspace_stop_build workspace_id => keep (run_create_workspace_stop_build workspace_id)
  | create_workspace_delete_build workspace_id =>
      keep (run_create_workspace_delete_build workspace_id)
  | workspace_build_parameters build_id => keep (run_workspace_build_parameters build_id)
  | workspace_build build_id =>
      keep (run_workspace_build build_id)
  | default_organization_id => keep run_default_organization_id
  | template_by_name organization_id name =>
      keep (run_template_by_name organization_id name)
  | template_by_id template_id => keep (run_template template_id)
  | delete_template template_id => keep (run_delete_template template_id)
  | template_version_by_name organization_id template_name version_name =>
      keep (run_template_version_by_name organization_id template_name version_name)
  | template_version version_id => keep (run_template_version version_id)
  | template_version_for_recovery version_id => keep (run_template_version_for_recovery version_id)
  | upload_template_archive content => keep (run_upload_template_archive content)
  | create_template_version organization_id file_id version_name template_id values =>
      keep (run_create_template_version organization_id file_id version_name template_id values)
  | create_template organization_id name display_name version_id =>
      keep (run_create_template organization_id name display_name version_id)
  | activate_template_version template_id version_id =>
      keep (run_activate_template_version template_id version_id)
  | unarchive_template_version version_id => keep (run_unarchive_template_version version_id)
  | template_version_logs version_id sensitive_values =>
      keep (run_template_version_logs version_id sensitive_values)
  end.
End Client.
