(* ===== verification/CoderClientProperties.v ===== *)
(** * CoderClientProperties: what the client of a Coder deployment promises to its callers *)
From S2P Require Import Prelude Text Models Store Config Program Monitor Coder Diagnostics Worker.
From S2P Require Import Replace Json CoderClient.
From Stdlib Require Import Ascii String.
Open Scope string_scope.

(** ** Every method raises only what its callers catch, and sends the session token *)
Section Requests.
Variable token : option string.
(** Requests that may carry another token. *)
Variable exempt : Request -> Prop.

Definition carries (R : Type) (q : Transport R) : Prop :=
  match q with
  | Send request =>
      dict_get "Coder-Session-Token" (http_headers request) = token \/ exempt request
  end.
Definition caught {A} (o : Exn + A) : Prop :=
  match o with inl e => is_request_error e = true | inr _ => True end.
Definition well_behaved_client {A} (p : http A) : Prop :=
  monitored transport_answers (fun _ : unit => carries) (fun s _ _ _ => s) tt p
    (fun _ o => caught o).

Lemma client_bind {A B} (p : http A) (k : A -> http B) :
  well_behaved_client p -> (forall a, well_behaved_client (k a)) -> well_behaved_client (p ≫= k).
Proof.
  intros Hp Hk. eapply monitored_seq; [exact Hp | done |]. intros [] a _. apply Hk.
Qed.
Lemma client_done {A} (a : A) : well_behaved_client (Done a).
Proof. exact I. Qed.
Lemma client_bad {A} message : well_behaved_client (bad (A := A) message).
Proof. reflexivity. Qed.
Lemma client_conflict {A} message :
  well_behaved_client (Fail (CoderFirstUserConflictError message) : http A).
Proof. reflexivity. Qed.
Lemma client_or_bad {A} (o : option A) message : well_behaved_client (or_bad o message).
Proof. by destruct o. Qed.
Lemma client_send method path params headers body :
  carries _ (Send (mkRequest method path params headers body)) ->
  well_behaved_client (send method path params headers body).
Proof.
  intros Hc. apply monitored_ask; [exact Hc |]. intros [e | r] Hr; [| done]. by destruct e.
Qed.
Lemma default_token extra : dict_get "Coder-Session-Token" extra = None ->
  dict_get "Coder-Session-Token" (default_headers token ++ extra) = token.
Proof. intros He. unfold default_headers. by destruct token. Qed.
Lemma client_default method path params body :
  well_behaved_client (send method path params (default_headers token) body).
Proof.
  apply client_send. left. rewrite <- (app_nil_r (default_headers token)). by apply default_token.
Qed.
Lemma client_if {A} (b : bool) (p q : http A) :
  well_behaved_client p -> well_behaved_client q -> well_behaved_client (if b then p else q).
Proof. by destruct b. Qed.

Lemma client_raise response method path expected :
  well_behaved_client (_raise_for_response response method path expected).
Proof. apply client_if; [apply client_done | apply client_bad]. Qed.
Lemma client_object response path : well_behaved_client (_json_object response path).
Proof. unfold _json_object. repeat case_match; exact I || reflexivity. Qed.
Lemma client_array response path : well_behaved_client (_json_array response path).
Proof. unfold _json_array. repeat case_match; exact I || reflexivity. Qed.
Lemma client_uuid payload field path : well_behaved_client (_uuid_field payload field path).
Proof. apply client_or_bad. Qed.
Lemma client_keep {A} (p : http A) : well_behaved_client p -> well_behaved_client (keep token p).
Proof. intros Hp. apply client_bind; [exact Hp | intros a; apply client_done]. Qed.
End Requests.

Create HintDb client.
#[export] Hint Resolve client_bind client_done client_bad client_conflict client_or_bad
  client_default client_if client_raise client_object client_array client_uuid client_keep : client.
#[export] Hint Extern 2 (well_behaved_client _ _ (match ?x with _ => _ end)) => destruct x : client.
#[export] Hint Extern 1 (well_behaved_client _ _ (http_get _ _ _)) => apply client_default : client.
#[export] Hint Extern 1 (well_behaved_client _ _ (http_post _ _ _)) => apply client_default : client.
#[export] Hint Extern 1 (well_behaved_client _ _ (http_patch _ _ _)) => apply client_default : client.
#[export] Hint Extern 1 (well_behaved_client _ _ (http_delete _ _)) => apply client_default : client.

Section Methods.
Variable token : option string.
Variable exempt : Request -> Prop.
Abbreviation fine := (well_behaved_client token exempt).

Lemma client_optional_uuid payload field path : fine (_optional_uuid_field payload field path).
Proof. unfold _optional_uuid_field. auto 8 with client. Qed.
Hint Resolve client_optional_uuid : client.
Lemma client_template_version response path : fine (_template_version response path).
Proof. unfold _template_version. auto 12 with client. Qed.
Lemma client_template response path : fine (_template response path).
Proof. unfold _template. auto 12 with client. Qed.
Lemma client_workspace_build response path : fine (_workspace_build response path).
Proof. unfold _workspace_build. auto 12 with client. Qed.
Lemma client_workspace response path : fine (_workspace response path).
Proof. unfold _workspace. auto 20 with client. Qed.
Hint Resolve client_template_version client_template client_workspace_build client_workspace : client.

Lemma client_read {A} path (decode : Response -> string -> http A) :
  (forall response path, fine (decode response path)) -> fine (read token path decode).
Proof. intros Hd. unfold read. auto 8 with client. Qed.
Lemma client_find {A} path (decode : Response -> string -> http A) :
  (forall response path, fine (decode response path)) -> fine (find token path decode).
Proof. intros Hd. unfold find, unless_not_found. auto 10 with client. Qed.
Lemma client_submit {A} path payload expected (decode : Response -> string -> http A) :
  (forall response path, fine (decode response path)) -> fine (submit token path payload expected decode).
Proof. intros Hd. unfold submit. auto 8 with client. Qed.
Hint Resolve client_read client_find client_submit : client.

Lemma client_listed path items : fine (listed_workspaces path items).
Proof.
  induction items as [|item rest IH]; [exact I |]. cbn [listed_workspaces].
  apply client_bind; [| auto with client]. unfold listed_workspace. auto 20 with client.
Qed.
Hint Resolve client_listed : client.

(** The request that verifies a new token carries that one. *)
Definition verifies (request : Request) : Prop := http_path request = "api/v2/users/me".

Lemma client_authenticate password :
  (forall request, verifies request -> exempt request) ->
  fine (run_authenticate_prepared_admin token password).
Proof.
  intros He. unfold run_authenticate_prepared_admin. cbv zeta.
  apply client_bind; [auto with client |]. intros response. apply client_if; [auto with client |].
  do 3 (apply client_bind; [auto with client | intros ?]).
  apply client_bind; [apply client_send; right; by apply He |]. auto 8 with client.
Qed.

Lemma client_performs R (op : ClientOp R) :
  (is_login op = true -> forall request, verifies request -> exempt request) ->
  fine (perform token op).
Proof.
  intros He. destruct op; cbn [perform];
    try (apply client_bind; [by apply client_authenticate, He | intros ?; apply client_done]);
    clear He; apply client_keep;
    unfold run_has_first_user, run_create_first_user, run_delete_user, run_usernames,
      run_workspaces, run_workspace_by_owner_and_name, run_create_workspace,
      run_update_workspace_name, run_create_workspace_start_build, run_create_workspace_stop_build,
      run_create_workspace_delete_build, run_workspace_build_parameters, run_default_organization_id,
      run_delete_template, run_create_template_version, run_create_template,
      run_activate_template_version, run_unarchive_template_version, run_template_version_logs,
      run_workspace, run_workspace_build, run_template_by_name, run_template, run_template_version_by_name,
      run_template_version, run_template_version_for_recovery;
    cbv zeta; auto 20 with client.
  - (* the upload has a header of its own *)
    unfold run_upload_template_archive. cbv zeta. apply client_bind; [| auto 12 with client].
    apply client_send. left. by apply default_token.
Qed.
End Methods.

(** The client keeps its promises to the workers. Whatever a deployment answers, well-formed or
    not, every method of the client ends with a result or with an exception that the workers
    catch, a request error of the Coder domain or a failure of the transport; and every request
    carries the session token of the client, but for the one that verifies a new token. *)
Theorem coder_client_keeps_promises token R (op : ClientOp R) :
  well_behaved_client token verifies (perform token op).
Proof. by apply client_performs. Qed.

(** ** Pages of workspaces *)

(** A workspace and a page as a deployment represents them. *)
Definition workspace_json (w : CoderWorkspace) : json :=
  JObject
    [("id", JString (uuid_str (cws_id w))); ("name", JString (cws_name w));
     ("template_id", match cws_template_id w with
                     | Some t => JString (uuid_str t) | None => JNull end);
     ("latest_build", JObject
        [("id", JString (uuid_str (cws_latest_build_id w)));
         ("status", JString (cws_status w));
         ("transition", JString (cws_latest_build_transition w))])].
Definition page_fields (page : CoderWorkspacePage) : list (string * json) :=
  [("workspaces", JArray (map workspace_json (page_items page))); ("count", JInt (page_count page))].
Definition page_json (page : CoderWorkspacePage) : json := JObject (page_fields page).
Lemma page_workspaces page :
  dict_get "workspaces" (page_fields page) ≫= as_array = Some (map workspace_json (page_items page)).
Proof. reflexivity. Qed.
Lemma page_count_field page :
  dict_get "count" (page_fields page) ≫= as_int = Some (page_count page).
Proof. reflexivity. Qed.

Definition representable (w : CoderWorkspace) : Prop :=
  (cws_id w < 2 ^ 128)%N /\ (cws_latest_build_id w < 2 ^ 128)%N /\
  (forall t, cws_template_id w = Some t -> (t < 2 ^ 128)%N) /\
  cws_status w ∈ WORKSPACE_STATUSES /\ cws_latest_build_transition w ∈ WORKSPACE_TRANSITIONS.

Lemma known_string_in key known payload s :
  get_string key payload = Some s -> s ∈ known -> known_string key known payload = Some s.
Proof. intros Hg Hs. unfold known_string. rewrite Hg. cbn. by rewrite (proj2 (member_true _ _) Hs). Qed.
Lemma uuid_field_decodes payload field path u :
  (u < 2 ^ 128)%N -> dict_get field payload = Some (JString (uuid_str u)) ->
  _uuid_field payload field path = Done u.
Proof.
  intros Hu Hg. unfold _uuid_field. rewrite Hg.
  change (or_bad (UUID (uuid_str u)) ("Coder " ++ path ++ " returned an invalid " ++ field) = Done u).
  by rewrite uuid_roundtrip.
Qed.

Lemma done_bind {A B} (a : A) (k : A -> http B) : (Done a ≫= k) = k a.
Proof. reflexivity. Qed.
Lemma listed_decodes path w :
  representable w -> listed_workspace path (workspace_json w) = Done w.
Proof.
  intros (Hid & Hbuild & Ht & Hs & Htr). destruct w as [id status build transition name template].
  cbn in Hid, Hbuild, Ht, Hs, Htr. unfold listed_workspace, workspace_json.
  cbn [cws_id cws_name cws_template_id cws_latest_build_id cws_status cws_latest_build_transition].
  change (as_object (JObject ?l)) with (Some l). cbn [or_bad].
  rewrite done_bind. cbv beta zeta.
  set (latest := [("id", JString (uuid_str build)); ("status", JString status);
                  ("transition", JString transition)]).
  match goal with |- context [get_object "latest_build" ?item] =>
    change (get_object "latest_build" item) with (Some latest); set (whole := item) end.
  cbn [or_bad]. rewrite done_bind. cbv beta.
  unfold build_state. rewrite (known_string_in "status" _ latest status) by done.
  rewrite (known_string_in "transition" _ latest transition) by done.
  do 2 (change (mbind ?k (Some ?a)) with (k a); cbv beta). cbn [or_bad].
  rewrite done_bind. cbv beta.
  rewrite (uuid_field_decodes whole "id" path id) by done.
  rewrite done_bind. cbv beta.
  rewrite (uuid_field_decodes latest "id" path build) by done.
  rewrite done_bind. cbv beta.
  unfold _optional_uuid_field.
  destruct template as [t |]; [| reflexivity].
  change (dict_get "template_id" whole) with (Some (JString (uuid_str t))). cbv beta iota.
  change (uuid_of_json (JString (uuid_str t))) with (UUID (uuid_str t)).
  by rewrite uuid_roundtrip by auto.
Qed.
Lemma listed_decode path items :
  Forall representable items -> listed_workspaces path (map workspace_json items) = Done items.
Proof.
  induction 1 as [|w items Hw Hi IH]; [done |]. cbn [map listed_workspaces].
  by rewrite (listed_decodes path w Hw), IH.
Qed.

(** A deployment that answers the requests for workspaces with one page. *)
Definition answers_page (page : CoderWorkspacePage) (R : Type) (q : Transport R) : Exn + R -> Prop :=
  match q in Transport R return Exn + R -> Prop with
  | Send request => fun r =>
      http_method request = "GET" -> http_path request = "api/v2/workspaces" ->
      exists headers, r = inr (mkResponse OK headers (Some (page_json page)))
  end.

(** C32: A page of workspaces is read as it was written: when a deployment answers with the
    representation of a page that is as long as the offset, the limit and the count demand, the
    client returns that page, with every identifier, status, transition and name. *)
Theorem workspace_pages_roundtrip token status offset limit page :
  Forall representable (page_items page) ->
  (0 <= page_count page)%Z ->
  Z.of_nat (List.length (page_items page)) = Z.min limit (Z.max (page_count page - offset) 0) ->
  monitored (answers_page page) (fun (_ : unit) _ _ => True) (fun s _ _ _ => s) tt
    (run_workspaces token status offset limit) (fun _ o => o = inr page).
Proof.
  intros Hitems Hcount Hlen. unfold run_workspaces. cbv zeta.
  apply monitored_bind, monitored_ask; [exact I |]. intros r Hr.
  destruct (Hr eq_refl eq_refl) as [headers ->]. unfold after.
  apply monitored_bind, monitored_done. unfold after.
  apply monitored_bind, monitored_done. unfold after.
  rewrite page_workspaces, page_count_field.
  destruct page as [items count]. cbn [page_items page_count] in *.
  apply monitored_bind, monitored_done. unfold after. cbn [mbind option_bind].
  rewrite (proj2 (Z.ltb_ge count 0)) by done.
  apply monitored_bind, monitored_done. unfold after. rewrite listed_decode by done.
  apply monitored_bind, monitored_done. unfold after.
  by rewrite Hlen, Z.eqb_refl.
Qed.

Lemma workspace_pages_roundtrip_witness :
  let page := mkPage [mkCoderWorkspace 7 "running" 8 "start" "dev" (Some 9%N)] 101 in
  monitored (answers_page page) (fun (_ : unit) _ _ => True) (fun s _ _ _ => s) tt
    (run_workspaces None (Some "running") 100 100) (fun _ o => o = inr page).
Proof.
  apply workspace_pages_roundtrip.
  - constructor; [| constructor]. refine (conj _ (conj _ (conj _ (conj _ _)))).
    + exact (eq_refl Lt).
    + exact (eq_refl Lt).
    + intros t [= <-]. exact (eq_refl Lt).
    + apply (bool_decide_eq_true_1 _). vm_compute. reflexivity.
    + apply (bool_decide_eq_true_1 _). vm_compute. reflexivity.
  - vm_compute. discriminate.
  - vm_compute. reflexivity.
Defined.
