(* ===== verification/Raises.v ===== *)
(** * Raises: the exceptions that sessions and programs can end with

    [Raises es m] bounds the exceptions of a session on consistent stores; [fails] bounds those of
    a program whose requests are answered as [Ans] allows. *)
From S2P Require Import Prelude Order Text Models Store Registry Crypto Execution Ownership.
From S2P Require Import Claims Jobs Databases Instances Members Templates Assignments Workspaces.
From S2P Require Import Listings Config Program Coder Worker.
From Stdlib Require Import Ascii String.
Open Scope string_scope.

Definition Raises {A} (es : list Exn) (m : session A) : Prop :=
  forall d e, Sound d -> m d = inl e -> e ∈ es.

(** ** Programs *)
Section Fails.
Context {Q : Type -> Type} (Ans : forall R, Q R -> Exn + R -> Prop).

Fixpoint fails (E : Exn -> Prop) {A} (p : prog Q A) : Prop :=
  match p with
  | Done _ => True
  | Fail e => E e
  | Session m k => forall d, Sound d -> fails E (k (run_session m d).1)
  | Ask q k => forall r, Ans _ q r -> fails E (k r)
  end.

Lemma fails_weaken (E E' : Exn -> Prop) {A} (p : prog Q A) :
  (forall e, E e -> E' e) -> fails E p -> fails E' p.
Proof. intros H. induction p as [a | e | B m k IH | R q k IH]; cbn; auto. Qed.

Lemma fails_bind E {A B} (p : prog Q A) (k : A -> prog Q B) :
  fails E p -> (forall a, fails E (k a)) -> fails E (p ≫= k).
Proof.
  intros Hp Hk. change (fails E (bind p k)).
  induction p as [a | e | C m k' IH | R q k' IH]; cbn in *; auto.
Qed.

(** What the handler of an exception makes of it. *)
Lemma fails_catch (E E' : Exn -> Prop) {A} (p : prog Q A) h :
  fails E' p -> (forall e, E' e -> fails E (h e)) -> fails E (catch p h).
Proof. intros Hp Hh. induction p as [a | e | C m k' IH | R q k' IH]; cbn in *; auto. Qed.

Lemma fails_returns (E : Exn -> Prop) {A} (r : Exn + A) :
  (forall e, r = inl e -> E e) -> fails E (@returns Q A r).
Proof. destruct r as [e | a]; cbn; auto. Qed.

Lemma fails_sess (E : Exn -> Prop) es {A} (m : session A) :
  Raises es m -> (forall e, e ∈ es -> E e) -> fails E (sess (Q := Q) m).
Proof.
  intros Hm He d Hd. unfold run_session. destruct (m d) as [e | [a d']] eqn:H; cbn; [| done].
  apply He. by eapply Hm.
Qed.

Lemma fails_ask (E : Exn -> Prop) {R} (q : Q R) :
  (forall e, Ans _ q (inl e) -> E e) -> fails E (ask q).
Proof. intros H [e | r] Hr; cbn; auto. Qed.
End Fails.

(** ** Sessions *)
Lemma require_inl' b (e e' : Exn) (d : Store) : require b e d = inl e' -> b = false /\ e' = e.
Proof. apply require_inl. Qed.
Lemma commit_inl d e : commit d = inl e -> e = IntegrityError.
Proof. unfold commit. case_decide; [done |]. by intros [= <-]. Qed.
Lemma commit_or_inl e d e' : commit_or e d = inl e' -> e' = e.
Proof. unfold commit_or. case_decide; [done |]. by intros [= <-]. Qed.
Lemma add_job_inl clash now id name task rt rid step d e :
  add_job_execution clash now id name task rt rid step d = inl e -> e = clash.
Proof.
  unfold add_job_execution. intros [[=] | (? & ? & [-> ->]%gets_inr & H)]%bind_inl.
  apply bind_inl in H as [[_ ->]%require_inl | (? & ? & _ & [=])]. done.
Qed.

(** [raise_inv H] follows the exception [H : m d = inl e] to where it is raised. *)
Ltac raise_step :=
  match goal with
  | H : (_ ≫= _) _ = inl _ |- _ =>
      apply bind_inl in H; destruct H as [H | (? & ? & ? & H)]
  | H : require _ _ _ = inl _ |- _ => apply require_inl in H; destruct H as [? H]
  | H : found _ _ _ = inl _ |- _ => apply found_inl in H; destruct H as [? H]
  | H : throw _ _ = inl _ |- _ => injection H; clear H; intro H; symmetry in H
  | H : gets _ _ = inl _ |- _ => discriminate H
  | H : modify _ _ = inl _ |- _ => discriminate H
  | H : mret _ _ = inl _ |- _ => discriminate H
  | H : commit _ = inl _ |- _ => apply commit_inl in H
  | H : commit_or _ _ = inl _ |- _ => apply commit_or_inl in H
  | H : add_job_execution _ _ _ _ _ _ _ _ _ = inl _ |- _ => apply add_job_inl in H
  | H : (if ?b then _ else _) _ = inl _ |- _ => destruct b eqn:?
  | H : (match ?x with _ => _ end) _ = inl _ |- _ => destruct x eqn:?
  | H : inl _ = inl _ |- _ => injection H; clear H; intro H
  | H : inr _ = inl _ |- _ => discriminate H
  end.

(** [listed] proves [e ∈ es] for the exception found. *)
Ltac listed := subst; apply (bool_decide_eq_true_1 _); vm_compute; reflexivity.
Ltac raises := intros ?d ?e ?Hd ?H; repeat raise_step; try listed.

(** ** The repositories *)
Section Repositories.
Context `{AESGCM}.

Lemma create_system_job_raises now id name task step :
  Raises [IntegrityError] (create_system_job now id name task step).
Proof. unfold create_system_job. raises. Qed.
Lemma database_create_raises i nonce payload password c :
  Raises [DatabaseAlreadyExistsError] (database_create i nonce payload password c).
Proof. unfold database_create. raises. Qed.
Lemma database_update_raises i nonce payload password c :
  Raises [DatabaseNotFoundError; DatabaseAlreadyExistsError; DatabaseCapacityConflictError]
    (database_update i nonce payload password c).
Proof. unfold database_update. raises. Qed.
Lemma database_delete_raises i :
  Raises [DatabaseNotFoundError; DatabaseInUseError; IntegrityError] (database_delete i).
Proof. unfold database_delete. raises. Qed.

Lemma instance_request_deletion_raises now job_id i :
  Raises [InstanceNotFoundError; InstanceActionConflictError; IntegrityError]
    (instance_request_deletion now job_id i).
Proof. unfold instance_request_deletion, stage_instance_job, set_instance, stored_instance. raises. Qed.
Lemma instance_request_sync_raises now job_id i :
  Raises [InstanceNotFoundError; InstanceActionConflictError; IntegrityError]
    (instance_request_sync now job_id i).
Proof. unfold instance_request_sync, stage_instance_job, set_instance, stored_instance. raises. Qed.
Lemma power_action_raises now job_id i action name task step :
  Raises [InstanceNotFoundError; InstanceActionConflictError; IntegrityError]
    (_request_power_action now job_id i action name task step).
Proof. unfold _request_power_action, stage_instance_job, set_instance, stored_instance. raises. Qed.
Lemma create_and_request_update_raises now job_id nonce c i kubeconfig :
  Raises [InstanceNotFoundError; InstanceActionConflictError;
          InstanceKubernetesAlreadyConfiguredError; IntegrityError]
    (create_and_request_update now job_id nonce c i kubeconfig).
Proof.
  unfold create_and_request_update, _lock_idle_instance, stage_instance_job, set_instance. raises.
Qed.
Lemma kubernetes_get_raises i :
  Raises [InstanceNotFoundError; InstanceKubernetesNotFoundError] (kubernetes_get i).
Proof. unfold kubernetes_get. raises. Qed.

Lemma member_create_raises now job_id k i username role :
  Raises [MemberInstanceNotFoundError; MemberInstanceBusyError; MemberAlreadyExistsError;
          IntegrityError] (member_create now job_id k i username role).
Proof.
  unfold member_create, Members._lock_available_instance, request_instance_update,
    stage_instance_job, set_instance. raises.
Qed.
Lemma member_update_role_raises now job_id i k role :
  Raises [MemberInstanceNotFoundError; MemberInstanceBusyError; MemberNotFoundError;
          MemberActionConflictError; IntegrityError] (member_update_role now job_id i k role).
Proof.
  unfold member_update_role, Members._lock_available_instance, _lock_member, member_get,
    request_instance_update, stage_instance_job, set_instance. raises.
Qed.
Lemma member_request_deletion_raises now job_id i k protected :
  Raises [MemberInstanceNotFoundError; MemberInstanceBusyError; MemberNotFoundError;
          MemberActionConflictError; MemberHasWorkspacesError; MemberProtectedAdministratorError;
          IntegrityError] (member_request_deletion now job_id i k protected).
Proof.
  unfold member_request_deletion, Members._lock_available_instance, _lock_member, member_get,
    request_instance_update, stage_instance_job, set_instance. raises.
Qed.

Lemma template_create_raises i name payload :
  Raises [TemplateAlreadyExistsError] (template_create i name payload).
Proof. unfold template_create. raises. Qed.
Lemma template_update_raises i payload :
  Raises [TemplateNotFoundError; TemplateSyncInProgressError; TemplateAssignmentsInProgressError;
          TemplateWorkspacesInProgressError; TemplateWorkspaceCompatibilityError; IntegrityError]
    (template_update i payload).
Proof.
  unfold template_update, _ensure_no_active_assignments, _ensure_no_active_workspaces,
    _discard_current_job, set_template, stored_template. raises.
Qed.
Lemma template_delete_raises i :
  Raises [TemplateNotFoundError; TemplateSyncInProgressError; TemplateHasAssignmentsError;
          IntegrityError] (template_delete i).
Proof. unfold template_delete, _discard_current_job, set_template. raises. Qed.
Lemma template_request_sync_raises now job_id i :
  Raises [TemplateNotFoundError; TemplateSyncInProgressError; TemplateAssignmentsInProgressError;
          TemplateWorkspacesInProgressError; IntegrityError] (template_request_sync now job_id i).
Proof.
  unfold template_request_sync, _ensure_no_active_assignments, _ensure_no_active_workspaces,
    _discard_current_job, set_template. raises.
Qed.

Lemma image_create_raises k i registry name version :
  Raises [TemplateImageTemplateNotFoundError; TemplateImageAlreadyExistsError]
    (image_create k i registry name version).
Proof. unfold image_create. raises. Qed.
Lemma image_delete_raises i k :
  Raises [TemplateImageTemplateNotFoundError; TemplateImageNotFoundError; TemplateImageInUseError;
          IntegrityError] (image_delete i k).
Proof. unfold image_delete, image_get. raises. Qed.

Lemma member_list_raises i p n : Raises [MemberInstanceNotFoundError] (member_list i p n).
Proof. unfold member_list. raises. Qed.
Lemma image_list_raises i p n : Raises [TemplateImageTemplateNotFoundError] (image_list i p n).
Proof. unfold image_list. raises. Qed.
Lemma parameter_list_raises i p n :
  Raises [TemplateParameterTemplateNotFoundError] (parameter_list i p n).
Proof. unfold parameter_list. raises. Qed.
Lemma assignment_list_raises i p n :
  Raises [TemplateAssignmentInstanceNotFoundError] (assignment_list i p n).
Proof. unfold assignment_list. raises. Qed.

Lemma put_raises now job_id k i t :
  Raises [TemplateAssignmentInstanceNotFoundError; TemplateAssignmentTemplateNotFoundError;
          TemplateAssignmentInstanceUnavailableError; TemplateAssignmentSyncInProgressError;
          TemplateAssignmentActionConflictError; TemplateAssignmentJobConflictError;
          IntegrityError] (put now job_id k i t).
Proof.
  unfold put, _lock_instance, Assignments._lock_template, _lock_assignment,
    _require_mutation_available, _require_consistent_job, _stored_assignment. raises.
Qed.
Lemma assignment_request_deletion_raises now job_id i t :
  Raises [TemplateAssignmentInstanceNotFoundError; TemplateAssignmentTemplateNotFoundError;
          TemplateAssignmentInstanceUnavailableError; TemplateAssignmentSyncInProgressError;
          TemplateAssignmentActionConflictError; TemplateAssignmentJobConflictError;
          TemplateAssignmentWorkspacesBusyError; IntegrityError]
    (assignment_request_deletion now job_id i t).
Proof.
  unfold assignment_request_deletion, _lock_instance, Assignments._lock_template,
    _lock_assignment, _require_mutation_available, _require_consistent_job, _stored_assignment.
  raises.
Qed.

(** A system payload comes with a cipher, as the route builds one. *)
Lemma parameter_create_raises t k nonce payload c :
  (match payload with SystemTemplateParameterCreate _ _ _ => is_Some c | _ => True end) ->
  Raises [TemplateParameterTemplateNotFoundError; TemplateParameterSyncInProgressError;
          TemplateParameterAlreadyExistsError] (parameter_create t k nonce payload c).
Proof.
  intros Hc. unfold parameter_create, Templates._lock_template, _ensure_no_active_assignments,
    raise, bump_revision_if, set_template, _locked_parameter, parameter_get.
  raises.
  - destruct payload; cbn in *; [done |]. by destruct Hc as [? ->].
  - (* the row just committed is read back *)
    exfalso. session_cases; subst; cbn in *; rewrite lookup_insert_eq in *; cbn in *;
      destruct payload; cbn in *; try destruct c; cbn in *; simplify_eq/=;
      rewrite bool_decide_eq_true_2 in * by done; done.
Qed.

Lemma unseal_inl e key envelope aad e' : unseal e key envelope aad = inl e' -> e' = e.
Proof.
  unfold unseal. destruct (_ || _); [by intros [= ->] |].
  destruct (aes_decrypt _ _ _ _); [done | by intros [= ->]].
Qed.
Lemma decode_or_inl e r e' : decode_or e r = inl e' -> r = inl e' \/ e' = e.
Proof.
  destruct r as [x | p]; cbn; [by intros [= ->]; left |].
  destruct (bytes_decode p); [done | by intros [= ->]; right].
Qed.
Lemma password_decrypt_inl c s i e :
  PasswordCipher_decrypt c s i = inl e -> e = PasswordDecryptionError.
Proof. unfold PasswordCipher_decrypt. by intros [?%unseal_inl | ?]%decode_or_inl. Qed.
Lemma instance_password_decrypt_inl c s i e :
  InstancePasswordCipher_decrypt c s i = inl e -> e = InstancePasswordDecryptionError.
Proof. unfold InstancePasswordCipher_decrypt. by intros [?%unseal_inl | ?]%decode_or_inl. Qed.
Lemma parameter_decrypt_inl c s i e :
  TemplateParameterCipher_decrypt c s i = inl e -> e = TemplateParameterDecryptionError.
Proof. unfold TemplateParameterCipher_decrypt. by intros [?%unseal_inl | ?]%decode_or_inl. Qed.
Lemma kubeconfig_decrypt_inl c s i e :
  KubeconfigCipher_decrypt c s i = inl e -> e = KubeconfigDecryptionError.
Proof. unfold KubeconfigCipher_decrypt. by intros ?%unseal_inl. Qed.
Lemma init_cipher_inl k e : init_cipher k = inl e -> e = CryptoConfigurationError.
Proof.
  unfold init_cipher. destruct k as [s|]; [| by intros [= <-]].
  destruct (b64decode s); [| by intros [= <-]]. case_match; [done | by intros [= <-]].
Qed.

Lemma apply_update_inl k nonce p payload c e :
  (match payload with SystemTemplateParameterUpdate _ _ => is_Some c | _ => True end) ->
  _apply_update k nonce p payload c = inl e ->
  e = TemplateParameterImmutableFieldError \/ e = TemplateParameterDecryptionError.
Proof.
  intros Hc. unfold _apply_update. destruct payload as [f rq mu dv | f v].
  - destruct (_ != _); [intros [= <-]; by left | done].
  - destruct (_ != _); [intros [= <-]; by left |]. destruct v as [v|]; [| done].
    destruct Hc as [c' ->]. destruct (par_system_value p); [| done].
    destruct (TemplateParameterCipher_decrypt _ _ _) eqn:E.
    + intros [= <-]. right. by eapply parameter_decrypt_inl.
    + by destruct (_ != _).
Qed.

Lemma parameter_update_raises t k nonce payload c :
  (match payload with SystemTemplateParameterUpdate _ _ => is_Some c | _ => True end) ->
  Raises [TemplateParameterTemplateNotFoundError; TemplateParameterNotFoundError;
          TemplateParameterSyncInProgressError; TemplateParameterImmutableFieldError;
          TemplateParameterDecryptionError; IntegrityError]
    (parameter_update t k nonce payload c).
Proof.
  intros Hc. unfold parameter_update, Templates._lock_template, _ensure_no_active_assignments,
    raise, bump_revision_if, set_template, _locked_parameter, parameter_get.
  raises.
  match goal with E : _apply_update _ _ _ _ _ = inl _ |- _ =>
    apply apply_update_inl in E as [-> | ->]; [listed | listed | exact Hc] end.
Qed.
Lemma parameter_delete_raises t k :
  Raises [TemplateParameterTemplateNotFoundError; TemplateParameterNotFoundError;
          TemplateParameterSyncInProgressError; IntegrityError] (parameter_delete t k).
Proof.
  unfold parameter_delete, Templates._lock_template, _ensure_no_active_assignments,
    bump_revision_if, set_template, _locked_parameter, parameter_get. raises.
Qed.

(** ** Workspaces *)
Lemma resolve_inl by_name supplied previous e :
  resolve by_name supplied previous = inl e ->
  e = WorkspaceConfigurationError \/ (e = WorkspaceParameterImmutableError /\ is_Some previous).
Proof.
  unfold resolve. destruct (negb _); [intros [= <-]; by left |].
  generalize (filter (fun nv => is_defined by_name nv.1 = false) (default ∅ previous)).
  induction by_name as [|[name p] rest IH]; cbn; intros acc; [done |].
  destruct (resolve_one supplied previous name p) as [x | [v|]] eqn:E; [| by apply IH | by apply IH].
  intros [= ->]. revert E. unfold resolve_one.
  repeat case_match; intros; simplify_eq; auto; right; split; try done;
    (destruct previous; [by eexists | discriminate]).
Qed.

Lemma workspace_create_raises now job_id k payload :
  Raises [WorkspaceInstanceNotFoundError; WorkspaceInstanceBusyError;
          WorkspaceTemplateNotFoundError; WorkspaceTemplateNotDeployedError;
          WorkspaceMemberNotFoundError; WorkspaceMemberUnavailableError;
          WorkspaceImageNotFoundError; WorkspaceImageUnavailableError;
          WorkspaceConfigurationError; WorkspaceAlreadyExistsError]
    (workspace_create now job_id k payload).
Proof.
  unfold workspace_create, Workspaces._lock_available_instance, Workspaces._lock_template,
    _require_remote_template, _validate_owner, _validate_image, _validate_modules,
    _resolve_parameters, raise, refreshed.
  raises.
  - match goal with E : resolve _ _ _ = inl _ |- _ =>
      apply resolve_inl in E as [-> | [_ [? [=]]]]; listed end.
  - exfalso. session_cases; subst; cbn in *; by rewrite lookup_insert_eq in *.
Qed.
Lemma workspace_update_raises now job_id k payload :
  Raises [WorkspaceNotFoundError; WorkspaceBusyError; WorkspaceInstanceNotFoundError;
          WorkspaceInstanceBusyError; WorkspaceTemplateNotFoundError;
          WorkspaceTemplateNotDeployedError; WorkspaceImageNotFoundError;
          WorkspaceImageUnavailableError; WorkspaceConfigurationError;
          WorkspaceParameterImmutableError; WorkspaceAlreadyExistsError; IntegrityError]
    (workspace_update now job_id k payload).
Proof.
  unfold workspace_update, _lock_workspace, _ensure_workspace_available,
    Workspaces._lock_available_instance, Workspaces._lock_template, _require_remote_template,
    _validate_image, _validate_modules, _resolve_parameters, raise, set_workspace, refreshed.
  raises.
  all: match goal with E : resolve _ _ _ = inl _ |- _ =>
    apply resolve_inl in E as [-> | [-> _]]; listed end.
Qed.

(** The template of a workspace exists, so that the deletion does not miss it. *)
Lemma workspace_request_deletion_raises now job_id k :
  Raises [WorkspaceNotFoundError; WorkspaceBusyError; WorkspaceInstanceNotFoundError;
          WorkspaceInstanceBusyError; WorkspaceTemplateNotDeployedError; IntegrityError]
    (workspace_request_deletion now job_id k).
Proof.
  unfold workspace_request_deletion, _lock_workspace, _ensure_workspace_available,
    Workspaces._lock_available_instance, Workspaces._lock_template, _require_remote_template,
    set_workspace, refreshed.
  raises. exfalso. session_cases.
  match goal with Hd : Sound ?d, Hk : workspaces ?d !! _ = Some ?w |- _ =>
    destruct (sound_integrity _ Hd) as (_ & _ & Hr);
    assert (Ht : References (fun r => Some (ws_template_id r)) (templates d) (workspaces d))
      by apply Hr; destruct (Ht _ _ Hk); congruence end.
Qed.

Definition STILL_DRAWING : Exn := RuntimeError "still drawing slugs".
Lemma instance_create_raises now i job_id alloc fuel draw application :
  Raises [InstanceAlreadyExistsError; InstanceDatabaseUnavailableError; STILL_DRAWING]
    (instance_create now i job_id alloc fuel draw application).
Proof.
  unfold instance_create, stored_instance. raises.
  exfalso. session_cases; subst; cbn in *; by rewrite lookup_insert_eq in *.
Qed.
End Repositories.

Create HintDb raises.
#[export] Hint Resolve
  create_system_job_raises database_create_raises database_update_raises database_delete_raises 
  instance_request_deletion_raises instance_request_sync_raises power_action_raises 
  create_and_request_update_raises kubernetes_get_raises member_create_raises 
  member_update_role_raises member_request_deletion_raises template_create_raises 
  template_update_raises template_delete_raises template_request_sync_raises 
  image_create_raises image_delete_raises member_list_raises image_list_raises 
  parameter_list_raises assignment_list_raises put_raises assignment_request_deletion_raises 
  parameter_create_raises parameter_update_raises parameter_delete_raises 
  workspace_create_raises workspace_update_raises workspace_request_deletion_raises 
  instance_create_raises : raises.
