(* ===== verification/Http.v ===== *)
(** * Http: what the routes of the API share (src/coder_manager/api/, src/coder_manager/schemas/)

    A handler is a program of sessions and requests, like a task: after the session of its
    repository call it may read the job again and send the first message of the job. What it
    returns is a reply; an [HTTPException] that it raises is the reply FastAPI makes of it, and
    any other exception is answered by a 500. *)
From S2P Require Import Prelude Order Text Models Store Registry Crypto Execution Ownership.
From S2P Require Import Claims Jobs Databases Instances Members Templates Assignments Workspaces.
From S2P Require Import Utilization Listings Config Program Coder Worker.
From Stdlib Require Import Ascii String SpecFloat.
Open Scope string_scope.

(** ** Replies *)
Record Reply (A : Type) := mkReply {
  reply_status : Z;
  reply_body : A;
  reply_no_store : bool
}.
Arguments mkReply {A}.
Arguments reply_status {A}.
Arguments reply_body {A}.
Arguments reply_no_store {A}.

Definition ok {A} (body : A) : worker (Reply A) := Done (mkReply 200 body false).
Definition created {A} (body : A) : worker (Reply A) := Done (mkReply 201 body false).
Definition accepted {A} (body : A) : worker (Reply A) := Done (mkReply 202 body false).
(** [Response(status_code=204)] *)
Definition no_content : worker (Reply unit) := Done (mkReply 204 tt false).

Definition http (status_code : Z) (detail : string) : Exn := HTTPException status_code detail false.
Definition http_no_store (status_code : Z) (detail : string) : Exn :=
  HTTPException status_code detail true.

(** [try: p except E as error: raise HTTPException(...) from error], for the classes [E] that
    [table] knows; the others go on. *)
Definition except {A} (p : worker A) (table : Exn -> option Exn) : worker A :=
  catch p (fun e => Fail (default e (table e))).

(** [if value is None: raise e] *)
Definition or_raise {A} (o : option A) (e : Exn) : worker A :=
  match o with Some a => Done a | None => Fail e end.

(** ** Jobs (schemas/job_execution.py, api/routes/jobs.py) *)
Record JobRead := mkJobRead {
  jread_id : uuid;
  jread_name : string;
  jread_resource_type : option string;
  jread_resource_id : option uuid;
  jread_step : string;
  jread_status : Status;
  jread_attempt : Z;
  jread_claimed_at : option time;
  jread_created_at : time
}.
Definition job_read (id : uuid) (job : JobExecution) : JobRead :=
  mkJobRead id (job_name job) (job_resource_type job) (job_resource_id job) (job_step job)
    (job_status job) (job_attempt job) (job_claimed_at job) (job_created_at job).

Record JobResourceResponse (A : Type) := mkJobResource { resource : A; job : option JobRead }.
Arguments mkJobResource {A}.
Arguments resource {A}.
Arguments job {A}.

(** [_job_read]: the job after the commit. *)
Definition _job_read (job_id : option uuid) : worker (option JobRead) :=
  match job_id with
  | None => Done None
  | Some i => o ← sess (job_get i); Done (option_map (job_read i) o)
  end.

(** [if job is not None: dispatch_registered_step(task_name, job.id)] *)
Definition dispatch_read (task_name : string) (o : option JobRead) : worker unit :=
  match o with
  | None => Done tt
  | Some j => dispatch task_name (jread_id j);; Done tt
  end.

Definition get_job (job_id : uuid) : worker (Reply JobRead) :=
  o ← sess (job_get job_id);
  job ← or_raise o (http 404 "Job not found");
  ok (job_read job_id job).

(** ** Pages *)
Definition page_of {A} (items : list A) (page page_size total : nat) : Page A :=
  mkListed items page page_size total (pages_of total page_size).

(** ** Instances (schemas/instance.py, schemas/instance_kubernetes.py) *)
Record InstanceRead := mkInstanceRead {
  iread_id : uuid;
  iread_application : string;
  iread_slug : string;
  iread_action : string;
  iread_status : Status;
  iread_state : InstanceState;
  iread_instance_url : string;
  iread_argocd_application_name : option string;
  iread_job_id : option uuid;
  iread_step : option string;
  iread_database_id : option uuid;
  iread_schema_name : option string
}.

(** [instance.database_allocation], which the repository loads with the instance. *)
Definition database_allocation (d : Store) (instance_id : uuid) : option DatabaseAllocation :=
  snd <$> first_where (fun _ a => alloc_instance_id a == instance_id) (allocations d).

Definition from_instance (public_url : string -> string) (id : uuid) (instance : CoderInstance)
    (allocation : option DatabaseAllocation) : InstanceRead :=
  mkInstanceRead id (inst_application instance) (inst_slug instance) (inst_action instance)
    (inst_status instance) (inst_state instance) (public_url (inst_slug instance))
    (inst_argocd_application_name instance) (inst_job_id instance) (inst_step instance)
    (alloc_database_id <$> allocation) (alloc_schema_name <$> allocation).

Record InstanceKubernetesRead := mkKubernetesRead {
  kread_instance_id : uuid;
  kread_kubeconfig_configured : bool
}.
Definition kubernetes_provider_read (instance_id : uuid) (provider : InstanceKubernetes)
    : InstanceKubernetesRead := mkKubernetesRead instance_id true.

(** ** Databases (schemas/managed_database.py, api/routes/databases.py) *)
Record DatabaseRead := mkDatabaseRead {
  dread_id : uuid;
  dread_name : string;
  dread_instance_max : Z;
  dread_host : string;
  dread_port : Z;
  dread_database_name : string;
  dread_username : string;
  dread_password_configured : bool;
  dread_allocated_instances : Z;
  dread_available_slots : Z
}.
Definition database_read (usage : DatabaseUsage) : DatabaseRead :=
  let '(id, b) := usage_database usage in
  mkDatabaseRead id (base_name b) (base_instance_max b) (base_host b) (base_port b)
    (base_database_name b) (base_username b)
    (negb (bool_decide (base_password_enc b = [])))
    (allocated_instances usage)
    (Z.max (base_instance_max b - allocated_instances usage) 0).

(** Python's [round(x, 2)]: the decimal with two places nearest to the exact value of the float,
    ties to even, as a float again. *)
Definition round_half_even (n d : Z) : Z :=
  let q := Z.div n d in
  match Z.compare (2 * Z.modulo n d) d with
  | Lt => q
  | Gt => q + 1
  | Eq => if Z.even q then q else q + 1
  end%Z.
Definition round2 (x : spec_float) : spec_float :=
  match x with
  | S754_finite s m e =>
      let n := (Zpos m * 100)%Z in
      let hundredths :=
        if Z.leb 0 e then Z.shiftl n e else round_half_even n (Z.shiftl 1 (- e)) in
      SFdiv 53 1024 (float_of_Z (if s then - hundredths else hundredths)%Z) (float_of_Z 100)
  | _ => x
  end.
Definition utilization_percent (allocated capacity : Z) : spec_float :=
  if Z.eqb capacity 0 then S754_zero false
  else round2 (SFmul 53 1024 (true_division allocated capacity) (float_of_Z 100)).

Record DatabaseItemStatistics := mkItemStatistics {
  item_id : uuid;
  item_name : string;
  item_instance_max : Z;
  item_allocated_instances : Z;
  item_available_slots : Z;
  item_utilization_percent : spec_float
}.
Record DatabaseStatistics := mkStatistics {
  stat_database_count : Z;
  stat_total_capacity : Z;
  stat_allocated_instances : Z;
  stat_available_slots : Z;
  stat_utilization_percent : spec_float;
  stat_databases : list DatabaseItemStatistics
}.

(** ** Rows whose representation shows every column (schemas/member.py, schemas/template_image.py) *)
Record Read (R : Type) := mkRead { read_id : uuid; read_row : R }.
Arguments mkRead {R}.
Arguments read_id {R}.
Arguments read_row {R}.
Definition MemberRead : Type := Read Member.
Definition TemplateImageRead : Type := Read TemplateImage.
Definition model_validate {R} (kr : uuid * R) : Read R := mkRead kr.1 kr.2.

(** ** Templates (schemas/template.py): the job of a template is not shown *)
Record TemplateRead := mkTemplateRead {
  tplread_id : uuid;
  tplread_display_name : string;
  tplread_name : string;
  tplread_git_url : string;
  tplread_source_path : string;
  tplread_branch : string;
  tplread_modules : list string;
  tplread_system_parameter_revision : Z
}.
Definition template_read (kr : uuid * Template) : TemplateRead :=
  let '(id, t) := kr in
  mkTemplateRead id (tpl_display_name t) (tpl_name t) (tpl_git_url t) (tpl_source_path t)
    (tpl_branch t) (tpl_modules t) (tpl_system_parameter_revision t).

(** ** Workspaces (schemas/workspace.py): revisions and remote identifiers are not shown *)
Record WorkspaceRead := mkWorkspaceRead {
  wread_id : uuid;
  wread_name : string;
  wread_instance_id : uuid;
  wread_template_id : uuid;
  wread_member_id : uuid;
  wread_image_id : uuid;
  wread_modules : list string;
  wread_parameters : gmap string string;
  wread_action : string;
  wread_status : Status;
  wread_job_id : option uuid;
  wread_step : option string
}.
Definition workspace_read (kr : uuid * Workspace) : WorkspaceRead :=
  let '(id, w) := kr in
  mkWorkspaceRead id (ws_name w) (ws_instance_id w) (ws_template_id w) (ws_member_id w)
    (ws_image_id w) (ws_modules w) (ws_parameters w) (ws_action w) (ws_status w) (ws_job_id w)
    (ws_step w).

(** ** Parameters (schemas/template_parameter.py): the value of a system parameter is not shown *)
Record TemplateParameterRead := mkParameterRead {
  pread_id : uuid;
  pread_template_id : uuid;
  pread_type : TemplateParameterType;
  pread_name : string;
  pread_display_name : string;
  pread_description : string;
  pread_required : option bool;
  pread_mutable : option bool;
  pread_default_value : option string;
  pread_value_configured : option bool
}.
Definition parameter_read (id : uuid) (p : TemplateParameter) : TemplateParameterRead :=
  mkParameterRead id (par_template_id p) (par_type p) (par_name p) (par_display_name p)
    (par_description p) (par_required p) (par_mutable p) (par_default_value p)
    (if par_type p == TYPE_SYSTEM then Some (is_some (par_system_value p)) else None).

(** ** Assignments (schemas/instance_template.py): the assignment with its template and its
    deployment, if there is one *)
Record InstanceTemplateRead := mkInstanceTemplateRead {
  tread_id : uuid;
  tread_instance_id : uuid;
  tread_template : option TemplateRead;
  tread_action : string;
  tread_status : Status;
  tread_job_id : option uuid;
  tread_step : option string;
  tread_deployment_status : option Status;
  tread_target_commit : option string;
  tread_applied_commit : option string;
  tread_target_system_parameter_revision : option Z;
  tread_applied_system_parameter_revision : option Z
}.
Definition assignment_read (d : Store) (ka : uuid * TemplateAssignment) : InstanceTemplateRead :=
  let '(id, a) := ka in
  let deployment := snd <$> first_where (fun _ p => dep_assignment_id p == id) (deployments d) in
  mkInstanceTemplateRead id (asg_instance_id a)
    (option_map (fun t => template_read (asg_template_id a, t)) (templates d !! asg_template_id a))
    (asg_action a) (asg_status a) (asg_job_id a) (asg_step a)
    (dep_status <$> deployment) (deployment ≫= dep_target_commit)
    (deployment ≫= dep_applied_commit) (deployment ≫= dep_target_system_parameter_revision)
    (deployment ≫= dep_applied_system_parameter_revision).

(** The percentages of the examples of the tests. *)
Example percentages :
  map (fun '(a, c) => utilization_percent a c) [(1, 3); (2, 3); (1, 8); (0, 5); (5, 5); (1, 0)]%Z
  = [SFdiv 53 1024 (float_of_Z 3333) (float_of_Z 100);
     SFdiv 53 1024 (float_of_Z 6667) (float_of_Z 100);
     SFdiv 53 1024 (float_of_Z 1250) (float_of_Z 100); S754_zero false; float_of_Z 100;
     S754_zero false].
Proof. vm_compute. reflexivity. Qed.
