(* ===== verification/Routes.v ===== *)
(** * Routes: the handlers of the API (src/coder_manager/api/routes/)

    One definition per handler, on validated path, query and body parameters. Each handler turns
    the exceptions that its [except] clauses name into replies, commits through its repository
    call, and only then sends the first message of the job it staged. *)
From S2P Require Import Prelude Order Text Models Store Registry Crypto Execution Ownership.
From S2P Require Import Claims Jobs Databases Instances Members Templates Assignments Workspaces.
From S2P Require Import Listings Utilization Config Program Coder Worker Http.
From Stdlib Require Import Ascii String SpecFloat.
Open Scope string_scope.

(** The service unavailable reply of the four functions that build a cipher. *)
Definition build_cipher (settings : Settings) (e : Exn) : worker cipher :=
  except (returns (init_cipher (crypto_key settings)))
    (fun x => match x with CryptoConfigurationError => Some e | _ => None end).
Definition password_cipher (settings : Settings) : worker cipher :=
  build_cipher settings (http 503 "Database password encryption is not configured").
Definition kubeconfig_cipher (settings : Settings) : worker cipher :=
  build_cipher settings (http_no_store 503 "Kubeconfig encryption is not configured").
Definition instance_password_cipher (settings : Settings) : worker cipher :=
  build_cipher settings (http_no_store 503 "Instance password encryption is not configured").
Definition parameter_cipher (settings : Settings) : worker cipher :=
  build_cipher settings (http_no_store 503 "Template parameter encryption is not configured").

(** The representation of an instance: its allocation comes with it from the database. *)
Definition instance_read (settings : Settings) (id : uuid) (instance : CoderInstance)
    : worker InstanceRead :=
  allocation ← sess (gets (fun d => database_allocation d id));
  base_domain ← returns (from_settings settings);
  Done (from_instance (url_for base_domain) id instance allocation).

Definition instance_page (settings : Settings) (l : Listing (uuid * CoderInstance))
    (page page_size : nat) : worker (Reply (Page InstanceRead)) :=
  it ← sess (gets (fun d =>
    let '(rows, total) := list_page l page page_size d in
    (map (fun kr => (kr, database_allocation d kr.1)) rows, total)));
  base_domain ← returns (from_settings settings);
  ok (page_of (map (fun x => from_instance (url_for base_domain) x.1.1 x.1.2 x.2) it.1)
        page page_size it.2).

(** ** databases.py *)
Section Databases.
Context `{AESGCM} (settings : Settings).

Definition list_databases (page page_size : nat) (name : option string)
    : worker (Reply (Page DatabaseRead)) :=
  it ← sess (gets (list_page (database_list_page name) page page_size));
  ok (page_of (map database_read it.1) page page_size it.2).

Definition item_statistics (usage : DatabaseUsage) : DatabaseItemStatistics :=
  let '(id, b) := usage_database usage in
  mkItemStatistics id (base_name b) (base_instance_max b) (allocated_instances usage)
    (Z.max (base_instance_max b - allocated_instances usage) 0)
    (utilization_percent (allocated_instances usage) (base_instance_max b)).
Definition sum_of {A} (f : A -> Z) (l : list A) : Z := foldr (fun a s => (f a + s)%Z) 0%Z l.
Definition database_statistics (usages : list DatabaseUsage) : DatabaseStatistics :=
  let total_capacity := sum_of (fun u => base_instance_max (usage_database u).2) usages in
  let allocated := sum_of allocated_instances usages in
  mkStatistics (Z.of_nat (List.length usages)) total_capacity allocated
    (Z.max (total_capacity - allocated) 0) (utilization_percent allocated total_capacity)
    (map item_statistics usages).
Definition get_database_statistics : worker (Reply DatabaseStatistics) :=
  usages ← sess (gets list_usage);
  ok (database_statistics usages).

Definition sync_databases : worker (Reply JobRead) :=
  now ← ask Now;
  id ← ask NewUuid;
  r ← sess (create_system_job now id "database.sync" DATABASE_SYNC_STEP_01_TASK
              DATABASE_SYNC_STEP_01);
  let '(job_id, job) := r in
  dispatch (job_task_name job) job_id;;
  accepted (job_read job_id job).

Definition DATABASE_NOT_FOUND : Exn := http 404 "Database not found".
Definition DATABASE_NAME_TAKEN : Exn := http 409 "A database with this name already exists".

Definition list_database_instances (database_id : uuid) (page page_size : nat)
    : worker (Reply (Page InstanceRead)) :=
  o ← sess (get_usage database_id);
  or_raise o DATABASE_NOT_FOUND;;
  instance_page settings (instance_list None (Some database_id)) page page_size.

Definition check_database (database_id : uuid) : worker (Reply string) :=
  o ← sess (get_usage database_id);
  usage ← or_raise o DATABASE_NOT_FOUND;
  let '(id, b) := usage_database usage in
  password ← except
    (c ← password_cipher settings;
     returns (PasswordCipher_decrypt c (base_password_enc b) id))
    (fun e => match e with
      | PasswordDecryptionError => Some (http 503 "Database password cannot be decrypted")
      | _ => None end);
  except
    (ask (CheckConnection (base_host b) (base_port b) (base_database_name b) (base_username b)
            password))
    (fun e => match e with
      | PostgresError | OSError | TimeoutError =>
          Some (http 502 "Database connection is unavailable")
      | _ => None end);;
  ok "ok".

Definition get_database (database_id : uuid) : worker (Reply DatabaseRead) :=
  o ← sess (get_usage database_id);
  usage ← or_raise o DATABASE_NOT_FOUND;
  ok (database_read usage).

Definition create_database (payload : DatabaseFields) (password : string)
    : worker (Reply DatabaseRead) :=
  usage ← except
    (c ← password_cipher settings;
     id ← ask NewUuid;
     nonce ← ask Nonce;
     sess (database_create id nonce payload password c))
    (fun e => match e with DatabaseAlreadyExistsError => Some DATABASE_NAME_TAKEN | _ => None end);
  created (database_read usage).

Definition update_database (database_id : uuid) (payload : DatabaseFields)
    (password : option string) : worker (Reply DatabaseRead) :=
  usage ← except
    (c ← password_cipher settings;
     nonce ← ask Nonce;
     sess (database_update database_id nonce payload password c))
    (fun e => match e with
      | DatabaseNotFoundError => Some DATABASE_NOT_FOUND
      | DatabaseAlreadyExistsError => Some DATABASE_NAME_TAKEN
      | DatabaseCapacityConflictError =>
          Some (http 409 "instance_max cannot be lower than current allocations")
      | _ => None end);
  ok (database_read usage).

Definition delete_database (database_id : uuid) : worker (Reply unit) :=
  except (sess (database_delete database_id))
    (fun e => match e with
      | DatabaseNotFoundError => Some DATABASE_NOT_FOUND
      | DatabaseInUseError => Some (http 409 "Database still has allocated instances")
      | _ => None end);;
  no_content.
End Databases.

(** ** instances.py *)
Definition INSTANCE_NOT_FOUND : Exn := http 404 "Instance not found".
Definition INSTANCE_BUSY : Exn := http 409 "Instance has an action in progress".

Section Instances.
Context `{AESGCM} (settings : Settings) (rounds : nat).

Record InstanceAdminCredentialsRead := mkCredentials {
  credentials_username : string;
  credentials_email : string;
  credentials_password : string
}.

Definition list_instances (page page_size : nat) (application : option string)
    : worker (Reply (Page InstanceRead)) :=
  instance_page settings (instance_list application None) page page_size.

Definition get_instance (instance_id : uuid) : worker (Reply InstanceRead) :=
  o ← sess (instance_get instance_id);
  instance ← or_raise o INSTANCE_NOT_FOUND;
  read ← instance_read settings instance_id instance;
  ok read.

Definition get_instance_admin (instance_id : uuid) : worker (Reply InstanceAdminCredentialsRead) :=
  o ← sess (instance_get instance_id);
  instance ← or_raise o (http_no_store 404 "Instance not found");
  password_enc ← or_raise (inst_password_enc instance)
    (http_no_store 404 "Instance admin account not initialized");
  password ← except
    (c ← instance_password_cipher settings;
     returns (InstancePasswordCipher_decrypt c password_enc instance_id))
    (fun e => match e with
      | InstancePasswordDecryptionError =>
          Some (http_no_store 503 "Instance admin password cannot be decrypted")
      | _ => None end);
  Done (mkReply 200 (mkCredentials ADMIN_USERNAME ADMIN_EMAIL password) true).

Definition provider_errors (not_found not_configured : Exn) (e : Exn) : option Exn :=
  match e with
  | InstanceNotFoundError => Some not_found
  | InstanceKubernetesNotFoundError => Some not_configured
  | _ => None
  end.
Definition get_instance_provider (instance_id : uuid) : worker (Reply InstanceKubernetesRead) :=
  provider ← except (sess (kubernetes_get instance_id))
    (provider_errors INSTANCE_NOT_FOUND (http 404 "Kubernetes provider not configured"));
  ok (kubernetes_provider_read instance_id provider).

Definition get_instance_provider_configuration (instance_id : uuid) : worker (Reply bytes) :=
  provider ← except (sess (kubernetes_get instance_id))
    (provider_errors (http_no_store 404 "Instance not found")
       (http_no_store 404 "Kubernetes provider not configured"));
  kubeconfig ← except
    (c ← kubeconfig_cipher settings;
     returns (KubeconfigCipher_decrypt c (kube_kubeconfig_enc provider) instance_id))
    (fun e => match e with
      | KubeconfigDecryptionError => Some (http_no_store 503 "Kubeconfig cannot be decrypted")
      | _ => None end);
  Done (mkReply 200 kubeconfig true).

Definition _instance_job (instance_id : uuid) : worker (option JobRead) :=
  o ← sess (instance_get instance_id);
  _job_read (o ≫= inst_job_id).

Definition create_instance_provider (instance_id : uuid) (kubeconfig : bytes)
    : worker (Reply (JobResourceResponse InstanceKubernetesRead)) :=
  provider ← except
    (c ← kubeconfig_cipher settings;
     now ← ask Now;
     job_id ← ask NewUuid;
     nonce ← ask Nonce;
     sess (create_and_request_update now job_id nonce c instance_id kubeconfig))
    (fun e => match e with
      | InstanceNotFoundError => Some INSTANCE_NOT_FOUND
      | InstanceActionConflictError => Some INSTANCE_BUSY
      | InstanceKubernetesAlreadyConfiguredError =>
          Some (http 409 "Kubernetes provider is already configured")
      | _ => None end);
  job ← _instance_job instance_id;
  dispatch_read INSTANCE_UPDATE_STEP_01_TASK job;;
  accepted (mkJobResource (kubernetes_provider_read instance_id provider) job).

Definition get_instance_status (instance_id : uuid) : worker (Reply (uuid * ArgoCdApplicationStatus)) :=
  o ← sess (instance_get instance_id);
  instance ← or_raise o INSTANCE_NOT_FOUND;
  remote ← except
    (ask (ReadApplicationStatus instance_id (inst_slug instance)
            (inst_argocd_application_name instance)))
    (fun e => match e with
      | ArgoCdApplicationNotFoundError _ => Some (http 404 "Argo CD Application not found")
      | ArgoCdApplicationOwnershipError _ =>
          Some (http 409 "Argo CD Application ownership conflict")
      | ArgoCdConfigurationError _ => Some (http 503 "Argo CD is not configured")
      | ArgoCdRequestError _ | HTTPError _ => Some (http 502 "Argo CD status is unavailable")
      | _ => None end);
  ok (instance_id, remote).

Definition create_instance (draw : nat -> string) (application : string)
    : worker (Reply (JobResourceResponse InstanceRead)) :=
  now ← ask Now;
  instance_id ← ask NewUuid;
  job_id ← ask NewUuid;
  allocation_id ← ask NewUuid;
  instance ← except
    (sess (instance_create now instance_id job_id allocation_id rounds draw application))
    (fun e => match e with
      | InstanceAlreadyExistsError =>
          Some (http 409 "An instance already exists for this application or slug")
      | InstanceDatabaseUnavailableError => Some (http 409 "No database capacity available")
      | _ => None end);
  job ← _job_read (inst_job_id instance);
  dispatch_read INSTANCE_CREATE_STEP_01_TASK job;;
  read ← instance_read settings instance_id instance;
  created (mkJobResource read job).

(** What [start_instance], [stop_instance], [sync_instance] and [delete_instance] share. *)
Definition instance_action (request : time -> uuid -> uuid -> session CoderInstance)
    (conflict : string) (task_name : JobRead -> string) (instance_id : uuid)
    : worker (Reply (JobResourceResponse InstanceRead)) :=
  now ← ask Now;
  job_id ← ask NewUuid;
  instance ← except (sess (request now job_id instance_id))
    (fun e => match e with
      | InstanceNotFoundError => Some INSTANCE_NOT_FOUND
      | InstanceActionConflictError => Some (http 409 conflict)
      | _ => None end);
  job ← _job_read (inst_job_id instance);
  match job with Some j => dispatch (task_name j) (jread_id j);; Done tt | None => Done tt end;;
  read ← instance_read settings instance_id instance;
  accepted (mkJobResource read job).

Definition start_instance : uuid -> worker (Reply (JobResourceResponse InstanceRead)) :=
  instance_action instance_request_start "Instance has an action in progress or is deleting"
    (fun _ => INSTANCE_START_STEP_01_TASK).
Definition stop_instance : uuid -> worker (Reply (JobResourceResponse InstanceRead)) :=
  instance_action instance_request_stop "Instance has an action in progress or is deleting"
    (fun _ => INSTANCE_STOP_STEP_01_TASK).
Definition sync_instance : uuid -> worker (Reply (JobResourceResponse InstanceRead)) :=
  instance_action instance_request_sync "Instance has an action in progress"
    (fun _ => INSTANCE_UPDATE_STEP_01_TASK).
Definition delete_instance : uuid -> worker (Reply (JobResourceResponse InstanceRead)) :=
  instance_action instance_request_deletion
    "Instance cannot be deleted in its current lifecycle state"
    (fun job => if jread_step job == INSTANCE_DELETE_STEP_02 then INSTANCE_DELETE_STEP_02_TASK
                else INSTANCE_DELETE_STEP_01_TASK).
End Instances.

(** ** instance_templates.py *)
Definition assignment_errors (e : Exn) : option Exn :=
  match e with
  | TemplateAssignmentInstanceNotFoundError => Some INSTANCE_NOT_FOUND
  | TemplateAssignmentTemplateNotFoundError => Some (http 404 "Template not found")
  | TemplateAssignmentInstanceUnavailableError =>
      Some (http 409 "Instance must be started and ready")
  | TemplateAssignmentSyncInProgressError =>
      Some (http 409 "Template synchronization is already in progress")
  | TemplateAssignmentActionConflictError =>
      Some (http 409 "Template assignment has a conflicting action")
  | TemplateAssignmentJobConflictError =>
      Some (http 409 "Template assignment durable job is inconsistent")
  | _ => None
  end.

(** [_dispatch_enqueued_job]: only a job that the repository has just created. *)
Definition _dispatch_enqueued_job (enqueue_job_id : option uuid) (task_name : string)
    : worker unit :=
  match enqueue_job_id with
  | Some job_id => dispatch task_name job_id;; Done tt
  | None => Done tt
  end.

Definition list_instance_templates (instance_id : uuid) (page page_size : nat)
    : worker (Reply (Page InstanceTemplateRead)) :=
  it ← except
    (sess (it ← assignment_list instance_id page page_size;
           d ← gets (fun d => d);
           mret (map (fun x => assignment_read d x.1) it.1, it.2)))
    (fun e => match e with
      | TemplateAssignmentInstanceNotFoundError => Some INSTANCE_NOT_FOUND | _ => None end);
  ok (page_of it.1 page page_size it.2).

Definition put_instance_template (instance_id template_id : uuid)
    : worker (Reply (JobResourceResponse InstanceTemplateRead)) :=
  now ← ask Now;
  job_id ← ask NewUuid;
  new_id ← ask NewUuid;
  r ← except (sess (put now job_id new_id instance_id template_id)) assignment_errors;
  let '(assignment, is_accepted, enqueue_job_id) := r in
  job ← (if is_accepted : bool then _job_read (asg_job_id assignment.2) else Done None);
  _dispatch_enqueued_job enqueue_job_id TEMPLATE_ASSIGNMENT_CREATE_STEP_01_TASK;;
  read ← sess (gets (fun d => assignment_read d assignment));
  Done (mkReply (if is_accepted : bool then 202 else 200) (mkJobResource read job) false).

(** The body of a 204 is empty. *)
Definition delete_instance_template (instance_id template_id : uuid)
    : worker (Reply (option (JobResourceResponse InstanceTemplateRead))) :=
  now ← ask Now;
  job_id ← ask NewUuid;
  r ← except (sess (assignment_request_deletion now job_id instance_id template_id))
    (fun e => match e with
      | TemplateAssignmentWorkspacesBusyError =>
          Some (http 409 "Template assignment has workspaces with an action in progress")
      | _ => assignment_errors e end);
  let '(o, _, enqueue_job_id) := r in
  match o with
  | None => Done (mkReply 204 None false)
  | Some assignment =>
      job ← _job_read (asg_job_id assignment.2);
      _dispatch_enqueued_job enqueue_job_id TEMPLATE_ASSIGNMENT_DELETE_STEP_01_TASK;;
      read ← sess (gets (fun d => assignment_read d assignment));
      Done (mkReply 202 (Some (mkJobResource read job)) false)
  end.

(** ** members.py *)
Definition MEMBER_NOT_FOUND : Exn := http 404 "Member not found".
Definition member_errors (e : Exn) : option Exn :=
  match e with
  | MemberInstanceNotFoundError => Some INSTANCE_NOT_FOUND
  | MemberInstanceBusyError => Some INSTANCE_BUSY
  | MemberNotFoundError => Some MEMBER_NOT_FOUND
  | MemberActionConflictError => Some (http 409 "Member action is not in a successful state")
  | _ => None
  end.

(** [_consume_instance_update_request] *)
Definition _consume_instance_update_request (enqueue_job_id : option uuid)
    : worker (option JobRead) := _job_read enqueue_job_id.

Definition list_members (instance_id : uuid) (page page_size : nat)
    : worker (Reply (Page MemberRead)) :=
  it ← except (sess (member_list instance_id page page_size))
    (fun e => match e with
      | MemberInstanceNotFoundError => Some INSTANCE_NOT_FOUND | _ => None end);
  ok (page_of (map model_validate it.1) page page_size it.2).

Definition create_member (instance_id : uuid) (username : string) (role : MemberRole)
    : worker (Reply (JobResourceResponse MemberRead)) :=
  now ← ask Now;
  member_id ← ask NewUuid;
  job_id ← ask NewUuid;
  r ← except (sess (member_create now job_id member_id instance_id username role))
    (fun e => match e with
      | MemberInstanceNotFoundError => Some INSTANCE_NOT_FOUND
      | MemberInstanceBusyError => Some INSTANCE_BUSY
      | MemberAlreadyExistsError => Some (http 409 "Member already exists for this instance")
      | _ => None end);
  let '(m, enqueue_job_id) := r in
  job ← _consume_instance_update_request enqueue_job_id;
  dispatch_read INSTANCE_UPDATE_STEP_01_TASK job;;
  created (mkJobResource (model_validate (member_id, m)) job).

Definition get_member (instance_id member_id : uuid) : worker (Reply MemberRead) :=
  o ← sess (member_get instance_id member_id);
  m ← or_raise o MEMBER_NOT_FOUND;
  ok (model_validate (member_id, m)).

Definition update_member_role (instance_id member_id : uuid) (role : MemberRole)
    : worker (Reply (JobResourceResponse MemberRead)) :=
  now ← ask Now;
  job_id ← ask NewUuid;
  r ← except (sess (member_update_role now job_id instance_id member_id role)) member_errors;
  let '(m, changed, enqueue_job_id) := r in
  job ← (if changed : bool then _consume_instance_update_request enqueue_job_id else Done None);
  dispatch_read INSTANCE_UPDATE_STEP_01_TASK job;;
  Done (mkReply (if changed : bool then 202 else 200)
          (mkJobResource (model_validate (member_id, m)) job) false).

Definition delete_member (settings : Settings) (instance_id member_id : uuid)
    : worker (Reply (JobResourceResponse MemberRead)) :=
  default_admins ← returns (parse_default_admins (default_admins settings));
  let protected_usernames := ADMIN_USERNAME :: default_admins in
  now ← ask Now;
  job_id ← ask NewUuid;
  r ← except (sess (member_request_deletion now job_id instance_id member_id protected_usernames))
    (fun e => match e with
      | MemberHasWorkspacesError => Some (http 409 "Member still owns workspaces")
      | MemberProtectedAdministratorError =>
          Some (http 409 "Protected administrator cannot be removed")
      | _ => member_errors e end);
  let '(m, enqueue_job_id) := r in
  job ← _consume_instance_update_request enqueue_job_id;
  dispatch_read INSTANCE_UPDATE_STEP_01_TASK job;;
  accepted (mkJobResource (model_validate (member_id, m)) job).

(** ** templates.py *)
Definition TEMPLATE_NOT_FOUND : Exn := http 404 "Template not found".
Definition SYNC_CONFLICT : Exn := http 409 "Template synchronization is already in progress".
Definition template_errors (e : Exn) : option Exn :=
  match e with
  | TemplateNotFoundError => Some TEMPLATE_NOT_FOUND
  | TemplateSyncInProgressError => Some SYNC_CONFLICT
  | TemplateAssignmentsInProgressError =>
      Some (http 409 "Template assignment operation is already in progress")
  | TemplateWorkspacesInProgressError =>
      Some (http 409 "Template workspace operation is already in progress")
  | _ => None
  end.

Definition list_templates (page page_size : nat) (display_name : option string)
    : worker (Reply (Page TemplateRead)) :=
  it ← sess (gets (list_page (template_list display_name) page page_size));
  ok (page_of (map template_read it.1) page page_size it.2).

Definition list_template_modules (template_id : uuid) : worker (Reply (list string)) :=
  o ← sess (template_get template_id);
  template ← or_raise o TEMPLATE_NOT_FOUND;
  ok (tpl_modules template).

Definition sync_template (template_id : uuid) : worker (Reply unit) :=
  now ← ask Now;
  id ← ask NewUuid;
  job_id ← except (sess (template_request_sync now id template_id)) template_errors;
  dispatch TEMPLATE_SYNC_STEP_01_TASK job_id;;
  accepted tt.

Definition get_template (template_id : uuid) : worker (Reply TemplateRead) :=
  o ← sess (template_get template_id);
  template ← or_raise o TEMPLATE_NOT_FOUND;
  ok (template_read (template_id, template)).

Definition create_template (name : string) (payload : TemplateFields)
    : worker (Reply TemplateRead) :=
  id ← ask NewUuid;
  template ← except (sess (template_create id name payload))
    (fun e => match e with
      | TemplateAlreadyExistsError => Some (http 409 "A template with this name already exists")
      | _ => None end);
  created (template_read (id, template)).

Definition update_template (template_id : uuid) (payload : TemplateFields)
    : worker (Reply TemplateRead) :=
  template ← except (sess (template_update template_id payload))
    (fun e => match e with
      | TemplateWorkspaceCompatibilityError =>
          Some (http 409 "Template changes would invalidate existing workspaces")
      | _ => template_errors e end);
  ok (template_read (template_id, template)).

Definition delete_template (template_id : uuid) : worker (Reply unit) :=
  except (sess (template_delete template_id))
    (fun e => match e with
      | TemplateNotFoundError => Some TEMPLATE_NOT_FOUND
      | TemplateHasAssignmentsError => Some (http 409 "Template is still assigned to instances")
      | TemplateSyncInProgressError => Some SYNC_CONFLICT
      | _ => None end);;
  no_content.

(** ** template_images.py *)
Definition IMAGE_NOT_FOUND : Exn := http 404 "Docker image not found".
Definition list_template_images (template_id : uuid) (page page_size : nat)
    : worker (Reply (Page TemplateImageRead)) :=
  it ← except (sess (image_list template_id page page_size))
    (fun e => match e with
      | TemplateImageTemplateNotFoundError => Some TEMPLATE_NOT_FOUND | _ => None end);
  ok (page_of (map model_validate it.1) page page_size it.2).

Definition get_template_image (template_id image_id : uuid) : worker (Reply TemplateImageRead) :=
  o ← sess (image_get template_id image_id);
  image ← or_raise o IMAGE_NOT_FOUND;
  ok (model_validate (image_id, image)).

Definition create_template_image (template_id : uuid) (registry name version : string)
    : worker (Reply TemplateImageRead) :=
  id ← ask NewUuid;
  image ← except (sess (image_create id template_id registry name version))
    (fun e => match e with
      | TemplateImageTemplateNotFoundError => Some TEMPLATE_NOT_FOUND
      | TemplateImageAlreadyExistsError =>
          Some (http 409 "Docker image is already allowed by this template")
      | _ => None end);
  created (model_validate (id, image)).

Definition delete_template_image (template_id image_id : uuid) : worker (Reply unit) :=
  except (sess (image_delete template_id image_id))
    (fun e => match e with
      | TemplateImageTemplateNotFoundError => Some TEMPLATE_NOT_FOUND
      | TemplateImageNotFoundError => Some IMAGE_NOT_FOUND
      | TemplateImageInUseError => Some (http 409 "Docker image is still used by workspaces")
      | _ => None end);;
  no_content.

(** ** template_parameters.py *)
Section Parameters.
Context `{AESGCM} (settings : Settings).

Definition PARAMETER_NOT_FOUND : Exn := http 404 "Template parameter not found".
Definition parameter_errors (e : Exn) : option Exn :=
  match e with
  | TemplateParameterTemplateNotFoundError => Some TEMPLATE_NOT_FOUND
  | TemplateParameterNotFoundError => Some PARAMETER_NOT_FOUND
  | TemplateParameterSyncInProgressError => Some SYNC_CONFLICT
  | _ => None
  end.

Definition list_template_parameters (template_id : uuid) (page page_size : nat)
    : worker (Reply (Page TemplateParameterRead)) :=
  it ← except (sess (parameter_list template_id page page_size))
    (fun e => match e with
      | TemplateParameterTemplateNotFoundError => Some TEMPLATE_NOT_FOUND | _ => None end);
  ok (page_of (map (fun kr => parameter_read kr.1 kr.2) it.1) page page_size it.2).

Definition get_template_parameter (template_id parameter_id : uuid)
    : worker (Reply TemplateParameterRead) :=
  o ← sess (parameter_get template_id parameter_id);
  parameter ← or_raise o PARAMETER_NOT_FOUND;
  ok (parameter_read parameter_id parameter).

(** The cipher is built for system parameters only. *)
Definition cipher_for (is_system : bool) : worker (option cipher) :=
  if is_system then c ← parameter_cipher settings; Done (Some c) else Done None.
Definition is_system_create (payload : ParameterCreate) : bool :=
  match payload with SystemTemplateParameterCreate _ _ _ => true | _ => false end.
Definition is_system_update (payload : ParameterUpdate) : bool :=
  match payload with SystemTemplateParameterUpdate _ _ => true | _ => false end.

Definition create_template_parameter (template_id : uuid) (payload : ParameterCreate)
    : worker (Reply TemplateParameterRead) :=
  c ← cipher_for (is_system_create payload);
  parameter_id ← ask NewUuid;
  nonce ← ask Nonce;
  parameter ← except (sess (parameter_create template_id parameter_id nonce payload c))
    (fun e => match e with
      | TemplateParameterAlreadyExistsError =>
          Some (http 409 "A parameter with this name already exists in the template")
      | TemplateParameterTemplateNotFoundError => Some TEMPLATE_NOT_FOUND
      | TemplateParameterSyncInProgressError => Some SYNC_CONFLICT
      | _ => None end);
  Done (mkReply 201 (parameter_read parameter_id parameter) (is_system_create payload)).

Definition update_template_parameter (template_id parameter_id : uuid) (payload : ParameterUpdate)
    : worker (Reply TemplateParameterRead) :=
  c ← cipher_for (is_system_update payload);
  nonce ← ask Nonce;
  parameter ← except (sess (parameter_update template_id parameter_id nonce payload c))
    (fun e => match e with
      | TemplateParameterImmutableFieldError =>
          Some (http 409 "Template parameter type is immutable")
      | TemplateParameterDecryptionError =>
          Some (http_no_store 503 "Template parameter value cannot be decrypted")
      | _ => parameter_errors e end);
  Done (mkReply 200 (parameter_read parameter_id parameter) (is_system_update payload)).

Definition delete_template_parameter (template_id parameter_id : uuid) : worker (Reply unit) :=
  except (sess (parameter_delete template_id parameter_id)) parameter_errors;;
  no_content.
End Parameters.

(** ** workspaces.py *)
Definition WORKSPACE_NOT_FOUND : Exn := http 404 "Workspace not found".
Definition WORKSPACE_BUSY : Exn := http 409 "Workspace has an action in progress".
Definition INVALID_CONFIGURATION : Exn :=
  http 422 "Workspace configuration is incompatible with its template".
Definition WORKSPACE_NAME_CONFLICT : Exn :=
  http 409 "A workspace with this name already exists in the instance".
Definition NOT_DEPLOYED : Exn := http 409 "Template is not deployed to this instance".

Definition list_workspaces (query : WorkspaceListQuery) : worker (Reply (Page WorkspaceRead)) :=
  it ← sess (gets (list_page (workspace_list_page query) (query_page query)
                     (query_page_size query)));
  ok (page_of (map workspace_read it.1) (query_page query) (query_page_size query) it.2).

Definition get_workspace (workspace_id : uuid) : worker (Reply WorkspaceRead) :=
  o ← sess (workspace_get workspace_id);
  workspace ← or_raise o WORKSPACE_NOT_FOUND;
  ok (workspace_read (workspace_id, workspace)).

Definition create_workspace (payload : WorkspaceCreate)
    : worker (Reply (JobResourceResponse WorkspaceRead)) :=
  now ← ask Now;
  workspace_id ← ask NewUuid;
  job_id ← ask NewUuid;
  workspace ← except (sess (workspace_create now job_id workspace_id payload))
    (fun e => match e with
      | WorkspaceInstanceNotFoundError => Some INSTANCE_NOT_FOUND
      | WorkspaceTemplateNotFoundError => Some TEMPLATE_NOT_FOUND
      | WorkspaceMemberNotFoundError => Some MEMBER_NOT_FOUND
      | WorkspaceImageNotFoundError => Some IMAGE_NOT_FOUND
      | WorkspaceInstanceBusyError => Some INSTANCE_BUSY
      | WorkspaceMemberUnavailableError =>
          Some (http 409 "Workspace owner is not ready for this instance")
      | WorkspaceTemplateNotDeployedError => Some NOT_DEPLOYED
      | WorkspaceImageUnavailableError | WorkspaceConfigurationError =>
          Some INVALID_CONFIGURATION
      | WorkspaceAlreadyExistsError => Some WORKSPACE_NAME_CONFLICT
      | _ => None end);
  job ← _job_read (ws_job_id workspace);
  dispatch_read WORKSPACE_CREATE_STEP_01_TASK job;;
  created (mkJobResource (workspace_read (workspace_id, workspace)) job).

(** [_dispatch_job] *)
Definition _dispatch_job (job_id : option uuid) (task_name : string) (is_dispatched : bool)
    : worker (option JobRead) :=
  if negb is_dispatched then Done None
  else
    job ← _job_read job_id;
    dispatch_read task_name job;;
    Done job.

Definition update_workspace (workspace_id : uuid) (payload : WorkspaceUpdate)
    : worker (Reply (JobResourceResponse WorkspaceRead)) :=
  now ← ask Now;
  job_id ← ask NewUuid;
  r ← except (sess (workspace_update now job_id workspace_id payload))
    (fun e => match e with
      | WorkspaceNotFoundError => Some WORKSPACE_NOT_FOUND
      | WorkspaceInstanceNotFoundError => Some INSTANCE_NOT_FOUND
      | WorkspaceTemplateNotFoundError => Some TEMPLATE_NOT_FOUND
      | WorkspaceImageNotFoundError => Some IMAGE_NOT_FOUND
      | WorkspaceInstanceBusyError => Some INSTANCE_BUSY
      | WorkspaceBusyError => Some WORKSPACE_BUSY
      | WorkspaceTemplateNotDeployedError => Some NOT_DEPLOYED
      | WorkspaceImageUnavailableError | WorkspaceConfigurationError =>
          Some INVALID_CONFIGURATION
      | WorkspaceParameterImmutableError =>
          Some (http 409 "An immutable workspace parameter cannot be changed")
      | WorkspaceAlreadyExistsError => Some WORKSPACE_NAME_CONFLICT
      | _ => None end);
  let '(w, changed) := r in
  job ← _dispatch_job (ws_job_id w) WORKSPACE_UPDATE_STEP_01_TASK changed;
  Done (mkReply (if changed : bool then 202 else 200)
          (mkJobResource (workspace_read (workspace_id, w)) job) false).

Definition delete_workspace (workspace_id : uuid)
    : worker (Reply (JobResourceResponse WorkspaceRead)) :=
  now ← ask Now;
  job_id ← ask NewUuid;
  workspace ← except (sess (workspace_request_deletion now job_id workspace_id))
    (fun e => match e with
      | WorkspaceNotFoundError => Some WORKSPACE_NOT_FOUND
      | WorkspaceInstanceNotFoundError => Some INSTANCE_NOT_FOUND
      | WorkspaceInstanceBusyError => Some INSTANCE_BUSY
      | WorkspaceBusyError => Some WORKSPACE_BUSY
      | WorkspaceTemplateNotDeployedError => Some NOT_DEPLOYED
      | _ => None end);
  job ← _job_read (ws_job_id workspace);
  dispatch_read WORKSPACE_DELETE_STEP_01_TASK job;;
  accepted (mkJobResource (workspace_read (workspace_id, workspace)) job).
