(* ===== verification/CoderService.v ===== *)
(** * CoderService: the operations of the Coder domain (domains/coder/service.py)

    Each operation is a program over the requests of a [CoderClient]. The [while] loops of the
    source end by what Coder answers, or by the clock; here each loop may make [rounds] rounds and
    then raises [OutOfFuel], so that an execution of the source whose loops make at most [rounds]
    rounds is an execution of the program. A callback [None] is the program [Done tt]. *)
From S2P Require Import Prelude Text Models Store Registry Execution Ownership Claims Program.
From S2P Require Import Coder Diagnostics Worker.
From Stdlib Require Import Ascii String.
Open Scope string_scope.

(** [s.add(x)] on a set whose elements are kept in the order of insertion. *)
Definition set_add (x : uuid) (s : list uuid) : list uuid := if member x s then s else (s ++ [x])%list.
Definition set_remove (x : uuid) (s : list uuid) : list uuid := List.filter (fun y => y != x) s.

(** [found[key] for key in sorted(found)]: the keys are the texts of UUIDs, which are ordered as
    the UUIDs are. *)
Definition by_id (found : gmap uuid CoderWorkspace) : list CoderWorkspace :=
  map snd (sort_by (fun a b => N.leb a.1 b.1) (map_to_list found)).

Section Service.
Variable rounds : nat.
(** The [CoderClient] of an instance, and the callback of the task. *)
Variable instance_url : string.
Variable heartbeat : worker unit.

Definition client {R} (op : ClientOp R) : worker R := ask (Coder instance_url op).

(** [for x in xs: body]. *)
Fixpoint for_each {A S} (xs : list A) (s : S) (body : A -> S -> worker S) : worker S :=
  match xs with
  | [] => Done s
  | x :: rest => s' ← body x s; for_each rest s' body
  end.

(** [while True: body], where [inr] is the next iteration's state and [inl] a [return]. *)
Fixpoint loop {S A} (fuel : nat) (s : S) (body : S -> worker (A + S)) : worker A :=
  match fuel with
  | O => Fail OutOfFuel
  | Datatypes.S n =>
      r ← body s;
      match (r : A + S) with inl a => Done a | inr s' => loop n s' body end
  end.

Definition _require_before_deadline (deadline : Z) (message : string) : worker unit :=
  now ← ask Monotonic;
  if Z.leb deadline now then Fail (CoderRequestError message) else Done tt.

(** ** Accounts *)
Definition bootstrap_admin_account (password : string) : worker unit :=
  known ← client has_first_user;
  if (known : bool) then client (authenticate_prepared_admin password)
  else client (create_first_user password).

Definition delete_user_accounts (password : string) (names : list string) : worker unit :=
  known ← client has_first_user;
  (if (known : bool) then Done tt else client (create_first_user password));;
  client (authenticate_prepared_admin password);;
  for_each names tt (fun username _ => heartbeat;; client (delete_user username)).

Definition orphaned_usernames (current expected : list string) : list string :=
  sort_by String.leb
    (List.filter (fun u => negb (member u expected)) (remove_dups current)).

Definition cleanup_user_accounts (password : string) (expected_usernames : list string)
    : worker (list string) :=
  known ← client has_first_user;
  (if (known : bool) then Done tt else client (create_first_user password));;
  client (authenticate_prepared_admin password);;
  heartbeat;;
  current ← client usernames;
  let orphaned := orphaned_usernames current expected_usernames in
  for_each orphaned tt (fun username _ => heartbeat;; client (delete_user username));;
  Done orphaned.

(** ** Stopping workspaces *)

(** One page after the other of the workspaces of one status. *)
Definition active_page (status : string) (s : gmap uuid CoderWorkspace * Z)
    : worker (gmap uuid CoderWorkspace + gmap uuid CoderWorkspace * Z) :=
  let '(found, offset) := s in
  heartbeat;;
  page ← client (list_workspaces (Some status) offset WORKSPACE_PAGE_SIZE);
  let found := foldl (fun m w => <[cws_id w := w]> m) found (page_items page) in
  let offset := (offset + Z.of_nat (List.length (page_items page)))%Z in
  if Z.leb (page_count page) offset then Done (inl found)
  else match page_items page with
       | [] => Fail (CoderRequestError "Coder workspace pagination did not advance")
       | _ => Done (inr (found, offset))
       end.

Definition _active_workspaces : worker (list CoderWorkspace) :=
  found ← for_each OBSERVED_WORKSPACE_STATUSES ∅ (fun status found =>
            loop rounds (found, 0%Z) (active_page status));
  Done (by_id found).

Definition unexpected_stop : Exn :=
  CoderRequestError "Coder workspace stop returned an unexpected transition".

(** One round over the pending stop builds. *)
Definition poll_stops (pending : list uuid) : worker (list uuid) :=
  for_each pending pending (fun b pending =>
    build ← client (workspace_build b);
    if build_transition build != "stop" then Fail unexpected_stop
    else if build_status build == "stopped" then Done (set_remove b pending)
    else if member (build_status build) TERMINAL_WORKSPACE_STOP_FAILURES then
      Fail (CoderRequestError "Coder workspace stop failed")
    else Done pending).

Definition _wait_workspace_builds (deadline poll_interval : Z) (pending : list uuid) : worker unit :=
  loop rounds pending (fun pending =>
    match pending with
    | [] => Done (inl tt)
    | _ =>
        _require_before_deadline deadline "Coder workspace stop timed out";;
        heartbeat;;
        left_ ← poll_stops pending;
        match (left_ : list uuid) with
        | [] => Done (inl tt)
        | _ => ask (Sleep poll_interval);; Done (inr left_)
        end
    end).

(** The stop build of one workspace: what is pending, and what was stopped. *)
Definition submit_stop (w : CoderWorkspace) (s : list uuid * list uuid)
    : worker (list uuid * list uuid) :=
  let '(pending, stopped_ids) := s in
  heartbeat;;
  if cws_status w == "stopping" then
    Done (set_add (cws_latest_build_id w) pending, (stopped_ids ++ [cws_id w])%list)
  else
    build ← client (create_workspace_stop_build (cws_id w));
    if build_transition build != "stop" then Fail unexpected_stop
    else
      Done (if build_status build != "stopped" then set_add (build_id build) pending else pending,
            (stopped_ids ++ [cws_id w])%list).

Definition stop_active_workspaces (password : string) (timeout_seconds poll_interval : Z)
    : worker (list uuid) :=
  start ← ask Monotonic;
  let deadline := (start + timeout_seconds)%Z in
  client (authenticate_prepared_admin password);;
  loop rounds [] (fun stopped_ids =>
    _require_before_deadline deadline "Coder workspace stop timed out";;
    active ← _active_workspaces;
    match (active : list CoderWorkspace) with
    | [] => Done (inl stopped_ids)
    | _ =>
        submitted ← for_each active ([], stopped_ids) submit_stop;
        _wait_workspace_builds deadline poll_interval (fst submitted);;
        Done (inr (snd submitted))
    end).

(** The daily submission: the failures are collected, and raised at the end. *)
Definition submit_stop_only (w : CoderWorkspace) (s : list uuid * list uuid * list uuid)
    : worker (list uuid * list uuid * list uuid) :=
  let '(submitted, stopping, failures) := s in
  if cws_status w == "stopping" then
    Done (submitted, (stopping ++ [cws_id w])%list, failures)
  else
    catch
      (build ← client (create_workspace_stop_build (cws_id w));
       if build_transition build != "stop" then Fail unexpected_stop
       else Done ((submitted ++ [cws_id w])%list, stopping, failures))
      (fun _ => Done (submitted, stopping, (failures ++ [cws_id w])%list)).

Definition submit_active_workspace_stops (password : string) : worker (list uuid * list uuid) :=
  client (authenticate_prepared_admin password);;
  active ← _active_workspaces;
  s ← for_each active ([], [], []) submit_stop_only;
  let '(submitted, stopping, failures) := (s : list uuid * list uuid * list uuid) in
  match failures with
  | [] => Done (submitted, stopping)
  | _ => Fail (CoderRequestError ("Coder workspace stop submission failed for: "
                                  ++ String.concat ", " (map uuid_str failures)))
  end.

(** ** Deleting workspaces *)
Definition page_row (w : CoderWorkspace) (found : gmap uuid CoderWorkspace)
    : worker (gmap uuid CoderWorkspace) :=
  match found !! cws_id w with
  | Some _ =>
      Fail (CoderRequestError "Coder workspace pagination returned a duplicate workspace")
  | None => Done (<[cws_id w := w]> found)
  end.

Definition all_page (s : option Z * gmap uuid CoderWorkspace * Z)
    : worker (option Z * gmap uuid CoderWorkspace + option Z * gmap uuid CoderWorkspace * Z) :=
  let '(expected_count, found, offset) := s in
  heartbeat;;
  page ← client (list_workspaces None offset WORKSPACE_PAGE_SIZE);
  let expected := default (page_count page) expected_count in
  if page_count page != expected then
    Fail (CoderRequestError "Coder workspace count changed during pagination")
  else
    found ← for_each (page_items page) found page_row;
    let offset := (offset + Z.of_nat (List.length (page_items page)))%Z in
    if Z.leb (page_count page) offset then Done (inl (Some expected, found))
    else match page_items page with
         | [] => Fail (CoderRequestError "Coder workspace pagination did not advance")
         | _ => Done (inr (Some expected, found, offset))
         end.

Definition _all_workspaces : worker (list CoderWorkspace) :=
  r ← loop rounds (None, ∅, 0%Z) all_page;
  let '(expected_count, found) := (r : option Z * gmap uuid CoderWorkspace) in
  if expected_count != Some (Z.of_nat (size found)) then
    Fail (CoderRequestError "Coder workspace pagination returned an incomplete snapshot")
  else Done (by_id found).

Definition _template_workspaces (template_id : uuid) : worker (list CoderWorkspace) :=
  all ← _all_workspaces;
  if existsb (fun w => is_none (cws_template_id w)) all then
    Fail (CoderRequestError "Coder workspace page did not expose template identities")
  else Done (List.filter (fun w => cws_template_id w == Some template_id) all).

(** [_wait_for_coder]: refused credentials are final, other failures are tried again. *)
Definition _wait_for_coder (password : string) (deadline poll_interval : Z) : worker unit :=
  loop rounds tt (fun _ =>
    _require_before_deadline deadline "Coder workspace deletion timed out";;
    heartbeat;;
    Ask (Coder instance_url (authenticate_prepared_admin password)) (fun r =>
      match r with
      | inr _ => Done (inl tt)
      | inl e =>
          if is_first_user_conflict e then Fail e
          else if is_request_error e then
            _require_before_deadline deadline "Coder workspace deletion timed out";;
            ask (Sleep poll_interval);;
            Done (inr tt)
          else Fail e
      end)).

Definition unexpected_delete : Exn :=
  CoderRequestError "Coder workspace deletion returned an unexpected transition".

Definition poll_blocking (blocking : list uuid) : worker (list uuid) :=
  for_each blocking blocking (fun b blocking =>
    build ← client (workspace_build b);
    if member (build_status build) ACTIVE_WORKSPACE_BUILD_STATUSES then Done blocking
    else Done (set_remove b blocking)).

Definition poll_deleting (deleting : list uuid) : worker (list uuid) :=
  for_each deleting deleting (fun b deleting =>
    build ← client (workspace_build b);
    if build_transition build != "delete" then Fail unexpected_delete
    else if build_status build == "deleted" then Done (set_remove b deleting)
    else if member (build_status build) TERMINAL_WORKSPACE_DELETE_FAILURES then
      Fail (CoderRequestError "Coder workspace deletion failed")
    else Done deleting).

Definition _wait_workspace_deletions (deadline poll_interval : Z)
    (blocking deleting : list uuid) : worker unit :=
  loop rounds (blocking, deleting) (fun s =>
    match s with
    | ([], []) => Done (inl tt)
    | (blocking, deleting) =>
        _require_before_deadline deadline "Coder workspace deletion timed out";;
        heartbeat;;
        blocking ← poll_blocking blocking;
        deleting ← poll_deleting deleting;
        match (blocking, deleting) with
        | ([], []) => Done (inl tt)
        | s => ask (Sleep poll_interval);; Done (inr s)
        end
    end).

(** The builds to wait for before the next snapshot, and the workspaces met so far; [subject]
    is the subject of the error messages. *)
Definition submit_delete (subject : string) (w : CoderWorkspace)
    (s : list uuid * list uuid * list uuid) : worker (list uuid * list uuid * list uuid) :=
  let '(blocking, deleting, deleted_ids) := s in
  heartbeat;;
  let deleted_ids := set_add (cws_id w) deleted_ids in
  if member (cws_status w) ACTIVE_WORKSPACE_BUILD_STATUSES then
    if cws_latest_build_transition w == "delete"
    then Done (blocking, set_add (cws_latest_build_id w) deleting, deleted_ids)
    else Done (set_add (cws_latest_build_id w) blocking, deleting, deleted_ids)
  else
    build ← client (create_workspace_delete_build (cws_id w));
    if build_transition build != "delete" then
      Fail (CoderRequestError (subject ++ " returned an unexpected transition"))
    else if member (build_status build) TERMINAL_WORKSPACE_DELETE_FAILURES then
      Fail (CoderRequestError (subject ++ " failed"))
    else
      Done (blocking,
            if build_status build != "deleted" then set_add (build_id build) deleting
            else deleting,
            deleted_ids).

(** The common text of [delete_all_workspaces] and [delete_template_workspaces]: nothing is left
    when the loop returns. *)
Definition delete_workspaces (subject password : string) (timeout_seconds poll_interval : Z)
    (snapshot : worker (list CoderWorkspace)) : worker (list uuid) :=
  start ← ask Monotonic;
  let deadline := (start + timeout_seconds)%Z in
  _wait_for_coder password deadline poll_interval;;
  loop rounds [] (fun deleted_ids =>
    _require_before_deadline deadline (subject ++ " timed out");;
    workspaces ← snapshot;
    match (workspaces : list CoderWorkspace) with
    | [] => Done (inl (sort_by N.leb deleted_ids))
    | _ =>
        s ← for_each workspaces ([], [], deleted_ids) (submit_delete subject);
        let '(blocking, deleting, deleted_ids) := (s : list uuid * list uuid * list uuid) in
        _wait_workspace_deletions deadline poll_interval blocking deleting;;
        Done (inr deleted_ids)
    end).

Definition delete_all_workspaces (password : string) (timeout_seconds poll_interval : Z)
    : worker (list uuid) :=
  delete_workspaces "Coder workspace deletion" password timeout_seconds poll_interval
    _all_workspaces.

Definition delete_template_workspaces (password : string) (template_id : uuid)
    (timeout_seconds poll_interval : Z) : worker (list uuid) :=
  delete_workspaces "Coder template workspace deletion" password timeout_seconds poll_interval
    (_template_workspaces template_id).

Definition list_template_workspaces (password : string) (template_id : uuid)
    : worker (list CoderWorkspace) :=
  client (authenticate_prepared_admin password);;
  _template_workspaces template_id.

(** ** [CoderClient.wait_template_version] (domains/coder/client.py) *)
Definition wait_template_version (version_id : uuid) (timeout_seconds poll_interval : Z)
    (sensitive_values : list string) : worker CoderTemplateVersion :=
  start ← ask Monotonic;
  let deadline := (start + timeout_seconds)%Z in
  loop rounds tt (fun _ =>
    version ← client (template_version version_id);
    if cver_status version == "succeeded" then Done (inl version)
    else if member (cver_status version) ["failed"; "canceled"; "cancelled"] then
      catch (client (template_version_logs (cver_id version) sensitive_values);; Done tt)
        (fun e => if is_request_error e then Done tt else Fail e);;
      Fail (CoderRequestError (import_failure_message version sensitive_values))
    else
      _require_before_deadline deadline "Coder template import timed out";;
      heartbeat;;
      ask (Sleep poll_interval);;
      Done (inr tt)).
End Service.

(** ** Facts *)
Section Facts.
Variable rounds : nat.
Variable instance_url : string.
Variable heartbeat : worker unit.
Hypothesis Hheartbeat : sound_prog heartbeat.

Lemma client_sound {R} (op : ClientOp R) : sound_prog (client instance_url op).
Proof. apply sound_ask. Qed.

Lemma for_each_sound {A S} (xs : list A) (s : S) body :
  (forall x s, sound_prog (body x s)) -> sound_prog (for_each xs s body).
Proof.
  intros Hb. revert s. induction xs as [|x rest IH]; intros s; [done |].
  apply sound_bind; auto.
Qed.

Lemma loop_sound {S A} fuel (s : S) (body : S -> worker (A + S)) :
  (forall s, sound_prog (body s)) -> sound_prog (loop fuel s body).
Proof.
  intros Hb. revert s. induction fuel as [|n IH]; intros s; [done |].
  apply sound_bind; [done |]. by intros [a | s'].
Qed.
Hint Resolve client_sound : sound.

Ltac sound_step ::=
  match goal with
  | |- sound_prog (for_each _ _ _) => apply for_each_sound
  | |- sound_prog (loop _ _ _) => apply loop_sound
  | |- sound_prog (catch _ _) => apply sound_catch
  | _ => sound_core_step
  end.

Lemma before_deadline_sound deadline message :
  sound_prog (_require_before_deadline deadline message).
Proof. unfold _require_before_deadline. sound. Qed.
Hint Resolve before_deadline_sound : sound.

Lemma bootstrap_admin_account_sound password :
  sound_prog (bootstrap_admin_account instance_url password).
Proof. unfold bootstrap_admin_account. sound. Qed.

Lemma cleanup_user_accounts_sound password expected :
  sound_prog (cleanup_user_accounts instance_url heartbeat password expected).
Proof. unfold cleanup_user_accounts. sound. Qed.

Lemma active_workspaces_sound : sound_prog (_active_workspaces rounds instance_url heartbeat).
Proof. unfold _active_workspaces, active_page. sound. Qed.

Lemma all_workspaces_sound : sound_prog (_all_workspaces rounds instance_url heartbeat).
Proof. unfold _all_workspaces, all_page, page_row. sound. Qed.
Hint Resolve active_workspaces_sound all_workspaces_sound : sound.

Lemma template_workspaces_sound t :
  sound_prog (_template_workspaces rounds instance_url heartbeat t).
Proof. unfold _template_workspaces. sound. Qed.
Hint Resolve template_workspaces_sound : sound.

Lemma stop_active_workspaces_sound password timeout poll :
  sound_prog (stop_active_workspaces rounds instance_url heartbeat password timeout poll).
Proof.
  unfold stop_active_workspaces, submit_stop, _wait_workspace_builds, poll_stops. sound.
Qed.

Lemma delete_workspaces_sound subject password timeout poll snapshot :
  sound_prog snapshot ->
  sound_prog (delete_workspaces rounds instance_url heartbeat subject password timeout poll snapshot).
Proof.
  intros Hs. unfold delete_workspaces, _wait_for_coder, submit_delete, _wait_workspace_deletions,
    poll_blocking, poll_deleting. sound.
Qed.

Lemma delete_all_workspaces_sound password timeout poll :
  sound_prog (delete_all_workspaces rounds instance_url heartbeat password timeout poll).
Proof. apply delete_workspaces_sound, all_workspaces_sound. Qed.
Lemma delete_template_workspaces_sound password t timeout poll :
  sound_prog (delete_template_workspaces rounds instance_url heartbeat password t timeout poll).
Proof. apply delete_workspaces_sound, template_workspaces_sound. Qed.

Lemma wait_template_version_sound v timeout poll values :
  sound_prog (wait_template_version rounds instance_url heartbeat v timeout poll values).
Proof. unfold wait_template_version. sound. Qed.
End Facts.
#[export] Hint Resolve client_sound bootstrap_admin_account_sound cleanup_user_accounts_sound
  active_workspaces_sound all_workspaces_sound template_workspaces_sound
  stop_active_workspaces_sound delete_all_workspaces_sound delete_template_workspaces_sound wait_template_version_sound : sound.
