(* ===== verification/CoderServiceProperties.v ===== *)
(** * CoderServiceProperties: accounts and pages of the Coder domain

    What the operations of CoderService.v do to a deployment, seen by a monitor that records its
    deletions; and the pages of a stable list of workspaces. *)
From S2P Require Import Prelude Order Text Models Store Config Program Monitor Coder Worker CoderService.
From Stdlib Require Import Ascii String.
Open Scope string_scope.

(** ** Deleted accounts *)
Record Accounts := mkAccounts { listed : option (list string); gone : list string }.
Definition seen_accounts (s : Accounts) (R : Type) (q : Query R) : Exn + R -> Accounts :=
  match q in Query R return Exn + R -> Accounts with
  | Coder _ op =>
      match op in ClientOp R return Exn + R -> Accounts with
      | usernames => fun r =>
          match r with inr names => mkAccounts (Some names) (gone s) | inl _ => s end
      | delete_user username => fun r =>
          match r with inr _ => mkAccounts (listed s) (gone s ++ [username])%list | inl _ => s end
      | _ => fun _ => s
      end
  | _ => fun _ => s
  end.
(** Only a user that was listed and is not expected may be deleted. *)
Definition spares_expected (expected : list string) (s : Accounts) (R : Type) (q : Query R) : Prop :=
  match q with
  | Coder _ (delete_user username) =>
      exists names, listed s = Some names /\ username ∈ names /\ username ∉ expected
  | _ => True
  end.

Lemma orphaned_spec current expected username :
  username ∈ orphaned_usernames current expected <-> username ∈ current /\ username ∉ expected.
Proof.
  unfold orphaned_usernames. rewrite elem_of_sort_by, list_elem_of_In, List.filter_In.
  rewrite <- list_elem_of_In, elem_of_remove_dups, negb_true_iff, member_false. done.
Qed.

Section Cleanup.
Variables (url : string) (expected : list string) (heartbeat : worker unit).
Abbreviation watched := (monitored (fun _ _ _ => True) (spares_expected expected) seen_accounts).
Hypothesis Hheartbeat : forall s, watched s heartbeat (fun s' _ => s' = s).

Definition pure_query {R} (op : ClientOp R) : Prop :=
  match op with delete_user _ | usernames => False | _ => True end.
Lemma query_watched {R} s (op : ClientOp R) :
  pure_query op -> watched s (client url op) (fun s' _ => s' = s).
Proof. intros Hp. apply monitored_ask; [by destruct op |]. intros r _. by destruct op. Qed.

Lemma delete_each_watched names current deleted :
  (forall username, username ∈ names -> username ∈ current /\ username ∉ expected) ->
  watched (mkAccounts (Some current) deleted)
    (for_each names tt (fun username _ => heartbeat;; client url (delete_user username)))
    (fun s o => match o with
                | inr _ => s = mkAccounts (Some current) (deleted ++ names)
                | inl _ => True end).
Proof.
  revert deleted. induction names as [|name names IH]; intros deleted Hn; cbn [for_each].
  { cbn. by rewrite app_nil_r. }
  apply monitored_bind. eapply monitored_seq; [apply Hheartbeat | done |].
  intros s [] ->. apply monitored_ask.
  { exists current. split; [done |]. apply Hn. constructor. }
  intros [e | []] _; [done |]. unfold after.
  change (seen_accounts _ _ _ (inr tt)) with (mkAccounts (Some current) (deleted ++ [name])%list).
  eapply monitored_weaken; [| apply IH; intros u Hu; apply Hn; by constructor].
  intros s [e | []]; [done |]. by rewrite <- app_assoc.
Qed.

(** C21: The clean-up deletes the orphaned accounts and no other. Whatever the deployment answers,
    only a user that it has listed and that is not expected is deleted; and when the clean-up
    returns, the deleted users are in order exactly those of its result: the users listed that
    are not expected, each once, sorted. *)
Theorem cleanup_deletes_orphans password :
  watched (mkAccounts None []) (cleanup_user_accounts url heartbeat password expected)
    (fun s o => match o with
     | inl _ => True
     | inr orphaned =>
         gone s = orphaned /\ NoDup orphaned /\
         StronglySorted (fun a b => String.leb a b = true) orphaned /\
         exists current, listed s = Some current /\
           forall username, username ∈ orphaned <-> username ∈ current /\ username ∉ expected
     end).
Proof.
  unfold cleanup_user_accounts.
  eapply monitored_seq; [by apply query_watched | done |]. intros s known ->.
  apply (monitored_seq _ _ _ _ _ _ (fun s' _ => s' = mkAccounts None [])); [| done |].
  { destruct known; [done | by apply query_watched]. }
  intros s [] ->. eapply monitored_seq; [by apply query_watched | done |]. intros s [] ->.
  eapply monitored_seq; [apply Hheartbeat | done |]. intros s [] ->.
  apply monitored_ask_bind; [exact I | done |]. intros current _. cbv zeta.
  change (seen_accounts _ _ _ (inr current)) with (mkAccounts (Some current) []).
  eapply monitored_seq; [apply delete_each_watched; apply orphaned_spec | done |].
  intros s [] ->. apply monitored_done. cbn [gone listed app].
  split_and!; [done | | | by exists current; split; [| apply orphaned_spec]].
  - unfold orphaned_usernames. rewrite sort_by_permutation. apply NoDup_ListNoDup, List.NoDup_filter,
      NoDup_ListNoDup, NoDup_remove_dups.
  - apply sort_by_sorted.
    + intros a b c. exact (leb_of_trans String.compare a b c).
    + intros a b. exact (leb_of_total String.compare a b).
Qed.
End Cleanup.

Lemma cleanup_deletes_orphans_witness :
  monitored (fun _ _ _ => True) (spares_expected ["admin"; "eve"]) seen_accounts (mkAccounts None [])
    (cleanup_user_accounts "https://a.example.com" (Done tt) "secret" ["admin"; "eve"])
    (fun s o => match o with
     | inl _ => True
     | inr orphaned =>
         gone s = orphaned /\ NoDup orphaned /\
         StronglySorted (fun a b => String.leb a b = true) orphaned /\
         exists current, listed s = Some current /\
           forall username, username ∈ orphaned <-> username ∈ current /\ username ∉ ["admin"; "eve"]
     end).
Proof. apply cleanup_deletes_orphans. intros s. reflexivity. Defined.

(** ** Pages *)
Definition to_map (l : list CoderWorkspace) : gmap uuid CoderWorkspace :=
  foldl (fun m w => <[cws_id w := w]> m) ∅ l.

Lemma to_map_snoc l w : to_map (l ++ [w]) = <[cws_id w := w]> (to_map l).
Proof. unfold to_map. by rewrite foldl_app. Qed.
Lemma to_map_fresh l i : i ∉ map cws_id l -> to_map l !! i = None.
Proof.
  induction l as [|w l IH] using rev_ind; [done |]. rewrite map_app, to_map_snoc. intros Hi.
  rewrite lookup_insert_ne by set_solver. apply IH. set_solver.
Qed.
Lemma to_map_items l :
  NoDup (map cws_id l) -> map_to_list (to_map l) ≡ₚ map (fun w => (cws_id w, w)) l.
Proof.
  induction l as [|w l IH] using rev_ind; [done |]. rewrite map_app. intros Hn.
  apply NoDup_app in Hn as (Hl & Hdisj & _).
  rewrite to_map_snoc, map_to_list_insert, IH, map_app; [| done |].
  - cbn. by rewrite Permutation_cons_append.
  - apply to_map_fresh. intros Hi. apply (Hdisj _ Hi). constructor.
Qed.
Lemma to_map_size l : NoDup (map cws_id l) -> size (to_map l) = List.length l.
Proof. intros Hn. rewrite <- length_map_to_list, to_map_items by done. apply length_map. Qed.
Lemma by_id_items l : NoDup (map cws_id l) -> by_id (to_map l) ≡ₚ l.
Proof.
  intros Hn. unfold by_id. rewrite sort_by_permutation, to_map_items by done.
  by rewrite map_map, map_id.
Qed.

Lemma by_id_sorted l : NoDup (map cws_id l) -> StronglySorted N.le (map cws_id (by_id (to_map l))).
Proof.
  intros Hn. unfold by_id.
  assert (Hs : StronglySorted (fun a b => N.leb a.1 b.1 = true)
    (sort_by (fun a b => N.leb a.1 b.1) (map_to_list (to_map l)))).
  { apply sort_by_sorted.
    - intros a b c. rewrite !N.leb_le. lia.
    - intros a b. rewrite !N.leb_le. lia. }
  assert (Hk : Forall (fun kw => cws_id kw.2 = kw.1)
    (sort_by (fun a b => N.leb a.1 b.1) (map_to_list (to_map l)))).
  { rewrite sort_by_permutation, to_map_items by done. apply Forall_forall.
    by intros kw (w & -> & _)%list_elem_of_fmap. }
  induction Hs as [|[k w] L Hs IH Hlt]; [constructor |].
  apply Forall_cons in Hk as [Hk HL]. cbn [map]. constructor; [by apply IH |].
  cbn in Hk |- *. rewrite Hk. rewrite map_map. apply Forall_forall.
  intros x (kw & -> & Hin)%list_elem_of_fmap. rewrite Forall_forall in Hlt, HL.
  rewrite (HL kw Hin). apply N.leb_le. by apply (Hlt kw).
Qed.

(** The rows that a page adds. *)
Lemma page_row_fresh w found :
  found !! cws_id w = None -> page_row w found = Done (<[cws_id w := w]> found).
Proof. unfold page_row. by intros ->. Qed.
Lemma page_rows items pre :
  NoDup (map cws_id (pre ++ items)) ->
  for_each items (to_map pre) page_row = Done (to_map (pre ++ items)).
Proof.
  revert pre. induction items as [|w items IH]; intros pre Hn; cbn [for_each].
  { by rewrite app_nil_r. }
  rewrite page_row_fresh.
  - change (mbind ?k (Done ?a)) with (k a). rewrite <- to_map_snoc, IH by (by rewrite <- app_assoc).
    by rewrite <- app_assoc.
  - apply to_map_fresh. rewrite map_app in Hn. apply NoDup_app in Hn as (_ & Hd & _).
    intros Hi. apply (Hd _ Hi). constructor.
Qed.

Section Pages.
Variables (url : string) (heartbeat : worker unit) (all : list CoderWorkspace).
Hypothesis Hids : NoDup (map cws_id all).

(** A deployment whose list does not change while it is read, and whose pages are cut from it. *)
Definition served (R : Type) (q : Query R) : Exn + R -> Prop :=
  match q in Query R return Exn + R -> Prop with
  | Coder _ op =>
      match op in ClientOp R return Exn + R -> Prop with
      | list_workspaces None offset limit => fun r =>
          r = inr (mkPage (take (Z.to_nat limit) (drop (Z.to_nat offset) all))
                     (Z.of_nat (List.length all)))
      | _ => fun _ => True
      end
  | _ => fun _ => True
  end.
Abbreviation watched := (monitored served (fun _ _ _ => True) (fun (s : unit) _ _ _ => s)).
(** The callback fails as [E] says. *)
Variable E : Exn -> Prop.
Definition or_fails {A} (P : A -> Prop) (s : unit) (o : Exn + A) : Prop :=
  match o with inl e => E e | inr a => P a end.
Hypothesis Hheartbeat : watched tt heartbeat (or_fails (fun _ => True)).

Definition total : Z := Z.of_nat (List.length all).

(** One round of the loop. *)
Lemma all_page_round offset expected :
  offset <= List.length all -> expected = Some total \/ expected = None ->
  watched tt (all_page url heartbeat (expected, to_map (take offset all), Z.of_nat offset))
    (or_fails (fun r =>
       if decide (List.length all <= offset + 100) then r = inl (Some total, to_map all)
       else r = inr (Some total, to_map (take (offset + 100) all), Z.of_nat (offset + 100)))).
Proof.
  intros Ho He. unfold all_page. eapply monitored_seq; [apply Hheartbeat | done |].
  intros [] [] _. apply monitored_ask_bind; [exact I | done |].
  intros page Hp. cbn in Hp. injection Hp as ->. cbv zeta. cbn [page_count page_items].
  change (Z.to_nat WORKSPACE_PAGE_SIZE) with 100. rewrite Nat2Z.id.
  fold total. replace (default total expected) with total by (by destruct He as [-> | ->]).
  rewrite bool_decide_eq_true_2 by done. cbn [negb].
  set (items := take 100 (drop offset all)).
  assert (Hrows : (take offset all ++ items)%list = take (offset + 100) all).
  { by apply take_take_drop. }
  rewrite page_rows, Hrows.
  2:{ rewrite Hrows. rewrite <- (take_drop (offset + 100) all), map_app in Hids.
      by apply NoDup_app in Hids as [Hn _]. }
  change (mbind ?k (Done ?a)) with (k a). cbv beta zeta.
  assert (Hlen : List.length items = Nat.min 100 (List.length all - offset)).
  { subst items. by rewrite length_take, length_drop. }
  destruct (decide (List.length all <= offset + 100)) as [Hend | Hmore].
  - rewrite (proj2 (Z.leb_le total _)) by (rewrite Hlen; unfold total; lia).
    apply monitored_done. cbn. by rewrite take_ge by done.
  - rewrite (proj2 (Z.leb_gt total _)) by (rewrite Hlen; unfold total; lia).
    replace (Z.of_nat offset + Z.of_nat (List.length items))%Z with (Z.of_nat (offset + 100))
      by (rewrite Hlen; lia).
    destruct items as [|w items']; [exfalso; change (List.length []) with 0 in Hlen; lia | by apply monitored_done].
Qed.

(** The pages from [offset] on, of which [n] more are enough. *)
Lemma all_pages_from n offset expected :
  offset <= List.length all -> List.length all < offset + 100 * S n ->
  expected = Some total \/ expected = None ->
  watched tt
    (loop (S n) (expected, to_map (take offset all), Z.of_nat offset) (all_page url heartbeat))
    (or_fails (fun r => r = (Some total, to_map all))).
Proof.
  revert offset expected. induction n as [|n IH]; intros offset expected Ho Hn He.
  - cbn [loop]. eapply monitored_seq; [by apply all_page_round | done |]. intros [] r.
    cbn [or_fails]. rewrite decide_True by lia. by intros ->.
  - cbn [loop]. eapply monitored_seq; [by apply all_page_round | done |]. intros [] r.
    cbn [or_fails]. destruct (decide _); intros ->; [done |].
    apply IH; [lia | lia | by left].
Qed.

(** C27: The snapshot of the workspaces is complete, and its loop ends. When a deployment serves its
    pages from one list, of which no two workspaces share an identifier, one round more than the
    list has full pages is enough, and every run returns exactly the workspaces of the list,
    sorted by identifier; it fails only if the callback does. *)
Theorem all_workspaces_complete rounds :
  List.length all < 100 * rounds ->
  watched tt (_all_workspaces rounds url heartbeat)
    (or_fails (fun r => r ≡ₚ all /\
       StronglySorted N.le (map cws_id r))).
Proof.
  intros Hr. destruct rounds as [|n]; [lia |]. unfold _all_workspaces.
  eapply monitored_seq;
    [apply (all_pages_from n 0 None); [lia | lia | by right] | done |].
  intros [] r ->. cbv zeta beta iota. rewrite bool_decide_eq_true_2.
  2:{ unfold total. by rewrite to_map_size. }
  apply monitored_done. split; [by apply by_id_items | by apply by_id_sorted].
Qed.
End Pages.

Definition sample_workspace (i : uuid) (name : string) : CoderWorkspace :=
  mkCoderWorkspace i "running" (i + 100) "start" name None.

Lemma all_workspaces_complete_witness :
  monitored (served [sample_workspace 2 "b"; sample_workspace 1 "a"]) (fun _ _ _ => True)
    (fun (s : unit) _ _ _ => s) tt
    (_all_workspaces 1 "https://a.example.com" (Done tt))
    (or_fails (fun _ => False) (fun r => r ≡ₚ [sample_workspace 2 "b"; sample_workspace 1 "a"] /\
       StronglySorted N.le (map cws_id r))).
Proof.
  apply all_workspaces_complete.
  - apply (bool_decide_eq_true_1 _). vm_compute. reflexivity.
  - exact I.
  - cbn. lia.
Defined.

(** ** Deletion until nothing is left *)
Section Deletion.
Variables (rounds : nat) (url : string) (heartbeat : worker unit).

(** The number of workspaces that the last request to Coder was told of, if it was a page. *)
Definition last_count (s : option Z) (R : Type) (q : Query R) : Exn + R -> option Z :=
  match q in Query R return Exn + R -> option Z with
  | Coder _ op =>
      match op in ClientOp R return Exn + R -> option Z with
      | list_workspaces None _ _ => fun r =>
          match r with inr page => Some (page_count page) | inl _ => None end
      | _ => fun _ => None
      end
  | _ => fun _ => s
  end.
Abbreviation counted := (monitored (fun _ _ _ => True) (fun _ _ _ => True) last_count).

Lemma counted_any {A} s (p : worker A) : counted s p (fun _ _ => True).
Proof.
  revert s. induction p as [a | e | B m k IH | R q k IH]; cbn; intros s; auto.
Qed.
Lemma counted_loop {S A} (Inv : option Z -> S -> Prop) (P : option Z -> A -> Prop) n body s st :
  (forall s st, Inv s st ->
     counted s (body st) (fun s' o => match o with
       | inl _ => True | inr (inl a) => P s' a | inr (inr st') => Inv s' st' end)) ->
  Inv s st ->
  counted s (loop n st body) (fun s' o => match o with inl _ => True | inr a => P s' a end).
Proof.
  intros Hb. revert s st. induction n as [|n IH]; intros s st Hi; cbn [loop]; [exact I |].
  eapply monitored_seq; [by apply Hb | done |]. intros s' [a | st'] H; [exact H | by apply IH].
Qed.
Lemma counted_then {A B} s (p : worker A) (k : A -> worker B) (P : option Z -> Exn + B -> Prop) :
  (forall s e, P s (inl e)) -> (forall s a, counted s (k a) P) -> counted s (p ≫= k) P.
Proof. intros He Hk. eapply monitored_seq; [apply counted_any | auto | auto]. Qed.

Lemma all_page_counted s st :
  counted s (all_page url heartbeat st) (fun s' o => match o with
    | inr (inl (expected, _)) => expected = s' /\ is_Some s'
    | _ => True end).
Proof.
  destruct st as [[expected found] offset]. unfold all_page. apply counted_then; [done |].
  intros s1 []. apply monitored_ask_bind; [exact I | done |]. intros page _. cbv zeta.
  change (last_count _ _ _ (inr page)) with (Some (page_count page)).
  destruct (page_count page != default (page_count page) expected) eqn:Ec; [exact I |]. bool_hyps.
  apply (monitored_seq _ _ _ _ _ _ (fun s' _ => s' = Some (page_count page))); [| done |].
  - generalize found. induction (page_items page) as [|w l IH]; intros f; cbn [for_each]; [done |].
    eapply (monitored_seq _ _ _ _ _ _ (fun s' _ => s' = Some (page_count page))); [| done |].
    + unfold page_row. by destruct (f !! cws_id w).
    + intros s' f' ->. apply IH.
  - intros s2 found' ->. destruct (Z.leb _ _).
    + apply monitored_done. rewrite Ec. destruct expected; cbn; [| by split].
      by split.
    + by destruct (page_items page).
Qed.

Lemma all_workspaces_counted s :
  counted s (_all_workspaces rounds url heartbeat) (fun s' o => match o with
    | inr [] => s' = Some 0%Z
    | _ => True end).
Proof.
  unfold _all_workspaces.
  eapply monitored_seq.
  - apply (counted_loop (fun _ _ => True) (fun s' r => r.1 = s' /\ is_Some s')); [| done].
    intros s1 st _. eapply monitored_weaken; [| apply all_page_counted].
    by intros s2 [e | [[expected found] | st']].
  - done.
  - intros s1 [expected found] H. cbn [fst] in H. destruct H as [-> [c ->]].
    destruct (Some c != Some (Z.of_nat (size found))) eqn:Ec; [exact I |]. bool_hyps.
    injection Ec as ->. apply monitored_done.
    destruct (by_id found) eqn:Eb; [| exact I].
    apply (f_equal (fun l => List.length l)) in Eb. unfold by_id in Eb.
    rewrite length_map, sort_by_permutation, length_map_to_list in Eb. by rewrite Eb.
Qed.

(** C28: The deletion of all workspaces returns only when nothing is left. Whatever the deployment
    answers, when [delete_all_workspaces] returns, its last request was for a page of all
    workspaces, and the deployment answered that there are none. *)
Theorem deletion_ends_empty password timeout poll :
  counted None (delete_all_workspaces rounds url heartbeat password timeout poll)
    (fun s o => match o with inl _ => True | inr _ => s = Some 0%Z end).
Proof.
  unfold delete_all_workspaces, delete_workspaces. apply counted_then; [done |]. intros s start.
  cbv zeta. apply counted_then; [done |]. intros s1 [].
  apply (counted_loop (fun _ _ => True) (fun s' _ => s' = Some 0%Z)); [| done].
  intros s2 deleted _. apply counted_then; [done |]. intros s3 [].
  eapply monitored_seq; [apply all_workspaces_counted | done |].
  intros s4 [|w l] H; [exact H |]. apply counted_then; [done |].
  intros s5 [[blocking deleting] deleted']. apply counted_then; [done |]. by intros s6 [].
Qed.
End Deletion.
