(* ===== verification/InstanceTasks.v ===== *)
(** * InstanceTasks: the steps of the instance jobs (tasks/instance/, tasks/database/)

    Each step is a [worker] program run by [run_claimed_step]. *)
From S2P Require Import Prelude Text Models Store Registry Crypto Execution Ownership Claims.
From S2P Require Import Jobs Databases Instances Templates Config Program Coder Worker.
From S2P Require Import CoderService.
From Stdlib Require Import Ascii String.
Open Scope string_scope.

Definition INSTANCE_MISSING : string := "Instance is missing".
Definition PASSWORD_MISSING : string := "Instance administrator password is missing".

(** [session.get(Instance, claim.resource_id)] *)
Definition claimed_instance (claim : ExecutionClaim) (d : Store) : option CoderInstance :=
  i ← claim_resource_id claim; instances d !! i.

(** The members of an instance, ordered by username and identifier. *)
Definition stored_members (d : Store) (instance_id : uuid) : list (uuid * Member) :=
  sort_by (fun a b => String.ltb (mem_username a.2) (mem_username b.2)
                      || (mem_username a.2 == mem_username b.2) && N.leb a.1 b.1)
    (rows_where (fun _ m => mem_instance_id m == instance_id) (members d)).

(** The usernames and roles of those that are not to go. *)
Definition active_members (d : Store) (instance_id : uuid) : list (string * MemberRole) :=
  map (fun kr => (mem_username kr.2, mem_role kr.2))
    (List.filter (fun kr => mem_action kr.2 != "deleting") (stored_members d instance_id)).

(** [if not isinstance(resource, Instance): raise TypeError(msg)] of the callbacks. *)
Definition on_instance (message : string) (f : CoderInstance -> CoderInstance) : mutation :=
  fun ox =>
    match ox with
    | Some (KInstance, i) => set_instance f i
    | _ => throw (TypeError message)
    end.

Section Tasks.
Context `{AESGCM}.
Variable settings : Settings.
(** The rounds that each loop of a Coder operation may make. *)
Variable rounds : nat.

(** ** tasks/instance/_database.py and _bootstrap.py *)
Definition _managed_database_target (instance_id : uuid) : session (option (SchemaTarget * string)) :=
  d ← gets (fun d => d);
  match (ka ← first_where (fun _ a => alloc_instance_id a == instance_id) (allocations d);
         b ← databases d !! alloc_database_id ka.2; Some (ka.2, b)) with
  | None => mret None
  | Some (allocation, database) =>
      c ← raise (init_cipher (crypto_key settings));
      password ← raise (PasswordCipher_decrypt c (base_password_enc database)
                          (alloc_database_id allocation));
      mret (Some (mkTarget (base_host database) (base_port database)
                    (base_database_name database) (base_username database) password
                    (alloc_schema_name allocation), base_name database))
  end.

Definition database_target (instance_id : uuid) : worker (option SchemaTarget) :=
  loaded ← sess (_managed_database_target instance_id);
  Done (fst <$> (loaded : option (SchemaTarget * string))).

Definition stored_kubeconfig (instance_id : uuid) : session (option bytes) :=
  d ← gets (fun d => d);
  match kubernetes d !! instance_id with
  | None => mret None
  | Some provider =>
      c ← raise (init_cipher (crypto_key settings));
      kubeconfig ← raise (KubeconfigCipher_decrypt c (kube_kubeconfig_enc provider) instance_id);
      mret (Some kubeconfig)
  end.

Definition instance_helm_values (instance_id : uuid) (slug public_url : string)
    : worker InstanceHelmValues :=
  loaded ← sess (_managed_database_target instance_id);
  match (loaded : option (SchemaTarget * string)) with
  | None => Fail (RuntimeError "Instance database allocation is missing")
  | Some (target, managed_database_name) =>
      kubeconfig ← sess (stored_kubeconfig instance_id);
      Done (mkHelmValues slug public_url (target_username target) (target_password target)
              (target_host target) (target_database_name target) managed_database_name
              (target_schema_name target) kubeconfig)
  end.

Definition stored_admin_password (instance_id : uuid) (base_domain : string)
    : session (option (string * string)) :=
  d ← gets (fun d => d);
  instance ← found (instances d !! instance_id) (RuntimeError INSTANCE_MISSING);
  match inst_password_enc instance with
  | None => mret None
  | Some envelope =>
      c ← raise (init_cipher (crypto_key settings));
      password ← raise (InstancePasswordCipher_decrypt c envelope instance_id);
      mret (Some (url_for base_domain (inst_slug instance), password))
  end.

(** [credentials is None: raise RuntimeError]. *)
Definition required_credentials (instance_id : uuid) (base_domain : string)
    : worker (string * string) :=
  credentials ← sess (stored_admin_password instance_id base_domain);
  match (credentials : option (string * string)) with
  | None => Fail (RuntimeError PASSWORD_MISSING)
  | Some c => Done c
  end.

(** The local snapshot that a reconciliation of Argo CD starts from. *)
Definition instance_snapshot (e : Exn) (claim : ExecutionClaim)
    : session (uuid * string * option string * list (string * MemberRole)) :=
  d ← gets (fun d => d);
  instance_id ← found (claim_resource_id claim) e;
  instance ← found (instances d !! instance_id) e;
  mret (instance_id, inst_slug instance, inst_argocd_application_name instance,
        active_members d instance_id).

Definition resource_id (claim : ExecutionClaim) : worker uuid :=
  returns (required_resource_id claim).

(** ** Create *)
Definition step_01_create_schema (job_id : uuid) : worker string :=
  run_claimed_step job_id INSTANCE_CREATE_STEP_01_TASK (fun claim =>
    instance_id ← resource_id claim;
    target ← database_target instance_id;
    match target with
    | None => Fail (RuntimeError "Instance database allocation is missing")
    | Some t =>
        ask (CreateSchema t);;
        advanced ← advance claim INSTANCE_CREATE_STEP_02_TASK INSTANCE_CREATE_STEP_02 no_mutation;
        Done (status_or_noop "pending" advanced)
    end).

(** [store_name] and [store_started] *)
Definition store_started (message name : string) : mutation :=
  on_instance message (fun r =>
    r <| inst_argocd_application_name := Some name |> <| inst_state := STARTED |>).

(** The common body of creation and start after the snapshot. *)
Definition reconcile_and_advance (claim : ExecutionClaim) (instance_id : uuid) (slug : string)
    (attached_name : option string) (members : list (string * MemberRole)) (base_domain : string)
    (next_task next_step : string) : worker string :=
  helm_values ← instance_helm_values instance_id slug (url_for base_domain slug);
  reconciliation ← ask (ReconcileApplication instance_id slug attached_name members helm_values);
  if reconcile_status reconciliation == DEFERRED then
    deferred ← sess (defer_execution claim no_mutation);
    Done (status_or_noop "deferred" deferred)
  else
    advanced ← advance claim next_task next_step
                 (store_started INSTANCE_MISSING (application_name reconciliation));
    Done (status_or_noop "pending" advanced).

Definition step_02_create_instance (job_id : uuid) : worker string :=
  run_claimed_step job_id INSTANCE_CREATE_STEP_02_TASK (fun claim =>
    base_domain ← returns (from_settings settings);
    snapshot ← sess (instance_snapshot (TypeError INSTANCE_MISSING) claim);
    let '(instance_id, slug, attached_name, members) := snapshot in
    reconcile_and_advance claim instance_id slug attached_name members base_domain
      INSTANCE_CREATE_STEP_03_TASK INSTANCE_CREATE_STEP_03).

(** [_prepare_bootstrap]: [token] and [nonce] are drawn when a candidate is made. The result is
    the instance's URL, whether the job is an update, and the password to set, if any. *)
Definition _prepare_bootstrap (claim : ExecutionClaim) (base_domain token : string)
    (nonce : bytes) : session (option (string * bool * option string)) :=
  o ← owned_execution claim;
  match o with
  | None => mret None
  | Some job =>
      d ← gets (fun d => d);
      match job_ref job with
      | Some (KInstance, i) =>
          resource ← found (instances d !! i) (TypeError INSTANCE_MISSING);
          let url := url_for base_domain (inst_slug resource) in
          let is_update := job_name job == "instance.update" in
          match inst_password_enc resource, inst_password_candidate_enc resource with
          | Some _, _ => mret (Some (url, is_update, None))
          | None, None =>
              c ← raise (init_cipher (crypto_key settings));
              set_instance (fun r =>
                r <| inst_password_candidate_enc :=
                       Some (InstancePasswordCipher_encrypt c nonce token i) |>) i;;
              commit;;
              mret (Some (url, is_update, Some token))
          | None, Some envelope =>
              c ← raise (init_cipher (crypto_key settings));
              password ← raise (InstancePasswordCipher_decrypt c envelope i);
              mret (Some (url, is_update, Some password))
          end
      | _ => throw (TypeError INSTANCE_MISSING)
      end
  end.

Definition _promote_password : mutation := fun ox =>
  match ox with
  | Some (KInstance, i) =>
      d ← gets (fun d => d);
      resource ← found (instances d !! i) (TypeError INSTANCE_MISSING);
      match inst_password_enc resource with
      | Some _ => set_instance (fun r => r <| inst_password_candidate_enc := None |>) i
      | None =>
          candidate ← found (inst_password_candidate_enc resource)
            (RuntimeError "Instance administrator password candidate is missing");
          set_instance (fun r => r <| inst_password_enc := Some candidate |>
                                   <| inst_password_candidate_enc := None |>) i
      end
  | _ => throw (TypeError INSTANCE_MISSING)
  end.

Definition step_03_bootstrap_admin (job_id : uuid) : worker string :=
  run_claimed_step job_id INSTANCE_CREATE_STEP_03_TASK (fun claim =>
    base_domain ← returns (from_settings settings);
    token ← ask Token;
    nonce ← ask Nonce;
    preparation ← sess (_prepare_bootstrap claim base_domain token nonce);
    match (preparation : option (string * bool * option string)) with
    | None => Done "noop"
    | Some (instance_url, is_update, password) =>
        match password with
        | Some p => bootstrap_admin_account instance_url p
        | None => Done tt
        end;;
        if (is_update : bool) then
          advanced ← advance claim INSTANCE_UPDATE_STEP_02_TASK INSTANCE_UPDATE_STEP_02
                       _promote_password;
          Done (status_or_noop "pending" advanced)
        else
          completed ← sess (complete_execution claim _promote_password false);
          Done (status_or_noop "success" completed)
    end).

(** ** Start and stop *)
Definition step_01_start_instance (job_id : uuid) : worker string :=
  run_claimed_step job_id INSTANCE_START_STEP_01_TASK (fun claim =>
    base_domain ← returns (from_settings settings);
    snapshot ← sess (instance_snapshot (RuntimeError INSTANCE_MISSING) claim);
    let '(instance_id, slug, attached_name, members) := snapshot in
    required_credentials instance_id base_domain;;
    reconcile_and_advance claim instance_id slug attached_name members base_domain
      INSTANCE_UPDATE_STEP_02_TASK INSTANCE_UPDATE_STEP_02).

Definition step_01_stop_workspaces (job_id : uuid) : worker string :=
  run_claimed_step job_id INSTANCE_STOP_STEP_01_TASK (fun claim =>
    base_domain ← returns (from_settings settings);
    snapshot ← sess (instance_snapshot (RuntimeError INSTANCE_MISSING) claim);
    let '(_, slug, attached_name, _) := snapshot in
    instance_id ← resource_id claim;
    exists_ ← ask (ApplicationExists instance_id slug attached_name);
    (if (exists_ : bool) then
       credentials ← required_credentials instance_id base_domain;
       stop_active_workspaces rounds (fst credentials)
         (heartbeat_owned "Instance stop attempt is no longer current" claim) (snd credentials)
         (workspace_stop_timeout_seconds settings)
         (workspace_stop_poll_interval_seconds settings);;
       Done tt
     else Done tt);;
    advanced ← advance claim INSTANCE_STOP_STEP_02_TASK INSTANCE_STOP_STEP_02 no_mutation;
    Done (status_or_noop "pending" advanced)).

Definition mark_stopped : mutation :=
  on_instance INSTANCE_MISSING (fun r => r <| inst_state := STOPPED |>).

Definition step_02_stop_instance (job_id : uuid) : worker string :=
  run_claimed_step job_id INSTANCE_STOP_STEP_02_TASK (fun claim =>
    snapshot ← sess (instance_snapshot (RuntimeError INSTANCE_MISSING) claim);
    let '(_, slug, attached_name, _) := snapshot in
    instance_id ← resource_id claim;
    deletion ← ask (DeleteApplication instance_id slug attached_name);
    if deletion == DEFERRED then
      deferred ← sess (defer_execution claim no_mutation);
      Done (status_or_noop "deferred" deferred)
    else
      completed ← sess (complete_execution claim mark_stopped false);
      Done (status_or_noop "success" completed)).

(** ** Delete *)
Definition _store_started_application (claim : ExecutionClaim) (application_name : option string)
    : session bool :=
  o ← owned_execution claim;
  match o with
  | None => mret false
  | Some job =>
      on_instance INSTANCE_MISSING (fun r =>
        (match application_name with
         | Some name => r <| inst_argocd_application_name := Some name |>
         | None => r
         end) <| inst_state := STARTED |>) (job_ref job);;
      commit;;
      mret true
  end.

(** The Application is restored when it is gone; [None] is a deferral. *)
Definition restored_application (instance_id : uuid) (slug : string)
    (attached_name : option string) (members : list (string * MemberRole)) (base_domain : string)
    : worker (option (option string)) :=
  exists_ ← ask (ApplicationExists instance_id slug attached_name);
  if (exists_ : bool) then Done (Some attached_name)
  else
    helm_values ← instance_helm_values instance_id slug (url_for base_domain slug);
    reconciliation ← ask (ReconcileApplication instance_id slug attached_name members helm_values);
    if reconcile_status reconciliation == DEFERRED then Done None
    else Done (Some (Some (application_name reconciliation))).

Definition step_01_remove_workspaces (job_id : uuid) : worker string :=
  run_claimed_step job_id INSTANCE_DELETE_STEP_01_TASK (fun claim =>
    base_domain ← returns (from_settings settings);
    snapshot ← sess (instance_snapshot (RuntimeError INSTANCE_MISSING) claim);
    let '(instance_id, slug, attached_name, members) := snapshot in
    credentials ← required_credentials instance_id base_domain;
    restored ← restored_application instance_id slug attached_name members base_domain;
    match restored with
    | None =>
        deferred ← sess (defer_execution claim no_mutation);
        Done (status_or_noop "deferred" deferred)
    | Some restored_name =>
        stored ← sess (_store_started_application claim restored_name);
        if negb stored then Done "noop"
        else
          delete_all_workspaces rounds (fst credentials)
            (heartbeat_owned "Instance delete attempt is no longer current" claim)
            (snd credentials) (workspace_delete_timeout_seconds settings)
            (workspace_delete_poll_interval_seconds settings);;
          advanced ← advance claim INSTANCE_DELETE_STEP_02_TASK INSTANCE_DELETE_STEP_02
                       no_mutation;
          Done (status_or_noop "pending" advanced)
    end).

Definition step_02_remove_instance (job_id : uuid) : worker string :=
  run_claimed_step job_id INSTANCE_DELETE_STEP_02_TASK (fun claim =>
    snapshot ← sess (instance_snapshot (RuntimeError INSTANCE_MISSING) claim);
    let '(_, slug, attached_name, _) := snapshot in
    instance_id ← resource_id claim;
    deletion ← ask (DeleteApplication instance_id slug attached_name);
    if deletion == DEFERRED then
      deferred ← sess (defer_execution claim no_mutation);
      Done (status_or_noop "deferred" deferred)
    else
      advanced ← advance claim INSTANCE_DELETE_STEP_03_TASK INSTANCE_DELETE_STEP_03 mark_stopped;
      Done (status_or_noop "pending" advanced)).

Definition step_03_remove_schema (job_id : uuid) : worker string :=
  run_claimed_step job_id INSTANCE_DELETE_STEP_03_TASK (fun claim =>
    instance_id ← resource_id claim;
    target ← database_target instance_id;
    match target with Some t => ask (DropSchema t) | None => Done tt end;;
    advanced ← advance claim INSTANCE_DELETE_STEP_04_TASK INSTANCE_DELETE_STEP_04 no_mutation;
    Done (status_or_noop "pending" advanced)).

(** The deletions of the last step, in its order. *)
Definition remove_configuration (i : uuid) (d : Store) : Store :=
  delete_instance_row i
    (delete_members_where (fun m => mem_instance_id m == i)
       (d <| workspaces := delete_where (fun _ w => ws_instance_id w == i) (workspaces d) |>)
       <| allocations := delete_where (fun _ a => alloc_instance_id a == i) (allocations d) |>
       <| kubernetes := delete i (kubernetes d) |>).

Definition remove_local_configuration (claim : ExecutionClaim) : session string :=
  o ← owned_execution claim;
  match o with
  | None => mret "noop"
  | Some job =>
      match job_ref job with
      | Some (KInstance, i) =>
          modify (set_job (fun j => j <| job_status := SUCCESS |> <| job_claimed_at := None |>)
                    (claim_job_id claim));;
          modify (remove_configuration i);;
          commit;;
          mret "deleted"
      | _ => mret "noop"
      end
  end.

Definition step_04_remove_local_configuration (job_id : uuid) : worker string :=
  run_claimed_step job_id INSTANCE_DELETE_STEP_04_TASK (fun claim =>
    sess (remove_local_configuration claim)).

(** ** Update *)
Definition _claim_members (claim : ExecutionClaim)
    : session (list uuid * list (string * MemberRole) * string * option string) :=
  d ← gets (fun d => d);
  instance_id ← found (claim_resource_id claim) (RuntimeError INSTANCE_MISSING);
  instance ← found (instances d !! instance_id) (RuntimeError INSTANCE_MISSING);
  let claimed_ids :=
    map fst (List.filter (fun kr => retryable (mem_status kr.2)) (stored_members d instance_id)) in
  modify (fun d => d <| members :=
    update_where (fun k _ => member k claimed_ids) (fun m => m <| mem_status := RUNNING |>)
      (members d) |>);;
  commit;;
  mret (claimed_ids, active_members d instance_id, inst_slug instance,
        inst_argocd_application_name instance).

(** [_fail_members] and [_defer_members] *)
Definition release_members (s : Status) (member_ids : list uuid) : session unit :=
  modify (fun d => d <| members :=
    update_where (fun k m => member k member_ids && (mem_status m == RUNNING))
      (fun m => m <| mem_status := s |>) (members d) |>).
Definition _fail_members (member_ids : list uuid) : session unit := release_members ERROR member_ids.
Definition _defer_members (member_ids : list uuid) : session unit :=
  release_members PENDING member_ids.

(** [_store_application_name] *)
Definition _store_application_name (name : string) : mutation :=
  store_started "Instance update resource is missing" name.

(** [except Exception: fail_execution(..., _fail_members); raise]. *)
Definition failing_members {A} (claim : ExecutionClaim) (member_ids : list uuid) (p : worker A)
    : worker A :=
  catch p (fun e => sess (fail_execution claim (_fail_members member_ids));; Fail e).

Definition step_01_update_instance (job_id : uuid) : worker string :=
  run_claimed_step job_id INSTANCE_UPDATE_STEP_01_TASK (fun claim =>
    base_domain ← returns (from_settings settings);
    claimed ← sess (_claim_members claim);
    let '(member_ids, members, slug, attached_name) := claimed in
    reconciliation ←
      failing_members claim member_ids (
        instance_id ← resource_id claim;
        helm_values ← instance_helm_values instance_id slug (url_for base_domain slug);
        ask (ReconcileApplication instance_id slug attached_name members helm_values));
    if reconcile_status reconciliation == DEFERRED then
      deferred ← sess (defer_execution claim (fun _ => _defer_members member_ids));
      Done (status_or_noop "deferred" deferred)
    else
      advanced ← advance claim INSTANCE_UPDATE_STEP_02_TASK INSTANCE_UPDATE_STEP_02
                   (_store_application_name (application_name reconciliation));
      Done (status_or_noop "pending" advanced)).

(** [_claim_cleanup] *)
Definition _claim_cleanup (claim : ExecutionClaim) : session (list uuid * list string * string) :=
  d ← gets (fun d => d);
  instance_id ← found (claim_resource_id claim) (RuntimeError INSTANCE_MISSING);
  instance ← found (instances d !! instance_id) (RuntimeError INSTANCE_MISSING);
  name ← found (match inst_argocd_application_name instance with
                | Some n => if n == "" then None else Some n
                | None => None
                end) (RuntimeError "Instance Argo CD application name is missing");
  let stored := stored_members d instance_id in
  let claimed_ids :=
    map fst (List.filter (fun kr => member (mem_status kr.2) [RUNNING; ERROR]) stored) in
  let expected_usernames :=
    map (fun kr => mem_username kr.2)
      (List.filter (fun kr => (mem_action kr.2 != "deleting") || negb (member kr.1 claimed_ids))
         stored) in
  modify (fun d => d <| members :=
    update_where (fun k _ => member k claimed_ids) (fun m => m <| mem_status := RUNNING |>)
      (members d) |>);;
  commit;;
  mret (claimed_ids, expected_usernames, name).

(** The claimed members converge: those to go are removed, the others succeed. *)
Definition owned_member (member_ids : list uuid) (i : uuid) (k : uuid) (m : Member) : bool :=
  member k member_ids && (mem_instance_id m == i) && (mem_status m == RUNNING).
Definition settle_members (member_ids : list uuid) (i : uuid) (d : Store) : Store :=
  let gone := rows_where (fun k m => owned_member member_ids i k m && (mem_action m == "deleting"))
                (members d) in
  let d1 := foldr (fun kr d => delete_member_row kr.1 d) d gone in
  d1 <| members := update_where (owned_member member_ids i) (fun m => m <| mem_status := SUCCESS |>)
                     (members d1) |>.

(** [_finalize_update]: the result is the status and the job to dispatch, if any. *)
Definition _finalize_update (now : time) (next_job_id : uuid) (claim : ExecutionClaim)
    (member_ids : list uuid) (application_name : string) : session (string * option uuid) :=
  o ← owned_execution claim;
  match o with
  | None => mret ("noop", None)
  | Some job =>
      match job_ref job with
      | Some (KInstance, i) =>
          set_instance (fun r => r <| inst_argocd_application_name := Some application_name |>) i;;
          modify (settle_members member_ids i);;
          modify (set_job (fun j => j <| job_status := SUCCESS |> <| job_claimed_at := None |>)
                    (claim_job_id claim));;
          d ← gets (fun d => d);
          if exists_where (fun _ m => (mem_instance_id m == i) && (mem_status m == PENDING))
               (members d)
          then
            add_job_execution IntegrityError now next_job_id "instance.update"
              INSTANCE_UPDATE_STEP_01_TASK (Some "instance") (Some i) INSTANCE_UPDATE_STEP_01;;
            set_instance (fun r =>
              r <| inst_job_id := Some next_job_id |> <| inst_action := "updating" |>
                <| inst_step := Some INSTANCE_UPDATE_STEP_01 |> <| inst_status := PENDING |>) i;;
            commit;;
            mret ("pending", Some next_job_id)
          else
            set_instance (fun r => r <| inst_status := SUCCESS |> <| inst_step := None |>) i;;
            commit;;
            mret ("success", None)
      | _ => mret ("noop", None)
      end
  end.

(** The accounts that the clean-up keeps besides the members. *)
Definition protected_usernames : Exn + list string :=
  match parse_default_admins (default_admins settings) with
  | inl e => inl e
  | inr admins => inr (ADMIN_USERNAME :: admins)
  end.

Definition step_02_cleanup_users (job_id : uuid) : worker string :=
  run_claimed_step job_id INSTANCE_UPDATE_STEP_02_TASK (fun claim =>
    base_domain ← returns (from_settings settings);
    claimed ← sess (_claim_cleanup claim);
    let '(member_ids, expected_usernames, application_name) := claimed in
    instance_id ← resource_id claim;
    credentials ← required_credentials instance_id base_domain;
    failing_members claim member_ids (
      protected ← returns protected_usernames;
      cleanup_user_accounts (fst credentials)
        (heartbeat_owned "Instance update attempt is no longer current" claim)
        (snd credentials) (expected_usernames ++ protected)%list);;
    now ← ask Now;
    next_job_id ← ask NewUuid;
    final ← sess (_finalize_update now next_job_id claim member_ids application_name);
    let '(status, enqueue) := (final : string * option uuid) in
    match enqueue with
    | Some j => dispatch INSTANCE_UPDATE_STEP_01_TASK j;; Done status
    | None => Done status
    end).

(** ** tasks/database/sync *)
Definition step_01_sync_database (job_id : uuid) : worker string :=
  run_claimed_step job_id DATABASE_SYNC_STEP_01_TASK (fun claim =>
    completed ← sess (complete_execution claim no_mutation false);
    Done (status_or_noop "success" completed)).
End Tasks.
