(* ===== verification/WorkspaceTasks.v ===== *)
(** * WorkspaceTasks: the steps of the workspace jobs (tasks/workspace/) *)
From S2P Require Import Prelude Text Models Store Registry Crypto Execution Ownership Claims.
From S2P Require Import Jobs Databases Instances Templates Workspaces Config Program Coder.
From S2P Require Import Worker CoderService InstanceTasks.
From Stdlib Require Import Ascii String.
Open Scope string_scope.

(** ** tasks/workspace/_remote.py *)
Record WorkspaceRemoteSnapshot := mkRemoteSnapshot {
  rem_id : uuid;
  rem_name : string;
  rem_username : string;
  rem_instance_url : string;
  rem_password : string;
  rem_coder_template_id : uuid;
  rem_coder_workspace_id : option uuid;
  rem_coder_workspace_build_id : option uuid;
  rem_parameters : pairs;
  rem_parameters_revision : Z;
  rem_applied_parameters_revision : option Z
}.

Definition REMOTE_PREREQUISITES : Exn :=
  WorkspaceRemoteError "Workspace remote prerequisites are missing".

(** The deployment of the template on the instance, through its assignment. *)
Definition deployment_of (template_id instance_id : uuid) (d : Store)
    : option (uuid * TemplateDeployment) :=
  first_where (fun _ p =>
      match assignments d !! dep_assignment_id p with
      | Some a => (asg_template_id a == template_id) && (asg_instance_id a == instance_id)
      | None => false
      end) (deployments d).

(** The parameters whose names are still user parameters of the template, sorted by name. *)
Definition active_parameters (template_id : uuid) (stored : gmap string string) (d : Store) : pairs :=
  sort_by (fun a b => String.leb a.1 b.1)
    (List.filter (fun kv =>
         exists_where (fun _ p => (par_template_id p == template_id) && (par_type p == TYPE_USER)
                                  && (par_name p == kv.1)) (parameters d))
       (map_to_list stored)).

(** The build that a remote workspace shows. *)
Definition latest_build (remote : CoderWorkspace) : CoderWorkspaceBuild :=
  mkBuild (cws_latest_build_id remote) (cws_status remote) (cws_latest_build_transition remote).

Section Tasks.
Context `{AESGCM}.
Variable settings : Settings.
Variable rounds : nat.

Definition workspace_remote_snapshot (workspace_id : uuid) (base_domain : string)
    : session WorkspaceRemoteSnapshot :=
  d ← gets (fun d => d);
  w ← found (workspaces d !! workspace_id) (WorkspaceRemoteError "Workspace is missing");
  instance ← found (instances d !! ws_instance_id w) REMOTE_PREREQUISITES;
  owner_ ← found (members d !! ws_member_id w) REMOTE_PREREQUISITES;
  deployment ← found (deployment_of (ws_template_id w) (ws_instance_id w) d) REMOTE_PREREQUISITES;
  coder_template_id ← found (dep_coder_template_id deployment.2) REMOTE_PREREQUISITES;
  password_enc ← found (inst_password_enc instance) REMOTE_PREREQUISITES;
  c ← raise (init_cipher (crypto_key settings));
  password ← raise (InstancePasswordCipher_decrypt c password_enc (ws_instance_id w));
  mret (mkRemoteSnapshot workspace_id (ws_name w) (mem_username owner_)
          (url_for base_domain (inst_slug instance)) password coder_template_id
          (ws_coder_workspace_id w) (ws_coder_workspace_build_id w)
          (active_parameters (ws_template_id w) (ws_parameters w) d)
          (ws_parameters_revision w) (ws_applied_parameters_revision w)).

(** By the stored identifier, or else by owner and name. *)
Definition find_remote_workspace (snapshot : WorkspaceRemoteSnapshot)
    : worker (option CoderWorkspace) :=
  remote ← match rem_coder_workspace_id snapshot with
           | Some i => client (rem_instance_url snapshot) (workspace i)
           | None => Done None
           end;
  match (remote : option CoderWorkspace) with
  | Some r => Done (Some r)
  | None =>
      client (rem_instance_url snapshot)
        (workspace_by_owner_and_name (rem_username snapshot) (rem_name snapshot))
  end.

Definition require_matching_template (remote : CoderWorkspace)
    (snapshot : WorkspaceRemoteSnapshot) : worker unit :=
  if cws_template_id remote != Some (rem_coder_template_id snapshot) then
    Fail (WorkspaceRemoteError "Remote workspace uses a different template")
  else Done tt.

Definition store_remote_ids (claim : ExecutionClaim) (workspace_id build_id : uuid)
    : session bool :=
  o ← owned_execution claim;
  match o with
  | None => mret false
  | Some job =>
      match job_ref job with
      | Some (KWorkspace, k) =>
          set_workspace (fun w => w <| ws_coder_workspace_id := Some workspace_id |>
                                    <| ws_coder_workspace_build_id := Some build_id |>) k;;
          commit;;
          mret true
      | _ => mret false
      end
  end.

(** The convergence that [complete_workspace] stores. *)
Definition converged (workspace_id build_id : option uuid) (apply_parameters : bool)
    (w : Workspace) : Workspace :=
  let w := match workspace_id with
           | Some i => w <| ws_coder_workspace_id := Some i |>
           | None => w
           end in
  let w := match build_id with
           | Some b => w <| ws_coder_workspace_build_id := Some b |>
           | None => w
           end in
  if apply_parameters
  then w <| ws_applied_parameters_revision := Some (ws_parameters_revision w) |>
  else w.

Definition complete_workspace (claim : ExecutionClaim) (workspace_id build_id : option uuid)
    (apply_parameters delete_resource : bool) : session bool :=
  complete_execution claim
    (fun ox => match ox with
               | Some (KWorkspace, k) =>
                   set_workspace (converged workspace_id build_id apply_parameters) k
               | _ => mret tt
               end) delete_resource.

(** The callback of these steps does not look at whether the claim still holds. *)
Definition workspace_heartbeat (claim : ExecutionClaim) : worker unit :=
  now ← ask Now;
  sess (heartbeat_execution now claim);;
  Done tt.

Definition wait_workspace_build (instance_url : string) (claim : ExecutionClaim)
    (build : CoderWorkspaceBuild) (success_status : string) : worker CoderWorkspaceBuild :=
  start ← ask Monotonic;
  let deadline := (start + workspace_build_timeout_seconds settings)%Z in
  loop rounds build (fun current =>
    if build_status current == success_status then Done (inl current)
    else if member (build_status current) ["failed"; "canceled"; "canceling"] then
      Fail (CoderRequestError "Coder workspace build failed")
    else
      _require_before_deadline deadline "Coder workspace build timed out";;
      workspace_heartbeat claim;;
      ask (Sleep (workspace_build_poll_interval_seconds settings));;
      next ← client instance_url (workspace_build (build_id current));
      Done (inr next)).

(** What the three steps start with. *)
Definition remote_snapshot (claim : ExecutionClaim) : worker WorkspaceRemoteSnapshot :=
  base_domain ← returns (from_settings settings);
  workspace_id ← resource_id claim;
  sess (workspace_remote_snapshot workspace_id base_domain).

Definition step_01_create_workspace (job_id : uuid) : worker string :=
  run_claimed_step job_id WORKSPACE_CREATE_STEP_01_TASK (fun claim =>
    snapshot ← remote_snapshot claim;
    let url := rem_instance_url snapshot in
    client url (authenticate_prepared_admin (rem_password snapshot));;
    known ← find_remote_workspace snapshot;
    let created := is_none known in
    remote ← match known with
             | Some r => Done r
             | None =>
                 client url (create_workspace (rem_username snapshot) (rem_name snapshot)
                               (rem_coder_template_id snapshot) (rem_parameters snapshot))
             end;
    require_matching_template remote snapshot;;
    let build := latest_build remote in
    build ←
      (if created then Done build
       else
         current_parameters ←
           (if build_transition build == "start"
            then client url (workspace_build_parameters (build_id build)) else Done []);
         if (current_parameters != rem_parameters snapshot)
            || member (build_status build)
                 ["stopped"; "failed"; "canceled"; "canceling"; "deleting"; "deleted"]
         then client url (create_workspace_start_build (cws_id remote) (rem_parameters snapshot))
         else Done build);
    stored ← sess (store_remote_ids claim (cws_id remote) (build_id build));
    if negb stored then Done "noop"
    else
      build ← wait_workspace_build url claim build "running";
      completed ← sess (complete_workspace claim (Some (cws_id remote)) (Some (build_id build))
                          true false);
      Done (status_or_noop "success" completed)).

Definition step_01_update_workspace (job_id : uuid) : worker string :=
  run_claimed_step job_id WORKSPACE_UPDATE_STEP_01_TASK (fun claim =>
    snapshot ← remote_snapshot claim;
    let url := rem_instance_url snapshot in
    client url (authenticate_prepared_admin (rem_password snapshot));;
    known ← find_remote_workspace snapshot;
    match (known : option CoderWorkspace) with
    | None => Fail (WorkspaceRemoteError "Remote workspace is missing")
    | Some remote =>
        require_matching_template remote snapshot;;
        (if cws_name remote != rem_name snapshot
         then client url (update_workspace_name (cws_id remote) (rem_name snapshot))
         else Done tt);;
        if rem_applied_parameters_revision snapshot == Some (rem_parameters_revision snapshot) then
          completed ← sess (complete_workspace claim (Some (cws_id remote)) None false false);
          Done (status_or_noop "success" completed)
        else
          let latest := latest_build remote in
          reusable ←
            (if (build_transition latest == "start")
                && member (build_status latest) ["pending"; "starting"; "running"]
             then
               current ← client url (workspace_build_parameters (build_id latest));
               Done (current == rem_parameters snapshot)
             else Done false);
          build ← (if (reusable : bool) then Done latest
                   else client url (create_workspace_start_build (cws_id remote)
                                      (rem_parameters snapshot)));
          stored ← sess (store_remote_ids claim (cws_id remote) (build_id build));
          if negb stored then Done "noop"
          else
            build ← wait_workspace_build url claim build "running";
            completed ← sess (complete_workspace claim (Some (cws_id remote))
                                (Some (build_id build)) true false);
            Done (status_or_noop "success" completed)
    end).

Definition step_01_delete_workspace (job_id : uuid) : worker string :=
  run_claimed_step job_id WORKSPACE_DELETE_STEP_01_TASK (fun claim =>
    snapshot ← remote_snapshot claim;
    let url := rem_instance_url snapshot in
    client url (authenticate_prepared_admin (rem_password snapshot));;
    known ← find_remote_workspace snapshot;
    match (known : option CoderWorkspace) with
    | None =>
        completed ← sess (complete_workspace claim None None false true);
        Done (status_or_noop "deleted" completed)
    | Some remote =>
        let build := latest_build remote in
        build ← (if (build_transition build != "delete")
                    || member (build_status build) ["failed"; "canceled"; "canceling"]
                 then client url (create_workspace_delete_build (cws_id remote))
                 else Done build);
        stored ← sess (store_remote_ids claim (cws_id remote) (build_id build));
        if negb stored then Done "noop"
        else
          wait_workspace_build url claim build "deleted";;
          completed ← sess (complete_workspace claim None None false true);
          Done (status_or_noop "deleted" completed)
    end).
End Tasks.
