(* ===== verification/TemplateTasks.v ===== *)
(** * TemplateTasks: publication and removal of templates (tasks/template/) *)
From S2P Require Import Prelude Text Models Store Registry Crypto Execution Ownership Claims.
From S2P Require Import Jobs Databases Instances Templates Workspaces Config Program Coder.
From S2P Require Import Worker CoderService InstanceTasks WorkspaceTasks.
From stdpp Require Import pretty.
From Stdlib Require Import Ascii String.
Open Scope string_scope.

(** ** tasks/template/_sync.py: data *)
Record TemplateSourceSnapshot := mkSource {
  src_id : uuid;
  src_display_name : string;
  src_name : string;
  src_git_url : string;
  src_source_path : string;
  src_branch : string;
  src_system_parameter_revision : Z
}.

Record TemplateDeploymentPreparation := mkPreparation {
  already_applied : bool;
  prep_instance_url : string;
  prep_password : string;
  persisted_template_id : option uuid;
  persisted_version_id : option uuid;
  system_values : pairs
}.

(** The rows that a fenced write may touch; their keys are those of the claim's assignment. *)
Record OwnedTemplateTarget := mkTargetRows {
  target_instance_id : uuid;
  target_instance : CoderInstance;
  target_template_id : uuid;
  target_template : Template;
  target_assignment : TemplateAssignment;
  target_deployment : option (uuid * TemplateDeployment)
}.

Definition TARGET_MISSING : Exn := TemplateTargetSyncError "Template synchronization target is missing".
Definition ASSIGNMENT_MISSING : Exn :=
  TemplateTargetSyncError "Template synchronization assignment is missing".
Definition TEMPLATE_MISSING : Exn := TemplateTargetSyncError "Template is missing".
Definition CLAIM_LOST : string := "Template synchronization claim is no longer current".
Definition _claim_lost : Exn := TemplateTargetClaimLostError CLAIM_LOST.
Definition is_claim_lost (e : Exn) : bool :=
  match e with TemplateTargetClaimLostError _ => true | _ => false end.
Definition UNRELATED_TEMPLATE : Exn :=
  TemplateTargetSyncError "Remote template name is already owned outside CoderManager".

(** ** Reads *)
Definition template_source_snapshot (template_id : uuid) : session TemplateSourceSnapshot :=
  d ← gets (fun d => d);
  t ← found (templates d !! template_id) TEMPLATE_MISSING;
  mret (mkSource template_id (tpl_display_name t) (tpl_name t) (tpl_git_url t) (tpl_source_path t)
          (tpl_branch t) (tpl_system_parameter_revision t)).

Definition assignment_template_id (assignment_id : uuid) : session uuid :=
  d ← gets (fun d => d);
  a ← found (assignments d !! assignment_id)
        (TemplateTargetSyncError "Template assignment is missing");
  mret (asg_template_id a).

Definition is_stable_assignment (d : Store) (template_id : uuid) (a : TemplateAssignment) : bool :=
  (asg_template_id a == template_id) && (asg_action a == "created") && (asg_status a == SUCCESS)
  && match instances d !! asg_instance_id a with
     | Some r => (inst_state r == STARTED) && (inst_status r == SUCCESS)
                 && (inst_action r != "deleting")
     | None => false
     end.

Definition stable_assignment_ids (template_id : uuid) : session (list uuid) :=
  d ← gets (fun d => d);
  found (templates d !! template_id) TEMPLATE_MISSING;;
  mret (sort_by N.leb
          (map fst (rows_where (fun _ a => is_stable_assignment d template_id a) (assignments d)))).

(** ** The fence of a deployment write *)
Definition _job_matches_claim (job : JobExecution) (claim : ExecutionClaim) : bool :=
  (job_task_name job == claim_task_name claim) && (job_step job == claim_step claim)
  && (job_attempt job == claim_attempt claim) && (job_status job == RUNNING)
  && (job_resource_type job == claim_resource_type claim)
  && (job_resource_id job == claim_resource_id claim).

Definition _job_owns_sync_resource (job_id : uuid) (job : JobExecution) (template_id : uuid)
    (template : Template) (assignment_id : uuid) (assignment : TemplateAssignment) : bool :=
  if (job_name job == "template.sync") && (job_resource_type job == Some "template") then
    (job_resource_id job == Some template_id) && (tpl_job_id template == Some job_id)
    && (tpl_action template == "syncing") && (tpl_step template == Some (job_step job))
    && (tpl_sync_status template == RUNNING)
  else if (job_name job == "template_assignment.create")
          && (job_resource_type job == Some "template_assignment") then
    (job_resource_id job == Some assignment_id) && (asg_job_id assignment == Some job_id)
    && (asg_action assignment == "creating") && (asg_step assignment == Some (job_step job))
    && (asg_status assignment == RUNNING)
  else false.

(** The second look at the assignment, under its lock, sees what the first one saw. *)
Definition _lock_owned_template_target (claim : ExecutionClaim) (assignment_id : uuid)
    (expected_template_id : option uuid) : session OwnedTemplateTarget :=
  d ← gets (fun d => d);
  job ← found (jobs d !! claim_job_id claim) _claim_lost;
  require (_job_matches_claim job claim) _claim_lost;;
  assignment ← found (assignments d !! assignment_id) ASSIGNMENT_MISSING;
  require (match expected_template_id with
           | Some t => asg_template_id assignment == t
           | None => true
           end) ASSIGNMENT_MISSING;;
  instance ← found (instances d !! asg_instance_id assignment) TARGET_MISSING;
  template ← found (templates d !! asg_template_id assignment) TARGET_MISSING;
  require (_job_owns_sync_resource (claim_job_id claim) job (asg_template_id assignment) template
             assignment_id assignment) _claim_lost;;
  mret (mkTargetRows (asg_instance_id assignment) instance (asg_template_id assignment) template
          assignment
          (first_where (fun _ p => dep_assignment_id p == assignment_id) (deployments d))).

Definition set_deployment (f : TemplateDeployment -> TemplateDeployment) (i : uuid) : session unit :=
  modify (fun d => d <| deployments := alter f i (deployments d) |>).

(** The row that [session.add] and [flush] insert. *)
Definition new_deployment (assignment_id : uuid) : TemplateDeployment :=
  mkDeployment assignment_id None None None None None None None PENDING.

Definition _store_remote_ids (claim : ExecutionClaim) (assignment_id : uuid)
    (organization_id coder_template_id coder_template_version_id : option uuid) : session unit :=
  target ← _lock_owned_template_target claim assignment_id None;
  deployment ← found (target_deployment target)
                 (TemplateTargetSyncError "Template deployment is missing");
  set_deployment (fun p =>
    p <| dep_coder_organization_id :=
           match organization_id with Some i => Some i | None => dep_coder_organization_id p end |>
      <| dep_coder_template_id :=
           match coder_template_id with Some i => Some i | None => dep_coder_template_id p end |>
      <| dep_coder_template_version_id :=
           match coder_template_version_id with
           | Some i => Some i
           | None => dep_coder_template_version_id p
           end |>) (fst deployment);;
  commit.

Definition _finish_deployment (claim : ExecutionClaim) (assignment_id : uuid) (commit_sha : string)
    (system_parameter_revision : Z) (success : bool) : session unit :=
  target ← _lock_owned_template_target claim assignment_id None;
  match target_deployment target with
  | None => mret tt
  | Some (i, _) =>
      set_deployment (fun p =>
        if success then
          p <| dep_status := SUCCESS |>
            <| dep_applied_commit := Some commit_sha |>
            <| dep_applied_system_parameter_revision := Some system_parameter_revision |>
        else p <| dep_status := ERROR |>) i;;
      commit
  end.

Section Tasks.
Context `{AESGCM}.
Variable settings : Settings.
Variable rounds : nat.

(** The system parameters of a template, by name, decrypted. *)
Fixpoint decrypt_parameters (c : cipher) (rows : list (uuid * TemplateParameter))
    : Exn + pairs :=
  match rows with
  | [] => inr []
  | (i, p) :: rest =>
      match par_system_value p with
      | None => inl (TemplateTargetSyncError "Template system parameter value is missing")
      | Some value_enc =>
          match TemplateParameterCipher_decrypt c value_enc i with
          | inl e => inl e
          | inr value =>
              match decrypt_parameters c rest with
              | inl e => inl e
              | inr values => inr ((par_name p, value) :: values)
              end
          end
      end
  end.
Definition _system_parameter_values (d : Store) (template_id : uuid) (c : cipher) : Exn + pairs :=
  decrypt_parameters c
    (sort_by (fun a b => String.leb (par_name a.2) (par_name b.2))
       (rows_where (fun _ p => (par_template_id p == template_id) && (par_type p == TYPE_SYSTEM))
          (parameters d))).

Definition is_applied (p : TemplateDeployment) (commit_sha : string) (revision : Z) : bool :=
  (dep_status p == SUCCESS) && (dep_applied_commit p == Some commit_sha)
  && (dep_applied_system_parameter_revision p == Some revision).

(** A new target forgets the version that an earlier target was importing. *)
Definition retarget (commit_sha : string) (revision : Z) (p : TemplateDeployment)
    : TemplateDeployment :=
  (if (dep_target_commit p != Some commit_sha)
      || (dep_target_system_parameter_revision p != Some revision)
   then p <| dep_coder_template_version_id := None |> else p)
  <| dep_target_commit := Some commit_sha |>
  <| dep_target_system_parameter_revision := Some revision |>
  <| dep_status := RUNNING |>.

(** The assignment's deployment; [deployment_id] is drawn for a new one. *)
Definition ensure_deployment (target : OwnedTemplateTarget) (assignment_id deployment_id : uuid)
    : session (uuid * TemplateDeployment) :=
  match target_deployment target with
  | Some p => mret p
  | None =>
      d ← gets (fun d => d);
      require (is_none (deployments d !! deployment_id)) IntegrityError;;
      (* [add] and [flush] *)
      modify (fun d =>
        d <| deployments := <[deployment_id := new_deployment assignment_id]> (deployments d) |>);;
      commit;;
      mret (deployment_id, new_deployment assignment_id)
  end.

Definition _prepare_deployment (claim : ExecutionClaim) (assignment_id template_id : uuid)
    (commit_sha : string) (revision : Z) (base_domain : string) (deployment_id : uuid)
    : session TemplateDeploymentPreparation :=
  target ← _lock_owned_template_target claim assignment_id (Some template_id);
  let instance := target_instance target in
  require ((inst_state instance == STARTED) && (inst_status instance == SUCCESS))
    (TemplateTargetSyncError "Coder instance is not started and successful");;
  password_enc ← found (inst_password_enc instance)
    (TemplateTargetSyncError "Coder administrator password is not initialized");
  let instance_url := url_for base_domain (inst_slug instance) in
  deployment ← ensure_deployment target assignment_id deployment_id;
  let '(i, p) := (deployment : uuid * TemplateDeployment) in
  if is_applied p commit_sha revision then
    mret (mkPreparation true instance_url "" (dep_coder_template_id p)
            (dep_coder_template_version_id p) [])
  else
    set_deployment (retarget commit_sha revision) i;;
    c ← raise (init_cipher (crypto_key settings));
    password ← raise (InstancePasswordCipher_decrypt c password_enc (target_instance_id target));
    d ← gets (fun d => d);
    values ← raise (_system_parameter_values d (target_template_id target) c);
    commit;;
    mret (mkPreparation false instance_url password (dep_coder_template_id p)
            (dep_coder_template_version_id (retarget commit_sha revision p)) values).

(** ** Remote publication *)

(** The template to publish to, if any, and whether it goes by the expected name. *)
Definition _managed_remote_template (url : string) (organization_id : uuid) (name : string)
    (persisted_template_id persisted_version_id : option uuid)
    : worker (option CoderTemplate * bool) :=
  persisted ← match persisted_template_id with
              | Some i => client url (template_by_id i)
              | None => Done None
              end;
  named ← client url (template_by_name organization_id name);
  match persisted, named with
  | Some p, Some n =>
      if ctpl_id n != ctpl_id p then Fail UNRELATED_TEMPLATE else Done (Some p, true)
  | Some p, None => Done (Some p, false)
  | None, None => Done (None, false)
  | None, Some n =>
      if (persisted_template_id == Some (ctpl_id n))
         || (is_some persisted_version_id && (ctpl_active_version_id n == persisted_version_id))
      then Done (Some n, true) else Fail UNRELATED_TEMPLATE
  end.

Definition version_name (commit_sha : string) (revision : Z) : string :=
  "git-" ++ commit_sha ++ "-p" ++ pretty revision.

Definition publish (claim : ExecutionClaim) (snapshot : TemplateSourceSnapshot)
    (archive : TemplateArchive) (assignment_id : uuid) (heartbeat : worker unit)
    (preparation : TemplateDeploymentPreparation) : worker unit :=
  let url := prep_instance_url preparation in
  let version := version_name (archive_commit archive) (src_system_parameter_revision snapshot) in
  client url (authenticate_prepared_admin (prep_password preparation));;
  organization_id ← client url default_organization_id;
  managed ← _managed_remote_template url organization_id (src_name snapshot)
              (persisted_template_id preparation) (persisted_version_id preparation);
  let '(remote_template, found_by_name) := (managed : option CoderTemplate * bool) in
  sess (_store_remote_ids claim assignment_id (Some organization_id)
          (ctpl_id <$> remote_template) None);;
  by_name ← (if is_some remote_template && found_by_name
             then client url (template_version_by_name organization_id (src_name snapshot) version)
             else Done None);
  recovered ← match (by_name : option CoderTemplateVersion), persisted_version_id preparation with
              | None, Some v => client url (template_version_for_recovery v)
              | v, _ => Done v
              end;
  remote_version ←
    match (recovered : option CoderTemplateVersion) with
    | Some v => Done v
    | None =>
        file_id ← client url (upload_template_archive (archive_content archive));
        v ← client url (create_template_version organization_id file_id version
                          (ctpl_id <$> remote_template) (system_values preparation));
        sess (_store_remote_ids claim assignment_id None None (Some (cver_id v)));;
        Done v
    end;
  remote_version ←
    (if cver_status remote_version != "succeeded"
     then wait_template_version rounds url heartbeat (cver_id remote_version)
            (template_sync_timeout_seconds settings)
            (template_sync_poll_interval_seconds settings)
            (map snd (system_values preparation))
     else Done remote_version);
  (if cver_archived remote_version
   then client url (unarchive_template_version (cver_id remote_version)) else Done tt);;
  match remote_template with
  | None =>
      t ← client url (create_template organization_id (src_name snapshot)
                        (src_display_name snapshot) (cver_id remote_version));
      sess (_store_remote_ids claim assignment_id None (Some (ctpl_id t)) None)
  | Some t => client url (activate_template_version (ctpl_id t) (cver_id remote_version))
  end.

Definition sync_template_target (snapshot : TemplateSourceSnapshot) (archive : TemplateArchive)
    (assignment_id : uuid) (claim : ExecutionClaim) (heartbeat : worker unit) : worker bool :=
  base_domain ← returns (from_settings settings);
  deployment_id ← ask NewUuid;
  let commit_sha := archive_commit archive in
  let revision := src_system_parameter_revision snapshot in
  preparation ← sess (_prepare_deployment claim assignment_id (src_id snapshot) commit_sha
                        revision base_domain deployment_id);
  if already_applied preparation then Done false
  else
    catch (publish claim snapshot archive assignment_id heartbeat preparation)
      (fun e =>
         if is_claim_lost e then Fail e
         else sess (_finish_deployment claim assignment_id commit_sha revision false);; Fail e);;
    sess (_finish_deployment claim assignment_id commit_sha revision true);;
    Done true.

(** ** The steps *)
Definition sync_heartbeat (claim : ExecutionClaim) : worker unit :=
  now ← ask Now;
  owned ← sess (heartbeat_execution now claim);
  if (owned : bool) then Done tt else Fail _claim_lost.

Definition fetch_template_archive (snapshot : TemplateSourceSnapshot) : worker TemplateArchive :=
  ask (FetchBranchArchive (src_git_url snapshot) (src_branch snapshot) (src_source_path snapshot)).

Definition _mark_created : mutation := fun ox =>
  match ox with
  | Some (KAssignment, k) =>
      modify (fun d =>
        d <| assignments := alter (fun a => a <| asg_action := "created" |>) k (assignments d) |>)
  | _ => throw (TypeError "Template assignment is missing")
  end.

Definition step_01_create_template (job_id : uuid) : worker string :=
  run_claimed_step job_id TEMPLATE_ASSIGNMENT_CREATE_STEP_01_TASK (fun claim =>
    assignment_id ← resource_id claim;
    template_id ← sess (assignment_template_id assignment_id);
    snapshot ← sess (template_source_snapshot template_id);
    archive ← fetch_template_archive snapshot;
    sync_template_target snapshot archive assignment_id claim (sync_heartbeat claim);;
    completed ← sess (complete_execution claim _mark_created false);
    Done (status_or_noop "success" completed)).

(** One target of a synchronization: a failure is counted, but a lost claim ends the attempt. *)
Definition sync_one (snapshot : TemplateSourceSnapshot) (archive : TemplateArchive)
    (claim : ExecutionClaim) (assignment_id : uuid) (failures : Z) : worker Z :=
  sync_heartbeat claim;;
  catch
    (sync_template_target snapshot archive assignment_id claim (sync_heartbeat claim);;
     Done failures)
    (fun e => if is_claim_lost e then Fail e else Done (failures + 1)%Z).

Definition step_01_sync_template (job_id : uuid) : worker string :=
  run_claimed_step job_id TEMPLATE_SYNC_STEP_01_TASK (fun claim =>
    template_id ← resource_id claim;
    assignment_ids ← sess (stable_assignment_ids template_id);
    match (assignment_ids : list uuid) with
    | [] =>
        completed ← sess (complete_execution claim no_mutation false);
        Done (status_or_noop "success" completed)
    | _ =>
        snapshot ← sess (template_source_snapshot template_id);
        archive ← fetch_template_archive snapshot;
        failures ← for_each assignment_ids 0%Z (sync_one snapshot archive claim);
        if Z.ltb 0 failures then
          Fail (RuntimeError ("Template synchronization failed for " ++ pretty failures
                              ++ " target(s)"))
        else
          completed ← sess (complete_execution claim no_mutation false);
          Done (status_or_noop "success" completed)
    end).

(** ** Removal (tasks/template/delete) *)
Record TemplateRemovalSnapshot := mkRemoval {
  removal_assignment_id : uuid;
  removal_template_id : uuid;
  removal_instance_id : uuid;
  removal_instance_url : string;
  removal_password : option string;
  removal_coder_template_id : option uuid
}.

Definition _removal_snapshot (assignment_id : uuid) (base_domain : string)
    : session TemplateRemovalSnapshot :=
  d ← gets (fun d => d);
  assignment ← found (assignments d !! assignment_id)
                 (RuntimeError "Template assignment is missing");
  instance ← found (instances d !! asg_instance_id assignment)
               (RuntimeError "Template assignment instance is missing");
  let coder_template_id :=
    p ← first_where (fun _ p => dep_assignment_id p == assignment_id) (deployments d);
    dep_coder_template_id p.2 in
  password ←
    match coder_template_id with
    | None => mret None
    | Some _ =>
        require ((inst_state instance == STARTED) && (inst_status instance == SUCCESS))
          (RuntimeError "Coder instance is not started and successful");;
        password_enc ← found (inst_password_enc instance)
          (RuntimeError "Coder administrator password is not initialized");
        c ← raise (init_cipher (crypto_key settings));
        password ← raise (InstancePasswordCipher_decrypt c password_enc
                            (asg_instance_id assignment));
        mret (Some password)
    end;
  mret (mkRemoval assignment_id (asg_template_id assignment) (asg_instance_id assignment)
          (url_for base_domain (inst_slug instance)) password coder_template_id).

(** The rows of the assignment go with it, and the workspaces built from its template. *)
Definition remove_assignment_rows (template_id instance_id k : uuid) (d : Store) : Store :=
  d <| workspaces := delete_where (fun _ w => (ws_template_id w == template_id)
                                              && (ws_instance_id w == instance_id))
                       (workspaces d) |>
    <| deployments := delete_where (fun _ p => dep_assignment_id p == k) (deployments d) |>.

Definition _remove_local_assignment (claim : ExecutionClaim) (snapshot : TemplateRemovalSnapshot)
    : session bool :=
  o ← owned_execution claim;
  match o with
  | None => mret false
  | Some job =>
      match job_ref job with
      | Some (KAssignment, k) =>
          modify (remove_assignment_rows (removal_template_id snapshot)
                    (removal_instance_id snapshot) k);;
          modify (set_job (fun j => j <| job_status := SUCCESS |> <| job_claimed_at := None |>)
                    (claim_job_id claim));;
          modify (delete_assignment_row k);;
          commit;;
          mret true
      | _ => mret false
      end
  end.

Definition step_01_delete_template (job_id : uuid) : worker string :=
  run_claimed_step job_id TEMPLATE_ASSIGNMENT_DELETE_STEP_01_TASK (fun claim =>
    assignment_id ← resource_id claim;
    base_domain ← returns (from_settings settings);
    snapshot ← sess (_removal_snapshot assignment_id base_domain);
    let heartbeat :=
      heartbeat_owned "Template assignment deletion claim is no longer current" claim in
    match removal_coder_template_id snapshot, removal_password snapshot with
    | Some t, Some password =>
        let url := removal_instance_url snapshot in
        delete_template_workspaces rounds url heartbeat password t
          (workspace_delete_timeout_seconds settings)
          (workspace_delete_poll_interval_seconds settings);;
        heartbeat;;
        client url (authenticate_prepared_admin password);;
        client url (delete_template t)
    | _, _ => Done tt
    end;;
    deleted ← sess (_remove_local_assignment claim snapshot);
    Done (status_or_noop "deleted" deleted)).

(** ** tasks/daily_workspace_stops.py: the credentials, and one instance's submission *)
Definition _stored_instance_credentials (instance_id : uuid) (base_domain : string)
    : session (option (string * string)) :=
  d ← gets (fun d => d);
  match instances d !! instance_id with
  | None => mret None
  | Some instance =>
      envelope ← found (inst_password_enc instance) (RuntimeError PASSWORD_MISSING);
      c ← raise (init_cipher (crypto_key settings));
      password ← raise (InstancePasswordCipher_decrypt c envelope instance_id);
      mret (Some (url_for base_domain (inst_slug instance), password))
  end.

Definition stop_instance_workspaces (instance_id : uuid) : worker (string * nat * nat) :=
  base_domain ← returns (from_settings settings);
  credentials ← sess (_stored_instance_credentials instance_id base_domain);
  match (credentials : option (string * string)) with
  | None => Done ("noop", 0, 0)
  | Some (url, password) =>
      r ← submit_active_workspace_stops rounds url (Done tt) password;
      Done ("success", List.length (fst r), List.length (snd r))
  end.
End Tasks.

Definition STOP_INSTANCE_WORKSPACES_TASK : string := "coder_manager.stop_instance_workspaces".

(** One message per instance; those that the broker refuses are counted. *)
Fixpoint delay_each (instance_ids : list uuid) (dispatched failed : Z) : worker (Z * Z) :=
  match instance_ids with
  | [] => Done (dispatched, failed)
  | i :: rest =>
      Ask (Delay STOP_INSTANCE_WORKSPACES_TASK i) (fun r =>
        match r with
        | inl _ => delay_each rest dispatched (failed + 1)
        | inr _ => delay_each rest (dispatched + 1) failed
        end)
  end.

Definition dispatch_daily_workspace_stops : worker Z :=
  instance_ids ← sess (gets (fun d => sort_by N.leb (map fst (map_to_list (instances d)))));
  counts ← delay_each instance_ids 0 0;
  let '(dispatched, failed) := (counts : Z * Z) in
  if Z.ltb 0 failed then
    Fail (RuntimeError ("Could not dispatch daily workspace stops for " ++ pretty failed
                        ++ " instance(s)"))
  else Done dispatched.
