(* ===== verification/InstanceTaskFacts.v ===== *)
(** * InstanceTaskFacts: the instance steps keep the store sound *)
From S2P Require Import Prelude Text Models Store Registry Crypto Execution Ownership Claims.
From S2P Require Import Jobs Databases Instances Templates Config Program Coder Worker.
From S2P Require Import CoderService InstanceTasks.
From Stdlib Require Import Ascii String.
Open Scope string_scope.

(** ** The callbacks *)
Lemma touches_same_owner ox d d' :
  jobs d' = jobs d -> (forall y, owner d' y = owner d y) -> Touches ox SameDuty d d'.
Proof. intros Hj Ho. apply touches_removal; [done | done |]. intros y. by right. Qed.

Lemma on_instance_within message f :
  (forall r, owner_of (RInstance (f r)) = owner_of (RInstance r)) ->
  MutatesWithin SameDuty (on_instance message f).
Proof.
  intros Hf ox d u d' _ H. unfold on_instance in H.
  destruct ox as [[[] i]|]; try (unfold throw in H; discriminate).
  unfold set_instance in H. session_inv. apply touches_same_owner; [done |].
  intros y. by apply owner_alter_instance.
Qed.

Lemma store_started_within message name : MutatesWithin SameDuty (store_started message name).
Proof. by apply on_instance_within. Qed.
Lemma mark_stopped_within : MutatesWithin SameDuty mark_stopped.
Proof. by apply on_instance_within. Qed.

Lemma within_same_job mutate : MutatesWithin SameDuty mutate -> MutatesWithin SameJob mutate.
Proof. intros Hm ox d u d' Hd H. eapply touches_weaken; [| by eapply Hm]. by intros o o' (? & _). Qed.

Lemma promote_password_within : MutatesWithin SameDuty _promote_password.
Proof.
  intros ox d u d' _ H. unfold _promote_password, set_instance in H.
  destruct ox as [[[] i]|]; try (unfold throw in H; discriminate).
  session_cases; (apply touches_same_owner; [done |]; intros y; by apply owner_alter_instance).
Qed.

Lemma release_members_touches s ids d u d' ox :
  release_members s ids d = inr (u, d') -> Touches ox SameDuty d d'.
Proof.
  intros H. unfold release_members in H. session_inv. apply touches_same_owner; [done |].
  by intros [[] k].
Qed.

(** ** The sessions *)
Lemma claim_members_keeps c : Keeps (_claim_members c).
Proof.
  intros d a d' Hd H. unfold _claim_members in H. session_inv.
  by apply same_owner_keeps; [.. | intros [[] ?]].
Qed.

Lemma claim_cleanup_keeps c : Keeps (_claim_cleanup c).
Proof.
  intros d a d' Hd H. unfold _claim_cleanup in H. session_inv.
  by apply same_owner_keeps; [.. | intros [[] ?]].
Qed.

Lemma store_started_application_keeps c name : Keeps (_store_started_application c name).
Proof.
  intros d a d' Hd H. unfold _store_started_application, owned_execution in H.
  session_cases; try (split; [done | by apply evolves_eq]).
  match goal with Hm : on_instance _ _ ?ox _ = inr _ |- _ =>
    unfold on_instance in Hm; destruct ox as [[[] i]|]; try discriminate Hm;
    unfold set_instance in Hm end.
  session_inv. apply same_owner_keeps; [done | done | done |]. intros y.
  apply owner_alter_instance. intros r. by destruct name.
Qed.

(** Removing members takes their workspaces along and leaves the rest. *)
Lemma delete_members_spares gone d :
  jobs (foldr (fun (kr : uuid * Member) d => delete_member_row kr.1 d) d gone) = jobs d /\
  instances (foldr (fun (kr : uuid * Member) d => delete_member_row kr.1 d) d gone) = instances d /\
  Spares None d (foldr (fun (kr : uuid * Member) d => delete_member_row kr.1 d) d gone).
Proof.
  induction gone as [|[k m] gone (Hj & Hi & Hs)]; cbn; [auto with owner |].
  split_and!; [exact Hj | exact Hi |]. eapply spares_trans; [exact Hs |]. solve_spares.
Qed.

Lemma settle_members_spares ids i d :
  jobs (settle_members ids i d) = jobs d /\ instances (settle_members ids i d) = instances d /\
  Spares None d (settle_members ids i d).
Proof.
  unfold settle_members. cbv zeta.
  pose proof (delete_members_spares
    (rows_where (fun k m => owned_member ids i k m && (mem_action m == "deleting")) (members d)) d)
    as (Hj & Hi & Hs).
  split_and!; [exact Hj | exact Hi |].
  eapply spares_trans; [exact Hs |]. by intros [[] k] _; right.
Qed.

Lemma owned_completes c d job :
  owned c d = Some job -> ends (claim_task_name c) = true ->
  JobStep job (job <| job_status := SUCCESS |> <| job_claimed_at := None |>).
Proof.
  intros Ho He. apply owned_spec in Ho as (_ & Ht & _ & _ & Hst & _). rewrite <- Ht in He.
  apply job_completes; [done | by apply bool_decide_eq_true in He].
Qed.

Lemma known_done d j job :
  Sound d -> jobs d !! j = Some job ->
  job_known (job <| job_status := SUCCESS |> <| job_claimed_at := None |>) = true.
Proof. intros Hd Hj. known_job Hd Hj. Qed.

Lemma remove_configuration_set_job f j i d :
  remove_configuration i (set_job f j d)
  = delete_row (KInstance, i) (set_job f j
      (delete_members_where (fun m => mem_instance_id m == i)
         (d <| workspaces := delete_where (fun _ w => ws_instance_id w == i) (workspaces d) |>)
         <| allocations := delete_where (fun _ a => alloc_instance_id a == i) (allocations d) |>
         <| kubernetes := delete i (kubernetes d) |>)).
Proof. destruct d. reflexivity. Qed.

Lemma remove_local_configuration_keeps c :
  ends (claim_task_name c) = true -> Keeps (remove_local_configuration c).
Proof.
  intros Hend d a d' Hd H. unfold remove_local_configuration, owned_execution in H.
  session_cases; try (split; [done | by apply evolves_eq]).
  match goal with Ho : owned c d = Some ?job |- _ =>
    pose proof (owned_completes _ _ _ Ho Hend) as Hdone;
    apply owned_spec in Ho as (Hj & _ & _ & _ & Hst & Hm) end.
  match goal with Hi : Integrity ?d2 |- _ => set (d2' := d2) in * end.
  eapply (kept d d _ _ (fun j => j <| job_status := SUCCESS |> <| job_claimed_at := None |>));
    [exact Hd | exact Hj | done | exact Hdone | by eapply known_done | reflexivity
    | assumption |].
  unfold d2'. rewrite remove_configuration_set_job.
  match goal with Href : job_ref ?job = Some ?x |- InSync (delete_row ?x (set_job ?f ?k ?d1)) =>
    assert (Ht : Touches (job_ref job) SameJob d d1);
      [| pose proof (insync_remove d d1 k job f (sound_sync _ Hd) Hj Hm eq_refl Ht) as Hs;
         unfold on_resource in Hs; rewrite Href in Hs; exact Hs] end.
  apply touches_removal; [done | done |].
  intros [[] w]; auto. unfold owner, load_resource; cbn -[delete_where lookup].
  rewrite !lookup_delete_where. destruct (workspaces d !! w); cbn; auto.
  repeat (case_match; cbn; auto).
Qed.

(** The last session of an update: the job is done, and the instance rests or goes on with the
    new job [next]. *)
Section Finalize.
Variables (d d2 d' : Store) (j : uuid) (job : JobExecution) (i : uuid).
Hypothesis (Hd : Sound d) (Hj : jobs d !! j = Some job) (Href : job_ref job = Some (KInstance, i)).
Hypothesis (Hst : job_status job = RUNNING).
Hypothesis (Hm : _resource_matches j job (_resource_for_job d job) = true).
Hypothesis (Hj2 : jobs d2 = jobs d) (Hs2 : Spares (Some (KInstance, i)) d d2).
Hypothesis (Hi : Integrity d').

Let complete (j : JobExecution) := j <| job_status := SUCCESS |> <| job_claimed_at := None |>.
Hypothesis Hdone : JobStep job (complete job).

Lemma finalize_at_rest :
  jobs d' = alter complete j (jobs d2) -> Spares (Some (KInstance, i)) d2 d' ->
  (forall o, owner d' (KInstance, i) = Some o ->
     own_status o = SUCCESS /\ own_step o = None /\ own_job_id o = Some j) ->
  Sound d' /\ Evolves d d'.
Proof.
  rewrite Hj2. intros Hjobs Hs Ho.
  eapply (kept d d j job complete);
    [exact Hd | exact Hj | done | exact Hdone | by eapply known_done | exact Hjobs
    | exact Hi |].
  eapply (insync_transition (Some (KInstance, i)) d); [apply Hd | | by eapply spares_trans |].
  - rewrite <- Href. by eapply jobs_spared_alter.
  - intros x o [= <-] Hx. destruct (Ho o Hx) as (Hs' & Ht & Hid). split.
    + intros j' Hj'. exists (complete job). split; [| exact Href].
      rewrite Hjobs. assert (j' = j) as -> by congruence. by rewrite lookup_alter_eq, Hj.
    + by rewrite decide_True.
Qed.

Lemma finalize_next now next task step :
  jobs d2 !! next = None ->
  jobs d' = <[next := new_job now "instance.update" task (Some "instance") (Some i) step]>
              (alter complete j (jobs d2)) ->
  ("instance.update", Some "instance", task, step) ∈ FIRST_STEPS ->
  Spares (Some (KInstance, i)) d2 d' ->
  (forall o, owner d' (KInstance, i) = Some o ->
     o = mkOwner (Some next) "updating" (Some step) PENDING) ->
  Sound d' /\ Evolves d d'.
Proof.
  rewrite Hj2. intros Hfresh Hjobs Hw Hs Ho. pose proof Hfresh as Hfresh'.
  assert (Hne : next <> j) by congruence.
  split; [split; [exact Hi | |] |].
  - eapply (insync_transition (Some (KInstance, i)) d); [apply Hd | | by eapply spares_trans |].
    + intros k job' Hk Hne'. rewrite Hjobs, lookup_insert_ne, lookup_alter_ne by congruence. done.
    + intros x o [= <-] Hx. rewrite (Ho o Hx).
      set (new := new_job now "instance.update" task (Some "instance") (Some i) step).
      assert (Hl : jobs d' !! next = Some new) by by rewrite Hjobs, lookup_insert_eq.
      split; [intros j' [= <-]; by exists new |].
      rewrite decide_False by done. exists next, new. done.
  - unfold JobsKnown. rewrite Hjobs. apply map_Forall_insert_2; [by apply new_job_known |].
    intros k job'. rewrite lookup_alter. destruct (decide (j = k)) as [-> |].
    + rewrite Hj. intros [= <-]. by eapply known_done.
    + intros Hk. by apply (sound_jobs _ Hd k).
  - intros k. rewrite Hjobs, lookup_insert, lookup_alter.
    case_decide as Hk; [subst k; by rewrite Hfresh' |]. case_decide; [subst k | apply move_refl].
    rewrite Hj. by right.
Qed.
End Finalize.

(** The instance after the assignments of the session. *)
Lemma owner_altered (f g : CoderInstance -> CoderInstance) i d d2 d' o :
  instances d2 = alter f i (instances d) -> instances d' = alter g i (instances d2) ->
  owner d' (KInstance, i) = Some o ->
  exists r, instances d !! i = Some r /\ o = owner_of (RInstance (g (f r))).
Proof.
  intros E1 E. unfold owner, load_resource; cbn -[alter lookup].
  rewrite E, E1, alter_alter, lookup_alter_eq.
  destruct (instances d !! i) as [r|]; cbn; [| done]. intros [= <-]. by exists r.
Qed.

Lemma settled ids i f d :
  (forall r, owner_of (RInstance (f r)) = owner_of (RInstance r)) ->
  let d2 := settle_members ids i (d <| instances := alter f i (instances d) |>) in
  jobs d2 = jobs d /\ instances d2 = alter f i (instances d) /\ Spares (Some (KInstance, i)) d d2.
Proof.
  intros Hf. cbv zeta.
  destruct (settle_members_spares ids i (d <| instances := alter f i (instances d) |>))
    as (Hj & Hi & Hs).
  split_and!; [exact Hj | exact Hi |]. apply spares_weaken. eapply spares_trans; [| exact Hs].
  apply spares_of_eq. intros y. by apply owner_alter_instance.
Qed.

Lemma finalize_update_keeps now next c ids name :
  ends (claim_task_name c) = true -> Keeps (_finalize_update now next c ids name).
Proof.
  intros Hend d a d' Hd H. unfold _finalize_update, owned_execution, set_instance in H.
  session_cases; try (split; [done | by apply evolves_eq]);
    match goal with Ho : owned c d = Some ?job, Href : job_ref ?job = Some (_, ?i) |- _ =>
      pose proof (owned_completes _ _ _ Ho Hend) as Hdone;
      pose proof (proj1 (owned_spec c d job) Ho) as (Hj & _ & _ & _ & Hst & Hm);
      apply resource_matches_spec in Hm as Hm';
      destruct Hm' as [Hn | (x' & o & Hx & Hox & Hid & _)];
        [rewrite job_ref_none in Href; done |];
      destruct (settled ids i (fun r => r <| inst_argocd_application_name := Some name |>) d)
        as (Hj2 & Hi2 & Hs2); [done |];
      rewrite Href in Hx; injection Hx as <-;
      destruct (proj1 (load_owner _ _ _) Hox) as (r0 & Hr0 & <-);
      cbn in Hr0; destruct (instances d !! i) as [ri|] eqn:Hri; [| done];
      injection Hr0 as <-
    end.
  - eapply (finalize_next d _ _ (claim_job_id c) j n) with (now := now) (next := next); try eassumption.
    + match goal with Hf : jobs (set_job _ _ _) !! next = None |- _ =>
        by rewrite jobs_set_job, lookup_alter_None in Hf end.
    + reflexivity.
    + known_step.
    + solve_spares.
    + intros o' Ho'.
      by eapply owner_altered in Ho' as (r & Hr & ->); [| exact Hi2 | reflexivity].
  - eapply (finalize_at_rest d _ _ (claim_job_id c) j n); try eassumption.
    + reflexivity.
    + solve_spares.
    + intros o' Ho'. eapply owner_altered in Ho' as (r & Hr & ->); [| exact Hi2 | reflexivity].
      cbn in *. by replace r with ri by congruence.
Qed.

Section TaskFacts.
Context `{AESGCM}.
Variable settings : Settings.
Variable rounds : nat.

Lemma raise_read_only {A} (r : Exn + A) : ReadOnly (raise r).
Proof. intros d a d' Hr. by apply raise_inr in Hr as [_ ->]. Qed.

Lemma managed_database_target_read_only i : ReadOnly (_managed_database_target settings i).
Proof. intros d a d' Hm. unfold _managed_database_target in Hm. session_cases; done. Qed.
Lemma stored_kubeconfig_read_only i : ReadOnly (stored_kubeconfig settings i).
Proof. intros d a d' Hm. unfold stored_kubeconfig in Hm. session_cases; done. Qed.
Lemma stored_admin_password_read_only i b : ReadOnly (stored_admin_password settings i b).
Proof. intros d a d' Hm. unfold stored_admin_password in Hm. session_cases; done. Qed.
Lemma instance_snapshot_read_only e c : ReadOnly (instance_snapshot e c).
Proof. intros d a d' Hm. unfold instance_snapshot in Hm. session_cases; done. Qed.

Lemma sound_read {A} (m : session A) : ReadOnly m -> sound_prog (sess (Q := Query) m).
Proof. intros Hm. by apply sound_sess, keeps_read_only. Qed.

Lemma prepare_bootstrap_keeps c b token nonce : Keeps (_prepare_bootstrap settings c b token nonce).
Proof.
  intros d a d' Hd Hm. unfold _prepare_bootstrap, owned_execution, set_instance in Hm.
  session_cases; try (split; [done | by apply evolves_eq]).
  apply same_owner_keeps; [done | done | done |]. intros y. by apply owner_alter_instance.
Qed.

(** ** The steps *)
#[local] Hint Resolve managed_database_target_read_only stored_kubeconfig_read_only
  stored_admin_password_read_only instance_snapshot_read_only : sound.
#[local] Hint Resolve sound_read : sound.

Lemma database_target_sound i : sound_prog (database_target settings i).
Proof. unfold database_target. sound. Qed.
Lemma instance_helm_values_sound i slug url : sound_prog (instance_helm_values settings i slug url).
Proof. unfold instance_helm_values. sound. Qed.
Lemma required_credentials_sound i b : sound_prog (required_credentials settings i b).
Proof. unfold required_credentials. sound. Qed.
Lemma resource_id_sound c : sound_prog (resource_id c).
Proof. apply sound_returns. Qed.
#[local] Hint Resolve database_target_sound instance_helm_values_sound required_credentials_sound
  resource_id_sound store_started_within mark_stopped_within promote_password_within
  within_same_job : sound.

Lemma reconcile_and_advance_sound c i slug name ms base task step :
  follows (claim_task_name c) task step = true ->
  sound_prog (reconcile_and_advance settings c i slug name ms base task step).
Proof. intros Hf. unfold reconcile_and_advance. sound. Qed.
Lemma restored_application_sound i slug name ms base :
  sound_prog (restored_application settings i slug name ms base).
Proof. unfold restored_application. sound. Qed.
#[local] Hint Resolve reconcile_and_advance_sound restored_application_sound : sound.

Lemma failing_members_sound {A} c ids (p : worker A) :
  sound_prog p -> sound_prog (failing_members c ids p).
Proof.
  intros Hp. apply sound_catch; [done |]. intros e. apply sound_bind; [| done].
  apply sound_sess, fail_execution_keeps. intros d u d' _ Hf ox.
  by eapply release_members_touches.
Qed.

Ltac step :=
  intros; apply run_claimed_step_sound; intros claim Ht _;
  repeat match goal with
         | |- sound_prog (failing_members _ _ _) => apply failing_members_sound
         | |- sound_prog (reconcile_and_advance _ _ _ _ _ _ _ _ _) =>
             apply reconcile_and_advance_sound
         | _ => sound_step
         end.

Lemma step_01_create_schema_sound j : sound_prog (step_01_create_schema settings j).
Proof. step. Qed.
Lemma step_02_create_instance_sound j : sound_prog (step_02_create_instance settings j).
Proof. step. Qed.

(** A job at the third step of a creation is no update. *)
Lemma bootstrap_is_create c b token nonce d url is_update pw d' :
  Sound d -> claim_task_name c = INSTANCE_CREATE_STEP_03_TASK ->
  _prepare_bootstrap settings c b token nonce d = inr (Some (url, is_update, pw), d') ->
  is_update = false.
Proof.
  intros Hd Ht Hm.
  assert (Hj : exists job, owned c d = Some job /\ is_update = (job_name job == "instance.update")).
  { unfold _prepare_bootstrap, owned_execution, set_instance in Hm. session_cases; try discriminate;
      exists j; (split; [done |]);
      match goal with Hr : mret _ _ = inr _ |- _ => apply ret_inr in Hr as [E _] end;
      congruence. }
  destruct Hj as (job & Ho & ->). apply owned_spec in Ho as (Hj & Hjt & _).
  apply (sound_jobs _ Hd), job_known_facts in Hj as [Hin _].
  apply bool_decide_eq_false. intros E. rewrite E, Hjt, Ht in Hin.
  assert (Hn : forallb (fun '(n, _, t, _) => negb ((n == "instance.update")
                  && (t == INSTANCE_CREATE_STEP_03_TASK))) WORKFLOW_STEPS = true)
    by (vm_compute; reflexivity).
  rewrite forallb_forall in Hn. apply list_elem_of_In, Hn in Hin.
  by rewrite !bool_decide_eq_true_2 in Hin.
Qed.

Lemma step_03_bootstrap_admin_sound j : sound_prog (step_03_bootstrap_admin settings j).
Proof.
  apply run_claimed_step_sound; intros claim Ht _.
  apply sound_bind; [sound |]. intros base.
  apply sound_bind; [sound |]. intros token. apply sound_bind; [sound |]. intros nonce.
  apply sound_session_bind; [apply prepare_bootstrap_keeps |]. intros d prep d' Hd Hm.
  destruct prep as [[[url is_update] pw]|]; [| exact I].
  rewrite (bootstrap_is_create _ _ _ _ _ _ _ _ _ Hd Ht Hm). sound.
Qed.

Lemma step_01_start_instance_sound j : sound_prog (step_01_start_instance settings j).
Proof. step. Qed.
Lemma step_01_stop_workspaces_sound j : sound_prog (step_01_stop_workspaces settings rounds j).
Proof. step. Qed.
Lemma step_02_stop_instance_sound j : sound_prog (step_02_stop_instance j).
Proof. step. Qed.
Lemma step_01_remove_workspaces_sound j : sound_prog (step_01_remove_workspaces settings rounds j).
Proof. step. apply sound_sess, store_started_application_keeps. Qed.
Lemma step_02_remove_instance_sound j : sound_prog (step_02_remove_instance j).
Proof. step. Qed.
Lemma step_03_remove_schema_sound j : sound_prog (step_03_remove_schema settings j).
Proof. step. Qed.
Lemma step_04_remove_local_configuration_sound j :
  sound_prog (step_04_remove_local_configuration j).
Proof. step. apply sound_sess, remove_local_configuration_keeps. sound. Qed.
Lemma step_01_update_instance_sound j : sound_prog (step_01_update_instance settings j).
Proof.
  step.
  - apply sound_sess, claim_members_keeps.
  - intros ox d u d' _ Hd. by eapply release_members_touches.
  - apply store_started_within.
Qed.
Lemma step_02_cleanup_users_sound j : sound_prog (step_02_cleanup_users settings j).
Proof.
  step.
  - apply sound_sess, claim_cleanup_keeps.
  - apply sound_sess, finalize_update_keeps. sound.
Qed.
Lemma step_01_sync_database_sound j : sound_prog (step_01_sync_database j).
Proof. step. Qed.
End TaskFacts.
