(* ===== verification/RemoteTaskFacts.v ===== *)
(** * RemoteTaskFacts: the workspace and template steps keep the store sound *)
From S2P Require Import Prelude Text Models Store Registry Crypto Execution Ownership Claims.
From S2P Require Import Jobs Databases Instances Templates Workspaces Config Program Coder.
From S2P Require Import Worker CoderService InstanceTasks WorkspaceTasks TemplateTasks.
From S2P Require Import InstanceTaskFacts.
From Stdlib Require Import Ascii String.
Open Scope string_scope.

(** ** Assignments to workspaces and to template assignments *)
Lemma owner_alter_workspace (f : Workspace -> Workspace) i d y :
  (forall r, owner_of (RWorkspace (f r)) = owner_of (RWorkspace r)) ->
  owner (d <| workspaces := alter f i (workspaces d) |>) y = owner d y.
Proof.
  intros Hf. destruct y as [[] k]; try done. unfold owner, load_resource; cbn -[alter lookup].
  rewrite lookup_alter. destruct (decide (i = k)) as [-> |]; [| done].
  destruct (_ !! _) as [r|]; [| done]. exact (f_equal Some (Hf r)).
Qed.

Lemma converged_owner w b apply r :
  owner_of (RWorkspace (converged w b apply r)) = owner_of (RWorkspace r).
Proof. by destruct w, b, apply. Qed.

Lemma store_remote_ids_keeps c w b : Keeps (store_remote_ids c w b).
Proof.
  intros d a d' Hd H. unfold store_remote_ids, owned_execution, set_workspace in H.
  session_cases; try (split; [done | by apply evolves_eq]).
  apply same_owner_keeps; [done | done | done |]. intros y. by apply owner_alter_workspace.
Qed.

Lemma complete_workspace_keeps c w b apply del :
  ends (claim_task_name c) = true -> Keeps (complete_workspace c w b apply del).
Proof.
  intros Hend. apply complete_execution_keeps; [| exact Hend]. intros ox d u d' _ H. unfold set_workspace in H.
  session_cases; try (by apply touches_refl). apply touches_removal; [done | done |].
  intros y. right. apply owner_alter_workspace. intros r. apply converged_owner.
Qed.

Lemma mark_created_within : MutatesWithin SameJob _mark_created.
Proof.
  intros ox d u d' _ H. unfold _mark_created in H.
  session_cases. split; [done | split; [solve_spares |]].
  intros x o' [= <-]. unfold owner, load_resource; cbn -[alter lookup].
  rewrite lookup_alter_eq. destruct (assignments d !! n) as [a|]; cbn; [| done].
  intros [= <-]. by eexists.
Qed.

(** ** Deployments are no job's business *)
Lemma deployments_keep (f : gmap uuid TemplateDeployment) d :
  Sound d -> Integrity (d <| deployments := f |>) ->
  Sound (d <| deployments := f |>) /\ Evolves d (d <| deployments := f |>).
Proof. intros Hd Hi. apply same_owner_keeps; [done | done | done |]. by intros [[] ?]. Qed.

Ltac session_inv_step ::=
  match goal with
  | H : commit _ = inr _ |- _ => apply commit_inr in H; destruct H as [-> ?]
  | H : commit_or _ _ = inr _ |- _ => apply commit_or_inr in H; destruct H as [-> ?]
  | H : raise _ _ = inr _ |- _ => apply raise_inr in H; destruct H as [? ->]
  | H : set_deployment _ _ _ = inr _ |- _ => unfold set_deployment in H
  | _ => action_inv_step
  end.

Lemma lock_owned_read_only c a e : ReadOnly (_lock_owned_template_target c a e).
Proof. intros d t d' H. unfold _lock_owned_template_target in H. session_cases; done. Qed.

Ltac lock_inv :=
  match goal with
  | H : _lock_owned_template_target _ _ _ _ = inr _ |- _ =>
      apply lock_owned_read_only in H; subst
  end.

Lemma store_template_ids_keeps c a o t v : Keeps (_store_remote_ids c a o t v).
Proof.
  intros d u d' Hd H. unfold _store_remote_ids in H. session_cases; lock_inv.
  by apply deployments_keep.
Qed.

Lemma finish_deployment_keeps c a commit_sha revision success :
  Keeps (_finish_deployment c a commit_sha revision success).
Proof.
  intros d u d' Hd H. unfold _finish_deployment in H. session_cases; lock_inv;
    try (split; [done | by apply evolves_eq]).
  by apply deployments_keep.
Qed.

Lemma remove_assignment_rows_set_job f j t i k d :
  delete_assignment_row k (set_job f j (remove_assignment_rows t i k d))
  = delete_row (KAssignment, k) (set_job f j (remove_assignment_rows t i k d)).
Proof. reflexivity. Qed.

Lemma remove_local_assignment_keeps c snapshot :
  ends (claim_task_name c) = true -> Keeps (_remove_local_assignment c snapshot).
Proof.
  intros Hend d a d' Hd H. unfold _remove_local_assignment, owned_execution in H.
  session_cases; try (split; [done | by apply evolves_eq]).
  match goal with Ho : owned c d = Some ?job |- _ =>
    pose proof (owned_completes _ _ _ Ho Hend) as Hdone;
    apply owned_spec in Ho as (Hj & _ & _ & _ & Hst & Hm) end.
  match goal with Hi : Integrity ?d2 |- _ => set (d2' := d2) in * end.
  eapply (kept d d _ _ (fun j => j <| job_status := SUCCESS |> <| job_claimed_at := None |>));
    [exact Hd | exact Hj | done | exact Hdone | by eapply known_done | reflexivity
    | assumption |].
  unfold d2'. rewrite remove_assignment_rows_set_job.
  match goal with Href : job_ref ?job = Some ?x |- InSync (delete_row ?x (set_job ?f ?k ?d1)) =>
    assert (Ht : Touches (job_ref job) SameJob d d1);
      [| pose proof (insync_remove d d1 k job f (sound_sync _ Hd) Hj Hm eq_refl Ht) as Hs;
         unfold on_resource in Hs; rewrite Href in Hs; exact Hs] end.
  apply touches_removal; [done | done |].
  intros [[] w]; auto. unfold owner, load_resource; cbn -[delete_where lookup].
  rewrite lookup_delete_where. destruct (workspaces d !! w); cbn; auto. case_match; auto.
Qed.

Section TaskFacts.
Context `{AESGCM}.
Variable settings : Settings.
Variable rounds : nat.

Lemma workspace_remote_snapshot_read_only i b :
  ReadOnly (workspace_remote_snapshot settings i b).
Proof. intros d a d' Hm. unfold workspace_remote_snapshot in Hm. session_cases; done. Qed.
Lemma template_source_snapshot_read_only i : ReadOnly (template_source_snapshot i).
Proof. intros d a d' Hm. unfold template_source_snapshot in Hm. session_cases; done. Qed.
Lemma assignment_template_id_read_only i : ReadOnly (assignment_template_id i).
Proof. intros d a d' Hm. unfold assignment_template_id in Hm. session_cases; done. Qed.
Lemma stable_assignment_ids_read_only i : ReadOnly (stable_assignment_ids i).
Proof. intros d a d' Hm. unfold stable_assignment_ids in Hm. session_cases; done. Qed.
Lemma removal_snapshot_read_only i b : ReadOnly (_removal_snapshot settings i b).
Proof. intros d a d' Hm. unfold _removal_snapshot in Hm. session_cases; done. Qed.
Lemma stored_credentials_read_only i b : ReadOnly (_stored_instance_credentials settings i b).
Proof. intros d a d' Hm. unfold _stored_instance_credentials in Hm. session_cases; done. Qed.

Lemma ensure_deployment_keeps target a i : Keeps (ensure_deployment target a i).
Proof.
  intros d p d' Hd Hm. unfold ensure_deployment in Hm.
  destruct (target_deployment target); session_inv; [split; [done | by apply evolves_eq] |].
  by apply deployments_keep.
Qed.

Lemma prepare_deployment_keeps c a t commit_sha revision base i :
  Keeps (_prepare_deployment settings c a t commit_sha revision base i).
Proof.
  intros d u d' Hd Hm. unfold _prepare_deployment in Hm.
  session_cases; lock_inv;
    match goal with He : ensure_deployment _ _ _ _ = inr _ |- _ =>
      apply ensure_deployment_keeps in He as [Hd1 Hevolves]; [| exact Hd] end; [done |].
  match goal with |- Sound ?d2 /\ _ => destruct (deployments_keep (deployments d2) x6) as [Hs6 _];
    [exact Hd1 | done |] end.
  split; [exact Hs6 | exact Hevolves].
Qed.

#[local] Hint Resolve workspace_remote_snapshot_read_only template_source_snapshot_read_only
  assignment_template_id_read_only stable_assignment_ids_read_only removal_snapshot_read_only
  stored_credentials_read_only mark_created_within resource_id_sound : sound.
#[local] Hint Resolve sound_read : sound.

Lemma workspace_heartbeat_sound c : sound_prog (workspace_heartbeat c).
Proof.
  apply sound_bind; [apply sound_ask |]. intros now.
  apply sound_bind; [apply sound_sess, heartbeat_execution_keeps | done].
Qed.
Lemma sync_heartbeat_sound c : sound_prog (sync_heartbeat c).
Proof.
  apply sound_bind; [apply sound_ask |]. intros now.
  apply sound_bind; [apply sound_sess, heartbeat_execution_keeps |]. by intros [|].
Qed.
#[local] Hint Resolve workspace_heartbeat_sound sync_heartbeat_sound : sound.

Ltac sound_step ::=
  match goal with
  | |- sound_prog (for_each _ _ _) => apply for_each_sound
  | |- sound_prog (loop _ _ _) => apply loop_sound
  | |- sound_prog (catch _ _) => apply sound_catch
  | |- sound_prog (_require_before_deadline _ _) => apply before_deadline_sound
  | |- sound_prog (sess (WorkspaceTasks.store_remote_ids _ _ _)) =>
      apply sound_sess, store_remote_ids_keeps
  | |- sound_prog (sess (complete_workspace _ _ _ _ _)) =>
      apply sound_sess, complete_workspace_keeps
  | |- sound_prog (sess (_store_remote_ids _ _ _ _ _)) =>
      apply sound_sess, store_template_ids_keeps
  | |- sound_prog (sess (_finish_deployment _ _ _ _ _)) =>
      apply sound_sess, finish_deployment_keeps
  | |- sound_prog (sess (_prepare_deployment _ _ _ _ _ _ _ _)) =>
      apply sound_sess, prepare_deployment_keeps
  | |- sound_prog (sess (_remove_local_assignment _ _)) =>
      apply sound_sess, remove_local_assignment_keeps
  | _ => sound_core_step
  end.

Lemma remote_snapshot_sound c : sound_prog (remote_snapshot settings c).
Proof. unfold remote_snapshot. sound. Qed.
Lemma find_remote_workspace_sound s : sound_prog (find_remote_workspace s).
Proof. unfold find_remote_workspace. sound. Qed.
Lemma wait_workspace_build_sound url c b status :
  sound_prog (wait_workspace_build settings rounds url c b status).
Proof. unfold wait_workspace_build. sound. Qed.
Lemma require_matching_template_sound r s : sound_prog (require_matching_template r s).
Proof. unfold require_matching_template. sound. Qed.
#[local] Hint Resolve require_matching_template_sound : sound.
#[local] Hint Resolve remote_snapshot_sound find_remote_workspace_sound wait_workspace_build_sound
  : sound.

Ltac step := intros; apply run_claimed_step_sound; intros claim Ht _; sound.

Lemma step_01_create_workspace_sound j : sound_prog (step_01_create_workspace settings rounds j).
Proof. step. Qed.
Lemma step_01_update_workspace_sound j : sound_prog (step_01_update_workspace settings rounds j).
Proof. step. Qed.
Lemma step_01_delete_workspace_sound j : sound_prog (step_01_delete_workspace settings rounds j).
Proof. step. Qed.

Lemma managed_remote_template_sound url o n t v :
  sound_prog (_managed_remote_template url o n t v).
Proof. unfold _managed_remote_template. sound. Qed.
#[local] Hint Resolve managed_remote_template_sound : sound.

Lemma sync_template_target_sound snapshot archive a c heartbeat :
  sound_prog heartbeat ->
  sound_prog (sync_template_target settings rounds snapshot archive a c heartbeat).
Proof. intros Hh. unfold sync_template_target, publish. sound. Qed.
#[local] Hint Resolve sync_template_target_sound : sound.

Lemma fetch_template_archive_sound s : sound_prog (fetch_template_archive s).
Proof. apply sound_ask. Qed.
Lemma sync_one_sound snapshot archive c a failures :
  sound_prog (sync_one settings rounds snapshot archive c a failures).
Proof. unfold sync_one. sound. Qed.
#[local] Hint Resolve fetch_template_archive_sound sync_one_sound : sound.

Lemma step_01_create_template_sound j : sound_prog (step_01_create_template settings rounds j).
Proof. step. Qed.
Lemma step_01_sync_template_sound j : sound_prog (step_01_sync_template settings rounds j).
Proof. step. Qed.
Lemma step_01_delete_template_sound j : sound_prog (step_01_delete_template settings rounds j).
Proof. step. Qed.
Lemma stop_instance_workspaces_sound i : sound_prog (stop_instance_workspaces settings rounds i).
Proof.
  unfold stop_instance_workspaces, submit_active_workspace_stops, submit_stop_only. sound.
  by apply active_workspaces_sound.
Qed.
End TaskFacts.

Lemma dispatch_daily_workspace_stops_sound : sound_prog dispatch_daily_workspace_stops.
Proof.
  apply sound_bind; [apply sound_sess, gets_keeps |]. intros ids. apply sound_bind; [| sound].
  generalize 0%Z at 1; generalize 0%Z.
  induction ids as [|i rest IH]; intros failed dispatched; [done |]. intros [e | u]; apply IH.
Qed.
