(* ===== verification/System.v ===== *)
(** * System: API processes, workers and the broker over one store

    The API runs one session per request, as an atomic step. A worker runs the program of a task,
    which any message of the broker, delivered once, twice or late, may start; its sessions
    interleave with everything else, the environment answers its requests as it likes, and it may
    die at any moment. *)
From S2P Require Import Prelude Text Models Store Registry Crypto Execution Ownership Claims.
From S2P Require Import Jobs Databases Instances Members Templates Assignments Workspaces.
From S2P Require Import Config Program Coder Worker CoderService InstanceTasks WorkspaceTasks.
From S2P Require Import TemplateTasks InstanceTaskFacts RemoteTaskFacts.

Section System.
Context `{AESGCM}.
Variable settings : Settings.

(** ** The sessions of the API *)
Inductive Api : forall A, session A -> Prop :=
| api_read A (m : session A) : ReadOnly m -> Api A m
| api_sync_database now job_id :
    Api _ (create_system_job now job_id "database.sync" DATABASE_SYNC_STEP_01_TASK
             DATABASE_SYNC_STEP_01)
| api_database_create i nonce payload password c :
    Api _ (database_create i nonce payload password c)
| api_database_update i nonce payload password c :
    Api _ (database_update i nonce payload password c)
| api_database_delete i : Api _ (database_delete i)
| api_instance_create now i job_id alloc fuel draw application :
    Api _ (instance_create now i job_id alloc fuel draw application)
| api_instance_deletion now job_id i : Api _ (instance_request_deletion now job_id i)
| api_instance_sync now job_id i : Api _ (instance_request_sync now job_id i)
| api_instance_start now job_id i : Api _ (instance_request_start now job_id i)
| api_instance_stop now job_id i : Api _ (instance_request_stop now job_id i)
| api_kubernetes now job_id nonce c i kubeconfig :
    Api _ (create_and_request_update now job_id nonce c i kubeconfig)
| api_member_create now job_id k i username role :
    Api _ (member_create now job_id k i username role)
| api_member_update_role now job_id i k role : Api _ (member_update_role now job_id i k role)
| api_member_deletion now job_id i k protected :
    Api _ (member_request_deletion now job_id i k protected)
| api_template_create i name payload : Api _ (template_create i name payload)
| api_template_update i payload : Api _ (template_update i payload)
| api_template_delete i : Api _ (template_delete i)
| api_template_sync now job_id i : Api _ (template_request_sync now job_id i)
| api_image_create k i registry name version : Api _ (image_create k i registry name version)
| api_image_delete i k : Api _ (image_delete i k)
| api_parameter_create i k nonce payload c : Api _ (parameter_create i k nonce payload c)
| api_parameter_update i k nonce payload c : Api _ (parameter_update i k nonce payload c)
| api_parameter_delete i k : Api _ (parameter_delete i k)
| api_assignment_put now job_id k i t : Api _ (put now job_id k i t)
| api_assignment_deletion now job_id i t : Api _ (assignment_request_deletion now job_id i t)
| api_workspace_create now job_id k payload : Api _ (workspace_create now job_id k payload)
| api_workspace_update now job_id k payload : Api _ (workspace_update now job_id k payload)
| api_workspace_deletion now job_id k : Api _ (workspace_request_deletion now job_id k).

(** ** The tasks of the workers *)

(** The steps of jobs, by the names that they are registered under. *)
Definition step_tasks (rounds : nat) : list (string * (uuid -> worker string)) :=
  [(INSTANCE_CREATE_STEP_01_TASK, step_01_create_schema settings);
   (INSTANCE_CREATE_STEP_02_TASK, step_02_create_instance settings);
   (INSTANCE_CREATE_STEP_03_TASK, step_03_bootstrap_admin settings);
   (INSTANCE_UPDATE_STEP_01_TASK, step_01_update_instance settings);
   (INSTANCE_UPDATE_STEP_02_TASK, step_02_cleanup_users settings);
   (INSTANCE_START_STEP_01_TASK, step_01_start_instance settings);
   (INSTANCE_STOP_STEP_01_TASK, step_01_stop_workspaces settings rounds);
   (INSTANCE_STOP_STEP_02_TASK, step_02_stop_instance);
   (INSTANCE_DELETE_STEP_01_TASK, step_01_remove_workspaces settings rounds);
   (INSTANCE_DELETE_STEP_02_TASK, step_02_remove_instance);
   (INSTANCE_DELETE_STEP_03_TASK, step_03_remove_schema settings);
   (INSTANCE_DELETE_STEP_04_TASK, step_04_remove_local_configuration);
   (WORKSPACE_CREATE_STEP_01_TASK, step_01_create_workspace settings rounds);
   (WORKSPACE_UPDATE_STEP_01_TASK, step_01_update_workspace settings rounds);
   (WORKSPACE_DELETE_STEP_01_TASK, step_01_delete_workspace settings rounds);
   (DATABASE_SYNC_STEP_01_TASK, step_01_sync_database);
   (TEMPLATE_SYNC_STEP_01_TASK, step_01_sync_template settings rounds);
   (TEMPLATE_ASSIGNMENT_CREATE_STEP_01_TASK, step_01_create_template settings rounds);
   (TEMPLATE_ASSIGNMENT_DELETE_STEP_01_TASK, step_01_delete_template settings rounds)].

Inductive Task : forall A, worker A -> Prop :=
| task_step rounds name task j :
    In (name, task) (step_tasks rounds) -> Task _ (task j)
| task_retry : Task _ (retry_job_executions settings)
| task_check_states : Task _ check_instance_states
| task_daily_stops : Task _ dispatch_daily_workspace_stops
| task_stop_workspaces rounds i : Task _ (stop_instance_workspaces settings rounds i).

(** ** Transitions *)
Inductive Process : Type :=
| Running {A : Type} (p : worker A).

Record State := mkState { store : Store; workers : list Process }.

Definition initial : State := mkState empty_store [].

Inductive step : State -> State -> Prop :=
| step_request A (m : session A) d ws :
    Api A m -> step (mkState d ws) (mkState (run_session m d).2 ws)
| step_start A (p : worker A) d ws :
    Task A p -> step (mkState d ws) (mkState d (Running p :: ws))
| step_session A B (m : session B) (k : Exn + B -> worker A) d l l' :
    step (mkState d (l ++ Running (Session m k) :: l'))
      (mkState (run_session m d).2 (l ++ Running (k (run_session m d).1) :: l'))
| step_answer A R (q : Query R) (k : Exn + R -> worker A) r d l l' :
    step (mkState d (l ++ Running (Ask q k) :: l')) (mkState d (l ++ Running (k r) :: l'))
| step_end p d l l' : step (mkState d (l ++ p :: l')) (mkState d (l ++ l')).

Definition Reachable (s : State) : Prop := rtc step initial s.

(** ** Every session of the system keeps the store sound *)
Lemma api_keeps A (m : session A) : Api A m -> Keeps m.
Proof.
  destruct 1.
  - by apply keeps_read_only.
  - apply create_system_job_keeps. known_step.
  - apply database_create_keeps.
  - apply database_update_keeps.
  - apply database_delete_keeps.
  - apply instance_create_keeps.
  - apply instance_request_deletion_keeps.
  - apply instance_request_sync_keeps.
  - apply instance_request_start_keeps.
  - apply instance_request_stop_keeps.
  - apply create_and_request_update_keeps.
  - apply member_create_keeps.
  - apply member_update_role_keeps.
  - apply member_request_deletion_keeps.
  - apply template_create_keeps.
  - apply template_update_keeps.
  - apply template_delete_keeps.
  - apply template_request_sync_keeps.
  - apply image_create_keeps.
  - apply image_delete_keeps.
  - apply parameter_create_keeps.
  - apply parameter_update_keeps.
  - apply parameter_delete_keeps.
  - apply put_keeps.
  - apply assignment_request_deletion_keeps.
  - apply workspace_create_keeps.
  - apply workspace_update_keeps.
  - apply workspace_request_deletion_keeps.
Qed.

Lemma step_tasks_sound rounds name task j :
  In (name, task) (step_tasks rounds) -> sound_prog (task j).
Proof.
  unfold step_tasks. intros Hin.
  repeat (destruct Hin as [E | Hin]; [injection E as <- <- |]); [.. | destruct Hin].
  - apply step_01_create_schema_sound.
  - apply step_02_create_instance_sound.
  - apply step_03_bootstrap_admin_sound.
  - apply step_01_update_instance_sound.
  - apply step_02_cleanup_users_sound.
  - apply step_01_start_instance_sound.
  - apply step_01_stop_workspaces_sound.
  - apply step_02_stop_instance_sound.
  - apply step_01_remove_workspaces_sound.
  - apply step_02_remove_instance_sound.
  - apply step_03_remove_schema_sound.
  - apply step_04_remove_local_configuration_sound.
  - apply step_01_create_workspace_sound.
  - apply step_01_update_workspace_sound.
  - apply step_01_delete_workspace_sound.
  - apply step_01_sync_database_sound.
  - apply step_01_sync_template_sound.
  - apply step_01_create_template_sound.
  - apply step_01_delete_template_sound.
Qed.

Lemma task_sound A (p : worker A) : Task A p -> sound_prog p.
Proof.
  destruct 1 as [rounds name task j Hin | | | | rounds i].
  - by eapply step_tasks_sound.
  - apply retry_job_executions_sound.
  - apply check_instance_states_sound.
  - apply dispatch_daily_workspace_stops_sound.
  - apply stop_instance_workspaces_sound.
Qed.

(** ** The invariant of the system *)
Definition sound_process (w : Process) : Prop := match w with Running p => sound_prog p end.
Record SoundState (s : State) : Prop := {
  sound_store : Sound (store s);
  sound_workers : Forall sound_process (workers s)
}.

Lemma initial_sound : SoundState initial.
Proof.
  split; [split | by constructor].
  - apply integrity_empty.
  - intros [[] ?] o; unfold owner, load_resource; cbn; by rewrite lookup_empty.
  - apply map_Forall_empty.
Qed.

Lemma step_sound s s' : step s s' -> SoundState s -> SoundState s' /\ Evolves (store s) (store s').
Proof.
  destruct 1 as [A m d ws Hm | A p d ws Hp | A B m k d l l' | A R q k r d l l' | p d l l'];
    intros [Hd Hw]; cbn in *.
  - apply api_keeps in Hm. destruct (keeps_run_session m d Hm Hd) as [Hd' He].
    split; [by split | done].
  - split; [| by apply evolves_eq]. split; [done |]. constructor; [| done].
    by apply task_sound.
  - apply Forall_app in Hw as [Hl Hw]. apply Forall_cons in Hw as [[Hm Hk] Hl'].
    destruct (keeps_run_session m d Hm Hd) as [Hd' He].
    split; [| done]. split; [done |]. apply Forall_app. split; [done |].
    constructor; [by apply Hk | done].
  - apply Forall_app in Hw as [Hl Hw]. apply Forall_cons in Hw as [Hq Hl'].
    split; [| by apply evolves_eq]. split; [done |]. apply Forall_app. split; [done |].
    constructor; [by apply Hq | done].
  - apply Forall_app in Hw as [Hl Hw]. apply Forall_cons in Hw as [_ Hl'].
    split; [| by apply evolves_eq]. split; [done |]. by apply Forall_app.
Qed.

Lemma steps_sound s s' : rtc step s s' -> SoundState s -> SoundState s'.
Proof. induction 1; [done |]. intros. by apply IHrtc, (step_sound _ _ H0). Qed.

Lemma reachable_sound_state s : Reachable s -> SoundState s.
Proof. intros Hs. apply (steps_sound _ _ Hs), initial_sound. Qed.

(** ** The history of a job *)

(** The task [next] comes after [task]. *)
Definition goes_to (task next : string) : Prop := exists step, (task, (next, step)) ∈ NEXT_STEPS.
(** How often a job at the task can still advance. *)
Definition advances_left (task : string) : nat :=
  if member task LAST_TASKS then 0
  else if member task [INSTANCE_DELETE_STEP_01_TASK] then 3
  else if member task [INSTANCE_CREATE_STEP_01_TASK; INSTANCE_DELETE_STEP_02_TASK] then 2
  else 1.

Lemma goes_to_left task next : goes_to task next -> (advances_left next < advances_left task)%nat.
Proof.
  intros [step Hin].
  assert (Hall : forallb (fun '(task, (next, _)) => Nat.ltb (advances_left next) (advances_left task))
    NEXT_STEPS = true) by (vm_compute; reflexivity).
  rewrite forallb_forall in Hall. apply list_elem_of_In, Hall in Hin. by apply Nat.ltb_lt.
Qed.
Lemma advances_bounded n task last :
  nsteps goes_to n task last -> (n + advances_left last <= advances_left task)%nat.
Proof. induction 1 as [| n x y z Hxy _ IH]; [done |]. apply goes_to_left in Hxy. lia. Qed.
Lemma advances_left_most task : (advances_left task <= 3)%nat.
Proof. unfold advances_left. repeat case_match; lia. Qed.

(** [Descends first job]: [job] is what steps of its workflow have made of the new job [first]. *)
Definition Descends (first job : JobExecution) : Prop :=
  JobStarts first /\ rtc JobStep first job /\
  (exists n, nsteps goes_to n (job_task_name first) (job_task_name job)) /\
  (job_status job = SUCCESS -> job_task_name job ∈ LAST_TASKS).

Lemma descends_start job : JobStarts job -> Descends job job.
Proof.
  intros Hs. split_and!; [done | done | by exists 0; constructor |].
  destruct Hs as (_ & Hp & _). congruence.
Qed.
Lemma descends_step first job job' : Descends first job -> JobStep job job' -> Descends first job'.
Proof.
  intros (Hs & Hr & [n Hn] & _) Hj. split; [done |]. split; [by eapply rtc_r |].
  destruct Hj as [now _ | now Hst | task step _ Hin | _ Hl | s _ Hst]; cbn; split;
    try (by exists n); try done; try congruence.
  - exists (S n). eapply nsteps_r; [exact Hn | by exists step].
  - by destruct Hst as [-> | ->].
Qed.

Definition JobsDescend (d : Store) : Prop :=
  forall j job, jobs d !! j = Some job -> exists first, Descends first job.
Lemma evolves_descend d d' : Evolves d d' -> JobsDescend d -> JobsDescend d'.
Proof.
  intros He Hd j job' Hj'. specialize (He j). rewrite Hj' in He.
  destruct (jobs d !! j) as [job |] eqn:Hj; cbn in He.
  - destruct (Hd j job Hj) as [first Hf]. destruct He as [-> | He]; [by exists first |].
    exists first. by eapply descends_step.
  - exists job'. by apply descends_start.
Qed.
Lemma reachable_descend s : Reachable s -> JobsDescend (store s).
Proof.
  intros Hs. apply (rtc_ind_r (R := step) (fun s => JobsDescend (store s)) initial); [| | exact Hs].
  - intros j job Hj. cbn in Hj. by rewrite lookup_empty in Hj.
  - intros s1 s2 H1 H2 IH. eapply evolves_descend; [| exact IH].
    apply step_sound; [exact H2 | by apply reachable_sound_state].
Qed.

(** ** Along the life of a job *)

(** [job_steps j s s']: steps from [s] to [s'] on which the job [j] stays in the store. *)
Definition job_steps (j : uuid) : State -> State -> Prop :=
  rtc (fun s s' => step s s' /\ is_Some (jobs (store s') !! j)).

Lemma job_steps_succeeds j s s' job :
  job_steps j s s' -> SoundState s -> jobs (store s) !! j = Some job ->
  SoundState s' /\ exists job', jobs (store s') !! j = Some job' /\ Succeeds job job'.
Proof.
  intros Hs. revert job. induction Hs as [s | s s1 s' [H1 [job1 Hj1]] _ IH]; intros job Hd Hj.
  { split; [done |]. exists job. split; [done | reflexivity]. }
  destruct (step_sound _ _ H1 Hd) as [Hd1 He].
  destruct (IH job1 Hd1 Hj1) as [Hd' (job' & Hj' & Hs')].
  split; [done |]. exists job'. split; [done |]. etrans; [| exact Hs']. by apply (evolves_succeeds _ _ j _ _ He).
Qed.

(** A claim that was granted carries the attempt of its job, which a later claim exceeds. *)
Lemma claim_granted now j task d c d' :
  claim_execution now j task d = inr (Some c, d') ->
  claim_job_id c = j /\ exists job', jobs d' !! j = Some job' /\ job_attempt job' = claim_attempt c.
Proof.
  intros Hc. apply claim_execution_inv in Hc as [[Hn _] | (job & Hj & _ & _ & _ & _ & -> & E)].
  { discriminate. }
  injection E as ->. split; [done |]. autorewrite with jobs. rewrite lookup_alter_eq, Hj.
  by eexists.
Qed.

Lemma claim_exceeds now j task d c d' job :
  claim_execution now j task d = inr (Some c, d') -> jobs d !! j = Some job ->
  (claim_attempt c = job_attempt job + 1)%Z.
Proof.
  intros Hc Hj. apply claim_execution_inv in Hc as [[Hn _] | (job0 & Hj0 & _ & _ & _ & _ & _ & E)].
  { discriminate. }
  injection E as ->. cbn. congruence.
Qed.
End System.
