(* ===== verification/Frames.v ===== *)
(** * Frames: what the sessions of the system leave alone

    A relation of stores that the bookkeeping of claims keeps ([Unseen]) holds of a session when it
    holds of what the session writes itself. The tactics of this file walk through the requests
    and the tasks and leave the sessions that write what the relation looks at. The first use is at
    the end: no database is overbooked, whatever interleaves. *)
From S2P Require Import Prelude Text Models Store Registry Crypto Execution Ownership Claims.
From S2P Require Import Jobs Databases Instances Members Templates Assignments Workspaces.
From S2P Require Import Config Program Coder Worker CoderService InstanceTasks WorkspaceTasks.
From S2P Require Import TemplateTasks InstanceTaskFacts RemoteTaskFacts System.

Class Unseen (R : Store -> Store -> Prop) : Prop := {
  unseen_preorder :: PreOrder R;
  unseen_status s job d : R d (on_resource (set_status s) job d);
  unseen_step s job d : R d (on_resource (set_step s) job d);
  unseen_delete job d : R d (on_resource delete_row job d);
  unseen_job f j d : R d (set_job f j d)
}.

Definition Frame (R : Store -> Store -> Prop) A (m : session A) : Prop :=
  forall d a d', m d = inr (a, d') -> R d d'.

Ltac session_inv_step ::=
  match goal with
  | H : commit _ = inr _ |- _ => apply commit_inr in H; destruct H as [-> ?]
  | H : commit_or _ _ = inr _ |- _ => apply commit_or_inr in H; destruct H as [-> ?]
  | H : raise _ _ = inr _ |- _ => apply raise_inr in H; destruct H as [? ->]
  | H : add_job_execution _ _ _ _ _ _ _ _ _ = inr _ |- _ =>
      apply add_job_execution_inr in H; destruct H as [? ->]
  | _ => action_inv_step
  end.

(** ** The sessions of Execution.v *)
Section Claims.
Context (R : Store -> Store -> Prop) `{!Unseen R}.

Lemma read_only_frame {A} (m : session A) : ReadOnly m -> Frame R A m.
Proof. intros Hm d a d' H. by rewrite (Hm _ _ _ H). Qed.

Lemma claim_execution_frame now j task : Frame R _ (claim_execution now j task).
Proof.
  intros d a d' H. apply claim_execution_inv in H as
    [[_ ->] | (job & _ & _ & _ & _ & _ & -> & _)]; [done |].
  etrans; [| apply unseen_status]. apply unseen_job.
Qed.

Lemma advance_execution_frame c task step mutate :
  (forall ox, Frame R _ (mutate ox)) -> Frame R _ (advance_execution c task step mutate).
Proof.
  intros Hm d a d' H. apply advance_execution_inv in H as
    [(_ & -> & _) | (job & d1 & _ & _ & H & _ & ->)]; [done |].
  unfold advanced. etrans; [| apply unseen_status]. etrans; [| apply unseen_step].
  etrans; [| apply unseen_job]. by eapply Hm.
Qed.

Lemma complete_execution_frame c mutate del :
  (forall ox, Frame R _ (mutate ox)) -> Frame R _ (complete_execution c mutate del).
Proof.
  intros Hm d a d' H. apply complete_execution_inv in H as
    [(_ & -> & _) | (job & d1 & _ & _ & H & _ & ->)]; [done |].
  unfold completed. destruct del.
  - etrans; [| apply unseen_delete]. etrans; [| apply unseen_job]. by eapply Hm.
  - etrans; [| apply unseen_step]. etrans; [| apply unseen_status].
    etrans; [| apply unseen_job]. by eapply Hm.
Qed.

Lemma released_frame s j job d : R d (released s j job d).
Proof. unfold released. etrans; [| apply unseen_status]. apply unseen_job. Qed.

Lemma defer_execution_frame c mutate :
  (forall ox, Frame R _ (mutate ox)) -> Frame R _ (defer_execution c mutate).
Proof.
  intros Hm d a d' H. apply defer_execution_inv in H as
    [(_ & -> & _) | (job & d1 & _ & _ & H & _ & ->)]; [done |].
  etrans; [by eapply Hm | apply released_frame].
Qed.

Lemma fail_execution_frame c mutate : Frame R _ mutate -> Frame R _ (fail_execution c mutate).
Proof.
  intros Hm d a d' H. apply fail_execution_inv in H as
    [(-> & _) | (job & d1 & _ & H & _ & ->)]; [done |].
  etrans; [by eapply Hm | apply released_frame].
Qed.

Lemma prepare_execution_retry_frame stale_before j :
  Frame R _ (prepare_execution_retry stale_before j).
Proof.
  intros d a d' H. apply prepare_execution_retry_inv in H as
    [-> | (job & _ & _ & _ & _ & -> & _)]; [done | apply released_frame].
Qed.

Lemma heartbeat_execution_frame now c : Frame R _ (heartbeat_execution now c).
Proof.
  intros d a d' H. apply heartbeat_execution_inv in H as
    [(_ & -> & _) | (job & _ & _ & _ & ->)]; [done | apply unseen_job].
Qed.

Lemma no_mutation_frame ox : Frame R _ (no_mutation ox).
Proof. intros d a d' H. unfold no_mutation in H. by session_inv. Qed.
End Claims.

(** ** Programs all of whose sessions are in [K] *)
Section Every.
Context (K : forall A, session A -> Prop).
Definition every {A} (p : worker A) : Prop := within K (fun _ _ => True) p.

Lemma every_bind {A B} (p : worker A) (k : A -> worker B) :
  every p -> (forall a, every (k a)) -> every (p ≫= k).
Proof. apply within_bind. Qed.
Lemma every_catch {A} (p : worker A) h : every p -> (forall e, every (h e)) -> every (catch p h).
Proof. apply within_catch. Qed.
Lemma every_returns {A} (r : Exn + A) : every (returns r).
Proof. apply within_returns. Qed.
Lemma every_ask {R} (q : Query R) : every (ask q).
Proof. by apply within_ask. Qed.
Lemma every_sess {A} (m : session A) : K A m -> every (sess m).
Proof. apply within_sess. Qed.
Lemma every_for_each {A S} (xs : list A) (s : S) body :
  (forall x s, every (body x s)) -> every (for_each xs s body).
Proof.
  intros Hb. revert s. induction xs as [|x rest IH]; intros s; [done |].
  apply every_bind; auto.
Qed.
Lemma every_loop {S A} fuel (s : S) (body : S -> worker (A + S)) :
  (forall s, every (body s)) -> every (loop fuel s body).
Proof.
  intros Hb. revert s. induction fuel as [|n IH]; intros s; [done |].
  apply every_bind; [done |]. by intros [a | s'].
Qed.
Lemma every_dispatch task j : every (dispatch task j).
Proof.
  unfold dispatch. case_match; [exact I |]. split; [done |]. intros r. by destruct r as [|[]].
Qed.
End Every.

(** ** Tactics *)

(** [open_request H] and [open_session H] unfold what a request or a session of a task calls. *)
Ltac open_request H :=
  cbv beta zeta delta [set_instance set_template set_workspace set_deployment stored_instance
    stored_template refreshed raise request_instance_update member_get _lock_member
    Members._lock_available_instance Workspaces._lock_available_instance stage_instance_job
    Templates._lock_template Assignments._lock_template Workspaces._lock_template _locked_parameter
    parameter_get image_get bump_revision_if _lock_instance _lock_assignment _stored_assignment
    _require_mutation_available _require_consistent_job _lock_workspace _validate_owner
    _validate_image _validate_modules _ensure_workspace_available _require_remote_template
    _resolve_parameters _lock_idle_instance _request_power_action
    _ensure_no_active_assignments _ensure_no_active_workspaces] in H;
  session_cases.
Ltac open_session H :=
  cbv beta zeta delta [store_started _store_application_name mark_stopped _promote_password
    _store_started_application owned_execution on_instance
    set_instance set_deployment set_workspace _claim_members _claim_cleanup release_members
    _fail_members _defer_members _prepare_bootstrap WorkspaceTasks.store_remote_ids
    _store_remote_ids _finish_deployment _lock_owned_template_target _prepare_deployment
    ensure_deployment _mark_created store_observation _remove_local_assignment
    raise] in H;
  session_cases.

(** [walk] goes through a program, unfolding what it calls; [walk_session] is left with the
    sessions and [walk_frame] with the frames of what they write. *)
Ltac walk_session := fail.
Ltac walk_frame := fail.
Ltac walk_step :=
  match goal with
  | |- every _ (_ ≫= _) => apply every_bind
  | |- every _ (bind _ _) => apply every_bind
  | |- every _ (Done _) => exact I
  | |- every _ (Fail _) => exact I
  | |- forall _, _ => intros ?
  | |- every _ (let _ := _ in _) => cbv zeta
  | |- every _ (Ask _ _) => split; [exact I |]
  | |- every _ (let '(_, _) := ?x in _) => destruct x
  | |- every _ (match ?x with _ => _ end) => destruct x
  | |- every _ (if ?b then _ else _) => destruct b
  | |- every _ (catch _ _) => apply every_catch
  | |- every _ (for_each _ _ _) => apply every_for_each
  | |- every _ (loop _ _ _) => apply every_loop
  | |- every _ (ask _) => apply every_ask
  | |- every _ (returns _) => apply every_returns
  | |- every _ (dispatch _ _) => apply every_dispatch
  | |- every _ (sess _) => apply every_sess; walk_session
  | |- Frame _ _ (claim_execution _ _ _) => apply claim_execution_frame; apply _
  | |- Frame _ _ (advance_execution _ _ _ _) => apply advance_execution_frame; [apply _ |]
  | |- Frame _ _ (complete_execution _ _ _) => apply complete_execution_frame; [apply _ |]
  | |- Frame _ _ (complete_workspace _ _ _ _ _) => apply complete_execution_frame; [apply _ |]
  | |- Frame _ _ (defer_execution _ _) => apply defer_execution_frame; [apply _ |]
  | |- Frame _ _ (fail_execution _ _) => apply fail_execution_frame; [apply _ |]
  | |- Frame _ _ (heartbeat_execution _ _) => apply heartbeat_execution_frame; apply _
  | |- Frame _ _ (prepare_execution_retry _ _) => apply prepare_execution_retry_frame; apply _
  | |- Frame _ _ (no_mutation _) => apply no_mutation_frame; apply _
  | |- Frame _ _ _ => walk_frame
  | |- every _ ?p => let h := head_of p in unfold h
  end.
Ltac walk := repeat walk_step.

(** ** The tasks, from their sessions *)
Section Tasks.
Context `{AESGCM} (settings : Settings) (K : forall A, session A -> Prop).
Hypothesis Kclaims : forall now j task, K _ (claim_execution now j task).
Hypothesis Kretry : forall stale_before j, K _ (prepare_execution_retry stale_before j).
Hypothesis Kobserve : forall s observed, K _ (store_observation s observed).
Hypothesis Kgets : forall A (f : Store -> A), K _ (gets f).
Hypothesis Ksteps : forall rounds name task j,
  In (name, task) (step_tasks settings rounds) -> every K (task j).
Hypothesis Kstops : forall rounds i, every K (stop_instance_workspaces settings rounds i).

Lemma retry_each_every stale_before ids a b : every K (retry_each stale_before ids a b).
Proof.
  revert a b. induction ids as [|j rest IH]; intros a b; [done |]. cbn [retry_each].
  apply every_bind; [by apply every_sess |]. intros task. apply every_bind.
  { destruct task; [apply every_dispatch | exact I]. }
  by intros [|].
Qed.
Lemma observe_each_every snapshots a b c : every K (observe_each snapshots a b c).
Proof.
  revert a b c. induction snapshots as [|x rest IH]; intros a b c; [done |]. cbn [observe_each].
  split; [done |]. intros [e | found]; [apply IH |].
  apply every_bind; [by apply every_sess | intros wrote; apply IH].
Qed.
Lemma delay_each_every ids a b : every K (delay_each ids a b).
Proof.
  revert a b. induction ids as [|j rest IH]; intros a b; [done |]. cbn [delay_each].
  split; [done |]. intros [e | u]; apply IH.
Qed.

Lemma task_every A (p : worker A) : Task settings A p -> every K p.
Proof.
  destruct 1 as [rounds name task j Hin | | | | rounds i].
  - by eapply Ksteps.
  - apply every_bind; [apply every_ask |]. intros now. apply every_bind; [by apply every_sess |].
    intros ids. apply retry_each_every.
  - apply every_bind; [by apply every_sess |]. intros snapshots. apply observe_each_every.
  - apply every_bind; [by apply every_sess |]. intros ids.
    apply every_bind; [apply delay_each_every |]. intros [failed dispatched]. by case_match.
  - apply Kstops.
Qed.
End Tasks.

(** ** The system, from the sessions of requests and tasks *)
Section Transitions.
Context `{AESGCM} (settings : Settings) (K : forall A, session A -> Prop).
Hypothesis Kapi : forall A (m : session A), Api A m -> K A m.
Hypothesis Ktask : forall A (p : worker A), Task settings A p -> every K p.

Definition every_process (w : Process) : Prop := match w with Running p => every K p end.
(** A transition runs one session of [K], or none. *)
Definition session_step (d d' : Store) : Prop :=
  d' = d \/ exists A (m : session A) a, K A m /\ m d = inr (a, d').

Lemma run_session_step {A} (m : session A) d : K A m -> session_step d (run_session m d).2.
Proof.
  intros Hm. unfold run_session. destruct (m d) as [e | [a d']] eqn:E; [by left |].
  right. exists A, m, a. done.
Qed.

Lemma step_sessions s s' :
  step settings s s' -> Forall every_process (workers s) ->
  session_step (store s) (store s') /\ Forall every_process (workers s').
Proof.
  destruct 1 as [A m d ws Hm | A p d ws Hp | A B m k d l l' | A R q k r d l l' | p d l l'];
    intros Hw; cbn in *.
  - split; [| done]. by apply run_session_step, Kapi.
  - split; [by left |]. constructor; [by apply Ktask | done].
  - apply Forall_app in Hw as [Hl Hw]. apply Forall_cons in Hw as [[Hm Hk] Hl'].
    split; [by apply run_session_step |]. apply Forall_app. split; [done |].
    constructor; [by apply Hk | done].
  - apply Forall_app in Hw as [Hl Hw]. apply Forall_cons in Hw as [[_ Hk] Hl'].
    split; [by left |]. apply Forall_app. split; [done |]. constructor; [by apply Hk | done].
  - apply Forall_app in Hw as [Hl Hw]. apply Forall_cons in Hw as [_ Hl'].
    split; [by left |]. by apply Forall_app.
Qed.

Lemma reachable_every s : Reachable settings s -> Forall every_process (workers s).
Proof.
  intros Hs. unfold Reachable in Hs. revert s Hs. apply rtc_ind_r; [by constructor |].
  intros s1 s2 _ H2 IH. by apply (step_sessions s1).
Qed.
End Transitions.

(** ** Capacity

    Only three requests and the last step of a deletion touch the allocations or the capacities;
    every other session of the API and of the workers leaves both alone. *)
Definition Thrifty A (m : session A) : Prop :=
  forall d a d', Sound d -> CapacityRespected d -> m d = inr (a, d') -> CapacityRespected d'.

(** What capacity is computed from. *)
Definition stock (d : Store) := (allocations d, databases d).
#[export] Instance stock_unseen : Unseen (fun d d' => stock d' = stock d).
Proof.
  split; [split; [done | by intros d d1 d2 E1 E2; rewrite E2] | ..]; intros;
    unfold on_resource; try (by destruct (job_ref job) as [[[] ?]|]); done.
Qed.
Abbreviation Spare := (Frame (fun d d' => stock d' = stock d)).

Lemma spare_thrifty {A} (m : session A) : Spare A m -> Thrifty A m.
Proof. intros Hm d a d' _ Hc H. apply Hm in H as [= Ha Hb]. by eapply capacity_same. Qed.

(** ** Requests *)
Lemma discard_spare i : Spare _ (_discard_current_job i).
Proof. intros d a d' H. unfold _discard_current_job in H. open_request H; reflexivity. Qed.

Ltac spare_request :=
  intros d a d' Hspare; open_request Hspare;
  repeat match goal with
    | H : _discard_current_job _ _ = inr _ |- _ => apply discard_spare in H; exact H
    end; try reflexivity.

Section Requests.
Context `{AESGCM}.
Variable settings : Settings.

Lemma api_thrifty A (m : session A) : Api A m -> Thrifty A m.
Proof.
  destruct 1;
    try (apply spare_thrifty; unfold create_system_job, instance_request_deletion,
           instance_request_sync, instance_request_start, instance_request_stop,
           create_and_request_update, member_create, member_update_role, member_request_deletion,
           template_create, template_update, template_delete, template_request_sync, image_create,
           image_delete, parameter_create, parameter_update, parameter_delete, put,
           assignment_request_deletion, workspace_create, workspace_update,
           workspace_request_deletion; spare_request; fail).
  - intros d a d' _ Hc Hm. by rewrite (H0 _ _ _ Hm).
  - intros d a d' Hd. eapply database_create_capacity, Hd.
  - intros d a d' Hd. apply database_update_capacity.
  - intros d a d' Hd. apply database_delete_capacity.
  - intros d a d' Hd. apply instance_create_capacity.
Qed.

(** ** Tasks *)

(** Sessions of the tasks that write other tables. *)
Lemma settle_members_stock ids i d : stock (settle_members ids i d) = stock d.
Proof.
  unfold settle_members. cbv zeta. generalize (rows_where
    (fun k m => owned_member ids i k m && (mem_action m == "deleting")) (members d)).
  intros gone.
  assert (Hg : stock (foldr (fun (kr : uuid * Member) d => delete_member_row kr.1 d) d gone) = stock d)
    by by induction gone.
  exact Hg.
Qed.

Lemma finalize_update_spare now next c ids name : Spare _ (_finalize_update now next c ids name).
Proof.
  intros d a d' Hm. unfold _finalize_update, owned_execution, set_instance in Hm.
  session_cases; try reflexivity; exact (settle_members_stock _ _ _).
Qed.

(** The last step of a deletion frees the allocation of the instance. *)
Lemma remove_configuration_thrifty c : Thrifty string (remove_local_configuration c).
Proof.
  intros d a d' _ Hc Hm. unfold remove_local_configuration, owned_execution in Hm.
  session_cases; try done. eapply capacity_frame; [exact Hc | |].
  - intros db. apply count_where_delete_where.
  - intros db b Hk. exists b. split; [exact Hk | lia].
Qed.
Create HintDb stock.
#[local] Hint Resolve finalize_update_spare : stock.
#[local] Hint Resolve read_only_frame managed_database_target_read_only
  stored_kubeconfig_read_only stored_admin_password_read_only instance_snapshot_read_only
  workspace_remote_snapshot_read_only template_source_snapshot_read_only
  assignment_template_id_read_only stable_assignment_ids_read_only removal_snapshot_read_only
  stored_credentials_read_only stock_unseen : stock.

Ltac walk_session ::=
  match goal with
  | |- Thrifty _ (remove_local_configuration _) => apply remove_configuration_thrifty
  | |- _ => apply spare_thrifty
  end.
Ltac walk_frame ::=
  solve [auto with stock | intros ? ? ? Hspare; open_session Hspare; try reflexivity].

Lemma step_tasks_thrifty rounds name task j :
  In (name, task) (step_tasks settings rounds) -> every Thrifty (task j).
Proof.
  unfold step_tasks. intros Hin.
  repeat (destruct Hin as [E | Hin]; [injection E as <- <-; walk |]); [.. | destruct Hin].
Qed.

Lemma task_thrifty A (p : worker A) : Task settings A p -> every Thrifty p.
Proof.
  apply task_every; intros; try (apply spare_thrifty; walk_step); [by eapply step_tasks_thrifty | walk].
Qed.

(** ** The invariant *)
Lemma reachable_capacity s :
  Reachable settings s -> SoundState s /\ CapacityRespected (store s).
Proof.
  intros Hs. pose proof Hs as Hr. unfold Reachable in Hs. revert s Hs Hr. apply (rtc_ind_r (R := step settings)
    (fun s => Reachable settings s -> SoundState s /\ CapacityRespected (store s))).
  - intros _. split; [apply initial_sound |]. intros i b Hi. cbn in Hi; by rewrite lookup_empty in Hi.
  - intros s1 s2 H1 H2 IH _. destruct (IH H1) as [Hd Hc]. split; [by apply (step_sound settings s1) |].
    destruct (step_sessions settings Thrifty api_thrifty task_thrifty s1 s2 H2) as
      [[-> | (A & m & a & Hm & E)] _]; [| exact Hc |].
    + apply (reachable_every settings Thrifty api_thrifty task_thrifty s1 H1).
    + eapply Hm; [apply Hd | exact Hc | exact E].
Qed.
End Requests.
