(* ===== verification/ReferentialActions.v ===== *)
(** * ReferentialActions: the deletions of Store.v are those of the migrated schema

    A deletion in PostgreSQL follows the [ON DELETE] actions of the foreign keys; Store.v writes
    them out. Here they are compared with what the catalogue of the migration says. *)
From S2P Require Import Prelude Text Models Store Json Ddl InitialSchema SchemaRows SchemaEquivalence.
From S2P Require Import Ownership Concrete.
From Stdlib Require Import Ascii String.
Open Scope string_scope.

(** ** The foreign keys of the migrated schema *)
Definition initial_actions : list (string * string * string * string * OnDelete) :=
  [("instances", "job_id", "job_executions", "id", SET_NULL);
   ("templates", "job_id", "job_executions", "id", SET_NULL);
   ("database_allocations", "database_id", "databases", "id", RESTRICT);
   ("database_allocations", "instance_id", "instances", "id", RESTRICT);
   ("instance_kubernetes", "instance_id", "instances", "id", CASCADE);
   ("members", "instance_id", "instances", "id", CASCADE);
   ("template_assignments", "instance_id", "instances", "id", CASCADE);
   ("template_assignments", "job_id", "job_executions", "id", SET_NULL);
   ("template_assignments", "template_id", "templates", "id", RESTRICT);
   ("template_images", "template_id", "templates", "id", CASCADE);
   ("template_parameters", "template_id", "templates", "id", CASCADE);
   ("template_deployments", "assignment_id", "template_assignments", "id", CASCADE);
   ("template_parameter_system_values", "parameter_id", "template_parameters", "id", CASCADE);
   ("workspaces", "image_id", "template_images", "id", RESTRICT);
   ("workspaces", "instance_id", "instances", "id", CASCADE);
   ("workspaces", "job_id", "job_executions", "id", SET_NULL);
   ("workspaces", "member_id", "members", "id", CASCADE);
   ("workspaces", "template_id", "templates", "id", RESTRICT)].
Lemma upgrade_actions c :
  migrate upgrade empty_catalog = Some c -> foreign_actions c = initial_actions.
Proof. intros Hc. unfold foreign_actions. rewrite (upgrade_tables c Hc). reflexivity. Qed.

(** ** Rows *)
Lemma rows_of_lookup {R} (f : uuid -> R -> Row) m i : rows_of f m !! i = f i <$> m !! i.
Proof. unfold rows_of. rewrite map_lookup_imap. by destruct (m !! i). Qed.

Section Rows.
Variables (stamp : string -> uuid -> string -> time) (d : Store).
Abbreviation data := (sql_rows stamp d).

(** The tables of the schema, and those with an identifier of their own. *)
Definition stored : list string :=
  ["databases"; "job_executions"; "instances"; "templates"; "database_allocations";
   "instance_kubernetes"; "members"; "template_assignments"; "template_images";
   "template_parameters"; "template_deployments"; "template_parameter_system_values"; "workspaces"].
Lemma stored_only s : s ∉ stored -> data s = ∅.
Proof.
  unfold stored. rewrite !not_elem_of_cons. intros Hs. unfold sql_rows.
  rewrite !(proj2 (String.eqb_neq s _)) by tauto. reflexivity.
Qed.
Lemma stored_in s j : is_Some (data s !! j) -> s ∈ stored.
Proof.
  intros Hj. destruct (decide (s ∈ stored)) as [Hs | Hs]; [done |].
  rewrite stored_only, lookup_empty in Hj by done. by destruct Hj.
Qed.

Definition identified : list string :=
  ["databases"; "job_executions"; "instances"; "templates"; "members"; "template_assignments";
   "template_images"; "template_parameters"].
Lemma identified_id s k row : s ∈ identified -> data s !! k = Some row -> field "id" row = VUuid k.
Proof.
  unfold identified. intros Hs H.
  repeat (apply elem_of_cons in Hs as [-> | Hs];
    [cbn in H; rewrite rows_of_lookup in H; apply fmap_Some in H as (r & _ & ->); reflexivity |]).
  by apply elem_of_nil in Hs.
Qed.
Lemma refers_id t column row k :
  t ∈ identified ->
  refers data t "id" column row k <-> is_Some (data t !! k) /\ field column row = VUuid k.
Proof.
  intros Ht. split.
  - intros (_ & row' & Hk & Hf). split; [by eexists |]. by rewrite <- Hf, (identified_id t k).
  - intros ([row' Hk] & Hf). split; [by rewrite Hf |]. exists row'. split; [done |].
    by rewrite Hf, (identified_id t k).
Qed.
Lemma actions_id s column t target action :
  (s, column, t, target, action) ∈ initial_actions -> target = "id" /\ t ∈ identified.
Proof.
  unfold initial_actions. intros H.
  repeat (apply elem_of_cons in H as [[= -> -> -> -> ->] | H];
    [split; [done | unfold identified; set_solver] |]).
  by apply elem_of_nil in H.
Qed.
End Rows.

(** The references that cascade: table, column and target table. *)
Definition cascading : list (string * string * string) :=
  omap (fun '(s, column, t, _, action) =>
    match action with CASCADE => Some (s, column, t) | _ => None end) initial_actions.
Lemma cascading_in s column t target :
  (s, column, t, target, CASCADE) ∈ initial_actions <-> (s, column, t) ∈ cascading /\ target = "id".
Proof.
  unfold cascading. rewrite list_elem_of_omap. split.
  - intros H. destruct (actions_id _ _ _ _ _ H) as [-> _]. split; [| done]. by eexists (_, _, _, _, _).
  - intros [([[[[s' column'] t'] target'] []] & H & E) ->]; simplify_eq.
    by destruct (actions_id _ _ _ _ _ H) as [-> _].
Qed.

(** ** From what is gone to what the schema deletes *)
Section Root.
Variables (c : Catalog) (stamp : string -> uuid -> string -> time) (d d' : Store).
Hypothesis Hc : foreign_actions c = initial_actions.
Variables (table : string) (i : uuid).
Abbreviation data := (sql_rows stamp d).
Abbreviation data' := (sql_rows stamp d').
Definition gone (s : string) (j : uuid) : Prop :=
  (s = table /\ j = i) \/ (is_Some (data s !! j) /\ data' s !! j = None).

Hypothesis Hroot : data' table !! i = None.
Hypothesis Hcascade : Forall (fun '(s, column, t) => forall j row k,
  data s !! j = Some row -> field column row = VUuid k -> is_Some (data t !! k) -> gone t k ->
  data' s !! j = None) cascading.
Hypothesis Hsound : Forall (fun s => forall j,
  is_Some (data s !! j) -> data' s !! j = None -> doomed c data table i s j) stored.

Lemma doomed_gone s j : doomed c data table i s j <-> gone s j.
Proof.
  split.
  - induction 1 as [| s column t target j row k Hin Hrow Hr _ IH]; [by left |]. right.
    rewrite Hc in Hin. destruct (actions_id _ _ _ _ _ Hin) as [-> Ht].
    apply refers_id in Hr as [Hk Hf]; [| done]. split; [by eexists |].
    apply cascading_in in Hin as [Hin _]. rewrite Forall_forall in Hcascade.
    by apply (Hcascade _ Hin j row k).
  - intros [[-> ->] | [Hs Hj]]; [apply doomed_root |].
    rewrite Forall_forall in Hsound. apply Hsound; [by eapply stored_in | done | done].
Qed.

(** A deletion that only deletes. *)
Definition loses : Prop := forall s j, data' s !! j = None \/ data' s !! j = data s !! j.
Lemma loses_stored :
  Forall (fun s => forall j, data' s !! j = None \/ data' s !! j = data s !! j) stored -> loses.
Proof.
  intros Hstored s j. rewrite Forall_forall in Hstored.
  destruct (decide (s ∈ stored)) as [Hs | Hs]; [by apply Hstored |]. right. by rewrite !stored_only.
Qed.
Lemma deleted_by :
  table <> "job_executions" -> loses ->
  (forall j, data' "job_executions" !! j = data "job_executions" !! j) ->
  deleted c data table i data'.
Proof.
  intros Ht Hsame Hjobs s j. rewrite doomed_gone. split.
  - intros [[-> ->] | [_ Hj]]; done.
  - intros Hg. destruct (data s !! j) as [row |] eqn:E.
    + exists row. split.
      { destruct (Hsame s j) as [Hj | ->]; [| done]. destruct Hg. right. by rewrite E, Hj. }
      intros column. split; [| done]. intros (t & target & k & Hin & _ & Hd). exfalso.
      rewrite Hc in Hin.
      assert (t = "job_executions") as ->.
      { unfold initial_actions in Hin. set_solver. }
      apply doomed_gone in Hd as [[? _] | [[row' Hk] Hk']]; [done |]. congruence.
    + destruct (Hsame s j) as [Hj | ->]; [exact Hj | exact E].
Qed.

Lemma cascades s column t j row k :
  (s, column, t) ∈ cascading -> data s !! j = Some row -> field column row = VUuid k ->
  is_Some (data t !! k) -> doomed c data table i t k -> doomed c data table i s j.
Proof.
  intros Hin Hrow Hf Hk Hd. assert (Ha : (s, column, t, "id", CASCADE) ∈ initial_actions).
  { by apply cascading_in. }
  eapply doomed_cascade; [by rewrite Hc | done | | done].
  apply refers_id; [by eapply actions_id | done].
Qed.
End Root.

(** [row_cases] goes through the tables of a lookup. *)
Ltac at_store :=
  repeat match goal with
  | H : context [sql_rows] |- _ => progress cbn [sql_rows String.eqb Ascii.eqb Bool.eqb] in H
  | |- context [sql_rows] => progress cbn [sql_rows String.eqb Ascii.eqb Bool.eqb]
  end;
  repeat match goal with
  | H : context [rows_of _ _ !! _] |- _ => rewrite rows_of_lookup in H
  | |- context [rows_of _ _ !! _] => rewrite rows_of_lookup
  end.

(** [settle] decides what is left of a lookup after a deletion, from what is known of the row. *)
Ltac settle_step :=
  match goal with
  | H : _ \/ _ |- _ => destruct H
  | H : _ /\ _ |- _ => destruct H
  | H : is_Some _ |- _ => destruct H
  | H : ?x = ?x |- _ => clear H
  | H : _ <$> _ = Some _ |- _ => apply fmap_Some in H
  | H : _ <$> _ = None |- _ => apply fmap_None in H
  | H : exists _, _ |- _ => destruct H
  | H : delete _ _ !! _ = None |- _ => apply lookup_delete_None in H
  | H : ?a = Some _, H' : context [?a] |- _ => rewrite H in H'; cbn in H'
  | H : ?a = Some _ |- context [?a] => rewrite H; cbn
  | |- _ <$> _ = None => apply fmap_None
  | |- delete _ _ !! _ = None => apply lookup_delete_None
  | |- context [delete ?i _ !! ?i] => rewrite lookup_delete_eq; cbn
  | |- context [delete_where _ _ !! _] => rewrite lookup_delete_where
  | H : context [delete_where _ _ !! _] |- _ => rewrite lookup_delete_where in H
  | |- context [omap _ _ !! _] => rewrite lookup_omap
  | H : context [omap _ _ !! _] |- _ => rewrite lookup_omap in H
  | H : ?x = ?y |- _ => discriminate H || (subst x || subst y)
  | H : context [bool_decide ?P] |- _ => destruct (bool_decide_reflect P); cbn in H
  | |- context [bool_decide ?P] => destruct (bool_decide_reflect P); cbn
  end.
Ltac settle := unfold system_values in *; cbn in *; repeat settle_step; try congruence; auto.

(** [cascade_by column t k]: the row goes because its [column] names the row [k] of [t]. *)
Ltac in_schema := refine (bool_decide_unpack _ _); vm_compute; exact I.
Ltac found :=
  at_store; cbn; unfold system_values; rewrite ?lookup_omap;
  repeat match goal with H : ?a = Some _ |- context [?a] => rewrite H; cbn end;
  first [reflexivity | eexists; reflexivity].
Ltac cascade_by column t k :=
  lazymatch goal with
  | Hc : foreign_actions _ = _ |- doomed _ _ _ _ ?s _ =>
      eapply (cascades _ _ _ Hc _ _ s column t _ _ k);
        [in_schema | found | reflexivity | found | try apply doomed_root]
  end.

(** ** Maps that lost some rows *)
Definition shrunk {R} (m' m : gmap uuid R) (j : uuid) : Prop := m' !! j = None \/ m' !! j = m !! j.
Create HintDb shrunk discriminated.
Lemma shrunk_refl {R} (m : gmap uuid R) j : shrunk m m j.
Proof. by right. Qed.
Lemma shrunk_delete {R} i (m : gmap uuid R) j : shrunk (delete i m) m j.
Proof. unfold shrunk. rewrite lookup_delete. case_decide; auto. Qed.
Lemma shrunk_where {R} p (m : gmap uuid R) j : shrunk (delete_where p m) m j.
Proof. unfold shrunk. rewrite lookup_delete_where. destruct (m !! j); cbn; [case_match |]; auto. Qed.
Lemma shrunk_omap {R S} (f : R -> option S) m' m j :
  shrunk m' m j -> shrunk (omap f m') (omap f m) j.
Proof. unfold shrunk. rewrite !lookup_omap. by intros [-> | ->]; auto. Qed.
Lemma shrunk_fmap {R S} (f : R -> S) m' m j :
  shrunk m' m j -> f <$> m' !! j = None \/ f <$> m' !! j = f <$> m !! j.
Proof. by intros [-> | ->]; auto. Qed.
#[export] Hint Resolve shrunk_refl shrunk_delete shrunk_where shrunk_omap : shrunk.

(** The obligations of [deleted_by], table by table. *)
Ltac cases_of_rows := rewrite !Forall_cons; split_and!; [.. | by apply Forall_nil]; intros j.
Ltac cascades_settle :=
  cbv [cascading initial_actions omap list_omap]; cases_of_rows;
  intros row k Hrow Hf Hk Hg; unfold gone in Hg; at_store;
  apply fmap_Some in Hrow as (r & Hr & ->); cbn in Hf; injection Hf as <-; settle.
Ltac reasons_settle :=
  unfold stored; cases_of_rows; intros [row Hrow] Hj; at_store;
  apply fmap_Some in Hrow as (r & Hr & ->); settle.
Ltac others_settle :=
  unfold stored; cases_of_rows; at_store;
  first [right; reflexivity | apply shrunk_fmap; unfold system_values; cbn; auto with shrunk].

(** What is left: why every row that goes is deleted by the schema. *)
Ltac only_deletes Hc :=
  match goal with |- ?goal /\ loses ?stamp ?d ?d' =>
    cut (loses stamp d d');
      [ let Hl := fresh in intros Hl; split; [| exact Hl];
        apply deleted_by;
          [ exact Hc
          | at_store; cbn; by rewrite lookup_delete_eq
          | clear Hl; cascades_settle
          | clear Hl; reasons_settle; try apply doomed_root
          | discriminate
          | exact Hl
          | intros j; reflexivity ]
      | apply loses_stored; others_settle ]
  end.

Section Deletions.
Variables (c : Catalog) (stamp : string -> uuid -> string -> time) (d : Store) (i : uuid).
Hypothesis Hc : foreign_actions c = initial_actions.
Abbreviation deletes table d' :=
  (deleted c (sql_rows stamp d) table i (sql_rows stamp d') /\ loses stamp d d').

Lemma instance_deleted : is_Some (instances d !! i) -> deletes "instances" (delete_instance_row i d).
Proof.
  intros [x Hi]. only_deletes Hc.
  - cascade_by "instance_id" "instances" j.
  - cascade_by "instance_id" "instances" (mem_instance_id r).
  - cascade_by "instance_id" "instances" (asg_instance_id r).
  - destruct (assignments d !! dep_assignment_id r) as [a |] eqn:Ha; settle.
    cascade_by "assignment_id" "template_assignments" (dep_assignment_id r).
    cascade_by "instance_id" "instances" (asg_instance_id a).
  - cascade_by "instance_id" "instances" (ws_instance_id r).
  - destruct (members d !! ws_member_id r) as [m |] eqn:Hm; settle.
    cascade_by "member_id" "members" (ws_member_id r).
    cascade_by "instance_id" "instances" (mem_instance_id m).
Qed.

Lemma member_deleted : is_Some (members d !! i) -> deletes "members" (delete_member_row i d).
Proof.
  intros [x Hi]. only_deletes Hc.
  - cascade_by "member_id" "members" (ws_member_id r).
Qed.

Lemma assignment_deleted :
  is_Some (assignments d !! i) -> deletes "template_assignments" (delete_assignment_row i d).
Proof.
  intros [x Hi]. only_deletes Hc.
  - cascade_by "assignment_id" "template_assignments" (dep_assignment_id r).
Qed.

Lemma template_deleted : is_Some (templates d !! i) -> deletes "templates" (delete_template_row i d).
Proof.
  intros [x Hi]. only_deletes Hc.
  - cascade_by "template_id" "templates" (img_template_id r).
  - cascade_by "template_id" "templates" (par_template_id r).
  - destruct (parameters d !! j) as [p |] eqn:Hp; settle.
    cascade_by "parameter_id" "template_parameters" j.
    cascade_by "template_id" "templates" (par_template_id p).
Qed.

Lemma parameter_deleted :
  is_Some (parameters d !! i) ->
  deletes "template_parameters" (d <| parameters := delete i (parameters d) |>).
Proof.
  intros [x Hi]. only_deletes Hc.
  - rewrite lookup_delete in Hj. case_decide; [subst i | by rewrite Hr in Hj].
    rewrite Hi in Hr. cbn in Hr. cascade_by "parameter_id" "template_parameters" j.
Qed.

(** Nothing cascades from images and databases. *)
Lemma image_deleted :
  is_Some (images d !! i) -> deletes "template_images" (d <| images := delete i (images d) |>).
Proof. intros [x Hi]. only_deletes Hc. Qed.
Lemma database_deleted :
  is_Some (databases d !! i) -> deletes "databases" (d <| databases := delete i (databases d) |>).
Proof. intros [x Hi]. only_deletes Hc. Qed.
End Deletions.

(** ** Deletion of a job *)
Definition job_columns : list (string * string) :=
  [("instances", "job_id"); ("templates", "job_id"); ("template_assignments", "job_id");
   ("workspaces", "job_id")].

(** A row that differs from another one in one column. *)
Definition differs_in (column : string) (row row' : Row) : Prop :=
  Forall2 (fun p p' => p.1 = p'.1 /\ (p.1 <> column -> p.2 = p'.2)) row row'.
Lemma differs_field column row row' other :
  differs_in column row row' -> other <> column -> field other row' = field other row.
Proof.
  intros H Hne. induction H as [| [k v] [k' v'] row row' [Hk Hv] _ IH]; [done |]. cbn in *. subst k'.
  destruct (String.eqb_spec k other) as [-> |]; [symmetry; auto | exact IH].
Qed.

Section Jobs.
Variables (c : Catalog) (stamp : string -> uuid -> string -> time) (d : Store) (i : uuid).
Hypothesis Hc : foreign_actions c = initial_actions.
Hypothesis Hi : is_Some (jobs d !! i).
Abbreviation data := (sql_rows stamp d).
Abbreviation data' := (sql_rows stamp (delete_job_row i d)).

Lemma doomed_job s j : doomed c data "job_executions" i s j <-> s = "job_executions" /\ j = i.
Proof.
  split; [| intros [-> ->]; apply doomed_root].
  induction 1 as [| s column t target j row k Hin _ _ _ [-> _]]; [done |]. exfalso.
  rewrite Hc in Hin. unfold initial_actions in Hin. set_solver.
Qed.
Lemma cleared_job s column row :
  cleared c data "job_executions" i s column row <->
  (s, column) ∈ job_columns /\ field column row = VUuid i.
Proof.
  split.
  - intros (t & target & k & Hin & Hr & [-> ->]%doomed_job). rewrite Hc in Hin.
    destruct (actions_id _ _ _ _ _ Hin) as [-> Ht]. apply refers_id in Hr as [_ Hf]; [| done].
    split; [| done]. unfold initial_actions in Hin. unfold job_columns. set_solver.
  - intros [Hs Hf]. exists "job_executions", "id", i. split_and!; [| | by apply doomed_job].
    + rewrite Hc. unfold initial_actions. unfold job_columns in Hs. set_solver.
    + apply refers_id; [unfold identified; set_solver |]. split; [| done]. at_store.
      destruct Hi as [job ->]. by eexists.
Qed.

(** What [deleted] says of a row that stays. *)
Definition stays (s : string) (j : uuid) : Prop :=
  match data s !! j with
  | None => data' s !! j = None
  | Some row => exists row', data' s !! j = Some row' /\ forall column,
      (cleared c data "job_executions" i s column row -> field column row' = VNull) /\
      (~ cleared c data "job_executions" i s column row -> field column row' = field column row)
  end.
Lemma stays_same s j :
  data' s !! j = data s !! j -> (forall column, (s, column) ∉ job_columns) -> stays s j.
Proof.
  unfold stays. intros -> Hs. destruct (data s !! j) as [row |]; [| done]. exists row.
  split; [done |]. intros column. rewrite cleared_job. split; [| done]. intros [Hin _]. by destruct (Hs column).
Qed.
Lemma stays_cleared {R} (f : uuid -> R -> Row) (get : R -> option uuid) (clear : R -> R) m s j :
  data s = rows_of f m ->
  data' s = rows_of f (update_where (fun _ r => get r == Some i) clear m) ->
  (s, "job_id") ∈ job_columns ->
  (forall k r, field "job_id" (f k r) = or_null VUuid (get r)) ->
  (forall k r, field "job_id" (f k (clear r)) = VNull) ->
  (forall k r, differs_in "job_id" (f k r) (f k (clear r))) -> stays s j.
Proof.
  intros Hm Hm' Hs Hget Hclear Hdiff. unfold stays. rewrite Hm, Hm', !rows_of_lookup, lookup_update_where.
  destruct (m !! j) as [r |]; [| done]. cbn. eexists. split; [reflexivity |].
  intros column. rewrite cleared_job.
  destruct (decide (column = "job_id")) as [-> | Hne].
  - rewrite Hget. case_bool_decide as E; [rewrite Hclear, E; cbn; tauto |].
    rewrite Hget. destruct (get r) as [k |]; cbn; [| by split].
    split; [| done]. intros [_ [= ->]]. by destruct E.
  - assert (Hn : (s, column) ∉ job_columns).
    { unfold job_columns. set_solver. }
    split; [by intros [? _]; destruct Hn |]. intros _.
    case_bool_decide; [| done]. by apply (differs_field "job_id").
Qed.

Lemma job_deleted : deleted c data "job_executions" i data'.
Proof.
  intros s j. rewrite doomed_job. split.
  { intros [-> ->]. at_store. cbn. by rewrite lookup_delete_eq. }
  intros Hs. change (stays s j). destruct (decide (s ∈ stored)) as [Hin | Hin].
  2: { unfold stays. by rewrite !stored_only. }
  unfold stored in Hin.
  repeat (apply elem_of_cons in Hin as [-> | Hin];
    [try (apply stays_same; [reflexivity | unfold job_columns; set_solver]) |]);
    [.. | by apply elem_of_nil in Hin].
  - apply stays_same; [| unfold job_columns; set_solver]. at_store. cbn.
    rewrite lookup_delete_ne; [done |]. intros <-. by destruct Hs.
  - by eapply (stays_cleared (instance_row stamp) inst_job_id (fun r => r <| inst_job_id := None |>));
      [reflexivity | reflexivity | in_schema | | | repeat constructor; done].
  - by eapply (stays_cleared (template_row stamp) tpl_job_id (fun r => r <| tpl_job_id := None |>));
      [reflexivity | reflexivity | in_schema | | | repeat constructor; done].
  - by eapply (stays_cleared (assignment_row stamp) asg_job_id (fun r => r <| asg_job_id := None |>));
      [reflexivity | reflexivity | in_schema | | | repeat constructor; done].
  - by eapply (stays_cleared (workspace_row stamp) ws_job_id (fun r => r <| ws_job_id := None |>));
      [reflexivity | reflexivity | in_schema | | | repeat constructor; done].
Qed.
End Jobs.

(** ** Foreign keys that forbid a deletion *)
Definition reached_once (l : list string) : list string :=
  (l ++ omap (fun '(s, _, t) => if member t l then Some s else None) cascading)%list.
(** The tables that the deletion of a row of [table] can reach. *)
Definition reached (table : string) : list string := reached_once (reached_once [table]).
(** They are closed under cascades, and none of them restricts another. *)
Definition settled (table : string) : bool :=
  forallb (fun '(s, _, t) => negb (member t (reached table)) || member s (reached table)) cascading
  && forallb (fun '(s, _, t, _, action) =>
       match action with
       | RESTRICT => negb (member t (reached table) && member s (reached table))
       | _ => true
       end) initial_actions.
Lemma all_settled : forallb settled stored = true.
Proof. vm_compute. reflexivity. Qed.

(** ** What a catalogue enforces, apart from references and with them *)
Lemma forall_omap {A B} (f : A -> option B) (P : B -> Prop) l :
  Forall P (omap f l) <-> Forall (fun a => match f a with Some b => P b | None => True end) l.
Proof.
  induction l as [| a l IH]; cbn; [by rewrite !Forall_nil |]. rewrite Forall_cons, <- IH.
  destruct (f a); [by rewrite Forall_cons | tauto].
Qed.
Lemma forall_concat {A} (P : A -> Prop) l : Forall P (List.concat l) <-> Forall (Forall P) l.
Proof.
  induction l as [| x l IH]; cbn; [by rewrite !Forall_nil |]. by rewrite Forall_app, Forall_cons, IH.
Qed.
Definition rows_enforced (c : Catalog) (data : string -> gmap uuid Row) : Prop :=
  Forall (fun nt => map_Forall (fun _ row => row_holds nt.2 row = true) (data nt.1) /\
                    Forall (fun key => unique_rows key (data nt.1)) (unique_keys nt.2))
    (catalog_tables c).
Definition references_enforced (c : Catalog) (data : string -> gmap uuid Row) : Prop :=
  Forall (fun '(s, column, t, target, _) => reference_holds data (data s) (column, t, target))
    (foreign_actions c).
Lemma enforced_parts c data :
  enforced c data <-> rows_enforced c data /\ references_enforced c data.
Proof.
  unfold enforced, rows_enforced, references_enforced, foreign_actions.
  rewrite forall_concat, Forall_map, <- Forall_and. apply Forall_proper; [| done].
  intros [s t]. unfold table_holds, foreign_keys. cbn [fst snd].
  match goal with |- _ /\ _ /\ ?x <-> (_ /\ _) /\ ?y => assert (x <-> y); [| tauto] end.
  rewrite !forall_omap. apply Forall_proper; [| done]. by intros [].
Qed.

Section Restrict.
Variables (c : Catalog) (stamp : string -> uuid -> string -> time) (d d' : Store).
Variables (table : string) (i : uuid).
Hypothesis Hc : foreign_actions c = initial_actions.
Hypothesis Ht : table ∈ stored.
Abbreviation data := (sql_rows stamp d).
Abbreviation data' := (sql_rows stamp d').

Lemma table_settled : settled table = true.
Proof. pose proof all_settled as H. rewrite forallb_forall in H. by apply H, list_elem_of_In. Qed.

Lemma doomed_reached s j : doomed c data table i s j -> s ∈ reached table.
Proof.
  pose proof table_settled as H. apply andb_true_iff in H as [H _]. rewrite forallb_forall in H.
  induction 1 as [| s column t target j row k Hin _ _ _ IH].
  { unfold reached, reached_once. apply elem_of_app. left. apply elem_of_app. left. by left. }
  rewrite Hc in Hin. apply cascading_in in Hin as [Hin _].
  apply list_elem_of_In, H in Hin. unfold member in Hin. bool_hyps.
  destruct Hin as [E | E]; bool_hyps; done.
Qed.

Lemma restricted_survives s column t target j k :
  (s, column, t, target, RESTRICT) ∈ initial_actions -> doomed c data table i t k ->
  ~ doomed c data table i s j.
Proof.
  intros Hin Hk%doomed_reached Hj%doomed_reached.
  pose proof table_settled as H. apply andb_true_iff in H as [_ H]. rewrite forallb_forall in H.
  apply list_elem_of_In, H in Hin. unfold member in Hin. by rewrite !bool_decide_eq_true_2 in Hin.
Qed.

Hypothesis (Hdel : deleted c data table i data') (Hloses : loses stamp d d').

Lemma rows_still_enforced : rows_enforced c data -> rows_enforced c data'.
Proof.
  intros Henf. eapply Forall_impl; [exact Henf |]. intros [s t] [Hrows Hkeys]. cbn [fst snd] in *.
  assert (Hsub : forall j row, data' s !! j = Some row -> data s !! j = Some row).
  { intros j row Hj. destruct (Hloses s j) as [E | E]; congruence. }
  split.
  - intros j row Hj%Hsub. by eapply Hrows.
  - eapply Forall_impl; [exact Hkeys |]. intros key Hkey j row Hj%Hsub k row' Hk%Hsub.
    by apply (Hkey j row Hj k row').
Qed.

Lemma references_still_enforced :
  references_enforced c data -> ~ restricted c data table i -> references_enforced c data'.
Proof.
  unfold references_enforced. rewrite Hc, !Forall_forall. intros Href Hfree [[[[s column] t] target] action] Hin.
  specialize (Href _ Hin). cbn in Href |- *. intros j row Hj.
  destruct (Hdel s j) as [Hgone Hstays].
  assert (Hs : ~ doomed c data table i s j) by (intros Hd; by rewrite Hgone in Hj).
  destruct (Hloses s j) as [E | E]; [congruence |]. rewrite E in Hj.
  destruct (Href j row Hj) as [Hn | (k & row' & Hk & Hf)]; [by left |].
  destruct (actions_id _ _ _ _ _ Hin) as [-> Hid].
  assert (Hr : refers data t "id" column row k).
  { apply refers_id; [done |]. rewrite <- Hf, (identified_id stamp d t k) by done. split; [by eexists | done]. }
  assert (Hd : ~ doomed c data table i t k).
  { intros Hd. destruct action.
    - apply Hs. eapply doomed_cascade; [by rewrite Hc | done | done | done].
    - apply Hfree. do 7 eexists. rewrite Hc. eauto.
    - specialize (Hstays Hs). rewrite Hj in Hstays. destruct Hstays as (row'' & Hj'' & Hcol).
      assert (row'' = row) as -> by congruence. destruct (Hcol column) as [Hnull _].
      apply Hr, Hnull. exists t, "id", k. by rewrite Hc. }
  right. destruct (Hdel t k) as [_ Hstays']. specialize (Hstays' Hd). rewrite Hk in Hstays'.
  destruct Hstays' as (row'' & Hk'' & _). exists k, row''. split; [done |].
  destruct (Hloses t k) as [E' | E']; congruence.
Qed.

Lemma restricted_refused : restricted c data table i -> ~ references_enforced c data'.
Proof.
  unfold references_enforced. rewrite Hc, Forall_forall.
  intros (s & column & t & target & j & row & k & Hin & Hj & Hr & Hd) Href. rewrite Hc in Hin.
  specialize (Href _ Hin). cbn in Href. destruct (actions_id _ _ _ _ _ Hin) as [-> Hid].
  pose proof (restricted_survives _ _ _ _ j k Hin Hd) as Hs.
  destruct (Hdel s j) as [_ Hstays]. specialize (Hstays Hs). rewrite Hj in Hstays.
  destruct Hstays as (row' & Hj' & _).
  assert (row' = row) as ->.
  { destruct (Hloses s j) as [E | E]; rewrite E in Hj'; congruence. }
  apply refers_id in Hr as [_ Hf]; [| done].
  destruct (Href j row Hj') as [Hn | (k' & row'' & Hk' & Hf')]; [congruence |].
  rewrite (identified_id stamp d' t k' row'' Hid Hk'), Hf in Hf'. injection Hf' as ->.
  destruct (Hdel t k) as [Hgone _]. by rewrite Hgone in Hk'.
Qed.

Lemma restricted_iff :
  enforced c data -> (enforced c data' <-> ~ restricted c data table i).
Proof.
  rewrite !enforced_parts. intros [Hrows Hrefs]. split.
  - intros [_ H] Hr. by apply restricted_refused in Hr.
  - intros Hr. split; [by apply rows_still_enforced | by apply references_still_enforced].
Qed.
End Restrict.

(** A job is never what keeps a row: the deletion of a job is not restricted, and keeps what
    the schema enforces. *)
Section JobRestrict.
Variables (d : Store) (i : uuid).
Lemma checked_update {R} (check : R -> bool) p f m :
  (forall r, check (f r) = check r) -> Checked check m -> Checked check (update_where p f m).
Proof.
  intros Hf H j r. rewrite lookup_update_where. intros (r0 & Hj & ->)%fmap_Some.
  case_match; [rewrite Hf |]; by eapply H.
Qed.
Lemma unique_update `{EqDecision K} {R} (key : R -> option K) p f m :
  (forall r, key (f r) = key r) -> Unique key m -> Unique key (update_where p f m).
Proof.
  intros Hf H j r Hj k r' Hk. rewrite lookup_update_where in Hj, Hk.
  apply fmap_Some in Hj as (r0 & Hj & ->). apply fmap_Some in Hk as (r1 & Hk & ->).
  specialize (H j r0 Hj k r1 Hk). cbn in H. destruct (p j r0), (p k r1); rewrite ?Hf; exact H.
Qed.
Lemma references_update {R T} (col : R -> option uuid) (target : gmap uuid T) p f m :
  (forall r, col (f r) = col r) -> References col target m -> References col target (update_where p f m).
Proof.
  intros Hf H j r. rewrite lookup_update_where. intros (r0 & Hj & ->)%fmap_Some.
  specialize (H j r0 Hj). cbn in H. destruct (p j r0); rewrite ?Hf; exact H.
Qed.
Lemma references_hold_in {R T} (col : R -> option uuid) (target target' : gmap uuid T) m :
  (forall k, is_Some (target !! k) -> is_Some (target' !! k)) ->
  References col target m -> References col target' m.
Proof. intros Ht H j r Hj. specialize (H j r Hj). cbn in H. destruct (col r); auto. Qed.
Lemma references_cleared {R T} (col : R -> option uuid) (target : gmap uuid T) clear m :
  (forall r, col (clear r) = None) -> References col target m ->
  References col (delete i target) (update_where (fun _ r => col r == Some i) clear m).
Proof.
  intros Hf H j r. rewrite lookup_update_where. intros (r0 & Hj & ->)%fmap_Some.
  specialize (H j r0 Hj). cbn in H. case_bool_decide as E; [by rewrite Hf |].
  destruct (col r0) as [k |]; [| done]. rewrite lookup_delete_ne; [done | congruence].
Qed.
Lemma updated_target {R} p (f : R -> R) m k : is_Some (m !! k) -> is_Some (update_where p f m !! k).
Proof. rewrite lookup_update_where. intros [r ->]. by eexists. Qed.

Lemma job_deletion_keeps : Integrity d -> Integrity (delete_job_row i d).
Proof.
  intros (Hrows & Hkeys & Hrefs). unfold Integrity, RowsChecked, KeysUnique, ReferencesHold in *.
  destruct_and!. match goal with H : map_Forall _ (kubernetes d) |- _ => rename H into Hkube end.
  cbn. split_and!;
    try first
      [ assumption
      | by apply checked_update
      | by apply unique_update
      | by apply references_cleared
      | by apply references_update
      | eapply references_hold_in; [| eassumption]; intros k; apply updated_target
      | apply references_update; [done |]; eapply references_hold_in; [| eassumption];
        intros k; apply updated_target ].
  - by apply map_Forall_delete.
  - intros k r Hk. apply updated_target. by eapply (Hkube k r).
Qed.
End JobRestrict.

(** ** The deletions of the program *)

(** [session.delete(row)] and [delete(...)] of the repositories and tasks, as Store.v writes them
    out. *)
Inductive Deletion (d : Store) : string -> uuid -> Store -> Prop :=
| deletion_instance i :
    is_Some (instances d !! i) -> Deletion d "instances" i (delete_instance_row i d)
| deletion_member i : is_Some (members d !! i) -> Deletion d "members" i (delete_member_row i d)
| deletion_template i :
    is_Some (templates d !! i) -> Deletion d "templates" i (delete_template_row i d)
| deletion_assignment i :
    is_Some (assignments d !! i) ->
    Deletion d "template_assignments" i (delete_assignment_row i d)
| deletion_parameter i :
    is_Some (parameters d !! i) ->
    Deletion d "template_parameters" i (d <| parameters := delete i (parameters d) |>)
| deletion_image i :
    is_Some (images d !! i) ->
    Deletion d "template_images" i (d <| images := delete i (images d) |>)
| deletion_database i :
    is_Some (databases d !! i) ->
    Deletion d "databases" i (d <| databases := delete i (databases d) |>)
| deletion_job i : is_Some (jobs d !! i) -> Deletion d "job_executions" i (delete_job_row i d).

Lemma deletion_stored d table i d' : Deletion d table i d' -> table ∈ stored.
Proof. destruct 1; in_schema. Qed.

Section Follow.
Variables (c : Catalog) (stamp : string -> uuid -> string -> time).
Hypothesis Hc : foreign_actions c = initial_actions.

Lemma deletion_deleted d table i d' :
  Deletion d table i d' ->
  deleted c (sql_rows stamp d) table i (sql_rows stamp d') /\
  (table = "job_executions" /\ d' = delete_job_row i d \/ loses stamp d d').
Proof.
  destruct 1; [| | | | | | | split; [by apply job_deleted | by left]];
    match goal with |- deleted _ (sql_rows _ ?d) _ _ _ /\ _ =>
      enough (Hd : deleted c (sql_rows stamp d) _ _ (sql_rows stamp _) /\ loses stamp d _)
        by (split; [apply Hd | right; apply Hd]) end.
  - by apply instance_deleted.
  - by apply member_deleted.
  - by apply template_deleted.
  - by apply assignment_deleted.
  - by apply parameter_deleted.
  - by apply image_deleted.
  - by apply database_deleted.
Qed.

Lemma job_unrestricted d i :
  is_Some (jobs d !! i) -> ~ restricted c (sql_rows stamp d) "job_executions" i.
Proof.
  intros Hi (s & column & t & target & j & row & k & Hin & _ & _ & Hd).
  apply (doomed_job c stamp d i Hc Hi) in Hd as [-> _]. rewrite Hc in Hin. unfold initial_actions in Hin.
  repeat (apply elem_of_cons in Hin as [E | Hin]; [discriminate E |]). by apply elem_of_nil in Hin.
Qed.
End Follow.

(** C4: The deletions that the model writes out are those that the migrated schema makes. When
    the program deletes a row of an instance, a member, a template, an assignment, a parameter, an
    image, a database or a job, then the rows that go with it are exactly those that the CASCADE
    keys lead to, the columns that become null are exactly those of the SET NULL keys that named
    a row that is gone, and all else stays. The store that is left can be committed exactly when
    no RESTRICT key names a row that is gone. *)
Theorem deletions_follow_the_schema :
  exists c, migrate upgrade empty_catalog = Some c /\
    forall stamp d table i d', Deletion d table i d' ->
      deleted c (sql_rows stamp d) table i (sql_rows stamp d') /\
      (Integrity d -> (Integrity d' <-> ~ restricted c (sql_rows stamp d) table i)).
Proof.
  destruct upgrade_succeeds as [c Hm]. exists c. split; [exact Hm |].
  pose proof (upgrade_actions c Hm) as Hc. intros stamp d table i d' Hd.
  pose proof (deletion_deleted c stamp Hc d table i d' Hd) as [Hdel Hcase].
  split; [exact Hdel |]. intros Hi. destruct Hcase as [[-> ->] | Hl].
  - split; [intros _ | intros _; by apply job_deletion_keeps].
    apply job_unrestricted; [exact Hc | by inversion Hd].
  - rewrite <- (upgrade_enforces c stamp d' Hm).
    apply (restricted_iff c stamp d d' table i Hc); [by eapply deletion_stored | exact Hdel | exact Hl |].
    by apply (upgrade_enforces c stamp d Hm).
Qed.

(** The row of an instance with an allocation cannot be deleted alone. *)
Lemma deletions_follow_the_schema_witness :
  exists c, deleted c (sql_rows (fun _ _ _ => 0%Z) ready_store) "instances" 10
              (sql_rows (fun _ _ _ => 0%Z) (delete_instance_row 10 ready_store)) /\
    ~ ~ restricted c (sql_rows (fun _ _ _ => 0%Z) ready_store) "instances" 10.
Proof.
  destruct deletions_follow_the_schema as (c & _ & H). exists c.
  assert (Hd : Deletion ready_store "instances" 10 (delete_instance_row 10 ready_store))
    by (apply deletion_instance, is_some_true; vm_compute; reflexivity).
  destruct (H (fun _ _ _ => 0%Z) _ _ _ _ Hd) as [Hdel Hiff]. split; [exact Hdel |].
  intros Hn. apply Hiff in Hn; [| apply sound_ready]. revert Hn.
  apply (bool_decide_unpack _). vm_compute. exact I.
Defined.
