(* ===== verification/InstanceRemoval.v ===== *)
(** * InstanceRemoval: the last step of the deletion of an instance

    The step deletes what belongs to the instance table by table. It comes to the deletion of the
    instance alone, once its allocation has gone, and so it can always be committed. *)
From S2P Require Import Prelude Text Models Store Registry Execution Ownership Claims Jobs.
From S2P Require Import Databases Json Ddl InitialSchema SchemaRows SchemaEquivalence.
From S2P Require Import ReferentialActions Crypto Config Program Coder Worker CoderService.
From S2P Require Import InstanceTasks InstanceTaskFacts Instances Concrete.
From Stdlib Require Import Ascii String.
Open Scope string_scope.

(** ** Deleting more than once *)
Lemma delete_where_twice {R} (p q : uuid -> R -> bool) m :
  delete_where p (delete_where q m) = delete_where (fun k r => p k r || q k r) m.
Proof.
  apply map_eq. intros k. rewrite !lookup_delete_where. destruct (m !! k) as [r |]; [| done]. cbn.
  destruct (q k r); cbn; [by rewrite orb_true_r |]. by rewrite orb_false_r.
Qed.
Lemma delete_where_ext {R} (p q : uuid -> R -> bool) m :
  (forall k r, m !! k = Some r -> p k r = q k r) -> delete_where p m = delete_where q m.
Proof.
  intros H. apply map_eq. intros k. rewrite !lookup_delete_where.
  destruct (m !! k) as [r |] eqn:E; [| done]. cbn. by rewrite (H k r E).
Qed.

Definition without_allocation (i : uuid) (d : Store) : Store :=
  d <| allocations := delete_where (fun _ a => alloc_instance_id a == i) (allocations d) |>.

Lemma store_ext d d' :
  jobs d = jobs d' -> instances d = instances d' -> members d = members d' ->
  databases d = databases d' -> allocations d = allocations d' -> kubernetes d = kubernetes d' ->
  templates d = templates d' -> images d = images d' -> parameters d = parameters d' ->
  assignments d = assignments d' -> deployments d = deployments d' ->
  workspaces d = workspaces d' -> d = d'.
Proof. destruct d, d'. cbn. by intros -> -> -> -> -> -> -> -> -> -> -> ->. Qed.

Lemma remove_configuration_eq i d :
  remove_configuration i d = delete_instance_row i (without_allocation i d).
Proof.
  apply store_ext; [reflexivity | reflexivity | | reflexivity | reflexivity | | reflexivity
    | reflexivity | reflexivity | reflexivity | reflexivity |];
    unfold remove_configuration, delete_instance_row, delete_members_where, without_allocation; cbn.
  - rewrite delete_where_twice. apply delete_where_ext. intros k m _. apply orb_diag.
  - apply delete_id, lookup_delete_eq.
  - rewrite !delete_where_twice. apply delete_where_ext. intros k w _. rewrite lookup_delete_where.
    destruct (ws_instance_id w == i); cbn; [done |].
    destruct (members d !! ws_member_id w) as [m |]; cbn; [| done].
    by destruct (mem_instance_id m == i) eqn:E; cbn; rewrite ?E.
Qed.

(** ** The store that the deletion of the instance starts from *)
Lemma references_subset {R T} (col : R -> option uuid) (target : gmap uuid T) p m :
  References col target m -> References col target (delete_where p m).
Proof. intros H j r [Hj _]%lookup_delete_where_some. exact (H j r Hj). Qed.
Lemma checked_subset {R} (check : R -> bool) p m :
  Checked check m -> Checked check (delete_where p m).
Proof. intros H j r [Hj _]%lookup_delete_where_some. exact (H j r Hj). Qed.
Lemma unique_subset `{EqDecision K} {R} (key : R -> option K) p m :
  Unique key m -> Unique key (delete_where p m).
Proof.
  intros H j r [Hj _]%lookup_delete_where_some k r' [Hk _]%lookup_delete_where_some. exact (H j r Hj k r' Hk).
Qed.

Lemma without_allocation_integrity i d : Integrity d -> Integrity (without_allocation i d).
Proof.
  unfold Integrity, RowsChecked, KeysUnique, ReferencesHold. intros (Hr & Hk & Hf). destruct_and!.
  unfold without_allocation; cbn.
  split_and!; first [assumption | by apply checked_subset | by apply unique_subset | by apply references_subset].
Qed.

(** ** The last step *)
Section Step.
Variables (c : Catalog) (stamp : string -> uuid -> string -> time).
Hypothesis Ha : foreign_actions c = initial_actions.
Variables (i : uuid) (d : Store).
Hypothesis (Hi : is_Some (instances d !! i)).

Lemma removal_unrestricted :
  ~ restricted c (sql_rows stamp (without_allocation i d)) "instances" i.
Proof.
  intros (s & column & t & target & j & row & k & Hin & Hj & Hr & Hd). rewrite Ha in Hin.
  pose proof (doomed_reached c stamp (without_allocation i d) "instances" i Ha ltac:(in_schema) t k Hd) as Ht.
  assert (Hcase : s = "database_allocations" /\ column = "instance_id" /\ t = "instances").
  { assert (Hall : forallb (fun '(s, column, t, _, action) =>
      match action with
      | RESTRICT => negb (member t (reached "instances"))
          || bool_decide (s = "database_allocations" /\ column = "instance_id" /\ t = "instances")
      | _ => true end) initial_actions = true) by (vm_compute; reflexivity).
    rewrite forallb_forall in Hall. apply list_elem_of_In, Hall in Hin. unfold member in Hin. bool_hyps.
    destruct Hin as [E | E]; bool_hyps; done. }
  destruct Hcase as (-> & -> & ->). destruct (actions_id _ _ _ _ _ Hin) as [-> _].
  assert (k = i) as ->.
  { inversion Hd as [| s' column' t' target' j' row' k' Hin' H1 H2 H3]; [done |]. exfalso.
    rewrite Ha in Hin'. unfold initial_actions in Hin'.
    repeat (apply elem_of_cons in Hin' as [E | Hin']; [discriminate E |]). by apply elem_of_nil in Hin'. }
  apply refers_id in Hr as [_ Hf]; [| unfold identified; set_solver].
  at_store. apply fmap_Some in Hj as (a & Hj & ->). cbn in Hf. injection Hf as Hf.
  unfold without_allocation in Hj. cbn in Hj. apply lookup_delete_where_some in Hj as [_ Hn].
  rewrite Hf in Hn. by rewrite bool_decide_eq_true_2 in Hn.
Qed.
End Step.

Lemma count_where_rest {R} (p q : uuid -> R -> bool) m :
  count_where p (delete_where q m)
  = (count_where p m - count_where (fun k r => p k r && q k r) m)%Z.
Proof.
  induction m as [|k r m Hk IH] using map_ind; [reflexivity |].
  rewrite !count_where_insert by done.
  assert (Hn : delete_where q m !! k = None) by by rewrite lookup_delete_where, Hk.
  assert (E : delete_where q (<[k := r]> m)
              = if q k r then delete_where q m else <[k := r]> (delete_where q m)).
  { apply map_eq. intros j. rewrite lookup_delete_where, lookup_insert. case_decide as Hj.
    - subst j. cbn. destruct (q k r); [by rewrite Hn | by rewrite lookup_insert_eq].
    - rewrite <- lookup_delete_where. destruct (q k r); [done |]. by rewrite lookup_insert_ne. }
  rewrite E. destruct (q k r); rewrite ?count_where_insert by done; destruct (p k r); cbn; lia.
Qed.

(** ** What the step leaves *)
Section Leaves.
Variables (c : Catalog) (stamp : string -> uuid -> string -> time).
Hypothesis Ha : foreign_actions c = initial_actions.
Variables (i j : uuid) (f : JobExecution -> JobExecution) (d : Store).
Hypothesis Hi : is_Some (instances d !! i).
Abbreviation d1 := (without_allocation i (set_job f j d)).
Abbreviation d' := (remove_configuration i (set_job f j d)).

Lemma rows_same s :
  s <> "job_executions" -> s <> "database_allocations" -> sql_rows stamp d1 s = sql_rows stamp d s.
Proof.
  intros Hs Hne. unfold sql_rows.
  rewrite (proj2 (String.eqb_neq s "job_executions") Hs).
  rewrite (proj2 (String.eqb_neq s "database_allocations") Hne). reflexivity.
Qed.
Lemma rows_before s k row :
  s <> "job_executions" -> sql_rows stamp d1 s !! k = Some row -> sql_rows stamp d s !! k = Some row.
Proof.
  intros Hs Hk. destruct (decide (s = "database_allocations")) as [-> | Hne].
  - at_store. unfold without_allocation in Hk. cbn in Hk.
    apply fmap_Some in Hk as (a & Hk & ->). apply lookup_delete_where_some in Hk as [Hk _].
    by rewrite Hk.
  - by rewrite <- rows_same.
Qed.

Lemma doomed_before s k :
  doomed c (sql_rows stamp d1) "instances" i s k -> doomed c (sql_rows stamp d) "instances" i s k.
Proof.
  induction 1 as [| s column t target k row m Hin Hrow Hr _ IH]; [apply doomed_root |].
  pose proof Hin as Hin'. rewrite Ha in Hin'.
  assert (Hne : s <> "job_executions" /\ t <> "job_executions").
  { assert (Hall : forallb (fun '(s, _, t, _, action) =>
      match action with CASCADE => negb (s == "job_executions") && negb (t == "job_executions") | _ => true end)
      initial_actions = true) by (vm_compute; reflexivity).
    rewrite forallb_forall in Hall. apply list_elem_of_In, Hall in Hin'. by bool_hyps. }
  destruct Hne as [Hns Hnt].
  eapply doomed_cascade; [exact Hin | exact (rows_before _ _ _ Hns Hrow) | | exact IH].
  destruct Hr as (Hn & row' & Hm & Hf). split; [exact Hn |]. exists row'.
  split; [exact (rows_before _ _ _ Hnt Hm) | exact Hf].
Qed.

Lemma other_rows_stay s k row :
  s <> "job_executions" -> sql_rows stamp d s !! k = Some row ->
  ~ doomed c (sql_rows stamp d) "instances" i s k ->
  ~ (s = "database_allocations" /\ field "instance_id" row = VUuid i) ->
  sql_rows stamp d' s !! k = Some row.
Proof.
  intros Hs Hk Hd Hn. rewrite remove_configuration_eq.
  destruct (instance_deleted c stamp d1 i Ha Hi) as [Hdel Hl].
  destruct (Hdel s k) as [_ Hstay].
  assert (Hk1 : sql_rows stamp d1 s !! k = Some row).
  { destruct (decide (s = "database_allocations")) as [-> | Hne].
    - at_store. apply fmap_Some in Hk as (a & Hk & ->). unfold without_allocation. cbn.
      rewrite lookup_delete_where, Hk. cbn. rewrite bool_decide_eq_false_2; [done |].
      intros E. apply Hn. split; [done |]. cbn. by rewrite E.
    - by rewrite rows_same. }
  rewrite Hk1 in Hstay. destruct Hstay as (row' & Hk' & _).
  { intros H. by apply Hd, doomed_before. }
  destruct (Hl s k) as [E | E]; rewrite E in Hk'; congruence.
Qed.
End Leaves.

Lemma no_row_names stamp i d s k row :
  Integrity d -> instances d !! i = None -> sql_rows stamp d s !! k = Some row ->
  field "instance_id" row <> VUuid i.
Proof.
  intros (_ & _ & Hrefs) Hi Hk. unfold ReferencesHold in Hrefs. destruct_and!.
  assert (Hin : s ∈ stored) by (eapply stored_in; by eexists). unfold stored in Hin.
  repeat (apply elem_of_cons in Hin as [-> | Hin];
    [at_store; apply fmap_Some in Hk as (r & Hr & ->); cbn; try discriminate;
     intros [= E]; subst i;
     repeat match goal with
            | H : map_Forall _ ?m |- _ =>
                match goal with Hr : m !! _ = Some _ |- _ => pose proof (H _ _ Hr); clear H end
            | H : References _ _ ?m |- _ =>
                match goal with Hr : m !! _ = Some _ |- _ => pose proof (H _ _ Hr); clear H end
            end;
     cbn in *; rewrite Hi in *;
     match goal with H : is_Some None |- _ => by destruct H end |]).
  by apply elem_of_nil in Hin.
Qed.

Definition done_job (job : JobExecution) : JobExecution :=
  job <| job_status := SUCCESS |> <| job_claimed_at := None |>.
Definition removed (i j : uuid) (d : Store) : Store := remove_configuration i (set_job done_job j d).

Section Removed.
Variables (c : Catalog) (d : Store) (claim : ExecutionClaim) (job : JobExecution) (i : uuid).
Hypothesis Ha : foreign_actions c = initial_actions.
Hypothesis Henf : forall stamp d, enforced c (sql_rows stamp d) <-> Integrity d.
Hypothesis (Hd : Sound d) (Ho : owned claim d = Some job) (Href : job_ref job = Some (KInstance, i)).
Abbreviation d' := (removed i (claim_job_id claim) d).

Lemma removal_instance : is_Some (instances d !! i).
Proof.
  apply owned_spec in Ho as (_ & _ & _ & _ & _ & Hmatch).
  apply resource_matches_spec in Hmatch as [Hn | (x & o & Hx & Hox & _)];
    [by rewrite job_ref_none in Href |].
  rewrite Href in Hx. injection Hx as <-. apply load_owner in Hox as (r & Hr & _).
  cbn in Hr. apply fmap_Some in Hr as (ri & Hri & _). by exists ri.
Qed.

Lemma removal_integrity : Integrity d'.
Proof.
  unfold removed. rewrite remove_configuration_eq.
  set (d1 := without_allocation i (set_job done_job (claim_job_id claim) d)).
  assert (Hi1 : Integrity d1).
  { apply without_allocation_integrity, integrity_set_job; [apply Hd |]. intros job0 Hj.
    destruct (sound_integrity _ Hd) as [[Hck _] _]. exact (Hck _ job0 Hj). }
  destruct (instance_deleted c (fun _ _ _ => 0%Z) d1 i Ha removal_instance) as [Hdel Hl].
  apply (Henf (fun _ _ _ => 0%Z)).
  apply (restricted_iff c _ d1 _ "instances" i Ha ltac:(in_schema) Hdel Hl); [by apply Henf |].
  exact (removal_unrestricted c _ Ha i (set_job done_job (claim_job_id claim) d) removal_instance).
Qed.

Lemma removal_returns : remove_local_configuration claim d = inr ("deleted", d').
Proof.
  unfold remove_local_configuration, owned_execution, gets, modify, mbind, action_bind.
  rewrite Ho, Href. fold done_job. change (remove_configuration i _) with d'.
  by rewrite commit_success by apply removal_integrity.
Qed.

Lemma removal_count b :
  allocation_count d' b
  = (allocation_count d b
     - count_where (fun _ a => (alloc_database_id a == b) && (alloc_instance_id a == i))
         (allocations d))%Z.
Proof. unfold allocation_count. rewrite <- count_where_rest. reflexivity. Qed.
End Removed.

(** ** A deletion that has come to its last step *)
Definition deletion_claim (task step : string) (attempt : Z) : ExecutionClaim :=
  mkClaim 60 task step attempt (Some "instance") (Some 10%N).
(** The step of [task] goes well, and the job is claimed for the next. *)
Definition next_claim (task step next next_step : string) (attempt : Z) (d : Store) : Store :=
  after (claim_execution 70 60 next)
    (after (advance_execution (deletion_claim task step attempt) next next_step no_mutation) d).
Definition last_step_store : Store :=
  next_claim INSTANCE_DELETE_STEP_03_TASK INSTANCE_DELETE_STEP_03 INSTANCE_DELETE_STEP_04_TASK
    INSTANCE_DELETE_STEP_04 3
    (next_claim INSTANCE_DELETE_STEP_02_TASK INSTANCE_DELETE_STEP_02 INSTANCE_DELETE_STEP_03_TASK
       INSTANCE_DELETE_STEP_03 2
       (next_claim INSTANCE_DELETE_STEP_01_TASK INSTANCE_DELETE_STEP_01
          INSTANCE_DELETE_STEP_02_TASK INSTANCE_DELETE_STEP_02 1
          (after (claim_execution 70 60 INSTANCE_DELETE_STEP_01_TASK)
             (after (instance_request_deletion 60 60 10) ready_store)))).

Lemma next_claim_sound task step next next_step attempt d :
  follows task next next_step = true -> Sound d ->
  Sound (next_claim task step next next_step attempt d).
Proof.
  intros Hf Hd. apply sound_after; [apply claim_execution_keeps |]. apply sound_after; [| exact Hd].
  apply advance_execution_keeps; [by apply no_mutation_within | exact Hf].
Qed.
Lemma last_step_sound : Sound last_step_store.
Proof.
  do 3 (apply next_claim_sound; [vm_compute; reflexivity |]).
  apply sound_after; [apply claim_execution_keeps |].
  apply sound_after; [apply instance_request_deletion_keeps | apply sound_ready].
Qed.


