(* ===== verification/MetricsProperties.v ===== *)
(** * MetricsProperties: the instruments count what happens *)
From S2P Require Import Prelude Order Text Models Store Config Schemas Metrics Concrete.
From stdpp Require Import pretty.
From Stdlib Require Import Ascii String.
Open Scope string_scope.

(** ** Series *)
Section Series.
Context {K : Type} `{Countable K}.
Implicit Types (key : K) (m : gmap K Z).

Lemma value_inc key key' m :
  value key (inc key' m) = (value key m + if decide (key = key') then 1 else 0)%Z.
Proof.
  unfold value, inc. destruct (decide (key = key')) as [-> | Hne].
  - by rewrite lookup_partial_alter_eq.
  - rewrite lookup_partial_alter_ne by done. lia.
Qed.
Lemma value_dec key key' m :
  value key (dec key' m) = (value key m - if decide (key = key') then 1 else 0)%Z.
Proof.
  unfold value, dec. destruct (decide (key = key')) as [-> | Hne].
  - by rewrite lookup_partial_alter_eq.
  - rewrite lookup_partial_alter_ne by done. lia.
Qed.
Lemma observations_observe key key' v (h : gmap K (list Z)) :
  observations key (observe key' v h)
  = app (observations key h) (if decide (key = key') then [v] else []).
Proof.
  unfold observations, observe. destruct (decide (key = key')) as [-> | Hne].
  - by rewrite lookup_partial_alter_eq.
  - by rewrite lookup_partial_alter_ne, app_nil_r by done.
Qed.
Lemma value_labels key key' m : value key (labels 0%Z key' m) = value key m.
Proof.
  unfold value, labels. destruct (decide (key = key')) as [-> | Hne].
  - by rewrite lookup_partial_alter_eq.
  - by rewrite lookup_partial_alter_ne by done.
Qed.
Lemma observations_labels key key' (h : gmap K (list Z)) :
  observations key (labels [] key' h) = observations key h.
Proof.
  unfold observations, labels. destruct (decide (key = key')) as [-> | Hne].
  - by rewrite lookup_partial_alter_eq.
  - by rewrite lookup_partial_alter_ne by done.
Qed.
End Series.

(** How many of the active ones have a label, and what has been recorded under a key. *)
Definition count_of {I L} `{Countable I, EqDecision L} (label : L) (active : gmap I L) : Z :=
  Z.of_nat (size (filter (fun kv => kv.2 = label) active)).
Lemma count_start {I L} `{Countable I, EqDecision L} (label l : L) (i : I) active :
  active !! i = None ->
  count_of label (<[i := l]> active) = (count_of label active + if decide (label = l) then 1 else 0)%Z.
Proof.
  intros Hi. unfold count_of. destruct (decide (label = l)) as [-> | Hne].
  - rewrite map_filter_insert_True by done. rewrite map_size_insert_None; [lia |].
    by rewrite map_lookup_filter, Hi.
  - rewrite map_filter_insert_not' by naive_solver. lia.
Qed.
Lemma count_finish {I L} `{Countable I, EqDecision L} (label l : L) (i : I) active :
  active !! i = Some l ->
  count_of label (delete i active) = (count_of label active - if decide (label = l) then 1 else 0)%Z.
Proof.
  intros Hi. rewrite <- (insert_delete_id active i l Hi) at 2.
  rewrite count_start by apply lookup_delete_eq. lia.
Qed.
Definition recorded {A K} `{EqDecision K} (key_of : A -> K) (key : K) (history : list A) : list A :=
  filter (fun a => key_of a = key) history.
#[local] Arguments recorded : simpl never.
#[local] Arguments count_of : simpl never.
Lemma recorded_snoc {A K} `{EqDecision K} (key_of : A -> K) key history a :
  recorded key_of key (history ++ [a])
  = app (recorded key_of key history) (if decide (key = key_of a) then [a] else []).
Proof.
  unfold recorded. rewrite filter_app, filter_cons, filter_nil.
  destruct (decide (key_of a = key)), (decide (key = key_of a)); congruence.
Qed.

(** ** Requests of the API, which overlap *)
Record Served := mkServed { served_method : string; served_run : AppRun; served_time : Z }.
Definition series_of (x : Served) : string * string * string :=
  (served_method x, route_template (served_run x), pretty (status_of (messages (served_run x)))).
Definition timing_of (x : Served) : string * string :=
  (served_method x, route_template (served_run x)).

Record ApiProcess := mkApiProcess {
  api_metrics : ApiMetrics;
  being_served : gmap nat string;
  served : list Served
}.
Inductive api_step : ApiProcess -> ApiProcess -> Prop :=
| api_begins m active history i method :
    active !! i = None ->
    api_step (mkApiProcess m active history)
      (mkApiProcess (begin_request method m) (<[i := method]> active) history)
| api_ends m active history i method run elapsed :
    active !! i = Some method ->
    api_step (mkApiProcess m active history)
      (mkApiProcess (end_request method run elapsed m) (delete i active)
         (history ++ [mkServed method run elapsed])).
Definition new_api_process : ApiProcess := mkApiProcess new_api_metrics ∅ [].

Definition api_counts (p : ApiProcess) : Prop :=
  (forall method, value method (in_progress (api_metrics p)) = count_of method (being_served p)) /\
  (forall key, value key (requests (api_metrics p))
     = Z.of_nat (List.length (recorded series_of key (served p)))) /\
  (forall key, observations key (duration (api_metrics p))
     = map served_time (recorded timing_of key (served p))).

Lemma api_step_counts p q : api_step p q -> api_counts p -> api_counts q.
Proof.
  destruct 1 as [m active history i method Hi | m active history i method run elapsed Hi];
    intros (Hg & Hc & Hd); cbn in *; split_and!; intros k; cbn; try done.
  - by rewrite value_inc, Hg, count_start.
  - by rewrite value_dec, Hg, (count_finish _ method).
  - rewrite value_inc, Hc, recorded_snoc, length_app, Nat2Z.inj_add. f_equal. unfold series_of. cbn.
    by case_decide.
  - rewrite observations_observe, Hd, recorded_snoc, map_app. f_equal. unfold timing_of. cbn.
    by case_decide.
Qed.


(** Two requests that overlap, of which the second one crashes. *)
Definition sample_get : AppRun :=
  mkAppRun [ResponseStart 200; OtherMessage] (Some "/api/v1/instances") (inr tt).
Definition sample_crash : AppRun := mkAppRun [] None (inl (RuntimeError "crash")).
Definition sample_api : ApiProcess :=
  mkApiProcess
    (end_request "GET" sample_get 5 (end_request "GET" sample_crash 3
       (begin_request "GET" (begin_request "GET" new_api_metrics))))
    (delete 1 (delete 2 (<[2 := "GET"]> (<[1 := "GET"]> ∅))))
    [mkServed "GET" sample_crash 3; mkServed "GET" sample_get 5].

(** ** Tasks of a worker process *)
#[local] Arguments labels : simpl never.
#[local] Arguments inc : simpl never.
#[local] Arguments dec : simpl never.
#[local] Arguments observe : simpl never.
#[local] Arguments expect_states : simpl never.
Record Completed := mkCompleted { completed_name : string; completed_state : string; completed_time : Z }.
Record WorkerProcess := mkWorkerProcess {
  celery : CeleryMetrics;
  running : gmap string string;
  since : gmap string Z;
  completed : list Completed
}.

Section Worker.
Variables (bind : string -> Z -> option Z) (settings : Settings) (tasks : list string).
Abbreviation handle := (handle_signal bind settings tasks).

(** Signals that belong to no particular run of a task. *)
Definition unrelated (running : gmap string string) (signal : Signal) : Prop :=
  match signal with
  | worker_init | worker_ready => running = ∅
  | worker_shutdown | after_task_publish _ => True
  | beat_init => False
  | task_prerun task_id task_name _ => task_id = None \/ task_name = None
  | task_postrun task_id task_name _ _ =>
      match task_id with Some i => running !! i = None \/ task_name = None | None => True end
  end.
(** The signals of a worker: the runs of tasks overlap, and a task that has been started is not
    started again before its end; a signal of an end may come twice, or without a start. *)
Inductive worker_step : WorkerProcess -> WorkerProcess -> Prop :=
| worker_starts m m' run times history i name now :
    run !! i = None -> handle (task_prerun (Some i) (Some name) now) m = inr m' ->
    worker_step (mkWorkerProcess m run times history)
      (mkWorkerProcess m' (<[i := name]> run) (<[i := now]> times) history)
| worker_ends m m' run times history i name state now started :
    run !! i = Some name -> times !! i = Some started ->
    handle (task_postrun (Some i) (Some name) state now) m = inr m' ->
    worker_step (mkWorkerProcess m run times history)
      (mkWorkerProcess m' (delete i run) (delete i times)
         (history ++ [mkCompleted name (normalized_state state) (now - started)]))
| worker_other m m' run times history signal :
    unrelated run signal -> handle signal m = inr m' ->
    worker_step (mkWorkerProcess m run times history) (mkWorkerProcess m' run times history).

Definition counter_of (x : Completed) : string * string := (completed_name x, completed_state x).
Definition worker_counts (p : WorkerProcess) : Prop :=
  exists counters durations gauge,
    worker_tasks (celery p) = Some counters /\ worker_duration (celery p) = Some durations /\
    worker_in_progress (celery p) = Some gauge /\
    (forall name, value name gauge = count_of name (running p)) /\
    (forall key, value key counters = Z.of_nat (List.length (recorded counter_of key (completed p)))) /\
    (forall name, observations name durations
       = map completed_time (recorded completed_name name (completed p))).
Definition worker_well (p : WorkerProcess) : Prop :=
  _component (celery p) = Some WorkerComponent /\ is_Some (up (celery p)) /\
  _started_tasks (celery p) = since p /\ dom (since p) = dom (running p) /\ worker_counts p.

(** The preparation of the expected series changes none that is at zero anyway. *)
Lemma expect_value key name t : value key (expect_states name t) = value key t.
Proof. unfold expect_states, _CELERY_TASK_STATES. cbn. by rewrite !value_labels. Qed.
Lemma expected_value key names t :
  value key (foldl (fun t name => expect_states name t) t names) = value key t.
Proof. revert t. induction names as [| n names IH]; intros t; cbn; [done |]. by rewrite IH, expect_value. Qed.
Lemma expected_observations key names (d : gmap string (list Z)) :
  observations key (foldl (fun d name => labels [] name d) d names) = observations key d.
Proof.
  revert d. induction names as [| n names IH]; intros d; cbn; [done |]. by rewrite IH, observations_labels.
Qed.
Lemma expected_gauge key names (g : gmap string Z) :
  value key g = 0%Z -> value key (foldl (fun g name => <[name := 0%Z]> g) g names) = 0%Z.
Proof.
  revert g. induction names as [| n names IH]; intros g Hg; cbn; [done |]. apply IH. unfold value in *.
  destruct (decide (key = n)) as [-> | Hne]; [by rewrite lookup_insert_eq | by rewrite lookup_insert_ne].
Qed.

Lemma initialize_again m names :
  _component m = Some WorkerComponent -> is_Some (up m) ->
  initialize_component WorkerComponent names m =
    match up m, worker_tasks m, worker_duration m, worker_in_progress m with
    | Some series, Some t, Some d, Some g =>
        inr (m <| up := Some (<["worker" := 1%Z]> series) |>
               <| worker_tasks := Some (foldl (fun t n => expect_states n t) t (coder_manager_tasks names)) |>
               <| worker_duration := Some (foldl (fun d n => labels [] n d) d (coder_manager_tasks names)) |>
               <| worker_in_progress := Some (foldl (fun g n => <[n := 0%Z]> g) g (coder_manager_tasks names)) |>)
    | _, _, _, _ => inl (RuntimeError "Celery worker metrics are unavailable")
    end.
Proof.
  intros Hc [series Hu]. unfold initialize_component. rewrite bool_decide_eq_false_2; [| by rewrite Hc; intros [_ []]].
  destruct m as [dir srv comp st u wt wd wp bp]. cbn in *. subst. cbn.
  by destruct wt, wd, wp.
Qed.

Lemma initialized_well names times history m m' :
  initialize_component WorkerComponent names m = inr m' ->
  worker_well (mkWorkerProcess m ∅ times history) ->
  worker_well (mkWorkerProcess m' ∅ times history).
Proof.
  intros Hm (Hc & Hu & Ht & Hdom & t & d & g & Et & Ed & Eg & Hg & Hn & Ho). cbn in *.
  rewrite initialize_again in Hm by done. destruct Hu as [series Eu].
  rewrite Eu, Et, Ed, Eg in Hm. injection Hm as <-.
  split_and!; try done. eexists _, _, _. split_and!; try done; cbn; intros k.
  - rewrite expected_gauge; [done |]. by rewrite Hg.
  - by rewrite expected_value.
  - by rewrite expected_observations.
Qed.
Lemma server_well run times history m server :
  worker_well (mkWorkerProcess m run times history) ->
  worker_well (mkWorkerProcess (m <| _server := server |>) run times history).
Proof. done. Qed.
Lemma shut_down_well run times history m :
  worker_well (mkWorkerProcess m run times history) ->
  worker_well (mkWorkerProcess (stop_server m).1 run times history).
Proof.
  intros (Hc & Hu & H). unfold stop_server. cbn in Hc, Hu. rewrite Hc. destruct Hu as [series Hu].
  rewrite Hu. cbn. split; [done |]. split; [by eexists | exact H].
Qed.

Lemma unrelated_well run times history signal m m' :
  unrelated run signal -> handle signal m = inr m' ->
  worker_well (mkWorkerProcess m run times history) ->
  worker_well (mkWorkerProcess m' run times history).
Proof.
  intros Hs Hm Hw. destruct signal as [| | | | sender | i n now | i n state now]; cbn in Hs, Hm.
  - subst run. by eapply initialized_well.
  - subst run. apply except_bind_inr in Hm as (m1 & H1 & H2).
    eapply initialized_well in H1; [| exact Hw]. unfold start_server in H2.
    destruct (_server m1); [by simplify_eq |]. apply except_bind_inr in H2 as (server & _ & [= <-]).
    by apply server_well.
  - injection Hm as <-. by apply shut_down_well.
  - done.
  - injection Hm as <-. destruct sender as [sender |]; [| done]. unfold task_published.
    destruct Hw as [Hc Hw]. cbn in Hc. by rewrite Hc.
  - destruct Hs as [-> | ->]; [| destruct i]; by injection Hm as <-.
  - destruct i as [i |]; [| by injection Hm as <-]. destruct n as [n |]; [| by injection Hm as <-].
    destruct Hs as [Hs | [=]]. unfold task_finished in Hm. destruct Hw as (Hc & Hu & Ht & Hdom & Hw).
    cbn in Hc, Ht, Hdom. rewrite bool_decide_eq_false_2 in Hm by congruence.
    replace (_started_tasks m !! i) with (None : option Z) in Hm; [by injection Hm as <- |].
    rewrite Ht. symmetry. apply not_elem_of_dom. rewrite Hdom. by apply not_elem_of_dom.
Qed.

Lemma worker_step_well p q : worker_step p q -> worker_well p -> worker_well q.
Proof.
  destruct 1 as [m m' run times history i name now Hi Hm
    | m m' run times history i name state now started Hi Hs Hm | m m' run times history signal Hs Hm];
    [| | by apply (unrelated_well _ _ _ signal)];
    intros (Hc & Hu & Ht & Hdom & t & d & g & Et & Ed & Eg & Hg & Hn & Ho); cbn in *.
  - unfold task_started in Hm. rewrite bool_decide_eq_false_2, Eg in Hm by congruence.
    injection Hm as <-. split_and!; try done; cbn; [by rewrite Ht | set_solver |].
    eexists _, _, _. split_and!; try done; cbn. intros k. by rewrite value_inc, Hg, count_start.
  - unfold task_finished in Hm. rewrite bool_decide_eq_false_2 in Hm by congruence.
    rewrite Ht, Hs in Hm. cbn in Hm. rewrite Et, Ed, Eg in Hm. injection Hm as <-.
    split_and!; try done; cbn; [set_solver |].
    eexists _, _, _. split_and!; try done; cbn; intros k.
    + by rewrite value_dec, Hg, (count_finish _ name).
    + rewrite value_inc, Hn, recorded_snoc, length_app, Nat2Z.inj_add. f_equal.
      unfold counter_of. cbn. by case_decide.
    + rewrite observations_observe, Ho, recorded_snoc, map_app. f_equal. cbn. by case_decide.
Qed.

(** A worker whose process has been initialized. *)
Definition initialized (p : WorkerProcess) : Prop :=
  exists directory m, handle worker_init (new_celery_metrics directory) = inr m /\
    p = mkWorkerProcess m ∅ ∅ [].
Lemma initialized_start p : initialized p -> worker_well p.
Proof.
  intros (directory & m & Hm & ->). cbn in Hm. injection Hm as <-.
  split_and!; try done. eexists _, _, _. split_and!; try done; cbn; intros k.
  - by apply expected_gauge.
  - by rewrite expected_value.
  - by rewrite expected_observations.
Qed.

End Worker.

(** Two runs of a task that overlap, and a second signal of the end of one. *)
Definition sample_tasks : list string := ["celery.backend_cleanup"; "coder_manager.job"].
Definition answer_signals (signals : list Signal) (m : CeleryMetrics) : CeleryMetrics :=
  foldl (fun m signal => match handle_signal (fun _ port => Some port) sample_settings sample_tasks signal m with
                         | inr m' => m' | inl _ => m end) m signals.
Definition sample_signals : list Signal :=
  [worker_init; worker_ready;
   task_prerun (Some "a") (Some "coder_manager.job") 10;
   task_prerun (Some "b") (Some "coder_manager.job") 11;
   task_postrun (Some "a") (Some "coder_manager.job") (Some "SUCCESS") 15;
   task_postrun (Some "a") (Some "coder_manager.job") (Some "SUCCESS") 16].
Definition sample_1 : CeleryMetrics := Eval vm_compute in
  answer_signals (take 1 sample_signals) (new_celery_metrics None).
Definition sample_2 : CeleryMetrics := Eval vm_compute in
  answer_signals (take 2 sample_signals) (new_celery_metrics None).
Definition sample_3 : CeleryMetrics := Eval vm_compute in
  answer_signals (take 3 sample_signals) (new_celery_metrics None).
Definition sample_4 : CeleryMetrics := Eval vm_compute in
  answer_signals (take 4 sample_signals) (new_celery_metrics None).
Definition sample_5 : CeleryMetrics := Eval vm_compute in
  answer_signals (take 5 sample_signals) (new_celery_metrics None).
Definition sample_6 : CeleryMetrics := Eval vm_compute in
  answer_signals (take 6 sample_signals) (new_celery_metrics None).

