(* ===== verification/AuthProperties.v ===== *)
(** * AuthProperties: who gets past the authentication *)
From S2P Require Import Prelude Text Models Store Config Program Json Auth Concrete.
From Stdlib Require Import Ascii String.
Open Scope string_scope.

Lemma handle_inr {A} (m : AuthExn + A) h a : handle m h = inr a <-> m = inr a.
Proof. by destruct m. Qed.
Lemma handle_inl {A} (m : AuthExn + A) h e :
  handle m h = inl e -> exists e', m = inl e' /\ e = default e' (h e').
Proof. destruct m; [| done]. intros [= <-]. by eexists. Qed.

(** ** Configuration *)
Lemma fromkeys_from (seen values : list string) :
  NoDup seen ->
  let keys := foldl (fun seen v => if member v seen then seen else (seen ++ [v])%list) seen values in
  NoDup keys /\ forall v, v ∈ keys <-> v ∈ seen \/ v ∈ values.
Proof.
  revert seen. induction values as [|v values IH]; cbn; intros seen Hs.
  { split; [done |]. set_solver. }
  destruct (member v seen) eqn:E; bool_hyps.
  - destruct (IH seen Hs) as [H1 H2]. split; [done |]. intros w. rewrite H2. set_solver.
  - destruct (IH (seen ++ [v])%list) as [H1 H2].
    { apply NoDup_app. split; [done |]. split; [set_solver | apply NoDup_singleton]. }
    split; [done |]. intros w. rewrite H2. set_solver.
Qed.
Lemma fromkeys_spec values :
  NoDup (fromkeys values) /\ forall v, v ∈ fromkeys values <-> v ∈ values.
Proof.
  destruct (fromkeys_from [] values (NoDup_nil_2)) as [H1 H2]. split; [done |].
  intros v. unfold fromkeys. rewrite H2. set_solver.
Qed.

Definition https (url : Url) : Prop :=
  url_scheme url = "https" /\ url_host url <> "" /\ url_fragment url = "".

Lemma https_url URL value name query v :
  _require_https_url URL value name query = inr v ->
  v = value /\ exists url, URL value = Some url /\ https url /\ (query = false -> url_query url = "").
Proof.
  unfold _require_https_url, https. destruct (URL value) as [url |]; [| done].
  destruct (_ || _) eqn:E; [done |]. intros [= ->]. split; [done |]. exists url. bool_hyps.
  split_and!; try done. intros ->.
  match goal with H : _ \/ _ |- _ => destruct H as [H | H] end; by bool_hyps.
Qed.
Lemma required_value value name v :
  _required_value value name = inr v -> exists raw, value = Some raw /\ v = str_strip raw /\ v <> "".
Proof.
  unfold _required_value, _optional_value. destruct value as [raw |]; [| done].
  case_bool_decide; [done |]. intros [= <-]. by exists raw.
Qed.

(** The elements of a comma-separated setting. *)
Definition listed_in (raw scope : string) : Prop :=
  exists part, part ∈ split "," raw /\ scope = str_strip (unchars part).
Lemma comma_list raw name values :
  _parse_comma_list raw name = inr values ->
  NoDup values /\ (forall v, v ∈ values <-> listed_in raw v) /\ "" ∉ values.
Proof.
  unfold _parse_comma_list, listed_in. destruct (existsb _ _) eqn:E; [done |]. intros [= <-].
  destruct (fromkeys_spec (map str_strip (map unchars (split "," raw)))) as [Hn Hin].
  split; [done |]. split.
  - intros v. rewrite Hin, map_map. rewrite list_elem_of_fmap. naive_solver.
  - rewrite Hin. intros (v & Hv & Hm)%list_elem_of_fmap.
    apply not_true_iff_false in E. apply E. apply existsb_exists. exists v.
    split; [by apply list_elem_of_In | by apply bool_decide_eq_true].
Qed.

(** What the settings must have given. *)
Definition configured (URL : string -> option Url) (settings : Settings)
    (result : option OidcConfig) : Prop :=
  match result with
  | None => allow_unauthenticated_api settings = true /\
            _optional_value (oidc_issuer_url settings) = None
  | Some config =>
      _optional_value (oidc_issuer_url settings) = Some (issuer_url config) /\
      (exists url, URL (issuer_url config) = Some url /\ https url /\ url_query url = "") /\
      (exists url, URL (authorization_url config) = Some url /\ https url) /\
      (exists url, URL (token_url config) = Some url /\ https url) /\
      client_id config <> "" /\
      "openid" ∈ scopes config /\ NoDup (scopes config) /\ ("" ∉ scopes config) /\
      forall scope, scope ∈ scopes config <-> listed_in (oidc_scopes settings) scope
  end.

Lemma oidc_configured URL settings result :
  oidc_from_settings URL settings = inr result -> configured URL settings result.
Proof.
  unfold oidc_from_settings, configured.
  destruct (_optional_value (oidc_issuer_url settings)) as [issuer |].

  2:{ destruct (allow_unauthenticated_api settings); [| done]. by intros [= <-]. }
  intros H. except_inv H. injection H as <-. cbn.
  repeat match goal with
  | Hr : _require_https_url _ _ _ _ = inr _ |- _ =>
      apply https_url in Hr as (-> & ? & ? & ? & ?)
  | Hr : _required_value _ _ = inr _ |- _ => apply required_value in Hr as (? & ? & -> & ?)
  | Hr : _parse_scopes _ = inr _ |- _ => unfold _parse_scopes in Hr; except_inv Hr
  | Hr : (if member _ _ then _ else _) = inr _ |- _ =>
      destruct (member "openid" _) eqn:Ho in Hr; [injection Hr as <- | done]
  | Hr : _parse_comma_list _ _ = inr _ |- _ => apply comma_list in Hr as (? & ? & ?)
  end.
  bool_hyps. split_and!; eauto 6.
Qed.

(** An accepted OpenID Connect configuration is complete: the issuer, the authorization and the
    token URL are https URLs with a host and without a fragment, the issuer without a query; the
    client identifier is not blank; and the scopes are those of the setting, stripped, each once,
    with "openid" among them. No configuration at all is accepted only when the setting opts into
    an open API and names no issuer. *)
Theorem oidc_configuration_is_complete URL settings result :
  oidc_from_settings URL settings = inr result ->
  match result with
  | None => allow_unauthenticated_api settings = true /\
            _optional_value (oidc_issuer_url settings) = None
  | Some config =>
      _optional_value (oidc_issuer_url settings) = Some (issuer_url config) /\
      (exists url, URL (issuer_url config) = Some url /\ https url /\ url_query url = "") /\
      (exists url, URL (authorization_url config) = Some url /\ https url) /\
      (exists url, URL (token_url config) = Some url /\ https url) /\
      client_id config <> "" /\
      "openid" ∈ scopes config /\ NoDup (scopes config) /\ ("" ∉ scopes config) /\
      forall scope, scope ∈ scopes config <-> listed_in (oidc_scopes settings) scope
  end.
Proof. apply oidc_configured. Qed.

(** ** Requests *)
Section Requests.
Context {Client : Type}.
Variables (URL : string -> option Url) (http_get : string -> AuthExn + Response)
  (jwk_client_factory : string -> Client) (get_jwk_set : Client -> AuthExn + list Jwk)
  (get_signing_key_from_jwt : Client -> string -> AuthExn + Jwk)
  (get_unverified_header : string -> AuthExn + list (string * json))
  (jwt_decode : string -> Jwk -> list string -> string -> list string -> bool ->
     AuthExn + list (string * json)).
(** The exceptions that PyJWT documents. *)
Hypothesis header_raises : forall token e, get_unverified_header token = inl e -> e = InvalidTokenError.
Hypothesis key_raises : forall client token e, get_signing_key_from_jwt client token = inl e ->
  match e with
  | InvalidTokenError | PyJWKClientConnectionError | PyJWKClientError | PyJWKSetError => True
  | _ => False
  end.
Hypothesis decode_raises : forall token key algorithms issuer required verify_aud e,
  jwt_decode token key algorithms issuer required verify_aud = inl e -> e = InvalidTokenError.

(** A token of an administrator: PyJWT has verified it, with an RS256 signing key of the provider,
    against the issuer and with the claims "exp" and "iss"; and its roles name the administrator. *)
Definition administrator_token (client : Client) (issuer : string) (token : option string) : Prop :=
  exists text header key claims roles,
    token = Some text /\ text <> "" /\ get_unverified_header text = inr header /\
    get_string "alg" header = Some "RS256" /\ truthy (default JNull (dict_get "kid" header)) = true /\
    get_signing_key_from_jwt client text = inr key /\ signs key = true /\
    jwt_decode text key ["RS256"] issuer ["exp"; "iss"] false = inr claims /\
    role_names claims = Some roles /\ exists role, role ∈ roles /\ str_lower role = "admin".

(** The answers to a request that is not let in. *)
Definition refusal (e : AuthExn) : Prop :=
  e = Refused 401 "Invalid authentication credentials" [("WWW-Authenticate", "Bearer")] \/
  e = Refused 403 "Access denied" [] \/ e = Refused 503 "OIDC provider unavailable" [].

Lemma grants_access_spec roles :
  grants_access roles = true <-> exists role, role ∈ roles /\ str_lower role = "admin".
Proof.
  unfold grants_access. rewrite existsb_exists. split; intros (role & Hin & Hr); exists role;
    apply list_elem_of_In in Hin || apply list_elem_of_In; split; try done;
    by apply bool_decide_eq_true in Hr || apply bool_decide_eq_true.
Qed.

Abbreviation request := (authorize_oidc_request get_signing_key_from_jwt get_unverified_header jwt_decode).

Lemma request_let_in config client token :
  request (mkAuthenticator config (Some client)) token = inr tt <->
  administrator_token client (issuer_url config) token.
Proof.
  unfold authorize_oidc_request, administrator_token. rewrite handle_inr. split.
  - destruct token as [[| a text'] |]; cbn [authorize]; [done | | done].
    set (text := String a text'). unfold authorize. intros H. except_inv H.
    match goal with Hh : handle (get_unverified_header text) _ = inr ?h |- _ =>
      apply handle_inr in Hh; rename h into header end.
    destruct (_ || _) eqn:Ea in H; [done |]. except_inv H.
    destruct (negb (signs _)) eqn:Es in H; [done |]. except_inv H.
    match goal with Hk : _signing_key _ _ _ = inr _ |- _ => apply handle_inr in Hk end.
    match goal with Hd : _decode _ _ _ _ = inr _ |- _ => apply handle_inr in Hd end.
    destruct (role_names _) as [roles |] eqn:Er in H; [| done].
    destruct (grants_access roles) eqn:Eg in H; [| done]. apply grants_access_spec in Eg.
    bool_hyps. eexists text, header, _, _, roles. split_and!; eauto.
  - intros (text & header & key & claims & roles & -> & Ht & Hh & Halg & Hkid & Hk & Hs & Hd & Hr & Hg).
    destruct text as [| a text']; [done |]. unfold authorize. rewrite Hh. cbn [handle mbind except_bind].
    rewrite Halg, Hkid, bool_decide_eq_true_2 by done. cbn [negb orb]. unfold _signing_key.
    cbn [_jwk_client]. rewrite Hk. cbn [handle mbind except_bind]. rewrite Hs. cbn [negb].
    unfold _decode, OIDC_ALGORITHM. cbn [oidc_config]. rewrite Hd. cbn [handle mbind except_bind].
    rewrite Hr. by rewrite (proj2 (grants_access_spec roles) Hg).
Qed.

Lemma request_refused config client token e :
  request (mkAuthenticator config (Some client)) token = inl e -> refusal e.
Proof.
  assert (H401 : refusal _authentication_exception) by by left.
  assert (H403 : refusal _authorization_exception) by (right; by left).
  assert (H503 : refusal (Refused 503 PROVIDER_ERROR [])) by (right; by right).
  unfold authorize_oidc_request. intros (e' & H & ->)%handle_inl.
  enough (refusal e' \/ e' = OidcProviderUnavailableError) as [Hr | ->];
    [destruct e'; try done; by destruct Hr as [? | [? | ?]] | exact H503 |].
  destruct token as [[| a text'] |]; cbn [authorize] in H; [injection H as <-; by left | | injection H as <-; by left].
  set (text := String a text') in *. unfold authorize in H.
  apply except_bind_inl in H as [H | (header & _ & H)].
  { apply handle_inl in H as (e0 & H & ->). apply header_raises in H as ->. by left. }
  destruct (_ || _) in H; [injection H as <-; by left |].
  apply except_bind_inl in H as [H | (key & _ & H)].
  { unfold _signing_key in H. cbn [_jwk_client] in H. apply handle_inl in H as (e0 & H & ->).
    apply key_raises in H. destruct e0; try done; cbn; auto. }
  destruct (negb (signs key)); [injection H as <-; by left |].
  apply except_bind_inl in H as [H | (claims & _ & H)].
  { unfold _decode in H. apply handle_inl in H as (e0 & H & ->).
    apply decode_raises in H as ->. by left. }
  destruct (role_names claims) as [roles |]; [| injection H as <-; by left].
  destruct (grants_access roles); [done | injection H as <-; by left].
Qed.

Lemma initialize_inr authenticator authenticator' :
  initialize URL http_get jwk_client_factory get_jwk_set authenticator = inr authenticator' ->
  oidc_config authenticator' = oidc_config authenticator /\
  exists uri metadata response,
    http_get (rstrip_slash (issuer_url (oidc_config authenticator))
              ++ "/.well-known/openid-configuration") = inr response /\
    decoded response = Some (JObject metadata) /\
    get_string "issuer" metadata = Some (issuer_url (oidc_config authenticator)) /\
    get_string "jwks_uri" metadata = Some uri /\ (exists url, URL uri = Some url /\ https url) /\
    _jwk_client authenticator' = Some (jwk_client_factory uri).
Proof.
  unfold initialize. cbv zeta. intros H. except_inv H. rename x into metadata.
  destruct (negb _) eqn:Ei in H; [done |]. bool_hyps.
  destruct (get_string "jwks_uri" metadata) as [uri |] eqn:Eu; [| done]. except_inv H.
  match goal with Hr : _require_https_url _ _ _ _ = inr _ |- _ =>
    apply https_url in Hr as (-> & url & ? & ? & _) end.
  destruct (existsb _ _) in H; [| done]. injection H as <-. split; [done |].
  match goal with Hj : _get_json _ _ = inr _ |- _ =>
    unfold _get_json in Hj; apply except_bind_inr in Hj as (response & Hh%handle_inr & Hj) end.
  destruct (negb _) in H0; [done |].
  destruct (decoded response) as [[| | | | | | payload] |] eqn:Ed; try done. injection H0 as ->.
  exists uri, metadata, response. split_and!; eauto.
Qed.

(** C5: Only administrators get past the authentication. When an application has been created and
    started, either its settings opt into an open API and name no issuer, or the provider at the
    issuer's well-known address has named itself that issuer, and from then on a request is let in
    exactly with an administrator's token, which PyJWT has verified with a signing key of that
    provider; every other request is answered 401 with a challenge, 403, or 503. *)
Theorem api_requires_administrator settings app app' :
  create_app URL settings = inr app ->
  start_up URL http_get jwk_client_factory get_jwk_set app = inr app' ->
  let let_in := authorize_route get_signing_key_from_jwt get_unverified_header jwt_decode app' in
  (allow_unauthenticated_api settings = true /\ _optional_value (oidc_issuer_url settings) = None /\
   forall token, let_in token = inr tt) \/
  exists issuer uri metadata response,
    _optional_value (oidc_issuer_url settings) = Some issuer /\
    http_get (rstrip_slash issuer ++ "/.well-known/openid-configuration") = inr response /\
    decoded response = Some (JObject metadata) /\ get_string "issuer" metadata = Some issuer /\
    get_string "jwks_uri" metadata = Some uri /\
    forall token,
      (let_in token = inr tt <-> administrator_token (jwk_client_factory uri) issuer token) /\
      forall e, let_in token = inl e -> refusal e.
Proof.
  unfold create_app. destruct (require_instance_base_domain settings); [done |].
  destruct (oidc_from_settings URL settings) as [e | config] eqn:Ec; [done |]. intros [= <-] Hs.
  pose proof (oidc_configured URL settings config Ec) as Hc. destruct config as [config |].
  - right. cbn in Hs. apply except_bind_inr in Hs as (authenticator & Hi & [= <-]).
    apply initialize_inr in Hi as (Eo & uri & metadata & response & ? & ? & ? & ? & _ & Ej).
    cbn [oidc_config] in *. exists (issuer_url config), uri, metadata, response.
    split; [apply Hc |]. do 4 (split; [assumption |]). intros token. unfold authorize_route. cbn [application_authenticator].
    destruct authenticator as [config' client]. cbn in Eo, Ej. subst.
    split; [apply request_let_in | apply request_refused].
  - left. cbn in Hs. injection Hs as <-. by destruct Hc.
Qed.
End Requests.

(** A provider with one key, of which one token is valid. *)
Definition sample_url (text : string) : option Url :=
  if String.prefix "https://auth.example.com/" text then Some (mkUrl "https" "auth.example.com" "" "")
  else None.
Definition sample_issuer : string := "https://auth.example.com/realms/coder".
Definition sample_get (url : string) : AuthExn + Response :=
  if String.eqb url (sample_issuer ++ "/.well-known/openid-configuration")
  then inr (mkResponse 200 [] (Some (JObject
         [("issuer", JString sample_issuer); ("jwks_uri", JString "https://auth.example.com/keys")])))
  else inl HttpxError.
Definition sample_key : Jwk := mkJwk (Some "key-1") "RS256" (Some "sig").
Definition sample_claims (token : string) : AuthExn + list (string * json) :=
  if String.eqb token "good"
  then inr [("iss", JString sample_issuer); ("roles", JArray [JString "Admin"])]
  else inl InvalidTokenError.

Lemma api_requires_administrator_witness :
  exists app app',
    create_app sample_url sample_settings = inr app /\
    start_up (Client := string) sample_url sample_get (fun uri => uri) (fun _ => inr [sample_key]) app
      = inr app' /\
    (forall token,
       authorize_route (fun _ _ => inr sample_key)
         (fun _ => inr [("alg", JString "RS256"); ("kid", JString "key-1")])
         (fun token _ _ _ _ _ => sample_claims token) app' token = inr tt <->
       administrator_token (fun _ _ => inr sample_key)
         (fun _ => inr [("alg", JString "RS256"); ("kid", JString "key-1")])
         (fun token _ _ _ _ _ => sample_claims token) "https://auth.example.com/keys" sample_issuer token).
Proof.
  destruct (create_app sample_url sample_settings) as [e | app] eqn:Ea; [by vm_compute in Ea |].
  exists app.
  destruct (start_up (Client := string) sample_url sample_get (fun uri => uri)
    (fun _ => inr [sample_key]) app) as [e | app'] eqn:Es.
  { vm_compute in Ea. injection Ea as <-. by vm_compute in Es. }
  exists app'. split; [done |]. split; [done |].
  destruct (api_requires_administrator sample_url sample_get (fun uri => uri)
    (fun _ => inr [sample_key]) (fun _ _ => inr sample_key)
    (fun _ => inr [("alg", JString "RS256"); ("kid", JString "key-1")])
    (fun token _ _ _ _ _ => sample_claims token)
    (fun _ _ H => match H with eq_refl => I end) (fun _ _ _ H => match H with eq_refl => I end)
    ltac:(intros token ? ? ? ? ? e; unfold sample_claims; destruct (String.eqb token "good"); congruence)
    sample_settings app app' Ea Es)
    as [(H & _) | (issuer & uri & metadata & response & Hi & Hg & Hd & Hiss & Hu & H)].
  - by vm_compute in H.
  - vm_compute in Hi. injection Hi as <-. vm_compute in Hg. injection Hg as <-.
    cbn in Hd. injection Hd as <-. vm_compute in Hu. injection Hu as <-.
    intros token. apply H.
Defined.

Lemma oidc_configuration_is_complete_witness :
  exists config, oidc_from_settings sample_url sample_settings = inr (Some config) /\
    configured sample_url sample_settings (Some config).
Proof.
  destruct (oidc_from_settings sample_url sample_settings) as [e | [config |]] eqn:E;
    [by vm_compute in E | | by vm_compute in E].
  exists config. split; [done |]. exact (oidc_configuration_is_complete _ _ _ E).
Defined.
