(* ===== verification/Logins.v ===== *)
(** * Logins: no request to Coder before the administrator has been authenticated

    For every deployment: in every task, the requests to it that need the administrator come after
    an authentication there that succeeded. *)
From S2P Require Import Prelude Text Models Store Registry Crypto Execution Config Program Monitor.
From S2P Require Import Coder Worker CoderService InstanceTasks WorkspaceTasks TemplateTasks System.
From S2P Require Import Concrete.
From Stdlib Require Import Ascii String.
Open Scope string_scope.

(** ** The monitor of one deployment *)
Section Deployment.
Variable url : string.

Definition logged (s : bool) (R : Type) (q : Query R) (r : Exn + R) : bool :=
  match q, r with
  | Coder u op, inr _ => s || ((u == url) && is_login op)
  | _, _ => s
  end.
Definition authorized (s : bool) (R : Type) (q : Query R) : Prop :=
  match q with
  | Coder u op => s = true \/ u <> url \/ is_public op = true
  | _ => True
  end.
Abbreviation watched := (monitored (fun _ _ _ => True) authorized logged).

Lemma logged_true R (q : Query R) r : logged true R q r = true.
Proof. destruct q, r; done. Qed.

(** After the login everything is allowed. *)
Lemma after_login {A} (p : worker A) : watched true p (fun s _ => s = true).
Proof.
  induction p as [a | e | B m k IH | R q k IH]; [done | done | intros d; apply IH |].
  split; [destruct q; cbn; auto |]. intros r _. rewrite logged_true. apply IH.
Qed.
End Deployment.
Abbreviation watched url := (monitored (fun _ _ _ => True) (authorized url) (logged url)).

(** The property of a task, and of the part of a task that stands at its beginning. *)
Definition logs_in_first {A} (p : worker A) : Prop :=
  forall url, watched url false p (fun _ _ => True).
(** After a result of [p] the deployment [url] is logged in. *)
Definition login_at {A} (url : string) (p : worker A) : Prop :=
  forall u, watched u false p (fun s o => match o with inr _ => u = url -> s = true | inl _ => True end).
(** Every request to Coder is to [url]. *)
Definition to_url (url : string) (R : Type) (q : Query R) : Prop :=
  match q with Coder u _ => u = url | _ => True end.
Definition only {A} (url : string) (p : worker A) : Prop := within (fun _ _ => True) (to_url url) p.

Lemma only_watched {A} u url s (p : worker A) :
  only url p -> u <> url -> watched u s p (fun _ _ => True).
Proof.
  intros Hp Hu. revert s Hp. induction p as [a | e | B m k IH | R q k IH]; cbn; intros s; [done | done | |].
  - intros [_ Hk] d. apply IH, Hk.
  - intros [Hq Hk]. split; [| intros r _; apply IH, Hk].
    destruct q; cbn in *; auto. right. left. congruence.
Qed.

Lemma watched_any {A} url s (p : worker A) : logs_in_first p -> watched url s p (fun _ _ => True).
Proof.
  intros Hp. destruct s; [| apply Hp]. eapply monitored_weaken; [| apply after_login]. done.
Qed.

Lemma logs_bind {A B} (p : worker A) (k : A -> worker B) :
  logs_in_first p -> (forall a, logs_in_first (k a)) -> logs_in_first (p ≫= k).
Proof.
  intros Hp Hk url. eapply monitored_seq; [apply Hp | done |]. intros s a _.
  by apply watched_any.
Qed.
Lemma logs_catch {A} (p : worker A) h :
  logs_in_first p -> (forall e, logs_in_first (h e)) -> logs_in_first (catch p h).
Proof.
  intros Hp Hh url. apply monitored_catch. eapply monitored_weaken; [| apply Hp].
  intros s [e | a] _; [by apply watched_any | done].
Qed.
Lemma logs_done {A} (a : A) : logs_in_first (Done a).
Proof. done. Qed.
Lemma logs_fail {A} e : logs_in_first (Fail e : worker A).
Proof. done. Qed.
Lemma logs_returns {A} (r : Exn + A) : logs_in_first (returns r).
Proof. by destruct r. Qed.
Lemma logs_sess {A} (m : session A) : logs_in_first (sess m).
Proof. intros url. by apply monitored_sess. Qed.
Lemma logs_ask {R} (q : Query R) : to_url "" R q -> match q with Coder _ _ => False | _ => True end ->
  logs_in_first (ask q).
Proof. intros _ Hq url. apply monitored_ask; [by destruct q | done]. Qed.
Lemma logs_public {R} url (op : ClientOp R) : is_public op = true -> logs_in_first (client url op).
Proof. intros Hp u. apply monitored_ask; [right; by right | done]. Qed.
Lemma logs_asked {A R} (q : Query R) (k : Exn + R -> worker A) :
  match q with Coder _ _ => False | _ => True end -> (forall r, logs_in_first (k r)) ->
  logs_in_first (Ask q k).
Proof. intros Hq Hk url. split; [by destruct q |]. intros r _. by apply watched_any. Qed.

(** A login, and what follows at the same deployment. *)
Lemma logs_login {A B} url (p : worker A) (k : A -> worker B) :
  login_at url p -> (forall a, only url (k a)) -> logs_in_first (p ≫= k).
Proof.
  intros Hp Hk u. eapply monitored_seq; [apply Hp | done |]. intros s a Hs.
  destruct (decide (u = url)) as [-> | Hu]; [| by eapply only_watched].
  rewrite Hs by done. eapply monitored_weaken; [| apply after_login]. done.
Qed.
Lemma login_client url password : login_at url (client url (authenticate_prepared_admin password)).
Proof.
  intros u. apply monitored_ask; [right; by right |]. intros [e | r] _; [done |].
  intros ->. cbn. by rewrite bool_decide_eq_true_2.
Qed.
Lemma login_after {A B} url (p : worker A) (k : A -> worker B) :
  login_at url p -> (forall a, only url (k a)) -> login_at url (p ≫= k).
Proof.
  intros Hp Hk u. eapply monitored_seq; [apply Hp | done |]. intros s a Hs.
  destruct (decide (u = url)) as [-> | Hu].
  - rewrite Hs by done. eapply monitored_weaken; [| apply after_login]. by intros s' [e | b].
  - eapply monitored_weaken; [| by apply (only_watched _ url)]. by intros s' [e | b].
Qed.
Lemma login_before {A B} url (p : worker A) (k : A -> worker B) :
  logs_in_first p -> (forall a, login_at url (k a)) -> login_at url (p ≫= k).
Proof.
  intros Hp Hk u. eapply monitored_seq; [apply Hp | done |]. intros s a _.
  destruct s; [| apply Hk]. eapply monitored_weaken; [| apply after_login]. by intros s' [e | b] ->.
Qed.
Lemma login_logs {A} url (p : worker A) : login_at url p -> logs_in_first p.
Proof. intros Hp u. eapply monitored_weaken; [| apply Hp]. done. Qed.

(** ** Loops *)
Lemma logs_loop {S A} n (s : S) (body : S -> worker (A + S)) :
  (forall s, logs_in_first (body s)) -> logs_in_first (loop n s body).
Proof.
  intros Hb. revert s. induction n as [|n IH]; intros s; [apply logs_fail |].
  apply logs_bind; [apply Hb |]. intros [a | s']; [apply logs_done | apply IH].
Qed.
Lemma logs_for_each {A S} (xs : list A) (s : S) body :
  (forall x s, logs_in_first (body x s)) -> logs_in_first (for_each xs s body).
Proof.
  intros Hb. revert s. induction xs as [|x xs IH]; intros s; [apply logs_done |].
  apply logs_bind; auto.
Qed.
Lemma only_bind {A B} url (p : worker A) (k : A -> worker B) :
  only url p -> (forall a, only url (k a)) -> only url (p ≫= k).
Proof. apply within_bind. Qed.
Lemma only_loop {S A} url n (s : S) (body : S -> worker (A + S)) :
  (forall s, only url (body s)) -> only url (loop n s body).
Proof.
  intros Hb. revert s. induction n as [|n IH]; intros s; [exact I |].
  apply only_bind; [apply Hb |]. intros [a | s']; [exact I | apply IH].
Qed.
Lemma only_for_each {A S} url (xs : list A) (s : S) body :
  (forall x s, only url (body x s)) -> only url (for_each xs s body).
Proof.
  intros Hb. revert s. induction xs as [|x xs IH]; intros s; [exact I |].
  apply only_bind; auto.
Qed.
Lemma only_catch {A} url (p : worker A) h :
  only url p -> (forall e, only url (h e)) -> only url (catch p h).
Proof. apply within_catch. Qed.
Lemma only_sess {A} url (m : session A) : only url (sess m).
Proof. by apply within_sess. Qed.
Lemma only_ask {R} url (q : Query R) : to_url url R q -> only url (ask q).
Proof. apply within_ask. Qed.
Lemma only_client {R} url (op : ClientOp R) : only url (client url op).
Proof. by apply within_ask. Qed.

(** A program that asks nothing of Coder. *)
Definition no_coder {A} (p : worker A) : Prop := forall url, only url p.

(** ** The operations of the Coder domain *)
Create HintDb logins.
Ltac only_step :=
  match goal with
  | |- forall _, _ => intros ?
  | |- only _ (_ ≫= _) => apply only_bind
  | |- only _ (bind _ _) => apply only_bind
  | |- only _ (Done _) => exact I
  | |- only _ (Fail _) => exact I
  | |- only _ (let _ := _ in _) => cbv zeta
  | |- only _ (let '(_, _) := ?x in _) => destruct x
  | |- only _ (if ?b then _ else _) => destruct b
  | |- only _ (match ?x with _ => _ end) => destruct x
  | |- only _ (client _ _) => apply only_client
  | |- only _ (sess _) => apply only_sess
  | |- only _ (loop _ _ _) => apply only_loop
  | |- only _ (for_each _ _ _) => apply only_for_each
  | |- only _ (catch _ _) => apply only_catch
  | |- only _ (ask _) => apply only_ask; exact I
  | H : no_coder ?p |- only _ ?p => apply H
  | |- _ => solve [auto 2 with logins nocore]
  end.
Ltac only_steps := repeat only_step.

Section Service.
Variables (rounds : nat) (url : string) (heartbeat : worker unit).
Hypothesis Hheartbeat : no_coder heartbeat.

Lemma deadline_only u deadline message : only u (_require_before_deadline deadline message).
Proof. unfold _require_before_deadline. only_steps. Qed.
Hint Resolve deadline_only : logins.

Lemma active_only : only url (_active_workspaces rounds url heartbeat).
Proof. unfold _active_workspaces, active_page. only_steps. Qed.
Lemma all_only : only url (_all_workspaces rounds url heartbeat).
Proof. unfold _all_workspaces, all_page, page_row. only_steps. Qed.
Hint Resolve active_only all_only : logins.
Lemma template_only t : only url (_template_workspaces rounds url heartbeat t).
Proof. unfold _template_workspaces. only_steps. Qed.
Lemma wait_builds_only deadline poll pending :
  only url (_wait_workspace_builds rounds url heartbeat deadline poll pending).
Proof. unfold _wait_workspace_builds, poll_stops. only_steps. Qed.
Lemma submit_stop_only_only w s : only url (submit_stop url heartbeat w s).
Proof. unfold submit_stop. only_steps. Qed.
Lemma wait_deletions_only deadline poll blocking deleting :
  only url (_wait_workspace_deletions rounds url heartbeat deadline poll blocking deleting).
Proof. unfold _wait_workspace_deletions, poll_blocking, poll_deleting. only_steps. Qed.
Lemma submit_delete_only subject w s : only url (submit_delete url heartbeat subject w s).
Proof. unfold submit_delete. only_steps. Qed.
Hint Resolve template_only wait_builds_only submit_stop_only_only wait_deletions_only
  submit_delete_only : logins.
Lemma wait_version_only v timeout poll values :
  only url (wait_template_version rounds url heartbeat v timeout poll values).
Proof. unfold wait_template_version. only_steps. Qed.

Lemma no_coder_logs {A} (p : worker A) : no_coder p -> logs_in_first p.
Proof.
  intros Hp u. destruct (decide (u = "")) as [-> | Hu].
  - by apply (only_watched _ "x").
  - by apply (only_watched _ "").
Qed.
Lemma deadline_logs deadline message : logs_in_first (_require_before_deadline deadline message).
Proof. apply no_coder_logs. intros u. apply deadline_only. Qed.
Lemma heartbeat_logs : logs_in_first heartbeat.
Proof. by apply no_coder_logs. Qed.
Hint Resolve deadline_logs heartbeat_logs : logins.

Lemma bootstrap_logs password : logs_in_first (bootstrap_admin_account url password).
Proof.
  apply logs_bind; [by apply logs_public |]. intros []; [| by apply logs_public].
  by apply logs_public.
Qed.

(** The accounts: a first user if there is none, the login, and then the requests. *)
Lemma accounts_logs {B} password (k : unit -> worker B) :
  (forall a, only url (k a)) ->
  logs_in_first
    (known ← client url has_first_user;
     (if (known : bool) then Done tt else client url (create_first_user password));;
     v ← client url (authenticate_prepared_admin password); k v).
Proof.
  intros Hk. apply logs_bind; [by apply logs_public |]. intros known.
  apply logs_bind; [destruct known; [done | by apply logs_public] |]. intros [].
  apply (logs_login url); [apply login_client | exact Hk].
Qed.
Lemma cleanup_logs password expected :
  logs_in_first (cleanup_user_accounts url heartbeat password expected).
Proof. apply accounts_logs. only_steps. Qed.
Lemma delete_accounts_logs password names :
  logs_in_first (delete_user_accounts url heartbeat password names).
Proof. apply accounts_logs. only_steps. Qed.

Lemma stop_active_logs password timeout poll :
  logs_in_first (stop_active_workspaces rounds url heartbeat password timeout poll).
Proof.
  apply logs_bind; [by apply logs_ask |]. intros start. cbv zeta.
  apply (logs_login url); [apply login_client |]. only_steps.
Qed.
Lemma submit_stops_logs password :
  logs_in_first (submit_active_workspace_stops rounds url heartbeat password).
Proof.
  apply (logs_login url); [apply login_client |]. unfold submit_stop_only. only_steps.
Qed.
Lemma list_template_logs password t :
  logs_in_first (list_template_workspaces rounds url heartbeat password t).
Proof. apply (logs_login url); [apply login_client |]. only_steps. Qed.

Lemma wait_for_coder_logs password deadline poll :
  login_at url (_wait_for_coder rounds url heartbeat password deadline poll).
Proof.
  unfold _wait_for_coder. generalize rounds. intros n. induction n as [|n IH]; [done |].
  cbn [loop]. intros u.
  eapply (monitored_seq _ _ _ _ _ _ (fun s o =>
    match o with inr (inl tt) => u = url -> s = true | _ => True end)); [| by intros s e |].
  - apply monitored_bind. eapply monitored_weaken; [| by apply deadline_logs].
    intros s [e | []] _; [done |]. apply monitored_bind.
    eapply monitored_weaken; [| by apply watched_any, heartbeat_logs].
    intros s1 [e | []] _; [done |]. split; [right; by right |]. intros [e | r] _; cbv beta iota.
    + destruct (is_first_user_conflict e); [exact I |]. destruct (is_request_error e); [| exact I].
      eapply (monitored_seq _ _ _ _ _ _ (fun _ _ => True)); [by apply watched_any, deadline_logs | done |].
      intros s2 [] _. split; [exact I | intros [e2 | r2] _; exact I].
    + destruct r. cbn. intros ->. rewrite bool_decide_eq_true_2 by done. by destruct s1.
  - intros s [[] | []] Hs; [exact Hs |]. destruct s; [| apply IH].
    eapply monitored_weaken; [| apply after_login]. by intros s' [e | b] ->.
Qed.

Lemma delete_workspaces_logs subject password timeout poll snapshot :
  only url snapshot ->
  logs_in_first (delete_workspaces rounds url heartbeat subject password timeout poll snapshot).
Proof.
  intros Hs. unfold delete_workspaces. apply logs_bind; [by apply logs_ask |]. intros start. cbv zeta.
  apply (logs_login url); [apply wait_for_coder_logs |]. intros _. apply only_loop. intros deleted.
  apply only_bind; [apply deadline_only |]. intros _. apply only_bind; [exact Hs |]. only_steps.
Qed.
Lemma delete_all_logs password timeout poll :
  logs_in_first (delete_all_workspaces rounds url heartbeat password timeout poll).
Proof. apply delete_workspaces_logs. only_steps. Qed.
Lemma delete_template_logs password t timeout poll :
  logs_in_first (delete_template_workspaces rounds url heartbeat password t timeout poll).
Proof. apply delete_workspaces_logs. only_steps. Qed.
End Service.

(** ** The tasks *)
Lemma heartbeat_no_coder message claim : no_coder (heartbeat_owned message claim).
Proof. intros u. unfold heartbeat_owned. only_steps. Qed.
Lemma sync_heartbeat_no_coder claim : no_coder (sync_heartbeat claim).
Proof. intros u. unfold sync_heartbeat. only_steps. Qed.
Lemma done_no_coder : no_coder (Done tt).
Proof. done. Qed.
Lemma dispatch_logs task j : logs_in_first (dispatch task j).
Proof.
  unfold dispatch. destruct (negb _); [done |]. apply logs_asked; [exact I |].
  by intros [e | [loaded delivered]].
Qed.
Lemma advance_logs claim task name mutate : logs_in_first (advance claim task name mutate).
Proof.
  apply logs_bind; [apply logs_sess |]. intros [|]; [| done].
  apply logs_bind; [apply dispatch_logs | done].
Qed.
Lemma run_claimed_logs j task operation :
  (forall claim, logs_in_first (operation claim)) -> logs_in_first (run_claimed_step j task operation).
Proof.
  intros Ho. apply logs_bind; [by apply logs_ask |]. intros now.
  apply logs_bind; [apply logs_sess |]. intros [claim |]; [| done].
  apply logs_catch; [apply Ho |]. intros e. apply logs_bind; [apply logs_sess | done].
Qed.
#[export] Hint Resolve heartbeat_no_coder sync_heartbeat_no_coder done_no_coder dispatch_logs
  advance_logs bootstrap_logs cleanup_logs stop_active_logs submit_stops_logs delete_all_logs
  delete_template_logs heartbeat_logs wait_version_only : logins.

Ltac logs_step :=
  match goal with
  | |- forall _, _ => intros ?
  | |- logs_in_first (client ?url (authenticate_prepared_admin _) ≫= _) =>
      apply (logs_login url); [apply login_client | only_steps]
  | |- logs_in_first (_ ≫= _) => apply logs_bind
  | |- logs_in_first (Done _) => exact (logs_done _)
  | |- logs_in_first (Fail _) => exact (logs_fail _)
  | |- logs_in_first (let _ := _ in _) => cbv zeta
  | |- logs_in_first (let '(_, _) := ?x in _) => destruct x
  | |- logs_in_first (if ?b then _ else _) => destruct b
  | |- logs_in_first (match ?x with _ => _ end) => destruct x
  | |- logs_in_first (sess _) => apply logs_sess
  | |- logs_in_first (returns _) => apply logs_returns
  | |- logs_in_first (run_claimed_step _ _ _) => apply run_claimed_logs
  | |- logs_in_first (catch _ _) => apply logs_catch
  | |- logs_in_first (for_each _ _ _) => apply logs_for_each
  | |- logs_in_first (ask _) => apply logs_ask; exact I
  | |- logs_in_first (Ask _ _) => apply logs_asked; [exact I |]
  | |- _ => solve [auto 3 with logins]
  end.
Ltac logs_steps := repeat logs_step.

Section Tasks.
Context `{AESGCM} (settings : Settings) (rounds : nat).

Lemma instance_steps_log j :
  Forall logs_in_first
    [step_01_create_schema settings j; step_02_create_instance settings j;
     step_03_bootstrap_admin settings j; step_01_update_instance settings j;
     step_02_cleanup_users settings j; step_01_start_instance settings j;
     step_01_stop_workspaces settings rounds j; step_02_stop_instance j;
     step_01_remove_workspaces settings rounds j; step_02_remove_instance j;
     step_03_remove_schema settings j; step_04_remove_local_configuration j;
     step_01_sync_database j].
Proof.
  repeat (apply Forall_cons; split); try apply Forall_nil;
    unfold step_01_create_schema, step_02_create_instance, step_03_bootstrap_admin,
      step_01_update_instance, step_02_cleanup_users, step_01_start_instance,
      step_01_stop_workspaces, step_02_stop_instance, step_01_remove_workspaces,
      step_02_remove_instance, step_03_remove_schema, step_04_remove_local_configuration,
      step_01_sync_database, reconcile_and_advance, restored_application, instance_helm_values,
      required_credentials, database_target, resource_id, failing_members;
    logs_steps.
Qed.

Lemma find_only url snapshot :
  rem_instance_url snapshot = url -> only url (find_remote_workspace snapshot).
Proof. intros <-. unfold find_remote_workspace. only_steps. Qed.
Lemma wait_build_only url claim build status :
  only url (wait_workspace_build settings rounds url claim build status).
Proof.
  unfold wait_workspace_build, workspace_heartbeat, _require_before_deadline. only_steps.
Qed.
Hint Resolve find_only wait_build_only : logins.

Lemma workspace_steps_log j :
  Forall logs_in_first
    [step_01_create_workspace settings rounds j; step_01_update_workspace settings rounds j;
     step_01_delete_workspace settings rounds j].
Proof.
  repeat (apply Forall_cons; split); try apply Forall_nil;
    unfold step_01_create_workspace, step_01_update_workspace, step_01_delete_workspace,
      remote_snapshot, resource_id, require_matching_template;
    logs_steps.
Qed.

Lemma publish_logs claim snapshot archive i heartbeat preparation :
  no_coder heartbeat -> logs_in_first (publish settings rounds claim snapshot archive i heartbeat preparation).
Proof. intros Hh. unfold publish, _managed_remote_template. logs_steps. Qed.
Hint Resolve publish_logs : logins.
Lemma target_logs snapshot archive i claim heartbeat :
  no_coder heartbeat ->
  logs_in_first (sync_template_target settings rounds snapshot archive i claim heartbeat).
Proof. intros Hh. unfold sync_template_target. logs_steps. Qed.
Hint Resolve target_logs : logins.

Lemma sync_one_logs snapshot archive claim i n :
  logs_in_first (sync_one settings rounds snapshot archive claim i n).
Proof. unfold sync_one. logs_steps. Qed.
Hint Resolve sync_one_logs : logins.

Lemma template_steps_log j :
  Forall logs_in_first
    [step_01_sync_template settings rounds j; step_01_create_template settings rounds j;
     step_01_delete_template settings rounds j].
Proof.
  repeat (apply Forall_cons; split); try apply Forall_nil;
    unfold step_01_sync_template, step_01_create_template, step_01_delete_template,
      fetch_template_archive, resource_id;
    logs_steps.
Qed.
Lemma steps_log name task j : In (name, task) (step_tasks settings rounds) -> logs_in_first (task j).
Proof.
  pose proof (instance_steps_log j) as Hi. pose proof (workspace_steps_log j) as Hw.
  pose proof (template_steps_log j) as Ht. rewrite !Forall_cons in *. destruct_and!.
  intros Hin. unfold step_tasks in Hin.
  repeat (destruct Hin as [[= <- <-] | Hin]; [assumption |]). destruct Hin.
Qed.

Lemma dispatch_only u task j : only u (dispatch task j).
Proof.
  unfold dispatch. destruct (negb _); [exact I |]. split; [exact I |]. by intros [e | [loaded delivered]].
Qed.
Lemma retry_each_only u before ids a b : only u (retry_each before ids a b).
Proof.
  revert a b. induction ids as [|x ids IH]; intros a b; [exact I |]. cbn [retry_each].
  apply only_bind; [apply only_sess |]. intros task. apply only_bind.
  - destruct task; [apply dispatch_only | exact I].
  - intros sent. destruct sent; apply IH.
Qed.
Lemma observe_each_only u snapshots a b c : only u (observe_each snapshots a b c).
Proof.
  revert a b c. induction snapshots as [|x l IH]; intros a b c; [exact I |]. cbn [observe_each].
  split; [exact I |]. intros [e | found]; [apply IH |].
  apply only_bind; [apply only_sess | intros wrote; apply IH].
Qed.
Lemma delay_each_only u ids a b : only u (delay_each ids a b).
Proof.
  revert a b. induction ids as [|x ids IH]; intros a b; [exact I |]. cbn [delay_each].
  split; [exact I |]. intros [e | r]; apply IH.
Qed.
Hint Resolve retry_each_only observe_each_only delay_each_only : logins.

Lemma retry_logs : logs_in_first (retry_job_executions settings).
Proof. apply no_coder_logs. intros u. unfold retry_job_executions. only_steps. Qed.
Lemma check_logs : logs_in_first check_instance_states.
Proof. apply no_coder_logs. intros u. unfold check_instance_states. only_steps. Qed.
Lemma daily_logs : logs_in_first dispatch_daily_workspace_stops.
Proof. apply no_coder_logs. intros u. unfold dispatch_daily_workspace_stops. only_steps. Qed.
Lemma stop_workspaces_logs i : logs_in_first (stop_instance_workspaces settings rounds i).
Proof. unfold stop_instance_workspaces. logs_steps. Qed.
End Tasks.

Lemma tasks_log_in `{AESGCM} settings A (p : worker A) : Task settings A p -> logs_in_first p.
Proof.
  destruct 1.
  - by eapply steps_log.
  - apply retry_logs.
  - apply check_logs.
  - apply daily_logs.
  - apply stop_workspaces_logs.
Qed.

(** No task asks a deployment for what only the administrator may have before it has been
    authenticated there. In every task of the workers, for every deployment and whatever it
    answers, each request other than the look for a first user, its creation and the login itself
    comes after a login to that deployment that succeeded. *)
Theorem coder_requests_authenticated `{AESGCM} settings A (p : worker A) url :
  Task settings A p ->
  monitored (fun _ _ _ => True) (authorized url) (logged url) false p (fun _ _ => True).
Proof. intros Ht. by apply (tasks_log_in settings). Qed.

Lemma coder_requests_authenticated_witness :
  monitored (fun _ _ _ => True) (authorized "https://a.example.com") (logged "https://a.example.com")
    false (stop_instance_workspaces sample_settings 3 10) (fun _ _ => True).
Proof.
  exact (@coder_requests_authenticated plain_aes sample_settings _ _ "https://a.example.com"
           (task_stop_workspaces sample_settings 3 10)).
Defined.
