(* ===== verification/RouteProperties.v ===== *)
(** * RouteProperties: what the handlers of the API answer, run and send *)
From S2P Require Import Prelude Order Text Models Store Registry Crypto Execution Ownership.
From S2P Require Import Claims Jobs Databases Instances Members Templates Assignments Workspaces.
From S2P Require Import Listings Config Program Coder Worker Raises Http Routes System.
From S2P Require Import Concrete.
From Stdlib Require Import Ascii String.
Open Scope string_scope.

Section Routes.
Context `{AESGCM} (settings : Settings).

(** The handlers, at their validated parameters. *)
Inductive Route : forall A, worker (Reply A) -> Prop :=
| route_list_databases p n name : Route _ (list_databases p n name)
| route_statistics : Route _ get_database_statistics
| route_sync_databases : Route _ sync_databases
| route_database_instances i p n : Route _ (list_database_instances settings i p n)
| route_check_database i : Route _ (check_database settings i)
| route_get_database i : Route _ (get_database i)
| route_create_database payload password : Route _ (create_database settings payload password)
| route_update_database i payload password :
    Route _ (update_database settings i payload password)
| route_delete_database i : Route _ (delete_database i)
| route_list_instances p n application : Route _ (list_instances settings p n application)
| route_get_instance i : Route _ (get_instance settings i)
| route_instance_admin i : Route _ (get_instance_admin settings i)
| route_provider i : Route _ (get_instance_provider i)
| route_provider_configuration i : Route _ (get_instance_provider_configuration settings i)
| route_create_provider i kubeconfig : Route _ (create_instance_provider settings i kubeconfig)
| route_instance_status i : Route _ (get_instance_status i)
| route_create_instance rounds draw application :
    Route _ (create_instance settings rounds draw application)
| route_start_instance i : Route _ (start_instance settings i)
| route_stop_instance i : Route _ (stop_instance settings i)
| route_sync_instance i : Route _ (sync_instance settings i)
| route_delete_instance i : Route _ (delete_instance settings i)
| route_list_assignments i p n : Route _ (list_instance_templates i p n)
| route_put_assignment i t : Route _ (put_instance_template i t)
| route_delete_assignment i t : Route _ (delete_instance_template i t)
| route_get_job i : Route _ (get_job i)
| route_list_members i p n : Route _ (list_members i p n)
| route_create_member i username role : Route _ (create_member i username role)
| route_get_member i k : Route _ (get_member i k)
| route_update_member i k role : Route _ (update_member_role i k role)
| route_delete_member i k : Route _ (delete_member settings i k)
| route_list_templates p n name : Route _ (list_templates p n name)
| route_template_modules i : Route _ (list_template_modules i)
| route_sync_template i : Route _ (sync_template i)
| route_get_template i : Route _ (get_template i)
| route_create_template name payload : Route _ (create_template name payload)
| route_update_template i payload : Route _ (update_template i payload)
| route_delete_template i : Route _ (delete_template i)
| route_list_images t p n : Route _ (list_template_images t p n)
| route_get_image t i : Route _ (get_template_image t i)
| route_create_image t registry name version :
    Route _ (create_template_image t registry name version)
| route_delete_image t i : Route _ (delete_template_image t i)
| route_list_parameters t p n : Route _ (list_template_parameters t p n)
| route_get_parameter t i : Route _ (get_template_parameter t i)
| route_create_parameter t payload : Route _ (create_template_parameter settings t payload)
| route_update_parameter t i payload : Route _ (update_template_parameter settings t i payload)
| route_delete_parameter t i : Route _ (delete_template_parameter t i)
| route_list_workspaces query : Route _ (list_workspaces query)
| route_get_workspace i : Route _ (get_workspace i)
| route_create_workspace payload : Route _ (create_workspace payload)
| route_update_workspace i payload : Route _ (update_workspace i payload)
| route_delete_workspace i : Route _ (delete_workspace i).

(** ** What the handlers run *)

(** The requests that a handler may make: the clock, fresh values, messages of registered tasks,
    the check of a connection and the status of an application. None of them changes a remote
    system. *)
Definition harmless (R : Type) (q : Query R) : Prop :=
  match q with
  | Now | NewUuid | Nonce | CheckConnection _ _ _ _ _ | ReadApplicationStatus _ _ _ => True
  | Deliver task_name _ => task_name ∈ REGISTERED_STEP_NAMES
  | _ => False
  end.
Definition well_behaved {A} (p : worker A) : Prop := within Api harmless p.

Lemma behaved_bind {A B} (p : worker A) (k : A -> worker B) :
  well_behaved p -> (forall a, well_behaved (k a)) -> well_behaved (p ≫= k).
Proof. apply within_bind. Qed.
Lemma behaved_except {A} (p : worker A) table : well_behaved p -> well_behaved (except p table).
Proof. intros Hp. by apply within_catch. Qed.
Lemma behaved_sess {A} (m : session A) : Api A m -> well_behaved (sess m).
Proof. apply within_sess. Qed.
Lemma behaved_read {A} (m : session A) : ReadOnly m -> well_behaved (sess m).
Proof. intros Hm. apply behaved_sess. by constructor. Qed.
Lemma behaved_gets {A} (f : Store -> A) : well_behaved (sess (gets f)).
Proof. apply behaved_read. intros d a d' E. by session_inv. Qed.
Lemma behaved_ask {R} (q : Query R) : harmless R q -> well_behaved (ask q).
Proof. apply within_ask. Qed.
Lemma behaved_returns {A} (r : Exn + A) : well_behaved (returns r).
Proof. apply within_returns. Qed.
Lemma behaved_or_raise {A} (o : option A) e : well_behaved (or_raise o e).
Proof. by destruct o. Qed.
Lemma behaved_dispatch task j : well_behaved (dispatch task j).
Proof.
  unfold dispatch. destruct (member task REGISTERED_STEP_NAMES) eqn:E; [| exact I].
  split; [by apply member_true |]. intros [e | [l v]]; exact I.
Qed.
Lemma behaved_done {A} (a : A) : well_behaved (Done a).
Proof. exact I. Qed.

Lemma behaved_job_read o : well_behaved (_job_read o).
Proof.
  destruct o; [| exact I]. apply behaved_bind; [apply behaved_gets | intros; exact I].
Qed.
Lemma behaved_dispatch_read task o : well_behaved (dispatch_read task o).
Proof.
  destruct o; [| exact I]. apply behaved_bind; [apply behaved_dispatch | intros; exact I].
Qed.
Lemma behaved_dispatch_enqueued o task : well_behaved (_dispatch_enqueued_job o task).
Proof.
  destruct o; [| exact I]. apply behaved_bind; [apply behaved_dispatch | intros; exact I].
Qed.
Lemma behaved_cipher e : well_behaved (build_cipher settings e).
Proof. apply behaved_except, behaved_returns. Qed.
Lemma behaved_cipher_for b : well_behaved (cipher_for settings b).
Proof. destruct b; [| exact I]. apply behaved_bind; [apply behaved_cipher | intros; exact I]. Qed.

Ltac read_only :=
  apply behaved_read; intros ? ? ? ?;
  unfold member_list, image_list, parameter_list, assignment_list, kubernetes_get in *;
  by session_cases.
Ltac api_session :=
  first
    [ simple apply api_sync_database | simple apply api_database_create
    | simple apply api_database_update | simple apply api_database_delete
    | simple apply api_instance_create | simple apply api_instance_deletion
    | simple apply api_instance_sync | simple apply api_instance_start
    | simple apply api_instance_stop | simple apply api_kubernetes
    | simple apply api_member_create | simple apply api_member_update_role
    | simple apply api_member_deletion | simple apply api_template_create
    | simple apply api_template_update | simple apply api_template_delete
    | simple apply api_template_sync | simple apply api_image_create
    | simple apply api_image_delete | simple apply api_parameter_create
    | simple apply api_parameter_update | simple apply api_parameter_delete
    | simple apply api_assignment_put | simple apply api_assignment_deletion
    | simple apply api_workspace_create | simple apply api_workspace_update
    | simple apply api_workspace_deletion ].
Ltac behaved_step :=
  match goal with
  | |- well_behaved (_ ≫= _) => apply behaved_bind; [| intros ?]
  | |- well_behaved (except _ _) => apply behaved_except
  | |- well_behaved (_job_read _) => apply behaved_job_read
  | |- well_behaved (dispatch_read _ _) => apply behaved_dispatch_read
  | |- well_behaved (_dispatch_enqueued_job _ _) => apply behaved_dispatch_enqueued
  | |- well_behaved (build_cipher _ _) => apply behaved_cipher
  | |- well_behaved (cipher_for _ _) => apply behaved_cipher_for
  | |- well_behaved (ask _) => apply behaved_ask; exact I
  | |- well_behaved (sess _) => first [simple apply behaved_gets | apply behaved_sess; api_session | read_only]
  | |- well_behaved (returns _) => apply behaved_returns
  | |- well_behaved (or_raise _ _) => apply behaved_or_raise
  | |- well_behaved (dispatch _ _) => apply behaved_dispatch
  | |- well_behaved (Done _) => exact I
  | |- well_behaved (ok _) => exact I
  | |- well_behaved (created _) => exact I
  | |- well_behaved (accepted _) => exact I
  | |- well_behaved no_content => exact I
  | |- well_behaved (match ?x with _ => _ end) => destruct x
  | |- well_behaved (let '(_, _) := ?x in _) => destruct x
  end.

(** The handlers of the API, all 51, run sessions of the system's API only, so that what holds
    of every step of the system holds while they run; and between them they ask for nothing that
    changes a remote system: every message that they send is of a registered task. *)
Theorem routes_run_api_sessions A (p : worker (Reply A)) : Route A p -> within Api harmless p.
Proof.
  change (Route A p -> well_behaved p).
  destruct 1;
    unfold list_databases, get_database_statistics, sync_databases, list_database_instances,
      check_database, get_database, create_database, update_database, delete_database,
      list_instances, get_instance, get_instance_admin, get_instance_provider,
      get_instance_provider_configuration, create_instance_provider, get_instance_status,
      create_instance, start_instance, stop_instance, sync_instance, delete_instance,
      instance_action, list_instance_templates, put_instance_template, delete_instance_template,
      get_job, list_members, create_member, get_member, update_member_role, delete_member,
      list_templates, list_template_modules, sync_template, get_template, create_template,
      update_template, delete_template, list_template_images, get_template_image,
      create_template_image, delete_template_image, list_template_parameters,
      get_template_parameter, create_template_parameter, update_template_parameter,
      delete_template_parameter, list_workspaces, get_workspace, create_workspace,
      update_workspace, delete_workspace, instance_page, instance_read, password_cipher,
      kubeconfig_cipher, instance_password_cipher, _instance_job,
      _consume_instance_update_request, _dispatch_job, get_usage, instance_get, template_get, image_get, parameter_get,
      member_get, workspace_get, job_get;
    repeat behaved_step.
Qed.

(** ** What the handlers answer *)

(** The clock, identifiers and nonces are always there; the two remote requests of the handlers
    raise what their libraries raise: asyncpg, the Argo CD client and httpx. *)
Definition documented (R : Type) (q : Query R) (r : Exn + R) : Prop :=
  match q, r with
  | Now, inl _ | NewUuid, inl _ | Nonce, inl _ => False
  | CheckConnection _ _ _ _ _, inl e => e ∈ [PostgresError; OSError; TimeoutError]
  | ReadApplicationStatus _ _ _, inl e =>
      match e with
      | ArgoCdApplicationNotFoundError _ | ArgoCdApplicationOwnershipError _
      | ArgoCdConfigurationError _ | ArgoCdRequestError _ | HTTPError _ => True
      | _ => False
      end
  | _, _ => True
  end.

(** The error replies, the refusal of a whole transaction by the database, and the bound of the
    model on the drawing of slugs. *)
Definition refusal (e : Exn) : Prop :=
  match e with
  | HTTPException status_code _ _ => status_code ∈ [404; 409; 422; 502; 503]%Z
  | IntegrityError => True
  | e => e = STILL_DRAWING
  end.
Definition answers {A} (p : worker A) : Prop := fails documented refusal p.

Ltac refused := first [exact I | reflexivity | apply (bool_decide_eq_true_1 _); vm_compute; reflexivity].

Lemma answers_bind {A B} (p : worker A) (k : A -> worker B) :
  answers p -> (forall a, answers (k a)) -> answers (p ≫= k).
Proof. apply fails_bind. Qed.

(** An [except] around a session: each exception that the session can raise is handled. *)
Lemma answers_except {A} es (m : session A) table :
  Raises es m -> Forall (fun e => refusal (default e (table e))) es ->
  answers (except (sess m) table).
Proof.
  intros Hm Ht. apply (fails_catch _ _ (fun e => e ∈ es)); [by apply (fails_sess _ _ es) |].
  rewrite Forall_forall in Ht. intros e He. cbn. by apply Ht.
Qed.
Lemma answers_total {A} (m : session A) : Raises [] m -> answers (sess m).
Proof. intros Hm. apply (fails_sess _ _ []); [done |]. by intros e ?%elem_of_nil. Qed.
Lemma answers_gets {A} (f : Store -> A) : answers (sess (gets f)).
Proof. apply answers_total. intros d e _ [=]. Qed.
Lemma answers_or_raise {A} (o : option A) e : refusal e -> answers (or_raise o e).
Proof. by destruct o. Qed.
Lemma answers_returns {A} (r : Exn + A) : (forall e, r = inl e -> refusal e) -> answers (returns r).
Proof. apply fails_returns. Qed.
Lemma answers_ask {R} (q : Query R) :
  (forall e, documented R q (inl e) -> refusal e) -> answers (ask q).
Proof. apply fails_ask. Qed.
Lemma answers_dispatch task j : answers (dispatch task j).
Proof.
  unfold dispatch. destruct (negb _); [exact I |]. intros [e | [l v]] _; exact I.
Qed.
Lemma answers_job_read o : answers (_job_read o).
Proof. destruct o; [| exact I]. apply answers_bind; [apply answers_gets | intros; exact I]. Qed.
Lemma answers_dispatch_read task o : answers (dispatch_read task o).
Proof. destruct o; [| exact I]. apply answers_bind; [apply answers_dispatch | intros; exact I]. Qed.
Lemma answers_dispatch_enqueued o task : answers (_dispatch_enqueued_job o task).
Proof. destruct o; [| exact I]. apply answers_bind; [apply answers_dispatch | intros; exact I]. Qed.
Lemma answers_cipher e : refusal e -> answers (build_cipher settings e).
Proof.
  intros He. apply (fails_catch _ _ (fun x => x = CryptoConfigurationError)).
  - apply fails_returns. apply init_cipher_inl.
  - intros x ->. exact He.
Qed.
Lemma answers_cipher_for b : answers (cipher_for settings b).
Proof.
  destruct b; [| exact I]. apply answers_bind; [apply answers_cipher; refused | intros; exact I].
Qed.


(** A [try] around fresh values and a session, and around a cipher before them. *)
Definition raising (es : list Exn) {A} (p : worker A) : Prop := fails documented (fun e => e ∈ es) p.
Lemma raising_ask es {R A} (q : Query R) (k : R -> worker A) :
  (forall e, ~ documented R q (inl e)) -> (forall r, raising es (k r)) -> raising es (r ← ask q; k r).
Proof. intros Hq Hk. apply fails_bind; [| exact Hk]. apply fails_ask. intros e He. by apply Hq in He. Qed.
Lemma raising_sess es {A} (m : session A) : Raises es m -> raising es (sess m).
Proof. intros Hm. by apply (fails_sess _ _ es). Qed.
Lemma answers_handled es {A} (p : worker A) table :
  raising es p -> Forall (fun e => refusal (default e (table e))) es -> answers (except p table).
Proof.
  intros Hp Ht. apply (fails_catch _ _ _ _ _ Hp). rewrite Forall_forall in Ht.
  intros e He. cbn. by apply Ht.
Qed.
Lemma answers_ciphered e {A} (k : cipher -> worker A) table :
  refusal e -> table e = None -> (forall c, answers (except (k c) table)) ->
  answers (except (c ← build_cipher settings e; k c) table).
Proof.
  intros Hr Ht Hk. unfold except, build_cipher.
  destruct (init_cipher (crypto_key settings)) as [x | c] eqn:E; cbn.
  - apply init_cipher_inl in E as ->. cbn. by rewrite Ht.
  - apply Hk.
Qed.

(** Decryption under a stored key. *)
Lemma answers_decrypted e x {A} (decrypt : cipher -> Exn + A) table :
  refusal e -> table e = None -> (forall c y, decrypt c = inl y -> y = x) ->
  refusal (default x (table x)) ->
  answers (except (c ← build_cipher settings e; returns (decrypt c)) table).
Proof.
  intros Hr Ht Hd Hx. apply answers_ciphered; [done | done |]. intros c.
  apply (answers_handled [x]); [| by repeat constructor].
  apply fails_returns. intros y ->%Hd. left.
Qed.

Context (base_domain : string) (Hbase : from_settings settings = inr base_domain).
Context (admins : list string) (Hadmins : parse_default_admins (default_admins settings) = inr admins).

Lemma answers_instance_read i r : answers (instance_read settings i r).
Proof.
  unfold instance_read. apply answers_bind; [apply answers_gets |]. intros allocation.
  rewrite Hbase. exact I.
Qed.
Lemma answers_instance_page l p n : answers (instance_page settings l p n).
Proof.
  unfold instance_page. apply answers_bind; [apply answers_gets |]. intros it.
  rewrite Hbase. exact I.
Qed.

Ltac answer_step :=
  match goal with
  | |- answers (instance_read _ _ _) => apply answers_instance_read
  | |- answers (instance_page _ _ _ _) => apply answers_instance_page
  | |- answers (build_cipher _ _) => apply answers_cipher; refused
  | |- answers (cipher_for _ _) => apply answers_cipher_for
  | |- answers (_job_read _) => apply answers_job_read
  | |- answers (dispatch_read _ _) => apply answers_dispatch_read
  | |- answers (_dispatch_enqueued_job _ _) => apply answers_dispatch_enqueued
  | |- answers (dispatch _ _) => apply answers_dispatch
  | |- answers (except (sess _) _) =>
      eapply answers_except; [solve [eauto with raises] | repeat constructor; refused]
  | |- answers (except (_ ← build_cipher _ _; returns _) _) =>
      eapply answers_decrypted;
      [refused | reflexivity
      | first [intros ? ?; apply password_decrypt_inl | intros ? ?; apply instance_password_decrypt_inl
              | intros ? ?; apply kubeconfig_decrypt_inl] | refused]
  | |- answers (except (_ ← build_cipher _ _; _) _) =>
      apply answers_ciphered; [refused | reflexivity | intros ?]
  | |- answers (except (_ ← _; _) _) =>
      eapply answers_handled;
      [repeat (apply raising_ask; [by intros ? [] | intros ?]);
       apply raising_sess; solve [eauto with raises] | repeat constructor; refused]
  | |- answers (_ ≫= _) => apply answers_bind; [| intros ?]
  | |- answers (ask _) => apply answers_ask; intros ? []
  | |- answers (sess (gets _)) => apply answers_gets
  | |- answers (or_raise _ _) => apply answers_or_raise; refused
  | |- answers (Done _) => exact I
  | |- answers (ok _) => exact I
  | |- answers (created _) => exact I
  | |- answers (accepted _) => exact I
  | |- answers no_content => exact I
  | |- answers (match ?x with _ => _ end) => destruct x
  end.

Lemma answers_check_connection h p b u w :
  answers (except (ask (CheckConnection h p b u w))
    (fun e => match e with
      | PostgresError | OSError | TimeoutError =>
          Some (http 502 "Database connection is unavailable")
      | _ => None end)).
Proof.
  apply (answers_handled [PostgresError; OSError; TimeoutError]); [| repeat constructor; refused].
  apply fails_ask. intros e He. exact He.
Qed.

Lemma answers_read_status i slug name :
  answers (except (ask (ReadApplicationStatus i slug name))
    (fun e => match e with
      | ArgoCdApplicationNotFoundError _ => Some (http 404 "Argo CD Application not found")
      | ArgoCdApplicationOwnershipError _ =>
          Some (http 409 "Argo CD Application ownership conflict")
      | ArgoCdConfigurationError _ => Some (http 503 "Argo CD is not configured")
      | ArgoCdRequestError _ | HTTPError _ => Some (http 502 "Argo CD status is unavailable")
      | _ => None end)).
Proof.
  apply (fails_catch _ _ (fun e => documented _ (ReadApplicationStatus i slug name) (inl e))).
  - apply fails_ask. intros e He. exact He.
  - intros e. destruct e; cbn; try done; intros _; refused.
Qed.

(** A system parameter comes with its cipher. *)
Lemma answers_ciphered_for b {A} (k : option cipher -> worker A) :
  (forall c, (if b : bool then is_Some c else c = None) -> answers (k c)) ->
  answers (c ← cipher_for settings b; k c).
Proof.
  intros Hk. destruct b; [| by apply Hk]. unfold cipher_for, parameter_cipher, build_cipher.
  destruct (init_cipher (crypto_key settings)) as [x | c] eqn:E; cbn.
  - apply init_cipher_inl in E as ->. cbn. refused.
  - apply Hk. by eexists.
Qed.

Lemma answers_create_parameter t payload : answers (create_template_parameter settings t payload).
Proof.
  unfold create_template_parameter. apply answers_ciphered_for. intros c Hc.
  assert (Hp : match payload with SystemTemplateParameterCreate _ _ _ => is_Some c | _ => True end)
    by by destruct payload.
  repeat answer_step.
Qed.
Lemma answers_update_parameter t i payload :
  answers (update_template_parameter settings t i payload).
Proof.
  unfold update_template_parameter. apply answers_ciphered_for. intros c Hc.
  assert (Hp : match payload with SystemTemplateParameterUpdate _ _ => is_Some c | _ => True end)
    by by destruct payload.
  repeat answer_step.
Qed.

Lemma read_assignments_raises i p n :
  Raises [TemplateAssignmentInstanceNotFoundError]
    (it ← assignment_list i p n;
     d ← gets (fun d => d);
     mret (map (fun x => assignment_read d x.1) it.1, it.2)).
Proof. unfold assignment_list. raises. Qed.
Local Hint Resolve read_assignments_raises : raises.

Lemma answers_sync_databases : answers sync_databases.
Proof.
  unfold sync_databases. repeat answer_step. eapply fails_sess; [solve [eauto with raises] |].
  intros e ->%list_elem_of_singleton. exact I.
Qed.

Lemma routes_refuse A (p : worker (Reply A)) :
  Route A p -> fails documented refusal p.
Proof.
  change (Route A p -> answers p).
  destruct 1; try solve [apply answers_create_parameter | apply answers_update_parameter
    | apply answers_sync_databases];
    unfold list_databases, get_database_statistics, list_database_instances,
      check_database, get_database, create_database, update_database, delete_database,
      list_instances, get_instance, get_instance_admin, get_instance_provider,
      get_instance_provider_configuration, create_instance_provider, get_instance_status,
      create_instance, start_instance, stop_instance, sync_instance, delete_instance,
      instance_action, list_instance_templates, put_instance_template, delete_instance_template,
      get_job, list_members, create_member, get_member, update_member_role, delete_member,
      list_templates, list_template_modules, sync_template, get_template, create_template,
      update_template, delete_template, list_template_images, get_template_image,
      create_template_image, delete_template_image, list_template_parameters,
      get_template_parameter, delete_template_parameter, list_workspaces, get_workspace,
      create_workspace, update_workspace, delete_workspace, password_cipher, kubeconfig_cipher,
      instance_password_cipher, _instance_job, _consume_instance_update_request, _dispatch_job,
      get_usage, instance_get, template_get, image_get, parameter_get, member_get, workspace_get,
      job_get;
    try rewrite Hadmins;
    repeat first [exact I | apply answers_check_connection | apply answers_read_status | answer_step].
Qed.

(** C23: Every handler answers every refusal: on consistent stores, whatever other processes commit
    between its sessions, and whatever documented exception a remote system raises, an exception
    that leaves a handler is an error reply with one of the statuses 404, 409, 422, 502 and 503;
    or it is the refusal of the transaction by the database. No repository exception is left to
    become an internal error. *)
Theorem routes_answer_every_refusal A (p : worker (Reply A)) :
  Route A p -> fails documented refusal p.
Proof. apply routes_refuse. Qed.
End Routes.

(** A refusal on the empty store: nothing is known there. *)
Theorem routes_answer_every_refusal_witness :
  @fails _ documented refusal (Reply InstanceRead) (get_instance sample_settings 7) /\
  run_task (get_instance sample_settings 7) 0 empty_store
  = (inl (HTTPException 404 "Instance not found" false), 0, empty_store).
Proof.
  split; [| vm_compute; reflexivity].
  eapply (@routes_answer_every_refusal plain_aes sample_settings); [reflexivity | reflexivity |].
  apply route_get_instance.
Defined.

Theorem routes_run_api_sessions_witness :
  @within Query (@Api plain_aes) harmless (Reply JobRead) sync_databases /\
  exists reply, (run_task sync_databases 0 empty_store).1.1 = inr reply /\ reply_status reply = 202%Z.
Proof.
  split.
  - apply (@routes_run_api_sessions plain_aes sample_settings). apply route_sync_databases.
  - eexists. split; vm_compute; reflexivity.
Defined.
