(* ===== verification/Router.v ===== *)
(** * Router: the routes of the API (the decorators of api/routes/, api/router.py, main.py)

    Which function serves which method and path, with which parameters of the path, and the
    statuses that a route declares. How Starlette finds the route of a request, and how Pydantic
    reads an identifier, are parameters ([Routing]) with the documented laws ([RoutingLaws]). The
    order of the routes matters, because the path of one may have the form of another
    (/databases/statistics and /databases/{database_id}). *)
From S2P Require Import Prelude Order Text Models Store Registry Crypto Execution Config Program.
From S2P Require Import Members Templates Assignments Workspaces Listings Worker Replace Schemas.
From S2P Require Import Http Routes Concrete.
From Stdlib Require Import Ascii String.
Open Scope string_scope.

(** ** Routes *)
Inductive Method := GET | POST | PUT | DELETE.
#[export] Instance method_eq : EqDecision Method.
Proof. solve_decision. Defined.

(** [@router.<method>(path, status_code=..., responses={...})]; without a [status_code], 200. *)
Record ApiRoute := mkRoute {
  route_method : Method;
  route_path : string;
  route_status : Z;
  route_responses : list Z
}.
#[export] Instance route_eq : EqDecision ApiRoute.
Proof. solve_decision. Defined.
(** [APIRouter(prefix=...)] with its routes, in the order of their decorators. *)
Record APIRouter := mkRouter { router_prefix : string; router_routes : list ApiRoute }.

(** *** databases.py *)
Definition list_databases_route : ApiRoute := mkRoute GET "" 200 [].
Definition get_database_statistics_route : ApiRoute := mkRoute GET "/statistics" 200 [].
Definition sync_databases_route : ApiRoute := mkRoute POST "/sync" 202 [].
Definition list_database_instances_route : ApiRoute :=
  mkRoute GET "/{database_id}/instances" 200 [].
Definition check_database_route : ApiRoute := mkRoute GET "/{database_id}/check" 200 [].
Definition get_database_route : ApiRoute := mkRoute GET "/{database_id}" 200 [].
Definition create_database_route : ApiRoute := mkRoute POST "" 201 [].
Definition update_database_route : ApiRoute := mkRoute PUT "/{database_id}" 200 [].
Definition delete_database_route : ApiRoute := mkRoute DELETE "/{database_id}" 204 [].
Definition databases_router : APIRouter :=
  mkRouter "/databases"
    [list_databases_route; get_database_statistics_route; sync_databases_route;
     list_database_instances_route; check_database_route; get_database_route;
     create_database_route; update_database_route; delete_database_route].

(** *** instances.py *)
Definition list_instances_route : ApiRoute := mkRoute GET "" 200 [].
Definition get_instance_route : ApiRoute := mkRoute GET "/{instance_id}" 200 [].
Definition get_instance_admin_route : ApiRoute := mkRoute GET "/{instance_id}/admin" 200 [].
Definition get_instance_provider_route : ApiRoute := mkRoute GET "/{instance_id}/provider" 200 [].
Definition get_instance_provider_configuration_route : ApiRoute :=
  mkRoute GET "/{instance_id}/provider/configuration" 200 [].
Definition create_instance_provider_route : ApiRoute :=
  mkRoute POST "/{instance_id}/provider" 202 [].
Definition get_instance_status_route : ApiRoute := mkRoute GET "/{instance_id}/status" 200 [].
Definition create_instance_route : ApiRoute := mkRoute POST "" 201 [].
Definition start_instance_route : ApiRoute := mkRoute POST "/{instance_id}/start" 202 [].
Definition stop_instance_route : ApiRoute := mkRoute POST "/{instance_id}/stop" 202 [].
Definition sync_instance_route : ApiRoute := mkRoute POST "/{instance_id}/sync" 202 [].
Definition delete_instance_route : ApiRoute := mkRoute DELETE "/{instance_id}" 202 [].
Definition instances_router : APIRouter :=
  mkRouter "/instances"
    [list_instances_route; get_instance_route; get_instance_admin_route;
     get_instance_provider_route; get_instance_provider_configuration_route;
     create_instance_provider_route; get_instance_status_route; create_instance_route;
     start_instance_route; stop_instance_route; sync_instance_route;
     delete_instance_route].

(** *** instance_templates.py *)
Definition list_instance_templates_route : ApiRoute := mkRoute GET "" 200 [].
Definition put_instance_template_route : ApiRoute := mkRoute PUT "/{template_id}" 200 [202%Z].
Definition delete_instance_template_route : ApiRoute :=
  mkRoute DELETE "/{template_id}" 202 [204%Z].
Definition instance_templates_router : APIRouter :=
  mkRouter "/instances/{instance_id}/templates"
    [list_instance_templates_route; put_instance_template_route;
     delete_instance_template_route].

(** *** jobs.py *)
Definition get_job_route : ApiRoute := mkRoute GET "/{job_id}" 200 [].
Definition jobs_router : APIRouter :=
  mkRouter "/jobs"
    [get_job_route].

(** *** members.py *)
Definition list_members_route : ApiRoute := mkRoute GET "" 200 [].
Definition create_member_route : ApiRoute := mkRoute POST "" 201 [].
Definition get_member_route : ApiRoute := mkRoute GET "/{member_id}" 200 [].
Definition update_member_role_route : ApiRoute := mkRoute PUT "/{member_id}" 200 [].
Definition delete_member_route : ApiRoute := mkRoute DELETE "/{member_id}" 202 [].
Definition members_router : APIRouter :=
  mkRouter "/instances/{instance_id}/members"
    [list_members_route; create_member_route; get_member_route; update_member_role_route;
     delete_member_route].

(** *** templates.py *)
Definition list_templates_route : ApiRoute := mkRoute GET "" 200 [].
Definition list_template_modules_route : ApiRoute := mkRoute GET "/{template_id}/modules" 200 [].
Definition sync_template_route : ApiRoute := mkRoute POST "/{template_id}/sync" 202 [].
Definition get_template_route : ApiRoute := mkRoute GET "/{template_id}" 200 [].
Definition create_template_route : ApiRoute := mkRoute POST "" 201 [].
Definition update_template_route : ApiRoute := mkRoute PUT "/{template_id}" 200 [].
Definition delete_template_route : ApiRoute := mkRoute DELETE "/{template_id}" 204 [].
Definition templates_router : APIRouter :=
  mkRouter "/templates"
    [list_templates_route; list_template_modules_route; sync_template_route;
     get_template_route; create_template_route; update_template_route;
     delete_template_route].

(** *** template_images.py *)
Definition list_template_images_route : ApiRoute := mkRoute GET "" 200 [].
Definition get_template_image_route : ApiRoute := mkRoute GET "/{image_id}" 200 [].
Definition create_template_image_route : ApiRoute := mkRoute POST "" 201 [].
Definition delete_template_image_route : ApiRoute := mkRoute DELETE "/{image_id}" 204 [].
Definition template_images_router : APIRouter :=
  mkRouter "/templates/{template_id}/images"
    [list_template_images_route; get_template_image_route; create_template_image_route;
     delete_template_image_route].

(** *** template_parameters.py *)
Definition list_template_parameters_route : ApiRoute := mkRoute GET "" 200 [].
Definition get_template_parameter_route : ApiRoute := mkRoute GET "/{parameter_id}" 200 [].
Definition create_template_parameter_route : ApiRoute := mkRoute POST "" 201 [].
Definition update_template_parameter_route : ApiRoute := mkRoute PUT "/{parameter_id}" 200 [].
Definition delete_template_parameter_route : ApiRoute := mkRoute DELETE "/{parameter_id}" 204 [].
Definition template_parameters_router : APIRouter :=
  mkRouter "/templates/{template_id}/parameters"
    [list_template_parameters_route; get_template_parameter_route;
     create_template_parameter_route; update_template_parameter_route;
     delete_template_parameter_route].

(** *** workspaces.py *)
Definition list_workspaces_route : ApiRoute := mkRoute GET "" 200 [].
Definition get_workspace_route : ApiRoute := mkRoute GET "/{workspace_id}" 200 [].
Definition create_workspace_route : ApiRoute := mkRoute POST "" 201 [].
Definition update_workspace_route : ApiRoute := mkRoute PUT "/{workspace_id}" 200 [].
Definition delete_workspace_route : ApiRoute := mkRoute DELETE "/{workspace_id}" 202 [].
Definition workspaces_router : APIRouter :=
  mkRouter "/workspaces"
    [list_workspaces_route; get_workspace_route; create_workspace_route;
     update_workspace_route; delete_workspace_route].

(** *** router.py and main.py *)
Definition api_router : list APIRouter :=
  [databases_router; instances_router; instance_templates_router; jobs_router; members_router;
   templates_router; template_images_router; template_parameters_router; workspaces_router].
Definition API_PREFIX : string := "/api/v1".

(** A route of the application: the prefix of the application, that of its router, and its path. *)
Definition mounted (router : APIRouter) (r : ApiRoute) : ApiRoute :=
  mkRoute (route_method r) (API_PREFIX ++ router_prefix router ++ route_path r) (route_status r)
    (route_responses r).
(** The routes that [application.include_router(api_router, prefix=API_PREFIX)] adds. *)
Definition application_routes : list ApiRoute :=
  List.concat (map (fun router => map (mounted router) (router_routes router)) api_router).

(** ** Paths *)

(** [{name}] in a path stands for a text of one character or more, without a slash. *)
Definition is_parameter (part : list ascii) : bool :=
  match part with
  | c :: rest =>
      Ascii.eqb c "{" && match last rest with Some z => Ascii.eqb z "}" | None => false end
  | [] => false
  end.
(** The texts for the parameters of a path, if a requested path has its form. *)
Fixpoint captures (pattern parts : list (list ascii)) : option (list string) :=
  match pattern, parts with
  | [], [] => Some []
  | p :: pattern', q :: parts' =>
      if is_parameter p then
        if bool_decide (q = []) then None
        else texts ← captures pattern' parts'; Some (unchars q :: texts)
      else if bool_decide (p = q) then captures pattern' parts' else None
  | _, _ => None
  end.
Definition candidate (m : Method) (path : string) (r : ApiRoute)
    : option (ApiRoute * list string) :=
  if bool_decide (route_method r = m)
  then texts ← captures (split "/" (route_path r)) (split "/" path); Some (r, texts) else None.

(** The route of a path with identifiers for its parameters. *)
Fixpoint filled (pattern : list (list ascii)) (ids : list uuid) : option (list (list ascii)) :=
  match pattern with
  | [] => match ids with [] => Some [] | _ => None end
  | p :: pattern' =>
      if is_parameter p then
        match ids with
        | [] => None
        | i :: ids' => parts ← filled pattern' ids'; Some (chars (uuid_str i) :: parts)
        end
      else parts ← filled pattern' ids; Some (p :: parts)
  end.
Definition url_path (r : ApiRoute) (ids : list uuid) : option string :=
  parts ← filled (split "/" (route_path r)) ids; Some (unchars (join_path parts)).

(** ** Starlette and Pydantic *)
Class Routing := {
  (** The route that a request goes to, with the texts of its parameters. *)
  route_of : list ApiRoute -> Method -> string -> option (ApiRoute * list string);
  read_uuid : string -> option uuid
}.
(** The first route of the method whose path has the form of the requested one is taken; an
    identifier is read from its text. *)
Class RoutingLaws `{Routing} := {
  route_of_first routes m path : route_of routes m path = head (omap (candidate m path) routes);
  read_uuid_str u : (u < 2 ^ 128)%N -> read_uuid (uuid_str u) = Some u
}.

Fixpoint read_all `{Routing} (texts : list string) : option (list uuid) :=
  match texts with
  | [] => Some []
  | t :: texts' => i ← read_uuid t; ids ← read_all texts'; Some (i :: ids)
  end.
(** The route of a request with its identifiers: none for 404, 405 and 422. *)
Definition dispatched `{Routing} (m : Method) (path : string) : option (ApiRoute * list uuid) :=
  found ← route_of application_routes m path;
  ids ← read_all found.2; Some (found.1, ids).

(** ** The functions under the decorators *)
Section Served.
Context `{AESGCM} (settings : Settings).

(** [Served router route ids A p]: with [ids] for the parameters of the path, [p] is run. *)
Inductive Served :
    APIRouter -> ApiRoute -> list uuid -> forall A, worker (Reply A) -> Prop :=
| serve_list_databases p n name :
    Served databases_router list_databases_route [] _ (list_databases p n name)
| serve_get_database_statistics :
    Served databases_router get_database_statistics_route [] _ get_database_statistics
| serve_sync_databases :
    Served databases_router sync_databases_route [] _ sync_databases
| serve_list_database_instances i p n :
    Served databases_router list_database_instances_route [i] _
      (list_database_instances settings i p n)
| serve_check_database i :
    Served databases_router check_database_route [i] _ (check_database settings i)
| serve_get_database i :
    Served databases_router get_database_route [i] _ (get_database i)
| serve_create_database payload password :
    Served databases_router create_database_route [] _ (create_database settings payload password)
| serve_update_database i payload password :
    Served databases_router update_database_route [i] _
      (update_database settings i payload password)
| serve_delete_database i :
    Served databases_router delete_database_route [i] _ (delete_database i)
| serve_list_instances p n application :
    Served instances_router list_instances_route [] _ (list_instances settings p n application)
| serve_get_instance i :
    Served instances_router get_instance_route [i] _ (get_instance settings i)
| serve_get_instance_admin i :
    Served instances_router get_instance_admin_route [i] _ (get_instance_admin settings i)
| serve_get_instance_provider i :
    Served instances_router get_instance_provider_route [i] _ (get_instance_provider i)
| serve_get_instance_provider_configuration i :
    Served instances_router get_instance_provider_configuration_route [i] _
      (get_instance_provider_configuration settings i)
| serve_create_instance_provider i kubeconfig :
    Served instances_router create_instance_provider_route [i] _
      (create_instance_provider settings i kubeconfig)
| serve_get_instance_status i :
    Served instances_router get_instance_status_route [i] _ (get_instance_status i)
| serve_create_instance rounds draw application :
    Served instances_router create_instance_route [] _
      (create_instance settings rounds draw application)
| serve_start_instance i :
    Served instances_router start_instance_route [i] _ (start_instance settings i)
| serve_stop_instance i :
    Served instances_router stop_instance_route [i] _ (stop_instance settings i)
| serve_sync_instance i :
    Served instances_router sync_instance_route [i] _ (sync_instance settings i)
| serve_delete_instance i :
    Served instances_router delete_instance_route [i] _ (delete_instance settings i)
| serve_list_instance_templates i p n :
    Served instance_templates_router list_instance_templates_route [i] _
      (list_instance_templates i p n)
| serve_put_instance_template i t :
    Served instance_templates_router put_instance_template_route [i; t] _
      (put_instance_template i t)
| serve_delete_instance_template i t :
    Served instance_templates_router delete_instance_template_route [i; t] _
      (delete_instance_template i t)
| serve_get_job i :
    Served jobs_router get_job_route [i] _ (get_job i)
| serve_list_members i p n :
    Served members_router list_members_route [i] _ (list_members i p n)
| serve_create_member i username role :
    Served members_router create_member_route [i] _ (create_member i username role)
| serve_get_member i k :
    Served members_router get_member_route [i; k] _ (get_member i k)
| serve_update_member_role i k role :
    Served members_router update_member_role_route [i; k] _ (update_member_role i k role)
| serve_delete_member i k :
    Served members_router delete_member_route [i; k] _ (delete_member settings i k)
| serve_list_templates p n name :
    Served templates_router list_templates_route [] _ (list_templates p n name)
| serve_list_template_modules i :
    Served templates_router list_template_modules_route [i] _ (list_template_modules i)
| serve_sync_template i :
    Served templates_router sync_template_route [i] _ (sync_template i)
| serve_get_template i :
    Served templates_router get_template_route [i] _ (get_template i)
| serve_create_template name payload :
    Served templates_router create_template_route [] _ (create_template name payload)
| serve_update_template i payload :
    Served templates_router update_template_route [i] _ (update_template i payload)
| serve_delete_template i :
    Served templates_router delete_template_route [i] _ (delete_template i)
| serve_list_template_images t p n :
    Served template_images_router list_template_images_route [t] _ (list_template_images t p n)
| serve_get_template_image t i :
    Served template_images_router get_template_image_route [t; i] _ (get_template_image t i)
| serve_create_template_image t registry name version :
    Served template_images_router create_template_image_route [t] _
      (create_template_image t registry name version)
| serve_delete_template_image t i :
    Served template_images_router delete_template_image_route [t; i] _ (delete_template_image t i)
| serve_list_template_parameters t p n :
    Served template_parameters_router list_template_parameters_route [t] _
      (list_template_parameters t p n)
| serve_get_template_parameter t i :
    Served template_parameters_router get_template_parameter_route [t; i] _
      (get_template_parameter t i)
| serve_create_template_parameter t payload :
    Served template_parameters_router create_template_parameter_route [t] _
      (create_template_parameter settings t payload)
| serve_update_template_parameter t i payload :
    Served template_parameters_router update_template_parameter_route [t; i] _
      (update_template_parameter settings t i payload)
| serve_delete_template_parameter t i :
    Served template_parameters_router delete_template_parameter_route [t; i] _
      (delete_template_parameter t i)
| serve_list_workspaces query :
    Served workspaces_router list_workspaces_route [] _ (list_workspaces query)
| serve_get_workspace i :
    Served workspaces_router get_workspace_route [i] _ (get_workspace i)
| serve_create_workspace payload :
    Served workspaces_router create_workspace_route [] _ (create_workspace payload)
| serve_update_workspace i payload :
    Served workspaces_router update_workspace_route [i] _ (update_workspace i payload)
| serve_delete_workspace i :
    Served workspaces_router delete_workspace_route [i] _ (delete_workspace i).
End Served.

(** ** Texts of identifiers *)
Lemma uuid_text_length u : List.length (chars (uuid_str u)) = 36.
Proof.
  rewrite uuid_str_chars. unfold uuid_layout.
  repeat (rewrite ?length_app, ?length_take, ?length_drop; cbn [List.length]).
  rewrite length_map, nibbles_length. reflexivity.
Qed.
Lemma uuid_text_clean u : "/"%char ∉ chars (uuid_str u).
Proof.
  assert (Hall : forallb (fun c => negb (Ascii.eqb c "/")) (chars (uuid_str u)) = true).
  { rewrite uuid_str_chars. apply layout_forall; [done |]. apply forallb_forall. intros c Hc.
    apply in_map_iff in Hc as (d & <- & Hd). apply list_elem_of_In in Hd.
    pose proof (nibbles_small 32 u) as Hs. rewrite Forall_forall in Hs.
    pose proof (hex_digit_char d (Hs d Hd)) as Hh. apply negb_true_iff, Ascii.eqb_neq.
    intros E. by rewrite E in Hh. }
  rewrite forallb_forall in Hall. intros Hin%list_elem_of_In%Hall. by rewrite Ascii.eqb_refl in Hin.
Qed.

#[local] Opaque uuid_str.

(** ** Paths with identifiers *)
Lemma filled_captures pattern ids parts :
  filled pattern ids = Some parts -> captures pattern parts = Some (map uuid_str ids).
Proof.
  revert ids parts. induction pattern as [|p pattern IH]; intros ids parts H; cbn in *.
  - destruct ids; [by injection H as <- | done].
  - destruct (is_parameter p).
    + destruct ids as [|i ids]; [done |]. apply bind_Some in H as (rest & Hr & E).
      injection E as <-. rewrite bool_decide_eq_false_2.
      * rewrite (IH _ _ Hr). cbn. by rewrite unchars_chars.
      * intros E. pose proof (uuid_text_length i) as Hl. by rewrite E in Hl.
    + apply bind_Some in H as (rest & Hr & E). injection E as <-.
      rewrite bool_decide_eq_true_2 by done. by apply IH.
Qed.

Lemma filled_clean pattern ids parts :
  Forall (fun p => "/"%char ∉ p) pattern -> filled pattern ids = Some parts ->
  Forall (fun p => "/"%char ∉ p) parts.
Proof.
  intros Hp. revert ids parts. induction Hp as [|p pattern Hp _ IH]; intros ids parts H; cbn in *.
  - destruct ids; [by injection H as <- | done].
  - destruct (is_parameter p); [destruct ids as [|i ids]; [done |] |];
      apply bind_Some in H as (rest & Hr & E); injection E as <-;
      (constructor; [| by eapply IH]); [apply uuid_text_clean | done].
Qed.

Lemma split_never_empty sep s : split sep s <> [].
Proof.
  unfold split. generalize (@nil ascii) as cur. induction (chars s) as [|c l IH]; intros cur; [done |].
  cbn. by destruct (Ascii.eqb c sep).
Qed.
Lemma url_path_parts r ids path :
  url_path r ids = Some path ->
  exists parts, filled (split "/" (route_path r)) ids = Some parts /\ split "/" path = parts.
Proof.
  intros H. apply bind_Some in H as (parts & Hf & E). injection E as <-.
  exists parts. split; [done |]. apply split_join.
  - intros ->. pose proof (split_never_empty "/" (route_path r)) as Hne.
    destruct (split "/" (route_path r)) as [|p pattern]; [done |]. cbn in Hf.
    destruct (is_parameter p); [destruct ids; [done |] |];
      by apply bind_Some in Hf as (? & _ & ?).
  - eapply filled_clean; [| exact Hf]. apply split_from_clean, not_elem_of_nil.
Qed.

(** ** The order of routes *)

(** The form [pattern'] may be that of a path of the form [pattern] with identifiers. *)
Fixpoint overlap (pattern' pattern : list (list ascii)) : bool :=
  match pattern', pattern with
  | [], [] => true
  | p' :: rest', p :: rest =>
      match is_parameter p', is_parameter p with
      | true, _ => overlap rest' rest
      | false, true => Nat.eqb (List.length p') 36 && overlap rest' rest
      | false, false => bool_decide (p' = p) && overlap rest' rest
      end
  | _, _ => false
  end.
Lemma overlap_captures pattern' pattern ids parts :
  filled pattern ids = Some parts -> overlap pattern' pattern = false ->
  captures pattern' parts = None.
Proof.
  revert pattern ids parts.
  induction pattern' as [|p' pattern' IH]; intros [|p pattern] ids parts Hf Ho; try done.
  - cbn in Hf. destruct (is_parameter p); [destruct ids; [done |] |];
      by apply bind_Some in Hf as (? & _ & [= <-]).
  - cbn in Hf. destruct ids; [by injection Hf as <- | done].
  - cbn in Hf, Ho. assert (exists q rest ids', parts = q :: rest /\ filled pattern ids' = Some rest /\
      (if is_parameter p then List.length q = 36 else q = p)) as (q & rest & ids' & -> & Hr & Hq).
    { destruct (is_parameter p); [destruct ids as [|i ids]; [done |] |];
        apply bind_Some in Hf as (rest & Hr & E); injection E as <-; do 3 eexists;
        (split; [done |]); (split; [exact Hr |]); [apply uuid_text_length | done]. }
    cbn. destruct (is_parameter p').
    + rewrite (IH pattern ids' rest Hr Ho). by destruct (q == []).
    + destruct (bool_decide_reflect (p' = q)) as [E |]; [subst q | done].
      apply (IH pattern ids' rest Hr).
      destruct (is_parameter p).
      * by rewrite Hq, Nat.eqb_refl in Ho.
      * by rewrite bool_decide_eq_true_2 in Ho.
Qed.

Definition shadows (r' r : ApiRoute) : bool :=
  bool_decide (route_method r' = route_method r)
  && overlap (split "/" (route_path r')) (split "/" (route_path r)).
(** No route shadows a later one. *)
Fixpoint well_ordered (routes : list ApiRoute) : bool :=
  match routes with
  | [] => true
  | r' :: rest => forallb (fun r => negb (shadows r' r)) rest && well_ordered rest
  end.

Lemma well_ordered_first routes r ids path :
  well_ordered routes = true -> r ∈ routes -> url_path r ids = Some path ->
  head (omap (candidate (route_method r) path) routes) = Some (r, map uuid_str ids).
Proof.
  intros Ho Hr Hp. destruct (url_path_parts r ids path Hp) as (parts & Hf & Hs).
  induction routes as [|r' routes IH]; [by apply elem_of_nil in Hr |].
  cbn in Ho. apply andb_true_iff in Ho as [Hn Ho].
  assert (Hc : candidate (route_method r) path r = Some (r, map uuid_str ids)).
  { unfold candidate. rewrite bool_decide_eq_true_2, Hs, (filled_captures _ _ _ Hf) by done. done. }
  destruct (decide (r' = r)) as [-> | Hne].
  - change (omap (candidate (route_method r) path) (r :: routes))
      with (match candidate (route_method r) path r with
            | Some x => x :: omap (candidate (route_method r) path) routes
            | None => omap (candidate (route_method r) path) routes end).
    by rewrite Hc.
  - apply elem_of_cons in Hr as [-> | Hr]; [done |].
    change (omap (candidate (route_method r) path) (r' :: routes))
      with (match candidate (route_method r) path r' with
            | Some x => x :: omap (candidate (route_method r) path) routes
            | None => omap (candidate (route_method r) path) routes end).
    assert (candidate (route_method r) path r' = None) as ->; [| by apply IH].
    rewrite forallb_forall in Hn. apply list_elem_of_In, Hn, negb_true_iff in Hr.
    revert Hr. unfold candidate, shadows. destruct (route_method r' == route_method r); [| done].
    intros Ho'. by rewrite Hs, (overlap_captures _ _ _ _ Hf Ho').
Qed.

Lemma application_routes_ordered : well_ordered application_routes = true.
Proof. vm_compute. reflexivity. Qed.

(** ** What the handlers reply *)
Fixpoint yields {Q A} (P : A -> Prop) (p : prog Q A) : Prop :=
  match p with
  | Done a => P a
  | Fail _ => True
  | Session m k => forall r, yields P (k r)
  | Ask q k => forall r, yields P (k r)
  end.
Lemma yields_always {Q A} (P : A -> Prop) (p : prog Q A) : (forall a, P a) -> yields P p.
Proof. intros HP. induction p; cbn; auto. Qed.
Lemma yields_bind {Q A B} (P : B -> Prop) (p : prog Q A) (k : A -> prog Q B) :
  (forall a, yields P (k a)) -> yields P (p ≫= k).
Proof.
  intros Hk. change (yields P (bind p k)). induction p as [a | e | C m k' IH | R q k' IH]; cbn; auto.
Qed.

(** The statuses that the decorator of a route declares. *)
Definition declared (r : ApiRoute) (status : Z) : Prop :=
  status = route_status r \/ status ∈ route_responses r.
(** The two routes whose functions set a status that their decorators do not declare. *)
Definition sets_accepted (r : ApiRoute) : bool :=
  bool_decide (r = update_member_role_route) || bool_decide (r = update_workspace_route).
Definition replies (r : ApiRoute) {A} (reply : Reply A) : Prop :=
  declared r (reply_status reply) \/ sets_accepted r = true /\ reply_status reply = 202%Z.

Section Served.
Context `{AESGCM} (settings : Settings).

Ltac reply_step :=
  match goal with
  | |- yields _ (_ ≫= _) => apply yields_bind; intros ?
  | |- yields _ (match ?x with _ => _ end) => destruct x
  | |- yields _ (let '(_, _) := ?x in _) => destruct x
  | |- yields ?P (Done ?a) => change (P a)
  | |- replies _ (mkReply (if ?b then _ else _) _ _) => destruct b
  | |- replies _ _ =>
      solve [left; left; reflexivity
            | left; right; apply (bool_decide_eq_true_1 _); reflexivity
            | right; split; reflexivity]
  | |- yields _ ?p => let h := head_of p in unfold h
  end.

Lemma served_replies router r ids A (p : worker (Reply A)) :
  Served settings router r ids A p -> yields (replies r) p.
Proof. destruct 1; repeat reply_step. Qed.

Lemma served_mounted router r ids A (p : worker (Reply A)) :
  Served settings router r ids A p ->
  mounted router r ∈ application_routes /\ is_Some (url_path (mounted router r) ids).
Proof.
  destruct 1; (split; [apply (bool_decide_eq_true_1 _); vm_compute; reflexivity |]);
    eexists; reflexivity.
Qed.
(** No function has two routes, and every route has a function. *)
Lemma mounted_served (r : ApiRoute) :
  r ∈ application_routes ->
  exists router r' ids A p, r = mounted router r' /\ Served settings router r' ids A p.
Proof.
  intros Hr. unfold application_routes in Hr. cbn in Hr.
  repeat (apply elem_of_cons in Hr as [-> | Hr];
          [do 5 eexists; (split; [reflexivity | econstructor]) |]); [.. | by apply elem_of_nil in Hr].
  Unshelve. all: repeat constructor.
Qed.

Lemma read_all_texts `{RoutingLaws} ids :
  Forall (fun u => u < 2 ^ 128)%N ids -> read_all (map uuid_str ids) = Some ids.
Proof.
  induction 1 as [|i ids Hi _ IH]; [done |]. cbn. by rewrite read_uuid_str, IH.
Qed.

(** C22: The order of the routes is right. Every function of the API is reached under the path of
    its own decorator: a request with the method of a route and its path, with identifiers for
    the parameters, goes to that route and no other, and brings those identifiers; in particular
    no route hides a later one, and no two functions share a path. Every route has such a
    function, and a function replies with a status that its decorator declares; but the two
    functions that change a role and a workspace may also reply 202, which theirs do not. *)
Theorem routes_reach_their_functions `{RoutingLaws} router r ids A (p : worker (Reply A)) :
  Served settings router r ids A p -> Forall (fun u => u < 2 ^ 128)%N ids ->
  (exists path, url_path (mounted router r) ids = Some path /\
     dispatched (route_method r) path = Some (mounted router r, ids)) /\
  yields (replies r) p /\
  forall r0, r0 ∈ application_routes ->
    exists router' r' ids' A' p', r0 = mounted router' r' /\ Served settings router' r' ids' A' p'.
Proof.
  intros Hs Hids. destruct (served_mounted _ _ _ _ _ Hs) as [Hin [path Hp]]. split_and!.
  - exists path. split; [done |]. unfold dispatched.
    change (route_method r) with (route_method (mounted router r)).
    rewrite route_of_first, (well_ordered_first _ _ _ _ application_routes_ordered Hin Hp).
    cbn. by rewrite read_all_texts.
  - by eapply served_replies.
  - exact mounted_served.
Qed.
End Served.

(** ** A request for the statistics, and one for a member *)
#[export] Instance plain_routing : Routing := {
  route_of := fun routes m path => head (omap (candidate m path) routes);
  read_uuid := UUID
}.
#[export] Instance plain_routing_laws : RoutingLaws.
Proof. split; [done | apply uuid_roundtrip]. Qed.

Lemma routes_reach_their_functions_witness :
  dispatched GET "/api/v1/databases/statistics"
  = Some (mounted databases_router get_database_statistics_route, []) /\
  dispatched DELETE ("/api/v1/instances/00000000-0000-0000-0000-000000000007"
                     ++ "/members/00000000-0000-0000-0000-0000000000ff")
  = Some (mounted members_router delete_member_route, [7%N; 255%N]).
Proof.
  split.
  - destruct (routes_reach_their_functions sample_settings databases_router
      get_database_statistics_route [] _ _ (serve_get_database_statistics _)
      ltac:(constructor)) as [(path & Hp & Hd) _].
    vm_compute in Hp. injection Hp as <-. exact Hd.
  - destruct (routes_reach_their_functions sample_settings members_router delete_member_route
      [7%N; 255%N] _ _ (serve_delete_member _ 7 255)
      ltac:(repeat constructor)) as [(path & Hp & Hd) _].
    vm_compute in Hp. injection Hp as <-. exact Hd.
Defined.
