(* ===== verification/Handover.v ===== *)
(** * Handover: the messages that the handlers of the API send

    A handler commits first and sends afterwards: the message names a job that is stored, waits,
    and is at the task that the message starts. *)
From S2P Require Import Prelude Order Text Models Store Registry Crypto Execution Ownership.
From S2P Require Import Claims Jobs Databases Instances Members Templates Assignments Workspaces.
From S2P Require Import Listings Config Program Coder Worker Raises Http Routes System Concrete.
From S2P Require Import RouteProperties.
From Stdlib Require Import Ascii String.
Open Scope string_scope.

Definition waits (d : Store) (task_name : string) (job_id : uuid) : Prop :=
  exists job, jobs d !! job_id = Some job /\ job_task_name job = task_name /\
    job_status job = PENDING.

(** [handed d p]: from the store [d], with nobody else at work, every message that [p] sends
    waits to be taken up. *)
Fixpoint handed (d : Store) {A} (p : worker A) : Prop :=
  match p with
  | Done _ | Fail _ => True
  | Session m k => handed (run_session m d).2 (k (run_session m d).1)
  | Ask q k =>
      match q with Deliver task_name job_id => waits d task_name job_id | _ => True end /\
      forall r, handed d (k r)
  end.

Lemma handed_ask d {R A} (q : Query R) (k : R -> worker A) :
  match q with Deliver _ _ => False | _ => True end -> (forall r, handed d (k r)) ->
  handed d (r ← ask q; k r).
Proof.
  intros Hq Hk. split; [by destruct q |]. intros [e | r]; cbn; [done | apply Hk].
Qed.

(** The repository call of a handler: what follows it starts from the store that it leaves. *)
Lemma handed_request d {A B} (m : session A) table (k : A -> worker B) :
  (forall a d', m d = inr (a, d') -> handed d' (k a)) ->
  handed d (a ← except (sess m) table; k a).
Proof.
  intros Hk. cbn. unfold run_session. destruct (m d) as [e | [a d']] eqn:E; cbn; [done |]. by apply Hk.
Qed.
Lemma handed_sess d {A B} (m : session A) (k : A -> worker B) :
  (forall a d', m d = inr (a, d') -> handed d' (k a)) -> handed d (a ← sess m; k a).
Proof.
  intros Hk. cbn. unfold run_session. destruct (m d) as [e | [a d']] eqn:E; cbn; [done |]. by apply Hk.
Qed.
Lemma handed_gets d {A B} (f : Store -> A) (k : A -> worker B) :
  handed d (k (f d)) -> handed d (a ← sess (gets f); k a).
Proof. intros Hk. apply handed_sess. by intros a d' [= <- <-]. Qed.
Lemma handed_returns d {A B} (r : Exn + A) (k : A -> worker B) :
  (forall a, handed d (k a)) -> handed d (a ← returns r; k a).
Proof. destruct r; cbn; auto. Qed.

Lemma handed_dispatch d task j {B} (k : worker B) :
  waits d task j -> handed d k -> handed d ((dispatch task j;; Done tt);; k).
Proof.
  intros Hw Hk. unfold dispatch. destruct (negb _); [exact Hk |]. split; [done |].
  intros [e | [l v]]; exact Hk.
Qed.

(** Reading the job again and sending its message. *)
Lemma handed_job_read d o {B} (k : option JobRead -> worker B) :
  handed d (k (j ← o; option_map (job_read j) (jobs d !! j))) ->
  handed d (job ← _job_read o; k job).
Proof. destruct o; cbn; done. Qed.
Lemma handed_dispatch_read d task (o : option JobRead) {B} (k : worker B) :
  (forall j, o = Some j -> waits d task (jread_id j)) -> handed d k ->
  handed d (dispatch_read task o;; k).
Proof.
  intros Ho Hk. destruct o as [j|]; [| exact Hk]. by apply handed_dispatch; [apply Ho |].
Qed.
Lemma handed_enqueued d o task {B} (k : worker B) :
  (forall j, o = Some j -> waits d task j) -> handed d k ->
  handed d (_dispatch_enqueued_job o task;; k).
Proof.
  intros Ho Hk. destruct o as [j|]; [| exact Hk]. by apply handed_dispatch; [apply Ho |].
Qed.
Lemma handed_read_and_send d o task {B} (k : option JobRead -> worker B) :
  (forall j, o = Some j -> waits d task j) -> (forall job, handed d (k job)) ->
  handed d (job ← _job_read o; dispatch_read task job;; k job).
Proof.
  intros Ho Hk. apply handed_job_read, handed_dispatch_read; [| apply Hk].
  intros r Hr. destruct o as [j|]; [| done]. cbn in Hr.
  destruct (jobs d !! j) as [job|] eqn:E; [| done]. injection Hr as <-. by apply Ho.
Qed.

Lemma handed_instance_read d settings i r {B} (k : InstanceRead -> worker B) :
  (forall x, handed d (k x)) -> handed d (x ← instance_read settings i r; k x).
Proof.
  intros Hk. unfold instance_read. cbn. destruct (from_settings settings); cbn; [done | apply Hk].
Qed.

(** ** What the repositories have staged *)
Lemma waits_new d job_id now name task rt rid step js :
  jobs d = <[job_id := new_job now name task rt rid step]> js -> waits d task job_id.
Proof. intros E. exists (new_job now name task rt rid step). by rewrite E, lookup_insert_eq. Qed.

(** The instance that [stage_instance_job] leaves. *)
Lemma staged_instance_job now job_id i action name task step d r :
  instances (staged now job_id i action name task step d) !! i = Some r ->
  inst_job_id r = Some job_id /\ inst_step r = Some step.
Proof.
  cbn. rewrite lookup_alter_eq. destruct (instances d !! i); cbn; [| done]. by intros [= <-].
Qed.

Ltac session_inv_step ::=
  match goal with
  | H : commit _ = inr _ |- _ => apply commit_inr in H; destruct H as [-> ?]
  | H : commit_or _ _ = inr _ |- _ => apply commit_or_inr in H; destruct H as [-> ?]
  | H : add_job_execution _ _ _ _ _ _ _ _ _ = inr _ |- _ =>
      apply add_job_execution_inr in H; destruct H as [? ->]
  | H : stage_instance_job _ _ _ _ _ _ _ _ = inr _ |- _ =>
      apply stage_instance_job_inr in H; destruct H as [? ->]
  | H : Members._lock_available_instance _ _ = inr _ |- _ =>
      apply lock_available_instance_inr in H; destruct H as (-> & ? & ? & ?)
  | H : _lock_member _ _ _ = inr _ |- _ =>
      apply lock_member_inr in H; destruct H as (-> & ? & ?)
  | _ => action_inv_step
  end.

(** The job that a request of an instance leaves with the instance it returns. *)
Definition stages (name task step : string) (now : time) (job_id i : uuid) (r : CoderInstance)
    (d' : Store) : Prop :=
  inst_job_id r = Some job_id /\
  jobs d' !! job_id = Some (new_job now name task (Some "instance") (Some i) step).

Lemma staged_stages now job_id i action name task step d r :
  instances (staged now job_id i action name task step d) !! i = Some r ->
  stages name task step now job_id i r (staged now job_id i action name task step d).
Proof.
  intros Hr. split; [by apply staged_instance_job in Hr as [? _] |]. cbn. by rewrite lookup_insert_eq.
Qed.

Lemma power_action_stages now job_id i action name task step d r d' :
  _request_power_action now job_id i action name task step d = inr (r, d') ->
  stages name task step now job_id i r d'.
Proof.
  unfold _request_power_action, stored_instance. intros H. session_inv. by apply staged_stages.
Qed.
Lemma sync_stages now job_id i d r d' :
  instance_request_sync now job_id i d = inr (r, d') ->
  stages "instance.update" INSTANCE_UPDATE_STEP_01_TASK INSTANCE_UPDATE_STEP_01 now job_id i r d'.
Proof.
  unfold instance_request_sync, stored_instance. intros H. session_inv. by apply staged_stages.
Qed.
Lemma deletion_stages now job_id i d r d' :
  instance_request_deletion now job_id i d = inr (r, d') ->
  stages "instance.delete" INSTANCE_DELETE_STEP_01_TASK INSTANCE_DELETE_STEP_01 now job_id i r d' \/
  stages "instance.delete" INSTANCE_DELETE_STEP_02_TASK INSTANCE_DELETE_STEP_02 now job_id i r d'.
Proof.
  unfold instance_request_deletion, stored_instance. intros H. session_inv.
  match goal with |- context [if ?b then _ else _] => destruct b end;
    [right | left]; by apply staged_stages.
Qed.
Lemma create_stages now i job_id alloc fuel draw application d r d' :
  instance_create now i job_id alloc fuel draw application d = inr (r, d') ->
  stages "instance.create" INSTANCE_CREATE_STEP_01_TASK INSTANCE_CREATE_STEP_01 now job_id i r d'.
Proof.
  unfold instance_create, stored_instance. intros H. session_inv. cbn in *.
  match goal with E : <[_ := _]> _ !! _ = Some r |- _ =>
    rewrite lookup_insert_eq in E; injection E as <- end.
  split; [done |]. cbn. by rewrite lookup_insert_eq.
Qed.
Lemma provider_stages `{AESGCM} now job_id nonce c i kubeconfig d r d' :
  create_and_request_update now job_id nonce c i kubeconfig d = inr (r, d') ->
  exists inst, instances d' !! i = Some inst /\
    stages "instance.update" INSTANCE_UPDATE_STEP_01_TASK INSTANCE_UPDATE_STEP_01 now job_id i inst d'.
Proof.
  unfold create_and_request_update, _lock_idle_instance. intros H'. session_inv.
  match goal with E : instances ?d !! i = Some ?x |- _ =>
    eexists; split; [cbn; rewrite lookup_alter_eq, E; reflexivity |] end.
  apply staged_stages. cbn. rewrite lookup_alter_eq.
  match goal with E : instances ?d !! i = Some ?x |- _ => by rewrite E end.
Qed.

(** A member mutation enqueues the update job that it has staged, if it has. *)
Lemma update_waits now job_id i r d o d1 d' j :
  request_instance_update now job_id i r d = inr (o, d1) -> jobs d' = jobs d1 -> o = Some j ->
  waits d' INSTANCE_UPDATE_STEP_01_TASK j.
Proof.
  intros [(-> & _) | (-> & _ & ->)]%request_instance_update_inr Hj; [done |]. intros [= <-].
  eapply waits_new. rewrite Hj. reflexivity.
Qed.
Lemma member_create_waits now job_id k i username role d x d' j :
  member_create now job_id k i username role d = inr (x, d') -> x.2 = Some j ->
  waits d' INSTANCE_UPDATE_STEP_01_TASK j.
Proof.
  unfold member_create. intros H. session_inv. cbn. intros Hj.
  by eapply update_waits.
Qed.
Lemma member_update_waits now job_id i k role d x d' j :
  member_update_role now job_id i k role d = inr (x, d') -> x.2 = Some j ->
  waits d' INSTANCE_UPDATE_STEP_01_TASK j.
Proof.
  unfold member_update_role. intros H. session_cases; cbn; [done |]. intros Hj.
  by eapply update_waits.
Qed.
Lemma member_deletion_waits now job_id i k protected d x d' j :
  member_request_deletion now job_id i k protected d = inr (x, d') -> x.2 = Some j ->
  waits d' INSTANCE_UPDATE_STEP_01_TASK j.
Proof.
  unfold member_request_deletion. intros H. session_inv. cbn. intros Hj.
  by eapply update_waits.
Qed.

Lemma put_waits now job_id k i t d x d' j :
  put now job_id k i t d = inr (x, d') -> x.2 = Some j ->
  waits d' TEMPLATE_ASSIGNMENT_CREATE_STEP_01_TASK j.
Proof.
  unfold put, _require_mutation_available, _require_consistent_job, _stored_assignment.
  intros H. session_cases; cbn; try done. intros [= <-]. eapply waits_new. reflexivity.
Qed.
Lemma assignment_deletion_waits now job_id i t d x d' j :
  assignment_request_deletion now job_id i t d = inr (x, d') -> x.2 = Some j ->
  waits d' TEMPLATE_ASSIGNMENT_DELETE_STEP_01_TASK j.
Proof.
  unfold assignment_request_deletion, _require_mutation_available, _require_consistent_job,
    _stored_assignment.
  intros H. session_cases; cbn; try done. intros [= <-]. eapply waits_new. reflexivity.
Qed.
Lemma sync_template_waits now job_id i d j d' :
  template_request_sync now job_id i d = inr (j, d') -> waits d' TEMPLATE_SYNC_STEP_01_TASK j.
Proof.
  unfold template_request_sync, set_template. intros H. session_cases.
  all: eapply waits_new; reflexivity.
Qed.

Lemma workspace_create_waits now job_id k payload d w d' j :
  workspace_create now job_id k payload d = inr (w, d') -> ws_job_id w = Some j ->
  waits d' WORKSPACE_CREATE_STEP_01_TASK j.
Proof.
  unfold workspace_create, refreshed. intros H. session_cases; cbn in *.
  match goal with E : <[_ := _]> _ !! _ = Some w |- _ =>
    rewrite lookup_insert_eq in E; injection E as <- end.
  intros [= <-]. eapply waits_new. reflexivity.
Qed.
Lemma workspace_update_waits now job_id k payload d x d' j :
  workspace_update now job_id k payload d = inr (x, d') -> x.2 = true -> ws_job_id x.1 = Some j ->
  waits d' WORKSPACE_UPDATE_STEP_01_TASK j.
Proof.
  unfold workspace_update, refreshed, set_workspace. intros H. session_cases; cbn; [done |].
  intros _ Hw. cbn in *. rewrite lookup_alter_eq in *.
  match goal with E : _ <$> ?x = Some _ |- _ => destruct x; [| done]; injection E as <- end.
  cbn in Hw. injection Hw as <-. eapply waits_new. reflexivity.
Qed.
Lemma workspace_deletion_waits now job_id k d w d' j :
  workspace_request_deletion now job_id k d = inr (w, d') -> ws_job_id w = Some j ->
  waits d' WORKSPACE_DELETE_STEP_01_TASK j.
Proof.
  unfold workspace_request_deletion, refreshed, set_workspace. intros H. session_cases; cbn in *.
  intros Hw. rewrite lookup_alter_eq in *.
  match goal with E : _ <$> ?x = Some w |- _ => destruct x; [| done]; injection E as <- end.
  cbn in Hw. injection Hw as <-. eapply waits_new. reflexivity.
Qed.

(** ** Parts of handlers that send nothing *)

(** [quiet Q d p]: [p] sends nothing, and leaves what it returns and the store in [Q]. *)
Fixpoint quiet {A} (Q : A -> Store -> Prop) (d : Store) (p : worker A) : Prop :=
  match p with
  | Done a => Q a d
  | Fail _ => True
  | Session m k => quiet Q (run_session m d).2 (k (run_session m d).1)
  | Ask q k => match q with Deliver _ _ => False | _ => True end /\ forall r, quiet Q d (k r)
  end.
Definition anything {A} (_ : A) (_ : Store) : Prop := True.

Lemma quiet_handed {A} Q d (p : worker A) : quiet Q d p -> handed d p.
Proof.
  revert d. induction p as [a | e | B m k IH | R q k IH]; cbn; intros d; [done | done | auto |].
  intros [Hq Hk]. split; [by destruct q | auto].
Qed.
Lemma handed_bind {A B} Q d (p : worker A) (k : A -> worker B) :
  quiet Q d p -> (forall a d', Q a d' -> handed d' (k a)) -> handed d (p ≫= k).
Proof.
  change (p ≫= k) with (bind p k).
  revert d. induction p as [a | e | C m k' IH | R q k' IH]; cbn; intros d; [auto | done | auto |].
  intros [Hq Hp] Hk. split; [by destruct q | auto].
Qed.
Lemma quiet_bind {A B} Q Q' d (p : worker A) (k : A -> worker B) :
  quiet Q d p -> (forall a d', Q a d' -> quiet Q' d' (k a)) -> quiet Q' d (p ≫= k).
Proof.
  change (p ≫= k) with (bind p k).
  revert d. induction p as [a | e | C m k' IH | R q k' IH]; cbn; intros d; [auto | done | auto |].
  intros [Hq Hp] Hk. split; [done | auto].
Qed.
Lemma quiet_except {A} Q d (p : worker A) table : quiet Q d p -> quiet Q d (except p table).
Proof.
  unfold except. revert d.
  induction p as [a | e | C m k IH | R q k IH]; cbn; intros d; [done | done | auto |].
  intros [Hq Hp]. split; [done | auto].
Qed.
Lemma quiet_sess {A} (Q : A -> Store -> Prop) d (m : session A) :
  (forall a d', m d = inr (a, d') -> Q a d') -> quiet Q d (sess m).
Proof.
  intros Hm. cbn. unfold run_session. destruct (m d) as [e | [a d']] eqn:E; cbn; [done |]. by apply Hm.
Qed.
Lemma quiet_ask {R} d (q : Query R) :
  match q with Deliver _ _ => False | _ => True end -> quiet anything d (ask q).
Proof. intros Hq. split; [done |]. by intros [e | r]. Qed.
Lemma quiet_returns {A} d (r : Exn + A) : quiet anything d (returns r).
Proof. by destruct r. Qed.
Lemma quiet_or_raise {A} d (o : option A) e : quiet anything d (or_raise o e).
Proof. by destruct o. Qed.
Lemma quiet_done {A} d (a : A) : quiet anything d (Done a).
Proof. exact I. Qed.
Lemma quiet_cipher settings d e : quiet anything d (build_cipher settings e).
Proof. apply quiet_except, quiet_returns. Qed.
Lemma quiet_cipher_for settings d b : quiet anything d (cipher_for settings b).
Proof.
  destruct b; [| exact I]. apply (quiet_bind anything); [apply quiet_cipher | intros; exact I].
Qed.
Lemma quiet_job_read d o : quiet anything d (_job_read o).
Proof. by destruct o. Qed.
Lemma quiet_instance_read settings d i r : quiet anything d (instance_read settings i r).
Proof.
  unfold instance_read. apply (quiet_bind anything); [by apply quiet_sess |].
  intros. apply (quiet_bind anything); [apply quiet_returns | done].
Qed.

Ltac quiet_step :=
  match goal with
  | |- quiet _ _ (except _ _) => apply quiet_except
  | |- quiet _ _ (build_cipher _ _) => apply quiet_cipher
  | |- quiet _ _ (cipher_for _ _) => apply quiet_cipher_for
  | |- quiet _ _ (_job_read _) => apply quiet_job_read
  | |- quiet _ _ (instance_read _ _ _) => apply quiet_instance_read
  | |- quiet _ _ (ask _) => apply quiet_ask; exact I
  | |- quiet anything _ (sess _) => apply quiet_sess; intros; exact I
  | |- quiet _ _ (returns _) => apply quiet_returns
  | |- quiet _ _ (or_raise _ _) => apply quiet_or_raise
  | |- quiet anything _ (Done _) => exact I
  | |- quiet anything _ (ok _) => exact I
  | |- quiet anything _ (created _) => exact I
  | |- quiet anything _ (accepted _) => exact I
  | |- quiet anything _ no_content => exact I
  | |- quiet _ _ (match ?x with _ => _ end) => destruct x
  | |- quiet _ _ (_ ≫= _) => apply (quiet_bind anything); [| intros ? ? _]
  end.
(** A handler that stages nothing. *)
Ltac sends_nothing := apply (quiet_handed anything); repeat quiet_step.
(** The answers and the cipher that a handler takes first. *)
Ltac prepare_step :=
  match goal with
  | |- handed _ (ask _ ≫= _) => apply (handed_bind anything); [solve [quiet_step] | intros ? ? _]
  | |- handed _ (returns _ ≫= _) => apply (handed_bind anything); [solve [quiet_step] | intros ? ? _]
  end.
Ltac prepare := repeat prepare_step.

Section Routes.
Context `{AESGCM} (settings : Settings).

Lemma instance_action_handed request conflict task_name d i :
  (forall now job_id d r d', request now job_id i d = inr (r, d') ->
     exists job, inst_job_id r = Some job_id /\ jobs d' !! job_id = Some job /\
       job_status job = PENDING /\ task_name (job_read job_id job) = job_task_name job) ->
  handed d (instance_action settings request conflict task_name i).
Proof.
  intros Hr. unfold instance_action. prepare. apply handed_request. intros r d1 E.
  destruct (Hr _ _ _ _ _ E) as (job & Hid & Hj & Hp & Ht). rewrite Hid.
  apply handed_job_read.
  replace (j ← Some a0; option_map (job_read j) (jobs d1 !! j)) with (Some (job_read a0 job))
    by (cbn; by rewrite Hj).
  apply handed_dispatch; [| sends_nothing]. exists job. by rewrite Ht.
Qed.

Lemma stages_handed name task step now job_id i r d' :
  stages name task step now job_id i r d' ->
  exists job, inst_job_id r = Some job_id /\ jobs d' !! job_id = Some job /\
    job_status job = PENDING /\ task = job_task_name job.
Proof. intros [Hid Hj]. eexists. split; [exact Hid |]. split; [exact Hj | done]. Qed.

Lemma stages_waits name task step now job_id i r d' :
  stages name task step now job_id i r d' ->
  forall j, inst_job_id r = Some j -> waits d' task j.
Proof. intros [Hid Hj] j E. rewrite Hid in E. injection E as <-. eexists. by split; [exact Hj |]. Qed.

Lemma sync_databases_handed d : handed d sync_databases.
Proof.
  unfold sync_databases. prepare. apply handed_sess. intros r d1 E.
  unfold create_system_job in E. session_inv. unfold dispatch. destruct (negb _); [exact I |]. split; [| by intros [e | [l v]]].
  eapply waits_new. reflexivity.
Qed.
Lemma create_instance_handed rounds draw application d :
  handed d (create_instance settings rounds draw application).
Proof.
  unfold create_instance. prepare. apply handed_request. intros r d1 E%create_stages.
  apply handed_read_and_send; [by eapply stages_waits |]. intros job. sends_nothing.
Qed.
Lemma start_instance_handed i d : handed d (start_instance settings i).
Proof.
  apply instance_action_handed. intros now job_id d0 r d' E.
  unfold instance_request_start, instance_request_stop in E.
  apply power_action_stages in E. by eapply stages_handed.
Qed.
Lemma stop_instance_handed i d : handed d (stop_instance settings i).
Proof.
  apply instance_action_handed. intros now job_id d0 r d' E.
  unfold instance_request_start, instance_request_stop in E.
  apply power_action_stages in E. by eapply stages_handed.
Qed.
Lemma sync_instance_handed i d : handed d (sync_instance settings i).
Proof.
  apply instance_action_handed. intros now job_id d0 r d' E%sync_stages. by eapply stages_handed.
Qed.
(** The step of the job tells the two beginnings of a deletion apart. *)
Lemma delete_instance_handed i d : handed d (delete_instance settings i).
Proof.
  apply instance_action_handed. intros now job_id d0 r d' [[Hid Hj] | [Hid Hj]]%deletion_stages;
    eexists; (split; [exact Hid |]); (split; [exact Hj |]); split; reflexivity.
Qed.
Lemma create_provider_handed i kubeconfig d :
  handed d (create_instance_provider settings i kubeconfig).
Proof.
  unfold create_instance_provider, kubeconfig_cipher, _instance_job.
  apply (handed_bind (fun _ d' => exists now job_id inst, instances d' !! i = Some inst /\
    stages "instance.update" INSTANCE_UPDATE_STEP_01_TASK INSTANCE_UPDATE_STEP_01 now job_id i
      inst d')).
  - apply quiet_except. repeat (apply (quiet_bind anything); [solve [quiet_step] | intros ? ? _]).
    apply quiet_sess. intros p d1 E%provider_stages. eauto.
  - intros p d' (now & job_id & inst & Hi & Hs).
    change (handed d' (o ← sess (instance_get i); job ← _job_read (o ≫= inst_job_id);
      dispatch_read INSTANCE_UPDATE_STEP_01_TASK job;;
      accepted (mkJobResource (kubernetes_provider_read i p) job))).
    apply handed_gets. rewrite Hi. cbn [mbind option_bind].
    apply handed_read_and_send; [by eapply stages_waits |]. intros job. sends_nothing.
Qed.

Lemma put_assignment_handed i t d : handed d (put_instance_template i t).
Proof.
  unfold put_instance_template. prepare. apply handed_request. intros [[x b] o] d1 E.
  apply (handed_bind (fun _ d' => d' = d1)); [by destruct b; [destruct (asg_job_id _) |] |].
  intros job d2 ->. apply handed_enqueued; [| sends_nothing]. intros j ->. by eapply put_waits.
Qed.
Lemma delete_assignment_handed i t d : handed d (delete_instance_template i t).
Proof.
  unfold delete_instance_template. prepare. apply handed_request. intros [[[x|] b] o] d1 E;
    [| exact I].
  apply (handed_bind (fun _ d' => d' = d1)); [by destruct (asg_job_id _) |].
  intros job d2 ->. apply handed_enqueued; [| sends_nothing]. intros j ->.
  by eapply assignment_deletion_waits.
Qed.

Lemma create_member_handed i username role d : handed d (create_member i username role).
Proof.
  unfold create_member. prepare. apply handed_request. intros [m o] d1 E.
  apply handed_read_and_send; [| intros; sends_nothing]. intros j ->.
  by eapply member_create_waits.
Qed.
Lemma update_member_handed i k role d : handed d (update_member_role i k role).
Proof.
  unfold update_member_role. prepare. apply handed_request. intros [[m []] o] d1 E.
  - apply handed_read_and_send; [| intros; sends_nothing]. intros j ->.
    by eapply member_update_waits.
  - exact I.
Qed.
Lemma delete_member_handed i k d : handed d (delete_member settings i k).
Proof.
  unfold delete_member. prepare. apply handed_request. intros [m o] d1 E.
  apply handed_read_and_send; [| intros; sends_nothing]. intros j ->.
  by eapply member_deletion_waits.
Qed.

Lemma sync_template_handed i d : handed d (sync_template i).
Proof.
  unfold sync_template. prepare. apply handed_request. intros j d1 E%sync_template_waits.
  unfold dispatch. destruct (negb _); [exact I |]. split; [done |]. by intros [e | [l v]].
Qed.

Lemma create_workspace_handed payload d : handed d (create_workspace payload).
Proof.
  unfold create_workspace. prepare. apply handed_request. intros w d1 E.
  apply handed_read_and_send; [| intros; sends_nothing]. intros j Hj.
  by eapply workspace_create_waits.
Qed.
Lemma update_workspace_handed i payload d : handed d (update_workspace i payload).
Proof.
  unfold update_workspace, _dispatch_job. prepare. apply handed_request. intros [w []] d1 E.
  - cbn [negb]. destruct (ws_job_id w) as [j|] eqn:Hj; [| exact I].
    pose proof (workspace_update_waits _ _ _ _ _ _ _ j E eq_refl Hj) as Hw.
    cbn -[dispatch]. destruct (jobs d1 !! j) as [job|]; [| exact I]. cbn -[dispatch].
    unfold dispatch. destruct (negb _); [exact I |]. split; [exact Hw |].
    by intros [e | [l v]].
  - exact I.
Qed.
Lemma delete_workspace_handed i d : handed d (delete_workspace i).
Proof.
  unfold delete_workspace. prepare. apply handed_request. intros w d1 E.
  apply handed_read_and_send; [| intros; sends_nothing]. intros j Hj.
  by eapply workspace_deletion_waits.
Qed.

End Routes.

