(* ===== verification/SystemProperties.v ===== *)
(** * SystemProperties: what holds whatever interleaves

    The invariants of every reachable store, and the fencing of claims over time. *)
From S2P Require Import Prelude Text Models Store Registry Crypto Execution Ownership Claims.
From S2P Require Import Jobs Databases Instances Members Templates Assignments Workspaces.
From S2P Require Import Config Program Coder Worker CoderService InstanceTasks WorkspaceTasks.
From S2P Require Import TemplateTasks InstanceTaskFacts RemoteTaskFacts System Frames.
From S2P Require Import Concrete.

(** ** A concrete history

    A database joins the pool, an instance is created on it, and a worker takes its first step. *)
Definition history_1 : State := mkState pool_store [].
Definition history_2 : State := mkState created_store [].

Lemma history_1_reachable : Reachable sample_settings history_1.
Proof.
  apply rtc_once. exact (step_request sample_settings _ _ empty_store []
    (api_database_create 1 sample_nonce sample_database "secret" sample_cipher)).
Qed.
Lemma history_2_reachable : Reachable sample_settings history_2.
Proof.
  eapply rtc_r; [exact history_1_reachable |].
  exact (step_request sample_settings _ _ pool_store []
    (api_instance_create 0 10 11 12 5 (fun _ => "abcdefghijkl") "CRM")).
Qed.

(** One transition of a worker, its requests answered as by [obliging]. *)
Definition turn (n : nat) (w : Process) (d : Store) : Process * Store :=
  match w with
  | Running p =>
      match p with
      | Done _ | Fail _ => (w, d)
      | Session m k => (Running (k (run_session m d).1), (run_session m d).2)
      | Ask q k => (Running (k (fst (obliging q n))), d)
      end
  end.
Definition finished (w : Process) : bool :=
  match w with Running (Done _) | Running (Fail _) => true | _ => false end.

Lemma turn_step n w d ws :
  finished w = false ->
  step sample_settings (mkState d (w :: ws)) (mkState (turn n w d).2 ((turn n w d).1 :: ws)).
Proof.
  destruct w as [A p]. destruct p as [a | e | B m k | R q k]; cbn; try done; intros _.
  - exact (step_session sample_settings A B m k d [] ws).
  - exact (step_answer sample_settings A R q k _ d [] ws).
Qed.

Lemma turn_job_steps j n w d ws :
  finished w = false -> is_some (jobs (turn n w d).2 !! j) = true ->
  job_steps sample_settings j (mkState d (w :: ws)) (mkState (turn n w d).2 ((turn n w d).1 :: ws)).
Proof.
  intros Hf Hj. apply rtc_once. split; [by apply turn_step |]. apply is_some_true in Hj as [job Hj].
  cbn. by exists job.
Qed.

(** A first worker claims the job 21 and dies; the retry scan releases the job, and a second
    worker claims it. *)
Definition sync_job_store : Store :=
  after (create_system_job 0 21 "database.sync" DATABASE_SYNC_STEP_01_TASK DATABASE_SYNC_STEP_01)
    empty_store.
Definition sync_worker : Process := Running (step_01_sync_database 21).
Definition retry_worker : Process := Running (retry_job_executions sample_settings).

Definition w1 : Process := (turn 5 sync_worker sync_job_store).1.
Definition claimed : Process * Store := turn 5 w1 sync_job_store.
Definition r1 : Process := (turn 400 retry_worker claimed.2).1.
Definition r2 : Process := (turn 400 r1 claimed.2).1.
Definition released_again : Process * Store := turn 400 r2 claimed.2.
Definition w2 : Process := (turn 410 sync_worker released_again.2).1.
Definition reclaimed : Process * Store := turn 410 w2 released_again.2.
Definition sync_claim (attempt : Z) : ExecutionClaim :=
  mkClaim 21 DATABASE_SYNC_STEP_01_TASK DATABASE_SYNC_STEP_01 attempt None None.

Lemma start_sync d ws : step sample_settings (mkState d ws) (mkState d (sync_worker :: ws)).
Proof.
  apply step_start. apply (task_step sample_settings 0 DATABASE_SYNC_STEP_01_TASK step_01_sync_database).
  cbn. do 15 right. by left.
Qed.

Lemma history_3_reachable : Reachable sample_settings (mkState sync_job_store [w1]).
Proof.
  eapply rtc_l; [exact (step_request sample_settings _ _ empty_store [] (api_sync_database 0 21)) |].
  eapply rtc_l; [apply start_sync |].
  apply rtc_once. exact (turn_step 5 sync_worker sync_job_store [] eq_refl).
Qed.

Lemma history_4_steps :
  job_steps sample_settings 21 (mkState claimed.2 [claimed.1])
    (mkState released_again.2 [w2; released_again.1; claimed.1]).
Proof.
  eapply rtc_l; [split; [apply (step_start sample_settings _ _ claimed.2 [claimed.1]
    (task_retry sample_settings)) | by eexists] |].
  etrans; [exact (turn_job_steps 21 400 retry_worker claimed.2 [claimed.1] eq_refl eq_refl) |].
  etrans; [exact (turn_job_steps 21 400 r1 claimed.2 [claimed.1] eq_refl eq_refl) |].
  etrans; [exact (turn_job_steps 21 400 r2 claimed.2 [claimed.1] eq_refl eq_refl) |].
  eapply rtc_l; [split; [apply start_sync | by eexists] |].
  exact (turn_job_steps 21 410 sync_worker released_again.2 [released_again.1; claimed.1] eq_refl eq_refl).
Qed.

(** ** Invariants of the system *)

(** C1: in every reachable state of the system, whatever API requests, worker steps, duplicate or
    late task messages, retry scans and worker crashes came before, the committed store satisfies
    all database constraints; every job is at a registered step of the workflow of its name, with
    a claim time exactly while it runs; and every resource that is not at rest is bound to one
    existing job, whose action, step and status are its own. *)
Theorem reachable_stores_sound `{AESGCM} settings s :
  Reachable settings s ->
  Integrity (store s) /\ JobsKnown (store s) /\
  forall x o, owner (store s) x = Some o -> Bound (store s) x o.
Proof.
  intros Hs. apply reachable_sound_state in Hs as [[Hi Hb Hj] _]. done.
Qed.

Lemma reachable_stores_sound_witness :
  is_some (instances (store history_2) !! 10%N) = true /\
  forall o, owner (store history_2) (KInstance, 10%N) = Some o -> Bound (store history_2) (KInstance, 10%N) o.
Proof.
  split; [vm_compute; reflexivity |].
  intros o. apply (reachable_stores_sound sample_settings history_2 history_2_reachable).
Defined.

(** C15: no managed database ever holds more instance schemas than its declared maximum, in any
    reachable state. *)
Theorem reachable_stores_within_capacity `{AESGCM} settings s i b :
  Reachable settings s -> databases (store s) !! i = Some b ->
  (allocation_count (store s) i <= base_instance_max b)%Z.
Proof. intros Hs. apply reachable_capacity in Hs as [_ Hc]. apply Hc. Qed.

Lemma reachable_stores_within_capacity_witness :
  exists b, databases (store history_2) !! 1%N = Some b /\
    allocation_count (store history_2) 1 = 1%Z /\
    (allocation_count (store history_2) 1 <= base_instance_max b)%Z.
Proof.
  destruct (databases (store history_2) !! 1%N) as [b|] eqn:E; [| vm_compute in E; discriminate E].
  exists b. split; [reflexivity |]. split; [vm_compute; reflexivity |].
  exact (reachable_stores_within_capacity sample_settings history_2 1 b history_2_reachable E).
Defined.

(** the task that a stored job names is always one that workers have registered, so neither a
    dispatch nor a retry scan can be refused for an unknown task. *)
Theorem reachable_jobs_registered `{AESGCM} settings rounds s j job :
  Reachable settings s -> jobs (store s) !! j = Some job ->
  job_task_name job ∈ REGISTERED_STEP_NAMES /\
  exists task, In (job_task_name job, task) (step_tasks settings rounds).
Proof.
  intros Hs Hj. apply reachable_sound_state in Hs as [[_ _ Hk] _].
  apply Hk, job_known_facts in Hj as [Hw _].
  assert (Hin : job_task_name job ∈ REGISTERED_STEP_NAMES).
  { assert (Hall : forallb (fun '(_, _, t, _) => member t REGISTERED_STEP_NAMES) WORKFLOW_STEPS = true)
      by (vm_compute; reflexivity).
    rewrite forallb_forall in Hall. apply list_elem_of_In, Hall in Hw. by apply member_true. }
  split; [done |].
  assert (Hm : map fst (step_tasks settings rounds) = REGISTERED_STEP_NAMES) by reflexivity.
  rewrite <- Hm in Hin. apply list_elem_of_In, in_map_iff in Hin as ([t task] & E & Hin).
  cbn in E. subst t. by exists task.
Qed.

Lemma reachable_jobs_registered_witness :
  exists job, jobs (store history_2) !! 11%N = Some job /\
    job_task_name job ∈ REGISTERED_STEP_NAMES.
Proof.
  destruct (jobs (store history_2) !! 11%N) as [job|] eqn:E; [| vm_compute in E; discriminate E].
  exists job. split; [reflexivity |].
  exact (proj1 (reachable_jobs_registered sample_settings 0 history_2 11 job history_2_reachable E)).
Defined.

(** C2: the system refines the workflow of each job. Whatever API requests, workers, retry scans
    and crashes interleave, a transition makes at most one step of the workflow with each stored
    job: a new job starts at a first step, pending and never tried; a pending or failed job is
    claimed under the next attempt; a running job is kept alive, put back, failed, moved to the
    task that comes next, or completed, the last at a final task only. So every stored job has
    come from the start of its workflow through at most three moves to a next task, and is
    complete only after the last one. *)
Theorem jobs_follow_their_workflows `{AESGCM} settings s :
  Reachable settings s ->
  (forall s' j, step settings s s' -> JobMove (jobs (store s) !! j) (jobs (store s') !! j)) /\
  forall j job, jobs (store s) !! j = Some job ->
    exists first n, JobStarts first /\ rtc JobStep first job /\
      nsteps goes_to n (job_task_name first) (job_task_name job) /\ (n <= 3)%nat /\
      (job_status job = SUCCESS -> job_task_name job ∈ LAST_TASKS).
Proof.
  intros Hs. split.
  - intros s' j Hstep. apply (step_sound settings s s' Hstep). by apply reachable_sound_state in Hs.
  - intros j job Hj. destruct (reachable_descend settings s Hs j job Hj) as (first & Hf & Hr & [n Hn] & Hl).
    exists first, n. split_and!; try done.
    pose proof (advances_bounded _ _ _ Hn). pose proof (advances_left_most (job_task_name first)). lia.
Qed.

(** A job that was created and claimed. *)
Lemma jobs_follow_their_workflows_witness :
  step sample_settings (mkState sync_job_store [w1]) (mkState claimed.2 [claimed.1]) /\
  exists job job', jobs sync_job_store !! 21%N = Some job /\ jobs claimed.2 !! 21%N = Some job' /\
    job_status job' = RUNNING /\ JobMove (Some job) (Some job').
Proof.
  assert (Hstep : step sample_settings (mkState sync_job_store [w1]) (mkState claimed.2 [claimed.1]))
    by exact (turn_step 5 w1 sync_job_store [] eq_refl).
  split; [exact Hstep |].
  destruct (jobs_follow_their_workflows sample_settings _ history_3_reachable) as [Hmove _].
  specialize (Hmove _ 21%N Hstep). cbn [store] in Hmove.
  destruct (jobs sync_job_store !! 21%N) as [job |] eqn:Hj; [| vm_compute in Hj; discriminate Hj].
  destruct (jobs claimed.2 !! 21%N) as [job' |] eqn:Hj'; [| vm_compute in Hj'; discriminate Hj'].
  exists job, job'. split; [reflexivity |]. split; [reflexivity |]. split; [| exact Hmove].
  vm_compute in Hj'. by injection Hj' as <-.
Defined.

(** ** Fencing *)

(** C9: attempts fence each other. When a job that was claimed is claimed again, however much
    later, the new claim has a greater attempt number, and the old claim never holds again while
    the job exists. *)
Theorem later_claim_fences_earlier `{AESGCM} settings s0 s1 s2 s3 s4 j now task c now' task' c' :
  Reachable settings s0 ->
  claim_execution now j task (store s0) = inr (Some c, store s1) -> step settings s0 s1 ->
  job_steps settings j s1 s2 ->
  claim_execution now' j task' (store s2) = inr (Some c', store s3) -> step settings s2 s3 ->
  job_steps settings j s3 s4 ->
  (claim_attempt c < claim_attempt c')%Z /\ owned c (store s4) = None.
Proof.
  intros H0 Hc H1 H12 Hc' H3 H34. apply reachable_sound_state in H0.
  destruct (step_sound _ _ _ H1 H0) as [Hd1 _].
  destruct (claim_granted _ _ _ _ _ _ Hc) as (Hj & job1 & Hj1 & Ha1).
  destruct (job_steps_succeeds _ _ _ _ _ H12 Hd1 Hj1) as (Hd2 & job2 & Hj2 & _ & _ & _ & _ & Ha2 & _).
  pose proof (claim_exceeds _ _ _ _ _ _ _ Hc' Hj2) as Ha3.
  destruct (claim_granted _ _ _ _ _ _ Hc') as (Hj' & job3 & Hj3 & Ha3').
  destruct (step_sound _ _ _ H3 Hd2) as [Hd3 _].
  destruct (job_steps_succeeds _ _ _ _ _ H34 Hd3 Hj3) as (_ & job4 & Hj4 & _ & _ & _ & _ & Ha4 & _).
  split; [lia |]. destruct (owned c (store s4)) as [job|] eqn:Ho; [| done].
  apply owned_spec in Ho as (Hj5 & _ & _ & Ha5 & _). rewrite Hj in Hj5.
  assert (job = job4) as -> by congruence. lia.
Qed.

Lemma later_claim_fences_earlier_witness :
  (claim_attempt (sync_claim 1) < claim_attempt (sync_claim 2))%Z /\
  owned (sync_claim 1) claimed.2 <> None /\ owned (sync_claim 1) reclaimed.2 = None.
Proof.
  assert (Hf : (claim_attempt (sync_claim 1) < claim_attempt (sync_claim 2))%Z /\
               owned (sync_claim 1) reclaimed.2 = None).
  { apply (later_claim_fences_earlier sample_settings
      (mkState sync_job_store [w1]) (mkState claimed.2 [claimed.1])
      (mkState released_again.2 [w2; released_again.1; claimed.1])
      (mkState reclaimed.2 [reclaimed.1; released_again.1; claimed.1])
      (mkState reclaimed.2 [reclaimed.1; released_again.1; claimed.1])
      21 5 DATABASE_SYNC_STEP_01_TASK (sync_claim 1) 410 DATABASE_SYNC_STEP_01_TASK (sync_claim 2)).
    - exact history_3_reachable.
    - vm_compute. reflexivity.
    - exact (turn_step 5 w1 sync_job_store [] eq_refl).
    - exact history_4_steps.
    - vm_compute. reflexivity.
    - exact (turn_step 410 w2 released_again.2 [released_again.1; claimed.1] eq_refl).
    - apply rtc_refl. }
  destruct Hf as [H1 H2]. split; [exact H1 | split; [| exact H2]].
  vm_compute. discriminate.
Defined.
