(* ===== verification/Credentials.v ===== *)
(** * Credentials: the administrator of an instance keeps its password

    The password of the first user of a deployment is chosen once: it is stored as a candidate
    before anybody uses it, promoted when the deployment has it, and never replaced while the
    instance exists, whatever sessions interleave. *)
From S2P Require Import Prelude Text Models Store Registry Crypto Execution Ownership Claims.
From S2P Require Import Jobs Databases Instances Members Templates Assignments Workspaces.
From S2P Require Import Config Program Coder Worker CoderService InstanceTasks WorkspaceTasks.
From S2P Require Import TemplateTasks InstanceTaskFacts RemoteTaskFacts System Frames.
From S2P Require Import Concrete SystemProperties.
From Stdlib Require Import Ascii String.
Open Scope string_scope.

(** The password of the administrator, as it is stored: promoted, or the candidate. *)
Definition envelope (r : CoderInstance) : option bytes :=
  match inst_password_enc r with Some e => Some e | None => inst_password_candidate_enc r end.

(** [r'] has the deployment and the password of [r]. *)
Definition same_login (r r' : CoderInstance) : Prop :=
  inst_slug r' = inst_slug r /\ forall e, envelope r = Some e -> envelope r' = Some e.
#[export] Instance same_login_preorder : PreOrder same_login.
Proof.
  split; [done |]. intros a b c [Hs He] [Hs' He']. split; [congruence |]. auto.
Qed.

(** The instances of [m'] are instances of [m], with their passwords. *)
Definition kept_logins (m m' : gmap uuid CoderInstance) : Prop :=
  forall i r', m' !! i = Some r' -> exists r, m !! i = Some r /\ same_login r r'.
Lemma kept_refl m : kept_logins m m.
Proof. intros i r Hi. by exists r. Qed.
Lemma kept_trans m m1 m2 : kept_logins m m1 -> kept_logins m1 m2 -> kept_logins m m2.
Proof.
  intros H1 H2 i r2 Hi. destruct (H2 i r2 Hi) as (r1 & Hr1 & Hs).
  destruct (H1 i r1 Hr1) as (r & Hr & Hs'). exists r. split; [done | by etrans].
Qed.
Lemma kept_alter_at f i m m' :
  (forall r, m' !! i = Some r -> same_login r (f r)) -> kept_logins m m' ->
  kept_logins m (alter f i m').
Proof.
  intros Hf Hm. apply (kept_trans _ m'); [done |]. intros k r Hk. rewrite lookup_alter in Hk.
  case_decide; [subst k | by exists r]. apply fmap_Some in Hk as (r0 & Hi & ->). exists r0. auto.
Qed.
Lemma kept_alter f i m m' :
  (forall r, same_login r (f r)) -> kept_logins m m' -> kept_logins m (alter f i m').
Proof. intros Hf. apply kept_alter_at. auto. Qed.
Lemma kept_delete i m m' : kept_logins m m' -> kept_logins m (delete i m').
Proof.
  intros Hm. apply (kept_trans _ m'); [done |]. intros k r Hk.
  apply lookup_delete_Some in Hk as [_ Hk]. by exists r.
Qed.
Lemma kept_update p f m m' :
  (forall r, same_login r (f r)) -> kept_logins m m' -> kept_logins m (update_where p f m').
Proof.
  intros Hf Hm. apply (kept_trans _ m'); [done |]. intros k r Hk. rewrite lookup_update_where in Hk.
  apply fmap_Some in Hk as (r0 & Hi & ->). exists r0. split; [done |]. by case_match.
Qed.

Definition Keeping (d d' : Store) : Prop := kept_logins (instances d) (instances d').
#[export] Instance keeping_preorder : PreOrder Keeping.
Proof.
  split; [intros d; apply kept_refl | intros d d1 d2; apply kept_trans].
Qed.

(** [keeping] shows [Keeping] by what is written to the instances. *)
Ltac keeping :=
  unfold Keeping in *; cbn;
  repeat first
    [ assumption | apply kept_refl | apply kept_alter; [by intros; repeat case_match |]
    | apply kept_update; [by intros |] | apply kept_delete ].

#[export] Instance keeping_unseen : Unseen Keeping.
Proof.
  split; [apply _ | ..]; intros; unfold on_resource; try (destruct (job_ref job) as [[[] i]|]);
    keeping.
Qed.

Definition Credible A (m : session A) : Prop :=
  forall d a d' i r r', m d = inr (a, d') -> instances d !! i = Some r ->
    instances d' !! i = Some r' -> same_login r r'.
Lemma frame_credible {A} (m : session A) : Frame Keeping A m -> Credible A m.
Proof.
  intros Hm d a d' i r r' H Hi Hi'. destruct (Hm d a d' H i r' Hi') as (r0 & Hr0 & Hs).
  by assert (r0 = r) as -> by congruence.
Qed.

Lemma discard_keeping i : Frame Keeping _ (_discard_current_job i).
Proof. intros d a d' H. unfold _discard_current_job in H. open_request H; keeping. Qed.

Section System.
Context `{AESGCM}.
Variable settings : Settings.

Ltac keeping_request :=
  intros d a d' Hkeep; open_request Hkeep;
  repeat match goal with
    | H : _discard_current_job _ _ = inr _ |- _ => apply discard_keeping in H
    end; keeping.

Lemma api_credible A (m : session A) : Api A m -> Credible A m.
Proof.
  destruct 1;
    try (apply frame_credible; unfold create_system_job, instance_request_deletion,
           instance_request_sync, instance_request_start, instance_request_stop,
           create_and_request_update, member_create, member_update_role, member_request_deletion,
           template_create, template_update, template_delete, template_request_sync, image_create,
           image_delete, parameter_create, parameter_update, parameter_delete, put,
           assignment_request_deletion, workspace_create, workspace_update,
           workspace_request_deletion, database_create, database_update, database_delete; keeping_request; fail).
  - apply frame_credible, read_only_frame; [apply _ | done].
  - intros d a d' k r r' Hm Hk Hk'. unfold instance_create in Hm. open_request Hm.
    assert (k <> i).
    { intros ->. match goal with H : is_none (instances d !! i) = true |- _ => by rewrite Hk in H end. }
    cbn in Hk'. rewrite ?lookup_alter_ne, lookup_insert_ne in Hk' by congruence.
    by assert (r' = r) as -> by congruence.
Qed.

(** ** Tasks *)
Lemma prepare_keeping c base token nonce :
  Frame Keeping _ (_prepare_bootstrap settings c base token nonce).
Proof.
  intros d a d' Hm. unfold _prepare_bootstrap, owned_execution, set_instance in Hm. session_cases; try keeping.
  apply kept_alter_at; [| apply kept_refl]. intros r Hr. split; [done |]. intros e He.
  unfold envelope in He. simplify_eq. repeat case_match; congruence.
Qed.

Lemma promote_keeping ox : Frame Keeping _ (_promote_password ox).
Proof.
  intros d a d' Hm. unfold _promote_password, set_instance in Hm. session_cases; try keeping;
    (apply kept_alter_at; [| apply kept_refl]); intros r Hr; (split; [done |]); intros e He;
    unfold envelope in *; cbn; simplify_eq; by repeat case_match; simplify_eq.
Qed.

Lemma settle_members_instances ids i d : instances (settle_members ids i d) = instances d.
Proof. by destruct (settle_members_spares ids i d) as (_ & -> & _). Qed.
Lemma finalize_update_keeping now next c ids name :
  Frame Keeping _ (_finalize_update now next c ids name).
Proof.
  intros d a d' Hm. unfold _finalize_update, owned_execution, set_instance in Hm.
  session_cases; unfold Keeping; cbn -[settle_members]; rewrite ?settle_members_instances; keeping.
Qed.
Lemma remove_configuration_keeping c : Frame Keeping _ (remove_local_configuration c).
Proof.
  intros d a d' Hm. unfold remove_local_configuration, owned_execution in Hm. session_cases; keeping.
Qed.

Create HintDb login.
#[local] Hint Resolve finalize_update_keeping remove_configuration_keeping prepare_keeping
  promote_keeping : login.
#[local] Hint Resolve read_only_frame managed_database_target_read_only
  stored_kubeconfig_read_only stored_admin_password_read_only instance_snapshot_read_only
  workspace_remote_snapshot_read_only template_source_snapshot_read_only
  assignment_template_id_read_only stable_assignment_ids_read_only removal_snapshot_read_only
  stored_credentials_read_only keeping_unseen : login.

Ltac walk_session ::= apply frame_credible.
Ltac walk_frame ::= solve [auto with login | intros ? ? ? Hkeep; open_session Hkeep; keeping].

Lemma step_tasks_credible rounds name task j :
  In (name, task) (step_tasks settings rounds) -> every Credible (task j).
Proof.
  unfold step_tasks. intros Hin.
  repeat (destruct Hin as [E | Hin]; [injection E as <- <-; walk |]); [.. | destruct Hin].
Qed.

Lemma task_credible A (p : worker A) : Task settings A p -> every Credible p.
Proof.
  apply task_every; intros; try (apply frame_credible; walk_step); [by eapply step_tasks_credible | walk].
Qed.

(** ** Along the life of an instance *)
Lemma step_keeps_login s s' i r r' :
  Reachable settings s -> step settings s s' -> instances (store s) !! i = Some r ->
  instances (store s') !! i = Some r' -> same_login r r'.
Proof.
  intros Hs Hstep Hi Hi'.
  destruct (step_sessions settings Credible api_credible task_credible s s' Hstep) as
    [[E | (A & m & a & Hm & E)] _].
  - by apply (reachable_every settings Credible api_credible task_credible).
  - rewrite E in Hi'. by assert (r' = r) as -> by congruence.
  - by eapply Hm.
Qed.

(** Steps on which the instance [i] stays in the store. *)
Definition instance_steps (i : uuid) : State -> State -> Prop :=
  rtc (fun s s' => step settings s s' /\ is_Some (instances (store s') !! i)).
Lemma steps_keep_login i s s' r :
  instance_steps i s s' -> Reachable settings s -> instances (store s) !! i = Some r ->
  exists r', instances (store s') !! i = Some r' /\ same_login r r'.
Proof.
  intros Hs. revert r. induction Hs as [s | s s1 s' [H1 [r1 Hr1]] _ IH]; intros r Hr Hi; [by exists r |].
  destruct (IH r1) as (r' & Hi' & Hs'); [by eapply rtc_r | done |].
  exists r'. split; [done |]. etrans; [by eapply step_keeps_login | done].
Qed.
End System.

(** ** What is offered to the deployment *)
Section Offers.
Context `{AESGCMLaws}.
Variable settings : Settings.
Variable c : cipher.
Hypothesis Hc : init_cipher (crypto_key settings) = inr c.

Lemma password_opens nonce password i :
  List.length nonce = NONCE_LENGTH -> valid_utf8 (str_encode password) = true ->
  InstancePasswordCipher_decrypt c (InstancePasswordCipher_encrypt c nonce password i) i = inr password.
Proof.
  intros Hn Hp. unfold InstancePasswordCipher_decrypt, InstancePasswordCipher_encrypt, decode_or.
  by rewrite unseal_seal, bytes_decode_encode.
Qed.

(** The password [p] of the deployment at [url] is what the row [r] of the instance [i] stores. *)
Definition offers (i : uuid) (base url p : string) (r : CoderInstance) : Prop :=
  url = url_for base (inst_slug r) /\
  exists e, envelope r = Some e /\ InstancePasswordCipher_decrypt c e i = inr p.
Lemma same_login_offers i base url p r r' :
  same_login r r' -> offers i base url p r -> offers i base url p r'.
Proof.
  intros [Hs He] (-> & e & Hr & Hp). split; [by rewrite Hs |]. exists e. auto.
Qed.

Lemma prepare_offers claim base token nonce d job i url upd p d' :
  List.length nonce = NONCE_LENGTH -> valid_utf8 (str_encode token) = true ->
  owned claim d = Some job -> job_ref job = Some (KInstance, i) ->
  _prepare_bootstrap settings claim base token nonce d = inr (Some (url, upd, Some p), d') ->
  exists r, instances d' !! i = Some r /\ offers i base url p r.
Proof.
  intros Hn Ht Ho Hr Hm. unfold _prepare_bootstrap, owned_execution, set_instance in Hm.
  session_cases; try discriminate; simplify_eq;
    match goal with Hr : mret _ _ = inr _ |- _ => apply ret_inr in Hr as [E ->] end;
    injection E as Eu _ Ep; subst url p.
  - eexists. split; [eassumption |]. split; [done |]. exists l. unfold envelope.
    rewrite Heqo1, Heqo2. split; [done | congruence].
  - eexists. split; [cbn; by rewrite lookup_alter_eq, H1 |]. split; [done |].
    eexists. split; [unfold envelope; cbn; by rewrite Heqo1 |].
    assert (x0 = c) as -> by congruence. by apply password_opens.
Qed.

(** What a session that needs the password finds while the instance offers [p]. *)
Definition logs_in (base url p : string) (i : uuid) (d : Store) : Prop :=
  stored_admin_password settings i base d = inr (Some (url, p), d).
Lemma stored_offers base url p i d r :
  instances d !! i = Some r -> offers i base url p r ->
  (inst_password_enc r = None -> stored_admin_password settings i base d = inr (None, d)) /\
  (inst_password_enc r <> None -> logs_in base url p i d).
Proof.
  intros Hi (-> & e & Hr & Hp). unfold logs_in, stored_admin_password, envelope, gets, found in *.
  split; intros Hn; unfold mbind, action_bind; rewrite Hi; cbn;
    (destruct (inst_password_enc r); [| done]); [done |].
  injection Hr as ->. by rewrite Hc; cbn; rewrite Hp.
Qed.
Lemma prepare_again claim base token nonce d job i url p r :
  owned claim d = Some job -> job_ref job = Some (KInstance, i) ->
  instances d !! i = Some r -> offers i base url p r ->
  _prepare_bootstrap settings claim base token nonce d
  = inr (Some (url, job_name job == "instance.update",
           match inst_password_enc r with Some _ => None | None => Some p end), d).
Proof.
  intros Ho Hj Hi (-> & e & Hr & Hp). unfold _prepare_bootstrap, owned_execution, gets, found, envelope in *.
  unfold mbind, action_bind. rewrite Ho, Hj, Hi. cbn.
  destruct (inst_password_enc r); [done |]. rewrite Hr, Hc. cbn. by rewrite Hp.
Qed.
End Offers.

(** ** A history: the three steps of a creation *)

(** [k] turns of the worker in front; a finished worker rests. *)
Fixpoint turns (k n : nat) (w : Process) (d : Store) : Process * Store :=
  match k with
  | O => (w, d)
  | S k' => let '(w', d') := turn n w d in turns k' (S n) w' d'
  end.

Lemma turn_rest n w d : finished w = true -> turn n w d = (w, d).
Proof. destruct w as [A []]; cbn; by intros. Qed.
Lemma turns_reachable k n w d ws :
  Reachable sample_settings (mkState d (w :: ws)) ->
  Reachable sample_settings (mkState (turns k n w d).2 ((turns k n w d).1 :: ws)).
Proof.
  revert n w d. induction k as [|k IH]; intros n w d Hs; [done |]. cbn [turns].
  destruct (turn n w d) as [w' d'] eqn:E. apply IH. destruct (finished w) eqn:Hf.
  - rewrite turn_rest in E by done. by injection E as <- <-.
  - eapply rtc_r; [exact Hs |]. pose proof (turn_step n w d ws Hf) as Hstep. by rewrite E in Hstep.
Qed.
Lemma task_reachable name task d ws j :
  In (name, task) (step_tasks sample_settings 0) ->
  Reachable sample_settings (mkState d ws) ->
  Reachable sample_settings (mkState d (Running (task j) :: ws)).
Proof.
  intros Hin Hs. eapply rtc_r; [exact Hs |].
  apply step_start. exact (task_step sample_settings 0 name task j Hin).
Qed.

Lemma turns_keep_instance i k n w d ws :
  forallb (fun m => is_some (instances (turns m n w d).2 !! i)) (seq 1 k) = true ->
  instance_steps sample_settings i (mkState d (w :: ws))
    (mkState (turns k n w d).2 ((turns k n w d).1 :: ws)).
Proof.
  revert n w d. induction k as [|k IH]; intros n w d Hk; [apply rtc_refl |]. cbn [turns].
  cbn [seq forallb] in Hk. apply andb_prop in Hk as [H1 Hk]. cbn [turns] in H1.
  destruct (turn n w d) as [w' d'] eqn:E. cbn in H1. etrans; [| apply IH].
  - destruct (finished w) eqn:Hf; [rewrite turn_rest in E by done; by injection E as <- <- |].
    apply rtc_once. pose proof (turn_step n w d ws Hf) as Hstep. rewrite E in Hstep.
    split; [exact Hstep |]. by apply is_some_true in H1 as [r Hr]; exists r.
  - apply forallb_forall. intros m Hm. rewrite forallb_forall in Hk. apply in_seq in Hm.
    specialize (Hk (S m) ltac:(apply in_seq; lia)). cbn [turns] in Hk. by rewrite E in Hk.
Qed.

(** The worker of [created_store] takes its first two steps; in the third it comes to the session
    that stores a candidate, and goes on. *)
Definition first_step : Process * Store :=
  turns 30 1 (Running (step_01_create_schema sample_settings 11)) created_store.
Definition second_step : Process * Store :=
  turns 30 40 (Running (step_02_create_instance sample_settings 11)) first_step.2.
Definition third_step : Process * Store :=
  turns 4 80 (Running (step_03_bootstrap_admin sample_settings 11)) second_step.2.
Definition offered : Process * Store := turn 84 third_step.1 third_step.2.
Definition promoted : Process * Store := turns 30 85 offered.1 offered.2.
Definition resting : list Process := [second_step.1; first_step.1].
Definition bootstrap_claim : ExecutionClaim :=
  mkClaim 11 INSTANCE_CREATE_STEP_03_TASK INSTANCE_CREATE_STEP_03 3 (Some "instance") (Some 10%N).

Lemma third_step_reachable :
  Reachable sample_settings (mkState third_step.2 (third_step.1 :: resting)).
Proof.
  apply turns_reachable, (task_reachable INSTANCE_CREATE_STEP_03_TASK (step_03_bootstrap_admin _));
    [cbn; tauto |].
  apply turns_reachable, (task_reachable INSTANCE_CREATE_STEP_02_TASK (step_02_create_instance _));
    [cbn; tauto |].
  apply turns_reachable, (task_reachable INSTANCE_CREATE_STEP_01_TASK (step_01_create_schema _));
    [cbn; tauto |].
  apply history_2_reachable.
Qed.

(** C10: The first user of a deployment has one password, for as long as the instance exists.
    Once a session of the bootstrap has offered a password for the deployment, then whatever
    requests, workers, retry scans, duplicate messages and crashes come next, as long as the
    instance is there: a later bootstrap of it, with whatever token it draws, stores nothing and
    offers that same password, at the same URL, or offers none because the password is already
    promoted; and who logs in to the deployment reads that password and no other. So a worker that
    dies between the creation of the user and the promotion locks nobody out. *)
Theorem one_administrator_password `{AESGCMLaws} settings c s1 s2 s3 claim job i base token nonce
    url upd p :
  init_cipher (crypto_key settings) = inr c ->
  List.length nonce = NONCE_LENGTH -> valid_utf8 (str_encode token) = true ->
  Reachable settings s1 -> step settings s1 s2 -> instance_steps settings i s2 s3 ->
  owned claim (store s1) = Some job -> job_ref job = Some (KInstance, i) ->
  _prepare_bootstrap settings claim base token nonce (store s1)
    = inr (Some (url, upd, Some p), store s2) ->
  (stored_admin_password settings i base (store s3) = inr (None, store s3) \/
   stored_admin_password settings i base (store s3) = inr (Some (url, p), store s3)) /\
  forall claim' job' token' nonce',
    owned claim' (store s3) = Some job' -> job_ref job' = Some (KInstance, i) ->
    exists upd' pw,
      _prepare_bootstrap settings claim' base token' nonce' (store s3)
        = inr (Some (url, upd', pw), store s3) /\
      (pw = Some p \/
       pw = None /\
       stored_admin_password settings i base (store s3) = inr (Some (url, p), store s3)).
Proof.
  intros Hc Hn Ht Hs1 H12 H23 Ho Hj Hm.
  destruct (prepare_offers settings c Hc _ _ _ _ _ _ _ _ _ _ _ Hn Ht Ho Hj Hm) as (r2 & Hr2 & Hp2).
  destruct (steps_keep_login settings i s2 s3 r2 H23) as (r & Hr & Hl); [by eapply rtc_r | done |].
  pose proof (same_login_offers c i base url p r2 r Hl Hp2) as Hp.
  destruct (stored_offers settings c Hc base url p i _ r Hr Hp) as [Hnone Hsome]. split.
  - destruct (inst_password_enc r); [right; by apply Hsome | left; by apply Hnone].
  - intros claim' job' token' nonce' Ho' Hj'.
    rewrite (prepare_again settings c Hc claim' base token' nonce' _ job' i url p r Ho' Hj' Hr Hp).
    do 2 eexists. split; [done |]. destruct (inst_password_enc r); [right | by left].
    split; [done | by apply Hsome].
Qed.

Lemma one_administrator_password_witness :
  (exists r, instances promoted.2 !! 10%N = Some r /\ inst_state r = STARTED) /\
  stored_admin_password sample_settings 10 "apps.example.com" promoted.2
  = inr (Some ("https://abcdefghijkl.apps.example.com", "token"), promoted.2).
Proof.
  destruct (owned bootstrap_claim third_step.2) as [job |] eqn:Ho;
    [| vm_compute in Ho; discriminate Ho].
  assert (Hj : job_ref job = Some (KInstance, 10%N))
    by (vm_compute in Ho; injection Ho as <-; reflexivity).
  split.
  { destruct (instances promoted.2 !! 10%N) as [r |] eqn:Hr; [| vm_compute in Hr; discriminate Hr].
    exists r. vm_compute in Hr. injection Hr as <-. split; reflexivity. }
  destruct (one_administrator_password sample_settings sample_cipher
    (mkState third_step.2 (third_step.1 :: resting)) (mkState offered.2 (offered.1 :: resting))
    (mkState promoted.2 (promoted.1 :: resting))
    bootstrap_claim job 10%N "apps.example.com" "token" sample_nonce
    "https://abcdefghijkl.apps.example.com" false "token")
    as [[E | E] _]; [reflexivity | reflexivity | vm_compute; reflexivity
    | exact third_step_reachable | | | exact Ho | exact Hj | vm_compute; reflexivity | | exact E].
  - apply turn_step. vm_compute. reflexivity.
  - apply turns_keep_instance. vm_compute. reflexivity.
  - exfalso. cbn [store] in E.
    apply (f_equal (fun r => match r with inr (Some _, _) => true | _ => false end)) in E.
    vm_compute in E. discriminate E.
Defined.
