(* ===== verification/Fencing.v ===== *)
(** * Fencing: what a worker whose claim is lost can still do

    A worker that was slow, or that was delivered a message twice, goes on after its job has been
    claimed again, advanced or finished. Every session of a step checks its claim, or only reads:
    such a worker changes nothing. *)
From S2P Require Import Prelude Text Models Store Registry Crypto Execution Ownership Claims.
From S2P Require Import Jobs Databases Instances Members Templates Config Program Coder Worker.
From S2P Require Import CoderService InstanceTasks WorkspaceTasks TemplateTasks.
From S2P Require Import InstanceTaskFacts RemoteTaskFacts System Concrete Frames.
From S2P Require Import SystemProperties.
From Stdlib Require Import Ascii String.
Open Scope string_scope.

(** The attempt that the claim names is the job's, and runs. *)
Definition current (c : ExecutionClaim) (d : Store) : Prop :=
  exists job, jobs d !! claim_job_id c = Some job /\ job_status job = RUNNING /\
    job_attempt job = claim_attempt c.

Lemma owned_current c d job : owned c d = Some job -> current c d.
Proof. intros (? & ? & ? & ? & ? & _)%owned_spec. by exists job. Qed.
Lemma not_current_owned c d : ~ current c d -> owned c d = None.
Proof. intros Hc. destruct (owned c d) eqn:Ho; [| done]. by apply owned_current in Ho. Qed.

(** ** Sessions and programs under a claim *)
Definition Fenced (c : ExecutionClaim) A (m : session A) : Prop :=
  forall d a d', ~ current c d -> m d = inr (a, d') -> d' = d.
Definition Anything R (q : Query R) : Prop := True.
Abbreviation fenced c p := (within (Fenced c) Anything p).

Lemma fenced_read c A (m : session A) : ReadOnly m -> Fenced c A m.
Proof. intros Hm d a d' _ H. by apply Hm in H. Qed.

(** What starts by asking for the claimed job ends at once when there is none. *)
Lemma fenced_owned c A (f : option JobExecution -> session A) :
  ReadOnly (f None) -> Fenced c A (o ← owned_execution c; f o).
Proof.
  intros Hf d a d' Hc H. unfold owned_execution in H. action_inv.
  rewrite (not_current_owned c d Hc) in *. by eapply Hf.
Qed.

Lemma ret_read_only {A} (a : A) : ReadOnly (mret a : session A).
Proof. intros d b d' H. by session_inv. Qed.

Lemma lock_owned_current c k e d t d' :
  _lock_owned_template_target c k e d = inr (t, d') -> current c d.
Proof.
  intros H. unfold _lock_owned_template_target in H. session_inv. unfold _job_matches_claim in *.
  bool_hyps. eexists. eauto.
Qed.

Lemma fenced_lock c A k e (f : OwnedTemplateTarget -> session A) :
  Fenced c A (t ← _lock_owned_template_target c k e; f t).
Proof.
  intros d a d' Hc H. action_inv.
  match goal with Hl : _lock_owned_template_target _ _ _ _ = inr _ |- _ =>
    by apply lock_owned_current in Hl end.
Qed.

(** ** The sessions of the steps *)
Create HintDb fenced.
Lemma advance_fenced c t s m : Fenced c _ (advance_execution c t s m).
Proof. apply fenced_owned, ret_read_only. Qed.
Lemma complete_fenced c m b : Fenced c _ (complete_execution c m b).
Proof. apply fenced_owned, ret_read_only. Qed.
Lemma defer_fenced c m : Fenced c _ (defer_execution c m).
Proof. apply fenced_owned, ret_read_only. Qed.
Lemma fail_fenced c m : Fenced c _ (fail_execution c m).
Proof. apply fenced_owned, ret_read_only. Qed.
Lemma heartbeat_fenced now c : Fenced c _ (heartbeat_execution now c).
Proof. apply fenced_owned, ret_read_only. Qed.
Lemma store_started_application_fenced c n : Fenced c _ (_store_started_application c n).
Proof. apply fenced_owned, ret_read_only. Qed.
Lemma remove_local_configuration_fenced c : Fenced c _ (remove_local_configuration c).
Proof. apply fenced_owned, ret_read_only. Qed.
Lemma workspace_ids_fenced c w b : Fenced c _ (WorkspaceTasks.store_remote_ids c w b).
Proof. apply fenced_owned, ret_read_only. Qed.
Lemma remove_local_assignment_fenced c s : Fenced c _ (_remove_local_assignment c s).
Proof. apply fenced_owned, ret_read_only. Qed.
Lemma template_ids_fenced c k o t v : Fenced c _ (_store_remote_ids c k o t v).
Proof. apply fenced_lock. Qed.
Lemma finish_deployment_fenced c k s r b : Fenced c _ (_finish_deployment c k s r b).
Proof. apply fenced_lock. Qed.
#[export] Hint Resolve advance_fenced complete_fenced defer_fenced fail_fenced heartbeat_fenced
  store_started_application_fenced remove_local_configuration_fenced workspace_ids_fenced
  remove_local_assignment_fenced template_ids_fenced finish_deployment_fenced : fenced.

(** [fence] proves [fenced c p] construct by construct. *)
Ltac fence_step :=
  match goal with
  | |- within _ _ (_ ≫= _) => apply within_bind
  | |- within _ _ (bind _ _) => apply within_bind
  | |- within _ _ (catch _ _) => apply within_catch
  | |- within _ _ (Done _) => exact I
  | |- within _ _ (Fail _) => exact I
  | |- within _ _ (returns _) => apply within_returns
  | |- within _ _ (ask _) => apply within_ask; exact I
  | |- within _ _ (client _ _) => apply within_ask; exact I
  | |- within _ _ (Ask _ _) => split; [exact I |]
  | |- within _ _ (sess _) => apply within_sess
  | |- forall _, _ => intros ?
  | |- within _ _ (let _ := _ in _) => cbv zeta
  | |- within _ _ (let '(_, _) := ?x in _) => destruct x
  | |- within _ _ (match ?x with _ => _ end) => destruct x
  | |- within _ _ (if ?b then _ else _) => destruct b
  | |- Fenced _ _ _ => solve [eauto 2 with fenced | apply fenced_read; eauto 2 with fenced]
  | |- _ => solve [eauto 3 with fenced]
  end.
Ltac fence := repeat fence_step.

Lemma for_each_fenced c {A S} (xs : list A) (s : S) body :
  (forall x s, fenced c (body x s)) -> fenced c (for_each xs s body).
Proof. intros Hb. revert s. induction xs as [|x rest IH]; intros s; [done |]. cbn. fence. Qed.

Lemma loop_fenced c {S A} fuel (s : S) (body : S -> worker (A + S)) :
  (forall s, fenced c (body s)) -> fenced c (loop fuel s body).
Proof. intros Hb. revert s. induction fuel as [|n IH]; intros s; [done |]. cbn. fence. Qed.
#[export] Hint Resolve for_each_fenced loop_fenced : fenced.

Lemma dispatch_fenced c t j : fenced c (dispatch t j).
Proof. unfold dispatch. fence. Qed.
#[export] Hint Resolve dispatch_fenced : fenced.
Lemma worker_advance_fenced c t s m : fenced c (advance c t s m).
Proof. unfold advance. fence. Qed.
Lemma heartbeat_owned_fenced c message : fenced c (heartbeat_owned message c).
Proof. unfold heartbeat_owned. fence. Qed.
Lemma workspace_heartbeat_fenced c : fenced c (workspace_heartbeat c).
Proof. unfold workspace_heartbeat. fence. Qed.
Lemma sync_heartbeat_fenced c : fenced c (sync_heartbeat c).
Proof. unfold sync_heartbeat. fence. Qed.
Lemma before_deadline_fenced c deadline message :
  fenced c (_require_before_deadline deadline message).
Proof. unfold _require_before_deadline. fence. Qed.
#[export] Hint Resolve worker_advance_fenced heartbeat_owned_fenced workspace_heartbeat_fenced
  sync_heartbeat_fenced before_deadline_fenced : fenced.

(** ** The operations of the Coder service, with a fenced callback *)
Section Service.
Variable c : ExecutionClaim.
Variable rounds : nat.
Variable instance_url : string.
Variable heartbeat : worker unit.
Hypothesis Hheartbeat : fenced c heartbeat.

Lemma bootstrap_admin_account_fenced p : fenced c (bootstrap_admin_account instance_url p).
Proof. unfold bootstrap_admin_account. fence. Qed.

Lemma cleanup_user_accounts_fenced p e :
  fenced c (cleanup_user_accounts instance_url heartbeat p e).
Proof. unfold cleanup_user_accounts. fence. apply for_each_fenced. fence. Qed.

Lemma active_workspaces_fenced : fenced c (_active_workspaces rounds instance_url heartbeat).
Proof.
  unfold _active_workspaces, active_page. fence. apply for_each_fenced. intros.
  apply loop_fenced. fence.
Qed.

Lemma all_workspaces_fenced : fenced c (_all_workspaces rounds instance_url heartbeat).
Proof.
  unfold _all_workspaces, all_page, page_row. fence. apply loop_fenced. fence.
  apply for_each_fenced. fence.
Qed.

Lemma stop_active_workspaces_fenced p t i :
  fenced c (stop_active_workspaces rounds instance_url heartbeat p t i).
Proof.
  pose proof active_workspaces_fenced.
  unfold stop_active_workspaces, submit_stop, _wait_workspace_builds, poll_stops. fence.
  apply loop_fenced. fence; [apply for_each_fenced; fence |].
  apply loop_fenced. fence. apply for_each_fenced. fence.
Qed.

Lemma delete_workspaces_fenced subject p t i snapshot :
  fenced c snapshot ->
  fenced c (delete_workspaces rounds instance_url heartbeat subject p t i snapshot).
Proof.
  intros Hs. unfold delete_workspaces, _wait_for_coder, submit_delete, _wait_workspace_deletions,
    poll_blocking, poll_deleting. fence; apply loop_fenced; fence.
  - apply for_each_fenced. fence.
  - apply loop_fenced. fence; apply for_each_fenced; fence.
Qed.

Lemma delete_all_workspaces_fenced p t i :
  fenced c (delete_all_workspaces rounds instance_url heartbeat p t i).
Proof. apply delete_workspaces_fenced, all_workspaces_fenced. Qed.

Lemma delete_template_workspaces_fenced p k t i :
  fenced c (delete_template_workspaces rounds instance_url heartbeat p k t i).
Proof.
  apply delete_workspaces_fenced. pose proof all_workspaces_fenced.
  unfold _template_workspaces. fence.
Qed.

Lemma wait_template_version_fenced v t i s :
  fenced c (wait_template_version rounds instance_url heartbeat v t i s).
Proof. unfold wait_template_version. fence. apply loop_fenced. fence. Qed.
End Service.
#[export] Hint Resolve bootstrap_admin_account_fenced stop_active_workspaces_fenced
  delete_all_workspaces_fenced delete_template_workspaces_fenced wait_template_version_fenced : fenced.

(** ** The steps *)
Section Steps.
Context `{AESGCM}.
Variable settings : Settings.
Variable rounds : nat.
#[local] Hint Resolve managed_database_target_read_only stored_kubeconfig_read_only
  stored_admin_password_read_only instance_snapshot_read_only workspace_remote_snapshot_read_only
  template_source_snapshot_read_only assignment_template_id_read_only
  stable_assignment_ids_read_only removal_snapshot_read_only stored_credentials_read_only
  within_returns : fenced.

Lemma prepare_bootstrap_fenced c b t n : Fenced c _ (_prepare_bootstrap settings c b t n).
Proof. apply fenced_owned, ret_read_only. Qed.
Lemma prepare_deployment_fenced c k t s r b i :
  Fenced c _ (_prepare_deployment settings c k t s r b i).
Proof. apply fenced_lock. Qed.
#[local] Hint Resolve prepare_bootstrap_fenced prepare_deployment_fenced : fenced.

Lemma instance_helm_values_fenced c i s u : fenced c (instance_helm_values settings i s u).
Proof. unfold instance_helm_values. fence. Qed.
Lemma required_credentials_fenced c i b : fenced c (required_credentials settings i b).
Proof. unfold required_credentials. fence. Qed.
Lemma database_target_fenced c i : fenced c (database_target settings i).
Proof. unfold database_target. fence. Qed.
#[local] Hint Resolve instance_helm_values_fenced required_credentials_fenced
  database_target_fenced : fenced.

Lemma reconcile_and_advance_fenced c i s n ms b t st :
  fenced c (reconcile_and_advance settings c i s n ms b t st).
Proof. unfold reconcile_and_advance. fence. Qed.
Lemma restored_application_fenced c i s n ms b :
  fenced c (restored_application settings i s n ms b).
Proof. unfold restored_application. fence. Qed.
Lemma remote_snapshot_fenced c : fenced c (remote_snapshot settings c).
Proof. unfold remote_snapshot, resource_id. fence. Qed.
Lemma wait_workspace_build_fenced c u b s :
  fenced c (wait_workspace_build settings rounds u c b s).
Proof. unfold wait_workspace_build. fence. apply loop_fenced. fence. Qed.
Lemma find_remote_workspace_fenced c s : fenced c (find_remote_workspace s).
Proof. unfold find_remote_workspace. fence. Qed.
Lemma complete_workspace_fenced c w b a x : Fenced c _ (complete_workspace c w b a x).
Proof. apply complete_fenced. Qed.
Lemma require_matching_template_fenced c r s : fenced c (require_matching_template r s).
Proof. unfold require_matching_template. fence. Qed.
Lemma managed_remote_template_fenced c u o n t v :
  fenced c (_managed_remote_template u o n t v).
Proof. unfold _managed_remote_template. fence. Qed.
#[local] Hint Resolve reconcile_and_advance_fenced restored_application_fenced
  remote_snapshot_fenced wait_workspace_build_fenced find_remote_workspace_fenced
  complete_workspace_fenced require_matching_template_fenced managed_remote_template_fenced : fenced.

Lemma sync_template_target_fenced c s a k h :
  fenced c h -> fenced c (sync_template_target settings rounds s a k c h).
Proof. intros Hh. unfold sync_template_target, publish. fence. Qed.
#[local] Hint Resolve sync_template_target_fenced : fenced.
Lemma sync_one_fenced c s a k n : fenced c (sync_one settings rounds s a c k n).
Proof. unfold sync_one. fence. Qed.
Lemma fetch_template_archive_fenced c s : fenced c (fetch_template_archive s).
Proof. unfold fetch_template_archive. fence. Qed.
#[local] Hint Resolve sync_one_fenced fetch_template_archive_fenced : fenced.

(** What a step runs after its claim. *)
Definition Guarded (p : worker string) : Prop :=
  exists j task operation, p = run_claimed_step j task operation /\
    forall c, fenced c (operation c).

Ltac guarded_step := eexists _, _, _; split; [reflexivity |]; cbv beta; intros c; unfold resource_id; fence.

Lemma guarded_steps j :
  Forall Guarded [step_01_create_schema settings j; step_02_create_instance settings j;
    step_03_bootstrap_admin settings j; step_01_start_instance settings j;
    step_01_stop_workspaces settings rounds j; step_02_stop_instance j;
    step_01_remove_workspaces settings rounds j; step_02_remove_instance j;
    step_03_remove_schema settings j; step_04_remove_local_configuration j;
    step_01_create_workspace settings rounds j; step_01_update_workspace settings rounds j;
    step_01_delete_workspace settings rounds j; step_01_sync_database j;
    step_01_sync_template settings rounds j; step_01_create_template settings rounds j;
    step_01_delete_template settings rounds j].
Proof.
  repeat (apply Forall_cons; split); [guarded_step.. | done].
Qed.
End Steps.

(** ** Executions of a stale worker *)
Lemma fenced_exec (Env : Store -> Store -> Prop) c {A} (p : worker A) d o d' :
  (forall d1 d2, ~ current c d1 -> Env d1 d2 -> ~ current c d2) ->
  fenced c p -> ~ current c d -> Exec Env p d o d' -> rtc Env d d'.
Proof.
  intros Henv.
  assert (Hrtc : forall d1 d2, rtc Env d1 d2 -> ~ current c d1 -> ~ current c d2).
  { induction 1; eauto. }
  revert d. induction p as [a | e | B m k IH | R q k IH]; cbn; intros d Hp Hc.
  - by intros [_ H].
  - by intros [_ H].
  - intros (d1 & H1 & H2). destruct Hp as [Hm Hk]. etrans; [exact H1 |].
    pose proof (Hrtc _ _ H1 Hc) as Hc1.
    assert (Hd : (run_session m d1).2 = d1).
    { unfold run_session. destruct (m d1) as [e | [b d2]] eqn:Em; [done |]. by apply (Hm _ _ _ Hc1 Em). }
    rewrite Hd in H2. eapply IH; [apply Hk | exact Hc1 | exact H2].
  - intros (r & Hr). destruct Hp as [_ Hk]. eapply IH; [apply Hk | exact Hc | exact Hr].
Qed.

(** What [p] does with a claim that is lost: nothing but what the others do meanwhile. *)
Definition HarmlessWhenStale (p : worker string) : Prop :=
  exists j task operation, p = run_claimed_step j task operation /\
    forall (Env : Store -> Store -> Prop) c d o d',
      (forall d1 d2, ~ current c d1 -> Env d1 d2 -> ~ current c d2) -> ~ current c d ->
      Exec Env (catch (operation c) (fun e => sess (fail_execution c (mret tt));; Fail e)) d o d' ->
      rtc Env d d'.

Lemma guarded_harmless p : Guarded p -> HarmlessWhenStale p.
Proof.
  intros (j & task & operation & -> & Hop). exists j, task, operation. split; [done |].
  intros Env c d o d' Henv Hc Hx. eapply fenced_exec; [exact Henv | | exact Hc | exact Hx]. fence.
Qed.

(** The steps whose every session is fenced: all but the two of [instance.update]. *)
Definition fenced_steps `{AESGCM} (settings : Settings) (rounds : nat) : list (uuid -> worker string) :=
  map snd (List.filter (fun nt => negb (member nt.1 [INSTANCE_UPDATE_STEP_01_TASK;
                                                     INSTANCE_UPDATE_STEP_02_TASK]))
             (step_tasks settings rounds)).

(** C6: a stale worker is harmless. Of the nineteen steps, every one but the two of
    [instance.update] leaves the store alone once its claim is lost: whatever the other processes
    commit meanwhile and whatever its own requests are answered, up to and including the handling
    of its exceptions, the store evolves by the others' commits only. *)
Theorem stale_steps_are_noops `{AESGCM} settings rounds j :
  List.length (fenced_steps settings rounds) = 17 /\
  Forall HarmlessWhenStale (map (fun step => step j) (fenced_steps settings rounds)).
Proof.
  split; [reflexivity |].
  exact (Forall_impl _ _ _ (guarded_steps settings rounds j) guarded_harmless).
Qed.

(** a claim that is lost stays lost: along any steps of the system on which the job stays in
    the store, the attempt of the claim never runs again. *)
Theorem lost_claim_stays_lost `{AESGCM} settings s0 s1 c job :
  Reachable settings s0 -> jobs (store s0) !! claim_job_id c = Some job ->
  (claim_attempt c <= job_attempt job)%Z -> ~ current c (store s0) ->
  job_steps settings (claim_job_id c) s0 s1 -> ~ current c (store s1).
Proof.
  intros H0 Hj Ha Hc H01 (job1 & Hj1 & Hs1 & Ha1).
  destruct (job_steps_succeeds _ _ _ _ _ H01 (reachable_sound_state _ _ H0) Hj)
    as (_ & job2 & Hj2 & _ & _ & _ & _ & Hle & Hrun & _).
  assert (job2 = job1) as -> by congruence.
  destruct (Hrun Hs1) as [Hs |]; [| lia]. apply Hc. exists job. split_and!; [done | done |]. lia.
Qed.

Lemma lost_claim_reachable :
  Reachable sample_settings (mkState released_again.2 [w2; released_again.1; claimed.1]).
Proof.
  unfold Reachable. etrans; [eapply rtc_r; [exact history_3_reachable |
    exact (turn_step 5 w1 sync_job_store [] eq_refl)] |].
  assert (Hsub : forall s s', job_steps sample_settings 21 s s' -> rtc (step sample_settings) s s').
  { induction 1 as [| ? ? ? [? _]]; [apply rtc_refl | by eapply rtc_l]. }
  apply Hsub, history_4_steps.
Qed.

Lemma lost_claim_stays_lost_witness :
  ~ current (sync_claim 1) released_again.2 /\ ~ current (sync_claim 1) reclaimed.2.
Proof.
  assert (Hc : ~ current (sync_claim 1) released_again.2).
  { intros (job & Hj & Hs & _). vm_compute in Hj. injection Hj as <-. discriminate Hs. }
  split; [exact Hc |].
  destruct (jobs released_again.2 !! 21%N) as [job|] eqn:Hj; [| vm_compute in Hj; discriminate Hj].
  apply (lost_claim_stays_lost sample_settings
    (mkState released_again.2 [w2; released_again.1; claimed.1])
    (mkState reclaimed.2 [reclaimed.1; released_again.1; claimed.1]) (sync_claim 1) job).
  - exact lost_claim_reachable.
  - exact Hj.
  - vm_compute in Hj. injection Hj as <-. cbn. lia.
  - exact Hc.
  - exact (turn_job_steps 21 410 w2 released_again.2 [released_again.1; claimed.1] eq_refl eq_refl).
Defined.

(** ** The exception: the member claims of [instance.update]

    A first worker claims the job 30 and is slow. The retry scan hands the job to a second worker,
    which claims the members (alice) and goes to Argo CD with them. Meanwhile bob is added, which
    needs no new job as the update is still at its first step; then the first worker wakes up in
    [_claim_members], which does not look at its claim. *)
Definition update_claim (attempt : Z) : ExecutionClaim :=
  mkClaim 30 INSTANCE_UPDATE_STEP_01_TASK INSTANCE_UPDATE_STEP_01 attempt (Some "instance") (Some 10%N).
Definition with_alice : Store := after (member_create 500 30 31 10 "alice" USER) ready_store.
Definition first_claim : Store :=
  after (claim_execution 600 30 INSTANCE_UPDATE_STEP_01_TASK) with_alice.
Definition second_claim : Store :=
  after (claim_execution 2000 30 INSTANCE_UPDATE_STEP_01_TASK)
    (after (prepare_execution_retry 1700 30) first_claim).
Definition second_members : Exn + (list uuid * list (string * MemberRole) * string * option string) :=
  (run_session (_claim_members (update_claim 2)) second_claim).1.
Definition with_bob : Store :=
  after (member_create 2001 40 41 10 "bob" USER) (after (_claim_members (update_claim 2)) second_claim).
Definition bob_claimed : Store := after (_claim_members (update_claim 1)) with_bob.
Definition update_finished : Store :=
  (run_task (step_02_cleanup_users sample_settings 30) 2010
     (after (advance_execution (update_claim 2) INSTANCE_UPDATE_STEP_02_TASK INSTANCE_UPDATE_STEP_02
               (_store_application_name "cm-abcdefghijkl")) bob_claimed)).2.

(** a stale worker of [instance.update] can hide a member from its reconciliation. In this
    history the first worker's claim is lost, yet its [_claim_members] marks the new member bob as
    running; the second worker, which went to Argo CD with alice only, then takes bob for one of
    its own: the update ends with bob successful, no member pending and no job left to run, though
    no request has ever named bob. *)
Theorem stale_update_hides_a_member :
  owned (update_claim 1) with_bob = None /\
  second_members = inr ([31%N], [("alice", USER)], "abcdefghijkl", Some "cm-abcdefghijkl") /\
  mem_status <$> members with_bob !! 41%N = Some PENDING /\
  mem_status <$> members bob_claimed !! 41%N = Some RUNNING /\
  mem_status <$> members update_finished !! 41%N = Some SUCCESS /\
  inst_status <$> instances update_finished !! 10%N = Some SUCCESS /\
  Forall (fun job => job_status job.2 = SUCCESS) (map_to_list (jobs update_finished)).
Proof. split_and!; [vm_compute; reflexivity.. |]. vm_compute. repeat constructor. Qed.
