(* ===== verification/ClaimProperties.v ===== *)
(** * ClaimProperties: claims, their loss and their retry (tasks/common/execution.py,
    tasks/retry_job_executions.py) *)
From S2P Require Import Prelude Text Models Store Registry Crypto Execution Ownership Claims.
From S2P Require Import Jobs Databases Instances Config Program Coder Worker.
From S2P Require Import CoderService InstanceTasks Concrete.

(** ** Matching, by the four attributes of the resource *)
Lemma resource_matches_owner d j job :
  _resource_matches j job (_resource_for_job d job) = true <->
  job_resource_type job = None \/
  exists x o, job_ref job = Some x /\ owner d x = Some o /\ own_job_id o = Some j /\
    dict_get (job_name job) RESOURCE_ACTIONS = Some (own_action o) /\
    own_step o = Some (job_step job).
Proof.
  split; [apply resource_matches_spec |].
  unfold _resource_matches, _resource_for_job. intros [-> | (x & o & Hx & Ho & Hid & Ha & Hs)]; [done |].
  rewrite Hx. destruct (job_resource_type job); [| done].
  apply load_owner in Ho as (r & Hr & Hro). cbn. rewrite Hr, Ha, Hro, Hid, Hs.
  by rewrite !bool_decide_eq_true_2.
Qed.

(** A job may be claimed for a task when it waits for that task and its resource agrees. *)
Definition claimable (d : Store) (j : uuid) (task : string) : bool :=
  match jobs d !! j with
  | None => false
  | Some job =>
      (job_task_name job == task) && member (job_status job) [PENDING; ERROR]
      && _resource_matches j job (_resource_for_job d job)
  end.

(** A transition of a job [j] with its resource [x]: the job's new state matches when the
    resource keeps its job and action, and is at the job's step. *)
Lemma matches_after d d' j job job' :
  _resource_matches j job (_resource_for_job d job) = true ->
  job_name job' = job_name job -> job_ref job' = job_ref job ->
  (job_resource_type job' = None <-> job_resource_type job = None) ->
  (forall x o, job_ref job = Some x -> owner d x = Some o -> own_job_id o = Some j ->
     own_step o = Some (job_step job) ->
     exists o', owner d' x = Some o' /\ own_job_id o' = own_job_id o /\
       own_action o' = own_action o /\ own_step o' = Some (job_step job')) ->
  _resource_matches j job' (_resource_for_job d' job') = true.
Proof.
  rewrite !resource_matches_owner. intros Hm Hn Hr Ht Ho.
  destruct Hm as [Hm | (x & o & Hx & Hox & Hid & Ha & Hs)]; [left; by apply Ht | right].
  destruct (Ho x o Hx Hox Hid Hs) as (o' & Hox' & Hid' & Ha' & Hs').
  exists x, o'. split_and!; congruence.
Qed.

Definition claimed_store (now : time) (j : uuid) (job : JobExecution) (d : Store) : Store :=
  on_resource (set_status RUNNING) job
    (set_job (fun j => j <| job_status := RUNNING |> <| job_attempt := (job_attempt j + 1)%Z |>
                         <| job_claimed_at := Some now |>) j d).

Lemma claim_granted_eq now j job d :
  Sound d -> jobs d !! j = Some job -> claimable d j (job_task_name job) = true ->
  claim_execution now j (job_task_name job) d
  = inr (Some (mkClaim j (job_task_name job) (job_step job) (job_attempt job + 1)
                 (job_resource_type job) (job_resource_id job)), claimed_store now j job d).
Proof.
  intros Hd Hj Hc. unfold claimable in Hc. rewrite Hj in Hc. bool_hyps.
  assert (Hi : Integrity (claimed_store now j job d)).
  { apply integrity_on_resource; [intros; by apply integrity_set_status |].
    apply integrity_set_job; [apply Hd |]. intros job0 Hj0. assert (job0 = job) as -> by congruence.
    destruct (sound_integrity _ Hd) as [[Hck _] _]. specialize (Hck j job Hj). cbn in Hck.
    unfold job_checks in *. cbn. bool_hyps. rewrite !andb_true_iff, Z.leb_le. split_and!; [done.. | lia]. }
  unfold claim_execution, gets, modify, mbind, action_bind. rewrite Hj.
  rewrite bool_decide_eq_true_2 by done. cbn [negb orb].
  rewrite (proj2 (member_true _ _)) by done. cbn [negb].
  match goal with H : _resource_matches _ _ _ = true |- _ => rewrite H end. cbn [negb].
  fold (claimed_store now j job d). by rewrite commit_success.
Qed.

Lemma claim_refused now j task d :
  claimable d j task = false -> claim_execution now j task d = inr (None, d).
Proof.
  unfold claimable, claim_execution, gets, mbind, action_bind.
  destruct (jobs d !! j) as [job|]; [| done].
  destruct (job_task_name job == task), (member _ _); try done.
  destruct (_resource_matches _ _ _); done.
Qed.

(** C8: a claim is granted exactly when the job waits for this task and its resource still names
    the job, its action and its step. It then takes the next attempt number, holds at once, marks
    the job and its resource running, and leaves every other job and resource as it was. A claim
    that is refused leaves the store as it was. *)
Theorem claim_execution_decides now j task d :
  Sound d ->
  if claimable d j task then
    exists c d' job job', claim_execution now j task d = inr (Some c, d') /\
      jobs d !! j = Some job /\ owned c d' = Some job' /\
      claim_job_id c = j /\ claim_attempt c = (job_attempt job + 1)%Z /\
      job_claimed_at job' = Some now /\
      (forall k, k <> j -> jobs d' !! k = jobs d !! k) /\
      (forall x, Some x <> job_ref job -> owner d' x = owner d x) /\
      (forall x, job_ref job = Some x ->
         owner d' x = (fun o => o <| own_status := RUNNING |>) <$> owner d x)
  else claim_execution now j task d = inr (None, d).
Proof.
  intros Hd. destruct (claimable d j task) eqn:Hc; [| by apply claim_refused].
  unfold claimable in Hc. destruct (jobs d !! j) as [job|] eqn:Hj; [| done].
  bool_hyps. subst task.
  assert (Hc : claimable d j (job_task_name job) = true).
  { unfold claimable. rewrite Hj, bool_decide_eq_true_2, (proj2 (member_true _ _)) by done. done. }
  eexists _, (claimed_store now j job d), job, _. rewrite (claim_granted_eq now j job d Hd Hj Hc).
  split; [reflexivity |]. split; [done |].
  assert (Hlk : jobs (claimed_store now j job d) !! j
    = Some (job <| job_status := RUNNING |> <| job_attempt := (job_attempt job + 1)%Z |>
                <| job_claimed_at := Some now |>)).
  { unfold claimed_store. autorewrite with jobs. by rewrite lookup_alter_eq, Hj. }
  split_and!.
  - apply owned_spec. cbn. split_and!; [exact Hlk | done..|].
    match goal with Hm : _resource_matches _ _ _ = true |- _ =>
      eapply (matches_after d _ j job); [exact Hm | done..|] end.
    intros x o Hx Ho Hid Hs. exists (o <| own_status := RUNNING |>). split_and!; try done.
    unfold claimed_store. by rewrite (owner_on_resource_status _ _ _ x Hx), owner_set_job, Ho.
  - done.
  - done.
  - done.
  - intros k Hk. unfold claimed_store. autorewrite with jobs. by rewrite lookup_alter_ne.
  - intros x Hx. unfold claimed_store, on_resource. destruct (job_ref job) as [y|]; [| apply owner_set_job].
    rewrite owner_set_status, owner_set_job.
    destruct (owner d x); cbn; [by rewrite decide_False by congruence | done].
  - intros x Hx. unfold claimed_store. by rewrite (owner_on_resource_status _ _ _ x Hx), owner_set_job.
Qed.

Lemma claim_execution_decides_witness :
  claimable created_store 11 INSTANCE_CREATE_STEP_01_TASK = true /\
  exists c d' job job', claim_execution 1 11 INSTANCE_CREATE_STEP_01_TASK created_store = inr (Some c, d') /\
    jobs created_store !! 11%N = Some job /\ owned c d' = Some job' /\
    claim_job_id c = 11%N /\ claim_attempt c = (job_attempt job + 1)%Z.
Proof.
  assert (Hc : claimable created_store 11 INSTANCE_CREATE_STEP_01_TASK = true)
    by (vm_compute; reflexivity).
  split; [exact Hc |].
  pose proof (claim_execution_decides 1 11 INSTANCE_CREATE_STEP_01_TASK created_store sound_created) as H.
  rewrite Hc in H. destruct H as (c & d' & job & job' & H1 & H2 & H3 & H4 & H5 & _).
  exists c, d', job, job'. exact (conj H1 (conj H2 (conj H3 (conj H4 H5)))).
Defined.

(** a worker whose claim no longer holds can do nothing to its job: it cannot advance,
    complete, defer, fail or heartbeat it, none of its callbacks runs, and the store stays as it
    was. *)
Theorem stale_claim_is_noop c task step mutate fail_mutate del now d :
  owned c d = None ->
  advance_execution c task step mutate d = inr (false, d) /\
  complete_execution c mutate del d = inr (false, d) /\
  defer_execution c mutate d = inr (false, d) /\
  fail_execution c fail_mutate d = inr (tt, d) /\
  heartbeat_execution now c d = inr (false, d).
Proof.
  intros Ho. unfold advance_execution, complete_execution, defer_execution, fail_execution,
    heartbeat_execution, owned_execution, gets, mbind, action_bind.
  by rewrite Ho.
Qed.

Lemma stale_claim_is_noop_witness :
  let stale := mkClaim 11 INSTANCE_CREATE_STEP_01_TASK INSTANCE_CREATE_STEP_01 1 (Some "instance") (Some 10%N) in
  owned stale at_step_02 = None /\
  complete_execution stale (fun _ => throw OutOfFuel) true at_step_02 = inr (false, at_step_02).
Proof.
  cbv zeta.
  assert (Ho : owned (mkClaim 11 INSTANCE_CREATE_STEP_01_TASK INSTANCE_CREATE_STEP_01 1
                        (Some "instance") (Some 10%N)) at_step_02 = None)
    by (vm_compute; reflexivity).
  split; [exact Ho |].
  exact (proj1 (proj2 (stale_claim_is_noop _ "" "" (fun _ => throw OutOfFuel) (throw OutOfFuel) true 0
                         at_step_02 Ho))).
Defined.

(** Two claims on one job that hold in the same store are claims of the same attempt at the
    same step: at most one attempt of a job can act. *)
Theorem owned_claims_agree c c' d job job' :
  owned c d = Some job -> owned c' d = Some job' -> claim_job_id c = claim_job_id c' ->
  job = job' /\ claim_attempt c = claim_attempt c' /\ claim_task_name c = claim_task_name c' /\
  claim_step c = claim_step c'.
Proof. apply owned_agree. Qed.

Definition running_store : Store := after (claim_execution 1 11 INSTANCE_CREATE_STEP_01_TASK) created_store.
Definition running_claim : ExecutionClaim :=
  mkClaim 11 INSTANCE_CREATE_STEP_01_TASK INSTANCE_CREATE_STEP_01 1 (Some "instance") (Some 10%N).
Lemma sound_running : Sound running_store.
Proof. apply sound_after, sound_created. apply claim_execution_keeps. Qed.
Definition running_job : JobExecution :=
  mkJob "instance.create" INSTANCE_CREATE_STEP_01_TASK (Some "instance") (Some 10%N)
    INSTANCE_CREATE_STEP_01 RUNNING 1 (Some 1%Z) 0.
Lemma running_owned : owned running_claim running_store = Some running_job.
Proof. vm_compute. reflexivity. Qed.

Lemma owned_claims_agree_witness :
  owned running_claim running_store = Some running_job /\
  claim_attempt running_claim = claim_attempt (mkClaim 11 INSTANCE_CREATE_STEP_01_TASK INSTANCE_CREATE_STEP_01 1 None None).
Proof.
  split; [exact running_owned |].
  exact (proj1 (proj2 (owned_claims_agree running_claim (mkClaim 11 INSTANCE_CREATE_STEP_01_TASK INSTANCE_CREATE_STEP_01 1 None None)
    running_store running_job running_job running_owned eq_refl eq_refl))).
Defined.

(** ** Progress *)

(** A callback that leaves the jobs alone, and the resource to its job, action and step. *)
Definition Faithful (mutate : mutation) : Prop :=
  forall ox d u d1, mutate ox d = inr (u, d1) -> jobs d1 = jobs d /\
    forall x o, ox = Some x -> owner d x = Some o ->
      exists o1, owner d1 x = Some o1 /\ SameDuty o o1.

Lemma same_duty_refl o : SameDuty o o.
Proof. done. Qed.

Lemma no_mutation_faithful : Faithful no_mutation.
Proof.
  intros ox d u d1 H. apply ret_inr in H as [_ ->]. split; [done |].
  intros x o _ Ho. exists o. split; [done |]. done.
Qed.

Lemma on_instance_faithful message f :
  (forall r, owner_of (RInstance (f r)) = owner_of (RInstance r)) -> Faithful (on_instance message f).
Proof.
  intros Hf ox d u d1 H. unfold on_instance, set_instance in H.
  destruct ox as [[[] i]|]; try discriminate H. apply modify_inr in H. subst d1. split; [done |].
  intros x o _ Ho. exists o. split; [| done]. by rewrite owner_alter_instance.
Qed.

(** The store that a session leaves when it gives the owned job the state [f job] and assigns to
    its resource: the job matches again. *)
Lemma matches_transition c d job d1 f d' :
  owned c d = Some job -> jobs d1 = jobs d ->
  (forall x o, job_ref job = Some x -> owner d x = Some o ->
     exists o1, owner d1 x = Some o1 /\ SameDuty o o1) ->
  job_name (f job) = job_name job -> job_ref (f job) = job_ref job ->
  job_resource_type (f job) = job_resource_type job ->
  jobs d' = alter f (claim_job_id c) (jobs d1) ->
  (forall x o1, job_ref job = Some x -> owner d1 x = Some o1 -> own_step o1 = Some (job_step job) ->
     exists o', owner d' x = Some o' /\ own_job_id o' = own_job_id o1 /\
       own_action o' = own_action o1 /\ own_step o' = Some (job_step (f job))) ->
  jobs d' !! claim_job_id c = Some (f job) /\
  _resource_matches (claim_job_id c) (f job) (_resource_for_job d' (f job)) = true.
Proof.
  intros Ho Hj1 Hm Hn Hr Ht Hj' Ho'. apply owned_spec in Ho as (Hj & _ & _ & _ & _ & Hmatch).
  split; [by rewrite Hj', lookup_alter_eq, Hj1, Hj |].
  eapply (matches_after d _ (claim_job_id c) job); try done; [by rewrite Ht |].
  intros x o Hx Hox Hid Hs. destruct (Hm x o Hx Hox) as (o1 & Hox1 & Hd1 & Hd2 & Hd3).
  destruct (Ho' x o1 Hx Hox1) as (o' & Hox' & He1 & He2 & He3); [congruence |].
  exists o'. split_and!; congruence.
Qed.

(** C38: an advance hands the job over. The new task may claim the job at its new step, under the
    next attempt number; the claim that advanced it no longer holds. *)
Theorem advanced_job_is_claimable c task step mutate now d d' :
  Faithful mutate -> MutatesWithin SameDuty mutate -> Sound d ->
  follows (claim_task_name c) task step = true ->
  advance_execution c task step mutate d = inr (true, d') ->
  claimable d' (claim_job_id c) task = true /\ owned c d' = None /\
  exists c' d'', claim_execution now (claim_job_id c) task d' = inr (Some c', d'') /\
    claim_attempt c' = (claim_attempt c + 1)%Z /\ claim_step c' = step.
Proof.
  intros Hf Hmw Hd Hfo H. pose proof H as Hadv. apply advance_execution_inv in H as
    [(? & _) | (job & d1 & _ & Ho & Hm & Hi & ->)]; [done |].
  destruct (Hf _ _ _ _ Hm) as [Hj1 Hox].
  set (f := fun j : JobExecution => j <| job_task_name := task |> <| job_step := step |>
                                     <| job_status := PENDING |> <| job_claimed_at := None |>).
  destruct (matches_transition c d job d1 f (advanced c task step job d1)) as [Hj' Hmatch]; try done.
  { unfold advanced. by autorewrite with jobs. }
  { intros x o1 Hx Ho1 _. exists (o1 <| own_step := Some step |> <| own_status := PENDING |>).
    split_and!; try done. unfold advanced.
    by rewrite (owner_on_resource_status _ _ _ x Hx), (owner_on_resource_step _ _ _ x Hx),
      owner_set_job, Ho1. }
  assert (Hc : claimable (advanced c task step job d1) (claim_job_id c) task = true).
  { unfold claimable. rewrite Hj'. cbn [f job_task_name job_status set].
    rewrite Hmatch. cbn. by rewrite bool_decide_eq_true_2. }
  assert (Hno : owned c (advanced c task step job d1) = None).
  { destruct (owned c (advanced c task step job d1)) as [job'|] eqn:E; [| done].
    apply owned_spec in E as (E1 & _ & _ & _ & E2 & _). assert (job' = f job) as -> by congruence. done. }
  split; [done | split; [done |]].
  assert (Hs' : Sound (advanced c task step job d1)).
  { by eapply (advance_execution_keeps c task step mutate Hmw Hfo). }
  do 2 eexists. split; [exact (claim_granted_eq now _ _ _ Hs' Hj' Hc) |].
  apply owned_spec in Ho as (_ & _ & _ & Ha & _). cbn. by rewrite Ha.
Qed.

Lemma advanced_job_is_claimable_witness :
  exists d', advance_execution running_claim INSTANCE_CREATE_STEP_02_TASK INSTANCE_CREATE_STEP_02
               no_mutation running_store = inr (true, d') /\
    claimable d' 11 INSTANCE_CREATE_STEP_02_TASK = true.
Proof.
  destruct (advance_execution running_claim INSTANCE_CREATE_STEP_02_TASK INSTANCE_CREATE_STEP_02
              no_mutation running_store) as [e | [b d']] eqn:E; [vm_compute in E; discriminate E |].
  destruct b; [| vm_compute in E; discriminate E].
  exists d'. split; [reflexivity |].
  assert (Hf : follows (claim_task_name running_claim) INSTANCE_CREATE_STEP_02_TASK
                 INSTANCE_CREATE_STEP_02 = true) by (vm_compute; reflexivity).
  exact (proj1 (advanced_job_is_claimable running_claim _ INSTANCE_CREATE_STEP_02 no_mutation 2
    running_store d' no_mutation_faithful (no_mutation_within SameDuty same_duty_refl) sound_running
    Hf E)).
Defined.

Lemma released_integrity s j job d :
  Sound d -> jobs d !! j = Some job -> Integrity (released s j job d).
Proof.
  intros Hd Hj. apply integrity_on_resource; [intros; by apply integrity_set_status |].
  apply integrity_set_job; [apply Hd |]. intros job0 Hj0.
  destruct (sound_integrity _ Hd) as [[Hck _] _]. exact (Hck j job0 Hj0).
Qed.

Lemma fail_execution_outcome c stale_before d d' u :
  Sound d -> owned c d <> None -> fail_execution c (mret tt) d = inr (u, d') ->
  owned c d' = None /\ claimable d' (claim_job_id c) (claim_task_name c) = true /\
  prepare_execution_retry stale_before (claim_job_id c) d' = inr (Some (claim_task_name c), d') /\
  exists job', jobs d' !! claim_job_id c = Some job' /\ job_status job' = ERROR /\
    forall x o, job_ref job' = Some x -> owner d' x = Some o -> own_status o = ERROR.
Proof.
  intros Hd Hno H. apply fail_execution_inv in H as [[-> ?] | (job & d1 & Ho & Hm & Hi & ->)]; [done |].
  apply ret_inr in Hm as [_ ->].
  set (f := fun j : JobExecution => j <| job_status := ERROR |> <| job_claimed_at := None |>).
  assert (Hst : forall x, job_ref job = Some x -> owner (released ERROR (claim_job_id c) job d) x
                          = (fun o => o <| own_status := ERROR |>) <$> owner d x).
  { intros x Hx. unfold released. by rewrite (owner_on_resource_status _ _ _ x Hx), owner_set_job. }
  destruct (matches_transition c d job d f (released ERROR (claim_job_id c) job d)) as [Hj' Hmatch];
    try done.
  { intros x o Hx Hox. exists o. done. }
  { unfold released. by autorewrite with jobs. }
  { intros x o1 Hx Ho1 Hs. exists (o1 <| own_status := ERROR |>). by rewrite Hst, Ho1. }
  pose proof Ho as Ho'. apply owned_spec in Ho' as (Hj & Ht & _).
  split_and!.
  - destruct (owned c (released ERROR (claim_job_id c) job d)) as [job'|] eqn:E; [| done].
    apply owned_spec in E as (E1 & _ & _ & _ & E2 & _). assert (job' = f job) as -> by congruence. done.
  - unfold claimable. rewrite Hj'. cbn [f job_task_name job_status set]. rewrite Hmatch, Ht.
    by rewrite bool_decide_eq_true_2.
  - unfold prepare_execution_retry, gets, mbind, action_bind. rewrite Hj', Hmatch. cbn. by rewrite Ht.
  - exists (f job). split_and!; [done | done |]. intros x o Hx Hox.
    rewrite (Hst x Hx) in Hox. destruct (owner d x); cbn in Hox; [by injection Hox as <- | done].
Qed.

Lemma fail_execution_commits c d job :
  Sound d -> owned c d = Some job ->
  fail_execution c (mret tt) d = inr (tt, released ERROR (claim_job_id c) job d).
Proof.
  intros Hd Ho. pose proof Ho as (Hj & _)%owned_spec.
  unfold fail_execution, owned_execution, gets, modify, mbind, action_bind. rewrite Ho. cbn.
  fold (released ERROR (claim_job_id c) job d).
  by rewrite commit_success by by apply released_integrity.
Qed.

(** a failed attempt can be tried again. After [fail_execution] under a claim that holds, the
    job and its resource show the error, the claim is lost, the retry scan offers the job at once
    with the same task, and a worker may claim it. *)
Theorem failed_job_is_retried c stale_before d d' u :
  Sound d -> owned c d <> None -> fail_execution c (mret tt) d = inr (u, d') ->
  owned c d' = None /\ claimable d' (claim_job_id c) (claim_task_name c) = true /\
  prepare_execution_retry stale_before (claim_job_id c) d' = inr (Some (claim_task_name c), d') /\
  exists job', jobs d' !! claim_job_id c = Some job' /\ job_status job' = ERROR /\
    forall x o, job_ref job' = Some x -> owner d' x = Some o -> own_status o = ERROR.
Proof. apply fail_execution_outcome. Qed.

Lemma failed_job_is_retried_witness :
  exists d', fail_execution running_claim (mret tt) running_store = inr (tt, d') /\
    claimable d' 11 INSTANCE_CREATE_STEP_01_TASK = true.
Proof.
  destruct (fail_execution running_claim (mret tt) running_store) as [e | [[] d']] eqn:E;
    [vm_compute in E; discriminate E |].
  exists d'. split; [reflexivity |].
  assert (Ho : owned running_claim running_store <> None) by (rewrite running_owned; discriminate).
  exact (proj1 (proj2 (failed_job_is_retried running_claim 0 running_store d' tt sound_running Ho E))).
Defined.
