(* ===== verification/Requests.v ===== *)
(** * Requests: what the API's sessions leave to the running workers

    A request stages work only on a resource at rest, so no request takes away the claim of a
    worker that is running. *)
From S2P Require Import Prelude Text Models Store Registry Crypto Execution Ownership Claims.
From S2P Require Import Jobs Databases Instances Members Templates Assignments Workspaces.
From S2P Require Import Config Program Coder Worker CoderService InstanceTasks WorkspaceTasks.
From S2P Require Import TemplateTasks System Concrete ClaimProperties.

(** ** A criterion *)

(** [Passes ox d d']: every job is as it was, or belongs to [ox]; every running resource but [ox]
    is as it was; and [ox] is not running. *)
Record Passes (ox : option ref) (d d' : Store) : Prop := {
  passes_jobs : forall j job, jobs d !! j = Some job ->
    jobs d' !! j = Some job \/ (job_ref job = ox /\ is_Some ox);
  passes_owners : forall y o, owner d y = Some o -> own_status o = RUNNING -> Some y <> ox ->
    owner d' y = Some o;
  passes_rest : forall x o, ox = Some x -> owner d x = Some o -> own_status o <> RUNNING
}.

Lemma passes_owned ox c d d' job :
  InSync d -> Passes ox d d' -> owned c d = Some job -> owned c d' = Some job.
Proof.
  intros Hd [Hj Ho Hx] (Hl & H1 & H2 & H3 & Hs & Hm)%owned_spec. apply owned_spec.
  assert (Hm' : _resource_matches (claim_job_id c) job (_resource_for_job d' job) = true /\
                ~ (job_ref job = ox /\ is_Some ox)).
  { apply resource_matches_owner in Hm as [Ht | (x & o & Href & Hox & Hid & Ha & Hst)].
    - split; [by apply resource_matches_owner; left |]. rewrite (job_ref_none job Ht).
      intros [<- [? ?]]. done.
    - destruct (matched_status d _ job x o Hd Hl Href Hox Hid Hst) as [Hrun _].
      assert (Hne : Some x <> ox) by (intros E; apply (Hx x o); congruence).
      split; [| rewrite Href; by intros [? _]].
      apply resource_matches_owner. right. exists x, o. split_and!; try done.
      apply Ho; congruence. }
  destruct Hm' as [Hm' Hne]. split_and!; try done. by destruct (Hj _ _ Hl).
Qed.

Lemma passes_same d d' :
  jobs d' = jobs d -> (forall y o, owner d y = Some o -> owner d' y = Some o) -> Passes None d d'.
Proof.
  intros Hj Ho. split; [| auto | done]. intros j job H. left. by rewrite Hj.
Qed.

Lemma passes_trans ox d d1 d2 :
  Passes ox d d1 -> (forall j job, jobs d1 !! j = Some job -> jobs d2 !! j = Some job) ->
  (forall y o, owner d1 y = Some o -> Some y <> ox -> owner d2 y = Some o) -> Passes ox d d2.
Proof.
  intros [Hj Ho Hx] Hj' Ho'. split; [| | exact Hx].
  - intros j job H. destruct (Hj j job H); auto.
  - intros y o H Hr Hne. apply Ho'; auto.
Qed.

(** A new job for a resource that is not running. *)
Lemma passes_fresh x job_id job d d' :
  jobs d !! job_id = None -> jobs d' = <[job_id := job]> (jobs d) ->
  (forall y, y <> x -> owner d' y = owner d y) ->
  (forall o, owner d x = Some o -> own_status o <> RUNNING) -> Passes (Some x) d d'.
Proof.
  intros Hf Hj Ho Hx. split.
  - intros j job0 H. left. rewrite Hj, lookup_insert_ne; [done |]. congruence.
  - intros y o H _ Hne. rewrite Ho; [done |]. congruence.
  - intros x' o [= <-]. apply Hx.
Qed.

Ltac same_owner_but :=
  intros [[] ?] ?; unfold owner, load_resource; cbn -[alter insert lookup];
  rewrite ?lookup_alter_ne, ?lookup_insert_ne by congruence; done.

(** [SparesClaims m]: the session leaves every claim that holds. *)
Definition SparesClaims A (m : session A) : Prop :=
  forall c d a d' job, Sound d -> m d = inr (a, d') -> owned c d = Some job -> owned c d' = Some job.

Lemma spares_claims_by A (m : session A) :
  (forall d a d', Sound d -> m d = inr (a, d') -> exists ox, Passes ox d d') -> SparesClaims A m.
Proof.
  intros Hm c d a d' job Hd H Ho. destruct (Hm d a d' Hd H) as [ox Hp].
  eapply passes_owned; [apply Hd | exact Hp | exact Ho].
Qed.

(** ** Instances *)
Ltac session_inv_step ::=
  match goal with
  | H : commit _ = inr _ |- _ => apply commit_inr in H; destruct H as [-> ?]
  | H : commit_or _ _ = inr _ |- _ => apply commit_or_inr in H; destruct H as [-> ?]
  | H : add_job_execution _ _ _ _ _ _ _ _ _ = inr _ |- _ =>
      apply add_job_execution_inr in H; destruct H as [? ->]
  | H : stage_instance_job _ _ _ _ _ _ _ _ = inr _ |- _ =>
      apply stage_instance_job_inr in H; destruct H as [? ->]
  | H : Members._lock_available_instance _ _ = inr _ |- _ =>
      apply lock_available_instance_inr in H; destruct H as (-> & ? & ? & ?)
  | H : _lock_member _ _ _ = inr _ |- _ =>
      apply lock_member_inr in H; destruct H as (-> & ? & ?)
  | H : _ensure_no_active_assignments _ _ _ = inr _ |- _ =>
      unfold _ensure_no_active_assignments in H
  | H : _ensure_no_active_workspaces _ _ = inr _ |- _ => unfold _ensure_no_active_workspaces in H
  | H : raise _ _ = inr _ |- _ => apply raise_inr in H; destruct H as [? ->]
  | H : set_template _ _ _ = inr _ |- _ => unfold set_template in H
  | H : set_workspace _ _ _ = inr _ |- _ => unfold set_workspace in H
  | _ => action_inv_step
  end.

Lemma owner_instance d i r o :
  instances d !! i = Some r -> owner d (KInstance, i) = Some o -> own_status o = inst_status r.
Proof. intros Hi. unfold owner, load_resource; cbn. rewrite Hi. by intros [= <-]. Qed.

Lemma passes_staged now job_id i action name task step d d1 r :
  jobs d1 = jobs d -> (forall y, owner d1 y = owner d y) -> instances d !! i = Some r ->
  inst_status r <> RUNNING -> jobs d !! job_id = None ->
  Passes (Some (KInstance, i)) d (staged now job_id i action name task step d1).
Proof.
  intros Hj Ho Hi Hs Hf. eapply passes_fresh; [exact Hf | | |].
  - cbn. by rewrite Hj.
  - intros y Hy. rewrite <- Ho. revert y Hy. same_owner_but.
  - intros o H. by rewrite (owner_instance _ _ _ _ Hi H).
Qed.

Lemma instance_create_spares_claims now i job_id alloc fuel draw application :
  SparesClaims _ (instance_create now i job_id alloc fuel draw application).
Proof.
  apply spares_claims_by. intros d a d' Hd H. unfold instance_create, stored_instance in H.
  session_inv. bool_hyps. exists (Some (KInstance, i)).
  eapply passes_fresh; [eassumption | reflexivity | same_owner_but |].
  match goal with H : instances _ !! i = None |- _ => intros o; unfold owner, load_resource; cbn in *;
    by rewrite H end.
Qed.

Ltac not_busy := unfold instance_is_busy in *; bool_hyps; set_solver.

Lemma instance_request_deletion_spares_claims now job_id i :
  SparesClaims _ (instance_request_deletion now job_id i).
Proof.
  apply spares_claims_by. intros d a d' Hd H. unfold instance_request_deletion, stored_instance in H.
  session_inv. eexists. eapply passes_staged; try done.
  bool_hyps. match goal with H : _ \/ _ |- _ => destruct H end; bool_hyps; congruence.
Qed.

Lemma instance_request_sync_spares_claims now job_id i :
  SparesClaims _ (instance_request_sync now job_id i).
Proof.
  apply spares_claims_by. intros d a d' Hd H. unfold instance_request_sync, stored_instance in H.
  session_inv. eexists. eapply passes_staged; try done. not_busy.
Qed.

Lemma power_action_spares_claims now job_id i action name task step :
  SparesClaims _ (_request_power_action now job_id i action name task step).
Proof.
  apply spares_claims_by. intros d a d' Hd H. unfold _request_power_action, stored_instance in H.
  session_inv. eexists. eapply passes_staged; try done. not_busy.
Qed.

Lemma create_and_request_update_spares_claims `{AESGCM} now job_id nonce c i kubeconfig :
  SparesClaims _ (create_and_request_update now job_id nonce c i kubeconfig).
Proof.
  apply spares_claims_by. intros d a d' Hd Hm.
  unfold create_and_request_update, _lock_idle_instance in Hm. session_inv. bool_hyps.
  eexists. eapply passes_staged; try done. congruence.
Qed.

(** ** Members *)
Lemma passes_member now job_id i r d d1 d2 d' o :
  instances d !! i = Some r ->
  jobs d1 = jobs d -> (forall y, owner d1 y = owner d y) ->
  request_instance_update now job_id i r d1 = inr (o, d2) ->
  jobs d' = jobs d2 -> (forall y, owner d' y = owner d2 y) ->
  inst_status r = SUCCESS \/ inst_action r = "updating" /\
    inst_step r = Some INSTANCE_UPDATE_STEP_01 /\ (inst_status r = PENDING \/ inst_status r = RUNNING) ->
  exists ox, Passes ox d d'.
Proof.
  intros Hi Hj Ho H Hj' Ho' Hs. unfold request_instance_update in H.
  destruct ((inst_action r == "updating") && member (inst_status r) [PENDING; RUNNING]) eqn:E.
  - session_inv. exists None. apply passes_same; [congruence |]. intros y o' Hy. by rewrite Ho', Ho.
  - session_inv. exists (Some (KInstance, i)).
    assert (Hr : inst_status r <> RUNNING).
    { bool_hyps. intros Hr. destruct Hs as [| (Ha & _)]; [congruence |].
      destruct E as [E | E]; bool_hyps; [congruence |]. rewrite Hr in E. set_solver. }
    eapply passes_trans; [eapply (passes_staged now job_id i _ _ _ _ d d1 r); try done; congruence | |].
    + intros j job. by rewrite Hj'.
    + intros y o' Hy _. by rewrite Ho'.
Qed.

Lemma member_create_spares_claims now job_id k i username role :
  SparesClaims _ (member_create now job_id k i username role).
Proof.
  apply spares_claims_by. intros d a d' Hd H. unfold member_create in H. session_inv.
  eapply (passes_member now job_id i _ d d); try done; by intros [[] ?].
Qed.

Lemma member_update_role_spares_claims now job_id i k role :
  SparesClaims _ (member_update_role now job_id i k role).
Proof.
  apply spares_claims_by. intros d a d' Hd H. unfold member_update_role in H. session_cases.
  - exists None. by apply passes_same.
  - eapply (passes_member now job_id i); [eassumption | | | eassumption | | | assumption];
      try done; by intros [[] ?].
Qed.

Lemma member_request_deletion_spares_claims now job_id i k protected :
  SparesClaims _ (member_request_deletion now job_id i k protected).
Proof.
  apply spares_claims_by. intros d a d' Hd H. unfold member_request_deletion in H. session_inv.
  eapply (passes_member now job_id i); [eassumption | | | eassumption | | | assumption];
    try done; by intros [[] ?].
Qed.

(** ** Templates *)
Lemma owner_template d i t o :
  templates d !! i = Some t -> owner d (KTemplate, i) = Some o -> own_status o = tpl_sync_status t.
Proof. intros Hi. unfold owner, load_resource; cbn. rewrite Hi. by intros [= <-]. Qed.

(** Dropping the job of a template at rest. *)
Lemma passes_discarded i t d d1 d2 :
  jobs d1 = jobs d -> (forall y, owner d1 y = owner d y) ->
  templates d !! i = Some t -> tpl_sync_status t <> RUNNING ->
  Discarded i d1 d2 -> Passes (Some (KTemplate, i)) d d2.
Proof.
  intros Hj Ho Ht Hs (js & -> & Hjs). split.
  - intros j job H. rewrite <- Hj in H. cbn.
    destruct Hjs as [-> | (j' & job' & Hj' & Href & ->)]; [by left |].
    destruct (decide (j' = j)) as [-> |]; [| left; by rewrite lookup_delete_ne].
    right. split; [| by eexists]. congruence.
  - intros y o H _ Hne. rewrite <- Ho in H. rewrite <- H. clear H.
    revert y Hne. same_owner_but.
  - intros x o [= <-] H. by rewrite (owner_template _ _ _ _ Ht H).
Qed.

Lemma not_retryable_not_running s : retryable s = false -> s <> RUNNING.
Proof. by intros ->%retryable_false. Qed.

Lemma discard_inr d d1 i u d2 :
  Sound d -> jobs d1 = jobs d -> (forall y, owner d1 y = owner d y) ->
  _discard_current_job i d1 = inr (u, d2) -> Discarded i d1 d2.
Proof.
  intros Hd Hj Ho H. eapply discard_current_job_inr; [| exact H].
  eapply insync_same_owner; [apply Hd | done | done].
Qed.

Lemma template_create_spares_claims i name payload : SparesClaims _ (template_create i name payload).
Proof.
  apply spares_claims_by. intros d a d' Hd H. unfold template_create in H. session_inv. bool_hyps.
  match goal with H : templates d !! i = None |- _ => rename H into Hnone end.
  exists None. apply passes_same; [done |]. intros [[] k] o; try done.
  unfold owner, load_resource; cbn -[insert lookup].
  destruct (decide (i = k)) as [<- |]; [by rewrite Hnone | by rewrite lookup_insert_ne].
Qed.

Lemma template_update_spares_claims i payload : SparesClaims _ (template_update i payload).
Proof.
  apply spares_claims_by. intros d a d' Hd H. unfold template_update, stored_template in H.
  session_cases; [exists None; by apply passes_same |]. bool_hyps.
  match goal with H : _discard_current_job i _ = inr _ |- _ =>
    eapply (discard_inr d) in H; [| done | done | intros y; by apply owner_alter_template] end.
  exists (Some (KTemplate, i)).
  eapply passes_trans; [eapply passes_discarded; [| | eassumption | | eassumption] | ..];
    try done; [intros y; by apply owner_alter_template | by apply not_retryable_not_running |].
  intros y o Hy Hne. rewrite <- Hy. clear Hy. revert y Hne. same_owner_but.
Qed.

Lemma template_delete_spares_claims i : SparesClaims _ (template_delete i).
Proof.
  apply spares_claims_by. intros d a d' Hd H. unfold template_delete in H. session_inv. bool_hyps.
  match goal with H : _discard_current_job i _ = inr _ |- _ =>
    eapply (discard_inr d) in H; [| done | done | done] end.
  exists (Some (KTemplate, i)).
  eapply passes_trans; [eapply passes_discarded; [| | eassumption | | eassumption] | ..]; try done.
  - by apply not_retryable_not_running.
  - intros [[] k] o Hy Hne; try done. rewrite <- Hy. unfold owner, load_resource.
    cbn -[delete lookup]. rewrite lookup_delete_ne; [done | congruence].
Qed.

Lemma template_request_sync_spares_claims now job_id i : SparesClaims _ (template_request_sync now job_id i).
Proof.
  apply spares_claims_by. intros d a d' Hd H. unfold template_request_sync in H. session_inv. bool_hyps.
  match goal with H : _discard_current_job i _ = inr _ |- _ =>
    eapply (discard_inr d) in H; [| done | done | done] end.
  exists (Some (KTemplate, i)).
  eapply passes_trans; [eapply passes_discarded; [| | eassumption | | eassumption] | ..]; try done.
  - by apply not_retryable_not_running.
  - intros j job Hj. cbn. rewrite lookup_insert_ne; [done |]. congruence.
  - intros y o Hy Hne. rewrite <- Hy. clear Hy. revert y Hne. same_owner_but.
Qed.

Lemma same_owner_spares_claims A (m : session A) :
  (forall d a d', m d = inr (a, d') -> jobs d' = jobs d /\ forall y, owner d' y = owner d y) ->
  SparesClaims _ m.
Proof.
  intros Hm. apply spares_claims_by. intros d a d' _ H. destruct (Hm _ _ _ H) as [Hj Ho].
  exists None. apply passes_same; [done |]. intros y o. by rewrite Ho.
Qed.

Lemma image_create_spares_claims k i registry name version :
  SparesClaims _ (image_create k i registry name version).
Proof.
  apply same_owner_spares_claims. intros d a d' H. unfold image_create in H. session_inv.
  split; [done | by intros [[] ?]].
Qed.
Lemma image_delete_spares_claims i k : SparesClaims _ (image_delete i k).
Proof.
  apply same_owner_spares_claims. intros d a d' H. unfold image_delete, image_get in H. session_inv.
  split; [done | by intros [[] ?]].
Qed.

Ltac bumped_owner :=
  split; [apply jobs_bumped | intros y; etrans; [apply owner_bumped | by destruct y as [[] ?]]].
Ltac parameter_inv H :=
  repeat (session_inv || match goal with
  | H : Templates._lock_template _ _ = inr _ |- _ =>
      apply lock_template_inr in H; destruct H as (-> & _)
  | H : _locked_parameter _ _ _ = inr _ |- _ =>
      apply locked_parameter_inr in H; destruct H as (-> & _)
  | H : bump_revision_if _ _ _ = inr _ |- _ => apply bump_revision_if_inr in H; subst
  end).

Lemma parameter_create_spares_claims `{AESGCM} i k nonce payload c :
  SparesClaims _ (parameter_create i k nonce payload c).
Proof.
  apply same_owner_spares_claims. intros d a d' Hm. unfold parameter_create in Hm. parameter_inv Hm.
  bumped_owner.
Qed.
Lemma parameter_update_spares_claims `{AESGCM} i k nonce payload c :
  SparesClaims _ (parameter_update i k nonce payload c).
Proof.
  apply same_owner_spares_claims. intros d a d' Hm. unfold parameter_update in Hm. parameter_inv Hm.
  bumped_owner.
Qed.
Lemma parameter_delete_spares_claims i k : SparesClaims _ (parameter_delete i k).
Proof.
  apply same_owner_spares_claims. intros d a d' Hm. unfold parameter_delete in Hm. parameter_inv Hm.
  bumped_owner.
Qed.

(** ** Assignments and workspaces *)
Lemma owner_assignment d k r o :
  assignments d !! k = Some r -> owner d (KAssignment, k) = Some o -> own_status o = asg_status r.
Proof. intros Hi. unfold owner, load_resource; cbn. rewrite Hi. by intros [= <-]. Qed.
Lemma owner_workspace d k r o :
  workspaces d !! k = Some r -> owner d (KWorkspace, k) = Some o -> own_status o = ws_status r.
Proof. intros Hi. unfold owner, load_resource; cbn. rewrite Hi. by intros [= <-]. Qed.
Lemma owner_none d k i : load_resource (k, i) d = None -> owner d (k, i) = None.
Proof. unfold owner. by intros ->. Qed.

Ltac passes_unchanged := exists None; by apply passes_same.

Lemma put_spares_claims now job_id k i t : SparesClaims _ (put now job_id k i t).
Proof.
  apply spares_claims_by. intros d a d' Hd H.
  unfold put, _lock_instance, Assignments._lock_template, _require_mutation_available, _lock_assignment,
    _require_consistent_job, _stored_assignment in H.
  session_cases; try passes_unchanged. bool_hyps. exists (Some (KAssignment, k)).
  eapply passes_fresh; [eassumption | reflexivity | same_owner_but |].
  intros o. rewrite owner_none; [done |]. cbn in *.
  match goal with H : assignments d !! k = None |- _ => by rewrite H end.
Qed.

Lemma assignment_request_deletion_spares_claims now job_id i t :
  SparesClaims _ (assignment_request_deletion now job_id i t).
Proof.
  apply spares_claims_by. intros d a d' Hd H.
  unfold assignment_request_deletion, _lock_instance, Assignments._lock_template, _require_mutation_available,
    _lock_assignment, _require_consistent_job, _stored_assignment in H.
  session_cases; try passes_unchanged.
  match goal with H : first_where _ _ = Some _ |- _ =>
    apply lock_assignment_some in H as (Hk & _ & _) end.
  bool_hyps. match type of Hk with _ !! ?a = _ => exists (Some (KAssignment, a)) end.
  eapply passes_fresh; [eassumption | reflexivity | same_owner_but |].
  intros o Ho. rewrite (owner_assignment _ _ _ _ Hk Ho). congruence.
Qed.

Lemma workspace_create_spares_claims now job_id k payload :
  SparesClaims _ (workspace_create now job_id k payload).
Proof.
  apply spares_claims_by. intros d a d' Hd H. unfold workspace_create in H. workspace_unfold H.
  session_inv. bool_hyps. exists (Some (KWorkspace, k)).
  eapply passes_fresh; [eassumption | reflexivity | same_owner_but |].
  intros o. rewrite owner_none; [done |]. cbn in *.
  match goal with H : workspaces d !! k = None |- _ => by rewrite H end.
Qed.

Lemma workspace_update_spares_claims now job_id k payload :
  SparesClaims _ (workspace_update now job_id k payload).
Proof.
  apply spares_claims_by. intros d a d' Hd H. unfold workspace_update in H. workspace_unfold H.
  session_cases; [passes_unchanged |]. bool_hyps. exists (Some (KWorkspace, k)).
  eapply passes_fresh; [eassumption | reflexivity | same_owner_but |].
  intros o Ho.
  match goal with H : workspaces d !! k = Some _ |- _ => rewrite (owner_workspace _ _ _ _ H Ho) end.
  set_solver.
Qed.

Lemma workspace_request_deletion_spares_claims now job_id k :
  SparesClaims _ (workspace_request_deletion now job_id k).
Proof.
  apply spares_claims_by. intros d a d' Hd H. unfold workspace_request_deletion in H.
  workspace_unfold H. session_inv. bool_hyps. exists (Some (KWorkspace, k)).
  eapply passes_fresh; [eassumption | reflexivity | same_owner_but |].
  intros o Ho.
  match goal with H : workspaces d !! k = Some _ |- _ => rewrite (owner_workspace _ _ _ _ H Ho) end.
  set_solver.
Qed.

(** ** Databases and jobs *)
Lemma database_create_spares_claims `{AESGCM} i nonce payload password c :
  SparesClaims _ (database_create i nonce payload password c).
Proof.
  apply same_owner_spares_claims. intros d a d' Hm. unfold database_create in Hm. session_inv.
  split; [done | by intros [[] ?]].
Qed.
Lemma database_update_spares_claims `{AESGCM} i nonce payload password c :
  SparesClaims _ (database_update i nonce payload password c).
Proof.
  apply same_owner_spares_claims. intros d a d' Hm. unfold database_update in Hm. session_cases;
    (split; [done | by intros [[] ?]]).
Qed.
Lemma database_delete_spares_claims i : SparesClaims _ (database_delete i).
Proof.
  apply same_owner_spares_claims. intros d a d' Hm. unfold database_delete in Hm. session_inv.
  split; [done | by intros [[] ?]].
Qed.
Lemma create_system_job_spares_claims now j name task step :
  SparesClaims _ (create_system_job now j name task step).
Proof.
  apply spares_claims_by. intros d a d' Hd H. unfold create_system_job in H. session_inv.
  exists None. split; [| done | done]. intros k job Hk. left. cbn. rewrite lookup_insert_ne; [done |].
  congruence.
Qed.
Lemma read_spares_claims A (m : session A) : ReadOnly m -> SparesClaims _ m.
Proof. intros Hm. apply same_owner_spares_claims. intros d a d' H. by rewrite (Hm _ _ _ H). Qed.

(** C7: no request of the API takes a claim away: whatever an operator asks for while a worker
    runs a step, if the request commits at all, the worker's claim still owns its job, and the
    job's resource still has the action and step that the worker works on. *)
Theorem requests_spare_claims `{AESGCM} A (m : session A) c d a d' job :
  Api A m -> Sound d -> m d = inr (a, d') -> owned c d = Some job -> owned c d' = Some job.
Proof.
  intros Hm Hd Hrun Ho.
  assert (Hs : SparesClaims A m); [| by eapply Hs].
  destruct Hm.
  - by apply read_spares_claims.
  - apply create_system_job_spares_claims.
  - apply database_create_spares_claims.
  - apply database_update_spares_claims.
  - apply database_delete_spares_claims.
  - apply instance_create_spares_claims.
  - apply instance_request_deletion_spares_claims.
  - apply instance_request_sync_spares_claims.
  - unfold instance_request_start. apply power_action_spares_claims.
  - unfold instance_request_stop. apply power_action_spares_claims.
  - apply create_and_request_update_spares_claims.
  - apply member_create_spares_claims.
  - apply member_update_role_spares_claims.
  - apply member_request_deletion_spares_claims.
  - apply template_create_spares_claims.
  - apply template_update_spares_claims.
  - apply template_delete_spares_claims.
  - apply template_request_sync_spares_claims.
  - apply image_create_spares_claims.
  - apply image_delete_spares_claims.
  - apply parameter_create_spares_claims.
  - apply parameter_update_spares_claims.
  - apply parameter_delete_spares_claims.
  - apply put_spares_claims.
  - apply assignment_request_deletion_spares_claims.
  - apply workspace_create_spares_claims.
  - apply workspace_update_spares_claims.
  - apply workspace_request_deletion_spares_claims.
Qed.

Lemma requests_spare_claims_witness :
  owned running_claim running_store = Some running_job /\
  owned running_claim (after (database_delete 99) running_store) = owned running_claim running_store /\
  owned running_claim
    (after (database_create 2 sample_nonce (mkDatabaseFields "Other" 1 "db" 5432 "c" "m") "pw"
              sample_cipher) running_store) = Some running_job.
Proof.
  split; [exact running_owned |]. split; [reflexivity |].
  set (m := database_create 2 sample_nonce (mkDatabaseFields "Other" 1 "db" 5432 "c" "m") "pw"
              sample_cipher).
  destruct (m running_store) as [e | [u d']] eqn:E; [vm_compute in E; discriminate E |].
  unfold after, run_session. rewrite E.
  exact (requests_spare_claims _ m running_claim running_store u d' running_job
    (api_database_create 2 sample_nonce _ "pw" sample_cipher) sound_running E running_owned).
Defined.
