(* ===== verification/RetryProperties.v ===== *)
(** * RetryProperties: the periodic scan that recovers jobs (tasks/retry_job_executions.py) *)
From S2P Require Import Prelude Text Models Store Registry Crypto Execution Ownership Claims.
From S2P Require Import Jobs Databases Instances Config Program Coder Worker.
From S2P Require Import CoderService InstanceTasks Concrete ClaimProperties.

(** ** What the scan looks at *)
Definition Due (stale_before : time) (job : JobExecution) : Prop :=
  job_status job = PENDING \/ job_status job = ERROR \/
  job_status job = RUNNING /\ exists t, job_claimed_at job = Some t /\ (t <= stale_before)%Z.

Lemma is_retryable_due stale_before job : is_retryable stale_before job = true <-> Due stale_before job.
Proof.
  unfold is_retryable, Due. rewrite orb_true_iff, andb_true_iff, member_true, bool_decide_eq_true.
  split.
  - intros [H | [H1 H2]]; [set_solver |]. right; right. split; [done |].
    destruct (job_claimed_at job) as [t|]; [| done]. exists t. by rewrite <- Z.leb_le.
  - intros [H | [H | (H1 & t & H2 & H3)]]; [left; set_solver.. |].
    right. split; [done |]. rewrite H2. by apply Z.leb_le.
Qed.

Lemma created_before_total (a b : uuid * JobExecution) :
  created_before a b = true \/ created_before b a = true.
Proof.
  unfold created_before. rewrite !orb_true_iff, !andb_true_iff, !Z.ltb_lt, !Z.eqb_eq, !N.leb_le. lia.
Qed.
Lemma created_before_trans a b c :
  created_before a b = true -> created_before b c = true -> created_before a c = true.
Proof.
  unfold created_before. rewrite !orb_true_iff, !andb_true_iff, !Z.ltb_lt, !Z.eqb_eq, !N.leb_le. lia.
Qed.

Lemma elem_of_retryable stale_before d j :
  j ∈ retryable_jobs stale_before d <->
  exists job, jobs d !! j = Some job /\ Due stale_before job.
Proof.
  unfold retryable_jobs. split.
  - intros ([k job] & -> & Hin)%list_elem_of_fmap. rewrite elem_of_sort_by in Hin.
    apply elem_of_rows_where in Hin as [Hk Hr]. exists job. by rewrite <- is_retryable_due.
  - intros (job & Hj & Hd). apply list_elem_of_fmap. exists (j, job). split; [done |].
    rewrite elem_of_sort_by. apply elem_of_rows_where. by rewrite is_retryable_due.
Qed.

Lemma rows_where_nodup {R} (p : uuid -> R -> bool) m : NoDup (map fst (rows_where p m)).
Proof.
  unfold rows_where. generalize (NoDup_fst_map_to_list m).
  induction (map_to_list m) as [|[k r] l IH]; cbn; [done |]. intros [Hk Hl]%NoDup_cons.
  destruct (p k r); [| by apply IH]. cbn. apply NoDup_cons. split; [| by apply IH].
  intros Hin. apply Hk. apply list_elem_of_fmap in Hin as ([k' r'] & -> & Hin).
  apply list_elem_of_fmap. exists (k', r'). split; [done |].
  apply list_elem_of_In, filter_In in Hin as [Hin _]. by apply list_elem_of_In.
Qed.

Lemma retryable_nodup stale_before d : NoDup (retryable_jobs stale_before d).
Proof.
  unfold retryable_jobs. rewrite sort_by_permutation. apply rows_where_nodup.
Qed.

(** a retry scan considers each job once: exactly the jobs that are pending, in error, or
    running since [stale_before] or longer without a heartbeat, in the order of their creation. *)
Theorem retryable_jobs_spec stale_before d :
  NoDup (retryable_jobs stale_before d) /\
  (forall j, j ∈ retryable_jobs stale_before d <->
     exists job, jobs d !! j = Some job /\ Due stale_before job) /\
  StronglySorted (fun i j => forall a b, jobs d !! i = Some a -> jobs d !! j = Some b ->
      (job_created_at a < job_created_at b)%Z \/
      job_created_at a = job_created_at b /\ (i <= j)%N) (retryable_jobs stale_before d).
Proof.
  split; [apply retryable_nodup | split; [apply elem_of_retryable |]].
  unfold retryable_jobs.
  set (rows := rows_where (fun _ job => is_retryable stale_before job) (jobs d)).
  assert (Hrows : Forall (fun r : uuid * JobExecution => jobs d !! r.1 = Some r.2)
                    (sort_by created_before rows)).
  { apply Forall_forall. intros [k job]. rewrite elem_of_sort_by.
    intros Hin. by apply elem_of_rows_where in Hin as [? _]. }
  assert (Hs : StronglySorted (fun a b => created_before a b = true) (sort_by created_before rows)).
  { apply sort_by_sorted; [apply created_before_trans | apply created_before_total]. }
  induction Hs as [|[k job] l Hs IH Hf]; cbn; constructor; inversion Hrows as [|? ? Hk Hl]; subst.
  - by apply IH.
  - cbn in Hk. apply Forall_fmap. rewrite Forall_forall in Hf, Hl |- *.
    intros [k' job'] Hin a b Ha Hb. specialize (Hf _ Hin). specialize (Hl _ Hin). cbn in *.
    assert (a = job) as -> by congruence. assert (b = job') as -> by congruence.
    unfold created_before in Hf. cbn in Hf.
    rewrite orb_true_iff, andb_true_iff, Z.ltb_lt, Z.eqb_eq, N.leb_le in Hf. done.
Qed.

(** ** One job of the scan *)
Definition matched (d : Store) (j : uuid) (job : JobExecution) : bool :=
  _resource_matches j job (_resource_for_job d job).

(** Two stores whose resources differ in their statuses only. *)
Definition Alike (d d' : Store) : Prop :=
  forall x, (fun o => o <| own_status := SUCCESS |>) <$> owner d' x
            = (fun o => o <| own_status := SUCCESS |>) <$> owner d x.

Lemma alike_matched d d' j job : Alike d d' -> matched d' j job = matched d j job.
Proof.
  intros Ha. unfold matched. apply eq_true_iff_eq. rewrite !resource_matches_owner.
  assert (Hto : forall d1 d2, Alike d1 d2 -> forall x o, owner d1 x = Some o ->
    exists o', owner d2 x = Some o' /\ own_job_id o' = own_job_id o /\
      own_action o' = own_action o /\ own_step o' = own_step o).
  { intros d1 d2 H x o Ho. specialize (H x). rewrite Ho in H. destruct (owner d2 x) as [o'|]; [| done].
    cbn in H. injection H as ? ? ?. exists o'. done. }
  assert (Hsym : Alike d' d) by (intros x; symmetry; apply Ha).
  split; (intros [? | (x & o & Hx & Ho & H1 & H2 & H3)]; [by left | right]).
  - destruct (Hto _ _ Hsym x o Ho) as (o' & ? & ? & ? & ?). exists x, o'. split_and!; congruence.
  - destruct (Hto _ _ Ha x o Ho) as (o' & ? & ? & ? & ?). exists x, o'. split_and!; congruence.
Qed.

Lemma alike_released s j job d : Alike d (released s j job d).
Proof.
  intros x. unfold released, on_resource. destruct (job_ref job) as [y|]; rewrite ?owner_set_status;
    rewrite owner_set_job; [| done]. destruct (owner d x); cbn; [| done]. by case_decide.
Qed.

(** a running attempt whose claim is fresh is left alone by the retry scan: the job is not
    sent again, and the worker's claim goes on holding. So is a job that has succeeded. *)
Theorem retry_spares_fresh_attempts stale_before j job d :
  jobs d !! j = Some job ->
  job_status job = SUCCESS \/
  job_status job = RUNNING /\ (forall t, job_claimed_at job = Some t -> (stale_before < t)%Z) ->
  prepare_execution_retry stale_before j d = inr (None, d).
Proof.
  intros Hj Hs. unfold prepare_execution_retry, gets, mbind, action_bind. rewrite Hj.
  destruct Hs as [-> | [-> Ht]]; [done |]. cbn.
  destruct (_resource_matches _ _ _); [| done]. cbn.
  destruct (job_claimed_at job) as [t|]; [| done]. by rewrite (proj2 (Z.ltb_lt _ _)) by auto.
Qed.

Lemma retry_spares_fresh_attempts_witness :
  jobs running_store !! 11%N = Some running_job /\
  prepare_execution_retry 0 11 running_store = inr (None, running_store).
Proof.
  assert (Hj : jobs running_store !! 11%N = Some running_job) by (vm_compute; reflexivity).
  split; [exact Hj |].
  apply (retry_spares_fresh_attempts 0 11 running_job running_store Hj). right.
  split; [reflexivity |]. intros t [= <-]. reflexivity.
Defined.

(** ** The whole scan *)

(** A broker that takes every message; the clock shows [now]. *)
Definition broker (now : time) {R} (q : Query R) (log : list (string * uuid))
    : (Exn + R) * list (string * uuid) :=
  match q in Query R return (Exn + R) * list (string * uuid) with
  | Now => (inr now, log)
  | Deliver task_name job_id => (inr (true, true), (log ++ [(task_name, job_id)])%list)
  | _ => (inl (RemoteError "unexpected"), log)
  end.

Lemma prepare_due stale_before j job d :
  Sound d -> jobs d !! j = Some job -> Due stale_before job ->
  if matched d j job then
    exists d', prepare_execution_retry stale_before j d = inr (Some (job_task_name job), d') /\
      Alike d d' /\ (forall k, k <> j -> jobs d' !! k = jobs d !! k) /\
      claimable d' j (job_task_name job) = true
  else prepare_execution_retry stale_before j d = inr (None, d).
Proof.
  intros Hd Hj Hdue. destruct (matched d j job) eqn:Hm.
  2: { unfold prepare_execution_retry, gets, mbind, action_bind. rewrite Hj. unfold matched in Hm.
       destruct (job_status job == SUCCESS); [done |]. by rewrite Hm. }
  assert (Hclaim : forall d', Alike d d' -> forall job', jobs d' !! j = Some job' ->
            job_task_name job' = job_task_name job -> member (job_status job') [PENDING; ERROR] = true ->
            matched d' j job' = matched d' j job -> claimable d' j (job_task_name job) = true).
  { intros d' Ha job' Hj' Ht Hs He. unfold claimable. rewrite Hj', Ht, Hs.
    unfold matched in *. rewrite He. fold (matched d' j job).
    rewrite (alike_matched d d' j job Ha). unfold matched. rewrite Hm.
    by rewrite bool_decide_eq_true_2. }
  unfold prepare_execution_retry, gets, mbind, action_bind. rewrite Hj.
  unfold matched in Hm. rewrite Hm. cbn [negb].
  destruct Hdue as [Hs | [Hs | (Hs & t & Ht & Hle)]]; rewrite Hs; cbn [bool_decide decide].
  - exists d. split_and!; [done | done | done |]. apply (Hclaim d) with (job' := job); try done. by rewrite Hs.
  - exists d. split_and!; [done | done | done |]. apply (Hclaim d) with (job' := job); try done. by rewrite Hs.
  - rewrite Ht. rewrite (proj2 (Z.ltb_ge _ _)) by done. unfold modify.
    exists (released PENDING j job d). split_and!; [| apply alike_released | |].
    + change (match commit (released PENDING j job d) with
              | inl e => inl e
              | inr (_, s') => inr (Some (job_task_name job), s')
              end = inr (Some (job_task_name job), released PENDING j job d)).
      by rewrite commit_success by by apply released_integrity.
    + intros k Hk. unfold released. autorewrite with jobs. by rewrite lookup_alter_ne.
    + eapply (Hclaim _ (alike_released PENDING j job d)
                (job <| job_status := PENDING |> <| job_claimed_at := None |>)); try done.
      unfold released. autorewrite with jobs. by rewrite lookup_alter_eq, Hj.
Qed.

Lemma claimable_alike d d' j task :
  Alike d d' -> jobs d' !! j = jobs d !! j -> claimable d' j task = claimable d j task.
Proof.
  intros Ha Hj. unfold claimable. rewrite Hj. destruct (jobs d !! j) as [job|]; [| done].
  pose proof (alike_matched d d' j job Ha) as Hm. unfold matched in Hm. by rewrite Hm.
Qed.

Lemma dispatch_broker now task j log d :
  task ∈ REGISTERED_STEP_NAMES ->
  run (fun R => broker now) (dispatch task j) log d = (inr true, (log ++ [(task, j)])%list, d).
Proof.
  intros Ht. unfold dispatch. rewrite (proj2 (member_true _ _) Ht). cbn [negb run].
  cbn. unfold dispatch_registered_step. by rewrite (proj2 (member_true _ _) Ht).
Qed.

Lemma retry_each_broker stale_before now d0 ids : forall d log scheduled skipped,
  Sound d -> Alike d0 d -> NoDup ids ->
  (forall k, k ∈ ids -> jobs d !! k = jobs d0 !! k) ->
  (forall k, k ∈ ids -> exists job, jobs d0 !! k = Some job /\ Due stale_before job) ->
  exists sent d', run (fun R => broker now) (retry_each stale_before ids scheduled skipped) log d
      = (inr (scheduled + Z.of_nat (List.length sent),
              skipped + Z.of_nat (List.length ids) - Z.of_nat (List.length sent))%Z,
         (log ++ sent)%list, d') /\
    (forall t k, (t, k) ∈ sent <-> k ∈ ids /\ exists job, jobs d0 !! k = Some job /\
       matched d0 k job = true /\ t = job_task_name job) /\
    (forall t k, (t, k) ∈ sent -> claimable d' k t = true) /\
    (forall t k, k ∉ ids -> claimable d' k t = claimable d k t).
Proof.
  induction ids as [|j ids IH]; intros d log scheduled skipped Hd Ha Hnd Hjobs Hdue.
  { exists [], d. cbn. rewrite app_nil_r. split_and!; [repeat f_equal; lia | | | done].
    - intros t k. split; [by intros ?%not_elem_of_nil | intros [?%not_elem_of_nil _]; done].
    - by intros t k ?%not_elem_of_nil. }
  apply NoDup_cons in Hnd as [Hnj Hnd].
  destruct (Hdue j) as (job & Hj0 & Hdj); [apply list_elem_of_here |].
  assert (Hj : jobs d !! j = Some job) by (rewrite Hjobs; [done | apply list_elem_of_here]).
  pose proof (prepare_due stale_before j job d Hd Hj Hdj) as Hp.
  rewrite (alike_matched d0 d j job Ha) in Hp.
  change (retry_each stale_before (j :: ids) scheduled skipped) with
    (bind (sess (prepare_execution_retry stale_before j)) (fun task =>
       bind (match task with None => Done false | Some task_name => dispatch task_name j end)
         (fun sent => if (sent : bool) then retry_each stale_before ids (scheduled + 1) skipped
                      else retry_each stale_before ids scheduled (skipped + 1)))).
  destruct (matched d0 j job) eqn:Hm.
  - destruct Hp as (d1 & Hp & Ha1 & Hk1 & Hc1).
    rewrite (run_sess_inr _ _ _ log d _ d1 Hp), run_bind, dispatch_broker.
    2: { pose proof (sound_jobs _ Hd j job Hj) as Hkn. apply job_known_facts in Hkn as [Hw _].
         assert (Hall : forallb (fun '(_, _, t, _) => member t REGISTERED_STEP_NAMES) WORKFLOW_STEPS = true)
           by (vm_compute; reflexivity).
         rewrite forallb_forall in Hall. apply list_elem_of_In, Hall in Hw. by apply member_true. }
    destruct (IH d1 (log ++ [(job_task_name job, j)])%list (scheduled + 1)%Z skipped)
      as (sent & d' & Hr & Hsent & Hcl & Hkeep).
    + by destruct (prepare_execution_retry_keeps stale_before j d _ d1 Hd Hp).
    + intros x. by rewrite Ha1.
    + done.
    + intros k Hk. rewrite Hk1 by (intros ->; done). apply Hjobs. by apply list_elem_of_further.
    + intros k Hk. apply Hdue. by apply list_elem_of_further.
    + exists ((job_task_name job, j) :: sent), d'. rewrite Hr. split_and!.
      * rewrite <- app_assoc. cbn [List.length app]. do 4 f_equal; lia.
      * intros t k. rewrite elem_of_cons, Hsent. split.
        -- intros [[= -> ->] | [Hk (job' & ? & ? & ?)]].
           ++ split; [apply list_elem_of_here |]. by exists job.
           ++ split; [by apply list_elem_of_further |]. by exists job'.
        -- intros [[-> | Hk]%elem_of_cons (job' & Hj' & ? & ->)].
           ++ left. by assert (job' = job) as -> by congruence.
           ++ right. split; [done |]. by exists job'.
      * intros t k [[= -> ->] | Hin]%elem_of_cons; [| by apply Hcl]. by rewrite Hkeep.
      * intros t k Hk. apply not_elem_of_cons in Hk as [Hkj Hk]. rewrite Hkeep by done.
        apply claimable_alike; [done | by apply Hk1].
  - rewrite (run_sess_inr _ _ _ log d _ d Hp), run_bind. cbn [run].
    destruct (IH d log scheduled (skipped + 1)%Z) as (sent & d' & Hr & Hsent & Hcl & Hkeep);
      [done | done | done | .. ].
    + intros k Hk. apply Hjobs. by apply list_elem_of_further.
    + intros k Hk. apply Hdue. by apply list_elem_of_further.
    + exists sent, d'. rewrite Hr. split_and!; [| | done |].
      * do 4 f_equal; cbn [List.length]; lia.
      * intros t k. rewrite Hsent. split.
        -- intros [Hk ?]. split; [by apply list_elem_of_further | done].
        -- intros [[-> | Hk]%elem_of_cons (job' & Hj' & Hm' & ->)]; [congruence |].
           split; [done |]. by exists job'.
      * intros t k Hk. apply not_elem_of_cons in Hk as [_ Hk]. by apply Hkeep.
Qed.

(** C11: the retry scan recovers every job that needs it. With a broker that takes messages, one
    run of [retry_job_executions] sends exactly the due jobs whose resource still agrees with
    them, each with its own current task, counts them, and leaves each of them ready to be
    claimed by that task. *)
Theorem retry_scan_recovers settings now d :
  Sound d ->
  let stale_before := (now - job_stale_after_seconds settings)%Z in
  exists scheduled skipped sent d',
    run (fun R => broker now) (retry_job_executions settings) [] d
      = (inr (scheduled, skipped), sent, d') /\
    scheduled = Z.of_nat (List.length sent) /\
    (scheduled + skipped)%Z = Z.of_nat (List.length (retryable_jobs stale_before d)) /\
    (forall task j, (task, j) ∈ sent <-> exists job, jobs d !! j = Some job /\
       Due stale_before job /\ matched d j job = true /\ task = job_task_name job) /\
    (forall task j, (task, j) ∈ sent -> claimable d' j task = true).
Proof.
  intros Hd stale_before.
  destruct (retry_each_broker stale_before now d (retryable_jobs stale_before d) d [] 0 0)
    as (sent & d' & Hr & Hsent & Hc & _); [done | done | | done | |].
  { apply retryable_nodup. }
  { intros k Hk. by apply elem_of_retryable. }
  exists (Z.of_nat (List.length sent)), (Z.of_nat (List.length (retryable_jobs stale_before d))
                                         - Z.of_nat (List.length sent))%Z, sent, d'.
  split_and!; [| done | lia | | done].
  - change (run (fun R => broker now) (retry_job_executions settings) [] d)
      with (run (fun R => broker now) (retry_each stale_before (retryable_jobs stale_before d) 0 0) [] d).
    rewrite Hr. do 4 f_equal; lia.
  - intros task j. rewrite Hsent, elem_of_retryable. split.
    + intros [(job & Hj & Hdj) (job' & Hj' & ? & ->)]. assert (job' = job) as -> by congruence. eauto.
    + intros (job & Hj & Hdj & ? & ->). split; [eauto |]. eauto.
Qed.

Lemma retry_scan_recovers_witness :
  exists scheduled skipped sent d',
    run (fun R => broker 400) (retry_job_executions sample_settings) [] running_store
      = (inr (scheduled, skipped), sent, d') /\
    claimable running_store 11 INSTANCE_CREATE_STEP_01_TASK = false /\
    (forall task j, (task, j) ∈ sent -> claimable d' j task = true).
Proof.
  destruct (retry_scan_recovers sample_settings 400 running_store sound_running)
    as (a & b & sent & d' & H1 & _ & _ & _ & H2).
  exists a, b, sent, d'. split; [exact H1 |]. split; [vm_compute; reflexivity | exact H2].
Defined.
