(* ===== verification/StepProperties.v ===== *)
(** * StepProperties: how a step runs under its claim ([run_claimed_step] of
    tasks/common/execution.py) *)
From S2P Require Import Prelude Text Models Store Registry Crypto Execution Ownership Claims.
From S2P Require Import Jobs Databases Instances Config Program Coder Worker CoderService.
From S2P Require Import InstanceTasks InstanceTaskFacts Concrete ClaimProperties.

Lemma fail_noop c d : owned c d = None -> fail_execution c (mret tt) d = inr (tt, d).
Proof. intros Ho. unfold fail_execution, owned_execution, gets, mbind, action_bind. by rewrite Ho. Qed.

(** C14: a step either has nothing to do, or runs its body once and accounts for its outcome. When
    the job cannot be claimed the step asks for the time only, and ends with "noop" on the store
    as it was. Otherwise its body runs under a new claim: its result is the step's, and when it
    raises, the exception goes on after the failure is recorded, so that the job and its resource
    show the error and the same task may claim the job again; a claim that was lost meanwhile
    leaves the store as the body left it. *)
Theorem claimed_step_outcome {W} (handler : forall R, Query R -> W -> (Exn + R) * W) j task
    operation now w w0 d :
  Sound d ->
  (forall c, claim_task_name c = task -> claim_job_id c = j -> sound_prog (operation c)) ->
  handler _ Now w = (inr now, w0) ->
  if claimable d j task then
    exists c d1, claim_execution now j task d = inr (Some c, d1) /\
      let '(o, w2, d2) := run handler (operation c) w0 d1 in
      match o with
      | inr status => run handler (run_claimed_step j task operation) w d = (inr status, w2, d2)
      | inl e => exists d3,
          run handler (run_claimed_step j task operation) w d = (inl e, w2, d3) /\
          if decide (owned c d2 = None) then d3 = d2
          else claimable d3 j task = true /\
               exists job, jobs d3 !! j = Some job /\ job_status job = ERROR /\
                 forall x o, job_ref job = Some x -> owner d3 x = Some o -> own_status o = ERROR
      end
  else run handler (run_claimed_step j task operation) w d = (inr "noop"%string, w0, d).
Proof.
  intros Hd Hop Hnow.
  assert (Hstart : forall r d1, claim_execution now j task d = inr (r, d1) ->
    run handler (run_claimed_step j task operation) w d
    = run handler (match r with
                   | None => Done "noop"%string
                   | Some claim =>
                       catch (operation claim)
                         (fun e => sess (fail_execution claim (mret tt));; Fail e)
                   end) w0 d1).
  { intros r d1 Hr. unfold run_claimed_step. cbn. rewrite Hnow. cbn. unfold run_session. by rewrite Hr. }
  destruct (claimable d j task) eqn:Hc.
  2: { rewrite (Hstart None d); [done |]. by apply claim_refused. }
  pose proof Hc as Hc'. unfold claimable in Hc'.
  destruct (jobs d !! j) as [job|] eqn:Hj; [| done]. bool_hyps. subst task.
  pose proof (claim_granted_eq now j job d Hd Hj Hc) as Hgr.
  do 2 eexists. split; [exact Hgr |].
  destruct (claim_execution_keeps now j _ d _ _ Hd Hgr) as [Hd1 _].
  rewrite (Hstart _ _ Hgr), run_catch.
  match goal with |- context [run handler (operation ?c0) w0 ?s] => set (c := c0); set (d1 := s) in * end.
  pose proof (run_sound handler (operation c) w0 d1 (Hop c eq_refl eq_refl) Hd1) as Hd2.
  destruct (run handler (operation c) w0 d1) as [[[e | status] w2] d2]; [| done].
  cbn in Hd2. case_decide as Ho.
  - exists d2. split; [| done]. exact (run_sess_inr handler _ _ w2 d2 tt d2 (fail_noop c d2 Ho)).
  - destruct (owned c d2) as [job'|] eqn:Ho'; [| done].
    pose proof (fail_execution_commits c d2 job' Hd2 Ho') as Hf.
    eexists. split; [exact (run_sess_inr handler _ _ w2 d2 tt (released ERROR (claim_job_id c) job' d2) Hf) |].
    destruct (fail_execution_outcome c 0 d2 (released ERROR (claim_job_id c) job' d2) tt Hd2)
      as (_ & H2 & _ & H3); [congruence | exact Hf |].
    split; [exact H2 | exact H3].
Qed.

Lemma claimed_step_outcome_witness :
  exists c d1 d3,
    claim_execution 1 11 INSTANCE_CREATE_STEP_01_TASK created_store = inr (Some c, d1) /\
    run (fun R => obliging) (run_claimed_step 11 INSTANCE_CREATE_STEP_01_TASK
           (fun _ => Fail (RuntimeError "refused"))) 1 created_store
      = (inl (RuntimeError "refused"), 2, d3) /\
    claimable d3 11 INSTANCE_CREATE_STEP_01_TASK = true.
Proof.
  pose proof (claimed_step_outcome (fun R => obliging) 11 INSTANCE_CREATE_STEP_01_TASK
    (fun _ => Fail (RuntimeError "refused")) 1 1 2 created_store sound_created
    (fun _ _ _ => I) eq_refl) as Hp.
  assert (Hc : claimable created_store 11 INSTANCE_CREATE_STEP_01_TASK = true)
    by (vm_compute; reflexivity).
  rewrite Hc in Hp. destruct Hp as (c & d1 & H1 & d3 & H2 & H3). cbn in H3.
  assert (Ho : owned c d1 <> None).
  { assert (Hs : d1 = running_store)
      by (unfold running_store, after, run_session; rewrite H1; reflexivity).
    assert (He : match claim_execution 1 11 INSTANCE_CREATE_STEP_01_TASK created_store with
                 | inr (Some c', _) => c' | _ => running_claim end = running_claim)
      by (vm_compute; reflexivity).
    rewrite H1 in He. rewrite He, Hs, running_owned. discriminate. }
  exists c, d1, d3. rewrite decide_False in H3 by exact Ho.
  exact (conj H1 (conj H2 (proj1 H3))).
Defined.
