(* ===== verification/CryptoProperties.v ===== *)
(** * CryptoProperties: secrets at rest (crypto.py)

    The four ciphers as one, by the owner of the secret: what is encrypted for a row comes back for
    that row only. *)
From S2P Require Import Prelude Text Models Store Crypto Concrete.
From Stdlib Require Import Ascii String.

(** The bytes of a secret under the cipher of its owner; [nonce] is what [urandom] returned. *)
Definition encrypt_as `{AESGCM} (o : Owned) (key : cipher) (nonce : bytes) (secret : string)
    (id : uuid) : bytes :=
  match o with
  | OwnedPassword => PasswordCipher_encrypt key nonce secret id
  | OwnedKubeconfig => KubeconfigCipher_encrypt key nonce (str_encode secret) id
  | OwnedInstancePassword => InstancePasswordCipher_encrypt key nonce secret id
  | OwnedParameter => TemplateParameterCipher_encrypt key nonce secret id
  end.
Definition decrypt_as `{AESGCM} (o : Owned) (key : cipher) (envelope : bytes) (id : uuid)
    : Exn + bytes :=
  let encoded (r : Exn + string) := match r with inl e => inl e | inr s => inr (str_encode s) end in
  match o with
  | OwnedPassword => encoded (PasswordCipher_decrypt key envelope id)
  | OwnedKubeconfig => KubeconfigCipher_decrypt key envelope id
  | OwnedInstancePassword => encoded (InstancePasswordCipher_decrypt key envelope id)
  | OwnedParameter => encoded (TemplateParameterCipher_decrypt key envelope id)
  end.
Definition decryption_error (o : Owned) : Exn :=
  match o with
  | OwnedPassword => PasswordDecryptionError
  | OwnedKubeconfig => KubeconfigDecryptionError
  | OwnedInstancePassword => InstancePasswordDecryptionError
  | OwnedParameter => TemplateParameterDecryptionError
  end.

Section Secrets.
Context `{AESGCMLaws}.

Lemma encrypt_as_seal o key nonce s id :
  encrypt_as o key nonce s id = seal key nonce (str_encode s) (associated_data o id).
Proof. by destruct o. Qed.

Lemma decrypt_as_unseal o key envelope id p :
  unseal (decryption_error o) key envelope (associated_data o id) = inr p ->
  valid_utf8 p = true -> decrypt_as o key envelope id = inr p.
Proof.
  destruct o; cbn [decrypt_as associated_data decryption_error];
    unfold PasswordCipher_decrypt, KubeconfigCipher_decrypt, InstancePasswordCipher_decrypt,
      TemplateParameterCipher_decrypt, decode_or; intros -> Hp; [| done | |];
    unfold bytes_decode; rewrite Hp; unfold str_encode;
    by rewrite list_byte_of_string_of_list_byte.
Qed.

Lemma decrypt_as_fails o key envelope id :
  unseal (decryption_error o) key envelope (associated_data o id) = inl (decryption_error o) ->
  decrypt_as o key envelope id = inl (decryption_error o).
Proof.
  destruct o; cbn [decrypt_as associated_data decryption_error];
    unfold PasswordCipher_decrypt, KubeconfigCipher_decrypt, InstancePasswordCipher_decrypt,
      TemplateParameterCipher_decrypt, decode_or; by intros ->.
Qed.

(** C25: round trip: a secret that was encrypted for a row with some key is decrypted for that
    row with the key, for each of the four kinds of secret, whatever the nonce of 12 bytes. *)
Theorem secrets_roundtrip o key nonce secret id :
  List.length nonce = NONCE_LENGTH -> valid_utf8 (str_encode secret) = true ->
  decrypt_as o key (encrypt_as o key nonce secret id) id = inr (str_encode secret).
Proof.
  intros Hn Hs. rewrite encrypt_as_seal. apply decrypt_as_unseal; [| done]. by apply unseal_seal.
Qed.

(** C26: a secret is bound to its row: an envelope that is moved to another row, or taken for
    another kind of secret (though all four ciphers may share one key), is refused with the
    error of the kind that it is read as; so is an envelope that is too short to hold a nonce
    and a ciphertext, or that has another version. *)
Theorem secrets_are_bound o o' key nonce secret id id' envelope :
  List.length nonce = NONCE_LENGTH -> (id < 2 ^ 128)%N -> (id' < 2 ^ 128)%N ->
  (o, id) <> (o', id') ->
  decrypt_as o' key (encrypt_as o key nonce secret id) id' = inl (decryption_error o') /\
  ((List.length envelope <= 1 + NONCE_LENGTH) \/ head envelope <> Some ENVELOPE_VERSION ->
   decrypt_as o' key envelope id' = inl (decryption_error o')).
Proof.
  intros Hn Hi Hi' Hne. split; intros; apply decrypt_as_fails.
  - rewrite encrypt_as_seal. apply unseal_other; [done |]. intros E.
    apply associated_data_inj in E as [-> ->]; done.
  - unfold unseal. destruct (Nat.leb_spec (List.length envelope) (1 + NONCE_LENGTH)); [done |].
    destruct (decide (head envelope = Some ENVELOPE_VERSION)) as [E |].
    + exfalso. match goal with H : _ \/ _ |- _ => destruct H end; [lia | done].
    + by rewrite bool_decide_eq_false_2.
Qed.
End Secrets.

Lemma secrets_roundtrip_witness :
  decrypt_as OwnedPassword sample_cipher (encrypt_as OwnedPassword sample_cipher sample_nonce "pw"%string 7) 7
  = inr (str_encode "pw"%string).
Proof.
  apply (secrets_roundtrip OwnedPassword sample_cipher sample_nonce "pw"%string 7); reflexivity.
Defined.

Lemma secrets_are_bound_witness :
  decrypt_as OwnedKubeconfig sample_cipher
    (encrypt_as OwnedInstancePassword sample_cipher sample_nonce "pw"%string 7) 7
  = inl KubeconfigDecryptionError.
Proof.
  exact (proj1 (secrets_are_bound OwnedInstancePassword OwnedKubeconfig sample_cipher sample_nonce
    "pw"%string 7 7 [] eq_refl eq_refl eq_refl ltac:(discriminate))).
Defined.
