(* ===== verification/InstanceProperties.v ===== *)
(** * InstanceProperties: creation of instances, their slugs and their public names
    (repositories/instances.py, config.py, utils/instance_urls.py) *)
From S2P Require Import Prelude Text Models Store Registry Crypto Execution Ownership Claims.
From S2P Require Import Jobs Databases Utilization Instances Config Concrete.
From Stdlib Require Import Ascii String.
Open Scope string_scope.

(** ** Slugs *)
Lemma unused_slug_some fuel draw : forall n d slug,
  unused_slug fuel draw n d = Some slug ->
  exists k, n <= k < n + fuel /\ slug = draw k /\
    (forall i r, instances d !! i = Some r -> inst_slug r <> slug) /\
    forall m, n <= m < k -> exists i r, instances d !! i = Some r /\ inst_slug r = draw m.
Proof.
  induction fuel as [|fuel IH]; intros n d slug H; cbn in H; [done |].
  destruct (exists_where _ _) eqn:E.
  - destruct (IH (S n) d slug H) as (k & Hk & -> & Hno & Hm). exists k.
    split_and!; [lia | lia | done | done |]. intros m Hlt.
    destruct (decide (m = n)) as [-> |]; [| apply Hm; lia].
    apply exists_where_true in E as (i & r & Hi & Hr). exists i, r. by bool_hyps.
  - injection H as <-. exists n. split_and!; [lia | lia | done | | lia].
    intros i r Hi. rewrite exists_where_false in E. by apply E, bool_decide_eq_false in Hi.
Qed.

Lemma unused_slug_none fuel draw : forall n d,
  unused_slug fuel draw n d = None ->
  forall m, n <= m < n + fuel -> exists i r, instances d !! i = Some r /\ inst_slug r = draw m.
Proof.
  induction fuel as [|fuel IH]; intros n d H m Hm; [lia |]. cbn in H.
  destruct (exists_where _ _) eqn:E; [| done].
  destruct (decide (m = n)) as [-> |]; [| apply (IH (S n) d H); lia].
  apply exists_where_true in E as (i & r & Hi & Hr). exists i, r. by bool_hyps.
Qed.

(** the loop that draws a slug ends: among one more different slugs than there are instances,
    it meets one that no instance has, and it takes the first such slug. *)
Theorem slug_loop_terminates draw d :
  (forall a b, a <= size (instances d) -> b <= size (instances d) -> draw a = draw b -> a = b) ->
  exists k, k <= size (instances d) /\
    unused_slug (S (size (instances d))) draw 0 d = Some (draw k) /\
    (forall i r, instances d !! i = Some r -> inst_slug r <> draw k) /\
    forall m, m < k -> exists i r, instances d !! i = Some r /\ inst_slug r = draw m.
Proof.
  intros Hinj. destruct (unused_slug (S (size (instances d))) draw 0 d) as [slug|] eqn:E.
  - apply unused_slug_some in E as (k & Hk & -> & Hno & Hm). exists k.
    split_and!; [lia | done | done |]. intros m Hlt. apply Hm. lia.
  - pose proof (unused_slug_none _ _ _ _ E) as Hall. exfalso.
    set (n := S (size (instances d))) in *.
    set (used := map (fun kr => inst_slug kr.2) (map_to_list (instances d))).
    assert (Hnd : NoDup (map draw (seq 0 n))).
    { apply NoDup_fmap_2_strong; [| apply NoDup_seq]. intros a b Ha Hb.
      apply elem_of_seq in Ha, Hb. apply Hinj; lia. }
    assert (Hsub : map draw (seq 0 n) ⊆ used).
    { intros s (m & -> & Hm)%list_elem_of_fmap. apply elem_of_seq in Hm.
      destruct (Hall m) as (i & r & Hi & Hr); [lia |].
      apply list_elem_of_fmap. exists (i, r). split; [done |]. by apply elem_of_map_to_list. }
    pose proof (NoDup_submseteq _ _ Hnd Hsub) as Hlen. apply submseteq_length in Hlen.
    unfold used in Hlen. rewrite !length_map, length_seq, length_map_to_list in Hlen. lia.
Qed.

Lemma slug_loop_terminates_witness :
  let draw n := match n with 0 => "abcdefghijkl" | _ => "mnopqrstuvwx" end in
  unused_slug 2 draw 0 created_store = Some "mnopqrstuvwx".
Proof.
  cbv zeta.
  destruct (slug_loop_terminates (fun n => match n with 0 => "abcdefghijkl" | _ => "mnopqrstuvwx" end)
              created_store) as (k & Hk & H & Hno & _).
  { intros a b Ha Hb Hab. change (a <= 1) in Ha. change (b <= 1) in Hb.
    destruct a as [|[|]], b as [|[|]]; try lia; discriminate Hab. }
  change (S (size (instances created_store))) with 2 in H. rewrite H.
  destruct k as [|k]; [| reflexivity]. exfalso.
  destruct (instances created_store !! 10%N) as [r|] eqn:E; [| vm_compute in E; discriminate E].
  apply (Hno 10%N r E). vm_compute in E. injection E as <-. reflexivity.
Defined.

(** ** Public names *)
Lemma split_from_app sep cur l m :
  forallb (fun c => negb (Ascii.eqb c sep)) l = true ->
  split_from sep cur (l ++ sep :: m)%list = (reverse cur ++ l)%list :: split_from sep [] m.
Proof.
  revert cur. induction l as [|c l IH]; intros cur H; cbn in *.
  - by rewrite Ascii.eqb_refl, app_nil_r.
  - apply andb_true_iff in H as [Hc Hl]. apply negb_true_iff in Hc. rewrite Hc, IH by done.
    by rewrite reverse_cons, <- app_assoc.
Qed.

Lemma labels_dot s t :
  forallb (fun c => negb (Ascii.eqb c ".")) (chars s) = true ->
  labels (s ++ "." ++ t) = chars s :: labels t.
Proof.
  intros H. unfold labels, split. rewrite chars_app.
  change (chars ("." ++ t)) with ("."%char :: chars t). by rewrite split_from_app.
Qed.

Lemma slug_chars pick :
  chars (generate_instance_slug pick)
  = map (fun i => nth (pick i mod List.length INSTANCE_SLUG_ALPHABET) INSTANCE_SLUG_ALPHABET "a"%char)
      (seq 0 INSTANCE_SLUG_LENGTH).
Proof. unfold generate_instance_slug. apply list_ascii_of_string_of_list_ascii. Qed.

Lemma slug_char_label pick c :
  c ∈ chars (generate_instance_slug pick) -> label_char c = true.
Proof.
  rewrite slug_chars. intros (i & -> & _)%list_elem_of_fmap.
  assert (Hall : forallb label_char INSTANCE_SLUG_ALPHABET = true) by (vm_compute; reflexivity).
  rewrite forallb_forall in Hall. apply Hall, nth_In. apply Nat.mod_upper_bound. done.
Qed.

Lemma last_elem_of {A} (l : list A) x : last l = Some x -> x ∈ l.
Proof. intros (l' & ->)%last_Some. apply elem_of_app. right. apply list_elem_of_here. Qed.

Lemma label_of_chars l :
  (forall c, c ∈ l -> label_char c = true) -> 0 < List.length l <= 63 -> dns_label l = true.
Proof.
  intros Hl Hlen. destruct l as [|c l]; [cbn in Hlen; lia |]. cbn [dns_label].
  rewrite (Hl c) by apply list_elem_of_here. cbn [andb].
  destruct (last l) as [z|] eqn:E; [| done].
  rewrite !andb_true_iff. split_and!.
  - apply Hl, list_elem_of_further. by apply last_elem_of.
  - rewrite forallb_forall. intros x Hx. unfold label_inner. apply list_elem_of_In in Hx.
    rewrite (Hl x); [done |]. by apply list_elem_of_further.
  - apply Nat.leb_le. cbn in Hlen. lia.
Qed.

Lemma from_settings_valid settings base :
  from_settings settings = inr base -> dns_name base = true /\ py_len base <= 240.
Proof.
  unfold from_settings, require_instance_base_domain. intros Hb.
  destruct (instance_base_domain settings); [| done]. repeat case_match; try done.
  injection Hb as <-. bool_hyps. split; [done |].
  match goal with H : Nat.ltb _ _ = false |- _ => by apply Nat.ltb_ge in H end.
Qed.

(** the host of every instance is a valid DNS name. Whatever characters are drawn, a slug has
    12 lower-case letters and digits, so it is a DNS label; under a base domain that the settings
    accept, the instance's host is a DNS name of at most 253 characters, and the public URL is
    the HTTPS URL of that host. *)
Theorem instance_hosts_are_dns_names settings base pick :
  from_settings settings = inr base ->
  let slug := generate_instance_slug pick in
  let host := slug ++ "." ++ base in
  py_len slug = 12 /\ dns_label (chars slug) = true /\
  dns_name host = true /\ py_len host <= 253 /\ url_for base slug = "https://" ++ host.
Proof.
  intros Hb slug host.
  assert (Hlen : List.length (chars slug) = 12).
  { subst slug. by rewrite slug_chars, length_map, length_seq. }
  assert (Hlabel : dns_label (chars slug) = true).
  { apply label_of_chars; [apply slug_char_label | lia]. }
  assert (Hpy : py_len slug = 12).
  { unfold py_len. rewrite <- Hlen. f_equal. apply List.forallb_filter_id.
    apply forallb_forall. intros c Hc. apply list_elem_of_In, slug_char_label in Hc.
    unfold label_char, in_range in *. bool_hyps.
    match goal with H : _ \/ _ |- _ => destruct H end; bool_hyps;
      apply negb_true_iff, andb_false_iff; left; apply N.leb_gt;
      match goal with H : (_ <=? 122)%N = true |- _ => apply N.leb_le in H
                    | H : (_ <=? 57)%N = true |- _ => apply N.leb_le in H end; lia. }
  destruct (from_settings_valid _ _ Hb) as [Hname Hshort].
  split_and!; [done | done | | | done].
  - unfold dns_name in *. subst host. rewrite labels_dot.
    + cbn [forallb List.length]. rewrite Hlabel. bool_hyps.
      apply andb_true_iff; split; [done |]. apply Nat.leb_le.
      match goal with H : Nat.leb 2 _ = true |- _ => apply Nat.leb_le in H; lia end.
    + apply forallb_forall. intros c Hc. apply list_elem_of_In, slug_char_label in Hc.
      destruct (Ascii.eqb_spec c "."%char) as [-> |]; [by vm_compute in Hc | done].
  - subst host. rewrite !py_len_app, Hpy. change (py_len ".") with 1. lia.
Qed.

Lemma instance_hosts_are_dns_names_witness :
  from_settings sample_settings = inr "apps.example.com" /\
  dns_name (generate_instance_slug (fun i => i) ++ "." ++ "apps.example.com") = true.
Proof.
  assert (Hb : from_settings sample_settings = inr "apps.example.com") by (vm_compute; reflexivity).
  split; [exact Hb |].
  exact (proj1 (proj2 (proj2 (instance_hosts_are_dns_names sample_settings "apps.example.com"
    (fun i => i) Hb)))).
Defined.

(** ** Creation *)
Ltac session_inv_step ::=
  match goal with
  | H : commit _ = inr _ |- _ => apply commit_inr in H; destruct H as [-> ?]
  | H : commit_or _ _ = inr _ |- _ => apply commit_or_inr in H; destruct H as [-> ?]
  | H : add_job_execution _ _ _ _ _ _ _ _ _ = inr _ |- _ =>
      apply add_job_execution_inr in H; destruct H as [? ->]
  | _ => action_inv_step
  end.

(** The database [k] has room, and no database that has room comes before it in the order of the
    occupied share, then of the lower-case name, then of the identifier. *)
Definition LeastUtilised (d : Store) (k : uuid) (b : Database) : Prop :=
  databases d !! k = Some b /\ (allocation_count d k < base_instance_max b)%Z /\
  forall k' b', databases d !! k' = Some b' -> (allocation_count d k' < base_instance_max b')%Z ->
    key_ltb (database_key d (k', b')) (database_key d (k, b)) = false.

Lemma instance_create_full now i job_id alloc fuel draw application d :
  choose_database d = None ->
  instance_create now i job_id alloc fuel draw application d = inl InstanceDatabaseUnavailableError.
Proof. intros Hn. unfold instance_create, gets, found, throw, mbind, action_bind. by rewrite Hn. Qed.

(** C24: creation places the instance well. A creation that commits has found a least utilised
    database with room and the first drawn slug that is free; it inserts the instance, stopped and
    waiting for its first step under a new pending job, and its allocation with a schema named
    after the instance, and nothing else: the database's count grows by one and no other count
    changes. It is refused for want of a database exactly when every database is full. *)
Theorem instance_create_places_well now i job_id alloc fuel draw application d :
  (forall r d', instance_create now i job_id alloc fuel draw application d = inr (r, d') ->
     exists k b n, LeastUtilised d k b /\ n < fuel /\
       (forall i' r', instances d !! i' = Some r' -> inst_slug r' <> draw n) /\
       (forall m, m < n -> exists i' r', instances d !! i' = Some r' /\ inst_slug r' = draw m) /\
       r = mkInstance application (draw n) "creating" PENDING STOPPED None None None (Some job_id)
             (Some INSTANCE_CREATE_STEP_01) /\
       d' = d <| instances := <[i := r]> (instances d) |>
              <| allocations := <[alloc := mkAllocation k i ("coder_" ++ uuid_hex i)]> (allocations d) |>
              <| jobs := <[job_id := new_job now "instance.create" INSTANCE_CREATE_STEP_01_TASK
                             (Some "instance") (Some i) INSTANCE_CREATE_STEP_01]> (jobs d) |> /\
       allocation_count d' k = (allocation_count d k + 1)%Z /\
       forall k', k' <> k -> allocation_count d' k' = allocation_count d k') /\
  (instance_create now i job_id alloc fuel draw application d = inl InstanceDatabaseUnavailableError <->
   forall k b, databases d !! k = Some b -> (base_instance_max b <= allocation_count d k)%Z).
Proof.
  split.
  - intros r d' H. unfold instance_create, stored_instance in H. session_inv. bool_hyps.
    match goal with H : choose_database d = Some ?p |- _ => destruct p as [k b];
      apply choose_database_spec in H as (Hb & Hlt & Hleast) end.
    match goal with H : unused_slug _ _ _ _ = Some _ |- _ =>
      apply unused_slug_some in H as (n & Hn & -> & Hfree & Hfirst) end.
    match goal with H : _ !! i = Some r |- _ => cbn -[lookup insert] in H;
      rewrite lookup_insert_eq in H; injection H as <- end.
    exists k, b, n. split_and!; try done; [lia | | |].
    + intros m Hm. apply Hfirst. lia.
    + unfold allocation_count; cbn. rewrite count_where_insert by done. cbn.
      rewrite bool_decide_eq_true_2 by done. lia.
    + intros k' Hk. unfold allocation_count; cbn. rewrite count_where_insert by done. cbn.
      rewrite bool_decide_eq_false_2 by done. lia.
  - rewrite <- choose_database_none. split; [| apply instance_create_full].
    intros H. destruct (choose_database d) eqn:E; [| done]. exfalso. revert H.
    unfold instance_create, add_job_execution, stored_instance, gets, found, require, modify,
      commit_or, throw, mbind, action_bind, mret, action_ret. rewrite E.
    repeat case_match; congruence.
Qed.
