(* ===== verification/PublicUrls.v ===== *)
(** * PublicUrls: the host in the public URL of an instance

    The Helm values of an instance name its host, which the source reads back from the public URL:
    it is the host that the URL was made of. *)
From S2P Require Import Prelude Text Models Store Instances Members Config Schemas Program Coder.
From S2P Require Import Worker Replace Json ArgoCd Concrete InstanceProperties.
From Stdlib Require Import Ascii String.
Open Scope string_scope.

(** The characters of a host: lower-case letters, digits, hyphens and dots. *)
Definition host_char (c : ascii) : bool := label_inner c || Ascii.eqb c ".".

Lemma split_from_elem sep cur l c :
  c ∈ (cur ++ l)%list -> c = sep \/ exists p, p ∈ split_from sep cur l /\ c ∈ p.
Proof.
  revert cur. induction l as [|x l IH]; cbn; intros cur Hc.
  - right. exists (reverse cur). rewrite app_nil_r in Hc. split; [constructor |].
    by rewrite elem_of_reverse.
  - destruct (Ascii.eqb_spec x sep) as [-> | Hx].
    + apply elem_of_app in Hc as [Hc | Hc].
      * right. exists (reverse cur). split; [constructor | by rewrite elem_of_reverse].
      * apply elem_of_cons in Hc as [-> | Hc]; [by left |].
        destruct (IH [] Hc) as [? | (p & Hp & ?)]; [by left |].
        right. exists p. split; [by constructor | done].
    + apply IH. set_solver.
Qed.

Lemma dns_label_chars l c : dns_label l = true -> c ∈ l -> label_inner c = true.
Proof.
  destruct l as [|x l]; cbn [dns_label]; [done |]. intros [Hx Hl]%andb_true_iff Hc.
  apply elem_of_cons in Hc as [-> | Hc]; [unfold label_inner; by rewrite Hx |].
  destruct (last l) as [z |] eqn:E.
  - apply andb_true_iff in Hl as [[_ Hl]%andb_true_iff _]. rewrite forallb_forall in Hl.
    by apply Hl, list_elem_of_In.
  - apply last_None in E. subst. set_solver.
Qed.

Lemma dns_name_chars s : dns_name s = true -> forallb host_char (chars s) = true.
Proof.
  unfold dns_name. intros [H _]%andb_true_iff. apply forallb_forall. intros c Hc.
  apply list_elem_of_In in Hc. unfold host_char.
  destruct (split_from_elem "." [] (chars s) c Hc) as [-> | (p & Hp & Hcp)].
  - by rewrite Ascii.eqb_refl, orb_true_r.
  - rewrite forallb_forall in H. apply list_elem_of_In, H in Hp.
    by rewrite (dns_label_chars p c).
Qed.

(** What holds of every character of a class follows from a finite check. *)
Lemma implies_forallb (q p : ascii -> bool) l :
  forallb (fun c => negb (q c) || p c) (map ascii_of_nat (seq 0 256)) = true ->
  forallb q l = true -> forallb p l = true.
Proof.
  intros Hp Hl. rewrite forallb_forall in Hl |- *. intros c Hc.
  pose proof (ascii_all _ Hp c) as H. cbn in H. by rewrite (Hl c Hc) in H.
Qed.
Lemma host_chars_all (p : ascii -> bool) l :
  forallb (fun c => negb (host_char c) || p c) (map ascii_of_nat (seq 0 256)) = true ->
  forallb host_char l = true -> forallb p l = true.
Proof. apply implies_forallb. Qed.

Lemma partition_none p l :
  forallb (fun c => negb (p c)) l = true -> partition_at p l = (l, None).
Proof.
  induction l as [|c l IH]; cbn; [done |]. intros [Hc Hl]%andb_true_iff.
  apply negb_true_iff in Hc. by rewrite Hc, IH.
Qed.
Lemma before_none p l : forallb (fun c => negb (p c)) l = true -> before p l = l.
Proof. intros H. unfold before. by rewrite partition_none. Qed.
Lemma rpartition_none p l :
  forallb (fun c => negb (p c)) l = true -> rpartition_at p l = (None, l).
Proof.
  intros H. unfold rpartition_at. rewrite partition_none; cbn; [by rewrite reverse_involutive |].
  rewrite forallb_forall in H |- *. intros c Hc. apply H.
  apply list_elem_of_In. apply list_elem_of_In in Hc. by apply elem_of_reverse.
Qed.
Lemma filter_all {A} (p : A -> bool) l : forallb p l = true -> List.filter p l = l.
Proof. apply List.forallb_filter_id. Qed.

Lemma lower_host l : forallb host_char l = true -> map char_lower l = l.
Proof.
  intros H. apply (host_chars_all (fun c => Ascii.eqb (char_lower c) c)) in H; [| by vm_compute].
  induction l as [|c l IH]; cbn in *; [done |]. apply andb_true_iff in H as [Hc Hl].
  apply Ascii.eqb_eq in Hc. by rewrite Hc, IH.
Qed.

Lemma split_netloc_host l :
  forallb host_char l = true -> split_netloc ("/"%char :: "/"%char :: l) = (l, []).
Proof.
  intros Hl. unfold split_netloc.
  change (Ascii.eqb "/" "/" && Ascii.eqb "/" "/") with true. cbv beta iota zeta.
  rewrite before_none; [by rewrite drop_all |]. revert Hl. apply host_chars_all. by vm_compute.
Qed.

Lemma urlsplit_https netloc_ok host :
  forallb host_char (chars host) = true -> netloc_ok (chars host) = true ->
  urlsplit netloc_ok ("https://" ++ host) = Some (mkSplit "https" (chars host) []).
Proof.
  intros Hh Hn. unfold urlsplit. rewrite chars_app.
  assert (Hclean : List.filter (fun c => negb (member c [ascii_of_N 9; CR; LF])) (chars host)
                   = chars host).
  { apply filter_all. revert Hh. apply host_chars_all. by vm_compute. }
  change (drop_while _ (chars "https://" ++ chars host)%list) with (chars "https://" ++ chars host)%list.
  rewrite List.filter_app, Hclean.
  change (List.filter _ (chars "https://")) with (chars "https://").
  change (split_scheme (chars "https://" ++ chars host)%list)
    with ("https", chars "//" ++ chars host)%list.
  cbv beta iota zeta. change (chars "//" ++ chars host)%list with ("/" :: "/" :: chars host)%char%list.
  rewrite split_netloc_host by done. cbv beta iota zeta. by rewrite Hn.
Qed.

(** The host of a URL of the deployment is read back. *)
Lemma base_domain_of_url netloc_ok values host :
  helm_public_url values = "https://" ++ host -> host <> "" ->
  forallb host_char (chars host) = true -> netloc_ok (chars host) = true ->
  helm_base_domain netloc_ok values = inr host.
Proof.
  intros Hu He Hh Hn. unfold helm_base_domain. rewrite Hu, urlsplit_https by done.
  unfold hostname. cbn [netloc].
  rewrite rpartition_none by (revert Hh; apply host_chars_all; by vm_compute).
  cbn [fst snd]. rewrite partition_none by (revert Hh; apply host_chars_all; by vm_compute).
  rewrite before_none by (revert Hh; apply host_chars_all; by vm_compute).
  rewrite bool_decide_eq_false_2 by (by destruct host).
  unfold str_lower. by rewrite chars_unchars, lower_host, unchars_chars.
Qed.

Lemma instance_host_chars settings base pick :
  from_settings settings = inr base ->
  let host := generate_instance_slug pick ++ "." ++ base in
  forallb host_char (chars host) = true /\ host <> "".
Proof.
  intros Hb host. subst host. split; [| by rewrite <- (unchars_chars (_ ++ _)), chars_app, slug_chars].
  rewrite !chars_app, !forallb_app. apply andb_true_iff; split; [| apply andb_true_iff; split; [done |]].
  - apply forallb_forall. intros c Hc. apply list_elem_of_In, slug_char_label in Hc.
    unfold host_char, label_inner. by rewrite Hc.
  - apply from_settings_valid in Hb as [Hb _]. by apply dns_name_chars.
Qed.
