(* ===== verification/ArgoCdPayloads.v ===== *)
(** * ArgoCdPayloads: the documents that are sent to Argo CD

    The Helm arguments can be read back: one line per argument, and one value per assignment. An
    update keeps what is not managed here. The names of Applications are DNS labels. *)
From S2P Require Import Prelude Text Models Store Instances Members Config Schemas Program Coder.
From S2P Require Import Worker Replace Json ArgoCd Concrete InstanceProperties PublicUrls.
From Stdlib Require Import Ascii String.
Open Scope string_scope.

(** ** How Helm reads the value of [--set name=value]: commas separate values, and a backslash takes
    the next character literally. *)
Fixpoint helm_values_from (current : list ascii) (l : list ascii) : list (list ascii) :=
  match l with
  | [] => [reverse current]
  | c :: l' =>
      if Ascii.eqb c "\" then
        match l' with
        | [] => [reverse current]
        | c' :: l'' => helm_values_from (c' :: current) l''
        end
      else if Ascii.eqb c "," then reverse current :: helm_values_from [] l'
      else helm_values_from (c :: current) l'
  end.
Definition helm_read (text : string) : list string := map unchars (helm_values_from [] (chars text)).

Definition escape (c : ascii) : list ascii :=
  if Ascii.eqb c "\" then chars "\\" else if Ascii.eqb c "," then chars "\," else [c].
Lemma escaped_chars s : chars (escaped s) = List.concat (map escape (chars s)).
Proof.
  unfold escaped. rewrite !str_replace_char.
  induction (chars s) as [|c l IH]; [done |]. cbn [map List.concat]. rewrite map_app, concat_app, IH.
  f_equal. unfold escape. destruct (Ascii.eqb_spec c "\"%char) as [-> | ?]; [done |]. cbn.
  by destruct (Ascii.eqb c ",").
Qed.

Lemma helm_values_escape cur l :
  helm_values_from cur (List.concat (map escape l)) = [(reverse cur ++ l)%list].
Proof.
  revert cur. induction l as [|c l IH]; intros cur; cbn [map List.concat].
  - by rewrite app_nil_r.
  - unfold escape at 1. destruct (Ascii.eqb c "\") eqn:E1; [| destruct (Ascii.eqb c ",") eqn:E2].
    + apply Ascii.eqb_eq in E1 as ->. cbn -[reverse]. rewrite IH, reverse_cons, <- app_assoc. done.
    + apply Ascii.eqb_eq in E2 as ->. cbn -[reverse]. rewrite IH, reverse_cons, <- app_assoc. done.
    + cbn -[reverse]. rewrite E1, E2, IH, reverse_cons, <- app_assoc. done.
Qed.

Lemma helm_read_escaped value : helm_read (escaped value) = [value].
Proof.
  unfold helm_read. rewrite escaped_chars, helm_values_escape. cbn. by rewrite unchars_chars.
Qed.

(** ** Lines *)
Definition single_line (s : string) : bool := negb (contains LF s).

Lemma contains_app c s t : contains c (s ++ t) = contains c s || contains c t.
Proof. unfold contains. by rewrite chars_app, existsb_app. Qed.
Lemma contains_cons c x s : contains c (String x s) = Ascii.eqb c x || contains c s.
Proof. done. Qed.
Lemma contains_escaped c value :
  c <> "\"%char -> contains c (escaped value) = contains c value.
Proof.
  intros Hc. unfold contains. rewrite escaped_chars.
  induction (chars value) as [|x l IH]; [done |]. cbn [map List.concat existsb].
  rewrite existsb_app, IH. f_equal. unfold escape.
  destruct (Ascii.eqb_spec x "\"%char) as [-> | ?]; [| destruct (Ascii.eqb_spec x ","%char) as [-> | ?]];
    cbn; rewrite ?orb_false_r; [| | done].
  - by rewrite orb_diag.
  - by rewrite (proj2 (Ascii.eqb_neq c "\"%char)).
Qed.

Lemma split_lines_from (lines : list string) :
  Forall (fun s => single_line s = true) lines ->
  split LF (join (String LF "") lines ++ String LF "")
  = match lines with [] => [[]; []] | _ => (map (fun s => chars s) lines ++ [[]])%list end.
Proof.
  unfold split. intros H. induction H as [|s lines Hs Hl IH]; [done |].
  assert (Hc : forallb (fun c => negb (Ascii.eqb c LF)) (chars s) = true).
  { unfold single_line, contains in Hs. apply negb_true_iff in Hs. apply forallb_forall.
    intros c Hc. apply negb_true_iff, Ascii.eqb_neq. intros ->.
    rewrite (proj2 (existsb_exists _ _)) in Hs; [done |]. exists LF. split; [done | apply Ascii.eqb_refl]. }
  destruct lines as [|s' lines].
  - cbn [join String.concat]. rewrite chars_app. change (chars (String LF "")) with [LF].
    by rewrite split_from_app.
  - change (join (String LF "") (s :: s' :: lines))
      with (s ++ String LF "" ++ join (String LF "") (s' :: lines)).
    rewrite !chars_app. change (chars (String LF "")) with [LF] in *. rewrite <- app_assoc.
    cbn [app]. rewrite split_from_app by done.
    rewrite chars_app in IH. cbn [app] in IH. change (chars (String LF "")) with [LF] in IH.
    exact (f_equal (cons (chars s)) IH).
Qed.

(** ** The arguments of an instance *)
Definition assignment_line (line : string) (scalar : string * (Exn + string)) : Prop :=
  exists value text,
    scalar.2 = inr value /\ line = "--set " ++ scalar.1 ++ "=" ++ text /\ helm_read text = [value].

Definition named_on_one_line (scalar : string * (Exn + string)) : Prop :=
  single_line scalar.1 = true.

Lemma scalar_argument_line name value line :
  single_line name = true -> _helm_scalar_argument name value = inr line ->
  single_line line = true /\ line = "--set " ++ name ++ "=" ++ escaped value.
Proof.
  unfold _helm_scalar_argument, single_line. intros Hn H.
  destruct (contains CR value || contains LF value) eqn:E; [done |]. injection H as <-.
  bool_hyps. split; [| done]. rewrite !contains_app, contains_escaped by done.
  repeat match goal with Hx : contains LF _ = false |- _ => rewrite Hx; clear Hx end. done.
Qed.

Lemma scalar_lines_read scalars lines :
  Forall named_on_one_line scalars -> scalar_lines scalars = inr lines ->
  Forall (fun s => single_line s = true) lines /\ Forall2 assignment_line lines scalars.
Proof.
  revert lines. induction scalars as [|[name [e | value]] rest IH]; cbn; intros lines Hs H.
  - injection H as <-. by split.
  - done.
  - apply Forall_cons in Hs as [Hn Hs].
    destruct (_helm_scalar_argument name value) as [e | line] eqn:El; cbn in H; [done |].
    destruct (scalar_lines rest) as [e | lines'] eqn:Er; cbn in H; [done |]. injection H as <-.
    destruct (IH lines' Hs eq_refl) as [IH1 IH2]. apply scalar_argument_line in El as [H1 ->]; [| done].
    split; constructor; try done. exists value, (escaped value). split_and!; [done.. |].
    apply helm_read_escaped.
Qed.

Lemma helm_scalars_named config members values base :
  Forall named_on_one_line (helm_scalars config members values base).
Proof.
  unfold helm_scalars. destruct (_member_values _ _) as [users admins].
  destruct (helm_kubeconfig values); cbn [app]; repeat constructor.
Qed.

(** ** The settings *)
Lemma strip_by_elem {A} (p : A -> bool) l x : x ∈ strip_by p l -> x ∈ l.
Proof.
  assert (H : forall l', x ∈ drop_while p l' -> x ∈ l').
  { intros l'. destruct (drop_while_suffix p l') as [k Hk]. rewrite Hk at 2. set_solver. }
  unfold strip_by. rewrite elem_of_reverse. intros Hx%H. rewrite elem_of_reverse in Hx. by apply H.
Qed.
Lemma contains_elem c s : contains c s = true <-> c ∈ chars s.
Proof.
  unfold contains. rewrite existsb_exists. split.
  - intros (x & Hx & ->%Ascii.eqb_eq). by apply list_elem_of_In.
  - intros H. exists c. split; [by apply list_elem_of_In | apply Ascii.eqb_refl].
Qed.
Lemma single_line_strip s : single_line s = true -> single_line (str_strip s) = true.
Proof.
  unfold single_line. rewrite !negb_true_iff. intros H. apply not_true_iff_false.
  rewrite contains_elem. unfold str_strip. rewrite chars_unchars. intros Hx%strip_by_elem.
  apply contains_elem in Hx. congruence.
Qed.

Lemma additional_values_single_line settings config additional :
  deployment_from_settings settings = inr config -> cfg_additional_values config = Some additional ->
  single_line additional = true.
Proof.
  unfold deployment_from_settings. cbv zeta. intros H Ha. except_inv H.
  injection H as <-. cbn in Ha. subst.
  match goal with H : _optional_single_line_value ?v _ = _ |- _ => destruct v as [value |] end.
  2:{ done. }
  match goal with H : _optional_single_line_value _ _ = _ |- _ =>
    unfold _optional_single_line_value in H end.
  destruct (contains CR value || contains LF value) eqn:E; [done |]. bool_hyps.
  destruct (str_strip value == "") eqn:Es; [done |].
  match goal with H : inr _ = inr _ |- _ => injection H as <- end.
  apply single_line_strip. unfold single_line. by apply negb_true_iff.
Qed.


(** ** Updates *)
Definition MANAGED_LABELS : list string := [INSTANCE_ID_LABEL; REGION_LABEL; DOMAIN_LABEL; TIER_LABEL].
Definition RETIRED_LABELS : list string := ["coder-manager/managed"; "environment"].

(** An update replaces the specification and the labels of this deployment and keeps all else:
    of an existing Application with metadata, every field of the metadata but the name and the
    labels is kept, every label but the four managed and the two retired ones is kept, and the
    managed labels and the specification are those of the new payload. An Application without
    metadata is refused. *)
Theorem update_keeps_foreign_fields config name i arguments existing :
  let desired := application_document config name i arguments in
  match get_object "metadata" existing with
  | None => exists message, application_update_payload existing desired = inl (ArgoCdRequestError message)
  | Some metadata =>
      exists updated metadata' labels',
        application_update_payload existing desired = inr updated /\
        dict_get "spec" updated = dict_get "spec" desired /\
        dict_get "metadata" updated = Some (JObject metadata') /\
        dict_get "name" metadata' = Some (JString name) /\
        dict_get "labels" metadata' = Some (JObject labels') /\
        (forall key, key <> "name" -> key <> "labels" -> dict_get key metadata' = dict_get key metadata) /\
        (forall key, key ∉ MANAGED_LABELS -> key ∉ RETIRED_LABELS ->
           dict_get key labels' = dict_get key (object_or_empty (get_object "labels" metadata))) /\
        (forall key, key ∈ RETIRED_LABELS -> dict_get key labels' = None) /\
        dict_get INSTANCE_ID_LABEL labels' = Some (JString (uuid_str i)) /\
        dict_get REGION_LABEL labels' = Some (JString (cfg_region config))
  end.
Proof.
  intros desired. unfold application_update_payload.
  destruct (get_object "metadata" existing) as [metadata |]; [| by eexists].
  set (labels := dict_pop _ _). subst desired. cbn [application_document get_object dict_get].
  eexists _, _, _. do 3 (split; [reflexivity |]).
  split; [by rewrite dict_get_set |]. split; [by rewrite !dict_get_set |].
  split; [intros key Hn Hl; rewrite !dict_get_set, !bool_decide_eq_false_2 by done; done |].
  assert (Hnodup : NoDup MANAGED_LABELS) by (apply (bool_decide_eq_true_1 _); by vm_compute).
  assert (Hl : forall key, dict_get key labels
    = if bool_decide (key ∈ RETIRED_LABELS) then None
      else dict_get key (object_or_empty (get_object "labels" metadata))).
  { intros key. subst labels. rewrite !dict_get_pop. unfold RETIRED_LABELS.
    repeat case_bool_decide; subst; set_solver. }
  split_and!; intros; rewrite dict_get_update by done; try done.
  - destruct (dict_get key _) eqn:E; [| rewrite Hl, bool_decide_eq_false_2; done].
    exfalso. cbn in E. repeat case_bool_decide; subst; set_solver.
  - destruct (dict_get key _) eqn:E; [| rewrite Hl, bool_decide_eq_true_2; done].
    exfalso. unfold RETIRED_LABELS in *. set_solver.
Qed.

(** ** Names *)
Lemma client_prefix settings config :
  client_from_settings settings = inr config ->
  APPLICATION_NAME_PATTERN (cfg_application_prefix config) = true /\
  py_len (cfg_application_prefix config) <= 50.
Proof.
  unfold client_from_settings. cbv zeta. intros H. except_inv H. injection H as <-. cbn.
  match goal with H : _application_prefix _ _ = _ |- _ => unfold _application_prefix in H end.
  cbv zeta in *. case_match; [done |].
  match goal with H : inr _ = inr _ |- _ => injection H as <- end. bool_hyps. split; [done |].
  match goal with H : Nat.ltb _ _ = false |- _ => by apply Nat.ltb_ge in H end.
Qed.

Lemma name_pattern_chars s :
  APPLICATION_NAME_PATTERN s = true -> forallb label_inner (chars s) = true /\ s <> "" /\
  forall c l, chars s = c :: l -> label_char c = true.
Proof.
  unfold APPLICATION_NAME_PATTERN. intros H. split_and!.
  - destruct (chars s) as [|c l]; [done |]. apply andb_true_iff in H as [Hc Hl].
    cbn [forallb]. unfold label_inner at 1. rewrite Hc. cbn.
    destruct (last l) eqn:E; [by apply andb_true_iff in Hl as [_ Hl] |].
    apply last_None in E. by subst.
  - by intros ->.
  - intros c l E. rewrite E in H. by apply andb_true_iff in H as [Hc _].
Qed.

Lemma name_pattern_intro c l z :
  label_char c = true -> forallb label_inner l = true -> last l = Some z -> label_char z = true ->
  APPLICATION_NAME_PATTERN (unchars (c :: l)) = true.
Proof.
  intros Hc Hl Hz Hz'. unfold APPLICATION_NAME_PATTERN. rewrite chars_unchars, Hc, Hz. cbn.
  by rewrite Hz'.
Qed.

Lemma generated_slug pick :
  py_len (generate_instance_slug pick) = 12 /\
  forallb label_char (chars (generate_instance_slug pick)) = true /\
  List.length (chars (generate_instance_slug pick)) = 12.
Proof.
  assert (H : forallb label_char (chars (generate_instance_slug pick)) = true).
  { apply forallb_forall. intros c Hc. eapply slug_char_label, list_elem_of_In, Hc. }
  assert (Hlen : List.length (chars (generate_instance_slug pick)) = 12).
  { by rewrite slug_chars, length_map, length_seq. }
  split_and!; [| done..]. unfold py_len. rewrite filter_all; [done |].
  revert H. apply (implies_forallb label_char). by vm_compute.
Qed.

(** The name that an Application gets is a DNS label. Under every configuration that the
    settings give, the prefix, a hyphen and a slug make a name of at most 63 characters that
    matches the pattern of Application names; and different slugs make different names. *)
Theorem application_names_are_dns_labels settings config pick attached :
  client_from_settings settings = inr config ->
  attached = None \/ attached = Some "" ->
  let name := name_of_application config (generate_instance_slug pick) attached in
  APPLICATION_NAME_PATTERN name = true /\ py_len name <= 63 /\
  forall slug, name_of_application config slug attached = name -> slug = generate_instance_slug pick.
Proof.
  intros [Hp Hlen]%client_prefix Ha name.
  assert (En : forall slug, name_of_application config slug attached
                            = cfg_application_prefix config ++ "-" ++ slug).
  { intros slug. by destruct Ha as [-> | ->]. }
  destruct (generated_slug pick) as (Hpy & Hslug & Hlen').
  subst name. rewrite En. split_and!.
  - apply name_pattern_chars in Hp as (Hinner & Hne & Hfirst).
    rewrite <- (unchars_chars (_ ++ _)), !chars_app.
    destruct (chars (cfg_application_prefix config)) as [|c l] eqn:Ec.
    { exfalso. apply Hne. rewrite <- (unchars_chars (cfg_application_prefix config)). by rewrite Ec. }
    destruct (last (chars (generate_instance_slug pick))) as [z |] eqn:Ez.
    2:{ apply last_None in Ez. by rewrite Ez in Hlen'. }
    apply (name_pattern_intro _ _ z).
    + by eapply Hfirst.
    + change (forallb label_inner (c :: l)) with (label_inner c && forallb label_inner l) in Hinner.
      apply andb_true_iff in Hinner as [_ Hl]. rewrite !forallb_app, Hl.
      revert Hslug. apply (implies_forallb label_char). by vm_compute.
    + apply last_app_Some. left.
      change (last ("-"%char :: chars (generate_instance_slug pick)) = Some z).
      by rewrite last_cons, Ez.
    + rewrite forallb_forall in Hslug. by apply Hslug, list_elem_of_In, last_elem_of.
  - rewrite !py_len_app, Hpy. change (py_len "-") with 1. lia.
  - intros slug H. rewrite En in H. apply (f_equal chars) in H. rewrite !chars_app in H.
    apply app_inv_head, (app_inv_head (chars "-")) in H. rewrite <- (unchars_chars slug), H.
    apply unchars_chars.
Qed.

(** ** Concrete inputs: a database host with a comma, and the sample settings *)
Definition sample_argocd : ArgoCdConfig :=
  match deployment_from_settings sample_settings with
  | inr config => config
  | inl _ => mkArgoCdConfig (mkClientConfig "" "" false "" "") "" "" "" "" "" None
               (mkCyberArk "" "" "" "") []
  end.
Definition sample_values : InstanceHelmValues :=
  mkHelmValues "abcdefghijkl" "https://abcdefghijkl.apps.example.com" "user" "secret" "db,1" "coder"
    "main" "coder_1" (Some [Byte.x01]).
Definition sample_document : list (string * json) :=
  match application_payload (fun _ => true) sample_argocd "cm-abcdefghijkl" 10
          [("eve", USER); ("bob", ADMIN)] sample_values with
  | inr document => document
  | inl _ => []
  end.

Lemma sample_argocd_ok : deployment_from_settings sample_settings = inr sample_argocd.
Proof. vm_compute. reflexivity. Qed.
Example sample_arguments :
  (spec ← get_object "spec" sample_document; source ← get_object "source" spec;
   plugin ← get_object "plugin" source; dict_get "env" plugin) =
  Some (JArray [JObject [("name", JString "HELM_ARGS"); ("value", JString (helm_arguments [
    "--namespace app-code-instance";
    "--set policy.config.allowedUsernames=admin\,bob\,eve\,ops\,root";
    "--set policy.config.adminUsernames=admin\,bob\,ops\,root";
    "--set global.baseDomain=abcdefghijkl.apps.example.com";
    "--set global.identifier=abcdefghijkl";
    "--set server.config.postgres.username=<secret:main#username>";
    "--set server.config.postgres.password=<secret:main#password>";
    "--set server.config.postgres.host=db\,1";
    "--set server.config.postgres.database=coder";
    "--set server.config.postgres.schema=coder_1";
    "--set server.config.kube=AQ=="]))]]).
Proof. vm_compute. reflexivity. Qed.


Lemma application_names_are_dns_labels_witness :
  client_from_settings sample_settings = inr (cfg_client sample_argocd) /\
  APPLICATION_NAME_PATTERN
    (name_of_application (cfg_client sample_argocd) (generate_instance_slug (fun n => n)) None) = true.
Proof.
  assert (Hc : client_from_settings sample_settings = inr (cfg_client sample_argocd))
    by (vm_compute; reflexivity).
  split; [exact Hc |].
  exact (proj1 (application_names_are_dns_labels _ _ (fun n => n) None Hc (or_introl eq_refl))).
Defined.
