(* ===== verification/ArgoCdProperties.v ===== *)
(** * ArgoCdProperties: what the Argo CD client does to the Applications of a project

    The requests of the client are watched by a monitor that knows the last Application that was
    read; the Helm arguments are parsed back; the update of an Application is compared with what
    it replaces. *)
From S2P Require Import Prelude Text Models Store Instances Members Config Schemas Program Monitor.
From S2P Require Import Coder Worker Replace Json ArgoCd ArgoCdClient Concrete InstanceProperties.
From S2P Require Import PublicUrls ArgoCdPayloads RouteProperties.
From Stdlib Require Import Ascii String.
Open Scope string_scope.

(** ** The monitor of the requests *)
Inductive Seen :=
| Nothing
(** The last request read this Application, or was told that there is none at this path. *)
| Saw (path : string) (application : list (string * json))
| SawAbsent (path : string)
(** The last request was a synchronization that was accepted. *)
| Synchronized (path : string).

Definition see (s : Seen) (R : Type) (q : Transport R) : Exn + R -> Seen :=
  match q in Transport R return Exn + R -> Seen with
  | Send request => fun r =>
      match r with
      | inl _ => Nothing
      | inr response =>
          if (http_method request == "GET") || (http_method request == "DELETE") then
            if Z.eqb (status_code response) NOT_FOUND then SawAbsent (http_path request)
            else if (http_method request == "GET") && success response then
              match decoded response with
              | Some (JObject payload) => Saw (http_path request) payload
              | _ => Nothing
              end
            else Nothing
          else if success response then Synchronized (http_path request)
          else Nothing
      end
  end.

Section Fenced.
Variable instance_id : uuid.

(** The instance owns the Application that has just been read, and nothing happens to it. *)
Definition owned_at_rest (application : list (string * json)) : Prop :=
  is_owned application instance_id = true /\ application_operation_is_active application = false.

(** [POST] of an Application may only create; the other mutations follow a read at once. *)
Definition permitted (s : Seen) (request : Request) : Prop :=
  let path := http_path request in
  match http_method request with
  | "GET" => True
  | "PUT" => exists application, s = Saw path application /\ owned_at_rest application
  | "DELETE" =>
      exists application, s = Saw path application /\ owned_at_rest application
                          /\ _application_deletion_is_pending application = false
  | "POST" =>
      path = applications_path /\ dict_get "upsert" (http_params request) = Some "false"
      \/ (exists name, path = sync_path name /\
            (s = SawAbsent (application_path name)
             \/ exists application, s = Saw (application_path name) application
                                    /\ owned_at_rest application))
  | _ => False
  end.
Definition permitted_query (s : Seen) (R : Type) (q : Transport R) : Prop :=
  match q with Send request => permitted s request end.

(** What the client raises: errors of its domain, and what the transport raises. *)
Definition argocd_error (e : Exn) : Prop :=
  match e with
  | ArgoCdConfigurationError _ | ArgoCdRequestError _ | ArgoCdApplicationOwnershipError _
  | ArgoCdApplicationNotFoundError _ | HTTPError _ => True
  | _ => False
  end.

Abbreviation watched := (monitored transport_answers permitted_query see).

Definition read_post (name : string) (s : Seen) (o : Exn + option (list (string * json))) : Prop :=
  match o with
  | inl e => argocd_error e
  | inr None => s = SawAbsent (application_path name)
  | inr (Some application) =>
      s = Saw (application_path name) application /\ is_owned application instance_id = true
  end.

Lemma get_owned_monitored (allowed : Seen -> forall R, Transport R -> Prop) config s name :
  (forall s path params headers, allowed s _ (Send (mkRequest "GET" path params headers NoBody))) ->
  monitored transport_answers allowed see s (_get_owned_application config name instance_id)
    (read_post name).
Proof.
  intros Hget. apply monitored_bind. unfold _get_application, send. apply monitored_bind.
  apply monitored_ask; [apply Hget |]. intros [e | response] Hr; cbn in Hr |- *; [by destruct e |].
  destruct (Z.eqb (status_code response) NOT_FOUND) eqn:E; [done |].
  apply monitored_bind. unfold _raise_for_response.
  destruct (success response) eqn:Es; cbn; [| done].
  apply monitored_bind. unfold _json_object.
  destruct (decoded response) as [[]|] eqn:Ed; cbn; try done.
  by destruct (is_owned fields instance_id) eqn:Eo.
Qed.

Lemma get_owned_watched config s name :
  watched s (_get_owned_application config name instance_id) (read_post name).
Proof. by apply get_owned_monitored. Qed.

(** What a mutation tells of the Application when it has ended. *)
Definition mutated (done_ : Seen -> Prop) (path : string) (s : Seen)
    (status : ArgoCdMutationStatus) : Prop :=
  match status with
  | COMPLETED => done_ s
  | DEFERRED => exists application, s = Saw path application /\ is_owned application instance_id = true
  end.
Definition deleted_post (path : string) (s : Seen) (o : Exn + ArgoCdMutationStatus) : Prop :=
  match o with
  | inl e => argocd_error e
  | inr status => mutated (eq (SawAbsent path)) path s status
  end.
Definition ensured_post (name : string) (s : Seen) (o : Exn + ArgoCdReconcileResult) : Prop :=
  match o with
  | inl e => argocd_error e
  | inr result =>
      Worker.application_name result = name
      /\ mutated (eq (Synchronized (sync_path name))) (application_path name) s
           (reconcile_status result)
  end.

Lemma raise_for_response_watched {A} s response method path (k : unit -> http A) post :
  (forall e, argocd_error e -> post s (inl e)) ->
  (success response = true -> watched s (k tt) post) ->
  watched s (_raise_for_response response method path ≫= k) post.
Proof.
  intros He Hk. apply monitored_bind. unfold _raise_for_response.
  destruct (success response); cbn; [by apply Hk | by apply He].
Qed.

Lemma send_watched {B} s method path params headers body (k : Response -> http B) post :
  permitted s (mkRequest method path params headers body) ->
  (forall e, argocd_error e -> post Nothing (inl e)) ->
  (forall response,
     watched (see s _ (Send (mkRequest method path params headers body)) (inr response))
       (k response) post) ->
  watched s (send method path params headers body ≫= k) post.
Proof.
  intros Hp He Hk. apply monitored_ask_bind; [done | | auto].
  intros e H. apply (He e). by destruct e.
Qed.

Lemma delete_watched config s slug attached :
  watched s (delete_application config instance_id slug attached)
    (deleted_post (application_path (name_of_application config slug attached))).
Proof.
  unfold delete_application. set (name := name_of_application _ _ _).
  eapply monitored_seq; [apply get_owned_watched | done |]. intros s1 [existing |].
  2:{ intros H. cbn in *. by subst. }
  intros [-> Ho]. destruct (application_operation_is_active existing) eqn:Ea; cbn [orb].
  { apply monitored_done. by exists existing. }
  destruct (_application_deletion_is_pending existing) eqn:Ep.
  { apply monitored_done. by exists existing. }
  apply send_watched; [by exists existing | done |]. intros response. cbn [see].
  destruct (Z.eqb (status_code response) NOT_FOUND) eqn:En; [done |].
  apply raise_for_response_watched; [done |]. intros _.
  eapply monitored_seq; [apply get_owned_watched | done |]. intros s2 [remaining |].
  - intros [-> Ho2]. by exists remaining.
  - intros H. cbn in *. by subst.
Qed.

Lemma deferred_watched s name application (rest : http ArgoCdReconcileResult) :
  read_post name s (inr application) ->
  (match application with
   | Some a => application_operation_is_active a = false
   | None => True end ->
   watched s rest (ensured_post name)) ->
  watched s (deferred_if_active name application rest) (ensured_post name).
Proof.
  intros Hs Hr. destruct application as [a |]; cbn [deferred_if_active]; [| by apply Hr].
  destruct (application_operation_is_active a) eqn:Ea; [| by apply Hr].
  apply monitored_done. destruct Hs as [-> Ho]. split; [done |]. by exists a.
Qed.

Lemma sync_watched client s name application :
  read_post name s (inr application) ->
  match application with
  | Some a => application_operation_is_active a = false
  | None => True
  end ->
  watched s
    (response ← send "POST" (sync_path name) [("project", cfg_project client)]
       (_authorization_headers client) (Json (JObject []));
     _raise_for_response response "POST" (sync_path name);;
     Done (mkReconcileResult COMPLETED name)) (ensured_post name).
Proof.
  intros Hs Ha. apply send_watched; [| done |].
  - right. exists name. split; [done |]. destruct application as [a |].
    + right. exists a. destruct Hs as [-> Ho]. done.
    + left. exact Hs.
  - intros response. apply raise_for_response_watched; [done |]. intros Hr.
    apply monitored_done. cbn. by rewrite Hr.
Qed.

Lemma update_payload_error existing desired e :
  application_update_payload existing desired = inl e -> argocd_error e.
Proof.
  unfold application_update_payload. intros H.
  repeat case_match; try done; by injection H as <-.
Qed.

Lemma update_and_sync_watched config s name desired existing :
  match existing with
  | Some a => s = Saw (application_path name) a /\ owned_at_rest a
  | None => True
  end ->
  watched s (update_and_sync config name instance_id desired existing) (ensured_post name).
Proof.
  intros Hs. unfold update_and_sync.
  apply (monitored_seq _ _ _ _ _ _ (fun _ o => match o with inl e => argocd_error e | _ => True end)).
  - destruct existing as [a |]; [| exact I]. destruct Hs as [-> Ho].
    destruct (application_update_payload a desired) as [e | payload] eqn:Ep.
    { apply monitored_fail. by eapply update_payload_error. }
    apply send_watched; [by exists a | done |]. intros response. unfold _raise_for_response.
    by destruct (success response).
  - done.
  - intros s1 _ _. eapply monitored_seq; [apply get_owned_watched | done |].
    intros s2 current Hc. apply deferred_watched; [done |]. intros Ha. by eapply sync_watched.
Qed.

Lemma scalar_lines_error scalars e :
  scalar_lines scalars = inl e ->
  argocd_error e \/ exists name, (name, inl e) ∈ scalars.
Proof.
  induction scalars as [|[n [e' | v]] rest IH]; cbn; [done | |].
  - intros [= ->]. right. exists n. constructor.
  - unfold _helm_scalar_argument. destruct (contains CR v || contains LF v); cbn.
    + intros [= <-]. by left.
    + destruct (scalar_lines rest) as [e' | lines]; cbn; [| done]. intros [= ->].
      destruct IH as [H | (name & H)]; [done | by left |]. right. exists name. by constructor.
Qed.

Lemma payload_error netloc_ok config name members values h e :
  helm_base_domain netloc_ok values = inr h ->
  application_payload netloc_ok config name instance_id members values = inl e -> argocd_error e.
Proof.
  intros Hh H. unfold application_payload in H. rewrite Hh in H.
  destruct (helm_argument_lines _ _) as [e' | lines] eqn:El; cbn in H; [| done].
  injection H as ->. unfold helm_argument_lines in El.
  destruct (scalar_lines _) as [e' | lines] eqn:Es; cbn in El; [| done]. injection El as ->.
  apply scalar_lines_error in Es as [H | (n & Hn)]; [done |]. exfalso. revert Hn.
  unfold helm_scalars. destruct (_member_values _ _) as [users admins].
  destruct (helm_kubeconfig values); cbn [app]; rewrite !elem_of_cons, elem_of_nil; naive_solver.
Qed.

Lemma ensure_watched netloc_ok config s slug attached members values h :
  helm_base_domain netloc_ok values = inr h ->
  watched s (ensure_application netloc_ok config instance_id slug attached members values)
    (ensured_post (name_of_application (cfg_client config) slug attached)).
Proof.
  intros Hh. unfold ensure_application. set (name := name_of_application _ _ _).
  destruct (application_payload _ _ _ _ _ _) as [e | desired] eqn:Ed.
  { apply monitored_fail. by eapply payload_error. }
  apply monitored_bind, monitored_done. unfold after.
  eapply monitored_seq; [apply get_owned_watched | done |]. intros s1 existing H1.
  apply deferred_watched; [done |]. intros Ha1. destruct existing as [a |].
  { apply update_and_sync_watched. destruct H1 as [-> Ho]. done. }
  apply send_watched; [by left | done |]. intros response.
  destruct (Z.eqb (status_code response) CONFLICT).
  - eapply monitored_seq; [apply get_owned_watched | done |]. intros s2 existing H2.
    eapply (monitored_seq _ _ _ _ _ _ (fun s o => match o with
       | inl e => argocd_error e | inr _ => s = s2 end)); [| done |].
    + unfold _raise_for_response. by destruct (is_none existing), (success response).
    + intros s3 _ ->. apply deferred_watched; [done |]. intros Ha2.
      apply update_and_sync_watched. destruct existing as [a |]; [| done].
      destruct H2 as [-> Ho]. done.
  - apply raise_for_response_watched; [done |]. intros _. by apply update_and_sync_watched.
Qed.
End Fenced.

(** ** The settings are refused with errors of the domain *)
Definition refuses {A} (m : Exn + A) : Prop := forall e, m = inl e -> argocd_error e.

Lemma refuses_ret {A} (a : A) : refuses (mret a).
Proof. by intros e [=]. Qed.
Lemma refuses_bind {A B} (m : Exn + A) (k : A -> Exn + B) :
  refuses m -> (forall a, refuses (k a)) -> refuses (m ≫= k).
Proof. intros Hm Hk e. destruct m as [e' | a]; [| apply Hk]. intros [= <-]. by apply Hm. Qed.
Lemma refuses_required values name : refuses (_required_value values name).
Proof. intros e. unfold _required_value. repeat case_match; intros [= <-]; exact I. Qed.
Lemma refuses_missing what required : refuses (require_settings what required).
Proof. intros e. unfold require_settings. case_match; intros [= <-]; exact I. Qed.
Lemma refuses_prefix raw name : refuses (_application_prefix raw name).
Proof. intros e. unfold _application_prefix. case_match; intros [= <-]; exact I. Qed.
Lemma refuses_single_line value name : refuses (_optional_single_line_value value name).
Proof.
  intros e. unfold _optional_single_line_value. repeat case_match; intros [= <-]; exact I.
Qed.
Lemma refuses_admins raw : refuses (parse_default_admins raw).
Proof. intros e. unfold parse_default_admins. repeat case_match; intros [= <-]; exact I. Qed.
Lemma refuses_region settings (k : string -> string) :
  refuses match require_argocd_region settings with
          | inl (ValueError message) => inl (ArgoCdConfigurationError message)
          | inl e => inl e
          | inr region => inr (k region)
          end.
Proof.
  intros e. unfold require_argocd_region.
  destruct (argocd_region settings) as [raw |]; [| by intros [= <-]].
  destruct (_ == ""); [by intros [= <-] |]. cbv zeta.
  destruct (dns_label _); [by intros [=] | by intros [= <-]].
Qed.
Create HintDb refuses.
#[export] Hint Resolve refuses_ret refuses_bind refuses_required refuses_missing refuses_prefix
  refuses_single_line refuses_admins refuses_region : refuses.

Lemma client_settings_refuses settings : refuses (client_from_settings settings).
Proof. unfold client_from_settings. cbv zeta. auto 12 with refuses. Qed.
Lemma deployment_settings_refuses settings : refuses (deployment_from_settings settings).
Proof.
  unfold deployment_from_settings. cbv zeta. apply refuses_bind; [apply client_settings_refuses |].
  intros client. auto 40 with refuses.
Qed.

(** A service function: the configuration, and then a method of the client. *)
Lemma configured_watched {C A} i s (config : Exn + C) (k : C -> http A) post :
  refuses config -> (forall e, argocd_error e -> post s (inl e)) ->
  (forall c, config = inr c ->
     monitored transport_answers (permitted_query i) see s (k c) post) ->
  monitored transport_answers (permitted_query i) see s (returns config ≫= k) post.
Proof.
  intros Hc He Hk. destruct config as [e | c]; [| by apply Hk].
  apply monitored_fail, He. by apply Hc.
Qed.

(** Requests that read. *)
Definition reading (s : Seen) (R : Type) (q : Transport R) : Prop :=
  match q with Send request => http_method request = "GET" end.

Section Service.
Variables (netloc_ok : list ascii -> bool) (settings : Settings).
Variables (i : uuid) (slug : string) (attached : option string).

(** What the three operations of the service may ask, and how they end; [name] is the name of
    the Application. *)
Definition reconciliation_outcome (s : Seen) (o : Exn + ArgoCdReconcileResult) : Prop :=
  match o with
  | inl e => argocd_error e
  | inr _ =>
      exists config, deployment_from_settings settings = inr config /\
        ensured_post i (name_of_application (cfg_client config) slug attached) s o
  end.
Definition deletion_outcome (s : Seen) (o : Exn + ArgoCdMutationStatus) : Prop :=
  match o with
  | inl e => argocd_error e
  | inr _ =>
      exists config, deployment_from_settings settings = inr config /\
        deleted_post i (application_path (name_of_application (cfg_client config) slug attached)) s o
  end.
Definition existence_outcome (s : Seen) (o : Exn + bool) : Prop :=
  match o with
  | inl e => argocd_error e
  | inr exists_ =>
      exists config, deployment_from_settings settings = inr config /\
        let path := application_path (name_of_application (cfg_client config) slug attached) in
        if exists_ then exists a, s = Saw path a /\ is_owned a i = true else s = SawAbsent path
  end.

Lemma reconcile_watched members values host :
  helm_base_domain netloc_ok values = inr host ->
  monitored transport_answers (permitted_query i) see Nothing
    (reconcile_instance_application netloc_ok settings i slug attached members values)
    reconciliation_outcome.
Proof.
  intros Hh. apply configured_watched; [apply deployment_settings_refuses | done |].
  intros config Hc. eapply monitored_weaken; [| by eapply ensure_watched].
  intros s [e | result]; [done |]. intros H. by exists config.
Qed.
Lemma delete_instance_watched :
  monitored transport_answers (permitted_query i) see Nothing
    (delete_instance_application settings i slug attached) deletion_outcome.
Proof.
  apply configured_watched; [apply deployment_settings_refuses | done |].
  intros config Hc. eapply monitored_weaken; [| by apply delete_watched].
  intros s [e | status]; [done |]. intros H. by exists config.
Qed.
Lemma exists_watched :
  monitored transport_answers (permitted_query i) see Nothing
    (instance_application_exists settings i slug attached) existence_outcome.
Proof.
  apply configured_watched; [apply deployment_settings_refuses | done |].
  intros config Hc. eapply monitored_seq; [apply get_owned_watched | done |]. intros s o Ho.
  exists config. split; [done |]. destruct o as [a |]; cbn; [| done]. by exists a.
Qed.


Lemma status_read s :
  monitored transport_answers reading see s
    (read_instance_application_status settings i slug attached)
    (fun _ o => match o with inl e => argocd_error e | inr _ => True end).
Proof.
  apply monitored_bind. destruct (client_from_settings settings) as [e | config] eqn:Hc.
  { apply monitored_fail. by eapply client_settings_refuses. }
  apply monitored_done. unfold after.
  eapply monitored_seq; [by apply get_owned_monitored | intros ? e; done |].
  by intros s1 [a |] _.
Qed.

(** The client keeps the promise that the status route relies on: whatever Argo CD answers,
    reading the status of an instance ends with a status or with one of the exceptions that the
    handler knows, and changes nothing. *)
Theorem argocd_status_is_documented s :
  monitored transport_answers reading see s
    (read_instance_application_status settings i slug attached)
    (fun _ o => documented _ (ReadApplicationStatus i slug attached) o).
Proof. eapply monitored_weaken; [| apply status_read]. by intros s' [[] | status]. Qed.
End Service.

