(* ===== verification/Lowering.v ===== *)
(** * Lowering: the workers on the wire

    The programs of the workers ask for operations of other systems: methods of the Coder client,
    operations on Argo CD, the archive of a template, a schema of a managed server. The domains
    implement each of them by a program of its own, over HTTP, Git or SQL. [lower] puts these
    programs in their place, with the session token of each deployment's client, so that what is
    shown of the workers under the contract of the domains holds of what is sent. *)
From S2P Require Import Prelude Text Models Store Registry Crypto Execution Config Program Monitor.
From S2P Require Import Json Coder Worker TemplateSource TemplateSourceProperties ArgoCd.
From S2P Require Import ArgoCdClient ArgoCdProperties CoderClient CoderClientProperties Raises Http.
From S2P Require Import Routes System Concrete Logins RouteProperties Postgres.
From Stdlib Require Import Ascii String.
Open Scope string_scope.

(** ** Requests on the wire *)
Inductive Wire : Type -> Type :=
| CoderWire {R} (base_url : string) (q : Transport R) : Wire R
| ArgoCdWire {R} (q : Transport R) : Wire R
| GitWire {R} (q : SourceQuery R) : Wire R
| PsycopgWire {R} (q : PgQuery R) : Wire R
| AsyncpgWire {R} (q : PgQuery R) : Wire R
(** The clock, fresh values and the broker. *)
| Local {R} (q : Query R) : Wire R.

Section Lowering.
Variables (netloc_ok : list ascii -> bool) (write_ustar : list (string * Node) -> option bytes).
Variable identifier : string -> string.
Variable settings : Settings.

(** [httpx.Client(base_url=...)] *)
Definition base_url (instance_url : string) : string := rstrip_slash instance_url ++ "/".

(** The session tokens of the clients, by the URL of the instance. A client looks for the first
    user, creates it and logs in before anything else, and logs in at most once: these requests
    are sent without a token, and what follows them with the token of the login. *)
Abbreviation tokens := (gmap string string) (only parsing).
Definition client_token {R} (t : tokens) (instance_url : string) (op : ClientOp R) : option string :=
  if is_public op then None else t !! instance_url.

Definition plain {R} (t : tokens) (p : prog Wire R) : prog Wire (tokens * (Exn + R)) :=
  r ← attempt p; Done (t, r).
Definition local {R} (t : tokens) (q : Query R) : prog Wire (tokens * (Exn + R)) :=
  plain t (over (@Local) (ask q)).
Definition coder_call {R} (t : tokens) (instance_url : string) (op : ClientOp R)
    : prog Wire (tokens * (Exn + R)) :=
  r ← attempt (over (Q := Transport) (fun R => CoderWire (base_url instance_url))
                 (perform (client_token t instance_url op) op));
  Done match r with
       | inl e => (t, inl e)
       | inr (a, token) =>
           (match token with Some token => <[instance_url := token]> t | None => t end, inr a)
       end.

(** One request, as the domains implement it. *)
Definition lower_query {R} (t : tokens) (q : Query R) : prog Wire (tokens * (Exn + R)) :=
  match q in Query R return prog Wire (tokens * (Exn + R)) with
  | Coder instance_url op => coder_call t instance_url op
  | ReconcileApplication instance_id slug attached_name members values =>
      plain t (over (@ArgoCdWire) (reconcile_instance_application netloc_ok settings instance_id slug
        attached_name members values))
  | DeleteApplication instance_id slug attached_name =>
      plain t (over (@ArgoCdWire) (delete_instance_application settings instance_id slug attached_name))
  | ApplicationExists instance_id slug attached_name =>
      plain t (over (@ArgoCdWire) (instance_application_exists settings instance_id slug attached_name))
  | ReadApplicationStatus instance_id slug attached_name =>
      plain t (over (@ArgoCdWire)
        (read_instance_application_status settings instance_id slug attached_name))
  | FetchBranchArchive git_url branch source_path =>
      plain t (over (@GitWire) (fetch_branch_archive write_ustar git_url branch source_path))
  | CreateSchema target => plain t (over (@PsycopgWire) (create_schema identifier target))
  | DropSchema target => plain t (over (@PsycopgWire) (drop_schema identifier target))
  | CheckConnection host port database user password =>
      plain t (over (@AsyncpgWire) (check_managed_database_connection host port database user password))
  | Now => local t Now
  | NewUuid => local t NewUuid
  | Nonce => local t Nonce
  | Token => local t Token
  | Deliver task_name job_id => local t (Deliver task_name job_id)
  | Monotonic => local t Monotonic
  | Sleep seconds => local t (Sleep seconds)
  | Delay task_name argument => local t (Delay task_name argument)
  end.

Fixpoint lower {A} (t : tokens) (p : worker A) : prog Wire A :=
  match p with
  | Done a => Done a
  | Fail e => Fail e
  | Session m k => Session m (fun r => lower t (k r))
  | Ask q k => tr ← lower_query t q; lower tr.1 (k tr.2)
  end.

(** ** The contract of the domains *)
Definition connection_error (e : Exn) : Prop := e ∈ [PostgresError; OSError; TimeoutError].
(** What the program of each request promises to the worker that makes it. *)
Definition promised (R : Type) (q : Query R) : Exn + R -> Prop :=
  match q in Query R return Exn + R -> Prop with
  | Coder _ _ => fun r => forall e, r = inl e -> is_request_error e = true
  | ReconcileApplication _ _ _ _ values => fun r =>
      forall e host, helm_base_domain netloc_ok values = inr host -> r = inl e -> argocd_error e
  | DeleteApplication _ _ _ => fun r => forall e, r = inl e -> argocd_error e
  | ApplicationExists _ _ _ => fun r => forall e, r = inl e -> argocd_error e
  | ReadApplicationStatus _ _ _ => fun r => forall e, r = inl e -> argocd_error e
  | FetchBranchArchive _ _ _ => fun r =>
      match r with
      | inl e => source_error e
      | inr archive => is_commit (archive_commit archive) = true /\
          (N.of_nat (List.length (archive_content archive)) <= 1048576)%N
      end
  | CheckConnection _ _ _ _ _ => fun r => forall e, r = inl e -> connection_error e
  | Now | NewUuid | Nonce => fun r => exists a, r = inr a
  | _ => fun _ => True
  end.
(** What is documented of the libraries and of the environment. *)
Definition wire_answers (R : Type) (q : Wire R) : Exn + R -> Prop :=
  match q in Wire R return Exn + R -> Prop with
  | CoderWire _ q => transport_answers _ q
  | ArgoCdWire q => transport_answers _ q
  | GitWire q => answered _ q
  | PsycopgWire _ => fun _ => True
  | AsyncpgWire _ => fun r => forall e, r = inl e -> connection_error e
  | Local q => promised _ q
  end.

Abbreviation on_wire := (monitored wire_answers (fun (_ : unit) _ _ => True) (fun s _ _ _ => s) tt).

(** The outcome of a request, with the promise on it. *)
Definition kept {R} (q : Query R) (o : Exn + (tokens * (Exn + R))) : Prop :=
  match o with inl _ => False | inr (_, r) => promised _ q r end.

Lemma plain_kept {R Q'} (q : Query R) t (f : forall R, Q' R -> Wire R) (p : prog Q' R) :
  monitored (fun R q => wire_answers R (f R q)) (fun (_ : unit) _ _ => True) (fun u _ _ _ => u) tt p
    (fun _ o => promised _ q o) ->
  on_wire (plain t (over f p)) (fun _ o => kept q o).
Proof. intros Hp. apply monitored_bind, monitored_attempt, monitored_over. exact Hp. Qed.

Lemma local_kept {R} (q : Query R) t : on_wire (local t q) (fun _ o => kept q o).
Proof. apply plain_kept. apply monitored_ask; [done |]. by intros r Hr. Qed.

Lemma silent_kept {R Q'} (q : Query R) t (f : forall R, Q' R -> Wire R) (p : prog Q' R) :
  (forall r, promised _ q r) -> on_wire (plain t (over f p)) (fun _ o => kept q o).
Proof.
  intros H. apply plain_kept. induction p as [a | e | B m k IH | R' q' k IH]; cbn; auto.
Qed.

Lemma coder_kept {R} t url (op : ClientOp R) :
  on_wire (coder_call t url op) (fun _ o => kept (Coder url op) o).
Proof.
  apply monitored_bind, monitored_attempt, monitored_over.
  eapply monitored_weaken; [| eapply (monitored_forget transport_answers) with (post' := caught);
    [done | | by apply (client_performs (client_token t url op) verifies R op)]; done].
  intros [] [e | [a token]] Ho; cbn; intros e' [= <-]. exact Ho.
Qed.

Lemma check_kept host port database user password t :
  on_wire (plain t (over (@AsyncpgWire) (check_managed_database_connection host port database user password)))
    (fun _ o => kept (CheckConnection host port database user password) o).
Proof.
  apply plain_kept. split; [done |]. intros [e | []] He; [intros e' [= <-]; by apply He |].
  split; [done |]. intros [e | []] He'; (split; [done |]); intros [e2 | []] H2; cbn;
    intros e' [= <-]; first [by apply H2 | by apply He'].
Qed.

Lemma argocd_kept {R S} (q : Query R) t allowed (next : S -> forall R, Transport R -> Exn + R -> S) s
    (p : prog Transport R) (post : S -> Exn + R -> Prop) :
  (forall s o, post s o -> promised _ q o) -> monitored transport_answers allowed next s p post ->
  on_wire (plain t (over (@ArgoCdWire) p)) (fun _ o => kept q o).
Proof. intros Hp Hm. apply plain_kept. eapply monitored_forget; [| exact Hp | exact Hm]. done. Qed.

Lemma reconcile_kept i slug name members values t :
  on_wire (lower_query t (ReconcileApplication i slug name members values))
    (fun _ o => kept (ReconcileApplication i slug name members values) o).
Proof.
  cbn [lower_query]. destruct (helm_base_domain netloc_ok values) as [e | host] eqn:Eh.
  - apply silent_kept. intros r e' host. cbn. congruence.
  - eapply argocd_kept; [| by eapply reconcile_watched].
    intros s o Ho e host' _ ->. exact Ho.
Qed.

Lemma query_kept {R} t (q : Query R) : on_wire (lower_query t q) (fun _ o => kept q o).
Proof.
  destruct q; try apply reconcile_kept; try apply coder_kept; try apply check_kept;
    cbn [lower_query]; try apply local_kept; try (by apply silent_kept).
  - eapply argocd_kept; [| apply delete_instance_watched]. intros s o Ho e ->. exact Ho.
  - eapply argocd_kept; [| apply exists_watched]. intros s o Ho e ->. exact Ho.
  - eapply argocd_kept; [| apply (status_read _ _ _ _ Nothing)]. intros s o Ho e ->. exact Ho.
  - apply plain_kept. eapply (monitored_forget answered); [done | | apply fetch_watched].
    intros s [e | archive]; cbn; [done |]. intros (_ & Hc & _ & _ & _ & _ & _ & _ & _ & _ & Hl & _).
    done.
Qed.

(** What a worker ends with when the contract is kept, it ends with on the wire. *)
Lemma fails_after (E : Exn -> Prop) {R A} (p : prog Wire R) (k : R -> prog Wire A) :
  on_wire p (fun _ o => match o with inl e => E e | inr a => fails wire_answers E (k a) end) ->
  fails wire_answers E (p ≫= k).
Proof.
  change (p ≫= k) with (bind p k).
  induction p as [a | e | B m k' IH | R' q k' IH]; cbn; auto. intros [_ Hk]. auto.
Qed.
Lemma lower_fails (E : Exn -> Prop) {A} t (p : worker A) :
  fails promised E p -> fails wire_answers E (lower t p).
Proof.
  revert t. induction p as [a | e | B m k IH | R q k IH]; cbn [fails lower]; intros t; auto.
  intros Hk. apply fails_after. eapply monitored_weaken; [| apply query_kept].
  intros [] [e | [t' r]]; cbn [kept]; [done |]. intros Hr. cbn. auto.
Qed.

(** ** Session tokens *)

(** The tokens that deployments have issued, with the base URL of each. *)
Abbreviation issued := (list (string * string)) (only parsing).
Definition login_token {R} (q : Transport R) : Exn + R -> option string :=
  match q in Transport R return Exn + R -> option string with
  | Send request => fun r =>
      match r with
      | inr response =>
          if (http_method request == "POST") && (http_path request == "api/v2/users/login") then
            match decoded response with
            | Some (JObject payload) => nonempty_string "session_token" payload
            | _ => None
            end
          else None
      | inl _ => None
      end
  end.
Definition issue (s : issued) (R : Type) (q : Wire R) : Exn + R -> issued :=
  match q in Wire R return Exn + R -> issued with
  | CoderWire base q => fun r =>
      match login_token q r with Some token => (base, token) :: s | None => s end
  | _ => fun _ => s
  end.
(** A request to a deployment: anonymous, when it is about the first user or the login; otherwise
    with a token that this deployment has issued. *)
Definition entitled_request (s : issued) (base : string) (request : Request) : Prop :=
  let token := dict_get "Coder-Session-Token" (http_headers request) in
  (http_path request ∈ ["api/v2/users/first"; "api/v2/users/login"] /\ token = None) \/
  (exists t, token = Some t /\ (base, t) ∈ s).
Definition entitled_transport (s : issued) (base : string) {R} (q : Transport R) : Prop :=
  match q with Send request => entitled_request s base request end.
Definition entitled (s : issued) (R : Type) (q : Wire R) : Prop :=
  match q with CoderWire base q => entitled_transport s base q | _ => True end.

Lemma issue_grows s R (q : Wire R) r : s ⊆ issue s R q r.
Proof. destruct q; cbn; try done. destruct (login_token q r); set_solver. Qed.

Abbreviation sent := (monitored wire_answers entitled issue).

(** Requests to other systems. *)
Lemma elsewhere {Q'} {A} (f : forall R, Q' R -> Wire R) s (p : prog Q' A) :
  (forall R q, entitled s R (f R q)) -> (forall R q r, issue s R (f R q) r = s) ->
  sent s (over f p) (fun s' _ => s' = s).
Proof.
  intros He Hi. induction p as [a | e | B m k IH | R q k IH]; cbn; [done | done | auto |].
  split; [apply He |]. intros r _. rewrite Hi. apply IH.
Qed.
Definition unchanged {R} (s : issued) (t : tokens) (s' : issued)
    (o : Exn + (tokens * (Exn + R))) : Prop :=
  s' = s /\ match o with inl _ => False | inr (t', _) => t' = t end.
Lemma plain_sent {R Q'} t (f : forall R, Q' R -> Wire R) s (p : prog Q' R) :
  (forall R q, entitled s R (f R q)) -> (forall R q r, issue s R (f R q) r = s) ->
  sent s (plain t (over f p)) (unchanged s t).
Proof.
  intros He Hi. apply monitored_bind, monitored_attempt.
  eapply monitored_weaken; [| by apply elsewhere]. by intros s' o ->.
Qed.

(** The first requests of a client. *)
Abbreviation coder_sent base :=
  (monitored (fun R q => wire_answers R (CoderWire base q)) (fun s R q => entitled s R (CoderWire base q))
     (fun s R q => issue s R (CoderWire base q))).

Lemma raised_sent {A} base s response method path expected (k : unit -> prog Transport A) post :
  (forall message, post s (inl (CoderRequestError message))) ->
  coder_sent base s (k tt) post ->
  coder_sent base s (CoderClient._raise_for_response response method path expected ≫= k) post.
Proof.
  intros He Hk. apply monitored_bind. unfold CoderClient._raise_for_response.
  destruct (Z.eqb _ _); cbn; [exact Hk | apply He].
Qed.
Lemma anonymous_sent {A} base s method path params body (k : Response -> prog Transport A) post :
  path ∈ ["api/v2/users/first"; "api/v2/users/login"] ->
  (forall message, post s (inl (HTTPError message))) ->
  (forall response,
     coder_sent base
       (issue s _ (CoderWire base (Send (mkRequest method path params (default_headers None) body)))
          (inr response)) (k response) post) ->
  coder_sent base s (send method path params (default_headers None) body ≫= k) post.
Proof.
  intros Hp He Hk. apply monitored_ask_bind; [left; done | | auto].
  intros e H. by destruct e.
Qed.

(** What a client has got from its first requests. *)
Definition introduced (base : string) (s s' : issued) (o : Exn + string) : Prop :=
  s ⊆ s' /\ match o with inr token => (base, token) ∈ s' | inl _ => True end.

Lemma login_sent base s password :
  coder_sent base s (run_authenticate_prepared_admin None password) (introduced base s).
Proof.
  unfold run_authenticate_prepared_admin. cbv zeta.
  apply anonymous_sent; [set_solver | by split |]. intros response.
  set (s1 := issue _ _ _ _). assert (Hs : s ⊆ s1) by apply issue_grows.
  destruct (_ || _); [by apply monitored_fail |]. apply raised_sent; [by split |].
  apply monitored_bind. unfold CoderClient._json_object at 1.
  destruct (decoded response) as [[]|] eqn:Ed; try (by split). apply monitored_done. unfold Monitor.after.
  apply monitored_bind. destruct (nonempty_string "session_token" fields) as [token |] eqn:Et;
    [| by split]. apply monitored_done. unfold Monitor.after.
  assert (Ht : (base, token) ∈ s1).
  { subst s1. cbn. rewrite Ed, Et. set_solver. }
  apply monitored_ask_bind; [right; by eexists | intros e _; by split |]. intros response' _.
  change (issue s1 _ _ _) with s1. apply raised_sent; [by split |].
  apply monitored_bind. unfold CoderClient._json_object.
  destruct (decoded response') as [[]|]; try (by split). apply monitored_done. unfold Monitor.after.
  case_match; [by apply monitored_fail | by apply monitored_done].
Qed.

Lemma first_user_sent base s :
  coder_sent base s (run_has_first_user None) (fun s' _ => s ⊆ s').
Proof.
  unfold run_has_first_user. cbv zeta. apply anonymous_sent; [set_solver | done |].
  intros response. set (s1 := issue _ _ _ _). assert (Hs : s ⊆ s1) by apply issue_grows.
  repeat case_match; try done. by apply raised_sent.
Qed.
Lemma creation_sent base s password :
  coder_sent base s (run_create_first_user None password) (fun s' _ => s ⊆ s').
Proof.
  unfold run_create_first_user. cbv zeta. apply anonymous_sent; [set_solver | done |].
  intros response. set (s1 := issue _ _ _ _). assert (Hs : s ⊆ s1) by apply issue_grows.
  unfold CoderClient._raise_for_response. by case_match.
Qed.

(** What the client of an instance keeps: a token of the deployment, from its login on. *)
Definition client_post (base : string) (s : issued) {R} (op : ClientOp R) (token : option string)
    (s' : issued) (o : Exn + (R * option string)) : Prop :=
  s ⊆ s' /\
  match o with
  | inl _ => True
  | inr (_, kept) =>
      if is_login op then exists t, kept = Some t /\ (base, t) ∈ s' else kept = token
  end.

Lemma public_sent {R} base s (op : ClientOp R) :
  is_public op = true -> coder_sent base s (perform None op) (client_post base s op None).
Proof.
  intros Hp. destruct op; try done; cbn [perform].
  - eapply monitored_seq; [apply first_user_sent | by split | by split].
  - eapply monitored_seq; [apply creation_sent | by split | by split].
  - eapply monitored_seq; [apply login_sent | intros s' e []; by split |].
    intros s' token [Hs Ht]. split; [done |]. by eexists.
Qed.

Lemma private_keeps {R} token (op : ClientOp R) :
  is_login op = false -> exists p, perform token op = keep token p.
Proof. destruct op; intros H; try done; by eexists. Qed.

Lemma private_sent {R} base s (op : ClientOp R) t :
  is_public op = false -> (base, t) ∈ s ->
  coder_sent base s (perform (Some t) op) (client_post base s op (Some t)).
Proof.
  intros Hp Ht. assert (Hl : is_login op = false) by (by destruct op).
  eapply monitored_weaken; [| apply (monitored_and _ _ (fun _ _ _ => True) _ _ _ (fun s' _ => s ⊆ s')
    (fun _ o => match o with inl _ => True | inr (_, k) => k = Some t end))].
  - intros s' o [Hs Ho]. split; [done |]. rewrite Hl. by destruct o as [| []].
  - eapply monitored_weaken; [| eapply (monitored_stateless _ (carries (Some t) (fun _ => False)) _ _
      (fun s' => s ⊆ s') s _ caught); [| | done | apply client_performs; by rewrite Hl]].
    + by intros s' o [].
    + intros s' R' [request] Hs [Hc | []]. right. exists t. split; [done |]. by apply Hs.
    + intros s' R' q r Hs. etrans; [done | apply issue_grows].
  - destruct (private_keeps (Some t) op Hl) as [p ->]. apply monitored_bind. clear Ht.
    revert s. induction p as [a | e | B m k IH | R' q k IH]; cbn; auto.
Qed.

(** The clients know tokens of the deployments that the worker has logged in at. *)
Definition known (logged_in : string -> bool) (t : tokens) (s : issued) : Prop :=
  forall url, logged_in url = true -> exists token, t !! url = Some token /\ (base_url url, token) ∈ s.

Lemma call_sent {R} (logged_in : string -> bool) t s url (op : ClientOp R) :
  known logged_in t s -> (logged_in url = true \/ is_public op = true) ->
  sent s (coder_call t url op)
    (fun s' o => match o with
     | inl _ => False
     | inr (t', r) => known (fun u => logged u (logged_in u) R (Coder url op) r) t' s'
     end).
Proof.
  intros Hk Hu. apply monitored_bind, monitored_attempt, monitored_over.
  assert (Hm : exists token, coder_sent (base_url url) s (perform (client_token t url op) op)
            (client_post (base_url url) s op token) /\ (is_login op = true \/ token = None \/ token = t !! url)).
  { unfold client_token. destruct (is_public op) eqn:Hp.
    - exists None. split; [by apply public_sent | by auto].
    - destruct Hu as [Hu |]; [| done]. destruct (Hk url Hu) as (token & -> & Ht).
      exists (Some token). split; [by apply private_sent | by auto]. }
  destruct Hm as (token & Hm & Htoken). eapply monitored_weaken; [| exact Hm].
  intros s' [e | [a k]] [Hs Ho]; cbn in *.
  - intros u Hl. destruct (Hk u Hl) as (tk & H1 & H2). exists tk. split; [done | by apply Hs].
  - intros u Hl. destruct (is_login op) eqn:El.
    + destruct Ho as (tk & -> & Hin). destruct (decide (u = url)) as [-> | Hne].
      * exists tk. split; [by rewrite lookup_insert_eq | done].
      * rewrite lookup_insert_ne by done.
        rewrite bool_decide_eq_false_2, orb_false_r in Hl by done.
        destruct (Hk u Hl) as (tk' & H1 & H2). exists tk'. split; [done | by apply Hs].
    + rewrite andb_false_r, orb_false_r in Hl. destruct (Hk u Hl) as (tk & H1 & H2).
      exists tk. split; [| by apply Hs]. destruct k as [tk' |]; [| done].
      destruct Htoken as [| [-> | ->]]; [done | done |].
      destruct (decide (u = url)) as [-> | Hne]; [by rewrite lookup_insert_eq, Ho |].
      by rewrite lookup_insert_ne.
Qed.

Lemma query_sent {R} (logged_in : string -> bool) t s (q : Query R) :
  known logged_in t s -> (forall url, authorized url (logged_in url) R q) ->
  sent s (lower_query t q)
    (fun s' o => match o with
     | inl _ => False
     | inr (t', r) => known (fun u => logged u (logged_in u) R q r) t' s'
     end).
Proof.
  intros Hk Ha. destruct q; cbn [lower_query];
    try (eapply monitored_weaken; [| by apply plain_sent];
         intros s' [e | [t' r]] [-> H]; [done | by subst t']).
  apply call_sent; [done |]. destruct (Ha instance_url) as [| [|]]; by auto.
Qed.

(** What a worker that logs in first sends. *)
Lemma lower_sent {A} (p : worker A) (logged_in : string -> bool) t s :
  (forall url, watched url (logged_in url) p (fun _ _ => True)) -> known logged_in t s ->
  sent s (lower t p) (fun _ _ => True).
Proof.
  revert logged_in t s. induction p as [a | e | B m k IH | R q k IH];
    intros logged_in t s Hp Hk; cbn [lower]; [done | done | |].
  - intros d. eapply IH; [| exact Hk]. intros url. apply Hp.
  - eapply monitored_seq; [apply (query_sent logged_in); [done | intros url; apply Hp] | done |].
    intros s' [t' r] Hk'. eapply IH; [| exact Hk']. intros url. by apply (proj2 (Hp url)).
Qed.
End Lowering.

