(* ===== verification/LoweringProperties.v ===== *)
(** * LoweringProperties: what holds of the workers holds of what they send

    The programs of the domains run no session of the database, so an execution on the wire is an
    execution of the worker; they keep the contract that the workers and the handlers are written
    against; and the tokens of the deployments stay with them. *)
From S2P Require Import Prelude Text Models Store Registry Crypto Execution Config Program Monitor.
From S2P Require Import Json Coder Diagnostics Worker TemplateSource ArgoCd ArgoCdClient CoderClient.
From S2P Require Import Raises Http Routes CoderService InstanceTasks WorkspaceTasks TemplateTasks.
From S2P Require Import System Concrete Logins RouteProperties Postgres Lowering.
From Stdlib Require Import Ascii String.
Open Scope string_scope.

(** ** Programs without sessions *)
Definition sessionless {Q : Type -> Type} {A} (p : prog Q A) : Prop :=
  within (fun _ _ => False) (fun _ _ => True) p.

Lemma sessionless_bind {Q : Type -> Type} {A B} (p : prog Q A) (k : A -> prog Q B) :
  sessionless p -> (forall a, sessionless (k a)) -> sessionless (p ≫= k).
Proof. apply within_bind. Qed.
Lemma sessionless_attempt {Q : Type -> Type} {A} (p : prog Q A) :
  sessionless p -> sessionless (attempt p).
Proof. intros Hp. apply within_catch; [by apply within_bind |]. done. Qed.
Lemma sessionless_over {Q Q' : Type -> Type} (f : forall R, Q R -> Q' R) {A} (p : prog Q A) :
  sessionless p -> sessionless (over f p).
Proof.
  induction p as [a | e | B m k IH | R q k IH]; cbn; [done | done | by intros [[] _] |].
  intros [_ Hk]. split; [done |]. intros r. apply IH, Hk.
Qed.
Lemma sessionless_returns {Q : Type -> Type} {A} (r : Exn + A) : sessionless (@returns Q A r).
Proof. by destruct r. Qed.
Lemma sessionless_ask {Q : Type -> Type} {R} (q : Q R) : sessionless (ask q).
Proof. split; [done |]. intros r. apply sessionless_returns. Qed.
Lemma sessionless_or_bad {A} (o : option A) message : sessionless (or_bad o message).
Proof. by destruct o. Qed.

(** The programs of the domains are composed of nothing else. *)
Ltac sessionless_step :=
  lazymatch goal with
  | |- forall _, _ => intros ?
  | |- sessionless (Done _) => exact I
  | |- sessionless (Fail _) => exact I
  | |- sessionless (Ask _ _) => split; [exact I |]
  | |- sessionless (ask _) => apply sessionless_ask
  | |- sessionless (send _ _ _ _ _) => apply sessionless_ask
  | |- sessionless (returns _) => apply sessionless_returns
  | |- sessionless (or_bad _ _) => apply sessionless_or_bad
  | |- sessionless (attempt _) => apply sessionless_attempt
  | |- sessionless (over _ _) => apply sessionless_over
  | |- sessionless (_ ≫= _) => apply sessionless_bind
  | |- sessionless (match ?x with _ => _ end) => destruct x
  | |- sessionless (let '(_, _) := ?x in _) => destruct x
  | |- sessionless (?f _ _ _ _ _ _ _) => unfold f; cbv zeta
  | |- sessionless (?f _ _ _ _ _ _) => unfold f; cbv zeta
  | |- sessionless (?f _ _ _ _ _) => unfold f; cbv zeta
  | |- sessionless (?f _ _ _ _) => unfold f; cbv zeta
  | |- sessionless (?f _ _ _) => unfold f; cbv zeta
  | |- sessionless (?f _ _) => unfold f; cbv zeta
  | |- sessionless (?f _) => unfold f; cbv zeta
  | |- sessionless ?f => unfold f; cbv zeta
  end.
Ltac sessionless_steps := repeat first [assumption | sessionless_step].

Lemma listed_sessionless path items : sessionless (listed_workspaces path items).
Proof.
  induction items as [| item items IH]; [exact I |]. cbn [listed_workspaces]. sessionless_steps.
Qed.

Lemma perform_sessionless {R} token (op : ClientOp R) : sessionless (perform token op).
Proof.
  destruct op; cbn [perform]; unfold keep, find, read, submit, run_workspaces; cbv zeta;
    repeat first [apply listed_sessionless | sessionless_step].
Qed.

Section Lowering.
Variables (netloc_ok : list ascii -> bool) (write_ustar : list (string * Node) -> option bytes).
Variables (identifier : string -> string) (settings : Settings).
Abbreviation lower := (lower netloc_ok write_ustar identifier settings).
Abbreviation lower_query := (lower_query netloc_ok write_ustar identifier settings).

(** Without a session, a program only comes to one of its outcomes. *)
Lemma exec_attempt {Q : Type -> Type} Env {A B} (p : prog Q A) (k : Exn + A -> prog Q B) d o d' :
  sessionless p -> Exec Env (attempt p ≫= k) d o d' -> exists r, Exec Env (k r) d o d'.
Proof.
  induction p as [a | e | C m k' IH | R q k' IH]; cbn;
    [intros _ ?; by eexists | intros _ ?; by eexists | by intros [[] _] |].
  intros [_ Hk] (r & Hr). exact (IH r (Hk r) Hr).
Qed.

Lemma exec_outcome {A R B} Env (p : prog Wire A) (f : Exn + A -> gmap string string * (Exn + R))
    (k : gmap string string * (Exn + R) -> prog Wire B) d o d' :
  sessionless p -> Exec Env ((r ← attempt p; Done (f r)) ≫= k) d o d' ->
  exists t r, Exec Env (k (t, r)) d o d'.
Proof.
  intros Hp (o1 & d1 & H1 & H2)%exec_bind. apply exec_attempt in H1 as (r & -> & H1); [| done].
  exists (f r).1, (f r).2. rewrite <- surjective_pairing. by eapply exec_env.
Qed.

Lemma exec_query {R A} Env t (q : Query R) (k : gmap string string * (Exn + R) -> prog Wire A) d o d' :
  Exec Env (lower_query t q ≫= k) d o d' -> exists t' r, Exec Env (k (t', r)) d o d'.
Proof.
  destruct q; cbn [Lowering.lower_query]; unfold coder_call, local, plain; apply exec_outcome;
    apply sessionless_over; try apply perform_sessionless.
  all: sessionless_steps.
Qed.

Lemma lower_exec {A} Env t (p : worker A) d o d' :
  Exec Env (lower t p) d o d' -> Exec Env p d o d'.
Proof.
  revert t d. induction p as [a | e | B m k IH | R q k IH]; cbn [Lowering.lower Exec]; intros t d.
  - done.
  - done.
  - intros (d1 & H1 & H2). exists d1. split; [done |]. by eapply IH.
  - intros (t' & r & H)%exec_query. exists r. by eapply IH.
Qed.


Lemma fails_answers {Q : Type -> Type} (Ans Ans' : forall R, Q R -> Exn + R -> Prop) E {A} (p : prog Q A) :
  (forall R q r, Ans' R q r -> Ans R q r) -> fails Ans E p -> fails Ans' E p.
Proof. intros H. induction p as [a | e | B m k IH | R q k IH]; cbn; auto. Qed.

(** The contract covers what the handlers rely on. *)
Lemma promised_documented R (q : Query R) r : promised netloc_ok R q r -> documented R q r.
Proof.
  destruct q, r as [e | a]; cbn; try done.
  - by intros [].
  - by intros [].
  - by intros [].
  - intros H. specialize (H e eq_refl). by destruct e.
  - intros H. by apply (H e).
Qed.

(** Every handler answers every refusal, also on the wire. *)
Lemma routes_answer_on_wire `{AESGCM} base_domain admins A (p : worker (Reply A)) t :
  Config.from_settings settings = inr base_domain ->
  parse_default_admins (default_admins settings) = inr admins ->
  Route settings A p -> fails (wire_answers netloc_ok) refusal (lower t p).
Proof.
  intros Hb Ha Hp. apply lower_fails. eapply fails_answers; [apply promised_documented |].
  by eapply routes_refuse.
Qed.
End Lowering.


