(* ===== verification/Lifecycle.v ===== *)
(** * Lifecycle: when the lifecycle requests of an instance are accepted
    (repositories/instances.py) *)
From S2P Require Import Prelude Text Models Store Registry Crypto Execution Ownership Claims.
From S2P Require Import Jobs Databases Utilization Instances Concrete.
From Stdlib Require Import Ascii String.
Open Scope string_scope.

(** ** Staging commits *)
Lemma references_grow {R T} (col : R -> option uuid) (target : gmap uuid T) j x m :
  References col target m -> References col (<[j := x]> target) m.
Proof.
  intros Hm k r Hr. specialize (Hm k r Hr). cbn in *. destruct (col r) as [t|]; [| done].
  rewrite lookup_insert. by case_decide.
Qed.

Lemma references_repoint {R T} (col : R -> option uuid) (target : gmap uuid T) f i m :
  References col target m -> (forall r t, col (f r) = Some t -> is_Some (target !! t)) ->
  References col target (alter f i m).
Proof.
  intros Hm Hf k r. rewrite lookup_alter. destruct (decide (i = k)) as [<- |]; [| by apply Hm].
  destruct (m !! i) as [r0|] eqn:E; [| done]. intros [= <-]. cbn. destruct (col (f r0)) eqn:Ec; [| done].
  by eapply Hf.
Qed.

Lemma checked_insert {R} (check : R -> bool) i r (m : gmap uuid R) :
  Checked check m -> check r = true -> Checked check (<[i := r]> m).
Proof. intros Hm Hr. by apply map_Forall_insert_2. Qed.

Lemma integrity_staged now job_id i action name task step d :
  Integrity d -> not_blank name = true -> not_blank task = true -> not_blank step = true ->
  not_blank action = true -> Integrity (staged now job_id i action name task step d).
Proof.
  intros Hd Hn Ht Hs Ha. unfold staged. integrity_parts Hd.
  unfold Integrity, RowsChecked, KeysUnique, ReferencesHold.
  split_and!; cbn -[alter insert];
    repeat first [ assumption | apply references_target | apply kubernetes_target
                 | apply unique_alter; [| done] | apply references_grow; assumption ].
  - apply checked_insert; [done |]. unfold job_checks; cbn. by rewrite Hn, Ht, Hs.
  - apply checked_alter; [assumption |]. intros r Hr.
    match goal with Hc : Checked instance_checks _ |- _ => specialize (Hc i r Hr); cbn in Hc end.
    unfold instance_checks in *; cbn. bool_hyps. rewrite Ha. cbn. apply andb_true_iff. split; [done |].
    by rewrite bool_decide_eq_true.
  - apply references_repoint; [by apply references_grow |]. cbn. intros _ t [= <-].
    rewrite lookup_insert_eq. by eexists.
Qed.

(** ** Idle instances *)
Definition Idle (d : Store) (i : uuid) (r : CoderInstance) : Prop :=
  (inst_status r = SUCCESS \/ inst_status r = ERROR /\ inst_action r <> "creating") /\
  inst_action r <> "deleting" /\
  forall k a t, assignments d !! k = Some a -> asg_instance_id a = i ->
    templates d !! asg_template_id a = Some t -> asg_status a = SUCCESS /\ tpl_sync_status t = SUCCESS.

Lemma retryable_not_success s : retryable s = true <-> s <> SUCCESS.
Proof. unfold retryable. rewrite member_true. destruct s; set_solver. Qed.

Lemma no_active_assignment d i :
  _has_active_template_assignment d i = false <->
  forall k a t, assignments d !! k = Some a -> asg_instance_id a = i ->
    templates d !! asg_template_id a = Some t -> asg_status a = SUCCESS /\ tpl_sync_status t = SUCCESS.
Proof.
  unfold _has_active_template_assignment. rewrite exists_where_false. split.
  - intros H k a t Ha Hi Ht. specialize (H k a Ha). rewrite bool_decide_eq_true_2, Ht in H by done.
    cbn in H. apply orb_false_iff in H as [H1 H2].
    split; apply dec_stable; rewrite <- retryable_not_success; congruence.
  - intros H k a Ha. destruct (asg_instance_id a == i) eqn:E; [| done]. bool_hyps. cbn.
    destruct (templates d !! asg_template_id a) as [t|] eqn:Et; [| done].
    destruct (H k a t Ha E Et) as [-> ->]. done.
Qed.

Lemma idle_spec d i r : instance_is_busy d i r = false <-> Idle d i r.
Proof.
  unfold instance_is_busy, _creation_is_incomplete, Idle. rewrite !orb_false_iff, no_active_assignment.
  rewrite andb_false_iff, negb_false_iff, member_false, !bool_decide_eq_false, bool_decide_eq_true.
  split.
  - intros [[[H1 H2] H3] H4]. split_and!; [| done | done].
    destruct (inst_status r); [set_solver | set_solver | by left | right].
    split; [done |]. by destruct H1.
  - intros [H1 [H2 H3]]. split_and!; [| done | | done].
    + destruct H1 as [-> | [_ ?]]; auto.
    + destruct H1 as [-> | [-> _]]; set_solver.
Qed.

(** ** Acceptance *)
Lemma stage_instance_job_ok now job_id i action name task step d :
  jobs d !! job_id = None ->
  stage_instance_job now job_id i action name task step d
  = inr (tt, staged now job_id i action name task step d).
Proof.
  intros Hj. unfold stage_instance_job, add_job_execution, set_instance, gets, modify, require, mbind,
    action_bind. cbn. rewrite Hj. cbn. unfold staged; cbn. by rewrite alter_alter.
Qed.

Definition staged_row (job_id : uuid) (action step : string) (r : CoderInstance) : CoderInstance :=
  r <| inst_action := action |> <| inst_status := PENDING |> <| inst_job_id := Some job_id |>
    <| inst_step := Some step |>.

Lemma staged_instance now job_id i action name task step d r :
  instances d !! i = Some r ->
  instances (staged now job_id i action name task step d) !! i = Some (staged_row job_id action step r).
Proof. intros Hi. cbn -[alter lookup]. by rewrite lookup_alter_eq, Hi. Qed.

(** Assigning to the status of some members. *)
Lemma integrity_member_status p s d :
  Integrity d -> Integrity (d <| members := update_where p (fun m => m <| mem_status := s |>) (members d) |>).
Proof.
  intros Hd. integrity_parts Hd. unfold Integrity, RowsChecked, KeysUnique, ReferencesHold.
  set (f := fun m : Member => m <| mem_status := s |>).
  assert (Hl : forall k r', update_where p f (members d) !! k = Some r' -> exists r,
            members d !! k = Some r /\ member_checks r' = member_checks r /\
            mem_instance_id r' = mem_instance_id r /\ mem_username r' = mem_username r).
  { intros k r'. rewrite lookup_update_where. destruct (members d !! k) as [r|]; [| done].
    cbn. intros [= <-]. exists r. by destruct (p k r). }
  split_and!; cbn -[update_where]; try assumption.
  - intros k r' Hk. destruct (Hl k r' Hk) as (r & Hr & -> & _).
    match goal with Hc : Checked member_checks _ |- _ => exact (Hc k r Hr) end.
  - match goal with Hu : Unique (fun r => Some (mem_instance_id r, mem_username r)) _ |- _ =>
      intros k r Hk k' r' Hk' He Hn; destruct (Hl k r Hk) as (r0 & Hr0 & _ & E1 & E2),
        (Hl k' r' Hk') as (r1 & Hr1 & _ & E3 & E4);
      apply (unique_lookup _ _ k k' r0 r1 Hu Hr0 Hr1); cbn in *; congruence end.
  - intros k r' Hk. destruct (Hl k r' Hk) as (r & Hr & _ & E & _). cbn. rewrite E.
    match goal with Hc : References (fun r => Some (mem_instance_id r)) _ _ |- _ => exact (Hc k r Hr) end.
  - match goal with Hc : References (fun r => Some (ws_member_id r)) _ _ |- _ =>
      intros k w Hk; specialize (Hc k w Hk); cbn in * end.
    rewrite lookup_update_where. by apply fmap_is_Some.
Qed.

Definition retried_members (i : uuid) (d : Store) : Store :=
  d <| members := update_where (fun _ m => (mem_instance_id m == i) && (mem_status m == ERROR))
                    (fun m => m <| mem_status := PENDING |>) (members d) |>.

Lemma power_action_decides now job_id i action name task step d r :
  Sound d -> jobs d !! job_id = None -> instances d !! i = Some r ->
  not_blank name = true -> not_blank task = true -> not_blank step = true -> not_blank action = true ->
  _request_power_action now job_id i action name task step d
  = if instance_is_busy d i r then inl InstanceActionConflictError
    else inr (staged_row job_id action step r, staged now job_id i action name task step d).
Proof.
  intros Hd Hj Hi Hn Ht Hs Ha.
  unfold _request_power_action, stored_instance, gets, found, require, mbind, action_bind.
  rewrite Hi. destruct (instance_is_busy d i r); [done |]. cbn [negb].
  rewrite stage_instance_job_ok by done.
  rewrite commit_success by (apply integrity_staged; [apply Hd | done..]).
  by rewrite (staged_instance _ _ _ _ _ _ _ _ r).
Qed.

Lemma request_sync_decides now job_id i d r :
  Sound d -> jobs d !! job_id = None -> instances d !! i = Some r ->
  instance_request_sync now job_id i d
  = if instance_is_busy d i r then inl InstanceActionConflictError
    else inr (staged_row job_id "updating" INSTANCE_UPDATE_STEP_01 r,
              staged now job_id i "updating" "instance.update" INSTANCE_UPDATE_STEP_01_TASK
                INSTANCE_UPDATE_STEP_01 (retried_members i d)).
Proof.
  intros Hd Hj Hi.
  unfold instance_request_sync, stored_instance, gets, found, require, modify, mbind, action_bind.
  rewrite Hi. destruct (instance_is_busy d i r); [done |]. cbn [negb].
  fold (retried_members i d). rewrite stage_instance_job_ok by done.
  rewrite commit_success by (apply integrity_staged; [apply integrity_member_status, Hd | done..]).
  by rewrite (staged_instance _ _ _ _ _ _ _ _ r).
Qed.

(** C36: a synchronization, a start or a stop of an instance is accepted exactly when the instance
    is idle: its last action ended (and was not a creation that failed), it is not being deleted,
    and no template work is under way on it. An accepted request stages the first step of its
    workflow under a new pending job, a synchronization retries the members in error besides, and
    nothing else changes; any other request is refused as a conflict and changes nothing. *)
Theorem requests_accepted_when_idle now job_id i d r :
  Sound d -> jobs d !! job_id = None -> instances d !! i = Some r ->
  (Idle d i r ->
     instance_request_start now job_id i d
     = inr (staged_row job_id "starting" INSTANCE_START_STEP_01 r,
            staged now job_id i "starting" "instance.start" INSTANCE_START_STEP_01_TASK
              INSTANCE_START_STEP_01 d) /\
     instance_request_stop now job_id i d
     = inr (staged_row job_id "stopping" INSTANCE_STOP_STEP_01 r,
            staged now job_id i "stopping" "instance.stop" INSTANCE_STOP_STEP_01_TASK
              INSTANCE_STOP_STEP_01 d) /\
     instance_request_sync now job_id i d
     = inr (staged_row job_id "updating" INSTANCE_UPDATE_STEP_01 r,
            staged now job_id i "updating" "instance.update" INSTANCE_UPDATE_STEP_01_TASK
              INSTANCE_UPDATE_STEP_01 (retried_members i d))) /\
  (~ Idle d i r ->
     instance_request_start now job_id i d = inl InstanceActionConflictError /\
     instance_request_stop now job_id i d = inl InstanceActionConflictError /\
     instance_request_sync now job_id i d = inl InstanceActionConflictError).
Proof.
  intros Hd Hj Hi. rewrite <- idle_spec. unfold instance_request_start, instance_request_stop.
  rewrite !(power_action_decides now job_id i _ _ _ _ d r), (request_sync_decides now job_id i d r)
    by done.
  destruct (instance_is_busy d i r); split; intros Hidle.
  - discriminate Hidle.
  - split_and!; reflexivity.
  - split_and!; reflexivity.
  - destruct (Hidle eq_refl).
Qed.

Lemma requests_accepted_when_idle_witness :
  exists r, instances ready_store !! 10%N = Some r /\
    instance_request_stop 50 60 10 ready_store
    = inr (staged_row 60 "stopping" INSTANCE_STOP_STEP_01 r,
           staged 50 60 10 "stopping" "instance.stop" INSTANCE_STOP_STEP_01_TASK
             INSTANCE_STOP_STEP_01 ready_store).
Proof.
  destruct (instances ready_store !! 10%N) as [r|] eqn:E; [| vm_compute in E; discriminate E].
  exists r. split; [reflexivity |].
  assert (Hj : jobs ready_store !! 60%N = None) by (vm_compute; reflexivity).
  assert (Hidle : Idle ready_store 10 r).
  { apply idle_spec. vm_compute in E. injection E as <-. vm_compute. reflexivity. }
  exact (proj1 (proj2 (proj1 (requests_accepted_when_idle 50 60 10 ready_store r sound_ready Hj E) Hidle))).
Defined.

(** ** Deletion *)
Definition Deletable (d : Store) (i : uuid) (r : CoderInstance) : Prop :=
  _has_active_template_assignment d i = false /\
  (inst_status r = SUCCESS /\ inst_action r ∈ ["creating"; "updating"; "starting"; "stopping"] \/
   inst_status r = ERROR /\ inst_action r = "creating").

Definition deletable (d : Store) (i : uuid) (r : CoderInstance) : bool :=
  negb (_has_active_template_assignment d i) &&
  (member (inst_action r) ["creating"; "updating"; "starting"; "stopping"] && (inst_status r == SUCCESS)
   || (inst_action r == "creating") && (inst_status r == ERROR)).

Lemma deletable_spec d i r : deletable d i r = true <-> Deletable d i r.
Proof.
  unfold deletable, Deletable.
  rewrite andb_true_iff, orb_true_iff, !andb_true_iff, negb_true_iff, member_true, !bool_decide_eq_true.
  tauto.
Qed.

(** Deletion skips the remote workspaces of an instance whose creation failed early. *)
Definition skips_workspaces (r : CoderInstance) : bool :=
  (inst_status r == ERROR) && is_none (inst_password_enc r).

Lemma request_deletion_decides now job_id i d r :
  Sound d -> jobs d !! job_id = None -> instances d !! i = Some r ->
  instance_request_deletion now job_id i d
  = if deletable d i r then
      let task := if skips_workspaces r then INSTANCE_DELETE_STEP_02_TASK
                  else INSTANCE_DELETE_STEP_01_TASK in
      let step := if skips_workspaces r then INSTANCE_DELETE_STEP_02 else INSTANCE_DELETE_STEP_01 in
      inr (staged_row job_id "deleting" step r,
           staged now job_id i "deleting" "instance.delete" task step d)
    else inl InstanceActionConflictError.
Proof.
  intros Hd Hj Hi.
  unfold instance_request_deletion, stored_instance, gets, found, require, mbind, action_bind.
  rewrite Hi. unfold deletable. destruct (_has_active_template_assignment d i); [done |]. cbn [negb andb].
  cbv zeta. destruct (_ || _) eqn:E; [| done].
  assert (Hskip : (inst_action r == "creating") && (inst_status r == ERROR) && is_none (inst_password_enc r)
                  = skips_workspaces r).
  { unfold skips_workspaces. destruct (inst_status r == ERROR) eqn:Es; [| by rewrite andb_false_r].
    bool_hyps. rewrite Es in E. destruct (inst_action r == "creating"); [done |].
    exfalso. destruct E as [E | E]; [by apply andb_true_iff in E as [_ E] | done]. }
  rewrite Hskip, stage_instance_job_ok by done.
  rewrite commit_success by (apply integrity_staged; [apply Hd | done | | | done];
    by destruct (skips_workspaces r)).
  by rewrite (staged_instance _ _ _ _ _ _ _ _ r).
Qed.

(** C37: an instance may be deleted exactly when no template work is under way on it and either
    its last action, other than a deletion, succeeded or its creation failed. The deletion begins
    with the remote workspaces; it begins with the Argo CD application instead exactly when the
    creation failed before the administrator had a password, as Coder has no workspaces then. *)
Theorem deletion_accepted_when_settled now job_id i d r :
  Sound d -> jobs d !! job_id = None -> instances d !! i = Some r ->
  (Deletable d i r ->
     let task := if skips_workspaces r then INSTANCE_DELETE_STEP_02_TASK
                 else INSTANCE_DELETE_STEP_01_TASK in
     let step := if skips_workspaces r then INSTANCE_DELETE_STEP_02 else INSTANCE_DELETE_STEP_01 in
     instance_request_deletion now job_id i d
     = inr (staged_row job_id "deleting" step r,
            staged now job_id i "deleting" "instance.delete" task step d)) /\
  (~ Deletable d i r ->
     instance_request_deletion now job_id i d = inl InstanceActionConflictError).
Proof.
  intros Hd Hj Hi. rewrite <- deletable_spec, (request_deletion_decides now job_id i d r) by done.
  destruct (deletable d i r); split; intros Hdel; [reflexivity | by destruct Hdel | discriminate Hdel |
    reflexivity].
Qed.

Lemma deletion_accepted_when_settled_witness :
  exists r, instances ready_store !! 10%N = Some r /\ skips_workspaces r = false /\
    instance_request_deletion 50 60 10 ready_store
    = inr (staged_row 60 "deleting" INSTANCE_DELETE_STEP_01 r,
           staged 50 60 10 "deleting" "instance.delete" INSTANCE_DELETE_STEP_01_TASK
             INSTANCE_DELETE_STEP_01 ready_store).
Proof.
  destruct (instances ready_store !! 10%N) as [r|] eqn:E; [| vm_compute in E; discriminate E].
  assert (Hs : skips_workspaces r = false)
    by (vm_compute in E; injection E as <-; vm_compute; reflexivity).
  exists r. split; [reflexivity |]. split; [exact Hs |].
  assert (Hj : jobs ready_store !! 60%N = None) by (vm_compute; reflexivity).
  assert (Hdel : Deletable ready_store 10 r).
  { apply deletable_spec. vm_compute in E. injection E as <-. vm_compute. reflexivity. }
  pose proof (proj1 (deletion_accepted_when_settled 50 60 10 ready_store r sound_ready Hj E) Hdel) as Ha.
  cbv zeta in Ha. rewrite Hs in Ha. exact Ha.
Defined.
